(* ===== verification/_CoqProject ===== *)
-Q . S2P
Prelude.v
RustStr.v
Utf8.v
RustHash.v
Wire.v
Constants.v
Network.v
Serde.v
Scheduler.v
Runtime.v
ResourceVerifier.v
NonceStore.v
Libp2p.v
Concrete.v
FlatBuf.v
GeneratedRequests.v
GeneratedReplies.v
GeneratedManifest.v
Envelope.v
EnvelopeValidator.v
RecipientBlob.v
Keypairs.v
Provider.v
Announcements.v
Discovery.v
MockEngine.v
WorkloadManager.v
WorkloadIntegration.v
EngineHost.v
Podman.v
Docker.v
EngineNode.v
DeleteMessage.v
Protocol.v
TableBuilders.v
DhtManager.v
RestEnvelope.v
CapacityMessages.v
Handshake.v
Control.v
RestApi.v
Node.v
System.v
Startup.v
Cli.v
Mesh.v
Candidates.v
Server.v
