(* ===== verification/Prelude.v ===== *)
(** * Beemesh machine plane: a verification development

    Beemesh's machine plane ([src/machineplane/]) is a peer-to-peer scheduler
    for container workloads. A client asks a node for capacity; the nodes that
    have it reserve it for three seconds and bid; the client picks bidders and
    sends them, through the first node, a signed and encrypted manifest; a node
    deploys it on a container engine and announces itself in the DHT as a
    provider of the manifest; the owner of a manifest can have it deleted.
    This library models that path from the client's command line to the
    commands a node gives its container engine, and proves what each part
    promises to the next.

    ** Files

    Shared library:
    - [Prelude]: [result] and [let?], machine integers (a [w]-bit unsigned
      integer is a [Z]; wrapping and saturating operators are written out),
      Rust's stable sort, sums over maps, tactics and the hint base [rust].
    - [RustStr], [Utf8], [RustHash], [Wire]: [str] methods on bytes, UTF-8,
      the default hasher (SipHash-1-3) with hexadecimal text and string slices,
      big-endian integers, length-prefixed formats and their readers.
    - [Serde], [Libp2p]: third-party crates as classes of operations, with
      their documented behaviour in separate classes of laws: serde values,
      peer identifiers, Kademlia, FlatBuffers tables, signatures, KEM, AEAD.
    - [Concrete]: computable instances that satisfy those laws, used by the
      concrete runs, so every law class is inhabited.
    - [Constants]: [protocol/src/libp2p_constants.rs].
    - [Network]: IP addresses as the standard library parses and prints them,
      multiaddresses, and the network settings of [libp2p_beemesh/mod.rs].

    Decisions, keys and messages (paths under [src/machineplane/]):
    - [Scheduler]: [scheduler/src/lib.rs]. [Scheduler] is the configuration and
      the round-robin counter; [schedule_workload] calls one function per
      strategy. Loads are IEEE doubles ([spec_float]).
    - [ResourceVerifier]: [machine/src/resource_verifier.rs]. The cached
      resources and the reservations; [reserve_capacity] as a whole and, as
      [reserve_step], critical section by critical section.
    - [NonceStore]: [crypto/src/flatbuffer_envelope.rs].
    - [Envelope]: [machine/src/libp2p_beemesh/envelope.rs], [security.rs],
      [behaviour/message_verifier.rs], with the envelope builders of
      [protocol/src/lib.rs] and the signatures of [crypto/src/lib.rs].
    - [EnvelopeValidator]: [crypto/src/envelope_validator.rs].
    - [RecipientBlob], [Keypairs]: [crypto/src/lib.rs] and
      [crypto/src/keypair_manager.rs].
    - [Protocol]: the message builders, encrypted envelopes and manifest
      identifiers of [protocol/src/lib.rs]; the tables of
      [protocol/schema/machine/].
    - [FlatBuf]: the [flatbuffers] crate as the generated code uses it, a
      builder and verifying readers, with its documented behaviour as the laws
      of [FlatBufferLaws], the rules derived from them (hint base [flatbuf])
      and a computable crate that satisfies them.
    - [GeneratedRequests], [GeneratedReplies], [GeneratedManifest]: the code of
      [protocol/src/generated/], table by table (slots, arguments, [create],
      verifier, accessors, readers).
    - [TableBuilders]: each table written by [protocol/src/lib.rs] over the
      generated code and read back through it. The other files use the tables
      through the interfaces [FlatBuffers], [Messages] and [Tables].

    Container engines:
    - [Runtime], [MockEngine]: [machine/src/runtime/mod.rs] and [mock.rs]. The
      trait is the record [RuntimeEngine], with [EngineLaws] as what clients
      rely on; the mock engine is proved to satisfy them.
    - [EngineHost], [Podman], [Docker]: [runtime/engines/podman.rs] and
      [docker.rs]. What the engines ask of the machine is the class [Host]: a
      command line is run on a state of containers and answers with its output.
      Every operation of both engines is a definition over it. What podman
      documents of its own commands are the classes [PodmanPods] and
      [PodmanListing], which the module [ToyPodman] satisfies.
    - [EngineNode]: the delete handler of a node on the registry a release
      build has, podman and docker.

    A node:
    - [Provider], [Announcements], [Discovery]: [machine/src/provider/]. The
      provider manager runs as a step relation over tasks and channels
      ([Provider.step]), the discovery manager likewise ([Discovery.dreach]).
    - [DhtManager]: [libp2p_beemesh/dht_manager.rs].
    - [WorkloadManager]: [machine/src/workload_manager.rs], on any registry of
      engines.
    - [WorkloadIntegration]: [machine/src/workload_integration.rs]. [NodeState]
      is the global state of a node (registry, provider manager, verifier,
      owners, nonces); [handle_apply_request] is the apply handler.
    - [DeleteMessage]: [behaviour/delete_message.rs], on [NodeState]. The task
      that removes is both a function and a sequence of stages, one per wait.
    - [CapacityMessages]: the bids, [behaviour/scheduler_message.rs],
      [behaviour/gossipsub_message.rs], [control/query_capacity.rs],
      [reply.rs], [capacity.rs], [utils.rs], on [NodeState].
    - [Handshake]: [behaviour/handshake_message.rs] and the frames of
      [request_response_codec.rs].
    - [Control]: the messages the REST handlers send to the libp2p task,
      [control/mod.rs], [control/send_*.rs], and the provider lookups that
      [behaviour/kademlia_event.rs] answers.
    - [Node]: the event loop [start_libp2p_node] of [libp2p_beemesh/mod.rs].
      [Node] puts the states together; [handle_event] is one iteration;
      [node_reach] are the runs, in which events and the stages of the delete
      tasks they spawn follow one another in any order.
    - [RestEnvelope]: [restapi/envelope_handler.rs], the middleware that opens
      requests and the envelopes of the responses.
    - [RestApi]: [restapi/mod.rs], the routes and every handler. A handler that
      waits for the libp2p task takes the answers as arguments and returns the
      messages it sent.
    - [System]: the event loop and the REST server of a node as one transition
      system on the state they share ([sys_step], [sys_reach]).
    - [Startup]: [machine/src/lib.rs] and [setup_libp2p_node]. [start_machine]
      takes the command line and the answers of the operating system to the
      node as its libp2p task is spawned and the writes that initialise it, or to
      the error that ends the start. The event loop runs while these writes are
      made ([starting]); afterwards the node runs as a [System].
    - [Mesh]: any number of nodes ([System]), the control channel from the REST
      handlers of each to its libp2p task, and the frames of the
      request-response protocols on their way between them. [mesh_step] is a
      step of one member, a frame of a peer outside, or the loss of a frame.
    - [Candidates]: the candidates of [get_candidates], followed back through
      the mesh to the events that put them on the channel of the handler.

    The client:
    - [Cli]: [cli/src/lib.rs], [flatbuffers.rs], [flatbuffer_envelope.rs] and
      [main.rs]. The server is a function from requests to responses over a
      state of its own, and the client runs in the state-and-error monad [M],
      so the requests a run makes, and their order, are part of its result.
    - [Server]: a node as such a server. [http_serve] takes a request through
      the middleware, the router and its handler ([dispatch]); what is used of
      the HTTP library is the class [HttpLibrary]. A server is a member of a
      mesh ([runs_as]), and the client is run against it.

    ** What the theorems show

    - Scheduling: with enough candidates every strategy returns a valid plan,
      if its preconditions hold: loads that are numbers for the load-based
      strategy (the sort may panic on others), a counter or seed that does not
      overflow within the call, and at most a thousand nodes for the random
      one, which gives up beyond that. The refusals are exact; round robin is fair; the
      load-based strategy picks the least loaded nodes.
    - Capacity: sequential reservations never overcommit the node, for the
      saturating arithmetic of the code; the check and the reservation agree;
      a reservation lives exactly its three seconds; a node bids exactly when it
      has room for the amounts asked, and reserves them. The interleaved version
      of [reserve_capacity] does overcommit.
    - Trust: the signature of an accepted envelope verifies under the key it
      carries, on bytes that determine its content; a replay by the same peer
      within the window is refused (the store refines an unbounded history of
      nonces) unless the nonce is empty; a replay by another peer is not. Apply
      needs a signature and a reservation, and reports success only when an
      engine did; a delete request is acknowledged at once, and removes only for
      the owner's key or by [force], and with a recorded owner; an apply by
      another signer takes the ownership over. The REST middleware forwards the
      key of an envelope only when its signature holds, and refuses a replay.
      What makes signatures hard to forge is not modelled.
    - The whole node: over every run of the event loop together with the REST
      server, containers and owners change only by authorised messages, tasks
      and requests, the node never overcommits and never records an empty
      owner; no run of the event loop ever starts a handshake.
    - The mesh: a member changes its containers on an
      event only to carry out an apply that a client asked of it or of another
      member, or that a peer outside signed; every candidate a client is offered
      is the node it asked, a peer outside, or a member that has reserved
      capacity for the client's task; a manifest encrypted by the client
      and posted to one node can reach another that holds a reservation for it;
      that node hands exactly this text to its engines, reports success exactly
      when one of them deployed it, and records the forwarding node as its
      owner.
    - Start-up: a started node is sound whatever the machine reports and
      whatever arrives before it is initialised; with keys
      on disk it has one signing identity; with scheduling disabled it never
      runs a container; an unusable key directory or a host that is not an IP
      address makes the start fail.
    - The REST API: the candidates returned are exactly the distinct pairs of a
      peer and a key received in time, at most five; the collection ends; a task that was
      created can be queried under the identifier returned, and every stored
      task answers; which requests make [create_task] panic; a delete on a
      remote provider has no effect there.
    - The engines: podman deploys the pods of the manifest under its
      identifier, with the flags its configuration asks for, lists exactly the pods of the mesh, removes exactly the pods
      of a workload, and never leaves the socket when it is forced to be
      remote; a delete message removes exactly the pods of its manifest, while
      for docker it removes nothing.
    - The client: what it sends is what the middleware opens; the manifest it
      encrypts is the one the node decrypts; an apply asks the first of
      the candidates the machine offered, in order, with the requests it should,
      up to the first refusal. Against a node,
      whatever a command does leaves the node in a state the mesh can reach, so
      its invariants hold; and an apply to a node that answers and has
      collected enough candidates succeeds, with one request per replica
      queued for the first candidates, each of which that candidate's key opens
      to the client's text.
    - Tables: for all fourteen tables the node and the client exchange, what
      the generated code writes is verified and read back field by field, with
      the defaults of the schema for absent scalars, within the limits of the
      verifier. A table that is read and written again is read as the same.
    - Formats: announcements, recipient blobs, frames, envelopes and DHT
      records round trip; truncated announcements are refused; which blobs
      panic; which manifests share an identifier.
    - State: invariants of the provider, discovery and DHT managers over all
      interleavings, eviction of the least recently seen provider, delivery to
      every waiting query; deployments of the workload manager can be queried
      and removed, on any engines that satisfy [EngineLaws]; keys are stable.

    ** Conventions

    - Time is a number of nanoseconds (milliseconds where the code uses them),
      an argument of the operation; operations that read the clock more than
      once with an effect take each reading.
    - Randomness, key generation and the outcomes of I/O are arguments.
    - [option] around a result marks a Rust panic: [None].
    - A [HashMap] is a [gmap]; iteration follows [map_to_list], and no theorem
      depends on its order. A channel is a number, and what is sent on it is
      part of the result. [async] functions whose waiting lets others in are
      split at their [await] (reservations, discoveries, spawned delete tasks,
      the initialisation of a node), and a call that takes two locks one after
      the other at the second ([handle_provider_found]). The handlers of the
      event loop, which the loop runs to the end before it takes the next event,
      are one step, so that a stage of a delete task comes before or after a
      handler but not inside it; the removal of the local workloads by a DELETE
      over HTTP is one step too.
    - Arithmetic without a saturating method wraps, as in a release build.
    - Fuel: [Scheduler.random_loop] has the loop's own bound, [MAX_ATTEMPTS],
      and the theorem on schedules says what happens when it runs out; the scanners of [Utf8] and [RustStr] have the length of
      their input, which is enough because each step consumes a byte;
      [RestApi.collect_responders] takes turns until the time is up, and it is
      proved that one turn per nanosecond of the timeout is enough. All other
      recursion is structural.
    - Error messages are kept where a caller or a peer can see them; text that
      only reaches the log is left out.

    ** Not modelled

    Third-party crates (interfaces in [FlatBuf], [Libp2p], [Serde], [Network]
    and [Protocol]) and the build script that runs the FlatBuffers compiler;
    the [Debug] output of the generated tables; the parsing of the command line
    and of HTTP ([HttpLibrary] says how a URL is taken apart and which bodies
    are refused); logging and the failure handlers, which only log; timers that
    only call modelled operations or only log. The programs podman and docker
    are parameters ([Host]). Buffers beyond the limits of FlatBuffers make the
    crate panic; the laws of [FlatBuf] speak of the others ([fits]), while the
    round-trip laws of the interfaces [FlatBuffers] and [Tables] leave these
    limits out. In [Mesh]
    what arrives over GossipSub and Kademlia, and the answers a REST handler
    awaits from the libp2p task, are any events and any answers, and members are
    initialised, without a delete task under way, when a run begins; [Candidates]
    takes the answers of the candidate query to be those the node sent. In
    [Server] requests are served one after the other, each to its end. *)

From stdpp Require Export base gmap strings list sorting pretty.
From Stdlib Require Export ZArith Lia.
From Stdlib Require Export Strings.Byte.

Open Scope Z_scope.

(** ** Rust's [Result] *)

Inductive result (E T : Type) : Type :=
| Ok (t : T)
| Err (e : E).

Arguments Ok {_ _} _.
Arguments Err {_ _} _.

Definition is_ok {E T} (r : result E T) : bool :=
  match r with Ok _ => true | Err _ => false end.

Definition map_err {E F T} (f : E → F) (r : result E T) : result F T :=
  match r with Ok t => Ok t | Err e => Err (f e) end.

Definition ok_or {E T} (e : E) (o : option T) : result E T :=
  match o with Some t => Ok t | None => Err e end.

Definition result_bind {E A B} (f : A → result E B) (r : result E A) : result E B :=
  match r with Ok t => f t | Err e => Err e end.

Declare Scope rust_scope.
Delimit Scope rust_scope with rust.

(** The [?] operator of Rust, on pure computations. *)
Notation "'let?' x := r 'in' k" := (result_bind (λ x, k) r)
  (at level 10, x pattern, r at level 100, k at level 200) : rust_scope.

#[export] Instance result_eq_dec {E T} `{EqDecision E, EqDecision T} :
  EqDecision (result E T).
Proof. solve_decision. Defined.

(** ** Machine integers

    An unsigned integer of [w] bits is a [Z] between 0 and [2^w - 1]; each
    operator is written out with the behaviour of the source: wrapping (the
    operators of a release build), or saturating (the [saturating_] methods). *)

Definition umax (w : Z) : Z := 2 ^ w - 1.
Definition in_u (w n : Z) : Prop := 0 ≤ n ≤ umax w.
Definition wrap (w n : Z) : Z := n mod 2 ^ w.
Definition saturating_add (w a b : Z) : Z := Z.min (a + b) (umax w).
Definition saturating_sub (a b : Z) : Z := Z.max 0 (a - b).
Definition saturating_mul (w a b : Z) : Z := Z.min (a * b) (umax w).

#[export] Instance in_u_dec w n : Decision (in_u w n).
Proof. unfold in_u. apply _. Defined.

(** Signed integers of [w] bits. *)
Definition in_i (w n : Z) : Prop := - 2 ^ (w - 1) ≤ n < 2 ^ (w - 1).

#[export] Instance in_i_dec w n : Decision (in_i w n).
Proof. unfold in_i. apply _. Defined.

(** ** Sorting

    [slice::sort_by] is a stable sort: [sort_by cmp] keeps the relative order
    of elements that [cmp] calls equal. *)

Section sort_by.
Context {A : Type} (cmp : A → A → comparison).

Fixpoint sort_insert (x : A) (l : list A) : list A :=
  match l with
  | [] => [x]
  | y :: l' =>
      match cmp x y with
      | Gt => y :: sort_insert x l'
      | _ => x :: l
      end
  end.

Fixpoint sort_by (l : list A) : list A :=
  match l with
  | [] => []
  | x :: l' => sort_insert x (sort_by l')
  end.

(** [cmp a b] is not [Greater]. *)
Definition cmp_le (a b : A) : Prop := cmp a b ≠ Gt.

#[global] Instance cmp_le_dec a b : Decision (cmp_le a b).
Proof. unfold cmp_le. apply _. Defined.

(** The comparison is a total order (up to elements it calls equal) on [l]. *)
Definition total_on (l : list A) : Prop :=
  Forall (λ a, Forall (λ b, (cmp a b = Gt → cmp_le b a) ∧
    Forall (λ c, cmp_le a b → cmp_le b c → cmp_le a c) l) l) l.

#[global] Instance total_on_dec l : Decision (total_on l).
Proof. unfold total_on. apply _. Defined.

(** [slice::sort_by] on a comparison that need not be a total order: what it
    does then is not specified, and it may panic. The model panics ([None]). *)
Definition sort_by_checked (l : list A) : option (list A) :=
  if decide (total_on l) then Some (sort_by l) else None.

End sort_by.

(** ** Tactics *)

(** Splits on the scrutinee of the first [match]/[if] of the goal or of [H]. *)
Ltac case_match_in H :=
  match type of H with
  | context [match ?x with _ => _ end] =>
      let E := fresh "Heq" in destruct x eqn:E; simplify_eq/=
  end.

(** Case-splits everything a [result]-valued hypothesis branches on. *)
Ltac case_branches H := repeat (case_match_in H; try done).

Ltac u_lia := unfold saturating_add, saturating_sub, saturating_mul, in_u, umax in *; lia.

Create HintDb rust.

(** ** Lemmas on results *)

Lemma is_ok_iff {E T} (r : result E T) : is_ok r = true ↔ ∃ t, r = Ok t.
Proof. destruct r; simpl; naive_solver. Qed.

Lemma result_bind_ok {E A B} (f : A → result E B) (r : result E A) b :
  result_bind f r = Ok b ↔ ∃ a, r = Ok a ∧ f a = Ok b.
Proof. destruct r; simpl; naive_solver. Qed.

(** ** Lemmas on machine integers *)

Lemma umax_nonneg w : 0 ≤ w → 0 ≤ umax w.
Proof. unfold umax. intros. pose proof (Z.pow_pos_nonneg 2 w). lia. Qed.

Lemma wrap_in_u w n : 0 ≤ w → in_u w (wrap w n).
Proof.
  intros. unfold in_u, wrap, umax.
  pose proof (Z.mod_pos_bound n (2 ^ w)). pose proof (Z.pow_pos_nonneg 2 w). lia.
Qed.

Lemma wrap_small w n : in_u w n → wrap w n = n.
Proof. unfold in_u, wrap, umax. intros. apply Z.mod_small. lia. Qed.

Lemma saturating_add_in_u w a b :
  0 ≤ w → in_u w a → in_u w b → in_u w (saturating_add w a b).
Proof. intros ?%umax_nonneg ??. u_lia. Qed.

Lemma saturating_sub_in_u w a b : in_u w a → 0 ≤ b → in_u w (saturating_sub a b).
Proof. u_lia. Qed.

Lemma saturating_mul_in_u w a b :
  0 ≤ w → 0 ≤ a → 0 ≤ b → in_u w (saturating_mul w a b).
Proof. intros ?%umax_nonneg ??. unfold saturating_mul, in_u. nia. Qed.

#[export] Hint Resolve wrap_in_u saturating_add_in_u saturating_sub_in_u
  saturating_mul_in_u umax_nonneg : rust.

(** ** Lemmas on sorting *)

Section sort_by_lemmas.
Context {A : Type} (cmp : A → A → comparison).

Lemma sort_insert_perm x l : sort_insert cmp x l ≡ₚ x :: l.
Proof.
  induction l as [|y l IH]; simpl; [done|].
  destruct (cmp x y); try done. rewrite IH. apply Permutation_swap.
Qed.

Lemma sort_by_perm l : sort_by cmp l ≡ₚ l.
Proof. induction l as [|x l IH]; simpl; [done|]. by rewrite sort_insert_perm, IH. Qed.

Lemma sort_by_length l : length (sort_by cmp l) = length l.
Proof. apply Permutation_length, sort_by_perm. Qed.

(** What a comparator owes to [sort_by] for the result to be ordered: it is a
    total preorder on the elements that satisfy [P]. *)
Class PreorderOn (P : A → Prop) : Prop := {
  cmp_total : ∀ a b, P a → P b → cmp a b = Gt → cmp_le cmp b a;
  cmp_trans : ∀ a b c, P a → P b → P c → cmp_le cmp a b → cmp_le cmp b c → cmp_le cmp a c;
}.

Context (P : A → Prop) {HP : PreorderOn P}.

Lemma sort_insert_sorted x l :
  P x → Forall P l → StronglySorted (cmp_le cmp) l →
  StronglySorted (cmp_le cmp) (sort_insert cmp x l).
Proof.
  intros Hx Hl Hs. induction Hs as [|y l Hs IH Hy]; simpl; [by repeat constructor|].
  inversion Hl as [|?? Py Pl]; subst.
  destruct (cmp x y) eqn:E; cycle 2.
  { constructor; [by apply IH|].
    rewrite sort_insert_perm. constructor; [by eapply cmp_total|done]. }
  all: constructor; [by constructor|]; constructor; [by unfold cmp_le; rewrite E|].
  all: rewrite Forall_forall in Hy, Pl |- *; intros z Hz.
  all: eapply (cmp_trans x y z); eauto; unfold cmp_le; by rewrite E.
Qed.

Lemma sort_by_checked_total l : Forall P l → sort_by_checked cmp l = Some (sort_by cmp l).
Proof.
  intros Hl. unfold sort_by_checked. rewrite decide_True; [done|]. unfold total_on.
  rewrite Forall_forall in Hl |- *. intros a Ha. apply Forall_forall. intros b Hb. split; [by apply cmp_total; apply Hl|].
  apply Forall_forall. intros c Hc. apply cmp_trans; by apply Hl.
Qed.

Lemma sort_by_sorted l :
  Forall P l → StronglySorted (cmp_le cmp) (sort_by cmp l).
Proof.
  induction 1 as [|x l Hx Hl IH]; simpl; [constructor|].
  apply sort_insert_sorted; [done| |done]. by rewrite sort_by_perm.
Qed.

(** Stability: elements that [cmp] does not tell apart from [z] keep the
    order they had. *)
Lemma sort_insert_stable z x l :
  P z → P x → Forall P l → StronglySorted (cmp_le cmp) l →
  (∀ a b, P a → P b → cmp a b = Gt → cmp b a = Lt) →
  filter (λ a, cmp a z = Eq ∧ cmp z a = Eq) (sort_insert cmp x l) =
  filter (λ a, cmp a z = Eq ∧ cmp z a = Eq) (x :: l).
Proof.
  intros Pz Px Hl Hs Hanti. induction Hs as [|y l Hs IH Hy]; simpl; [done|].
  inversion Hl as [|?? Py Pl]; subst.
  destruct (cmp x y) eqn:E; [done|done|].
  rewrite filter_cons, IH by done. rewrite !filter_cons.
  destruct (decide (cmp x z = Eq ∧ cmp z x = Eq)) as [[Hx1 Hx2]|];
    destruct (decide (cmp y z = Eq ∧ cmp z y = Eq)) as [[Hy1 Hy2]|]; try done.
  exfalso. apply (cmp_trans x z y); unfold cmp_le; try done; congruence.
Qed.

Lemma sort_by_stable z l :
  P z → Forall P l → (∀ a b, P a → P b → cmp a b = Gt → cmp b a = Lt) →
  filter (λ a, cmp a z = Eq ∧ cmp z a = Eq) (sort_by cmp l) =
  filter (λ a, cmp a z = Eq ∧ cmp z a = Eq) l.
Proof.
  intros Pz Hl Hanti. induction Hl as [|x l Hx Hl IH]; simpl; [done|].
  rewrite sort_insert_stable; [|done|done| |by apply sort_by_sorted|done].
  - rewrite !filter_cons, IH. done.
  - by rewrite sort_by_perm.
Qed.

End sort_by_lemmas.

(** A step known by its verdict. *)
Lemma pair_snd {A B} (p : A * B) a : p.1 = a → p = (a, p.2).
Proof. intros <-. by destruct p. Qed.

(** ** Lemmas on lists *)

Lemma sublist_map {A B} (f : A → B) l k : l `sublist_of` k → f <$> l `sublist_of` f <$> k.
Proof. induction 1; csimpl; by constructor. Qed.

Lemma sublist_Forall {A} (P : A → Prop) l k : l `sublist_of` k → Forall P k → Forall P l.
Proof. rewrite !Forall_forall. intros Hs Hk x Hx. apply Hk. by eapply elem_of_sublist. Qed.

(** ** Sums over finite maps *)

Section map_sum.
Context {K : Type} `{Countable K} {V : Type} (f : V → Z).
Implicit Types m : gmap K V.

Definition map_sum m : Z := map_fold (λ _ v acc, f v + acc) 0 m.

Lemma map_sum_empty : map_sum ∅ = 0.
Proof. apply map_fold_empty. Qed.

Lemma map_sum_insert k v m : m !! k = None → map_sum (<[k := v]> m) = f v + map_sum m.
Proof. intros. unfold map_sum. rewrite map_fold_insert_L; [done| |done]. intros; lia. Qed.

Lemma map_sum_delete k v m : m !! k = Some v → map_sum m = f v + map_sum (delete k m).
Proof.
  intros Hk. rewrite <- map_sum_insert with (k := k); [|by simplify_map_eq].
  by rewrite insert_delete_id.
Qed.

Lemma map_sum_update k v v' m :
  m !! k = Some v → map_sum (<[k := v']> m) = map_sum m - f v + f v'.
Proof.
  intros Hk. rewrite (map_sum_delete k v m Hk), <- insert_delete_eq.
  rewrite map_sum_insert; [lia|by simplify_map_eq].
Qed.

Lemma map_sum_nonneg m : (∀ k v, m !! k = Some v → 0 ≤ f v) → 0 ≤ map_sum m.
Proof.
  induction m as [|k v m Hk IH] using map_ind; intros Hf; [by rewrite map_sum_empty|].
  rewrite map_sum_insert by done.
  assert (0 ≤ f v) by (apply (Hf k); by simplify_map_eq).
  enough (0 ≤ map_sum m) by lia. apply IH. intros k' v' Hv. apply (Hf k').
  rewrite lookup_insert_ne; [done|congruence].
Qed.

Lemma map_sum_filter_le (P : K * V → Prop) `{∀ x, Decision (P x)} m :
  (∀ k v, m !! k = Some v → 0 ≤ f v) → map_sum (filter P m) ≤ map_sum m.
Proof.
  induction m as [|k v m Hk IH] using map_ind; intros Hf; [by rewrite map_filter_empty|].
  assert (0 ≤ f v) by (apply (Hf k); by simplify_map_eq).
  assert (IH' : map_sum (filter P m) ≤ map_sum m).
  { apply IH. intros k' v' Hv. apply (Hf k'). rewrite lookup_insert_ne; [done|congruence]. }
  rewrite map_filter_insert, (map_sum_insert k v m Hk). case_decide.
  - rewrite map_sum_insert; [lia|]. by apply map_lookup_filter_None_2; left.
  - rewrite delete_id by done. lia.
Qed.

End map_sum.
