(* ===== verification/RustStr.v ===== *)
(** * Strings

    The [str] methods the machine plane uses, on strings as sequences of
    bytes (a Rust [String] is its UTF-8 encoding). White space is Unicode's
    [White_Space] set, recognised by its UTF-8 encodings. *)

From Stdlib Require Import Ascii.
From S2P Require Import Prelude.

Open Scope string_scope.
Open Scope Z_scope.

(** ** Tests and splitting *)

Fixpoint starts_with (p s : string) : bool :=
  match p, s with
  | EmptyString, _ => true
  | String a p', String b s' => bool_decide (a = b) && starts_with p' s'
  | String _ _, EmptyString => false
  end.

Fixpoint strip_prefix (p s : string) : option string :=
  match p, s with
  | EmptyString, _ => Some s
  | String a p', String b s' => if decide (a = b) then strip_prefix p' s' else None
  | String _ _, EmptyString => None
  end.

Fixpoint str_contains (p s : string) : bool :=
  starts_with p s || match s with EmptyString => false | String _ s' => str_contains p s' end.

(** [s.split(c)]: always at least one piece. *)
Fixpoint split_char (c : ascii) (s : string) : list string :=
  match s with
  | EmptyString => [""]
  | String a s' =>
      let rest := split_char c s' in
      if decide (a = c) then "" :: rest
      else match rest with
           | piece :: rest' => String a piece :: rest'
           | [] => [String a ""]
           end
  end.

(** [s.find(c)] followed by [&s[idx + 1..]]: the text after the first [c]. *)
Fixpoint after_char (c : ascii) (s : string) : option string :=
  match s with
  | EmptyString => None
  | String a s' => if decide (a = c) then Some s' else after_char c s'
  end.

(** The text before and after the first occurrence of a pattern. *)
Fixpoint split_once (p s : string) : option (string * string) :=
  match strip_prefix p s with
  | Some r => Some ("", r)
  | None =>
      match s with
      | EmptyString => None
      | String a s' =>
          match split_once p s' with Some (l, r) => Some (String a l, r) | None => None end
      end
  end.

(** [s.split(pattern).nth(1)]: what stands between the first two occurrences. *)
Definition split_second (p s : string) : option string :=
  match split_once p s with
  | Some (_, r) => Some (match split_once p r with Some (m, _) => m | None => r end)
  | None => None
  end.

(** [pieces.join(sep)] *)
Definition str_join (sep : string) (pieces : list string) : string :=
  match pieces with
  | [] => ""
  | p :: ps => foldl (λ acc q, acc +:+ sep +:+ q) p ps
  end.

(** [s.strip_suffix(p)] and [s.ends_with(p)] *)
Fixpoint strip_suffix (p s : string) : option string :=
  if decide (s = p) then Some ""
  else match s with
       | EmptyString => None
       | String a s' => String a <$> strip_suffix p s'
       end.

Definition ends_with (p s : string) : bool := bool_decide (is_Some (strip_suffix p s)).

(** [s.to_ascii_lowercase()] *)
Definition lower_char (a : ascii) : ascii :=
  let n := nat_of_ascii a in
  if bool_decide (65 ≤ n ≤ 90)%nat then ascii_of_nat (n + 32) else a.

Fixpoint to_ascii_lowercase (s : string) : string :=
  match s with
  | EmptyString => ""
  | String a s' => String (lower_char a) (to_ascii_lowercase s')
  end.

(** ** Lines *)

Definition LF : ascii := "010".
Definition CR : ascii := "013".

(** Removes a final carriage return. *)
Fixpoint strip_cr (s : string) : string :=
  match s with
  | EmptyString => ""
  | String a EmptyString => if decide (a = CR) then "" else s
  | String a s' => String a (strip_cr s')
  end.

(** [s.lines()]: pieces ended by a line feed (an optional carriage return
    before it dropped), and the last piece when it is not empty. *)
Definition str_lines (s : string) : list string :=
  let pieces := split_char LF s in
  let last_piece := default "" (last pieces) in
  (strip_cr <$> take (length pieces - 1) pieces) ++
  (if decide (last_piece = "") then [] else [last_piece]).

(** ** White space *)

(** [Some rest] when the string starts with a white-space character. *)
Definition strip_ws (s : string) : option string :=
  match s with
  | String "009" r | String "010" r | String "011" r | String "012" r
  | String "013" r | String "032" r => Some r
  | String "194" (String "133" r) | String "194" (String "160" r) => Some r
  | String "225" (String "154" (String "128" r)) => Some r
  | String "226" (String "128" (String c r)) =>
      let n := nat_of_ascii c in
      if bool_decide (128 ≤ n ≤ 138 ∨ n = 168 ∨ n = 169 ∨ n = 175)%nat then Some r else None
  | String "226" (String "129" (String "159" r)) => Some r
  | String "227" (String "128" (String "128" r)) => Some r
  | _ => None
  end.

Fixpoint trim_start_fuel (fuel : nat) (s : string) : string :=
  match fuel with
  | O => s
  | S fuel' => match strip_ws s with Some r => trim_start_fuel fuel' r | None => s end
  end.

(** Every character takes at least one byte: the length is enough fuel. *)
Definition trim_start (s : string) : string := trim_start_fuel (String.length s) s.

Fixpoint trim_end (s : string) : string :=
  if decide (trim_start s = "") then ""
  else match s with EmptyString => "" | String a s' => String a (trim_end s') end.

Definition trim (s : string) : string := trim_end (trim_start s).

(** [s.split_whitespace()]: the maximal runs without white space. *)
Fixpoint split_ws_fuel (fuel : nat) (cur s : string) : list string :=
  let flush := if decide (cur = "") then [] else [cur] in
  match fuel with
  | O => flush
  | S fuel' =>
      match strip_ws s with
      | Some r => flush ++ split_ws_fuel fuel' "" r
      | None =>
          match s with
          | EmptyString => flush
          | String a r => split_ws_fuel fuel' (cur +:+ String a "") r
          end
      end
  end.

Definition split_whitespace (s : string) : list string :=
  split_ws_fuel (S (String.length s)) "" s.

(** ** Integers *)

Definition digit_value (a : ascii) : option Z :=
  let n := Z.of_nat (nat_of_ascii a) in
  if bool_decide (48 ≤ n ≤ 57) then Some (n - 48) else None.

(** The digit loop of [from_str_radix], with its overflow check. *)
Fixpoint parse_digits (w acc : Z) (s : string) : option Z :=
  match s with
  | EmptyString => Some acc
  | String a s' =>
      d ← digit_value a;
      let acc' := acc * 10 + d in
      if bool_decide (acc' ≤ umax w) then parse_digits w acc' s' else None
  end.

(** [s.parse::<uN>()]: an optional [+], then at least one digit. *)
Definition parse_uint (w : Z) (s : string) : option Z :=
  match s with
  | EmptyString => None
  | String "+" EmptyString => None
  | String "+" s' => parse_digits w 0 s'
  | _ => parse_digits w 0 s
  end.

(** ** Lemmas *)

Lemma starts_with_spec p s : starts_with p s = true ↔ ∃ r, s = p +:+ r.
Proof.
  revert s. induction p as [|a p IH]; intros s; simpl; [naive_solver|].
  destruct s as [|b s]; [by split; [|intros [r ?]]|].
  rewrite andb_true_iff, bool_decide_eq_true, IH. split.
  - intros [-> [r ->]]. by exists r.
  - intros [r [= -> ->]]. eauto.
Qed.

Lemma split_char_nonempty c s : split_char c s ≠ [].
Proof. destruct s; simpl; [done|]. case_decide; [done|]. by destruct (split_char c s). Qed.

(** The first piece of a split does not contain the separator, and is the
    prefix before the first separator. *)
Lemma split_char_app c p s :
  c ∉ String.list_ascii_of_string p → 
  split_char c (p +:+ String c s) = p :: split_char c s.
Proof.
  induction p as [|a p IH]; intros Hp; simpl; [by rewrite decide_True|].
  simpl in Hp. rewrite decide_False by set_solver. by rewrite IH by set_solver.
Qed.

Lemma split_char_first c s q r k : split_char c s = q :: r :: k → ∃ s', s = q +:+ String c s'.
Proof.
  revert q r k. induction s as [|a s IH]; intros q r k; simpl; [done|]. case_decide as Ha.
  - intros [= <- Hs]. subst a. by exists s.
  - destruct (split_char c s) as [|q' rest'] eqn:E; [done|]. intros [= <- ->].
    destruct (IH _ _ _ eq_refl) as [s' ->]. by exists s'.
Qed.

Lemma split_char_none c s :
  c ∉ String.list_ascii_of_string s → split_char c s = [s].
Proof.
  induction s as [|a s IH]; intros Hs; simpl; [done|]. simpl in Hs.
  rewrite decide_False by set_solver. by rewrite IH by set_solver.
Qed.

(** Printing a number in decimal and parsing it back gives the number. *)
Lemma parse_digits_pretty w (x : N) acc s :
  Z.of_N x ≤ umax w → acc = 0 →
  parse_digits w acc (pretty_N_go x s) = parse_digits w (Z.of_N x) s.
Proof.
  intros Hx ->. revert s Hx. induction (N.lt_wf_0 x) as [x _ IH]; intros s Hx.
  destruct (decide (0 < x)%N) as [Hpos|]; cycle 1.
  { assert (x = 0%N) as -> by lia. by rewrite pretty_N_go_0. }
  rewrite pretty_N_go_step by done. rewrite IH; [|apply N.div_lt; lia| ]; cycle 1.
  { pose proof (N.Div0.div_le_upper_bound x 10 x). lia. }
  cbn [parse_digits].
  assert (Hd : digit_value (pretty_N_char (x mod 10)) = Some (Z.of_N (x mod 10))).
  { assert (Hm : (x mod 10 < 10)%N) by (apply N.mod_lt; lia).
    generalize dependent (x mod 10)%N. intros d Hd.
    assert (d ∈ [0;1;2;3;4;5;6;7;8;9]%N) as Hin.
    { rewrite !elem_of_cons. lia. }
    repeat (apply elem_of_cons in Hin as [->|Hin]; [reflexivity|]). by apply elem_of_nil in Hin. }
  rewrite Hd. simpl. pose proof (N.div_mod' x 10).
  replace (Z.of_N (x / 10) * 10 + Z.of_N (x mod 10)) with (Z.of_N x) by lia.
  by rewrite bool_decide_eq_true_2.
Qed.

Lemma parse_uint_digits w s n :
  s ≠ "" → parse_digits w 0 s = Some n → parse_uint w s = Some n.
Proof.
  destruct s as [|a s]; [done|]. intros _ H.
  destruct (decide (a = "+"%char)) as [->|Ha]; [done|].
  rewrite <- H. unfold parse_uint.
  destruct a as [[] [] [] [] [] [] [] []]; try reflexivity. done.
Qed.

Lemma parse_digits_in_u w acc s n : in_u w acc → parse_digits w acc s = Some n → in_u w n.
Proof.
  revert acc. induction s as [|a s IH]; intros acc Hacc; simpl; [by intros [= <-]|].
  destruct (digit_value a) as [d|] eqn:Ed; [|done]. simpl. case_bool_decide; [|done].
  apply IH. unfold digit_value in Ed. case_bool_decide; simplify_eq. unfold in_u in *. lia.
Qed.

Lemma parse_uint_in_u w s n : 0 ≤ w → parse_uint w s = Some n → in_u w n.
Proof.
  intros Hw Hp. pose proof (umax_nonneg w Hw). assert (∃ t, parse_digits w 0 t = Some n) as [t Ht].
  { destruct s as [|a s]; [done|]. unfold parse_uint in Hp.
    destruct a as [[] [] [] [] [] [] [] []]; eauto; destruct s; eauto; done. }
  eapply parse_digits_in_u; [|done]. unfold in_u. lia.
Qed.

Lemma parse_uint_pretty w (x : N) :
  0 ≤ w → Z.of_N x ≤ umax w → parse_uint w (pretty x) = Some (Z.of_N x).
Proof.
  intros Hw Hx. pose proof (umax_nonneg w Hw). unfold pretty, pretty_N.
  case_decide as H0.
  { subst x. apply parse_uint_digits; [done|]. cbn [parse_digits].
    change (digit_value "0") with (Some 0). cbn [mbind option_bind].
    by rewrite bool_decide_eq_true_2 by lia. }
  pose proof (parse_digits_pretty w x 0 "" Hx eq_refl) as Hp. simpl in Hp.
  apply parse_uint_digits; [|done]. intros He. rewrite He in Hp. simpl in Hp. simplify_eq. lia.
Qed.

Lemma after_char_app c p s :
  c ∉ String.list_ascii_of_string p → after_char c (p +:+ String c s) = Some s.
Proof.
  induction p as [|a p IH]; intros Hp; simpl; [by rewrite decide_True|].
  simpl in Hp. rewrite decide_False by set_solver. apply IH. set_solver.
Qed.

Lemma string_app_cons a s t : String a s +:+ t = String a (s +:+ t).
Proof. reflexivity. Qed.

Lemma string_app_nil_r s : s +:+ "" = s.
Proof. induction s as [|a s IH]; [done|]. exact (f_equal (String a) IH). Qed.

Lemma string_app_assoc p q r : (p +:+ q) +:+ r = p +:+ q +:+ r.
Proof. induction p as [|a p IH]; [done|]. exact (f_equal (String a) IH). Qed.

Lemma string_app_length p q : String.length (p +:+ q) = (String.length p + String.length q)%nat.
Proof. induction p as [|a p IH]; simpl; [done|]. by f_equal. Qed.

Lemma strip_prefix_app p s : strip_prefix p (p +:+ s) = Some s.
Proof.
  induction p as [|a p IH]; [by destruct s|]. change (String a p +:+ s) with (String a (p +:+ s)).
  cbn [strip_prefix]. by rewrite decide_True.
Qed.

Lemma strip_suffix_app p s : strip_suffix p (s +:+ p) = Some s.
Proof.
  induction s as [|a s IH].
  { change ("" +:+ p) with p. destruct p; cbn [strip_suffix]; by rewrite decide_True. }
  change (String a s +:+ p) with (String a (s +:+ p)). cbn [strip_suffix]. rewrite decide_False.
  - by rewrite IH.
  - intros Heq%(f_equal String.length). simpl in Heq. rewrite string_app_length in Heq. lia.
Qed.

Lemma strip_suffix_sound p s t : strip_suffix p s = Some t → s = t +:+ p.
Proof.
  revert t. induction s as [|a s IH]; intros t; cbn [strip_suffix]; case_decide as Hd; try done.
  - by intros [= <-].
  - by intros [= <-].
  - destruct (strip_suffix p s) as [u|]; [|done]. intros [= <-]. by rewrite (IH u eq_refl) at 1.
Qed.

Lemma starts_with_app p s : starts_with p (p +:+ s) = true.
Proof. apply starts_with_spec. by exists s. Qed.

Lemma ends_with_app p s : ends_with p (s +:+ p) = true.
Proof. unfold ends_with. apply bool_decide_eq_true. by rewrite strip_suffix_app. Qed.
