(* ===== verification/Utf8.v ===== *)
(** * Bytes and UTF-8

    [String::from_utf8], [String::from_utf8_lossy] and [str::as_bytes] on byte
    lists, and big-endian integers ([to_be_bytes], [from_be_bytes]). *)

From S2P Require Import Prelude.

#[export] Instance byte_eq_dec : EqDecision byte := Byte.byte_eq_dec.

Definition byte_val (b : byte) : Z := Z.of_N (Byte.to_N b).

(** [n as u8] keeps the low eight bits. *)
Definition byte_of_Z (n : Z) : byte :=
  default x00 (Byte.of_N (Z.to_N (n mod 256))).

Definition as_bytes (s : string) : list byte := String.list_byte_of_string s.
Definition string_of_bytes (l : list byte) : string := String.string_of_list_byte l.

(** ** UTF-8 *)

Definition in_range (lo hi : Z) (b : option byte) : bool :=
  match b with Some b => bool_decide (lo ≤ byte_val b ≤ hi) | None => false end.

Definition continuation (b : option byte) : bool := in_range 128 191 b.

(** The decoder's step on a non-empty input that starts with [b]: whether a
    character starts here, and how many bytes it (or the malformed
    subsequence that is replaced) takes. *)
Definition utf8_next (b : byte) (l : list byte) : bool * nat :=
  let v := byte_val b in
  if bool_decide (v < 128) then (true, 1%nat)
  else if bool_decide (194 ≤ v ≤ 223) then
    if continuation (l !! 0%nat) then (true, 2%nat) else (false, 1%nat)
  else if bool_decide (224 ≤ v ≤ 239) then
    let lo := if decide (v = 224) then 160 else 128 in
    let hi := if decide (v = 237) then 159 else 191 in
    if in_range lo hi (l !! 0%nat) then
      if continuation (l !! 1%nat) then (true, 3%nat) else (false, 2%nat)
    else (false, 1%nat)
  else if bool_decide (240 ≤ v ≤ 244) then
    let lo := if decide (v = 240) then 144 else 128 in
    let hi := if decide (v = 244) then 143 else 191 in
    if in_range lo hi (l !! 0%nat) then
      if continuation (l !! 1%nat) then
        if continuation (l !! 2%nat) then (true, 4%nat) else (false, 3%nat)
      else (false, 2%nat)
    else (false, 1%nat)
  else (false, 1%nat).

(** U+FFFD *)
Definition replacement : list byte := [xef; xbf; xbd].

(** Each step takes at least one byte: the length is enough fuel. *)
Fixpoint utf8_valid_fuel (fuel : nat) (l : list byte) : bool :=
  match fuel, l with
  | S fuel', b :: l' =>
      let '(ok, n) := utf8_next b l' in ok && utf8_valid_fuel fuel' (drop n l)
  | _, _ => true
  end.

Fixpoint utf8_lossy_fuel (fuel : nat) (l : list byte) : list byte :=
  match fuel, l with
  | S fuel', b :: l' =>
      let '(ok, n) := utf8_next b l' in
      (if ok : bool then take n l else replacement) ++ utf8_lossy_fuel fuel' (drop n l)
  | _, _ => []
  end.

Definition utf8_valid (l : list byte) : bool := utf8_valid_fuel (length l) l.

Definition from_utf8 (l : list byte) : option string :=
  if utf8_valid l then Some (string_of_bytes l) else None.

Definition from_utf8_lossy (l : list byte) : string :=
  string_of_bytes (utf8_lossy_fuel (length l) l).

(** ** Big-endian integers *)

(** The [n] low bytes of [z], most significant first. *)
Fixpoint to_be_bytes (n : nat) (z : Z) : list byte :=
  match n with
  | O => []
  | S n' => byte_of_Z (z / 256 ^ Z.of_nat n') :: to_be_bytes n' z
  end.

Definition from_be_bytes (l : list byte) : Z :=
  foldl (λ acc b, acc * 256 + byte_val b) 0 l.

(** ** Lemmas *)

Lemma byte_val_bound b : 0 ≤ byte_val b < 256.
Proof. unfold byte_val. pose proof (Byte.to_N_bounded b). lia. Qed.

Lemma byte_val_of_Z n : byte_val (byte_of_Z n) = n mod 256.
Proof.
  unfold byte_val, byte_of_Z. pose proof (Z.mod_pos_bound n 256 ltac:(lia)) as Hb.
  destruct (Byte.of_N (Z.to_N (n mod 256))) as [b|] eqn:E; simpl.
  - apply Byte.to_of_N in E. rewrite E. lia.
  - apply Byte.of_N_None_iff in E. lia.
Qed.

Lemma string_of_as_bytes s : string_of_bytes (as_bytes s) = s.
Proof. apply String.string_of_list_byte_of_string. Qed.

Lemma as_bytes_of_bytes l : as_bytes (string_of_bytes l) = l.
Proof. apply String.list_byte_of_string_of_list_byte. Qed.

Lemma to_be_bytes_length n z : length (to_be_bytes n z) = n.
Proof. induction n; simpl; congruence. Qed.

Lemma from_be_bytes_acc l acc :
  foldl (λ acc b, acc * 256 + byte_val b) acc l = acc * 256 ^ Z.of_nat (length l) + from_be_bytes l.
Proof.
  unfold from_be_bytes. revert acc. induction l as [|b l IH]; intros acc; cbn [foldl length]; [simpl; lia|].
  rewrite IH, (IH (0 * 256 + byte_val b)), Nat2Z.inj_succ, Z.pow_succ_r by lia. ring.
Qed.

Lemma from_to_be_bytes n z :
  from_be_bytes (to_be_bytes n z) = z mod 256 ^ Z.of_nat n.
Proof.
  induction n as [|n IH]; simpl; [by rewrite Z.mod_1_r|].
  unfold from_be_bytes. cbn [foldl]. rewrite from_be_bytes_acc, IH, to_be_bytes_length, byte_val_of_Z.
  rewrite Nat2Z.inj_succ, Z.pow_succ_r by lia.
  pose proof (Z.pow_pos_nonneg 256 (Z.of_nat n)).
  rewrite (Z.mul_comm 256), Z.rem_mul_r by lia. lia.
Qed.

Lemma from_to_be_bytes_small n z :
  0 ≤ z < 256 ^ Z.of_nat n → from_be_bytes (to_be_bytes n z) = z.
Proof. intros. rewrite from_to_be_bytes. by apply Z.mod_small. Qed.

Lemma utf8_next_pos b l : (0 < (utf8_next b l).2)%nat.
Proof. unfold utf8_next. repeat case_match; simpl; lia. Qed.

Lemma utf8_lossy_valid_fuel fuel l :
  (length l ≤ fuel)%nat → utf8_valid_fuel fuel l = true → utf8_lossy_fuel fuel l = l.
Proof.
  revert l. induction fuel as [|fuel IH]; intros [|b l] Hlen; simpl in *; try done; [lia|].
  pose proof (utf8_next_pos b l) as Hpos. destruct (utf8_next b l) as [ok n]. simpl in *.
  intros [-> Hv]%andb_true_iff. rewrite IH; [apply take_drop| |done].
  rewrite length_drop. simpl. lia.
Qed.

Lemma from_utf8_lossy_valid l s : from_utf8 l = Some s → from_utf8_lossy l = s.
Proof.
  unfold from_utf8, from_utf8_lossy. destruct (utf8_valid l) eqn:E; [|done].
  intros [= <-]. by rewrite utf8_lossy_valid_fuel.
Qed.
