(* ===== verification/RustHash.v ===== *)
(** * Hashing, hexadecimal text and slices of strings

    What the machine plane uses of Rust's standard library to name manifests:
    [DefaultHasher::new()] (SipHash-1-3 with a zero key), the [Hash]
    implementations of strings, byte vectors, integers and times,
    [format!("{:x}", _)] on a [u64], and the slices [&s[..n]] and [&s[n..]],
    which panic out of range or inside a character ([None]). *)

From Stdlib Require Import Ascii.
From S2P Require Import Prelude RustStr Utf8.

(** ** SipHash-1-3 *)

(** [from_le_bytes] and [to_le_bytes] *)
Definition from_le_bytes (l : list byte) : Z := from_be_bytes (reverse l).
Definition to_le_bytes (n : nat) (z : Z) : list byte := reverse (to_be_bytes n z).

Definition rotate_left (x b : Z) : Z :=
  Z.lor (wrap 64 (Z.shiftl x b)) (Z.shiftr x (64 - b)).

Record sip_state := { sip_v0 : Z; sip_v1 : Z; sip_v2 : Z; sip_v3 : Z }.

Definition sip_round (s : sip_state) : sip_state :=
  let v0 := wrap 64 (sip_v0 s + sip_v1 s) in
  let v2 := wrap 64 (sip_v2 s + sip_v3 s) in
  let v1 := Z.lxor (rotate_left (sip_v1 s) 13) v0 in
  let v0 := rotate_left v0 32 in
  let v3 := Z.lxor (rotate_left (sip_v3 s) 16) v2 in
  let v0 := wrap 64 (v0 + v3) in
  let v3 := Z.lxor (rotate_left v3 21) v0 in
  let v2 := wrap 64 (v2 + v1) in
  let v1 := Z.lxor (rotate_left v1 17) v2 in
  let v2 := rotate_left v2 32 in
  {| sip_v0 := v0; sip_v1 := v1; sip_v2 := v2; sip_v3 := v3 |}.

Definition sip_word (m : Z) (s : sip_state) : sip_state :=
  let s := sip_round {| sip_v0 := sip_v0 s; sip_v1 := sip_v1 s; sip_v2 := sip_v2 s;
                        sip_v3 := Z.lxor (sip_v3 s) m |} in
  {| sip_v0 := Z.lxor (sip_v0 s) m; sip_v1 := sip_v1 s; sip_v2 := sip_v2 s; sip_v3 := sip_v3 s |}.

Definition sip_init : sip_state :=
  {| sip_v0 := 0x736f6d6570736575; sip_v1 := 0x646f72616e646f6d;
     sip_v2 := 0x6c7967656e657261; sip_v3 := 0x7465646279746573 |}.

(** The whole words, then the last one with the length in its top byte. *)
Fixpoint sip_absorb (len : Z) (l : list byte) (s : sip_state) : sip_state :=
  match l with
  | b0 :: b1 :: b2 :: b3 :: b4 :: b5 :: b6 :: b7 :: l' =>
      sip_absorb len l' (sip_word (from_le_bytes [b0; b1; b2; b3; b4; b5; b6; b7]) s)
  | tail => sip_word (Z.lor (Z.shiftl (len mod 256) 56) (from_le_bytes tail)) s
  end.

Definition sip_finish (s : sip_state) : Z :=
  let s := sip_round (sip_round (sip_round
    {| sip_v0 := sip_v0 s; sip_v1 := sip_v1 s; sip_v2 := Z.lxor (sip_v2 s) 255;
       sip_v3 := sip_v3 s |})) in
  Z.lxor (Z.lxor (Z.lxor (sip_v0 s) (sip_v1 s)) (sip_v2 s)) (sip_v3 s).

(** [DefaultHasher::new()], [write] of the bytes, [finish()]: the hasher works
    on the concatenation of what is written, so its state is that. *)
Definition default_hash (written : list byte) : Z :=
  sip_finish (sip_absorb (Z.of_nat (length written)) written sip_init).

(** What [Hash::hash] writes for a [str], for a byte slice, for a [u64] and
    for a [SystemTime] of [ns] nanoseconds. *)
Definition hash_str (s : string) : list byte := as_bytes s ++ [xff].
Definition hash_u64 (n : Z) : list byte := to_le_bytes 8 n.
Definition hash_bytes (l : list byte) : list byte := to_le_bytes 8 (Z.of_nat (length l)) ++ l.
Definition hash_time (ns : Z) : list byte :=
  to_le_bytes 8 (ns / 1000000000) ++ to_le_bytes 4 (ns mod 1000000000).

#[global] Arguments default_hash _ : simpl never.

(** ** Hexadecimal *)

Definition hex_digit (n : Z) : ascii :=
  if decide (n < 10) then ascii_of_nat (48 + Z.to_nat n) else ascii_of_nat (87 + Z.to_nat n).

Fixpoint hex_go (fuel : nat) (n : Z) (acc : string) : string :=
  match fuel with
  | O => acc
  | S fuel' =>
      let acc := String (hex_digit (n mod 16)) acc in
      if decide (n < 16) then acc else hex_go fuel' (n / 16) acc
  end.

(** [format!("{:x}", n)] on a [u64]: at most 16 digits, no leading zero. *)
Definition lower_hex (n : Z) : string := hex_go 16 n "".

#[global] Arguments lower_hex _ : simpl never.

Definition hex_value (a : ascii) : option Z :=
  let n := Z.of_nat (nat_of_ascii a) in
  if bool_decide (48 ≤ n ≤ 57) then Some (n - 48)
  else if bool_decide (97 ≤ n ≤ 102) then Some (n - 87) else None.

Fixpoint parse_hex (acc : Z) (s : string) : option Z :=
  match s with
  | EmptyString => Some acc
  | String a s' => d ← hex_value a; parse_hex (acc * 16 + d) s'
  end.

(** ** Slices *)

(** A character does not start with a continuation byte. *)
Definition is_char_boundary (n : nat) (s : string) : bool :=
  match as_bytes s !! n with
  | Some b => negb (continuation (Some b))
  | None => bool_decide (n = String.length s)
  end.

Definition slice_to (n : nat) (s : string) : option string :=
  if is_char_boundary n s then Some (String.substring 0 n s) else None.

Definition slice_from (n : nat) (s : string) : option string :=
  if is_char_boundary n s then Some (String.substring n (String.length s - n) s) else None.

(** ** Lemmas *)

Lemma testbit_above w n : in_u w n → 0 ≤ w → ∀ i, w ≤ i → Z.testbit n i = false.
Proof.
  unfold in_u, umax. intros Hn Hw i Hi. destruct (decide (n = 0)) as [->|]; [apply Z.bits_0|].
  apply Z.bits_above_log2; [lia|]. assert (Z.log2 n < w) by (apply Z.log2_lt_pow2; lia). lia.
Qed.

Lemma in_u_testbit w n : 0 ≤ w → 0 ≤ n → (∀ i, w ≤ i → Z.testbit n i = false) → in_u w n.
Proof.
  intros Hw Hn Hb. unfold in_u, umax. split; [done|].
  destruct (decide (n = 0)) as [->|]; [pose proof (Z.pow_pos_nonneg 2 w); lia|].
  enough (Z.log2 n < w) as Hl by (apply Z.log2_lt_pow2 in Hl; lia).
  destruct (decide (Z.log2 n < w)) as [|Hge]; [done|].
  pose proof (Z.bit_log2 n ltac:(lia)). rewrite Hb in *; [done|lia].
Qed.

Lemma lxor_in_u a b : in_u 64 a → in_u 64 b → in_u 64 (Z.lxor a b).
Proof.
  intros Ha Hb. apply in_u_testbit; [lia| |].
  - apply Z.lxor_nonneg. unfold in_u in *. tauto.
  - intros i Hi. rewrite Z.lxor_spec, (testbit_above 64 a), (testbit_above 64 b); done || lia.
Qed.

Lemma lor_in_u a b : in_u 64 a → in_u 64 b → in_u 64 (Z.lor a b).
Proof.
  intros Ha Hb. apply in_u_testbit; [lia| |].
  - apply Z.lor_nonneg. unfold in_u in *. tauto.
  - intros i Hi. rewrite Z.lor_spec, (testbit_above 64 a), (testbit_above 64 b); done || lia.
Qed.

Lemma shiftr_in_u a b : 0 ≤ b → in_u 64 a → in_u 64 (Z.shiftr a b).
Proof.
  intros Hb Ha. unfold in_u in *. rewrite Z.shiftr_div_pow2 by done.
  pose proof (Z.pow_pos_nonneg 2 b). split; [apply Z.div_pos; lia|].
  etrans; [apply Z.div_le_upper_bound with (q := a); nia|]. lia.
Qed.

Lemma rotate_in_u a b : b ≤ 64 → in_u 64 a → in_u 64 (rotate_left a b).
Proof. intros. apply lor_in_u; [by apply wrap_in_u|apply shiftr_in_u; [lia|done]]. Qed.

#[export] Hint Resolve lxor_in_u lor_in_u : rust.
#[export] Hint Extern 1 (in_u 64 (rotate_left _ _)) => apply rotate_in_u; [lia|] : rust.
#[export] Hint Extern 1 (in_u 64 (wrap 64 _)) => apply wrap_in_u; lia : rust.

(** The four words stay words. *)
Definition sip_ok (s : sip_state) : Prop :=
  in_u 64 (sip_v0 s) ∧ in_u 64 (sip_v1 s) ∧ in_u 64 (sip_v2 s) ∧ in_u 64 (sip_v3 s).

Lemma sip_round_ok s : sip_ok s → sip_ok (sip_round s).
Proof. intros (? & ? & ? & ?). unfold sip_ok, sip_round. simpl. split_and!; auto 10 with rust. Qed.

Lemma sip_word_ok m s : in_u 64 m → sip_ok s → sip_ok (sip_word m s).
Proof.
  intros Hm (? & ? & ? & ?). unfold sip_word.
  destruct (sip_round_ok {| sip_v0 := sip_v0 s; sip_v1 := sip_v1 s; sip_v2 := sip_v2 s;
                            sip_v3 := Z.lxor (sip_v3 s) m |}) as (? & ? & ? & ?).
  { split_and!; simpl; auto with rust. }
  split_and!; simpl; auto with rust.
Qed.

Lemma from_be_bytes_bound l : 0 ≤ from_be_bytes l < 256 ^ Z.of_nat (length l).
Proof.
  induction l as [|b l IH]; [done|]. unfold from_be_bytes. cbn [foldl].
  rewrite from_be_bytes_acc. cbn [length]. rewrite Nat2Z.inj_succ, Z.pow_succ_r by lia.
  pose proof (byte_val_bound b). nia.
Qed.

Lemma le_word_in_u l : (length l ≤ 8)%nat → in_u 64 (from_le_bytes l).
Proof.
  intros Hl. unfold from_le_bytes. pose proof (from_be_bytes_bound (reverse l)) as Hb.
  rewrite length_reverse in Hb. unfold in_u, umax.
  assert (256 ^ Z.of_nat (length l) ≤ 256 ^ 8) by (apply Z.pow_le_mono_r; lia). lia.
Qed.

Lemma length_word_in_u n : in_u 64 (Z.shiftl (n mod 256) 56).
Proof.
  rewrite Z.shiftl_mul_pow2 by done. pose proof (Z.mod_pos_bound n 256 ltac:(lia)). u_lia.
Qed.

Lemma sip_absorb_ok len l s : sip_ok s → sip_ok (sip_absorb len l s).
Proof.
  remember (length l) as n eqn:Hn. revert l Hn s. induction (lt_wf n) as [n _ IH]. intros l -> s Hs.
  destruct l as [|b0 [|b1 [|b2 [|b3 [|b4 [|b5 [|b6 [|b7 l]]]]]]]]; cbn [sip_absorb].
  9: { eapply IH; [|done|]; [simpl; lia|]. apply sip_word_ok; [|done]. apply le_word_in_u. simpl. lia. }
  all: apply sip_word_ok; [|done]; apply lor_in_u; [apply length_word_in_u|].
  all: apply le_word_in_u; simpl; lia.
Qed.

Lemma default_hash_in_u l : in_u 64 (default_hash l).
Proof.
  unfold default_hash, sip_finish. assert (sip_ok sip_init) as H0 by (vm_compute; intuition discriminate).
  destruct (sip_absorb_ok (Z.of_nat (length l)) l sip_init H0) as (? & ? & ? & ?).
  set (s := {| sip_v2 := Z.lxor _ 255 |}). assert (sip_ok s) as Hs.
  { split_and!; simpl; auto with rust. apply lxor_in_u; [done|]. vm_compute. intuition discriminate. }
  destruct (sip_round_ok _ (sip_round_ok _ (sip_round_ok s Hs))) as (? & ? & ? & ?).
  auto with rust.
Qed.

(** ** Lemmas on hexadecimal text *)

Lemma hex_digit_value n : 0 ≤ n < 16 → hex_value (hex_digit n) = Some n.
Proof.
  intros Hn. destruct n as [|p|p]; [reflexivity| |lia].
  do 4 (destruct p as [p|p|]; [..|reflexivity]); lia.
Qed.

Lemma hex_go_length fuel n acc :
  (String.length acc ≤ String.length (hex_go fuel n acc) ≤ fuel + String.length acc)%nat.
Proof.
  revert n acc. induction fuel as [|fuel IH]; intros n acc; cbn [hex_go]; [lia|].
  case_decide; simpl; [lia|]. specialize (IH (n / 16) (String (hex_digit (n mod 16)) acc)).
  simpl in IH. lia.
Qed.

Lemma hex_go_full f n acc :
  0 ≤ n → String.length (hex_go (S f) n acc) = (S f + String.length acc)%nat ↔
    f = 0%nat ∨ 16 ^ Z.of_nat f ≤ n.
Proof.
  revert n acc. induction f as [|f IH]; intros n acc Hn.
  { cbn [hex_go]. case_decide; simpl; intuition. }
  cbn [hex_go]. pose proof (Z.pow_pos_nonneg 16 (Z.of_nat f)).
  rewrite Nat2Z.inj_succ, Z.pow_succ_r by lia. case_decide as Hs.
  { simpl. split; [lia|]. intros [?|?]; [lia|nia]. }
  change (if decide (n / 16 < 16) then _ else _)
    with (hex_go (S f) (n / 16) (String (hex_digit (n mod 16)) acc)).
  specialize (IH (n / 16) (String (hex_digit (n mod 16)) acc) (Z.div_pos n 16 Hn ltac:(lia))).
  simpl String.length in IH at 2. rewrite Nat.add_succ_r in IH. rewrite IH.
  split; [intros [->|Hl]; right; simpl; [lia|]|intros [?|Hl]; [lia|right]].
  - pose proof (Z.mul_div_le n 16). lia.
  - apply Z.div_le_lower_bound; lia.
Qed.

(** Exactly the large hashes have sixteen digits. *)
Lemma lower_hex_length n : 0 ≤ n → String.length (lower_hex n) = 16%nat ↔ 2 ^ 60 ≤ n.
Proof.
  intros Hn. unfold lower_hex. rewrite (hex_go_full 15 n "" Hn). split; [intros [?|?]; lia|by right].
Qed.

Lemma lower_hex_short n : (String.length (lower_hex n) ≤ 16)%nat.
Proof. pose proof (hex_go_length 16 n ""). unfold lower_hex. simpl in *. lia. Qed.

Lemma parse_hex_go fuel n acc :
  0 ≤ n < 16 ^ Z.of_nat fuel → parse_hex 0 (hex_go fuel n acc) = parse_hex n acc.
Proof.
  revert n acc. induction fuel as [|fuel IH]; intros n acc Hn; cbn [hex_go].
  { simpl in Hn. by assert (n = 0) as -> by lia. }
  pose proof (Z.mod_pos_bound n 16 ltac:(lia)) as Hm. case_decide.
  { cbn [parse_hex]. rewrite hex_digit_value by done. simpl. by rewrite Z.mod_small by lia. }
  rewrite Nat2Z.inj_succ, Z.pow_succ_r in Hn by lia. rewrite IH; cycle 1.
  { split; [apply Z.div_pos; lia|apply Z.div_lt_upper_bound; lia]. }
  cbn [parse_hex]. rewrite hex_digit_value by done. simpl. f_equal.
  pose proof (Z.div_mod n 16). lia.
Qed.

(** The text determines the number. *)
Lemma parse_lower_hex n : in_u 64 n → parse_hex 0 (lower_hex n) = Some n.
Proof. intros Hn. unfold lower_hex. rewrite parse_hex_go; [done|]. u_lia. Qed.

(** ** Lemmas on slices *)

Lemma as_bytes_length s : length (as_bytes s) = String.length s.
Proof. induction s as [|a s IH]; simpl; [done|]. by f_equal. Qed.

Lemma substring_all s : String.substring 0 (String.length s) s = s.
Proof. induction s as [|a s IH]; simpl; congruence. Qed.

Lemma slice_to_length n s t : slice_to n s = Some t → String.length t = n.
Proof.
  unfold slice_to, is_char_boundary. destruct (as_bytes s !! n) eqn:E; intros Ht.
  - apply lookup_lt_Some in E. rewrite as_bytes_length in E.
    destruct (negb _); simplify_eq. clear -E. revert n E.
    induction s as [|a s IH]; intros [|n] Hn; simpl in *; try lia. rewrite IH; lia.
  - case_bool_decide; simplify_eq. by rewrite substring_all.
Qed.

Lemma slice_to_panics n s : (String.length s < n)%nat → slice_to n s = None.
Proof.
  intros Hn. unfold slice_to, is_char_boundary. rewrite lookup_ge_None_2 by (rewrite as_bytes_length; lia).
  by rewrite bool_decide_eq_false_2 by lia.
Qed.

Lemma slice_to_all s : slice_to (String.length s) s = Some s.
Proof.
  unfold slice_to, is_char_boundary. rewrite lookup_ge_None_2 by (rewrite as_bytes_length; lia).
  rewrite bool_decide_eq_true_2 by done. by rewrite substring_all.
Qed.

(** The first sixteen digits of a hash: all of them, or a panic. *)
Lemma slice_hex n : in_u 64 n →
  slice_to 16 (lower_hex n) = if decide (2 ^ 60 ≤ n) then Some (lower_hex n) else None.
Proof.
  intros Hn. pose proof (lower_hex_length n ltac:(unfold in_u in Hn; lia)) as Hl.
  case_decide as Hc; [apply Hl in Hc; by rewrite <- Hc at 1; rewrite slice_to_all|].
  apply slice_to_panics. pose proof (lower_hex_short n).
  assert (String.length (lower_hex n) ≠ 16%nat) by (rewrite Hl; lia). lia.
Qed.
