(* ===== verification/Wire.v ===== *)
(** * Length-prefixed byte formats

    The pattern of the hand-written parsers: check that enough bytes remain,
    take them, advance. A cursor is the list of the bytes from the current
    offset on. *)

From S2P Require Import Prelude Utf8.

Open Scope rust_scope.
Open Scope list_scope.

(** A length as a big-endian integer of [w] bytes ([len as u32] and the like),
    then the bytes. *)
Definition put_block (w : nat) (l : list byte) : list byte :=
  to_be_bytes w (wrap (8 * Z.of_nat w) (Z.of_nat (length l))) ++ l.

(** [if data.len() < offset + n { return Err(err) }], then
    [&data[offset..offset + n]] and [offset += n]. *)
Definition read {E} (err : E) (n : Z) (rest : list byte) : result E (list byte * list byte) :=
  if decide (Z.of_nat (length rest) < n) then Err err
  else Ok (take (Z.to_nat n) rest, drop (Z.to_nat n) rest).

(** A length of [w] bytes and that many bytes. *)
Definition read_block {E} (w : nat) (err_len err : E) (rest : list byte) :
    result E (list byte * list byte) :=
  let? (len, rest) := read err_len (Z.of_nat w) rest in
  read err (from_be_bytes len) rest.

(** One step of a chain of reads. *)
Ltac bind_ok := cbn [result_bind ok_or].

(** ** Reading what was written *)

Section written.
Context {E : Type}.

Lemma read_app (err : E) n l k : Z.of_nat (length l) = n → read err n (l ++ k) = Ok (l, k).
Proof.
  intros <-. unfold read. rewrite length_app, decide_False by lia.
  by rewrite Nat2Z.id, take_app_length, drop_app_length.
Qed.

Lemma read_be (err : E) w z k :
  read err (Z.of_nat w) (to_be_bytes w z ++ k) = Ok (to_be_bytes w z, k).
Proof. apply read_app. by rewrite to_be_bytes_length. Qed.

Lemma pow_256 w : 256 ^ Z.of_nat w = 2 ^ (8 * Z.of_nat w).
Proof. change 256 with (2 ^ 8). rewrite <- Z.pow_mul_r; lia. Qed.

Lemma from_be_small w z : in_u (8 * Z.of_nat w) z → from_be_bytes (to_be_bytes w z) = z.
Proof. intros Hz. apply from_to_be_bytes_small. rewrite pow_256. u_lia. Qed.

Lemma read_block_put w (e1 e2 : E) l k :
  Z.of_nat (length l) < 2 ^ (8 * Z.of_nat w) →
  read_block w e1 e2 (put_block w l ++ k) = Ok (l, k).
Proof.
  intros Hl. unfold read_block, put_block. rewrite <- app_assoc, read_be.
  bind_ok. rewrite wrap_small by u_lia. rewrite from_be_small by u_lia. by rewrite read_app.
Qed.

End written.

(** ** Prefixes *)

Section prefixes.
Context {E : Type}.

(** A read that succeeds does not look at what is appended to its input. *)
Definition extensible {A} (f : list byte → result E (A * list byte)) : Prop :=
  ∀ l k a r, f l = Ok (a, r) → f (l ++ k) = Ok (a, r ++ k).

Lemma read_extensible (err : E) n : extensible (read err n).
Proof.
  intros l k a r. unfold read. case_decide as Hd; [done|]. intros [= <- <-].
  rewrite length_app, decide_False by lia.
  by rewrite take_app_le, drop_app_le by lia.
Qed.

Lemma read_block_extensible w (e1 e2 : E) : extensible (read_block w e1 e2).
Proof.
  intros l k a r. unfold read_block. rewrite result_bind_ok. intros ([len rest] & H1 & H2).
  rewrite (read_extensible _ _ _ _ _ _ H1). simpl. by apply read_extensible.
Qed.

Lemma bind_read {A B} (f : list byte → result E (A * list byte)) (g : A * list byte → result E B) l b :
  result_bind g (f l) = Ok b → ∃ a r, f l = Ok (a, r) ∧ g (a, r) = Ok b.
Proof. rewrite result_bind_ok. intros ([a r] & ? & ?). eauto. Qed.

End prefixes.

(** Moves a successful read, or a successful conversion, of [H] to the goal. *)
Ltac extend_read H lem :=
  let a := fresh "a" in let r := fresh "r" in let E := fresh "E" in
  apply bind_read in H as (a & r & E & H);
  rewrite (lem _ _ _ _ E); bind_ok; cbn [result_bind] in H.

Ltac extend_ok H :=
  let a := fresh "a" in let E := fresh "E" in
  apply result_bind_ok in H as (a & E & H); rewrite E; bind_ok.
