(* ===== verification/Constants.v ===== *)
(** * Protocol constants ([protocol/src/libp2p_constants.rs]) *)

From S2P Require Import Prelude.

Definition BEEMESH_CLUSTER : string := "beemesh-cluster".

(** The GossipSub topics with their aliases. The last alias is not the topic
    it is said to repeat. *)
Definition SCHEDULER_TASKS_TOPIC : string := "scheduler-tasks".
Definition TOPIC_TASKS : string := SCHEDULER_TASKS_TOPIC.
Definition SCHEDULER_EVENTS_TOPIC : string := "scheduler-events".
Definition TOPIC_EVENTS : string := SCHEDULER_EVENTS_TOPIC.
Definition SCHEDULER_PROPOSALS_TOPIC : string := "scheduler-proposal".
Definition TOPIC_PROPOSALS : string := "scheduler-proposals".

Definition HANDSHAKE_PREFIX : string := "beemesh-handshake".
Definition FREE_CAPACITY_PREFIX : string := "beemesh-free-capacity".
Definition FREE_CAPACITY_REPLY_PREFIX : string := "beemesh-free-capacity-reply".
Definition LEASE_PREFIX : string := "lease/".

Definition FREE_CAPACITY_TIMEOUT_MS : Z := 500.
Definition REQUEST_RESPONSE_TIMEOUT_SECS : Z := 3.
Definition DEFAULT_SELECTION_WINDOW_MS : Z := 250.
Definition DEFAULT_LEASE_TTL_MS : Z := 3000.
Definition RESOURCE_CHECK_TIMEOUT_MS : Z := 1000.

Definition REPLICAS_FIELD : string := "replicas".
Definition SPEC_REPLICAS_FIELD : string := "spec".
Definition BINARY_ENVELOPE_VERSION : Z := 1.

Definition MAX_CPU_ALLOCATION_PERCENT : Z := 90.
Definition MAX_MEMORY_ALLOCATION_PERCENT : Z := 90.
Definition MAX_STORAGE_ALLOCATION_PERCENT : Z := 90.
Definition MIN_FREE_MEMORY_BYTES : Z := 512 * 1024 * 1024.
Definition MIN_FREE_STORAGE_BYTES : Z := 1024 * 1024 * 1024.
Definition MAX_WORKLOADS_PER_NODE : Z := 0.
Definition DEFAULT_CPU_REQUEST_MILLI : Z := 100.
Definition DEFAULT_MEMORY_REQUEST_BYTES : Z := 128 * 1024 * 1024.
Definition DEFAULT_STORAGE_REQUEST_BYTES : Z := 1024 * 1024 * 1024.

(** [Duration::from_secs], durations being nanoseconds. *)
Definition from_secs (s : Z) : Z := s * 1000000000.
