(* ===== verification/Network.v ===== *)
(** * Addresses and network settings ([libp2p_beemesh/mod.rs])

    The standard library's IP addresses (parsed and printed as it does), the
    multiaddresses a node listens on, and the settings [setup_libp2p_node] gives
    to its network behaviours. The text syntax of multiaddresses belongs to the
    [multiaddr] crate: class [Multiaddrs]. *)

From Stdlib Require Import Ascii.
From S2P Require Import Prelude RustStr Utf8 RustHash Constants.

Open Scope list_scope.

(** ** [std::net]: the parser of IP addresses

    A reader takes the text left and returns a value with the rest; [None]
    leaves the text where it was. *)

Inductive IpAddr :=
| V4 (octets : list Z)
| V6 (segments : list Z).

Definition read_given_char (c : ascii) (s : string) : option string :=
  match s with
  | String a s' => if decide (a = c) then Some s' else None
  | EmptyString => None
  end.

(** [char::to_digit], for the radixes 10 and 16. *)
Definition to_digit (radix : Z) (a : ascii) : option Z :=
  let n := Z.of_nat (nat_of_ascii a) in
  let d := if bool_decide (48 ≤ n ≤ 57) then Some (n - 48)
           else if bool_decide (65 ≤ n ≤ 70) then Some (n - 55)
           else if bool_decide (97 ≤ n ≤ 102) then Some (n - 87) else None in
  d ≫= λ d, if decide (d < radix) then Some d else None.

(** The digits from here on: their value, their number, the rest. *)
Fixpoint read_digits (radix value : Z) (count : nat) (s : string) : Z * nat * string :=
  match s with
  | String a s' =>
      match to_digit radix a with
      | Some d => read_digits radix (value * radix + d) (S count) s'
      | None => (value, count, s)
      end
  | EmptyString => (value, count, s)
  end.

Definition read_number (radix : Z) (max_digits : nat) (allow_zero_prefix : bool) (maximum : Z)
    (s : string) : option (Z * string) :=
  let has_leading_zero := starts_with "0" s in
  let '(value, digit_count, rest) := read_digits radix 0 0 s in
  if decide (max_digits < digit_count)%nat then None
  else if decide (digit_count = 0%nat) then None
  else if negb allow_zero_prefix && has_leading_zero && bool_decide (1 < digit_count)%nat then None
  else if decide (value ≤ maximum) then Some (value, rest) else None.

(** A separator before every item but the first. *)
Definition read_separator {A} (sep : ascii) (index : nat) (inner : string → option (A * string))
    (s : string) : option (A * string) :=
  match index with
  | O => inner s
  | S _ => read_given_char sep s ≫= inner
  end.

Definition read_octet (i : nat) : string → option (Z * string) :=
  read_separator "." i (read_number 10 3 false 255).

Definition read_ipv4_addr (s : string) : option (list Z * string) :=
  '(a, s) ← read_octet 0 s;
  '(b, s) ← read_octet 1 s;
  '(c, s) ← read_octet 2 s;
  '(d, s) ← read_octet 3 s;
  Some ([a; b; c; d], s).

(** [read_groups]: up to [limit] groups, of which [i] are read; the last two can
    be an IPv4 address. The result tells whether they were. *)
Fixpoint read_groups (limit i : nat) (s : string) : list Z * bool * string :=
  match limit with
  | O => ([], false, s)
  | S limit' =>
      let ipv4 := match limit' with
                  | O => None
                  | S _ => read_separator ":" i read_ipv4_addr s
                  end in
      match ipv4 with
      | Some ([a; b; c; d], s) => ([a * 256 + b; c * 256 + d], true, s)
      | _ =>
          match read_separator ":" i (read_number 16 4 true 65535) s with
          | Some (g, s) =>
              let '(gs, v4, s) := read_groups limit' (S i) s in (g :: gs, v4, s)
          | None => ([], false, s)
          end
      end
  end.

Definition read_ipv6_addr (s : string) : option (list Z * string) :=
  let '(head, head_ipv4, s) := read_groups 8 0 s in
  if decide (length head = 8%nat) then Some (head, s)
  else if (head_ipv4 : bool) then None
  else
    s ← read_given_char ":" s;
    s ← read_given_char ":" s;
    let '(tail, _, s) := read_groups (8 - (length head + 1)) 0 s in
    Some (head ++ replicate (8 - length head - length tail) 0 ++ tail, s).

(** [parse_with]: nothing may be left. *)
Definition parse_all {A} (r : option (A * string)) : option A :=
  match r with Some (a, EmptyString) => Some a | _ => None end.

(** [Ipv4Addr::from_str] does not look at a text of more than 15 bytes. *)
Definition parse_ipv4 (s : string) : option (list Z) :=
  if decide (15 < String.length s)%nat then None else parse_all (read_ipv4_addr s).

Definition read_ip_addr (s : string) : option (IpAddr * string) :=
  match read_ipv4_addr s with
  | Some (o, s) => Some (V4 o, s)
  | None => prod_map V6 id <$> read_ipv6_addr s
  end.

(** [str::parse::<IpAddr>] *)
Definition parse_ip (s : string) : option IpAddr := parse_all (read_ip_addr s).

(** ** Printing addresses *)

Definition display_ipv4 (octets : list Z) : string := str_join "." (pretty <$> octets).

(** The first longest run of zeroes: its start and its length. *)
Fixpoint longest_zeroes (i : nat) (current longest : nat * nat) (segments : list Z) : nat * nat :=
  match segments with
  | [] => longest
  | s :: rest =>
      if decide (s = 0) then
        let current := ((if decide (current.2 = 0%nat) then i else current.1), S current.2) in
        longest_zeroes (S i) current (if decide (longest.2 < current.2)%nat then current else longest) rest
      else longest_zeroes (S i) (0, 0)%nat longest rest
  end.

Definition fmt_subslice (chunk : list Z) : string := str_join ":" (lower_hex <$> chunk).

Definition display_ipv6 (segments : list Z) : string :=
  match segments with
  | [0; 0; 0; 0; 0; 65535; a; b] => "::ffff:" +:+ display_ipv4 [a / 256; a mod 256; b / 256; b mod 256]
  | _ =>
      let '(start, len) := longest_zeroes 0 (0, 0)%nat (0, 0)%nat segments in
      if decide (1 < len)%nat then
        fmt_subslice (take start segments) +:+ "::" +:+ fmt_subslice (drop (start + len) segments)
      else fmt_subslice segments
  end.

(** ** Multiaddresses *)

Inductive Protocol :=
| Ip4 (octets : list Z)
| Ip6 (segments : list Z)
| Dns (name : string)
| Dns4 (name : string)
| Dns6 (name : string)
| Tcp (port : Z)
| Udp (port : Z)
| QuicV1
| OtherProtocol (text : string).

Abbreviation Multiaddr := (list Protocol).

Class Multiaddrs := { parse_multiaddr : string → result string Multiaddr }.

(** In the text of a multiaddress, [ip4] is followed by an IPv4 literal. *)
Class MultiaddrLaws `{Multiaddrs} : Prop := {
  multiaddr_ip4 host rest addr :
    "/"%char ∉ String.list_ascii_of_string host →
    parse_multiaddr ("/ip4/" +:+ host +:+ "/" +:+ rest) = Ok addr → is_Some (parse_ipv4 host);
}.

(** ** [libp2p_beemesh/mod.rs] *)

(** The last host and the last port of an address. *)
Definition endpoint_part (acc : option string * option Z) (proto : Protocol) : option string * option Z :=
  let '(host, port) := acc in
  match proto with
  | Ip4 ipv4 => (Some (display_ipv4 ipv4), port)
  | Ip6 ipv6 => (Some (display_ipv6 ipv6), port)
  | Dns dns | Dns4 dns | Dns6 dns => (Some dns, port)
  | Tcp value | Udp value => (host, Some value)
  | _ => (host, port)
  end.

Definition extract_listen_endpoint (addr : Multiaddr) : option (string * Z) :=
  let '(host, port) := foldl endpoint_part (None, None) addr in
  host ← host; port ← port; Some (host, port).

(** Where a node listens. *)
Definition listen_addr `{Multiaddrs} (host : string) (quic_port : Z) : result string Multiaddr :=
  match parse_ip host with
  | Some (V4 ipv4) => Ok [Ip4 ipv4; Udp quic_port; QuicV1]
  | Some (V6 ipv6) => Ok [Ip6 ipv6; Udp quic_port; QuicV1]
  | None => parse_multiaddr ("/ip4/" +:+ host +:+ "/udp/" +:+ pretty quic_port +:+ "/quic-v1")
  end.

(** GossipSub identifies a message by the hash of its data. *)
Definition message_id_fn (data : list byte) : string := pretty (default_hash (hash_bytes data)).

Record gossipsub_settings := {
  heartbeat_interval : Z;
  strict_validation : bool;
  mesh_n_low : nat;
  mesh_n : nat;
  mesh_n_high : nat;
  mesh_outbound_min : nat;
  allow_self_origin : bool;
}.

Definition gossipsub_config : gossipsub_settings :=
  {| heartbeat_interval := from_secs 10; strict_validation := true; mesh_n_low := 1; mesh_n := 3;
     mesh_n_high := 6; mesh_outbound_min := 1; allow_self_origin := true |}.

Record kademlia_settings := {
  replication_factor : nat;
  max_packet_size : Z;
  parallelism : nat;
  query_timeout : Z;
  provider_record_ttl : Z;
  provider_publication_interval : Z;
}.

Definition kademlia_config : kademlia_settings :=
  {| replication_factor := 1; max_packet_size := 1024 * 1024; parallelism := 3;
     query_timeout := from_secs 15; provider_record_ttl := from_secs 30;
     provider_publication_interval := from_secs 5 |}.

(** The names of the request-response protocols, all with full support. *)
Definition request_response_protocols : list string :=
  ["/beemesh/apply/1.0.0"; "/beemesh/handshake/1.0.0"; "/beemesh/scheduler-tasks/1.0.0";
   "/beemesh/delete/1.0.0"; "/beemesh/manifest-fetch/1.0.0"].

Definition identify_protocol : string := "/beemesh/0.1.0".

(** ** Lemmas *)

Definition display_ip (ip : IpAddr) : string :=
  match ip with V4 o => display_ipv4 o | V6 s => display_ipv6 s end.

Definition octet (n : Z) : Prop := 0 ≤ n ≤ 255.

(** Where a number ends: at the end of the text or before a dot. *)
Definition delimited (rest : string) : Prop := rest = "" ∨ ∃ r, rest = String "." r.

Lemma read_digits_app v c s v' c' rest :
  delimited rest → read_digits 10 v c s = (v', c', "") → read_digits 10 v c (s +:+ rest) = (v', c', rest).
Proof.
  intros Hrest. revert v c. induction s as [|a s IH]; intros v c.
  - simpl. intros [= <- <-]. by destruct Hrest as [->|[r ->]].
  - rewrite string_app_cons. cbn [read_digits]. destruct (to_digit 10 a); [apply IH|done].
Qed.

(** An octet is read back. *)
Lemma read_octet_pretty n rest :
  octet n → delimited rest → read_number 10 3 false 255 (pretty n +:+ rest) = Some (n, rest).
Proof.
  intros Hn Hrest.
  assert (Forall (λ n, pretty n ≠ "" ∧ (read_digits 10 0 0 (pretty n)).2 = "" ∧
    read_number 10 3 false 255 (pretty n) = Some (n, "")) (seqZ 0 256)) as Hall
    by (by apply (bool_decide_unpack _)).
  rewrite Forall_forall in Hall. destruct (Hall n) as (Hne & Hd & Hr).
  { apply elem_of_seqZ. unfold octet in Hn. lia. }
  unfold read_number in *. destruct (read_digits 10 0 0 (pretty n)) as [[v c] r] eqn:E. simpl in Hd.
  subst r. rewrite (read_digits_app _ _ _ _ _ _ Hrest E).
  assert (starts_with "0" (pretty n +:+ rest) = starts_with "0" (pretty n)) as ->.
  { destruct (pretty n) as [|a s]; [done|]. rewrite string_app_cons. cbn [starts_with].
    by rewrite !andb_true_r. }
  repeat case_match; by simplify_eq.
Qed.

Lemma read_next_octet i n rest :
  octet n → delimited rest → read_octet (S i) ("." +:+ pretty n +:+ rest) = Some (n, rest).
Proof.
  intros Hn Hrest. unfold read_octet, read_separator.
  change ("." +:+ pretty n +:+ rest) with (String "." (pretty n +:+ rest)). simpl. by apply read_octet_pretty.
Qed.

(** A printed IPv4 address is read back. *)
Lemma ipv4_roundtrip a b c d :
  octet a → octet b → octet c → octet d →
  parse_ip (display_ipv4 [a; b; c; d]) = Some (V4 [a; b; c; d]).
Proof.
  intros Ha Hb Hc Hd. unfold parse_ip, read_ip_addr, read_ipv4_addr, display_ipv4. cbn [fmap list_fmap str_join foldl].
  assert (∀ s, delimited ("." +:+ s)) by (intros s; right; by exists s).
  rewrite !string_app_assoc, <- (string_app_nil_r (pretty d)).
  change (read_octet 0) with (read_number 10 3 false 255). rewrite read_octet_pretty by done.
  do 2 (cbn [mbind option_bind]; rewrite read_next_octet by done). cbn [mbind option_bind].
  by rewrite read_next_octet by (done || by left).
Qed.

(** Reading an IPv4 address alone and reading any address agree. *)
Lemma parse_ipv4_ip s o : parse_ipv4 s = Some o → parse_ip s = Some (V4 o).
Proof.
  unfold parse_ipv4, parse_ip, read_ip_addr. case_decide; [done|].
  destruct (read_ipv4_addr s) as [[o' [|]]|]; simpl; [by intros [= <-]|done..].
Qed.

Section properties.
Context `{MultiaddrLaws}.

(** a node listens exactly when its host is an IP address: the address it
    listens on names that host and the given port, and a host name makes the
    start fail, since the fallback that should accept it never does. *)
Theorem listen_endpoint_exact host port :
  "/"%char ∉ String.list_ascii_of_string host →
  match parse_ip host with
  | Some ip => ∃ addr, listen_addr host port = Ok addr ∧
                 extract_listen_endpoint addr = Some (display_ip ip, port)
  | None => is_ok (listen_addr host port) = false
  end.
Proof.
  intros Hslash. unfold listen_addr. destruct (parse_ip host) as [[o|g]|] eqn:E; [by eexists..|].
  destruct (parse_multiaddr _) as [addr|] eqn:Ep; [|done].
  destruct (multiaddr_ip4 host _ addr Hslash Ep) as [o Ho%parse_ipv4_ip]. congruence.
Qed.

End properties.

(** ** Concrete addresses *)

(** The components a node uses. *)
Module ToyMultiaddrs.

Fixpoint components (pieces : list string) : result string Multiaddr :=
  match pieces with
  | [] => Ok []
  | "quic-v1" :: rest => result_bind (λ addr, Ok (QuicV1 :: addr)) (components rest)
  | "ip4" :: host :: rest =>
      match parse_ipv4 host with
      | Some o => result_bind (λ addr, Ok (Ip4 o :: addr)) (components rest)
      | None => Err "invalid address"
      end
  | "udp" :: port :: rest =>
      match parse_uint 16 port with
      | Some p => result_bind (λ addr, Ok (Udp p :: addr)) (components rest)
      | None => Err "invalid port"
      end
  | _ => Err "unknown protocol"
  end.

Definition parse (s : string) : result string Multiaddr :=
  match split_char "/" s with
  | "" :: pieces => components pieces
  | _ => Err "must start with /"
  end.

#[export] Instance toy_multiaddrs : Multiaddrs := {| parse_multiaddr := parse |}.

#[export] Instance toy_multiaddr_laws : MultiaddrLaws.
Proof.
  split. intros host rest addr Hslash. simpl. unfold parse.
  change ("/ip4/" +:+ host +:+ "/" +:+ rest) with (String "/" ("ip4" +:+ String "/" (host +:+ String "/" rest))).
  cbn [split_char]. rewrite decide_True by done.
  rewrite split_char_app by by apply (bool_decide_unpack _). rewrite split_char_app by done.
  cbn [components]. destruct (parse_ipv4 host) as [o|]; [by exists o|done].
Qed.

Lemma listen_endpoint_exact_witness :
  (∃ addr, listen_addr "10.0.0.7" 4001 = Ok addr ∧
     extract_listen_endpoint addr = Some ("10.0.0.7", 4001)) ∧
  is_ok (listen_addr "localhost" 4001) = false.
Proof.
  split.
  - apply (listen_endpoint_exact "10.0.0.7" 4001). by apply (bool_decide_unpack _).
  - apply (listen_endpoint_exact "localhost" 4001). by apply (bool_decide_unpack _).
Defined.

End ToyMultiaddrs.
