(* ===== verification/Serde.v ===== *)
(** * Structured values

    The value types of [serde_json] and [serde_yaml] (third-party crates) with
    the accessors the machine plane calls on them. The parsers and printers
    themselves are not part of the repository: they are the operations of the
    class [Serde], and a law about them is a hypothesis of the theorems that
    need it. *)

From S2P Require Import Prelude Utf8.

Inductive json :=
| JNull
| JBool (b : bool)
| JNumber (n : string)
| JString (s : string)
| JArray (l : list json)
| JObject (fields : list (string * json)).

Inductive yaml :=
| YNull
| YBool (b : bool)
| YNumber (n : string)
| YString (s : string)
| YSequence (l : list yaml)
| YMapping (entries : list (yaml * yaml))
| YTagged (tag : string) (v : yaml).

Fixpoint assoc {V} (k : string) (l : list (string * V)) : option V :=
  match l with
  | [] => None
  | (k', v) :: l' => if decide (k = k') then Some v else assoc k l'
  end.

(** [value.get(key)], [value.as_str()] and [value.as_object()] of [serde_json]. *)
Definition json_get (k : string) (v : json) : option json :=
  match v with JObject fields => assoc k fields | _ => None end.

Definition json_as_str (v : json) : option string :=
  match v with JString s => Some s | _ => None end.

Definition json_as_object (v : json) : option json :=
  match v with JObject _ => Some v | _ => None end.

Definition is_ystring (k : string) (v : yaml) : bool :=
  match v with YString s => bool_decide (s = k) | _ => false end.

(** [value.get(key)] of [serde_yaml] with a string key. *)
Fixpoint yaml_assoc (k : string) (l : list (yaml * yaml)) : option yaml :=
  match l with
  | [] => None
  | (k', v) :: l' => if is_ystring k k' then Some v else yaml_assoc k l'
  end.

(** The accessors look through tags ([untag_ref]). *)
Fixpoint untag (v : yaml) : yaml :=
  match v with YTagged _ v' => untag v' | _ => v end.

Definition yaml_get (k : string) (v : yaml) : option yaml :=
  match untag v with YMapping entries => yaml_assoc k entries | _ => None end.

Definition yaml_as_str (v : yaml) : option string :=
  match untag v with YString s => Some s | _ => None end.

(** [Mapping::insert] with a string key: replaces the value in place, or
    appends the entry. *)
Fixpoint yaml_insert (k : string) (v : yaml) (l : list (yaml * yaml)) : list (yaml * yaml) :=
  match l with
  | [] => [(YString k, v)]
  | (k', v') :: l' =>
      if is_ystring k k' then (k', v) :: l' else (k', v') :: yaml_insert k v l'
  end.

(** Replaces the value stored under a string key, as an assignment through
    [get_mut(key)] does. *)
Fixpoint yaml_update (k : string) (v : yaml) (l : list (yaml * yaml)) : list (yaml * yaml) :=
  match l with
  | [] => []
  | (k', v') :: l' =>
      if is_ystring k k' then (k', v) :: l' else (k', v') :: yaml_update k v l'
  end.

Class Serde := {
  json_from_str : string → option json;
  yaml_from_str : string → option yaml;
  yaml_to_string : yaml → option string;
  (** [serde_json::to_string(&HashMap<String, String>).unwrap_or_default()]
      and its inverse [serde_json::from_str]. *)
  json_map_to_string : gmap string string → string;
  json_map_from_str : string → option (gmap string string);
}.

(** Rust strings are valid UTF-8. *)
Definition utf8_string (s : string) : Prop := utf8_valid (as_bytes s) = true.

(** A map of strings is printed as JSON that parses back to it. *)
Class SerdeMapLaws `{Serde} : Prop := {
  json_map_roundtrip m : map_Forall (λ k v, utf8_string k ∧ utf8_string v) m →
    json_map_from_str (json_map_to_string m) = Some m;
  json_map_utf8 m : map_Forall (λ k v, utf8_string k ∧ utf8_string v) m →
    utf8_string (json_map_to_string m);
}.

Lemma from_utf8_as_bytes s : utf8_string s → from_utf8 (as_bytes s) = Some s.
Proof. unfold utf8_string, from_utf8. intros ->. by rewrite string_of_as_bytes. Qed.

Lemma yaml_insert_get k v l : yaml_assoc k (yaml_insert k v l) = Some v.
Proof.
  induction l as [|[k' v'] l IH]; simpl; [by rewrite bool_decide_eq_true_2|].
  destruct (is_ystring k k') eqn:E; simpl; by rewrite E.
Qed.

Lemma yaml_update_get k v l :
  is_Some (yaml_assoc k l) → yaml_assoc k (yaml_update k v l) = Some v.
Proof.
  induction l as [|[k' v'] l IH]; simpl; [by intros [? ?]|].
  destruct (is_ystring k k') eqn:E; simpl; rewrite E; [done|apply IH].
Qed.

Lemma is_ystring_eq k v : is_ystring k v = true ↔ v = YString k.
Proof. destruct v; simpl; try naive_solver. rewrite bool_decide_eq_true. naive_solver. Qed.

Lemma yaml_insert_get_ne k k' v l :
  k ≠ k' → yaml_assoc k' (yaml_insert k v l) = yaml_assoc k' l.
Proof.
  intros Hne. induction l as [|[j w] l IH]; simpl; [by rewrite bool_decide_eq_false_2|].
  destruct (is_ystring k j) eqn:E; simpl; [|by rewrite IH].
  apply is_ystring_eq in E as ->. simpl. by rewrite bool_decide_eq_false_2.
Qed.

Lemma yaml_update_get_ne k k' v l :
  k ≠ k' → yaml_assoc k' (yaml_update k v l) = yaml_assoc k' l.
Proof.
  intros Hne. induction l as [|[j w] l IH]; simpl; [done|].
  destruct (is_ystring k j) eqn:E; simpl; [|by rewrite IH].
  apply is_ystring_eq in E as ->. simpl. by rewrite bool_decide_eq_false_2.
Qed.
