(* ===== verification/Scheduler.v ===== *)
(** * The workload scheduler ([scheduler/src/lib.rs])

    The crate's data types, the candidate filter, the four selection
    strategies and [schedule_workload], with the scheduler's only mutable
    state (the round-robin counter) passed explicitly. A [None] result is a
    Rust panic (an index out of range or a remainder by zero). *)

From Stdlib Require Import SpecFloat.
From S2P Require Import Prelude.

(** ** Data *)

Inductive SchedulingStrategy := RoundRobin | Random | LoadBased | FirstAvailable.

#[export] Instance strategy_eq_dec : EqDecision SchedulingStrategy.
Proof. solve_decision. Defined.

Record SchedulerConfig := {
  max_candidates : option nat;
  strategy : SchedulingStrategy;
  enable_load_balancing : bool;
}.

Record SchedulingPlan := {
  selected_candidates : list nat;
  total_candidates : nat;
  strategy_used : SchedulingStrategy;
}.

Record NodeCapabilities := {
  cpu_cores : Z;
  memory_mb : Z;
  storage_mb : Z;
  container_runtimes : list string;
}.

(** [load_factor] is an [f32]; only its IEEE comparison is used. *)
Record NodeCandidate := {
  node_id : string;
  load_factor : spec_float;
  available : bool;
  capabilities : NodeCapabilities;
}.

Inductive SchedulingError :=
| NoCandidatesAvailable
| NoAvailableCandidates
| InsufficientCandidates (available required : nat)
| SelectionFailed.

(** The atomic counter is a [usize] of 64 bits. *)
Record Scheduler := {
  config : SchedulerConfig;
  round_robin_counter : Z;
}.

Record SchedulerStats := {
  stats_strategy : SchedulingStrategy;
  stats_round_robin_counter : Z;
  load_balancing_enabled : bool;
}.

Definition SchedulerConfig_default : SchedulerConfig :=
  {| max_candidates := None; strategy := RoundRobin; enable_load_balancing := true |}.

Definition NodeCapabilities_default : NodeCapabilities :=
  {| cpu_cores := 1; memory_mb := 1024; storage_mb := 10240;
     container_runtimes := ["docker"%string] |}.

Definition Scheduler_new (config : SchedulerConfig) : Scheduler :=
  {| config := config; round_robin_counter := 0 |}.

(** ** Operations *)

(** [candidates.iter().enumerate().filter(|(_, c)| c.available).collect()] *)
Definition available_candidates (candidates : list NodeCandidate) : list (nat * NodeCandidate) :=
  filter (λ p, available p.2 = true) (imap pair candidates).

(** [available_candidates[idx].0], which panics out of range. *)
Definition candidate_index (avail : list (nat * NodeCandidate)) (idx : Z) : option nat :=
  fst <$> avail !! Z.to_nat idx.

Definition select_first_available (avail : list (nat * NodeCandidate)) (count : nat) : list nat :=
  fst <$> take count avail.

(** [fetch_add] returns the old counter and wraps; so does [start_index + i]. *)
Definition select_round_robin (s : Scheduler) (avail : list (nat * NodeCandidate)) (count : nat) :
    option (list nat) * Scheduler :=
  let start_index := round_robin_counter s in
  let s' := {| config := config s; round_robin_counter := wrap 64 (start_index + 1) |} in
  (mapM (λ i, candidate_index avail
                (wrap 64 (start_index + Z.of_nat i) mod Z.of_nat (length avail)))
        (seq 0 count), s').

Definition MAX_ATTEMPTS : nat := 1000.

(** The [while] loop of [select_random]; every round increments [attempts],
    so [MAX_ATTEMPTS] rounds of fuel are all it can take. *)
Fixpoint random_loop (seed : Z) (avail : list (nat * NodeCandidate)) (count : nat)
    (fuel attempts : nat) (selected : gset nat) : option (gset nat) :=
  match fuel with
  | O => Some selected
  | S fuel' =>
      if bool_decide (size selected < count ∧ attempts < MAX_ATTEMPTS)%nat then
        i ← candidate_index avail
              (wrap 64 (seed + Z.of_nat attempts) mod Z.of_nat (length avail));
        random_loop seed avail count fuel' (S attempts) ({[i]} ∪ selected)
      else Some selected
  end.

(** [clock] is the nanosecond reading of the system clock; [as usize] keeps
    its low 64 bits. The set is returned in its (unspecified) iteration order. *)
Definition select_random (clock : N) (avail : list (nat * NodeCandidate)) (count : nat) :
    option (result SchedulingError (list nat)) :=
  selected ← random_loop (wrap 64 (Z.of_N clock)) avail count MAX_ATTEMPTS 0 ∅;
  if bool_decide (size selected < count)%nat then Some (Err SelectionFailed)
  else Some (Ok (elements selected)).

(** [a.1.partial_cmp(&b.1).unwrap_or(Equal)] *)
Definition load_cmp (a b : nat * spec_float) : comparison :=
  default Eq (SFcompare a.2 b.2).

(** With a load that is NaN the comparison may be no total order. *)
Definition select_load_based (avail : list (nat * NodeCandidate)) (count : nat) : option (list nat) :=
  let candidates_with_load := (λ p, (p.1, load_factor p.2)) <$> avail in
  sorted ← sort_by_checked load_cmp candidates_with_load;
  Some (fst <$> take count sorted).

Definition select_candidates (s : Scheduler) (clock : N)
    (avail : list (nat * NodeCandidate)) (count : nat) :
    option (result SchedulingError (list nat)) * Scheduler :=
  match strategy (config s) with
  | FirstAvailable => (Some (Ok (select_first_available avail count)), s)
  | RoundRobin =>
      let '(r, s') := select_round_robin s avail count in (Ok <$> r, s')
  | Random => (select_random clock avail count, s)
  | LoadBased => (Ok <$> select_load_based avail count, s)
  end.

Definition actual_required_count (s : Scheduler) (required_count : nat) : nat :=
  match max_candidates (config s) with
  | Some max => min required_count max
  | None => required_count
  end.

Definition schedule_workload (s : Scheduler) (clock : N)
    (candidates : list NodeCandidate) (required_count : nat) :
    option (result SchedulingError SchedulingPlan) * Scheduler :=
  match candidates with
  | [] => (Some (Err NoCandidatesAvailable), s)
  | _ =>
    let avail := available_candidates candidates in
    match avail with
    | [] => (Some (Err NoAvailableCandidates), s)
    | _ =>
      let available_count := length avail in
      let required := actual_required_count s required_count in
      if bool_decide (available_count < required)%nat then
        (Some (Err (InsufficientCandidates available_count required)), s)
      else
        let '(r, s') := select_candidates s clock avail required in
        (option_map (result_bind (λ selected,
           Ok {| selected_candidates := selected;
                 total_candidates := length candidates;
                 strategy_used := strategy (config s) |})) r, s')
    end
  end.

Definition get_stats (s : Scheduler) : SchedulerStats :=
  {| stats_strategy := strategy (config s);
     stats_round_robin_counter := round_robin_counter s;
     load_balancing_enabled := enable_load_balancing (config s) |}.

(** ** The indices a strategy may choose from *)

Definition available_indices (candidates : list NodeCandidate) : list nat :=
  fst <$> available_candidates candidates.

Lemma available_candidates_elem cs i c :
  (i, c) ∈ available_candidates cs ↔ cs !! i = Some c ∧ available c = true.
Proof.
  unfold available_candidates. rewrite list_elem_of_filter, elem_of_lookup_imap.
  naive_solver.
Qed.

Lemma imap_pair_fst {A} (l : list A) : fst <$> imap pair l = seq 0 (length l).
Proof.
  apply list_eq. intros i. rewrite list_lookup_fmap, list_lookup_imap.
  destruct (l !! i) as [x|] eqn:E; simpl.
  - apply lookup_lt_Some in E. by rewrite lookup_seq_lt.
  - apply lookup_ge_None in E. by rewrite lookup_seq_ge.
Qed.

Lemma available_indices_NoDup cs : NoDup (available_indices cs).
Proof.
  apply (sublist_NoDup _ (fst <$> imap pair cs)).
  - rewrite imap_pair_fst. apply NoDup_seq.
  - apply fmap_sublist, sublist_filter.
Qed.

Lemma available_indices_elem cs i :
  i ∈ available_indices cs ↔ ∃ c, cs !! i = Some c ∧ available c = true.
Proof.
  unfold available_indices. rewrite list_elem_of_fmap. split.
  - intros ([j c] & -> & H%available_candidates_elem). eauto.
  - intros (c & Hc). exists (i, c). by rewrite available_candidates_elem.
Qed.

Lemma rotate_NoDup {A} n (l : list A) : NoDup l → NoDup (rotate n l).
Proof.
  unfold rotate. intros H. rewrite Permutation_app_comm. by rewrite take_drop.
Qed.

(** Each index expression [(start + i) % len] of the code reads a rotation of
    the available indices, as long as [start + i] does not wrap around. *)
Lemma candidate_index_rotate avail start i :
  0 ≤ start → start + Z.of_nat i < 2 ^ 64 → (i < length avail)%nat →
  candidate_index avail (wrap 64 (start + Z.of_nat i) mod Z.of_nat (length avail)) =
  rotate (Z.to_nat start) (fst <$> avail) !! i.
Proof.
  intros H0 H1 Hi. rewrite lookup_rotate_r by by rewrite length_fmap.
  unfold candidate_index, rotate_nat_add. rewrite length_fmap, list_lookup_fmap, Z2Nat.id by done.
  by rewrite wrap_small by u_lia.
Qed.

(** ** Round robin *)

Lemma select_round_robin_rotate s avail count :
  0 ≤ round_robin_counter s → round_robin_counter s + Z.of_nat count ≤ 2 ^ 64 →
  (count ≤ length avail)%nat →
  (select_round_robin s avail count).1 =
  Some (take count (rotate (Z.to_nat (round_robin_counter s)) (fst <$> avail))).
Proof.
  intros H0 H1 Hc. simpl. apply mapM_Some, Forall2_same_length_lookup.
  rewrite length_seq, length_take, length_rotate, length_fmap. split; [lia|].
  intros i x y Hx%lookup_seq Hy. destruct Hx as [-> ?].
  rewrite lookup_take_lt in Hy by done.
  rewrite <- Hy. simpl. apply candidate_index_rotate; lia.
Qed.

(** ** Random selection *)

Lemma random_loop_window seed avail count k :
  0 ≤ seed → seed + Z.of_nat MAX_ATTEMPTS ≤ 2 ^ 64 →
  NoDup (fst <$> avail) → (count ≤ length avail)%nat →
  (k ≤ min count MAX_ATTEMPTS)%nat →
  let idxs := rotate (Z.to_nat seed) (fst <$> avail) in
  random_loop seed avail count (MAX_ATTEMPTS - k) k (list_to_set (take k idxs)) =
  Some (list_to_set (take (min count MAX_ATTEMPTS) idxs)).
Proof.
  intros H0 H1 Hnd Hc Hk idxs. remember (min count MAX_ATTEMPTS - k)%nat as d eqn:Hd.
  assert (Hlen : length idxs = length avail) by (unfold idxs; by rewrite length_rotate, length_fmap).
  assert (Hsize : ∀ j, (j ≤ length avail)%nat →
      size (list_to_set (take j idxs) : gset nat) = j).
  { intros j Hj. rewrite size_list_to_set, length_take; [lia|].
    eapply sublist_NoDup; [by apply rotate_NoDup, Hnd|apply sublist_take]. }
  revert k Hk Hd. induction d as [|d IH]; intros k Hk Hd.
  - assert (k = min count MAX_ATTEMPTS) as -> by lia.
    destruct (MAX_ATTEMPTS - _)%nat eqn:E; [done|]. cbn [random_loop].
    rewrite bool_decide_eq_false_2; [done|]. rewrite Hsize by lia. lia.
  - destruct (MAX_ATTEMPTS - k)%nat as [|fuel] eqn:E; [lia|]. cbn [random_loop].
    rewrite bool_decide_eq_true_2 by (rewrite Hsize; lia).
    rewrite candidate_index_rotate by lia. fold idxs.
    destruct (idxs !! k) as [x|] eqn:Ex; [|apply lookup_ge_None in Ex; lia]. simpl.
    replace fuel with (MAX_ATTEMPTS - S k)%nat by lia. rewrite <- (IH (S k)) by lia.
    f_equal. rewrite (take_S_r _ _ _ Ex), list_to_set_app_L. set_solver.
Qed.

Lemma select_random_window clock avail count :
  wrap 64 (Z.of_N clock) + Z.of_nat MAX_ATTEMPTS ≤ 2 ^ 64 →
  NoDup (fst <$> avail) → (count ≤ length avail)%nat →
  select_random clock avail count =
  Some (if bool_decide (count ≤ MAX_ATTEMPTS)%nat
        then Ok (elements (list_to_set (take count
               (rotate (Z.to_nat (wrap 64 (Z.of_N clock))) (fst <$> avail))) : gset nat))
        else Err SelectionFailed).
Proof.
  intros H1 Hnd Hc. set (seed := wrap 64 (Z.of_N clock)) in *.
  assert (0 ≤ seed) by (apply (wrap_in_u 64); lia).
  assert (Hlen : length (rotate (Z.to_nat seed) (fst <$> avail)) = length avail)
    by by rewrite length_rotate, length_fmap.
  pose proof (random_loop_window seed avail count 0 ltac:(lia) H1 Hnd Hc ltac:(lia)) as Hl.
  cbv zeta in Hl. rewrite Nat.sub_0_r in Hl. change (list_to_set _) with (∅ : gset nat) in Hl at 1.
  unfold select_random. fold seed. rewrite Hl. simpl.
  rewrite size_list_to_set, length_take, Hlen;
    [|eapply sublist_NoDup; [by apply rotate_NoDup, Hnd|apply sublist_take]].
  repeat case_bool_decide; try lia; [done|]. by rewrite Nat.min_l by lia.
Qed.

(** ** Load-based selection

    On floats that are not NaN the comparison is the lexicographic order of a
    triple of integers, hence a total preorder. *)

Definition not_nan (f : spec_float) : Prop := f ≠ S754_nan.

Definition float_key (f : spec_float) : Z * Z * Z :=
  match f with
  | S754_zero _ | S754_nan => (0, 0, 0)
  | S754_infinity s => (if s then -2 else 2, 0, 0)
  | S754_finite false m e => (1, e, Z.pos m)
  | S754_finite true m e => (-1, - e, - Z.pos m)
  end.

Definition key_le (k l : Z * Z * Z) : Prop :=
  let '(a, b, c) := k in let '(a', b', c') := l in
  a < a' ∨ (a = a' ∧ (b < b' ∨ (b = b' ∧ c ≤ c'))).

Lemma SFcompare_key f g :
  not_nan f → not_nan g → default Eq (SFcompare f g) ≠ Gt ↔ key_le (float_key f) (float_key g).
Proof.
  unfold not_nan, key_le. intros Hf Hg.
  destruct f as [s|s| |s m e], g as [s'|s'| |s' m' e']; try done;
    destruct s, s'; simpl; try (split; [intros; lia|congruence]); try (split; intros; [done|lia]);
    change (Pos.compare_cont Eq m m') with (m ?= m')%positive;
    destruct (Z.compare_spec e e'); simpl; try (split; intros; [done || lia|done || lia]);
    destruct (Pos.compare_spec m m'); simpl; split; intros; (done || lia).
Qed.

Lemma key_le_refl_total k l : ¬ key_le k l → key_le l k.
Proof. destruct k as [[a b] c], l as [[a' b'] c']. unfold key_le. lia. Qed.

Lemma key_le_trans k l m : key_le k l → key_le l m → key_le k m.
Proof.
  destruct k as [[a b] c], l as [[a' b'] c'], m as [[a'' b''] c'']. unfold key_le. lia.
Qed.

Definition real_load (p : nat * spec_float) : Prop := not_nan p.2.

#[export] Instance load_cmp_preorder : PreorderOn load_cmp real_load.
Proof.
  split.
  - intros a b Ha Hb H. apply SFcompare_key; [done..|].
    apply key_le_refl_total. intros H'%SFcompare_key; done.
  - unfold cmp_le, load_cmp. intros a b c Ha Hb Hc.
    rewrite !SFcompare_key by done. apply key_le_trans.
Qed.

Lemma StronglySorted_take_drop {A} (R : relation A) n (l : list A) x y :
  StronglySorted R l → x ∈ take n l → y ∈ drop n l → R x y.
Proof.
  rewrite <- (take_drop n l) at 1. intros Hs Hx Hy.
  revert Hs Hx. induction (take n l) as [|z k IH]; simpl; [by rewrite elem_of_nil|].
  intros Hs. apply StronglySorted_inv in Hs as [Hs Hz].
  rewrite elem_of_cons. intros [->|Hx]; [|by apply IH].
  rewrite Forall_app, !Forall_forall in Hz. by apply Hz.
Qed.

(** ** What a successful selection delivers *)

Definition valid_selection (cs : list NodeCandidate) (count : nat) (sel : list nat) : Prop :=
  length sel = count ∧ NoDup sel ∧
  ∀ i, i ∈ sel → ∃ c, cs !! i = Some c ∧ available c = true.

Lemma valid_selection_sublist cs count l :
  l ≡ₚ available_indices cs → (count ≤ length l)%nat → valid_selection cs count (take count l).
Proof.
  intros Hp Hc. split; [|split].
  - by rewrite length_take_le.
  - eapply sublist_NoDup; [|apply sublist_take]. rewrite Hp. apply available_indices_NoDup.
  - intros i Hi. apply available_indices_elem. rewrite <- Hp.
    eapply elem_of_submseteq; [done|]. apply sublist_submseteq, sublist_take.
Qed.

Lemma rotate_perm {A} n (l : list A) : rotate n l ≡ₚ l.
Proof. unfold rotate. by rewrite Permutation_app_comm, take_drop. Qed.

Lemma valid_selection_perm cs count l k :
  l ≡ₚ k → valid_selection cs count k → valid_selection cs count l.
Proof. intros Hp (H1 & H2 & H3). unfold valid_selection. setoid_rewrite Hp. done. Qed.

(** No available candidate has a load that is NaN. *)
Definition real_loads (cs : list NodeCandidate) : Prop :=
  ∀ k c, cs !! k = Some c → available c = true → not_nan (load_factor c).

Lemma real_loads_pairs cs : real_loads cs →
  Forall real_load ((λ p : nat * NodeCandidate, (p.1, load_factor p.2)) <$> available_candidates cs).
Proof.
  intros Hr. apply Forall_fmap, Forall_forall. intros [k c] [Hk Ha]%available_candidates_elem. by eapply Hr.
Qed.

Lemma select_load_based_sorted cs count : real_loads cs →
  select_load_based (available_candidates cs) count =
  Some (take count (fst <$> sort_by load_cmp
     ((λ p : nat * NodeCandidate, (p.1, load_factor p.2)) <$> available_candidates cs))).
Proof.
  intros Hr%real_loads_pairs. unfold select_load_based.
  rewrite (sort_by_checked_total _ _ _ Hr). simpl. by rewrite fmap_take.
Qed.

Lemma load_pairs_fst (cs : list NodeCandidate) :
  fst <$> ((λ p : nat * NodeCandidate, (p.1, load_factor p.2)) <$> available_candidates cs)
  = available_indices cs.
Proof. rewrite <- list_fmap_compose. by apply list_fmap_ext. Qed.

(** When the counter and the seed do not wrap around within one call. *)
Definition no_wraparound (s : Scheduler) (clock : N) (count : nat) : Prop :=
  0 ≤ round_robin_counter s ∧
  match strategy (config s) with
  | RoundRobin => round_robin_counter s + Z.of_nat count ≤ 2 ^ 64
  | Random => wrap 64 (Z.of_N clock) + Z.of_nat MAX_ATTEMPTS ≤ 2 ^ 64
  | _ => True
  end.

(** The random strategy gives up after [MAX_ATTEMPTS] rounds. *)
Definition gives_up (s : Scheduler) (count : nat) : Prop :=
  strategy (config s) = Random ∧ (MAX_ATTEMPTS < count)%nat.

#[global] Instance gives_up_dec s count : Decision (gives_up s count).
Proof. unfold gives_up. apply _. Defined.

Lemma select_candidates_valid s clock cs count :
  no_wraparound s clock count → (strategy (config s) = LoadBased → real_loads cs) →
  (count ≤ length (available_candidates cs))%nat → ¬ gives_up s count →
  ∃ sel s', select_candidates s clock (available_candidates cs) count = (Some (Ok sel), s') ∧
            valid_selection cs count sel.
Proof.
  unfold no_wraparound, select_candidates, gives_up. intros [H0 Hw] Hload Hc Hgu.
  assert (Hlen : length (available_indices cs) = length (available_candidates cs))
    by apply length_fmap.
  destruct (strategy (config s)).
  - pose proof (select_round_robin_rotate s _ _ H0 Hw Hc) as Hr.
    destruct (select_round_robin _ _ _) as [r s'] eqn:E. simpl in Hr. subst r.
    eexists _, _. split; [done|].
    apply valid_selection_sublist; [apply rotate_perm|]. rewrite length_rotate, length_fmap. lia.
  - rewrite select_random_window; [|done|apply available_indices_NoDup|done].
    rewrite bool_decide_eq_true_2 by (apply dec_stable; intros Hm; apply Hgu; split; [done|lia]).
    eexists _, _. split; [done|]. eapply valid_selection_perm; [apply elements_list_to_set|].
    { eapply sublist_NoDup; [apply rotate_NoDup, available_indices_NoDup|apply sublist_take]. }
    apply valid_selection_sublist; [apply rotate_perm|]. rewrite length_rotate, length_fmap. lia.
  - rewrite select_load_based_sorted by by apply Hload. eexists _, _. split; [done|].
    assert (Hp : fst <$> sort_by load_cmp ((λ p : nat * NodeCandidate, (p.1, load_factor p.2))
      <$> available_candidates cs) ≡ₚ available_indices cs)
      by (rewrite sort_by_perm; by rewrite load_pairs_fst).
    apply valid_selection_sublist; [done|]. rewrite Hp. lia.
  - eexists _, _. split; [done|]. unfold select_first_available. rewrite fmap_take.
    apply (valid_selection_sublist cs _ (available_indices cs)); [done|lia].
Qed.

(** ** Properties of [schedule_workload] *)

Lemma schedule_workload_select s clock cs required :
  available_candidates cs ≠ [] →
  (actual_required_count s required ≤ length (available_candidates cs))%nat →
  schedule_workload s clock cs required =
  let '(r, s') := select_candidates s clock (available_candidates cs)
                    (actual_required_count s required) in
  (option_map (result_bind (λ selected,
     Ok {| selected_candidates := selected; total_candidates := length cs;
           strategy_used := strategy (config s) |})) r, s').
Proof.
  intros Hne Hle. unfold schedule_workload. destruct cs as [|c cs]; [done|].
  destruct (available_candidates (c :: cs)) as [|a l]; [done|].
  by rewrite bool_decide_eq_false_2 by lia.
Qed.

(** C1: with enough available candidates every strategy returns a plan, without
    a panic, of exactly [min(required, max_candidates)] distinct indices, all of
    available candidates; but the random strategy fails, with [SelectionFailed],
    exactly when more than its 1000 attempts are required. Provided that the
    counter of the round robin and the seed of the random strategy do not wrap
    around within the call, and, for the load-based strategy, that no available
    candidate has a load that is NaN. *)
Theorem schedule_workload_correct s clock cs required :
  let count := actual_required_count s required in
  available_candidates cs ≠ [] → (count ≤ length (available_candidates cs))%nat →
  no_wraparound s clock count → (strategy (config s) = LoadBased → real_loads cs) →
  ∃ r s', schedule_workload s clock cs required = (Some r, s') ∧
    if decide (gives_up s count) then r = Err SelectionFailed
    else ∃ plan, r = Ok plan ∧ valid_selection cs count (selected_candidates plan) ∧
      total_candidates plan = length cs ∧ strategy_used plan = strategy (config s).
Proof.
  intros count Hne Hle Hw Hload. rewrite schedule_workload_select by done. fold count. case_decide as Hg.
  - destruct Hg as [Hst Hm]. unfold select_candidates. destruct Hw as [_ Hw]. rewrite Hst in Hw |- *.
    rewrite select_random_window by (done || apply available_indices_NoDup).
    rewrite bool_decide_eq_false_2 by lia. by eexists _, _.
  - destruct (select_candidates_valid s clock cs _ Hw Hload Hle Hg) as (sel & s' & -> & Hsel).
    simpl. eauto 10.
Qed.

(** the three refusals, each exactly when its condition holds, and none
    of them touches the scheduler's state. *)
Theorem schedule_workload_errors s clock cs required :
  let r := schedule_workload s clock cs required in
  let avail := length (available_candidates cs) in
  (r.1 = Some (Err NoCandidatesAvailable) ↔ cs = []) ∧
  (r.1 = Some (Err NoAvailableCandidates) ↔ cs ≠ [] ∧ avail = 0%nat) ∧
  (∀ a n, r.1 = Some (Err (InsufficientCandidates a n)) ↔
     a = avail ∧ n = actual_required_count s required ∧ (0 < avail < n)%nat) ∧
  ((avail < actual_required_count s required)%nat → r.2 = s).
Proof.
  intros r avail. subst r avail. unfold schedule_workload.
  destruct cs as [|c cs]; [simpl; naive_solver lia|].
  destruct (available_candidates (c :: cs)) as [|a l] eqn:E; [simpl; naive_solver lia|].
  case_bool_decide as Hlt; [simpl in *; naive_solver lia|].
  assert (Hs : ∀ e, option_map (result_bind (λ selected,
     Ok {| selected_candidates := selected; total_candidates := length (c :: cs);
           strategy_used := strategy (config s) |}))
     (select_candidates s clock (a :: l) (actual_required_count s required)).1 = Some (Err e) →
     e = SelectionFailed).
  { intros e. unfold select_candidates. destruct (strategy (config s)); try done.
    - destruct (select_round_robin _ _ _) as [[] ?]; done.
    - unfold select_random. destruct (random_loop _ _ _ _ _ _); simpl; [|done].
      case_bool_decide; simpl; congruence.
    - destruct (select_load_based _ _); done. }
  destruct (select_candidates _ _ _ _) as [r s']. simpl in *.
  split_and!; [split; [intros H%Hs; done|done]|split; [intros H%Hs; done|lia]| |lia].
  intros a' n. split; [intros H%Hs; done|lia].
Qed.

(** the load-based strategy chooses the least loaded candidates: no
    available candidate that was left out has a smaller load than one that was
    chosen (load factors being numbers, not NaN). *)
Theorem load_based_least_loaded cs count sel i j ci cj :
  real_loads cs → select_load_based (available_candidates cs) count = Some sel →
  i ∈ sel → cs !! i = Some ci → j ∉ sel → cs !! j = Some cj → available cj = true →
  SFleb (load_factor ci) (load_factor cj) = true.
Proof.
  intros Hnan Hsel Hi Hci Hj Hcj Hav. rewrite select_load_based_sorted in Hsel by done.
  injection Hsel as <-. rewrite <- fmap_take in Hi, Hj.
  set (loads := (λ p, (p.1, load_factor p.2)) <$> available_candidates cs) in *.
  assert (Hin : ∀ k f, (k, f) ∈ loads ↔
      ∃ c, cs !! k = Some c ∧ available c = true ∧ f = load_factor c).
  { intros k f. unfold loads. rewrite list_elem_of_fmap. split.
    - intros ([k' c] & ? & Hc%available_candidates_elem). naive_solver.
    - intros (c & ? & ? & ->). exists (k, c). by rewrite available_candidates_elem. }
  assert (HP : Forall real_load loads).
  { by apply real_loads_pairs. }
  pose proof (sort_by_sorted load_cmp real_load loads HP) as Hs.
  apply list_elem_of_fmap in Hi as ([i' fi] & -> & Hi). simpl in *.
  assert (Hjl : (j, load_factor cj) ∈ drop count (sort_by load_cmp loads)).
  { assert (H : (j, load_factor cj) ∈ sort_by load_cmp loads)
      by (rewrite sort_by_perm; apply Hin; eauto).
    rewrite <- (take_drop count) in H. apply elem_of_app in H as [H|H]; [|done].
    destruct Hj. apply list_elem_of_fmap. by exists (j, load_factor cj). }
  pose proof (StronglySorted_take_drop _ _ _ _ _ Hs Hi Hjl) as Hle.
  assert (Hil : (i', fi) ∈ loads).
  { rewrite <- (sort_by_perm load_cmp). eapply elem_of_submseteq; [done|].
    apply sublist_submseteq, sublist_take. }
  apply Hin in Hil as (c & Hc & Hca & ->). simplify_eq.
  unfold cmp_le, load_cmp, SFleb in *. simpl in Hle.
  pose proof (Hnan i' ci Hci Hca). pose proof (Hnan j cj Hcj Hav).
  destruct (SFcompare (load_factor ci) (load_factor cj)) as [[]|] eqn:E; try done.
  unfold not_nan in *. destruct (load_factor ci), (load_factor cj); done.
Qed.

(** A sequence of [n] one-candidate calls, as a deployer issues them. *)
Fixpoint schedule_each (s : Scheduler) (clock : N) (cs : list NodeCandidate) (n : nat) :
    list (option (result SchedulingError SchedulingPlan)) * Scheduler :=
  match n with
  | O => ([], s)
  | S n' =>
      let '(r, s') := schedule_workload s clock cs 1 in
      let '(rs, s'') := schedule_each s' clock cs n' in (r :: rs, s'')
  end.

Definition plan_of (cs : list NodeCandidate) (i : nat) :
    option (result SchedulingError SchedulingPlan) :=
  Some (Ok {| selected_candidates := [i]; total_candidates := length cs;
              strategy_used := RoundRobin |}).

Lemma round_robin_one s clock cs :
  strategy (config s) = RoundRobin → max_candidates (config s) = None →
  0 ≤ round_robin_counter s < 2 ^ 64 - 1 → available_candidates cs ≠ [] →
  ∃ i, available_indices cs !!
         (Z.to_nat (round_robin_counter s) mod length (available_indices cs))%nat = Some i ∧
  schedule_workload s clock cs 1 =
    (plan_of cs i, {| config := config s; round_robin_counter := round_robin_counter s + 1 |}).
Proof.
  intros Hst Hmax Hc Hne.
  assert (Hlen : (0 < length (available_candidates cs))%nat)
    by (destruct (available_candidates cs); [done|simpl; lia]).
  assert (Hreq : actual_required_count s 1 = 1%nat) by (unfold actual_required_count; by rewrite Hmax).
  rewrite schedule_workload_select by (rewrite ?Hreq; done || lia).
  unfold select_candidates. rewrite Hst, Hreq.
  pose proof (select_round_robin_rotate s (available_candidates cs) 1
    ltac:(lia) ltac:(simpl; lia) ltac:(lia)) as Hr.
  fold (available_indices cs) in Hr. set (l := available_indices cs) in *.
  assert (Hl : length l = length (available_candidates cs)) by apply length_fmap.
  destruct (lookup_lt_is_Some_2 l (Z.to_nat (round_robin_counter s) mod length l)%nat) as [i Hi].
  { rewrite Hl. apply Nat.mod_upper_bound. lia. }
  exists i. split; [done|].
  assert (Hrot : take 1 (rotate (Z.to_nat (round_robin_counter s)) l) = [i]).
  { unfold rotate. rewrite (drop_S _ _ _ Hi). done. }
  rewrite Hrot in Hr. unfold select_round_robin in *. cbn [fst] in Hr. rewrite Hr.
  simpl. unfold plan_of. by rewrite wrap_small by u_lia.
Qed.

Lemma schedule_each_rotate n s clock cs :
  strategy (config s) = RoundRobin → max_candidates (config s) = None →
  0 ≤ round_robin_counter s → round_robin_counter s + Z.of_nat n < 2 ^ 64 →
  available_candidates cs ≠ [] →
  ∃ sel, (schedule_each s clock cs n).1 = plan_of cs <$> sel ∧ length sel = n ∧
    ∀ k, (k < n)%nat → sel !! k = available_indices cs !!
      rotate_nat_add (Z.to_nat (round_robin_counter s)) k (length (available_indices cs)).
Proof.
  revert s. induction n as [|n IH]; intros s Hst Hmax H0 Hn Hne; simpl.
  { exists []. split_and!; [done..|lia]. }
  destruct (round_robin_one s clock cs Hst Hmax ltac:(lia) Hne) as (i & Hi & ->).
  destruct (IH {| config := config s; round_robin_counter := round_robin_counter s + 1 |})
    as (sel & Hsel & Hlen & Hk); simpl; [done|done|lia|lia|done|].
  destruct (schedule_each _ clock cs n) as [rs s'']. simpl in *. subst rs.
  exists (i :: sel). split_and!; [done|simpl; lia|].
  intros [|k] Hk'; simpl.
  - rewrite <- Hi. f_equal. unfold rotate_nat_add.
    rewrite Z.add_0_r, Z2Nat.id by lia. rewrite <- (Z2Nat.id (round_robin_counter s)) at 2 by lia.
    rewrite <- Nat2Z.inj_mod. lia.
  - rewrite Hk by lia. f_equal. unfold rotate_nat_add. f_equal. f_equal. lia.
Qed.

(** round robin is fair: as many consecutive one-candidate calls as there
    are available candidates select each of them exactly once. *)
Theorem round_robin_fair s clock cs :
  strategy (config s) = RoundRobin → max_candidates (config s) = None →
  0 ≤ round_robin_counter s →
  round_robin_counter s + Z.of_nat (length (available_indices cs)) < 2 ^ 64 →
  available_candidates cs ≠ [] →
  ∃ sel, (schedule_each s clock cs (length (available_indices cs))).1 = plan_of cs <$> sel ∧
         sel ≡ₚ available_indices cs.
Proof.
  intros Hst Hmax H0 Hn Hne.
  destruct (schedule_each_rotate _ s clock cs Hst Hmax H0 Hn Hne) as (sel & Hsel & Hlen & Hk).
  exists sel. split; [done|].
  rewrite <- (rotate_perm (Z.to_nat (round_robin_counter s)) (available_indices cs)).
  assert (sel = rotate (Z.to_nat (round_robin_counter s)) (available_indices cs)) as ->; [|done].
  apply list_eq_same_length with (length sel); [by rewrite length_rotate|done|].
  intros k x y Hkl Hx Hy. rewrite Hk in Hx by lia.
  rewrite lookup_rotate_r in Hy by lia. congruence.
Qed.

(** ** Concrete runs *)

(** The crate's [create_test_candidates]: load factors [i * 0.1] as [f32]
    (only the mantissas and exponents of the first three are needed here). *)
Definition test_candidate (i : nat) (load : spec_float) (av : bool) : NodeCandidate :=
  {| node_id := "node-" +:+ pretty i; load_factor := load; available := av;
     capabilities := NodeCapabilities_default |}.

Definition test_candidates : list NodeCandidate :=
  [test_candidate 0 (S754_finite false 13421773 (-25)) true;   (* 0.4 *)
   test_candidate 1 (S754_zero false) true;                    (* 0.0 *)
   test_candidate 2 (S754_finite false 13421773 (-26)) false;  (* 0.2 *)
   test_candidate 3 (S754_finite false 13421773 (-27)) true].  (* 0.1 *)

Definition test_scheduler (st : SchedulingStrategy) : Scheduler :=
  Scheduler_new {| max_candidates := None; strategy := st; enable_load_balancing := true |}.

Lemma test_loads : real_loads test_candidates.
Proof. intros [|[|[|[|k]]]] c Hc Ha; simplify_eq/=; discriminate. Qed.

Lemma schedule_workload_correct_witness :
  ∃ r s', schedule_workload (test_scheduler LoadBased) 0 test_candidates 2 = (Some r, s') ∧
    ∃ plan, r = Ok plan ∧ valid_selection test_candidates 2 (selected_candidates plan) ∧
    total_candidates plan = 4%nat ∧ strategy_used plan = LoadBased.
Proof.
  apply (schedule_workload_correct (test_scheduler LoadBased) 0 test_candidates 2).
  - vm_compute. discriminate.
  - vm_compute. lia.
  - split; [vm_compute; discriminate|exact I].
  - intros _. exact test_loads.
Defined.

Lemma load_based_least_loaded_witness :
  select_load_based (available_candidates test_candidates) 2 = Some [1; 3]%nat ∧
  SFleb (S754_finite false 13421773 (-27)) (S754_finite false 13421773 (-25)) = true.
Proof.
  assert (Hsel : select_load_based (available_candidates test_candidates) 2 = Some [1; 3]%nat) by reflexivity.
  split; [exact Hsel|].
  apply (load_based_least_loaded test_candidates 2 [1; 3]%nat 3 0
    (test_candidate 3 (S754_finite false 13421773 (-27)) true)
    (test_candidate 0 (S754_finite false 13421773 (-25)) true)); [exact test_loads|exact Hsel|
     apply (bool_decide_unpack _); vm_compute; exact I|done
    |apply (bool_decide_unpack _); vm_compute; exact I|done|done].
Defined.

Lemma round_robin_fair_witness :
  ∃ sel, (schedule_each (test_scheduler RoundRobin) 0 test_candidates 3).1
           = plan_of test_candidates <$> sel ∧
         sel ≡ₚ available_indices test_candidates.
Proof.
  apply (round_robin_fair (test_scheduler RoundRobin) 0 test_candidates);
    [done|done|done|vm_compute; done|discriminate].
Defined.
