(* ===== verification/Runtime.v ===== *)
(** * Runtime engines and their registry ([machine/src/runtime/mod.rs])

    The workload data types, the [RuntimeEngine] trait as a record of
    operations on an abstract engine world [W] (what the containers of the
    node are), and the registry that names engines. Operations that change the
    world return the new one; a reading of the system clock is an argument. *)

From Stdlib Require Import SpecFloat.
From S2P Require Import Prelude RustStr Utf8.

(** ** Data *)

Inductive RuntimeError :=
| EngineNotAvailable (m : string)
| InvalidManifest (m : string)
| DeploymentFailed (m : string)
| RuntimeWorkloadNotFound (id : string)
| IoError (m : string)
| CommandFailed (m : string).

(** The [Display] text ([#[error(...)]]). *)
Definition runtime_error_text (e : RuntimeError) : string :=
  match e with
  | EngineNotAvailable m => "Runtime engine not available: " +:+ m
  | InvalidManifest m => "Invalid manifest format: " +:+ m
  | DeploymentFailed m => "Deployment failed: " +:+ m
  | RuntimeWorkloadNotFound m => "Workload not found: " +:+ m
  | IoError m => "IO error: " +:+ m
  | CommandFailed m => "Command execution failed: " +:+ m
  end.

Inductive WorkloadStatus := Starting | Running | Stopped | Failed (m : string) | Unknown.

Record PortMapping := {
  container_port : Z;
  host_port : option Z;
  port_protocol : string;
}.

Record WorkloadInfo := {
  info_id : string;
  info_manifest_id : string;
  info_status : WorkloadStatus;
  info_metadata : gmap string string;
  info_created_at : Z;
  info_updated_at : Z;
  info_ports : list PortMapping;
}.

Record ResourceLimits := {
  limit_cpu : option spec_float;
  limit_memory : option Z;
  limit_storage : option Z;
}.

Record DeploymentConfig := {
  replicas : Z;
  resources : ResourceLimits;
  env : gmap string string;
  runtime_options : gmap string string;
}.

Definition DeploymentConfig_default : DeploymentConfig :=
  {| replicas := 1;
     resources := {| limit_cpu := None; limit_memory := None; limit_storage := None |};
     env := ∅; runtime_options := ∅ |}.

(** ** The trait *)

Record RuntimeEngine (W : Type) := {
  engine_name : string;
  is_available : W → bool;
  deploy_workload : Z → string → list byte → DeploymentConfig → W →
                    result RuntimeError WorkloadInfo * W;
  get_workload_status : Z → string → W → result RuntimeError WorkloadInfo;
  list_workloads : Z → W → result RuntimeError (list WorkloadInfo);
  remove_workload : string → W → result RuntimeError () * W;
  get_workload_logs : string → option nat → W → result RuntimeError string;
  validate_manifest : list byte → W → result RuntimeError ();
  export_manifest : string → W → result RuntimeError (list byte);
}.

Arguments engine_name {W} _.
Arguments is_available {W} _ _.
Arguments deploy_workload {W} _ _ _ _ _ _.
Arguments get_workload_status {W} _ _ _ _.
Arguments list_workloads {W} _ _ _.
Arguments remove_workload {W} _ _ _.
Arguments get_workload_logs {W} _ _ _ _.
Arguments validate_manifest {W} _ _ _.
Arguments export_manifest {W} _ _ _.

Definition add_metadata (k v : string) (i : WorkloadInfo) : WorkloadInfo :=
  {| info_id := info_id i; info_manifest_id := info_manifest_id i;
     info_status := info_status i; info_metadata := <[k := v]> (info_metadata i);
     info_created_at := info_created_at i; info_updated_at := info_updated_at i;
     info_ports := info_ports i |}.

(** [workload.metadata.get("local_peer_id").map(|p| p == peer).unwrap_or(false)] *)
Definition deployed_by (peer : string) (i : WorkloadInfo) : bool :=
  match info_metadata i !! "local_peer_id" with
  | Some p => bool_decide (p = peer)
  | None => false
  end.

(** What a client of an engine relies on: a successful deployment can be
    queried under the identifier it returned, a removed workload cannot, an
    operation that fails changes nothing, and no operation touches the other
    workloads. *)
Class EngineLaws {W} (e : RuntimeEngine W) : Prop := {
  deploy_then_status now id c cfg w i w' : deploy_workload e now id c cfg w = (Ok i, w') →
    ∀ now', ∃ i', get_workload_status e now' (info_id i) w' = Ok i' ∧
      info_id i' = info_id i ∧ info_manifest_id i' = id ∧ info_status i' = info_status i;
  deploy_frame now id c cfg w i w' : deploy_workload e now id c cfg w = (Ok i, w') →
    ∀ now' wid, wid ≠ info_id i → get_workload_status e now' wid w' = get_workload_status e now' wid w;
  deploy_failed now id c cfg w err w' : deploy_workload e now id c cfg w = (Err err, w') → w' = w;
  deploy_manifest now id c cfg w i w' : deploy_workload e now id c cfg w = (Ok i, w') →
    info_manifest_id i = id;
  remove_known wid w now i : get_workload_status e now wid w = Ok i →
    (remove_workload e wid w).1 = Ok ();
  remove_then_status wid w w' : remove_workload e wid w = (Ok (), w') →
    ∀ now, get_workload_status e now wid w' = Err (RuntimeWorkloadNotFound wid);
  remove_frame wid w w' : remove_workload e wid w = (Ok (), w') →
    ∀ now wid', wid' ≠ wid → get_workload_status e now wid' w' = get_workload_status e now wid' w;
  remove_failed wid w err w' : remove_workload e wid w = (Err err, w') → w' = w;
}.

Section trait_defaults.
Context {W : Type}.

(** The trait's default methods. *)
Definition default_deploy_workload_with_peer (e : RuntimeEngine W) (now : Z)
    (manifest_id : string) (content : list byte) (config : DeploymentConfig)
    (local_peer_id : string) (w : W) : result RuntimeError WorkloadInfo * W :=
  let '(r, w') := deploy_workload e now manifest_id content config w in
  (result_bind (λ i, Ok (add_metadata "local_peer_id" local_peer_id i)) r, w').

Definition default_list_workloads_by_peer (e : RuntimeEngine W) (now : Z)
    (local_peer_id : string) (w : W) : result RuntimeError (list WorkloadInfo) :=
  result_bind (λ all, Ok (filter (λ i, deployed_by local_peer_id i = true) all))
    (list_workloads e now w).

End trait_defaults.

(** ** The registry *)

Record RuntimeRegistry (W : Type) := {
  engines : gmap string (RuntimeEngine W);
  default_engine : option string;
}.

Arguments engines {W} _.
Arguments default_engine {W} _.

Section registry.
Context {W : Type}.
Implicit Types (reg : RuntimeRegistry W) (e : RuntimeEngine W) (w : W).

Definition registry_new : RuntimeRegistry W := {| engines := ∅; default_engine := None |}.

Definition register e reg : RuntimeRegistry W :=
  {| engines := <[engine_name e := e]> (engines reg);
     default_engine := match default_engine reg with
                       | None => Some (engine_name e)
                       | Some d => Some d
                       end |}.

Definition get_engine reg (name : string) : option (RuntimeEngine W) := engines reg !! name.

Definition get_default_engine reg : option (RuntimeEngine W) :=
  default_engine reg ≫= get_engine reg.

Definition set_default_engine (name : string) reg : result RuntimeError () * RuntimeRegistry W :=
  if decide (is_Some (engines reg !! name))
  then (Ok (), {| engines := engines reg; default_engine := Some name |})
  else (Err (EngineNotAvailable name), reg).

Definition list_engines reg : list string := (map_to_list (engines reg)).*1.

Definition check_available_engines reg w : gmap string bool :=
  (λ e, is_available e w) <$> engines reg.

(** [*available.get(name).unwrap_or(&false)] *)
Definition engine_available (name : string) reg w : bool :=
  default false (check_available_engines reg w !! name).

(** [create_default_registry]; [debug_assertions] says whether the mock engine
    is compiled in. The errors of [set_default_engine] are dropped ([let _]). *)
Definition create_default_registry (debug_assertions : bool)
    (podman docker mock : RuntimeEngine W) w : RuntimeRegistry W :=
  let registry := register docker (register podman registry_new) in
  let registry := if debug_assertions then register mock registry else registry in
  if engine_available "podman" registry w then (set_default_engine "podman" registry).2
  else if engine_available "docker" registry w then (set_default_engine "docker" registry).2
  else if debug_assertions then (set_default_engine "mock" registry).2
  else registry.

Definition create_mock_only_registry (debug_assertions : bool)
    (podman docker mock : RuntimeEngine W) w : RuntimeRegistry W :=
  if debug_assertions
  then (set_default_engine "mock" (register mock registry_new)).2
  else create_default_registry debug_assertions podman docker mock w.

(** ** Well-formed registries *)

(** Engines are stored under their own name, and the default names one. *)
Definition registry_ok reg : Prop :=
  (∀ n e, engines reg !! n = Some e → engine_name e = n) ∧
  (∀ n, default_engine reg = Some n → is_Some (engines reg !! n)) ∧
  (engines reg ≠ ∅ → is_Some (default_engine reg)).

Lemma registry_new_ok : registry_ok registry_new.
Proof. split_and!; simpl; [|done|done]. intros n e. by rewrite lookup_empty. Qed.

Lemma register_ok e reg : registry_ok reg → registry_ok (register e reg).
Proof.
  intros (H1 & H2 & H3). split_and!; simpl.
  - intros n e'. rewrite lookup_insert. case_decide; naive_solver.
  - intros n Hn. destruct (default_engine reg) as [d|] eqn:E; simplify_eq.
    + rewrite lookup_insert. case_decide; [done|]. by apply H2.
    + by rewrite lookup_insert_eq.
  - intros _. destruct (default_engine reg); eauto.
Qed.

Lemma set_default_engine_ok n reg : registry_ok reg → registry_ok (set_default_engine n reg).2.
Proof.
  intros (H1 & H2 & H3). unfold set_default_engine.
  case_decide as Hd; simpl; [|done]. split_and!; simpl; [done|naive_solver|eauto].
Qed.

Lemma registry_ok_default_engine reg :
  registry_ok reg → engines reg ≠ ∅ → is_Some (get_default_engine reg).
Proof.
  intros (H1 & H2 & H3) Hne. destruct (H3 Hne) as [d Hd].
  unfold get_default_engine. rewrite Hd. simpl. by apply H2.
Qed.

Lemma engine_available_lookup n reg w :
  engine_available n reg w = true ↔ ∃ e, engines reg !! n = Some e ∧ is_available e w = true.
Proof.
  unfold engine_available, check_available_engines. rewrite lookup_fmap.
  destruct (engines reg !! n); simpl; naive_solver.
Qed.

End registry.

#[export] Hint Resolve registry_new_ok register_ok set_default_engine_ok : rust.

(** ** Properties *)

(** The default registry is well formed and always has a default engine:
    Podman when it is available, else Docker when it is available, else the
    mock engine in debug builds and the first one registered otherwise. *)
Theorem create_default_registry_default {W} dbg (podman docker mock : RuntimeEngine W) w :
  engine_name podman = "podman" → engine_name docker = "docker" → engine_name mock = "mock" →
  let reg := create_default_registry dbg podman docker mock w in
  registry_ok reg ∧
  get_default_engine reg = Some (if is_available podman w then podman
                                 else if is_available docker w then docker
                                 else if dbg then mock else podman).
Proof.
  intros Hp Hd Hm reg. subst reg. unfold create_default_registry. split.
  - destruct dbg; repeat case_match; eauto 10 with rust.
  - unfold engine_available, check_available_engines, set_default_engine, register.
    destruct dbg; cbn [engines default_engine registry_new]; rewrite Hp, Hd, ?Hm.
    all: simplify_map_eq.
    all: rewrite ?lookup_fmap; simplify_map_eq.
    all: destruct (is_available podman w), (is_available docker w); simpl.
    all: unfold get_default_engine, get_engine; simpl.
    all: rewrite ?decide_True by (simplify_map_eq; eauto); simpl; by simplify_map_eq.
Qed.

Definition idle_engine (name : string) (up : bool) : RuntimeEngine () :=
  {| engine_name := name; is_available := λ _, up;
     deploy_workload := λ _ _ _ _ w, (Err (EngineNotAvailable name), w);
     get_workload_status := λ _ id _, Err (RuntimeWorkloadNotFound id);
     list_workloads := λ _ _, Ok [];
     remove_workload := λ id w, (Err (RuntimeWorkloadNotFound id), w);
     get_workload_logs := λ id _ _, Err (RuntimeWorkloadNotFound id);
     validate_manifest := λ _ _, Ok ();
     export_manifest := λ id _, Err (RuntimeWorkloadNotFound id) |}.

(** Without Podman, a reachable Docker daemon is the default. *)
Lemma create_default_registry_default_witness :
  let reg := create_default_registry true (idle_engine "podman" false)
               (idle_engine "docker" true) (idle_engine "mock" true) () in
  registry_ok reg ∧ get_default_engine reg = Some (idle_engine "docker" true).
Proof.
  apply (create_default_registry_default true (idle_engine "podman" false)
           (idle_engine "docker" true) (idle_engine "mock" true) ()); reflexivity.
Defined.
