(* ===== verification/ResourceVerifier.v ===== *)
(** * Capacity checks and reservations ([machine/src/resource_verifier.rs])

    The node's resources, the request arithmetic, the verifier's state (cached
    resources and short-lived reservations) and its operations. Instants and
    durations are nanoseconds; every reading of the clock is an argument.
    [reserve_capacity] takes its locks one after the other: besides the
    function that runs it to completion, [reserve_step] gives its critical
    sections one by one, so that interleavings can be stated. *)

From S2P Require Import Prelude RustStr Utf8 Constants Runtime.

(** ** System resources *)

Record SystemResources := {
  total_cpu_cores : Z;
  total_cpu_milli : Z;
  total_memory_bytes : Z;
  total_storage_bytes : Z;
  allocated_cpu_milli : Z;
  allocated_memory_bytes : Z;
  allocated_storage_bytes : Z;
  running_workloads : Z;
}.

(** The product is computed in [u64], then cast back to [u32]. *)
Definition available_cpu_milli (r : SystemResources) : Z :=
  let max_allocatable :=
    wrap 32 (wrap 64 (total_cpu_milli r * MAX_CPU_ALLOCATION_PERCENT) / 100) in
  saturating_sub max_allocatable (allocated_cpu_milli r).

Definition available_memory_bytes (r : SystemResources) : Z :=
  let max_allocatable := wrap 64 (total_memory_bytes r * MAX_MEMORY_ALLOCATION_PERCENT) / 100 in
  let max_allocatable := saturating_sub max_allocatable MIN_FREE_MEMORY_BYTES in
  saturating_sub max_allocatable (allocated_memory_bytes r).

Definition available_storage_bytes (r : SystemResources) : Z :=
  let max_allocatable := wrap 64 (total_storage_bytes r * MAX_STORAGE_ALLOCATION_PERCENT) / 100 in
  let max_allocatable := saturating_sub max_allocatable MIN_FREE_STORAGE_BYTES in
  saturating_sub max_allocatable (allocated_storage_bytes r).

Definition can_accept_more_workloads (r : SystemResources) : bool :=
  if bool_decide (MAX_WORKLOADS_PER_NODE = 0) then true
  else bool_decide (running_workloads r < MAX_WORKLOADS_PER_NODE).

(** ** Requests *)

Record ResourceRequest := {
  req_cpu_milli : Z;
  req_memory_bytes : Z;
  req_storage_bytes : Z;
  req_replicas : Z;
}.

Definition ResourceRequest_new (cpu_milli memory_bytes storage_bytes : option Z) (replicas : Z) :
    ResourceRequest :=
  {| req_cpu_milli := default DEFAULT_CPU_REQUEST_MILLI cpu_milli;
     req_memory_bytes := default DEFAULT_MEMORY_REQUEST_BYTES memory_bytes;
     req_storage_bytes := default DEFAULT_STORAGE_REQUEST_BYTES storage_bytes;
     req_replicas := Z.max replicas 1 |}.

Definition request_total_cpu_milli (q : ResourceRequest) : Z :=
  saturating_mul 32 (req_cpu_milli q) (req_replicas q).
Definition request_total_memory_bytes (q : ResourceRequest) : Z :=
  saturating_mul 64 (req_memory_bytes q) (req_replicas q).
Definition request_total_storage_bytes (q : ResourceRequest) : Z :=
  saturating_mul 64 (req_storage_bytes q) (req_replicas q).

Record CapacityCheckResult := {
  has_capacity : bool;
  rejection_reason : option string;
  check_cpu_milli : Z;
  check_memory_bytes : Z;
  check_storage_bytes : Z;
}.

(** ** The verifier's state *)

Record CapacityReservation := {
  cpu_milli : Z;
  memory_bytes : Z;
  storage_bytes : Z;
  manifest_id : option string;
  expires_at : Z;
}.

Definition RESERVATION_HOLD_SECS : Z := 3.

Record ResourceVerifier := {
  system_resources : SystemResources;
  reservations : gmap string CapacityReservation;
}.

Definition ResourceVerifier_new : ResourceVerifier :=
  {| system_resources :=
       {| total_cpu_cores := 0; total_cpu_milli := 0; total_memory_bytes := 0;
          total_storage_bytes := 0; allocated_cpu_milli := 0; allocated_memory_bytes := 0;
          allocated_storage_bytes := 0; running_workloads := 0 |};
     reservations := ∅ |}.

Definition reservation_hold_duration : Z := from_secs RESERVATION_HOLD_SECS.

Definition set_reservations (m : gmap string CapacityReservation) (v : ResourceVerifier) :
    ResourceVerifier :=
  {| system_resources := system_resources v; reservations := m |}.

Definition prune_expired_reservations (now : Z) (v : ResourceVerifier) : ResourceVerifier :=
  set_reservations (filter (λ kr, now < expires_at kr.2) (reservations v)) v.

Definition add_reservation (r : CapacityReservation) (acc : Z * Z * Z) : Z * Z * Z :=
  let '(c, m, s) := acc in
  (saturating_add 32 c (cpu_milli r), saturating_add 64 m (memory_bytes r),
   saturating_add 64 s (storage_bytes r)).

Definition total_reserved_resources (v : ResourceVerifier) : Z * Z * Z :=
  map_fold (λ _, add_reservation) (0, 0, 0) (reservations v).

(** ** [reserve_capacity] *)

(** [existing.expires_at = now + hold; if let Some(m) = manifest_id {...}] *)
Definition refresh_reservation (now : Z) (mid : option string) (r : CapacityReservation) :
    CapacityReservation :=
  {| cpu_milli := cpu_milli r; memory_bytes := memory_bytes r; storage_bytes := storage_bytes r;
     manifest_id := match mid with Some m => Some m | None => manifest_id r end;
     expires_at := now + reservation_hold_duration |}.

(** The block that refreshes a reservation the request already has; [None]
    when it has none. *)
Definition refresh_existing (now : Z) (rid : string) (mid : option string) (v : ResourceVerifier) :
    option ResourceVerifier :=
  match reservations v !! rid with
  | Some r => Some (set_reservations (<[rid := refresh_reservation now mid r]> (reservations v)) v)
  | None => None
  end.

(** The three availability tests, in the order of the code. *)
Definition check_reservable (reserved : Z * Z * Z) (q : ResourceRequest) (r : SystemResources) :
    result string () :=
  let '(reserved_cpu, reserved_memory, reserved_storage) := reserved in
  let available_cpu := saturating_sub (available_cpu_milli r) reserved_cpu in
  let available_memory := saturating_sub (available_memory_bytes r) reserved_memory in
  let available_storage := saturating_sub (available_storage_bytes r) reserved_storage in
  if bool_decide (available_cpu < request_total_cpu_milli q) then
    Err ("Insufficient CPU reservation capacity: need " +:+ pretty (request_total_cpu_milli q)
         +:+ "m, reservable " +:+ pretty available_cpu +:+ "m")
  else if bool_decide (available_memory < request_total_memory_bytes q) then
    Err ("Insufficient memory reservation capacity: need "
         +:+ pretty (request_total_memory_bytes q / (1024 * 1024))
         +:+ " MB, reservable " +:+ pretty (available_memory / (1024 * 1024)) +:+ " MB")
  else if bool_decide (available_storage < request_total_storage_bytes q) then
    Err ("Insufficient storage reservation capacity: need "
         +:+ pretty (request_total_storage_bytes q / (1024 * 1024 * 1024))
         +:+ " GB, reservable " +:+ pretty (available_storage / (1024 * 1024 * 1024)) +:+ " GB")
  else Ok ().

Definition new_reservation (now : Z) (mid : option string) (q : ResourceRequest) :
    CapacityReservation :=
  {| cpu_milli := request_total_cpu_milli q; memory_bytes := request_total_memory_bytes q;
     storage_bytes := request_total_storage_bytes q; manifest_id := mid;
     expires_at := now + reservation_hold_duration |}.

(** The last critical section: refresh if the entry appeared meanwhile, else
    insert it. *)
Definition insert_reservation (now : Z) (rid : string) (mid : option string) (q : ResourceRequest)
    (v : ResourceVerifier) : ResourceVerifier :=
  match refresh_existing now rid mid v with
  | Some v' => v'
  | None => set_reservations (<[rid := new_reservation now mid q]> (reservations v)) v
  end.

(** The whole call, run without interruption; [t1], [t2], [t3] are its
    successive readings of the clock. *)
Definition reserve_capacity (t1 t2 t3 : Z) (rid : string) (mid : option string)
    (q : ResourceRequest) (v : ResourceVerifier) : result string () * ResourceVerifier :=
  let v := prune_expired_reservations t1 v in
  match refresh_existing t2 rid mid v with
  | Some v' => (Ok (), v')
  | None =>
      let reserved := total_reserved_resources v in
      match check_reservable reserved q (system_resources v) with
      | Err e => (Err e, v)
      | Ok _ => (Ok (), insert_reservation t3 rid mid q v)
      end
  end.

(** ** The critical sections of [reserve_capacity], one step each *)

Record reserve_call := {
  call_request_id : string;
  call_manifest_id : option string;
  call_request : ResourceRequest;
}.

Inductive reserve_pc :=
| RStart
| RPruned
| RNotFound
| RTotals (reserved : Z * Z * Z)
| RChecked
| RDone (r : result string ()).

Definition reserve_step (c : reserve_call) (now : Z) (pc : reserve_pc) (v : ResourceVerifier) :
    reserve_pc * ResourceVerifier :=
  match pc with
  | RStart => (RPruned, prune_expired_reservations now v)
  | RPruned =>
      match refresh_existing now (call_request_id c) (call_manifest_id c) v with
      | Some v' => (RDone (Ok ()), v')
      | None => (RNotFound, v)
      end
  | RNotFound => (RTotals (total_reserved_resources v), v)
  | RTotals reserved =>
      match check_reservable reserved (call_request c) (system_resources v) with
      | Ok _ => (RChecked, v)
      | Err e => (RDone (Err e), v)
      end
  | RChecked =>
      (RDone (Ok ()), insert_reservation now (call_request_id c) (call_manifest_id c)
                        (call_request c) v)
  | RDone r => (RDone r, v)
  end.

(** A run of several calls: [schedule] lists which call takes its next step,
    and when. *)
Fixpoint run_calls (calls : list reserve_call) (schedule : list (nat * Z))
    (pcs : list reserve_pc) (v : ResourceVerifier) : list reserve_pc * ResourceVerifier :=
  match schedule with
  | [] => (pcs, v)
  | (i, now) :: schedule' =>
      match calls !! i, pcs !! i with
      | Some c, Some pc =>
          let '(pc', v') := reserve_step c now pc v in
          run_calls calls schedule' (<[i := pc']> pcs) v'
      | _, _ => run_calls calls schedule' pcs v
      end
  end.

(** ** Queries *)

Definition has_active_reservation_for_manifest (now : Z) (mid : string) (v : ResourceVerifier) :
    bool * ResourceVerifier :=
  let v := prune_expired_reservations now v in
  (existsb (λ kr, bool_decide (manifest_id kr.2 = Some mid)) (map_to_list (reservations v)), v).

Definition verify_capacity (now : Z) (q : ResourceRequest) (v : ResourceVerifier) :
    CapacityCheckResult * ResourceVerifier :=
  let v := prune_expired_reservations now v in
  let '(reserved_cpu, reserved_memory, reserved_storage) := total_reserved_resources v in
  let r := system_resources v in
  let available_cpu := saturating_sub (available_cpu_milli r) reserved_cpu in
  let available_memory := saturating_sub (available_memory_bytes r) reserved_memory in
  let available_storage := saturating_sub (available_storage_bytes r) reserved_storage in
  let answer (ok : bool) (reason : option string) :=
    {| has_capacity := ok; rejection_reason := reason; check_cpu_milli := available_cpu;
       check_memory_bytes := available_memory; check_storage_bytes := available_storage |} in
  (if bool_decide (available_cpu < request_total_cpu_milli q) then
     answer false (Some ("Insufficient CPU: need " +:+ pretty (request_total_cpu_milli q)
       +:+ "m, available " +:+ pretty available_cpu +:+ "m"))
   else if bool_decide (available_memory < request_total_memory_bytes q) then
     answer false (Some ("Insufficient memory: need "
       +:+ pretty (request_total_memory_bytes q / (1024 * 1024))
       +:+ " MB, available " +:+ pretty (available_memory / (1024 * 1024)) +:+ " MB"))
   else if bool_decide (available_storage < request_total_storage_bytes q) then
     answer false (Some ("Insufficient storage: need "
       +:+ pretty (request_total_storage_bytes q / (1024 * 1024 * 1024))
       +:+ " GB, available " +:+ pretty (available_storage / (1024 * 1024 * 1024)) +:+ " GB"))
   else if negb (can_accept_more_workloads r) then
     answer false (Some ("Maximum workload count reached: " +:+ pretty (running_workloads r)
       +:+ " / " +:+ pretty MAX_WORKLOADS_PER_NODE))
   else answer true None, v).

Definition get_system_resources (v : ResourceVerifier) : SystemResources := system_resources v.

(** ** Host metrics

    The three probes on the text they read; [None] when the file or the
    command could not be read. *)

Definition get_cpu_info (cpuinfo : option string) : result string (Z * Z) :=
  match cpuinfo with
  | None => Err "Failed to read /proc/cpuinfo"
  | Some text =>
      let num_cpus :=
        wrap 32 (Z.of_nat (length (filter (λ l, starts_with "processor" l = true) (str_lines text)))) in
      if bool_decide (num_cpus = 0) then Err "No processors found in /proc/cpuinfo"
      else Ok (num_cpus, wrap 32 (num_cpus * 1000))
  end.

Fixpoint find_mem_total (lines : list string) : result string Z :=
  match lines with
  | [] => Err "MemTotal not found in /proc/meminfo"
  | line :: lines' =>
      if starts_with "MemTotal:" line then
        match split_whitespace line with
        | _ :: value :: _ =>
            match parse_uint 64 value with
            | Some kb => Ok (wrap 64 (kb * 1024))
            | None => Err "Failed to parse memory value"
            end
        | _ => find_mem_total lines'
        end
      else find_mem_total lines'
  end.

Definition get_memory_info (meminfo : option string) : result string Z :=
  match meminfo with
  | None => Err "Failed to read /proc/meminfo"
  | Some text => find_mem_total (str_lines text)
  end.

Definition get_storage_info (df : option (list byte)) : result string Z :=
  match df with
  | None => Err "Failed to execute df"
  | Some stdout =>
      match str_lines (from_utf8_lossy stdout) with
      | _ :: line :: _ =>
          match split_whitespace line with
          | _ :: value :: _ =>
              match parse_uint 64 value with
              | Some bytes => Ok bytes
              | None => Err "Failed to parse storage value"
              end
          | _ => Err "Failed to parse df output"
          end
      | _ => Err "Failed to parse df output"
      end
  end.

(** ** Allocations, read from the runtime registry *)

(** [if let Some(s) = metadata.get(k) { if let Ok(n) = s.parse() {...} }] *)
Definition add_parsed (w : Z) (key : string) (i : WorkloadInfo) (acc : Z) : Z :=
  match info_metadata i !! key ≫= parse_uint w with
  | Some n => saturating_add w acc n
  | None => acc
  end.

Definition count_workload (acc : Z * Z * Z * Z) (i : WorkloadInfo) : Z * Z * Z * Z :=
  let '(cpu, mem, storage, n) := acc in
  (add_parsed 32 "cpu_milli" i cpu, add_parsed 64 "memory_bytes" i mem,
   add_parsed 64 "storage_bytes" i storage, wrap 32 (n + 1)).

Section allocated.
Context {W : Type}.

Definition update_allocated_resources (now : Z) (registry : option (RuntimeRegistry W)) (w : W)
    (r : SystemResources) : SystemResources :=
  match registry with
  | None => r
  | Some reg =>
      let workloads :=
        match get_default_engine reg with
        | Some e => match list_workloads e now w with Ok l => l | Err _ => [] end
        | None => []
        end in
      let '(cpu, mem, storage, n) := foldl count_workload (0, 0, 0, 0) workloads in
      {| total_cpu_cores := total_cpu_cores r; total_cpu_milli := total_cpu_milli r;
         total_memory_bytes := total_memory_bytes r; total_storage_bytes := total_storage_bytes r;
         allocated_cpu_milli := cpu; allocated_memory_bytes := mem;
         allocated_storage_bytes := storage; running_workloads := n |}
  end.

Definition update_system_resources (now : Z) (cpuinfo meminfo : option string)
    (df : option (list byte)) (registry : option (RuntimeRegistry W)) (w : W)
    (v : ResourceVerifier) : ResourceVerifier :=
  let r := system_resources v in
  let '(cores, milli) := match get_cpu_info cpuinfo with Ok p => p | Err _ => (4, 4000) end in
  let mem := match get_memory_info meminfo with Ok m => m | Err _ => 8 * 1024 * 1024 * 1024 end in
  let storage :=
    match get_storage_info df with Ok s => s | Err _ => 100 * 1024 * 1024 * 1024 end in
  {| system_resources :=
       update_allocated_resources now registry w
         {| total_cpu_cores := cores; total_cpu_milli := milli; total_memory_bytes := mem;
            total_storage_bytes := storage; allocated_cpu_milli := allocated_cpu_milli r;
            allocated_memory_bytes := allocated_memory_bytes r;
            allocated_storage_bytes := allocated_storage_bytes r;
            running_workloads := running_workloads r |};
     reservations := reservations v |}.

End allocated.

(** ** Well-formed states *)

Definition request_wf (q : ResourceRequest) : Prop :=
  in_u 32 (req_cpu_milli q) ∧ in_u 64 (req_memory_bytes q) ∧
  in_u 64 (req_storage_bytes q) ∧ in_u 32 (req_replicas q).

Definition reservation_wf (r : CapacityReservation) : Prop :=
  in_u 32 (cpu_milli r) ∧ in_u 64 (memory_bytes r) ∧ in_u 64 (storage_bytes r).

Definition reservations_wf (m : gmap string CapacityReservation) : Prop :=
  map_Forall (λ _, reservation_wf) m.

Definition resources_wf (r : SystemResources) : Prop :=
  in_u 32 (total_cpu_milli r) ∧ in_u 64 (total_memory_bytes r) ∧
  in_u 64 (total_storage_bytes r) ∧ in_u 32 (allocated_cpu_milli r) ∧
  in_u 64 (allocated_memory_bytes r) ∧ in_u 64 (allocated_storage_bytes r).

(** The exact amounts promised to the current reservations. *)
Definition reserved_cpu (m : gmap string CapacityReservation) : Z := map_sum cpu_milli m.
Definition reserved_memory (m : gmap string CapacityReservation) : Z := map_sum memory_bytes m.
Definition reserved_storage (m : gmap string CapacityReservation) : Z := map_sum storage_bytes m.

(** The reservations fit in what the node may still hand out. *)
Definition no_overcommit (v : ResourceVerifier) : Prop :=
  reserved_cpu (reservations v) ≤ available_cpu_milli (system_resources v) ∧
  reserved_memory (reservations v) ≤ available_memory_bytes (system_resources v) ∧
  reserved_storage (reservations v) ≤ available_storage_bytes (system_resources v).

Definition verifier_ok (v : ResourceVerifier) : Prop :=
  resources_wf (system_resources v) ∧ reservations_wf (reservations v) ∧ no_overcommit v.

(** ** Lemmas *)

Lemma available_cpu_in_u r : resources_wf r → in_u 32 (available_cpu_milli r).
Proof.
  intros (_ & _ & _ & H & _). unfold available_cpu_milli.
  apply saturating_sub_in_u; [|u_lia]. auto with rust lia.
Qed.

Lemma scaled_in_u (x k : Z) : in_u 64 (wrap 64 x / 100).
Proof.
  pose proof (wrap_in_u 64 x ltac:(lia)) as [H1 H2]. unfold in_u in *. split.
  - apply Z.div_pos; lia.
  - pose proof (Z.div_le_upper_bound (wrap 64 x) 100 (umax 64)). lia.
Qed.

Lemma available_memory_in_u r : resources_wf r → in_u 64 (available_memory_bytes r).
Proof.
  intros (_ & _ & _ & _ & H & _). unfold available_memory_bytes.
  pose proof (scaled_in_u (total_memory_bytes r * MAX_MEMORY_ALLOCATION_PERCENT) 0).
  apply saturating_sub_in_u; [|u_lia]. apply saturating_sub_in_u; [done|done].
Qed.

Lemma available_storage_in_u r : resources_wf r → in_u 64 (available_storage_bytes r).
Proof.
  intros (_ & _ & _ & _ & _ & H). unfold available_storage_bytes.
  pose proof (scaled_in_u (total_storage_bytes r * MAX_STORAGE_ALLOCATION_PERCENT) 0).
  apply saturating_sub_in_u; [|u_lia]. apply saturating_sub_in_u; [done|done].
Qed.

Lemma request_totals_in_u q :
  request_wf q → in_u 32 (request_total_cpu_milli q) ∧ in_u 64 (request_total_memory_bytes q) ∧
                 in_u 64 (request_total_storage_bytes q).
Proof.
  intros (H1 & H2 & H3 & H4).
  split_and!; apply saturating_mul_in_u; unfold in_u in *; lia.
Qed.

(** The saturating fold of the code is the exact sum cut at the type's
    maximum, whatever the iteration order. *)
Lemma total_reserved_exact v :
  reservations_wf (reservations v) →
  total_reserved_resources v =
    (Z.min (reserved_cpu (reservations v)) (umax 32),
     Z.min (reserved_memory (reservations v)) (umax 64),
     Z.min (reserved_storage (reservations v)) (umax 64)).
Proof.
  unfold total_reserved_resources, reserved_cpu, reserved_memory, reserved_storage.
  generalize (reservations v) as m. clear v.
  induction m as [|k r m Hk IH] using map_ind; intros Hwf; [reflexivity|].
  rewrite map_fold_insert_L; [| |done]; cycle 1.
  { intros j1 j2 z1 z2 [[c mm] s] _ H1%Hwf H2%Hwf. unfold add_reservation.
    destruct H1 as (? & ? & ?), H2 as (? & ? & ?). f_equal; [f_equal|]; u_lia. }
  apply map_Forall_insert in Hwf as [(Hc & Hm & Hs) Hwf]; [|done].
  rewrite IH by done. rewrite !map_sum_insert by done. unfold add_reservation.
  f_equal; [f_equal|]; u_lia.
Qed.

Lemma prune_wf now m :
  reservations_wf m → reservations_wf (filter (λ kr, now < expires_at kr.2) m).
Proof. intros Hwf k r [Hr _]%map_lookup_filter_Some. by eapply Hwf. Qed.

Lemma reserved_filter_le (P : string * CapacityReservation → Prop) `{∀ x, Decision (P x)} m :
  reservations_wf m →
  reserved_cpu (filter P m) ≤ reserved_cpu m ∧ reserved_memory (filter P m) ≤ reserved_memory m ∧
  reserved_storage (filter P m) ≤ reserved_storage m.
Proof.
  intros Hwf. split_and!; apply map_sum_filter_le;
    intros k r (? & ? & ?)%Hwf; unfold in_u in *; lia.
Qed.

Lemma cpu_info_in_u cpuinfo p : get_cpu_info cpuinfo = Ok p → in_u 32 p.2.
Proof.
  unfold get_cpu_info. destruct cpuinfo; [|done]. case_bool_decide; intros [= <-]. by apply wrap_in_u.
Qed.

Lemma memory_info_in_u meminfo n : get_memory_info meminfo = Ok n → in_u 64 n.
Proof.
  unfold get_memory_info. destruct meminfo; [|done]. induction (str_lines _) as [|l ls IH]; simpl; [done|].
  repeat case_match; try done; try exact IH; intros [= <-]; by apply wrap_in_u.
Qed.

Lemma storage_info_in_u df n : get_storage_info df = Ok n → in_u 64 n.
Proof.
  unfold get_storage_info. repeat case_match; try done. intros [= <-]. by eapply parse_uint_in_u.
Qed.

Lemma add_parsed_in_u w k i acc : 0 ≤ w → in_u w acc → in_u w (add_parsed w k i acc).
Proof.
  intros Hw Ha. unfold add_parsed. destruct (info_metadata i !! k) as [t|]; [|done]. simpl.
  destruct (parse_uint w t) eqn:E; [|done]. apply saturating_add_in_u; [done..|by eapply parse_uint_in_u].
Qed.

Lemma count_workloads_in_u l c m s n :
  in_u 32 c → in_u 64 m → in_u 64 s →
  let '(c', m', s', _) := foldl count_workload (c, m, s, n) l in
  in_u 32 c' ∧ in_u 64 m' ∧ in_u 64 s'.
Proof.
  revert c m s n. induction l as [|i l IH]; intros c m s n Hc Hm Hs; [done|].
  apply IH; by apply add_parsed_in_u.
Qed.

Lemma no_reservations_ok r : resources_wf r → verifier_ok {| system_resources := r; reservations := ∅ |}.
Proof.
  intros Hr. split_and!; [done|apply map_Forall_empty|].
  unfold no_overcommit, reserved_cpu, reserved_memory, reserved_storage. simpl. rewrite !map_sum_empty.
  split_and!; unfold available_cpu_milli, available_memory_bytes, available_storage_bytes,
    saturating_sub; lia.
Qed.

(** The resources read at start-up make a sound verifier, whatever the machine
    and the engines say. *)
Lemma update_system_resources_ok {W} now cpuinfo meminfo df (registry : option (RuntimeRegistry W)) w v :
  resources_wf (system_resources v) → reservations v = ∅ →
  verifier_ok (update_system_resources now cpuinfo meminfo df registry w v).
Proof.
  intros (_ & _ & _ & Hc & Hm & Hs) He. unfold update_system_resources. rewrite He.
  destruct (match get_cpu_info cpuinfo with Ok p => p | Err _ => _ end) as [cores milli] eqn:Ecpu.
  apply no_reservations_ok.
  assert (in_u 32 milli) as Hmilli.
  { destruct (get_cpu_info cpuinfo) as [p|] eqn:E; simplify_eq; [by apply cpu_info_in_u in E|done]. }
  assert (in_u 64 (match get_memory_info meminfo with Ok m => m | Err _ => 8 * 1024 * 1024 * 1024 end)).
  { destruct (get_memory_info meminfo) eqn:E; [by apply memory_info_in_u in E|done]. }
  assert (in_u 64 (match get_storage_info df with Ok s => s | Err _ => 100 * 1024 * 1024 * 1024 end)).
  { destruct (get_storage_info df) eqn:E; [by apply storage_info_in_u in E|done]. }
  unfold update_allocated_resources. destruct registry as [reg|]; [|done].
  pose proof (count_workloads_in_u (match get_default_engine reg with
    | Some e => match list_workloads e now w with Ok l => l | Err _ => [] end | None => [] end) 0 0 0 0) as Hn.
  destruct (foldl _ _ _) as [[[c m] s] n]. destruct Hn as (? & ? & ?); [done..|]. done.
Qed.

(** Before the machine was measured nothing is available, so that what has been
    promised by then is nothing, and it fits in what is measured. *)
Lemma first_measure_ok {W} now cpuinfo meminfo df (registry : option (RuntimeRegistry W)) w v :
  verifier_ok v → system_resources v = system_resources ResourceVerifier_new →
  verifier_ok (update_system_resources now cpuinfo meminfo df registry w v).
Proof.
  intros (Hr & Hm & Hc & Hmem & Hst) Hz.
  destruct (update_system_resources_ok now cpuinfo meminfo df registry w (set_reservations ∅ v) Hr eq_refl)
    as (Hwf & _ & _).
  set (v' := update_system_resources now cpuinfo meminfo df registry w v).
  assert (system_resources v' = system_resources (update_system_resources now cpuinfo meminfo df registry w
    (set_reservations ∅ v)) ∧ reservations v' = reservations v) as [Hs Hres].
  { unfold v', update_system_resources. by destruct (match get_cpu_info cpuinfo with Ok p => p | Err _ => _ end). }
  unfold verifier_ok, no_overcommit. rewrite Hs, Hres. rewrite Hz in Hc, Hmem, Hst.
  destruct (available_cpu_in_u _ Hwf), (available_memory_in_u _ Hwf), (available_storage_in_u _ Hwf).
  split_and!; [done|done|..]; etrans; try done; by etrans.
Qed.

Lemma prune_ok now v : verifier_ok v → verifier_ok (prune_expired_reservations now v).
Proof.
  intros (H1 & H2 & H3 & H4 & H5). pose proof (reserved_filter_le
    (λ kr, now < expires_at kr.2) (reservations v) H2) as (? & ? & ?).
  split; [done|]. split; [by apply prune_wf|]. unfold no_overcommit. simpl. lia.
Qed.

Lemma refresh_sums now mid rid r m :
  m !! rid = Some r →
  let m' := <[rid := refresh_reservation now mid r]> m in
  reserved_cpu m' = reserved_cpu m ∧ reserved_memory m' = reserved_memory m ∧
  reserved_storage m' = reserved_storage m.
Proof.
  intros Hr m'. subst m'. unfold reserved_cpu, reserved_memory, reserved_storage.
  rewrite !(map_sum_update _ rid r) by done. simpl. lia.
Qed.

Lemma refresh_existing_ok now rid mid v v' :
  verifier_ok v → refresh_existing now rid mid v = Some v' → verifier_ok v'.
Proof.
  intros (H1 & H2 & H3). unfold refresh_existing.
  destruct (reservations v !! rid) as [r|] eqn:E; [|done]. intros [= <-].
  destruct (refresh_sums now mid rid r _ E) as (Hc & Hm & Hs).
  split; [done|]. split.
  - apply map_Forall_insert_2; [|done]. exact (H2 rid r E).
  - unfold no_overcommit. simpl. rewrite Hc, Hm, Hs. done.
Qed.

(** What the availability tests guarantee. *)
Lemma check_reservable_ok v q :
  verifier_ok v → request_wf q →
  check_reservable (total_reserved_resources v) q (system_resources v) = Ok () ↔
  reserved_cpu (reservations v) + request_total_cpu_milli q
    ≤ available_cpu_milli (system_resources v) ∧
  reserved_memory (reservations v) + request_total_memory_bytes q
    ≤ available_memory_bytes (system_resources v) ∧
  reserved_storage (reservations v) + request_total_storage_bytes q
    ≤ available_storage_bytes (system_resources v).
Proof.
  intros (Hr & Hwf & Hn) Hq. rewrite total_reserved_exact by done.
  pose proof (available_cpu_in_u _ Hr). pose proof (available_memory_in_u _ Hr).
  pose proof (available_storage_in_u _ Hr).
  pose proof (request_totals_in_u q Hq) as (? & ? & ?).
  unfold no_overcommit in Hn. unfold check_reservable.
  repeat case_bool_decide; split; try done; u_lia.
Qed.

Lemma insert_reservation_ok now rid mid q v :
  verifier_ok v → request_wf q →
  check_reservable (total_reserved_resources v) q (system_resources v) = Ok () →
  verifier_ok (insert_reservation now rid mid q v).
Proof.
  intros Hv Hq Hc. unfold insert_reservation.
  destruct (refresh_existing now rid mid v) as [v'|] eqn:E; [by eapply refresh_existing_ok|].
  apply check_reservable_ok in Hc as (? & ? & ?); [|done..].
  unfold refresh_existing in E. destruct (reservations v !! rid) eqn:Er; [done|].
  destruct Hv as (Hr & Hwf & Hn). split; [done|]. split.
  - apply map_Forall_insert_2; [|done]. by apply request_totals_in_u.
  - unfold no_overcommit, reserved_cpu, reserved_memory, reserved_storage in *. simpl.
    rewrite !map_sum_insert by done. simpl. lia.
Qed.

(** ** Properties *)

(** what a node reports as available never exceeds 90% of its total minus
    what is allocated; for memory and storage it also keeps the configured
    minimum free. No intermediate product overflows for a node with at most
    2^64/90 bytes of memory and of storage. *)
Theorem available_within_limits r :
  resources_wf r →
  total_memory_bytes r * 90 ≤ umax 64 → total_storage_bytes r * 90 ≤ umax 64 →
  available_cpu_milli r = Z.max 0 (total_cpu_milli r * 90 / 100 - allocated_cpu_milli r) ∧
  available_memory_bytes r =
    Z.max 0 (total_memory_bytes r * 90 / 100 - 512 * 1024 * 1024 - allocated_memory_bytes r) ∧
  available_storage_bytes r =
    Z.max 0 (total_storage_bytes r * 90 / 100 - 1024 * 1024 * 1024 - allocated_storage_bytes r).
Proof.
  intros (H1 & H2 & H3 & H4 & H5 & H6) Hm Hs.
  unfold available_cpu_milli, available_memory_bytes, available_storage_bytes,
    MAX_CPU_ALLOCATION_PERCENT, MAX_MEMORY_ALLOCATION_PERCENT, MAX_STORAGE_ALLOCATION_PERCENT,
    MIN_FREE_MEMORY_BYTES, MIN_FREE_STORAGE_BYTES.
  rewrite !(wrap_small 64) by u_lia.
  assert (total_cpu_milli r * 90 / 100 ≤ total_cpu_milli r)
    by (apply Z.div_le_upper_bound; u_lia).
  assert (0 ≤ total_cpu_milli r * 90 / 100) by (apply Z.div_pos; u_lia).
  rewrite (wrap_small 32) by u_lia. split_and!; u_lia.
Qed.

Lemma reserve_capacity_ok t1 t2 t3 rid mid q v :
  verifier_ok v → request_wf q → verifier_ok (reserve_capacity t1 t2 t3 rid mid q v).2.
Proof.
  intros Hv%(prune_ok t1) Hq. unfold reserve_capacity.
  destruct (refresh_existing _ _ _ _) as [v'|] eqn:E; [by eapply refresh_existing_ok|].
  destruct (check_reservable _ _ _) as [[]|] eqn:Ec; [|done].
  by apply insert_reservation_ok.
Qed.

(** Calls that run one after the other, with their clock readings. *)
Definition reserve_all (calls : list (Z * Z * Z * reserve_call)) (v : ResourceVerifier) :
    ResourceVerifier :=
  foldl (λ v '(t1, t2, t3, c),
    (reserve_capacity t1 t2 t3 (call_request_id c) (call_manifest_id c) (call_request c) v).2) v calls.

(** C2: reservations never promise more than the node has: any sequence of
    [reserve_capacity] calls, each run to its end (granted, refreshed or
    refused), whatever the clock reads, leads from a state without
    overcommitment to a state without overcommitment. *)
Theorem reserve_capacity_no_overcommit calls v :
  verifier_ok v → Forall (λ c, request_wf (call_request c.2)) calls →
  verifier_ok (reserve_all calls v).
Proof.
  intros Hv Hc. revert v Hv. induction Hc as [|[[[t1 t2] t3] c] calls Hq _ IH]; intros v Hv; [done|].
  apply IH. by apply reserve_capacity_ok.
Qed.

(** [verify_capacity] answers yes exactly when the reservation tests pass on
    the pruned state (there being no limit on the number of workloads). *)
Lemma verify_capacity_check now q v :
  has_capacity (verify_capacity now q v).1 =
  let v' := prune_expired_reservations now v in
  is_ok (check_reservable (total_reserved_resources v') q (system_resources v')).
Proof.
  unfold verify_capacity, check_reservable. cbv zeta.
  destruct (total_reserved_resources _) as [[rc rm] rs].
  change (can_accept_more_workloads _) with true. by repeat case_bool_decide.
Qed.

Lemma reserve_capacity_fresh t1 t2 t3 rid mid q v :
  reservations (prune_expired_reservations t1 v) !! rid = None →
  reserve_capacity t1 t2 t3 rid mid q v =
  let v' := prune_expired_reservations t1 v in
  match check_reservable (total_reserved_resources v') q (system_resources v') with
  | Err e => (Err e, v')
  | Ok _ => (Ok (), set_reservations (<[rid := new_reservation t3 mid q]> (reservations v')) v')
  end.
Proof.
  intros Hn. unfold reserve_capacity, insert_reservation, refresh_existing. by rewrite Hn.
Qed.

(** C37: the capacity check and the reservation agree: for a request that holds
    no live reservation, [reserve_capacity] grants it exactly when
    [verify_capacity] at the same instant reports capacity; for one that does,
    it is always refreshed. *)
Theorem verify_reserve_agree t1 t2 t3 rid mid q v :
  is_ok (reserve_capacity t1 t2 t3 rid mid q v).1 =
  bool_decide (is_Some (reservations (prune_expired_reservations t1 v) !! rid)) ||
  has_capacity (verify_capacity t1 q v).1.
Proof.
  rewrite verify_capacity_check.
  destruct (reservations (prune_expired_reservations t1 v) !! rid) as [r|] eqn:E.
  - unfold reserve_capacity, refresh_existing. rewrite E. done.
  - rewrite reserve_capacity_fresh by done. cbv zeta.
    destruct (check_reservable _ _ _); done.
Qed.

(** Whatever it answers, [verify_capacity] reports the exact free amounts. *)
Lemma verify_capacity_reports now q v :
  verifier_ok v →
  let v' := prune_expired_reservations now v in
  let c := (verify_capacity now q v).1 in
  check_cpu_milli c = available_cpu_milli (system_resources v) - reserved_cpu (reservations v') ∧
  check_memory_bytes c =
    available_memory_bytes (system_resources v) - reserved_memory (reservations v') ∧
  check_storage_bytes c =
    available_storage_bytes (system_resources v) - reserved_storage (reservations v').
Proof.
  intros Hv%(prune_ok now). unfold verify_capacity. cbv zeta.
  change (system_resources v) with (system_resources (prune_expired_reservations now v)).
  generalize dependent (prune_expired_reservations now v). intros v' Hv.
  destruct Hv as (Hr & Hwf & Hn). rewrite total_reserved_exact by done.
  pose proof (available_cpu_in_u _ Hr). pose proof (available_memory_in_u _ Hr).
  pose proof (available_storage_in_u _ Hr). unfold no_overcommit in Hn.
  repeat case_bool_decide; repeat case_match; simpl; u_lia.
Qed.

(** a granted reservation lowers what later checks report by exactly the
    amounts it holds, as long as it is live and nothing else expires. *)
Theorem reserve_reduces_availability t1 t2 t3 rid mid q q' v now :
  verifier_ok v → request_wf q →
  reservations (prune_expired_reservations t1 v) !! rid = None →
  (reserve_capacity t1 t2 t3 rid mid q v).1 = Ok () →
  (∀ k r, reservations v !! k = Some r → (t1 < expires_at r ↔ now < expires_at r)) →
  now < t3 + reservation_hold_duration →
  let before := (verify_capacity t1 q' v).1 in
  let after := (verify_capacity now q' (reserve_capacity t1 t2 t3 rid mid q v).2).1 in
  check_cpu_milli after = check_cpu_milli before - request_total_cpu_milli q ∧
  check_memory_bytes after = check_memory_bytes before - request_total_memory_bytes q ∧
  check_storage_bytes after = check_storage_bytes before - request_total_storage_bytes q.
Proof.
  intros Hv Hq Hfresh. rewrite reserve_capacity_fresh by done. cbv zeta.
  set (v1 := prune_expired_reservations t1 v) in *.
  assert (Hv1 : verifier_ok v1) by by apply prune_ok.
  destruct (check_reservable _ _ _) as [[]|] eqn:Ec; [intros _|done]. intros Hexp Hnow.
  assert (Hv2 : verifier_ok (insert_reservation t3 rid mid q v1)) by by apply insert_reservation_ok.
  unfold insert_reservation, refresh_existing in Hv2. rewrite Hfresh in Hv2.
  cbn [snd]. set (v2 := set_reservations _ v1) in *.
  assert (Hp : prune_expired_reservations now v2 = v2).
  { unfold v2, prune_expired_reservations, set_reservations. simpl. f_equal.
    apply map_filter_id. intros k r. rewrite lookup_insert. case_decide; [by intros [= <-]|].
    intros [Hr Ht]%map_lookup_filter_Some. by apply (Hexp k). }
  destruct (verify_capacity_reports t1 q' v Hv) as (-> & -> & ->).
  destruct (verify_capacity_reports now q' v2 Hv2) as (-> & -> & ->).
  rewrite Hp. fold v1. unfold v2, reserved_cpu, reserved_memory, reserved_storage. simpl.
  rewrite !map_sum_insert by done. simpl. lia.
Qed.

Lemma has_active_reservation_iff now mid v :
  (has_active_reservation_for_manifest now mid v).1 = true ↔
  ∃ rid r, reservations v !! rid = Some r ∧ manifest_id r = Some mid ∧ now < expires_at r.
Proof.
  simpl. rewrite existsb_exists. setoid_rewrite <- list_elem_of_In. split.
  - intros ([k r] & Hin & Hm%bool_decide_eq_true). apply elem_of_map_to_list in Hin.
    apply map_lookup_filter_Some in Hin as [? ?]. eauto.
  - intros (k & r & Hr & Hm & He). exists (k, r). split; [|by apply bool_decide_eq_true].
    by apply elem_of_map_to_list, map_lookup_filter_Some.
Qed.

Lemma reserve_capacity_entry t1 t2 t3 rid mid q v :
  (reserve_capacity t1 t2 t3 rid mid q v).1 = Ok () →
  ∃ r, reservations (reserve_capacity t1 t2 t3 rid mid q v).2 !! rid = Some r ∧
    (expires_at r = t2 + reservation_hold_duration ∨ expires_at r = t3 + reservation_hold_duration) ∧
    (∀ m, mid = Some m → manifest_id r = Some m).
Proof.
  destruct (reservations (prune_expired_reservations t1 v) !! rid) as [r|] eqn:E.
  - intros _. unfold reserve_capacity, refresh_existing. rewrite E.
    eexists. cbn [snd set_reservations reservations]. rewrite lookup_insert_eq.
    split_and!; [done|by left|by intros m ->].
  - rewrite reserve_capacity_fresh by done. cbv zeta.
    destruct (check_reservable _ _ _); [intros _|done].
    eexists. cbn [snd set_reservations reservations]. rewrite lookup_insert_eq.
    split_and!; [done|by right|done].
Qed.

(** a granted reservation is active for its manifest during the three
    seconds of the hold, and is gone once they are over. *)
Theorem reservation_lifetime t1 t2 t3 rid mid q v now :
  t2 ≤ t3 →
  (reserve_capacity t1 t2 t3 rid (Some mid) q v).1 = Ok () →
  let v' := (reserve_capacity t1 t2 t3 rid (Some mid) q v).2 in
  (now < t2 + from_secs 3 → (has_active_reservation_for_manifest now mid v').1 = true) ∧
  (t3 + from_secs 3 ≤ now →
     reservations (has_active_reservation_for_manifest now mid v').2 !! rid = None).
Proof.
  intros Ht Hok v'. destruct (reserve_capacity_entry _ _ _ _ _ _ _ Hok) as (r & Hr & He & Hm).
  fold v' in Hr. change (from_secs 3) with reservation_hold_duration. split.
  - intros Hnow. apply has_active_reservation_iff. exists rid, r.
    split_and!; [done|by apply Hm|lia].
  - intros Hnow. simpl. apply map_lookup_filter_None. right. intros r' Hr'.
    simplify_eq. simpl. lia.
Qed.

(** running the critical sections of one call to the end, without
    interference, is [reserve_capacity]. *)
Theorem reserve_steps_refine rid mid q v t1 t2 ta tb t3 :
  let c := {| call_request_id := rid; call_manifest_id := mid; call_request := q |} in
  let '(r, v') := reserve_capacity t1 t2 t3 rid mid q v in
  run_calls [c] [(0%nat, t1); (0%nat, t2); (0%nat, ta); (0%nat, tb); (0%nat, t3)] [RStart] v =
  ([RDone r], v').
Proof.
  intros c. unfold reserve_capacity. cbn -[prune_expired_reservations].
  set (v1 := prune_expired_reservations t1 v).
  destruct (refresh_existing t2 rid mid v1) as [v'|]; [done|].
  cbn. by destruct (check_reservable _ _ _) as [[]|].
Qed.

(** ** Concrete runs *)

(** The node of the crate's reservation tests. *)
Definition test_resources : SystemResources :=
  {| total_cpu_cores := 8; total_cpu_milli := 8000; total_memory_bytes := 4 * 1024 * 1024 * 1024;
     total_storage_bytes := 16 * 1024 * 1024 * 1024; allocated_cpu_milli := 0;
     allocated_memory_bytes := 0; allocated_storage_bytes := 0; running_workloads := 0 |}.

Definition test_verifier : ResourceVerifier :=
  {| system_resources := test_resources; reservations := ∅ |}.

Definition test_request : ResourceRequest :=
  ResourceRequest_new (Some (available_cpu_milli test_resources))
    (Some (available_memory_bytes test_resources))
    (Some (available_storage_bytes test_resources)) 1.

Definition test_call (rid : string) : reserve_call :=
  {| call_request_id := rid; call_manifest_id := Some "manifest-test";
     call_request := test_request |}.

Lemma test_verifier_ok : verifier_ok test_verifier.
Proof.
  split; [repeat split; vm_compute; discriminate|].
  split; [apply map_Forall_empty|repeat split; vm_compute; discriminate].
Defined.

Lemma test_request_wf : request_wf test_request.
Proof. repeat split; vm_compute; discriminate. Defined.

(** two calls that interleave can both be granted the last free capacity:
    each reads the totals before the other inserts, and the node ends up
    overcommitted. *)
Theorem reserve_race_overcommits :
  verifier_ok test_verifier ∧
  let '(pcs, v) :=
    run_calls [test_call "a"; test_call "b"]
      [(0%nat, 0); (1%nat, 0); (0%nat, 1); (1%nat, 1); (0%nat, 2); (1%nat, 2);
       (0%nat, 3); (1%nat, 3); (0%nat, 4); (1%nat, 4)] [RStart; RStart] test_verifier in
  pcs = [RDone (Ok ()); RDone (Ok ())] ∧ ¬ no_overcommit v.
Proof.
  split; [apply test_verifier_ok|].
  destruct (run_calls _ _ _ _) as [pcs v] eqn:E. vm_compute in E. simplify_eq.
  split; [done|]. intros [Hc _]. revert Hc. vm_compute. done.
Qed.

Lemma available_within_limits_witness :
  available_cpu_milli test_resources = 7200 ∧
  available_memory_bytes test_resources = 3328599654 ∧
  available_storage_bytes test_resources = 14388140441.
Proof.
  apply (available_within_limits test_resources); [apply test_verifier_ok|vm_compute; discriminate..].
Defined.

Lemma reserve_capacity_no_overcommit_witness :
  verifier_ok (reserve_all [(0, 0, 0, test_call "a"); (1, 1, 1, test_call "b")] test_verifier).
Proof.
  apply reserve_capacity_no_overcommit; [apply test_verifier_ok|].
  constructor; [apply test_request_wf|constructor; [apply test_request_wf|constructor]].
Defined.

Lemma reserve_reduces_availability_witness :
  check_cpu_milli (verify_capacity 1 test_request
    (reserve_capacity 0 0 0 "req-test" (Some "manifest-test") test_request test_verifier).2).1 = 0.
Proof.
  assert (H := reserve_reduces_availability 0 0 0 "req-test" (Some "manifest-test")
    test_request test_request test_verifier 1 test_verifier_ok test_request_wf).
  destruct H as [H _]; [reflexivity|reflexivity| |reflexivity|].
  - intros k r Hr. unfold test_verifier in Hr. cbn [reservations] in Hr.
    by rewrite lookup_empty in Hr.
  - rewrite H. reflexivity.
Defined.

Lemma reservation_lifetime_witness :
  let v' := (reserve_capacity 0 0 0 "req-expire" (Some "manifest-expire") test_request test_verifier).2 in
  (has_active_reservation_for_manifest 2999999999 "manifest-expire" v').1 = true ∧
  reservations (has_active_reservation_for_manifest 3000000000 "manifest-expire" v').2
    !! "req-expire" = None.
Proof.
  split.
  - eapply (reservation_lifetime 0 0 0); [reflexivity..|].
    change (2999999999 < 3000000000). lia.
  - eapply (reservation_lifetime 0 0 0); [reflexivity..|].
    change (3000000000 <= 3000000000). lia.
Defined.
