(* ===== verification/NonceStore.v ===== *)
(** * Replay protection ([crypto/src/flatbuffer_envelope.rs])

    The process-wide nonce store: for each peer, the nonces it has used and
    when. An abstract specification keeps the whole history of accepted nonces
    and refuses one used within the window; the pruned store refines it. *)

From Stdlib Require Import Ascii.
From S2P Require Import Prelude RustStr.

(** ** The store *)

Abbreviation nonce_store := (gmap string (gmap string Z)).

Definition check_and_insert_nonce_for_peer (now : Z) (nonce : string) (window : Z)
    (peer : string) (store : nonce_store) : result string () * nonce_store :=
  if decide (nonce = "") then (Err "nonce cannot be empty", store)
  else
    let peer_store := default ∅ (store !! peer) in
    let peer_store := filter (λ kt, saturating_sub now kt.2 ≤ window) peer_store in
    match peer_store !! nonce with
    | Some _ => (Err "replay detected: nonce already seen", <[peer := peer_store]> store)
    | None => (Ok (), <[peer := <[nonce := now]> peer_store]> store)
    end.

Definition check_and_insert_nonce (now : Z) (nonce : string) (window : Z) (store : nonce_store) :
    result string () * nonce_store :=
  check_and_insert_nonce_for_peer now nonce window "global" store.

(** [normalize_and_decode_signature], the base64 decoder being external. *)
Definition normalize_and_decode_signature (base64_decode : string → option (list byte))
    (sig_opt : option string) : result string (list byte) :=
  let sig_str := default "" sig_opt in
  let b64_part := default sig_str (after_char ":"%char sig_str) in
  ok_or "failed to base64-decode signature" (base64_decode b64_part).

(** The instant a nonce was recorded, if the store still holds it. *)
Definition seen_at (store : nonce_store) (peer nonce : string) : option Z :=
  store !! peer ≫= λ s, s !! nonce.

(** ** Abstract specification: the full history *)

Record acceptance := { acc_peer : string; acc_nonce : string; acc_time : Z }.

(** When this peer last had this nonce accepted; newest entry first. *)
Fixpoint last_accepted (log : list acceptance) (peer nonce : string) : option Z :=
  match log with
  | [] => None
  | a :: log' =>
      if bool_decide (acc_peer a = peer ∧ acc_nonce a = nonce) then Some (acc_time a)
      else last_accepted log' peer nonce
  end.

Definition spec_check (now : Z) (nonce : string) (window : Z) (peer : string)
    (log : list acceptance) : result string () * list acceptance :=
  if decide (nonce = "") then (Err "nonce cannot be empty", log)
  else
    let entry := {| acc_peer := peer; acc_nonce := nonce; acc_time := now |} in
    match last_accepted log peer nonce with
    | Some t => if bool_decide (now - t ≤ window)
                then (Err "replay detected: nonce already seen", log)
                else (Ok (), entry :: log)
    | None => (Ok (), entry :: log)
    end.

(** A check request: when, which peer, which nonce. *)
Record check := { chk_time : Z; chk_peer : string; chk_nonce : string }.

Fixpoint run_store (window : Z) (cs : list check) (store : nonce_store) :
    list (result string ()) * nonce_store :=
  match cs with
  | [] => ([], store)
  | c :: cs' =>
      let '(r, store') :=
        check_and_insert_nonce_for_peer (chk_time c) (chk_nonce c) window (chk_peer c) store in
      let '(rs, store'') := run_store window cs' store' in (r :: rs, store'')
  end.

Fixpoint run_spec (window : Z) (cs : list check) (log : list acceptance) :
    list (result string ()) * list acceptance :=
  match cs with
  | [] => ([], log)
  | c :: cs' =>
      let '(r, log') := spec_check (chk_time c) (chk_nonce c) window (chk_peer c) log in
      let '(rs, log'') := run_spec window cs' log' in (r :: rs, log'')
  end.

(** ** The simulation *)

(** At clock [clk] the store holds every acceptance that is still in the
    window; an acceptance it no longer holds has left the window. *)
Definition store_refines (window clk : Z) (store : nonce_store) (log : list acceptance) : Prop :=
  ∀ p n, (∀ t, last_accepted log p n = Some t → t ≤ clk) ∧
         (seen_at store p n = last_accepted log p n ∨
          (seen_at store p n = None ∧ ∃ t, last_accepted log p n = Some t ∧ t + window < clk)).

Lemma seen_at_pruned now window peer store p n :
  seen_at (<[peer := filter (λ kt, saturating_sub now kt.2 ≤ window)
                       (default ∅ (store !! peer))]> store) p n =
  if decide (p = peer) then
    match seen_at store p n with
    | Some t => if decide (saturating_sub now t ≤ window) then Some t else None
    | None => None
    end
  else seen_at store p n.
Proof.
  unfold seen_at. destruct (decide (p = peer)) as [->|Hne].
  - rewrite lookup_insert_eq. simpl. rewrite map_lookup_filter.
    destruct (store !! peer) as [s|]; simpl; [|by rewrite lookup_empty].
    destruct (s !! n) as [t|]; simpl; [|done].
    repeat case_guard; repeat case_decide; done.
  - by rewrite lookup_insert_ne by done.
Qed.

Lemma seen_at_insert peer nonce now s store p n :
  seen_at (<[peer := <[nonce := now]> s]> store) p n =
  if bool_decide (peer = p ∧ nonce = n) then Some now
  else seen_at (<[peer := s]> store) p n.
Proof.
  unfold seen_at. destruct (decide (peer = p)) as [->|Hne].
  - rewrite !lookup_insert_eq. simpl. rewrite lookup_insert.
    case_bool_decide; case_decide; naive_solver.
  - rewrite !lookup_insert_ne by done. by rewrite bool_decide_eq_false_2 by naive_solver.
Qed.

(** Pruning preserves the simulation as the clock advances. *)
Lemma prune_refines window clk now peer store log :
  0 ≤ window → clk ≤ now → store_refines window clk store log →
  store_refines window now
    (<[peer := filter (λ kt, saturating_sub now kt.2 ≤ window) (default ∅ (store !! peer))]> store)
    log.
Proof.
  intros Hw Hclk Hr p n. destruct (Hr p n) as [Hb Hs]. split; [intros t Ht; specialize (Hb t Ht); lia|].
  rewrite seen_at_pruned. destruct Hs as [Hs|[Hs (t & Hl & Ht)]].
  - rewrite Hs. case_decide; [|by left]. destruct (last_accepted log p n) as [t|] eqn:E; [|by left].
    specialize (Hb t eq_refl). case_decide as Hd; [by left|right]. split; [done|].
    exists t. split; [done|]. unfold saturating_sub in Hd. lia.
  - right. split; [by rewrite Hs; case_decide|]. exists t. split; [done|lia].
Qed.

(** One check: same verdict, and the simulation is preserved. *)
Lemma check_refines window clk now peer nonce store log :
  0 ≤ window → clk ≤ now → store_refines window clk store log →
  let r := check_and_insert_nonce_for_peer now nonce window peer store in
  let s := spec_check now nonce window peer log in
  r.1 = s.1 ∧ store_refines window now r.2 s.2.
Proof.
  intros Hw Hclk Hr. unfold check_and_insert_nonce_for_peer, spec_check.
  destruct (decide (nonce = "")) as [|Hne]; simpl.
  { split; [done|]. intros p n. destruct (Hr p n) as [Hb [Hs|(Hs & t & ? & ?)]].
    all: split; [intros t' Ht'; specialize (Hb t' Ht'); lia|]. { by left. }
    right. eauto with lia. }
  pose proof (prune_refines window clk now peer store log Hw Hclk Hr) as Hp.
  set (ps := filter _ _) in *. destruct (Hp peer nonce) as [Hb Hs].
  assert (Hseen : seen_at (<[peer := ps]> store) peer nonce = ps !! nonce)
    by (unfold seen_at; by rewrite lookup_insert_eq).
  assert (Hold : ∀ t, ps !! nonce = Some t → saturating_sub now t ≤ window)
    by (intros t [_ Ht]%map_lookup_filter_Some; done).
  rewrite Hseen in Hs. destruct (ps !! nonce) as [t|] eqn:E.
  - destruct Hs as [Hs|[Hs _]]; [|done]. rewrite <- Hs.
    rewrite bool_decide_eq_true_2; [done|]. specialize (Hold t eq_refl). u_lia.
  - assert (Hfresh : ∀ t, last_accepted log peer nonce = Some t → ¬ now - t ≤ window).
    { intros t Ht. destruct Hs as [Hs|(_ & t' & Hl & Ht')]; [congruence|]. simplify_eq. lia. }
    assert (Hnew : store_refines window now (<[peer := <[nonce := now]> ps]> store)
      ({| acc_peer := peer; acc_nonce := nonce; acc_time := now |} :: log)).
    { intros p n. rewrite seen_at_insert. simpl.
      case_bool_decide; [|apply Hp]. split; [intros ? [= <-]; lia|by left]. }
    destruct (last_accepted log peer nonce) as [t|]; [|done].
    rewrite bool_decide_eq_false_2; [done|by apply Hfresh].
Qed.

(** The clock readings of a run never decrease, from [clk] on. *)
Fixpoint times_from (clk : Z) (cs : list check) : Prop :=
  match cs with [] => True | c :: cs' => clk ≤ chk_time c ∧ times_from (chk_time c) cs' end.

Lemma run_refines window clk cs store log :
  0 ≤ window → times_from clk cs → store_refines window clk store log →
  (run_store window cs store).1 = (run_spec window cs log).1.
Proof.
  intros Hw. revert clk store log. induction cs as [|c cs IH]; intros clk store log Ht Hr; [done|].
  destruct Ht as [Hclk Ht]. simpl.
  pose proof (check_refines window clk (chk_time c) (chk_peer c) (chk_nonce c)
    store log Hw Hclk Hr) as [H1 H2].
  destruct (check_and_insert_nonce_for_peer _ _ _ _ _) as [r store'].
  destruct (spec_check _ _ _ _ _) as [s log']. simpl in *. subst s.
  specialize (IH _ _ _ Ht H2).
  destruct (run_store _ _ _), (run_spec _ _ _). simpl in *. congruence.
Qed.

(** ** Single checks *)

Lemma seen_at_peer_store now window peer store n :
  filter (λ kt : string * Z, saturating_sub now kt.2 ≤ window) (default ∅ (store !! peer)) !! n =
  match seen_at store peer n with
  | Some t => if decide (saturating_sub now t ≤ window) then Some t else None
  | None => None
  end.
Proof.
  pose proof (seen_at_pruned now window peer store peer n) as Hp.
  unfold seen_at in Hp at 1. rewrite lookup_insert_eq, decide_True in Hp by done. done.
Qed.

(** A nonce is accepted when the store does not hold it, or held it too long. *)
Lemma check_old_or_unseen now nonce window peer store :
  nonce ≠ "" →
  match seen_at store peer nonce with Some t => window < saturating_sub now t | None => True end →
  (check_and_insert_nonce_for_peer now nonce window peer store).1 = Ok ().
Proof.
  intros Hn Hs. unfold check_and_insert_nonce_for_peer. rewrite decide_False by done.
  rewrite seen_at_peer_store. destruct (seen_at store peer nonce); [|done].
  by rewrite decide_False by lia.
Qed.

Lemma check_unseen now nonce window peer store :
  nonce ≠ "" → seen_at store peer nonce = None →
  check_and_insert_nonce_for_peer now nonce window peer store =
  (Ok (), (check_and_insert_nonce_for_peer now nonce window peer store).2).
Proof.
  intros Hn Hs. pose proof (check_old_or_unseen now nonce window peer store Hn) as Hc.
  rewrite Hs in Hc. specialize (Hc I). destruct (check_and_insert_nonce_for_peer _ _ _ _ _).
  simpl in *. congruence.
Qed.

(** What an accepted nonce leaves in the store: itself at the current time,
    and at most what was there for every other nonce. *)
Lemma check_seen_at now nonce window peer store store' :
  check_and_insert_nonce_for_peer now nonce window peer store = (Ok (), store') →
  ∀ p n, seen_at store' p n =
    if decide (peer = p ∧ nonce = n) then Some now
    else if decide (p = peer) then
      match seen_at store p n with
      | Some t => if decide (saturating_sub now t ≤ window) then Some t else None
      | None => None
      end
    else seen_at store p n.
Proof.
  unfold check_and_insert_nonce_for_peer. case_decide; [done|]. case_match; [done|].
  intros [= <-] p n. rewrite seen_at_insert, seen_at_pruned.
  by repeat case_bool_decide; repeat case_decide.
Qed.

Lemma check_again_rejected now now' nonce window peer store store' :
  check_and_insert_nonce_for_peer now nonce window peer store = (Ok (), store') →
  now ≤ now' → now' - now ≤ window →
  (check_and_insert_nonce_for_peer now' nonce window peer store').1 =
    Err "replay detected: nonce already seen".
Proof.
  intros Hc H1 H2. pose proof (check_seen_at _ _ _ _ _ _ Hc peer nonce) as Hs.
  rewrite decide_True in Hs by done.
  unfold check_and_insert_nonce_for_peer in *. case_decide; [done|].
  rewrite seen_at_peer_store, Hs, decide_True by u_lia. done.
Qed.

(** ** Properties *)

(** C3: over any sequence of checks with a monotone clock, the pruned store
    gives the verdicts of the specification that remembers everything: a nonce
    is refused exactly when it is empty or was accepted from the same peer
    within the window. *)
Theorem nonce_store_refines_history window clk cs :
  0 ≤ window → times_from clk cs →
  (run_store window cs ∅).1 = (run_spec window cs []).1.
Proof.
  intros Hw Ht. apply (run_refines window clk); [done..|].
  intros p n. split; [done|]. left. unfold seen_at. by rewrite lookup_empty.
Qed.

Definition five_minutes : Z := 300 * 1000000000.

Lemma nonce_store_refines_history_witness :
  (run_store five_minutes
     [{| chk_time := 0; chk_peer := "p"; chk_nonce := "n" |};
      {| chk_time := five_minutes; chk_peer := "p"; chk_nonce := "n" |};
      {| chk_time := five_minutes; chk_peer := "q"; chk_nonce := "n" |};
      {| chk_time := five_minutes + 1; chk_peer := "p"; chk_nonce := "n" |}] ∅).1 =
  [Ok (); Err "replay detected: nonce already seen"; Ok (); Ok ()].
Proof.
  rewrite (nonce_store_refines_history five_minutes 0);
    [reflexivity|unfold five_minutes; lia|unfold five_minutes; simpl; lia].
Defined.
