(* ===== verification/Libp2p.v ===== *)
(** * External interfaces: libp2p, FlatBuffers, post-quantum cryptography

    Third-party crates the machine plane calls, as operations of a class;
    what they are documented to do is a separate class of laws, assumed only
    by the theorems that need it. *)

From S2P Require Import Prelude Utf8.

(** ** [libp2p::PeerId] *)

Class PeerIds := {
  PeerId : Type;
  PeerId_eq_dec :: EqDecision PeerId;
  PeerId_countable :: Countable PeerId;
  peer_to_string : PeerId → string;
  peer_to_bytes : PeerId → list byte;
  peer_from_bytes : list byte → option PeerId;
  peer_cmp : PeerId → PeerId → comparison;
}.

(** Peer identifiers are multihashes: the binary form is short and decodes to
    the identifier; the derived order is a total order. *)
Class PeerIdLaws `{PeerIds} : Prop := {
  peer_bytes_roundtrip p : peer_from_bytes (peer_to_bytes p) = Some p;
  peer_bytes_short p : Z.of_nat (length (peer_to_bytes p)) < 2 ^ 32;
  peer_cmp_eq p q : peer_cmp p q = Eq ↔ p = q;
  peer_cmp_antisym p q : peer_cmp q p = CompOpp (peer_cmp p q);
  peer_cmp_lt_trans p q r : peer_cmp p q = Lt → peer_cmp q r = Lt → peer_cmp p r = Lt;
}.

(** ** The Kademlia behaviour of the swarm

    Its routing state, with the calls the provider code makes on it. *)

Class Kademlia `{PeerIds} := {
  kad : Type;
  local_peer_id : kad → PeerId;
  start_providing : string → kad → result string () * kad;
  stop_kad_providing : string → kad → kad;
  get_providers : string → kad → kad;
  put_record : string → list byte → PeerId → kad → result string () * kad;
}.

(** ** The other behaviours of the swarm

    What the control messages and the event loop call besides the provider
    operations, on the same state. A query is named by an identifier; its
    [Debug] text is what the code files it under. *)

Class Swarm `{Kademlia} := {
  QueryId : Type;
  query_id_debug : QueryId → string;
  (** The identifier of the query that [get_providers] starts. *)
  get_providers_query : string → kad → QueryId;
  (** The [Debug] text of an error of [start_providing], given its message. *)
  store_error_debug : string → string;
  connected_peers : kad → list PeerId;
  gossip_peers : kad → list PeerId;
  bootstrap : kad → kad;
  add_address : PeerId → string → kad → kad;
  remove_peer : PeerId → kad → kad;
  add_explicit_peer : PeerId → kad → kad;
  remove_explicit_peer : PeerId → kad → kad;
}.

(** ** The FlatBuffers envelope table *)

(** The fields of the generated [Envelope] table; strings and vectors may be
    absent, scalars have a default. *)
Record Envelope := {
  env_payload : option (list byte);
  env_payload_type : option string;
  env_nonce : option string;
  env_ts : Z;
  env_alg : option string;
  env_sig : option string;
  env_pubkey : option string;
  env_kem_pubkey : option string;
  env_peer_id : option string;
}.

(** [Envelope::create] followed by [finish], and [root_as_envelope]. *)
Class FlatBuffers := {
  finish_envelope : Envelope → list byte;
  root_as_envelope : list byte → option Envelope;
}.

Class FlatBuffersLaws `{FlatBuffers} : Prop := {
  root_finish e : in_u 64 (env_ts e) → root_as_envelope (finish_envelope e) = Some e;
  root_ts_u64 l e : root_as_envelope l = Some e → in_u 64 (env_ts e);
}.

(** ** ML-DSA-65 signatures and base64 *)

Class Crypto := {
  base64_encode : list byte → string;
  base64_decode : string → option (list byte);
  (** [MlDsaPublicKey::from_bytes] and back; [None] when it does not parse. *)
  ml_dsa_public : list byte → option (list byte);
  (** Signing with a secret key, and checking a signature: [None] for an error
      of the library (initialisation, malformed key or signature). *)
  ml_dsa_sign : list byte → list byte → option (list byte);
  ml_dsa_verify : list byte → list byte → list byte → option bool;
}.

(** Base64 text decodes to what was encoded; a signature made with a key of a
    pair verifies under the other one. *)
Class CryptoLaws `{Crypto} (keypair : list byte → list byte → Prop) : Prop := {
  base64_roundtrip l : base64_decode (base64_encode l) = Some l;
  ml_dsa_public_bytes pk sk : keypair pk sk → ml_dsa_public pk = Some pk;
  ml_dsa_sign_total pk sk m : keypair pk sk → is_Some (ml_dsa_sign sk m);
  ml_dsa_correct pk sk m s :
    keypair pk sk → ml_dsa_sign sk m = Some s → ml_dsa_verify pk m s = Some true;
}.

(** ** ML-KEM-512 and AES-256-GCM *)

(** [None] is an error of the library: a key or a ciphertext that does not
    parse, or a failed initialisation. Encapsulation takes its randomness as an
    argument and gives the ciphertext and the shared secret. *)
Class Kem := {
  kem_encapsulate : list byte → list byte → option (list byte * list byte);
  kem_decapsulate : list byte → list byte → option (list byte);
  aes_encrypt : list byte → list byte → list byte → option (list byte);
  aes_decrypt : list byte → list byte → list byte → option (list byte);
}.

(** Encapsulation always succeeds for the public key of a pair, with a
    ciphertext of fixed size and a secret of 32 bytes that decapsulation
    recovers; AES-GCM appends a tag of 16 bytes and decrypts what it encrypted. *)
Class KemLaws `{Kem} (kem_pair : list byte → list byte → Prop) : Prop := {
  kem_correct pk sk seed : kem_pair pk sk → ∃ ct shared,
    kem_encapsulate seed pk = Some (ct, shared) ∧ kem_decapsulate sk ct = Some shared ∧
    Z.of_nat (length ct) < 2 ^ 16 ∧ length shared = 32%nat;
  aes_correct key nonce m : length key = 32%nat → length nonce = 12%nat →
    Z.of_nat (length m) < 2 ^ 36 - 32 → ∃ ct,
    aes_encrypt key nonce m = Some ct ∧ aes_decrypt key nonce ct = Some m ∧
    length ct = (length m + 16)%nat;
}.

(** ** The request and reply tables *)

Record ApplyRequest := {
  ar_replicas : Z;
  ar_operation_id : option string;
  ar_manifest_json : option string;
  ar_origin_peer : option string;
  ar_manifest_id : option string;
}.

Record DeleteRequest := {
  dr_manifest_id : option string;
  dr_operation_id : option string;
  dr_origin_peer : option string;
  dr_force : bool;
}.

Record CapacityRequest := {
  cr_request_id : option string;
  cr_cpu_milli : Z;
  cr_memory_bytes : Z;
  cr_storage_bytes : Z;
  cr_replicas : Z;
}.

Record CapacityReply := {
  rp_request_id : option string;
  rp_ok : bool;
  rp_node_id : option string;
  rp_region : option string;
  rp_kem_pubkey : option string;
  rp_capabilities : option (list string);
  rp_cpu_available_milli : Z;
  rp_memory_available_bytes : Z;
  rp_storage_available_bytes : Z;
}.

Record Handshake := {
  hs_nonce : Z;
  hs_timestamp : Z;
  hs_protocol_version : option string;
  hs_signature : option string;
}.

(** The generated [root_as_...] readers: [None] when the verifier rejects. *)
Class Messages := {
  root_as_apply_request : list byte → option ApplyRequest;
  root_as_delete_request : list byte → option DeleteRequest;
  root_as_capacity_request : list byte → option CapacityRequest;
  root_as_capacity_reply : list byte → option CapacityReply;
  root_as_handshake : list byte → option Handshake;
  (** The generated builders, [create] followed by [finish]. *)
  finish_capacity_request : CapacityRequest → list byte;
  finish_capacity_reply : CapacityReply → list byte;
  finish_handshake : Handshake → list byte;
}.

(** The scalars of a table have the widths of the schema. *)
Class MessagesLaws `{Messages} : Prop := {
  capacity_request_widths l r : root_as_capacity_request l = Some r →
    in_u 32 (cr_cpu_milli r) ∧ in_u 64 (cr_memory_bytes r) ∧ in_u 64 (cr_storage_bytes r) ∧
    in_u 32 (cr_replicas r);
}.
