(* ===== verification/Concrete.v ===== *)
(** * Concrete instances of the external interfaces

    Small computable implementations that satisfy the laws of [Libp2p] and
    [Serde]: they show that the hypotheses of the theorems can hold, and the
    concrete runs of the other files use them. *)

From S2P Require Import Prelude Utf8 Serde Libp2p.

(** ** A prefix-free byte encoding of countable types *)

Fixpoint pos_bytes (p : positive) : list byte :=
  match p with
  | xH => [x01]
  | xO p' => x00 :: pos_bytes p'
  | xI p' => x02 :: pos_bytes p'
  end.

Fixpoint bytes_pos (l : list byte) : option positive :=
  match l with
  | [x01] => Some xH
  | x00 :: l' => xO <$> bytes_pos l'
  | x02 :: l' => xI <$> bytes_pos l'
  | _ => None
  end.

Lemma bytes_pos_bytes p : bytes_pos (pos_bytes p) = Some p.
Proof. induction p as [p IH|p IH|]; simpl; [by rewrite IH..|done]. Qed.

#[export] Instance byte_countable : Countable byte :=
  inj_countable Byte.to_N Byte.of_N Byte.of_to_N.

(** A table as the list of its encoded fields. *)
Definition envelope_fields (e : Envelope) : list positive :=
  [encode (env_payload e); encode (env_payload_type e); encode (env_nonce e); encode (env_ts e);
   encode (env_alg e); encode (env_sig e); encode (env_pubkey e); encode (env_kem_pubkey e);
   encode (env_peer_id e)].

Definition fields_envelope (fs : list positive) : option Envelope :=
  match fs with
  | [a; b; c; d; e; f; g; h; i] =>
      a ← decode a; b ← decode b; c ← decode c; d ← decode d; e ← decode e; f ← decode f;
      g ← decode g; h ← decode h; i ← decode i;
      Some {| env_payload := a; env_payload_type := b; env_nonce := c; env_ts := d; env_alg := e;
              env_sig := f; env_pubkey := g; env_kem_pubkey := h; env_peer_id := i |}
  | _ => None
  end.

Lemma fields_envelope_fields e : fields_envelope (envelope_fields e) = Some e.
Proof. unfold fields_envelope, envelope_fields. rewrite !decode_encode. by destruct e. Qed.

Module Toy.

#[export] Instance flatbuffers : FlatBuffers := {
  finish_envelope e := pos_bytes (positives_flatten (envelope_fields e));
  root_as_envelope l :=
    p ← bytes_pos l; fs ← positives_unflatten p; e ← fields_envelope fs;
    if decide (in_u 64 (env_ts e)) then Some e else None;
}.

#[export] Instance flatbuffers_laws : FlatBuffersLaws.
Proof.
  split.
  - intros e Hu. unfold root_as_envelope, finish_envelope, flatbuffers.
    rewrite bytes_pos_bytes. cbn [mbind option_bind]. rewrite positives_unflatten_flatten.
    cbn [mbind option_bind]. rewrite fields_envelope_fields. cbn [mbind option_bind].
    by rewrite decide_True.
  - intros l e Hl. simpl in Hl. repeat apply bind_Some in Hl as (? & _ & Hl).
    case_decide; naive_solver.
Qed.

(** A signature is the key followed by the message; keys are symmetric. *)
#[export] Instance crypto : Crypto := {
  base64_encode := string_of_bytes;
  base64_decode s := Some (as_bytes s);
  ml_dsa_public pk := Some pk;
  ml_dsa_sign sk m := Some (sk ++ m);
  ml_dsa_verify pk m s := Some (bool_decide (s = pk ++ m));
}.

#[export] Instance crypto_laws : CryptoLaws (λ pk sk, pk = sk).
Proof.
  split; simpl; try done; [intros l; by rewrite as_bytes_of_bytes|].
  intros pk sk m s -> [= <-]. by rewrite bool_decide_eq_true_2.
Qed.

(** The same keys when only [messages] were ever signed: nothing else
    verifies. *)
Definition sealed (messages : list (list byte)) : Crypto := {|
  base64_encode := string_of_bytes;
  base64_decode s := Some (as_bytes s);
  ml_dsa_public pk := Some pk;
  ml_dsa_sign sk m := if decide (m ∈ messages) then Some (sk ++ m) else None;
  ml_dsa_verify pk m s := Some (bool_decide (m ∈ messages ∧ s = pk ++ m));
|}.

(** The secret is made of the seed's first byte and travels in the clear;
    encryption appends sixteen zeros. *)
#[export] Instance kem : Kem := {
  kem_encapsulate seed pk := Some (take 1 seed, replicate 32 (default x00 (head seed)));
  kem_decapsulate sk ct := Some (replicate 32 (default x00 (head ct)));
  aes_encrypt key nonce m := Some (m ++ replicate 16 x00);
  aes_decrypt key nonce ct := Some (take (length ct - 16) ct);
}.

#[export] Instance kem_laws : KemLaws (λ pk sk, pk = sk).
Proof.
  split.
  - intros pk sk seed _. eexists _, _. split; [done|].
    split_and!; [by destruct seed|destruct seed; simpl; lia|done].
  - intros key nonce m _ _ _. exists (m ++ replicate 16 x00). split; [done|].
    assert (length (m ++ replicate 16 x00) = length m + 16)%nat as Hl
      by by rewrite length_app, length_replicate.
    split; [|done]. unfold aes_decrypt, kem. by rewrite Hl, Nat.add_sub, take_app_length.
Qed.

(** Peers are single bytes. *)
#[export] Instance peers : PeerIds := {
  PeerId := byte;
  PeerId_countable := byte_countable;
  peer_to_string b := "peer-" +:+ pretty (Byte.to_N b);
  peer_to_bytes b := [b];
  peer_from_bytes l := match l with [b] => Some b | _ => None end;
  peer_cmp p q := N.compare (Byte.to_N p) (Byte.to_N q);
}.

Definition toy_peer (b : byte) : @PeerId peers := b.

Lemma to_N_inj p q : Byte.to_N p = Byte.to_N q → p = q.
Proof. intros Hpq%(f_equal Byte.of_N). rewrite !Byte.of_to_N in Hpq. congruence. Qed.

#[export] Instance peer_laws : PeerIdLaws.
Proof.
  split; simpl; [done|lia| | |].
  - intros p q. rewrite N.compare_eq_iff. split; [apply to_N_inj|by intros ->].
  - intros p q. apply N.compare_antisym.
  - intros p q r. rewrite !N.compare_lt_iff. lia.
Qed.

(** A Kademlia that logs the calls it gets and never fails. *)
#[export] Instance kademlia : Kademlia := {
  kad := list (string * string);
  local_peer_id _ := x07;
  start_providing k log := (Ok (), log ++ [("start_providing", k)]);
  stop_kad_providing k log := log ++ [("stop_providing", k)];
  get_providers k log := log ++ [("get_providers", k)];
  put_record k _ _ log := (Ok (), log ++ [("put_record", k)]);
}.

(** One peer is connected; a query is named by the calls before it. *)
#[export] Instance swarm : Swarm := {
  QueryId := nat;
  query_id_debug n := "QueryId(" +:+ pretty n +:+ ")";
  get_providers_query _ log := length log;
  store_error_debug e := e;
  connected_peers _ := [x02];
  gossip_peers _ := [x02];
  bootstrap log := log ++ [("bootstrap", "")];
  add_address _ a log := log ++ [("add_address", a)];
  remove_peer _ log := log ++ [("remove_peer", "")];
  add_explicit_peer _ log := log ++ [("add_explicit_peer", "")];
  remove_explicit_peer _ log := log ++ [("remove_explicit_peer", "")];
}.

(** Documents are encoded like everything else; there is no other syntax. *)
#[export] Instance serde : Serde := {
  json_from_str _ := None;
  yaml_from_str s := if decide (s = "") then None else Some (YString s);
  yaml_to_string v := yaml_as_str v;
  json_map_to_string m := string_of_bytes (pos_bytes (encode m));
  json_map_from_str s := bytes_pos (as_bytes s) ≫= decode;
}.

Lemma pos_bytes_utf8 p : utf8_valid (pos_bytes p) = true.
Proof. unfold utf8_valid. induction p; [exact IHp|exact IHp|done]. Qed.

#[export] Instance serde_map_laws : SerdeMapLaws.
Proof.
  split; intros m _; unfold utf8_string; simpl; rewrite as_bytes_of_bytes.
  - rewrite bytes_pos_bytes. simpl. apply decode_encode.
  - apply pos_bytes_utf8.
Qed.

End Toy.
