(* ===== verification/FlatBuf.v ===== *)
(** * The FlatBuffers crate

    The part of the [flatbuffers] crate that the generated code calls: the
    builder, the verifying readers and the table accessor, as the operations of
    a class. What the crate documents about them is a second class, stated
    through the value an offset of the builder stands for; from it come the
    rules by which the generated code is verified. *)

From S2P Require Import Prelude Utf8 Concrete.

Open Scope list_scope.

(** ** Types of fields *)

(** The scalars of the schemas. *)
Inductive scalar := SBool | SI8 | SU32 | SU64.

Definition scalar_dom (s : scalar) : Type := match s with SBool => bool | _ => Z end.

Definition scalar_Z (s : scalar) : scalar_dom s → Z :=
  match s with SBool => Z.b2z | _ => λ z, z end.

Definition scalar_width (s : scalar) : scalar_dom s → Prop :=
  match s with SBool => λ _, True | SI8 => in_i 8 | SU32 => in_u 32 | SU64 => in_u 64 end.

(** The type argument of [Table::get] and [visit_field]: a scalar, or an offset
    to a string, to a vector of bytes, of strings or of tables. A table type
    is the list of fields its [run_verifier] visits: name, slot, type and
    whether the field is required. *)
Inductive ftype :=
| FScalar (s : scalar)
| FStr
| FBytes
| FStrs
| FTables (fields : list (string * Z * ftype * bool)).

Abbreviation field := (string * Z * ftype * bool)%type.

(** What a field of that type gives when it is followed. *)
Definition inner (Table : Type) (T : ftype) : Type :=
  match T with
  | FScalar s => scalar_dom s
  | FStr => string
  | FBytes => list byte
  | FStrs => list string
  | FTables _ => list Table
  end.

(** ** Operations *)

Class FlatBufferCrate := {
  FlatBufferBuilder : Type;
  WIPOffset : Type;
  TableUnfinishedWIPOffset : Type;
  Table : Type;
  VerifierOptions : Type;
  InvalidFlatbuffer : Type;
  with_capacity : nat → FlatBufferBuilder;
  create_string : string → FlatBufferBuilder → WIPOffset * FlatBufferBuilder;
  (** [create_vector] of bytes and of offsets. *)
  create_bytes : list byte → FlatBufferBuilder → WIPOffset * FlatBufferBuilder;
  create_offsets : list WIPOffset → FlatBufferBuilder → WIPOffset * FlatBufferBuilder;
  start_table : FlatBufferBuilder → TableUnfinishedWIPOffset * FlatBufferBuilder;
  (** [push_slot] of a scalar with its default, [push_slot_always] of an offset. *)
  push_slot : ∀ s, Z → scalar_dom s → scalar_dom s → FlatBufferBuilder → FlatBufferBuilder;
  push_slot_always : Z → WIPOffset → FlatBufferBuilder → FlatBufferBuilder;
  end_table : TableUnfinishedWIPOffset → FlatBufferBuilder → WIPOffset * FlatBufferBuilder;
  (** [finish] and [finish_size_prefixed] without a file identifier. *)
  fbb_finish : WIPOffset → FlatBufferBuilder → FlatBufferBuilder;
  fbb_finish_size_prefixed : WIPOffset → FlatBufferBuilder → FlatBufferBuilder;
  finished_data : FlatBufferBuilder → list byte;
  default_options : VerifierOptions;
  root_with_opts : VerifierOptions → list field → list byte → result InvalidFlatbuffer Table;
  size_prefixed_root_with_opts :
    VerifierOptions → list field → list byte → result InvalidFlatbuffer Table;
  root : list field → list byte → result InvalidFlatbuffer Table;
  size_prefixed_root : list field → list byte → result InvalidFlatbuffer Table;
  root_unchecked : list byte → Table;
  size_prefixed_root_unchecked : list byte → Table;
  get : ∀ T, Table → Z → option (inner Table T) → option (inner Table T);
}.

(** ** Values *)

(** What an offset stands for. A table lists the slots that were written. *)
Inductive value :=
| VScalar (s : scalar) (z : Z)
| VStr (x : string)
| VBytes (l : list byte)
| VVec (vs : list value)
| VTable (slots : list (Z * value)).

Abbreviation slots := (list (Z * value)).

Fixpoint slot_value (slot : Z) (fs : slots) : option value :=
  match fs with
  | [] => None
  | (k, v) :: fs => if Z.eqb k slot then Some v else slot_value slot fs
  end.

(** The value has the type. *)
Fixpoint has_type (T : ftype) (v : value) {struct T} : Prop :=
  match T, v with
  | FScalar s, VScalar s' z => s' = s ∧ ∃ x, scalar_width s x ∧ scalar_Z s x = z
  | FStr, VStr _ => True
  | FBytes, VBytes _ => True
  | FStrs, VVec vs => Forall (λ v, ∃ x, v = VStr x) vs
  | FTables spec, VVec vs =>
      Forall (λ v, ∃ fs, v = VTable fs ∧
        (fix conf (spec : list field) : Prop :=
           match spec with
           | [] => True
           | (_, slot, T, required) :: spec =>
               match slot_value slot fs with
               | Some v => has_type T v
               | None => required = false
               end ∧ conf spec
           end) spec) vs
  | _, _ => False
  end.

(** Every visited field has its type, or is absent and not required. *)
Fixpoint conforms (spec : list field) (fs : slots) : Prop :=
  match spec with
  | [] => True
  | (_, slot, T, required) :: spec =>
      match slot_value slot fs with
      | Some v => has_type T v
      | None => required = false
      end ∧ conforms spec fs
  end.

Lemma has_type_tables spec vs :
  Forall (λ v, ∃ fs, v = VTable fs ∧ conforms spec fs) vs → has_type (FTables spec) (VVec vs).
Proof.
  simpl. intros Hf. eapply Forall_impl; [done|]. intros v (fs & -> & Hc). exists fs. split; [done|].
  clear Hf. induction spec as [|[[[n slot] T] r] spec IH]; simpl in *; [done|].
  destruct Hc as [? Hc]. split; [done|by apply IH].
Qed.

(** The slot that [push_slot] writes: none for the default. *)
Definition scalar_slot (s : scalar) (x default : scalar_dom s) : option value :=
  if Z.eqb (scalar_Z s x) (scalar_Z s default) then None else Some (VScalar s (scalar_Z s x)).

(** What following a field gives, for the value it has. *)
Definition holds {Table : Type} (reads : Table → slots → Prop) (T : ftype) :
    value → inner Table T → Prop :=
  match T with
  | FScalar s => λ v x, v = VScalar s (scalar_Z s x)
  | FStr => λ v x, v = VStr x
  | FBytes => λ v x, v = VBytes x
  | FStrs => λ v x, v = VVec (VStr <$> x)
  | FTables _ => λ v x, ∃ vs, v = VVec vs ∧
      Forall2 (λ v t, ∃ fs, v = VTable fs ∧ reads t fs) vs x
  end.

(** ** Documented behaviour

    [idle]: no table is being written. [stands_for]: an offset of the builder
    and its value. [writing]: the table that is open, with the slots pushed so
    far, the last first. [reads]: a table of a buffer and its slots. [fits]:
    the verifier's limits on depth, tables and size hold for the value. *)
Class FlatBufferLaws `{FlatBufferCrate} := {
  idle : FlatBufferBuilder → Prop;
  stands_for : FlatBufferBuilder → WIPOffset → value → Prop;
  writing : FlatBufferBuilder → TableUnfinishedWIPOffset → slots → Prop;
  reads : Table → slots → Prop;
  fits : value → Prop;
  keeps (b b' : FlatBufferBuilder) : Prop := ∀ o v, stands_for b o v → stands_for b' o v;
  with_capacity_idle n : idle (with_capacity n);
  create_string_law s b o b' : idle b → create_string s b = (o, b') →
    idle b' ∧ keeps b b' ∧ stands_for b' o (VStr s);
  create_bytes_law l b o b' : idle b → create_bytes l b = (o, b') →
    idle b' ∧ keeps b b' ∧ stands_for b' o (VBytes l);
  create_offsets_law os vs b o b' : idle b → Forall2 (stands_for b) os vs →
    create_offsets os b = (o, b') → idle b' ∧ keeps b b' ∧ stands_for b' o (VVec vs);
  start_table_law b u b' : idle b → start_table b = (u, b') → writing b' u [] ∧ keeps b b';
  push_slot_law s slot x d b u fs : writing b u fs → slot ∉ fs.*1 →
    scalar_width s x → scalar_width s d →
    writing (push_slot s slot x d b) u
      (match scalar_slot s x d with Some v => (slot, v) :: fs | None => fs end) ∧
    keeps b (push_slot s slot x d b);
  push_slot_always_law slot o v b u fs : writing b u fs → slot ∉ fs.*1 → stands_for b o v →
    writing (push_slot_always slot o b) u ((slot, v) :: fs) ∧
    keeps b (push_slot_always slot o b);
  end_table_law b u fs o b' : writing b u fs → end_table u b = (o, b') →
    idle b' ∧ keeps b b' ∧ stands_for b' o (VTable fs);
  root_law spec b o fs : idle b → stands_for b o (VTable fs) → conforms spec fs → fits (VTable fs) →
    ∃ t, root spec (finished_data (fbb_finish o b)) = Ok t ∧ reads t fs;
  size_prefixed_root_law spec b o fs :
    idle b → stands_for b o (VTable fs) → conforms spec fs → fits (VTable fs) →
    ∃ t, size_prefixed_root spec (finished_data (fbb_finish_size_prefixed o b)) = Ok t ∧ reads t fs;
  root_options_law spec l : root spec l = root_with_opts default_options spec l;
  size_prefixed_root_options_law spec l :
    size_prefixed_root spec l = size_prefixed_root_with_opts default_options spec l;
  root_unchecked_law opts spec l t : root_with_opts opts spec l = Ok t → root_unchecked l = t;
  size_prefixed_root_unchecked_law opts spec l t :
    size_prefixed_root_with_opts opts spec l = Ok t → size_prefixed_root_unchecked l = t;
  get_default_law T t slot d : is_Some (get T t slot (Some d));
  get_absent_law T t fs slot d : reads t fs → slot_value slot fs = None → get T t slot d = d;
  get_present_law T t fs slot d v : reads t fs → slot_value slot fs = Some v → has_type T v →
    ∃ x, get T t slot d = Some x ∧ holds reads T v x;
  get_width_law s t slot d x : get (FScalar s) t slot d = Some x → d = Some x ∨ scalar_width s x;
}.

(** [_tab.get::<s>(slot, Some(d)).unwrap()]: with a default, [get] always gives
    a value. *)
Definition get_unwrap `{FlatBufferCrate} (s : scalar) (t : Table) (slot : Z) (d : scalar_dom s) :
    scalar_dom s :=
  default d (get (FScalar s) t slot (Some d)).

(** ** Code that writes to a builder *)

Section build.
Context `{FlatBufferCrate}.

Definition Build (A : Type) : Type := FlatBufferBuilder → A * FlatBufferBuilder.

Definition build_ret {A} (a : A) : Build A := λ b, (a, b).
Definition build_bind {A B} (m : Build A) (k : A → Build B) : Build B :=
  λ b, let '(a, b) := m b in k a b.

(** [Option::map] and [iter().map().collect()] with a closure that writes. *)
Definition write_opt {A B} (f : A → Build B) (o : option A) : Build (option B) :=
  match o with
  | None => build_ret None
  | Some a => build_bind (f a) (λ x, build_ret (Some x))
  end.

Fixpoint write_all {A B} (f : A → Build B) (l : list A) : Build (list B) :=
  match l with
  | [] => build_ret []
  | a :: l => build_bind (f a) (λ x, build_bind (write_all f l) (λ xs, build_ret (x :: xs)))
  end.

(** A vector of what the closure writes for each element. *)
Definition write_vector {A} (f : A → Build WIPOffset) (l : list A) : Build WIPOffset :=
  build_bind (write_all f l) create_offsets.

(** [finish] and [finished_data] on a new builder. *)
Definition finished (capacity : nat) (m : Build WIPOffset) : list byte :=
  let '(o, b) := m (with_capacity capacity) in finished_data (fbb_finish o b).

Definition finished_size_prefixed (capacity : nat) (m : Build WIPOffset) : list byte :=
  let '(o, b) := m (with_capacity capacity) in finished_data (fbb_finish_size_prefixed o b).

(** The state of a generated table builder: the crate's builder and where the
    table started. *)
Record TableBuilder := { fbb_ : FlatBufferBuilder; start_ : TableUnfinishedWIPOffset }.

Definition on_fbb (f : FlatBufferBuilder → FlatBufferBuilder) (b : TableBuilder) : TableBuilder :=
  {| fbb_ := f (fbb_ b); start_ := start_ b |}.

(** [if let Some(x) = o { builder.add(x); }] *)
Definition if_let {A} (o : option A) (add : A → TableBuilder → TableBuilder) (b : TableBuilder) : TableBuilder :=
  match o with None => b | Some x => add x b end.

End build.

Notation "x <~ m ;; k" := (build_bind m (λ x, k)) (at level 100, m at next level, right associativity) : rust_scope.

Arguments on_fbb : simpl never.
Arguments if_let : simpl never.
Arguments finished : simpl never.
Arguments finished_size_prefixed : simpl never.

(** ** Fields *)

(** The fields a [create] treats, one per call, without a value when the call
    writes nothing; and the slots that it writes. *)
Abbreviation fields := (list (Z * option value)).

Definition written (fs : fields) : slots := omap (λ f, pair f.1 <$> f.2) fs.

Fixpoint field_value (slot : Z) (fs : fields) : option value :=
  match fs with
  | [] => None
  | (k, v) :: fs => if Z.eqb k slot then v else field_value slot fs
  end.

Lemma written_keys fs slot : slot ∉ fs.*1 → slot ∉ (written fs).*1.
Proof.
  intros Hn Hin. apply Hn. apply list_elem_of_fmap in Hin as ((k & v) & -> & Hin).
  apply list_elem_of_omap in Hin as ((k' & ov) & Hin & Heq). simpl in Heq.
  destruct ov as [w|]; [|done]. injection Heq as <- <-. apply list_elem_of_fmap. by exists (k', Some w).
Qed.

Lemma written_value_None fs slot : slot ∉ fs.*1 → slot_value slot (written fs) = None.
Proof.
  induction fs as [|[k [v|]] fs IH]; simpl; [done|..]; rewrite not_elem_of_cons; intros [Hne Hn].
  - case_match eqn:E; [by apply Z.eqb_eq in E|by apply IH].
  - by apply IH.
Qed.

Lemma written_value fs slot : NoDup fs.*1 → slot_value slot (written fs) = field_value slot fs.
Proof.
  induction fs as [|[k [v|]] fs IH]; simpl; [done|..]; rewrite NoDup_cons; intros [Hn Hnd].
  - by rewrite IH.
  - case_match eqn:E; [|by apply IH]. apply Z.eqb_eq in E as ->. by apply written_value_None.
Qed.

(** ** Rules *)

Section rules.
Context `{FlatBufferLaws}.

(** An absent offset stands for an absent value. *)
Definition stands_opt (b : FlatBufferBuilder) (o : option WIPOffset) (v : option value) : Prop :=
  match o, v with
  | Some o, Some v => stands_for b o v
  | None, None => True
  | _, _ => False
  end.

(** Running [m] from an idle builder leaves it idle with what was written
    before, and gives something that [Q] relates to [v]. *)
Definition writes_as {A V} (Q : FlatBufferBuilder → A → V → Prop) (m : Build A) (v : V) : Prop :=
  ∀ b, idle b → let '(a, b') := m b in idle b' ∧ keeps b b' ∧ Q b' a v.

Definition writes : Build WIPOffset → value → Prop := writes_as stands_for.
Definition writes_opt : Build (option WIPOffset) → option value → Prop := writes_as stands_opt.

Lemma keeps_refl b : keeps b b.
Proof. by intros o v. Qed.

Lemma keeps_trans b b' b'' : keeps b b' → keeps b' b'' → keeps b b''.
Proof. intros H1 H2 o v Ho. by apply H2, H1. Qed.

Lemma stands_opt_keeps b b' o v : keeps b b' → stands_opt b o v → stands_opt b' o v.
Proof. intros Hk. destruct o, v; simpl; auto. Qed.

Lemma stands_none b : stands_opt b None None.
Proof. done. Qed.

Lemma stands_all_keeps b b' os vs :
  keeps b b' → Forall2 (stands_for b) os vs → Forall2 (stands_for b') os vs.
Proof. intros Hk Hf. eapply Forall2_impl; [done|]. intros o v. apply Hk. Qed.

Lemma writes_string s : writes (create_string s) (VStr s).
Proof. intros b Hb. destruct (create_string s b) as [o b'] eqn:E. by eapply create_string_law. Qed.

Lemma writes_bytes l : writes (create_bytes l) (VBytes l).
Proof. intros b Hb. destruct (create_bytes l b) as [o b'] eqn:E. by eapply create_bytes_law. Qed.

Lemma writes_opt_of {A} (f : A → Build WIPOffset) (g : A → value) o :
  (∀ a, writes (f a) (g a)) → writes_opt (write_opt f o) (g <$> o).
Proof.
  intros Hf b Hb. destruct o as [a|]; simpl.
  - unfold build_bind. specialize (Hf a b Hb). by destruct (f a b) as [x b'].
  - split_and!; [done|apply keeps_refl|done].
Qed.

(** A value always written, as the optional field that holds it. *)
Lemma writes_some m v : writes m v →
  writes_opt (build_bind m (λ o, build_ret (Some o))) (Some v).
Proof. intros Hm b Hb. unfold build_bind. specialize (Hm b Hb). by destruct (m b). Qed.

Lemma writes_all {A} (f : A → Build WIPOffset) (g : A → value) l :
  (∀ a, writes (f a) (g a)) →
  writes_as (λ b os vs, Forall2 (stands_for b) os vs) (write_all f l) (g <$> l).
Proof.
  intros Hf. induction l as [|a l IH]; intros b Hb; simpl.
  - split_and!; [done|apply keeps_refl|constructor].
  - unfold build_bind, build_ret. specialize (Hf a b Hb). destruct (f a b) as [x b1].
    destruct Hf as (Hi & Hk & Hx). specialize (IH b1 Hi). destruct (write_all f l b1) as [xs b2].
    destruct IH as (Hi2 & Hk2 & Hxs). split_and!; [done|by eapply keeps_trans|].
    constructor; [by apply Hk2|done].
Qed.

Lemma writes_vector {A} (f : A → Build WIPOffset) (g : A → value) l :
  (∀ a, writes (f a) (g a)) → writes (write_vector f l) (VVec (g <$> l)).
Proof.
  intros Hf b Hb. unfold write_vector, build_bind. pose proof (writes_all f g l Hf b Hb) as Hl.
  destruct (write_all f l b) as [os b1]. destruct Hl as (Hi & Hk & Hos).
  destruct (create_offsets os b1) as [o b2] eqn:E.
  destruct (create_offsets_law _ _ _ _ _ Hi Hos E) as (? & ? & ?).
  split_and!; [done|by eapply keeps_trans|done].
Qed.

Lemma writes_opt_vector {A} (f : A → Build WIPOffset) (g : A → value) o :
  (∀ a, writes (f a) (g a)) →
  writes_opt (write_opt (write_vector f) o) ((λ l, VVec (g <$> l)) <$> o).
Proof. intros Hf. apply writes_opt_of. intros l. by apply writes_vector. Qed.

(** The state of an open table, with what was written before it. *)
Definition open_table (b : FlatBufferBuilder) (t : TableBuilder) (fs : fields) : Prop :=
  keeps b (fbb_ t) ∧ writing (fbb_ t) (start_ t) (written fs) ∧ NoDup fs.*1.

(** A table of a buffer that holds these fields. *)
Definition reads_fields (t : Table) (fs : fields) : Prop := reads t (written fs) ∧ NoDup fs.*1.

Lemma open_new b : idle b →
  open_table b (let '(start, b) := start_table b in {| fbb_ := b; start_ := start |}) [].
Proof.
  intros Hb. destruct (start_table b) as [u b1] eqn:E.
  destruct (start_table_law _ _ _ Hb E) as [Hw Hk]. split_and!; [done|done|constructor].
Qed.

Lemma open_scalar b t fs s slot x d :
  open_table b t fs → slot ∉ fs.*1 → scalar_width s x → scalar_width s d →
  open_table b (on_fbb (push_slot s slot x d) t) ((slot, scalar_slot s x d) :: fs).
Proof.
  intros (Hk & Hw & Hnd) Hn Hx Hd.
  destruct (push_slot_law s slot x d _ _ _ Hw (written_keys _ _ Hn) Hx Hd) as [Hw' Hk'].
  split_and!; [by eapply keeps_trans| |by constructor].
  simpl. by destruct (scalar_slot s x d).
Qed.

Lemma open_offset b t fs slot o v : open_table b t fs → slot ∉ fs.*1 → stands_opt b o v →
  open_table b (if_let o (λ x, on_fbb (push_slot_always slot x)) t) ((slot, v) :: fs).
Proof.
  intros (Hk & Hw & Hnd) Hn Ho. apply (stands_opt_keeps _ _ _ _ Hk) in Ho.
  destruct o as [o|], v as [v|]; try done.
  - destruct (push_slot_always_law slot o v _ _ _ Hw (written_keys _ _ Hn) Ho) as [Hw' Hk'].
    split_and!; [by eapply keeps_trans|done|by constructor].
  - split_and!; [done|done|by constructor].
Qed.

Lemma close_table b t fs : open_table b t fs →
  let '(o, b') := end_table (start_ t) (fbb_ t) in
  idle b' ∧ keeps b b' ∧ stands_for b' o (VTable (written fs)).
Proof.
  intros (Hk & Hw & _). destruct (end_table _ _) as [o b'] eqn:E.
  destruct (end_table_law _ _ _ _ _ Hw E) as (? & ? & ?). split_and!; [done|by eapply keeps_trans|done].
Qed.

(** A step of a writer: the value it gives is known to the rest, and what was
    written before is kept. *)
Lemma write_field b m ov (k : option WIPOffset → Build WIPOffset) v :
  writes_opt m ov → idle b →
  (∀ o b', idle b' → keeps b b' → stands_opt b' o ov →
     let '(a, b'') := k o b' in idle b'' ∧ keeps b' b'' ∧ stands_for b'' a v) →
  let '(a, b'') := build_bind m k b in idle b'' ∧ keeps b b'' ∧ stands_for b'' a v.
Proof.
  intros Hm Hb Hk. unfold build_bind. specialize (Hm b Hb). destruct (m b) as [o b'].
  destruct Hm as (Hi & Hkp & Ho). specialize (Hk o b' Hi Hkp Ho). destruct (k o b') as [a b''].
  destruct Hk as (? & ? & ?). split_and!; [done|by eapply keeps_trans|done].
Qed.

(** ** Reading back *)

Lemma root_writes spec n m fs : writes m (VTable fs) → conforms spec fs → fits (VTable fs) →
  ∃ t, root spec (finished n m) = Ok t ∧ reads t fs.
Proof.
  intros Hm Hc Hf. unfold finished. specialize (Hm _ (with_capacity_idle n)).
  destruct (m _) as [o b]. destruct Hm as (Hb & _ & Ho). by eapply root_law.
Qed.

Lemma size_prefixed_root_writes spec n m fs : writes m (VTable fs) → conforms spec fs → fits (VTable fs) →
  ∃ t, size_prefixed_root spec (finished_size_prefixed n m) = Ok t ∧ reads t fs.
Proof.
  intros Hm Hc Hf. unfold finished_size_prefixed. specialize (Hm _ (with_capacity_idle n)).
  destruct (m _) as [o b]. destruct Hm as (Hb & _ & Ho). by eapply size_prefixed_root_law.
Qed.

Lemma scalar_Z_inj s x y : scalar_Z s x = scalar_Z s y → x = y.
Proof. destruct s; simpl; [by destruct x, y|done..]. Qed.

Lemma scalar_slot_typed s x d v : scalar_width s x → scalar_slot s x d = Some v → has_type (FScalar s) v.
Proof. unfold scalar_slot. case_match; [done|]. intros Hx [= <-]. split; [done|]. by exists x. Qed.

Lemma get_scalar s t fs slot x d : reads_fields t fs → scalar_width s x →
  field_value slot fs = scalar_slot s x d → get_unwrap s t slot d = x.
Proof.
  intros [Ht Hnd] Hx Hs. rewrite <- written_value in Hs by done. unfold get_unwrap. enough (get (FScalar s) t slot (Some d) = Some x) as -> by done. destruct (scalar_slot s x d) as [v|] eqn:Ev.
  - destruct (get_present_law (FScalar s) t _ slot (Some d) v Ht Hs) as (y & -> & Hy).
    { by eapply scalar_slot_typed. }
    f_equal. unfold scalar_slot in Ev. case_match; [done|]. injection Ev as <-.
    simpl in Hy. injection Hy as Hy. by apply scalar_Z_inj.
  - rewrite (get_absent_law _ t (written fs)) by done. f_equal. unfold scalar_slot in Ev.
    case_match eqn:E; [|done]. apply Z.eqb_eq in E. by apply scalar_Z_inj.
Qed.

(** An accessor of a scalar stays within its width, on any table. *)
Lemma get_unwrap_width s t slot d : scalar_width s d → scalar_width s (get_unwrap s t slot d).
Proof.
  intros Hd. unfold get_unwrap. pose proof (get_default_law (FScalar s) t slot d) as Hs.
  pose proof (get_width_law s t slot (Some d)) as Hw. simpl in *.
  destruct (get (FScalar s) t slot (Some d)) as [x|]; [|by destruct Hs]. simpl.
  by destruct (Hw x eq_refl) as [[= <-]|].
Qed.

Lemma get_str t fs slot o : reads_fields t fs → field_value slot fs = VStr <$> o → get FStr t slot None = o.
Proof.
  intros [Ht Hnd] Hs. rewrite <- written_value in Hs by done. destruct o as [x|]; simpl in Hs; [|by eapply get_absent_law].
  destruct (get_present_law FStr t _ slot None _ Ht Hs) as (y & -> & Hy); [done|].
  simpl in Hy. by injection Hy as ->.
Qed.

Lemma get_bytes t fs slot o : reads_fields t fs → field_value slot fs = VBytes <$> o → get FBytes t slot None = o.
Proof.
  intros [Ht Hnd] Hs. rewrite <- written_value in Hs by done. destruct o as [x|]; simpl in Hs; [|by eapply get_absent_law].
  destruct (get_present_law FBytes t _ slot None _ Ht Hs) as (y & -> & Hy); [done|].
  simpl in Hy. by injection Hy as ->.
Qed.

Lemma get_strs t fs slot o : reads_fields t fs →
  field_value slot fs = (λ l, VVec (VStr <$> l)) <$> o → get FStrs t slot None = o.
Proof.
  intros [Ht Hnd] Hs. rewrite <- written_value in Hs by done. destruct o as [x|]; simpl in Hs; [|by eapply get_absent_law].
  destruct (get_present_law FStrs t _ slot None _ Ht Hs) as (y & -> & Hy); simpl in *.
  - apply Forall_fmap, Forall_true. intros s. by exists s.
  - injection Hy as Hy. f_equal. symmetry. assert (Inj (=) (=) VStr) by by intros ?? [= ->].
    by apply (inj (fmap (M:=list) VStr)).
Qed.

(** A vector of tables, each read back as the element it was written for. *)
Lemma get_tables {A} (view : Table → A) (gs : A → fields) spec t fs slot o :
  reads_fields t fs → field_value slot fs = (λ l, VVec ((λ a, VTable (written (gs a))) <$> l)) <$> o →
  (∀ a, NoDup (gs a).*1 ∧ conforms spec (written (gs a))) → (∀ a t', reads_fields t' (gs a) → view t' = a) →
  fmap view <$> get (FTables spec) t slot None = o.
Proof.
  intros [Ht Hnd] Hs Hc Hv. rewrite <- written_value in Hs by done. destruct o as [l|]; simpl in Hs; [|by rewrite (get_absent_law _ t (written fs))].
  destruct (get_present_law (FTables spec) t _ slot None _ Ht Hs) as (y & -> & Hy).
  - apply has_type_tables, Forall_fmap, Forall_true. intros a. exists (written (gs a)). split; [done|apply Hc].
  - simpl in *. f_equal. destruct Hy as (vs & [= <-] & Hy). clear Hs. revert y Hy.
    induction l as [|a l IH]; intros y Hy; simpl in Hy.
    + by apply Forall2_nil_inv_l in Hy as ->.
    + apply Forall2_cons_inv_l in Hy as (t' & y' & (fs' & [= <-] & Hr) & Hy & ->). simpl.
      f_equal; [|by apply IH]. apply Hv. by split; [|apply Hc].
Qed.

(** The visited fields have their types. *)
Definition slot_ok (T : ftype) (v : option value) : Prop :=
  match v with Some v => has_type T v | None => True end.

Lemma slot_ok_scalar s x d : scalar_width s x → slot_ok (FScalar s) (scalar_slot s x d).
Proof. intros Hx. unfold slot_ok. case_match eqn:E; [|done]. by eapply scalar_slot_typed. Qed.

Lemma slot_ok_str o : slot_ok FStr (VStr <$> o).
Proof. by destruct o. Qed.

Lemma slot_ok_bytes o : slot_ok FBytes (VBytes <$> o).
Proof. by destruct o. Qed.

Lemma slot_ok_strs o : slot_ok FStrs ((λ l, VVec (VStr <$> l)) <$> o).
Proof. destruct o as [l|]; [|done]. simpl. apply Forall_fmap, Forall_true. intros s. by exists s. Qed.

Lemma slot_ok_tables {A} (gs : A → fields) spec o : (∀ a, NoDup (gs a).*1 ∧ conforms spec (written (gs a))) →
  slot_ok (FTables spec) ((λ l, VVec ((λ a, VTable (written (gs a))) <$> l)) <$> o).
Proof.
  intros Hc. destruct o as [l|]; [|done]. apply has_type_tables, Forall_fmap, Forall_true. intros a.
  exists (written (gs a)). split; [done|apply Hc].
Qed.

Lemma conforms_cons name slot T spec fs : NoDup fs.*1 →
  slot_ok T (field_value slot fs) → conforms spec (written fs) →
  conforms ((name, slot, T, false) :: spec) (written fs).
Proof. intros Hnd Hs Hc. simpl. rewrite written_value by done. unfold slot_ok in Hs. by case_match. Qed.

(** What [m] writes is a table that the verifier accepts and that [view] reads
    as [x]. *)
Definition writes_view {X} (m : Build WIPOffset) (spec : list field) (view : Table → X) (x : X) : Prop :=
  ∃ fs, writes m (VTable (written fs)) ∧ NoDup fs.*1 ∧ conforms spec (written fs) ∧
    ∀ t, reads_fields t fs → view t = x.

(** What [m] writes is within the limits of the verifier. *)
Definition within_limits (m : Build WIPOffset) : Prop := ∀ v, writes m v → fits v.

Lemma writes_view_root {X} n m spec (view : Table → X) x : writes_view m spec view x →
  within_limits m →
  (∃ t, root spec (finished n m) = Ok t ∧ view t = x) ∧
  (∃ t, size_prefixed_root spec (finished_size_prefixed n m) = Ok t ∧ view t = x).
Proof.
  intros (fs & Hw & Hnd & Hc & Hv) Hl. split.
  - destruct (root_writes spec n m _ Hw Hc (Hl _ Hw)) as (t & Ht & Hr). exists t. by split; [|apply Hv].
  - destruct (size_prefixed_root_writes spec n m _ Hw Hc (Hl _ Hw)) as (t & Ht & Hr).
    exists t. by split; [|apply Hv].
Qed.

End rules.

(** ** Automation *)

Create HintDb flatbuf.
#[export] Hint Resolve writes_string writes_bytes : flatbuf.
#[export] Hint Resolve slot_ok_scalar slot_ok_str slot_ok_bytes slot_ok_strs slot_ok_tables : flatbuf.
#[export] Hint Extern 1 (scalar_width SBool _) => exact I : flatbuf.

(** What was written before a step is still there after it. *)
Ltac lift_stands Hk :=
  repeat match goal with
  | Ho : stands_opt _ _ _ |- _ => apply (stands_opt_keeps _ _ _ _ Hk) in Ho
  end; clear Hk.

(** One field that a writer creates. *)
Ltac write_step :=
  eapply write_field;
  [first [eapply writes_opt_vector|eapply writes_opt_of]; by eauto with flatbuf|done|];
  let o := fresh "o" in let b := fresh "b" in let Hb := fresh "Hb" in
  let Hk := fresh "Hk" in let Ho := fresh "Ho" in
  intros o b Hb Hk Ho; lift_stands Hk.

(** The calls of a [create]: the slots pushed before a call are known when its
    slot is compared with them. *)
Ltac push_all :=
  lazymatch goal with
  | |- open_table _ (if_let _ _ _) _ =>
      eapply open_offset; [push_all|by apply (bool_decide_unpack _)|first [eassumption|apply stands_none]]
  | |- open_table _ (on_fbb ?f _) _ =>
      let f' := eval simpl in f in change f with f';
      eapply open_scalar; [push_all|by apply (bool_decide_unpack _)|first [exact I|done]|first [exact I|by apply (bool_decide_unpack _)]]
  | |- _ => by apply open_new
  end.

Ltac solve_writes :=
  let b := fresh "b" in let Hb := fresh "Hb" in
  intros b Hb; repeat write_step;
  autounfold with flatbuf; cbv zeta beta;
  eapply close_table; push_all.

Ltac solve_conforms :=
  autounfold with flatbuf;
  repeat (apply conforms_cons; [by apply (bool_decide_unpack _)|cbn [field_value Z.eqb Pos.eqb]; by eauto with flatbuf|]);
  exact I.

(** An accessor gives the field that was written. *)
Ltac solve_field :=
  first
  [ reflexivity
  | eapply get_str; [eassumption|reflexivity]
  | eapply get_bytes; [eassumption|reflexivity]
  | eapply get_strs; [eassumption|reflexivity]
  | lazymatch goal with
    | |- get_unwrap ?s ?t ?slot ?d = ?x =>
        refine (get_scalar s t _ slot x d _ _ _); [eassumption|first [exact I|done]|reflexivity]
    end ].

(** A table built from scalars, strings and vectors of them. *)
Ltac solve_written r :=
  intros; eexists; split_and!; [solve_writes|by apply (bool_decide_unpack _)|solve_conforms|];
  let t := fresh "t" in let Ht := fresh "Ht" in
  intros t Ht; destruct r; autounfold with flatbuf; f_equal; try solve_field.

(** ** A concrete crate

    An offset is the value it stands for; a buffer is the encoding of its root
    table. *)

Module ToyFlatBuf.

#[export] Instance scalar_eq : EqDecision scalar.
Proof. solve_decision. Defined.

Definition scalar_of_nat (n : nat) : scalar :=
  match n with O => SBool | 1%nat => SI8 | 2%nat => SU32 | _ => SU64 end.
Definition nat_of_scalar (s : scalar) : nat :=
  match s with SBool => 0 | SI8 => 1 | SU32 => 2 | SU64 => 3 end.

Abbreviation leaf := (nat * Z + (string + list byte))%type.

Fixpoint value_tree (v : value) : gen_tree leaf :=
  match v with
  | VScalar s z => GenLeaf (inl (nat_of_scalar s, z))
  | VStr x => GenLeaf (inr (inl x))
  | VBytes l => GenLeaf (inr (inr l))
  | VVec vs => GenNode 0 (value_tree <$> vs)
  | VTable fs => GenNode 1 ((λ kv, GenNode 0 (GenLeaf (inl (O, kv.1)) ::
      [value_tree kv.2])) <$> fs)
  end.

Fixpoint tree_value (t : gen_tree leaf) : value :=
  match t with
  | GenLeaf (inl (s, z)) => VScalar (scalar_of_nat s) z
  | GenLeaf (inr (inl x)) => VStr x
  | GenLeaf (inr (inr l)) => VBytes l
  | GenNode O ts => VVec (tree_value <$> ts)
  | GenNode _ ts => VTable ((λ t, match t with
      | GenNode _ [GenLeaf (inl (_, k)); t] => (k, tree_value t)
      | _ => (0, VStr "")
      end) <$> ts)
  end.

Lemma tree_value_tree : ∀ v, tree_value (value_tree v) = v.
Proof.
  fix IH 1. intros [s z|x|l|vs|fs]; simpl.
  - by destruct s.
  - done.
  - done.
  - f_equal. induction vs as [|v vs IHvs]; simpl; f_equal; [apply IH|apply IHvs].
  - f_equal. induction fs as [|[k v] fs IHfs]; simpl; f_equal; [f_equal; apply IH|apply IHfs].
Qed.

#[export] Instance value_eq : EqDecision value.
Proof.
  intros v w. destruct (decide (value_tree v = value_tree w)) as [Heq|Hne]; [left|right].
  - by rewrite <- (tree_value_tree v), Heq, tree_value_tree.
  - by intros ->.
Defined.
#[export] Instance value_countable : Countable value := inj_countable' value_tree tree_value tree_value_tree.

Definition toy_bytes (v : value) : list byte := pos_bytes (encode v).

Definition toy_table (l : list byte) : result string slots :=
  match bytes_pos l ≫= decode with Some (VTable fs) => Ok fs | _ => Err "invalid" end.

Definition scalar_of_Z (s : scalar) : Z → option (scalar_dom s) :=
  match s with
  | SBool => λ z, Some (bool_decide (z ≠ 0))
  | SI8 => λ z, if decide (in_i 8 z) then Some z else None
  | SU32 => λ z, if decide (in_u 32 z) then Some z else None
  | SU64 => λ z, if decide (in_u 64 z) then Some z else None
  end.

Definition toy_follow (T : ftype) : value → option (inner slots T) :=
  match T with
  | FScalar s => λ v, match v with VScalar s' z => if decide (s' = s) then scalar_of_Z s z else None | _ => None end
  | FStr => λ v, match v with VStr x => Some x | _ => None end
  | FBytes => λ v, match v with VBytes x => Some x | _ => None end
  | FStrs => λ v, match v with
      | VVec vs => mapM (λ v, match v with VStr x => Some x | _ => None end) vs | _ => None end
  | FTables _ => λ v, match v with
      | VVec vs => mapM (λ v, match v with VTable fs => Some fs | _ => None end) vs | _ => None end
  end.

Record toy_builder := { toy_open : slots; toy_buffer : list byte }.

#[export] Instance toy_crate : FlatBufferCrate := {|
  FlatBufferBuilder := toy_builder;
  WIPOffset := value;
  TableUnfinishedWIPOffset := ();
  Table := slots;
  VerifierOptions := ();
  InvalidFlatbuffer := string;
  with_capacity _ := {| toy_open := []; toy_buffer := [] |};
  create_string s b := (VStr s, b);
  create_bytes l b := (VBytes l, b);
  create_offsets vs b := (VVec vs, b);
  start_table b := ((), {| toy_open := []; toy_buffer := toy_buffer b |});
  push_slot s slot x d b :=
    {| toy_open := match scalar_slot s x d with
                   | Some v => (slot, v) :: toy_open b | None => toy_open b end;
       toy_buffer := toy_buffer b |};
  push_slot_always slot v b :=
    {| toy_open := (slot, v) :: toy_open b; toy_buffer := toy_buffer b |};
  end_table _ b := (VTable (toy_open b), b);
  fbb_finish v b := {| toy_open := []; toy_buffer := toy_bytes v |};
  fbb_finish_size_prefixed v b := {| toy_open := []; toy_buffer := x00 :: toy_bytes v |};
  finished_data := toy_buffer;
  default_options := ();
  root_with_opts _ _ l := toy_table l;
  size_prefixed_root_with_opts _ _ l := toy_table (tail l);
  root _ l := toy_table l;
  size_prefixed_root _ l := toy_table (tail l);
  root_unchecked l := match toy_table l with Ok t => t | Err _ => [] end;
  size_prefixed_root_unchecked l := match toy_table (tail l) with Ok t => t | Err _ => [] end;
  get T t slot d :=
    match slot_value slot t ≫= toy_follow T with Some x => Some x | None => d end;
|}.

Lemma toy_table_bytes fs : toy_table (toy_bytes (VTable fs)) = Ok fs.
Proof. unfold toy_table, toy_bytes. rewrite bytes_pos_bytes. simpl. by rewrite decode_encode. Qed.

Lemma scalar_of_Z_width s z x : scalar_of_Z s z = Some x → scalar_width s x.
Proof. destruct s; simpl; [done|case_decide; [by intros [= <-]|done]..]. Qed.

Lemma scalar_of_Z_of s x : scalar_width s x → scalar_of_Z s (scalar_Z s x) = Some x.
Proof. destruct s; simpl; [by destruct x|intros; by rewrite decide_True..]. Qed.

Lemma toy_follow_holds T v : has_type T v →
  ∃ x, toy_follow T v = Some x ∧ holds (Table:=slots) eq T v x.
Proof.
  destruct T as [s| | | |spec], v as [s' z|x|l|vs|fs]; try done; simpl.
  - intros (-> & x & Hx & <-). exists x. by rewrite decide_True, scalar_of_Z_of.
  - eauto.
  - eauto.
  - induction 1 as [|v vs [x ->] _ (xs & IH & Hxs)]; [by exists []|].
    exists (x :: xs). simpl. rewrite IH. injection Hxs as ->. done.
  - induction 1 as [|v vs (fs & -> & _) _ (ts & IH & vs' & [= <-] & Hts)]; [by exists []; eauto|].
    exists (fs :: ts). simpl. rewrite IH. split; [done|]. exists (VTable fs :: vs). split; [done|].
    constructor; eauto.
Qed.

#[export] Instance toy_crate_laws : FlatBufferLaws.
Proof.
  refine {| idle _ := True; stands_for _ o v := o = v; writing b _ fs := toy_open b = fs;
            reads t fs := t = fs; fits _ := True |}; simpl; try done.
  - intros. by simplify_eq.
  - intros. by simplify_eq.
  - intros os vs b o b' _ Hos Heq. simplify_eq. split_and!; [done|done|]. f_equal.
    by apply list_eq_Forall2.
  - intros. by simplify_eq.
  - intros s slot x d b _ fs -> _ _ _. done.
  - intros slot o v b _ fs -> _ ->. done.
  - intros b _ fs o b' -> Heq. by simplify_eq.
  - intros _ _ o fs _ -> _ _. rewrite toy_table_bytes. eauto.
  - intros _ _ o fs _ -> _ _. rewrite toy_table_bytes. eauto.
  - intros _ _ l t ->. done.
  - intros _ _ l t ->. done.
  - intros T t slot d. destruct (_ ≫= _); eauto.
  - intros T t fs slot d -> ->. done.
  - intros T t fs slot d v -> -> Hv. destruct (toy_follow_holds T v Hv) as (x & Hx & Hh).
    exists x. simpl. by rewrite Hx.
  - intros s t slot d x. destruct (slot_value slot t) as [[s' z| | | |]|]; simpl; [|by left..].
    case_decide as Hs; [|by left]. destruct (scalar_of_Z s z) as [y|] eqn:E; [|by left].
    intros [= <-]. right. by eapply scalar_of_Z_width.
Defined.

End ToyFlatBuf.
