(* ===== verification/GeneratedRequests.v ===== *)
(** * Generated tables: requests, their replies, the handshake and the envelope

    The code that the FlatBuffers compiler generates for these schemas
    ([protocol/src/generated]), table by table: the slots of the fields, the
    arguments and their defaults, [create] with the order of its calls, the
    fields the verifier visits, the accessors and the readers of a buffer. A
    table is the crate's [Table] itself, as the generated structures only wrap
    it; the names of the readers carry the prefix [fb_]. *)

From S2P Require Import Prelude FlatBuf.

Open Scope list_scope.

Section tables.
Context `{FlatBufferCrate}.

(** ** [Envelope] *)

Definition Envelope_VT_PAYLOAD : Z := 4.
Definition Envelope_VT_PAYLOAD_TYPE : Z := 6.
Definition Envelope_VT_NONCE : Z := 8.
Definition Envelope_VT_TS : Z := 10.
Definition Envelope_VT_ALG : Z := 12.
Definition Envelope_VT_SIG : Z := 14.
Definition Envelope_VT_PUBKEY : Z := 16.
Definition Envelope_VT_PEER_ID : Z := 18.
Definition Envelope_VT_KEM_PUBKEY : Z := 20.

Record EnvelopeArgs := {
  EnvelopeArgs_payload : option WIPOffset;
  EnvelopeArgs_payload_type : option WIPOffset;
  EnvelopeArgs_nonce : option WIPOffset;
  EnvelopeArgs_ts : Z;
  EnvelopeArgs_alg : option WIPOffset;
  EnvelopeArgs_sig : option WIPOffset;
  EnvelopeArgs_pubkey : option WIPOffset;
  EnvelopeArgs_peer_id : option WIPOffset;
  EnvelopeArgs_kem_pubkey : option WIPOffset;
}.

Definition EnvelopeArgs_default : EnvelopeArgs :=
  {| EnvelopeArgs_payload := None;
     EnvelopeArgs_payload_type := None;
     EnvelopeArgs_nonce := None;
     EnvelopeArgs_ts := 0;
     EnvelopeArgs_alg := None;
     EnvelopeArgs_sig := None;
     EnvelopeArgs_pubkey := None;
     EnvelopeArgs_peer_id := None;
     EnvelopeArgs_kem_pubkey := None |}.

Definition EnvelopeBuilder_add_payload (payload : WIPOffset) : TableBuilder → TableBuilder :=
  on_fbb (push_slot_always Envelope_VT_PAYLOAD payload).
Definition EnvelopeBuilder_add_payload_type (payload_type : WIPOffset) :
    TableBuilder → TableBuilder :=
  on_fbb (push_slot_always Envelope_VT_PAYLOAD_TYPE payload_type).
Definition EnvelopeBuilder_add_nonce (nonce : WIPOffset) : TableBuilder → TableBuilder :=
  on_fbb (push_slot_always Envelope_VT_NONCE nonce).
Definition EnvelopeBuilder_add_ts (ts : Z) : TableBuilder → TableBuilder :=
  on_fbb (push_slot SU64 Envelope_VT_TS ts 0).
Definition EnvelopeBuilder_add_alg (alg : WIPOffset) : TableBuilder → TableBuilder :=
  on_fbb (push_slot_always Envelope_VT_ALG alg).
Definition EnvelopeBuilder_add_sig (sig : WIPOffset) : TableBuilder → TableBuilder :=
  on_fbb (push_slot_always Envelope_VT_SIG sig).
Definition EnvelopeBuilder_add_pubkey (pubkey : WIPOffset) : TableBuilder → TableBuilder :=
  on_fbb (push_slot_always Envelope_VT_PUBKEY pubkey).
Definition EnvelopeBuilder_add_peer_id (peer_id : WIPOffset) : TableBuilder → TableBuilder :=
  on_fbb (push_slot_always Envelope_VT_PEER_ID peer_id).
Definition EnvelopeBuilder_add_kem_pubkey (kem_pubkey : WIPOffset) : TableBuilder → TableBuilder :=
  on_fbb (push_slot_always Envelope_VT_KEM_PUBKEY kem_pubkey).

Definition EnvelopeBuilder_new (_fbb : FlatBufferBuilder) : TableBuilder :=
  let '(start, _fbb) := start_table _fbb in {| fbb_ := _fbb; start_ := start |}.

Definition EnvelopeBuilder_finish (self : TableBuilder) : WIPOffset * FlatBufferBuilder :=
  end_table (start_ self) (fbb_ self).

Definition Envelope_create (args : EnvelopeArgs) : Build WIPOffset := λ _fbb,
  let builder := EnvelopeBuilder_new _fbb in
  let builder := EnvelopeBuilder_add_ts (EnvelopeArgs_ts args) builder in
  let builder := if_let (EnvelopeArgs_kem_pubkey args) EnvelopeBuilder_add_kem_pubkey builder in
  let builder := if_let (EnvelopeArgs_peer_id args) EnvelopeBuilder_add_peer_id builder in
  let builder := if_let (EnvelopeArgs_pubkey args) EnvelopeBuilder_add_pubkey builder in
  let builder := if_let (EnvelopeArgs_sig args) EnvelopeBuilder_add_sig builder in
  let builder := if_let (EnvelopeArgs_alg args) EnvelopeBuilder_add_alg builder in
  let builder := if_let (EnvelopeArgs_nonce args) EnvelopeBuilder_add_nonce builder in
  let builder := if_let (EnvelopeArgs_payload_type args) EnvelopeBuilder_add_payload_type builder in
  let builder := if_let (EnvelopeArgs_payload args) EnvelopeBuilder_add_payload builder in
  EnvelopeBuilder_finish builder.

Definition Envelope_run_verifier : list field :=
  [("payload", Envelope_VT_PAYLOAD, FBytes, false);
   ("payload_type", Envelope_VT_PAYLOAD_TYPE, FStr, false);
   ("nonce", Envelope_VT_NONCE, FStr, false);
   ("ts", Envelope_VT_TS, FScalar SU64, false);
   ("alg", Envelope_VT_ALG, FStr, false);
   ("sig", Envelope_VT_SIG, FStr, false);
   ("pubkey", Envelope_VT_PUBKEY, FStr, false);
   ("peer_id", Envelope_VT_PEER_ID, FStr, false);
   ("kem_pubkey", Envelope_VT_KEM_PUBKEY, FStr, false)].

Definition Envelope_payload (_tab : Table) : option (list byte) :=
  get FBytes _tab Envelope_VT_PAYLOAD None.
Definition Envelope_payload_type (_tab : Table) : option string :=
  get FStr _tab Envelope_VT_PAYLOAD_TYPE None.
Definition Envelope_nonce (_tab : Table) : option string :=
  get FStr _tab Envelope_VT_NONCE None.
Definition Envelope_ts (_tab : Table) : Z :=
  get_unwrap SU64 _tab Envelope_VT_TS 0.
Definition Envelope_alg (_tab : Table) : option string :=
  get FStr _tab Envelope_VT_ALG None.
Definition Envelope_sig (_tab : Table) : option string :=
  get FStr _tab Envelope_VT_SIG None.
Definition Envelope_pubkey (_tab : Table) : option string :=
  get FStr _tab Envelope_VT_PUBKEY None.
Definition Envelope_peer_id (_tab : Table) : option string :=
  get FStr _tab Envelope_VT_PEER_ID None.
Definition Envelope_kem_pubkey (_tab : Table) : option string :=
  get FStr _tab Envelope_VT_KEM_PUBKEY None.

Definition fb_root_as_envelope (buf : list byte) : result InvalidFlatbuffer Table :=
  root Envelope_run_verifier buf.

Definition fb_size_prefixed_root_as_envelope (buf : list byte) : result InvalidFlatbuffer Table :=
  size_prefixed_root Envelope_run_verifier buf.

Definition fb_root_as_envelope_with_opts (opts : VerifierOptions) (buf : list byte) :
    result InvalidFlatbuffer Table :=
  root_with_opts opts Envelope_run_verifier buf.

Definition fb_size_prefixed_root_as_envelope_with_opts (opts : VerifierOptions) (buf : list byte) :
    result InvalidFlatbuffer Table :=
  size_prefixed_root_with_opts opts Envelope_run_verifier buf.

Definition fb_root_as_envelope_unchecked (buf : list byte) : Table :=
  root_unchecked buf.

Definition fb_size_prefixed_root_as_envelope_unchecked (buf : list byte) : Table :=
  size_prefixed_root_unchecked buf.

Definition finish_envelope_buffer (root : WIPOffset) (fbb : FlatBufferBuilder) :
    FlatBufferBuilder :=
  fbb_finish root fbb.

Definition finish_size_prefixed_envelope_buffer (root : WIPOffset) (fbb : FlatBufferBuilder) :
    FlatBufferBuilder :=
  fbb_finish_size_prefixed root fbb.

(** ** [ApplyRequest] *)

Definition ApplyRequest_VT_REPLICAS : Z := 4.
Definition ApplyRequest_VT_OPERATION_ID : Z := 6.
Definition ApplyRequest_VT_MANIFEST_JSON : Z := 8.
Definition ApplyRequest_VT_ORIGIN_PEER : Z := 10.
Definition ApplyRequest_VT_MANIFEST_ID : Z := 12.

Record ApplyRequestArgs := {
  ApplyRequestArgs_replicas : Z;
  ApplyRequestArgs_operation_id : option WIPOffset;
  ApplyRequestArgs_manifest_json : option WIPOffset;
  ApplyRequestArgs_origin_peer : option WIPOffset;
  ApplyRequestArgs_manifest_id : option WIPOffset;
}.

Definition ApplyRequestArgs_default : ApplyRequestArgs :=
  {| ApplyRequestArgs_replicas := 1;
     ApplyRequestArgs_operation_id := None;
     ApplyRequestArgs_manifest_json := None;
     ApplyRequestArgs_origin_peer := None;
     ApplyRequestArgs_manifest_id := None |}.

Definition ApplyRequestBuilder_add_replicas (replicas : Z) : TableBuilder → TableBuilder :=
  on_fbb (push_slot SU32 ApplyRequest_VT_REPLICAS replicas 1).
Definition ApplyRequestBuilder_add_operation_id (operation_id : WIPOffset) :
    TableBuilder → TableBuilder :=
  on_fbb (push_slot_always ApplyRequest_VT_OPERATION_ID operation_id).
Definition ApplyRequestBuilder_add_manifest_json (manifest_json : WIPOffset) :
    TableBuilder → TableBuilder :=
  on_fbb (push_slot_always ApplyRequest_VT_MANIFEST_JSON manifest_json).
Definition ApplyRequestBuilder_add_origin_peer (origin_peer : WIPOffset) :
    TableBuilder → TableBuilder :=
  on_fbb (push_slot_always ApplyRequest_VT_ORIGIN_PEER origin_peer).
Definition ApplyRequestBuilder_add_manifest_id (manifest_id : WIPOffset) :
    TableBuilder → TableBuilder :=
  on_fbb (push_slot_always ApplyRequest_VT_MANIFEST_ID manifest_id).

Definition ApplyRequestBuilder_new (_fbb : FlatBufferBuilder) : TableBuilder :=
  let '(start, _fbb) := start_table _fbb in {| fbb_ := _fbb; start_ := start |}.

Definition ApplyRequestBuilder_finish (self : TableBuilder) : WIPOffset * FlatBufferBuilder :=
  end_table (start_ self) (fbb_ self).

Definition ApplyRequest_create (args : ApplyRequestArgs) : Build WIPOffset := λ _fbb,
  let builder := ApplyRequestBuilder_new _fbb in
  let builder :=
    if_let (ApplyRequestArgs_manifest_id args) ApplyRequestBuilder_add_manifest_id builder in
  let builder :=
    if_let (ApplyRequestArgs_origin_peer args) ApplyRequestBuilder_add_origin_peer builder in
  let builder :=
    if_let (ApplyRequestArgs_manifest_json args) ApplyRequestBuilder_add_manifest_json builder in
  let builder :=
    if_let (ApplyRequestArgs_operation_id args) ApplyRequestBuilder_add_operation_id builder in
  let builder := ApplyRequestBuilder_add_replicas (ApplyRequestArgs_replicas args) builder in
  ApplyRequestBuilder_finish builder.

Definition ApplyRequest_run_verifier : list field :=
  [("replicas", ApplyRequest_VT_REPLICAS, FScalar SU32, false);
   ("operation_id", ApplyRequest_VT_OPERATION_ID, FStr, false);
   ("manifest_json", ApplyRequest_VT_MANIFEST_JSON, FStr, false);
   ("origin_peer", ApplyRequest_VT_ORIGIN_PEER, FStr, false);
   ("manifest_id", ApplyRequest_VT_MANIFEST_ID, FStr, false)].

Definition ApplyRequest_replicas (_tab : Table) : Z :=
  get_unwrap SU32 _tab ApplyRequest_VT_REPLICAS 1.
Definition ApplyRequest_operation_id (_tab : Table) : option string :=
  get FStr _tab ApplyRequest_VT_OPERATION_ID None.
Definition ApplyRequest_manifest_json (_tab : Table) : option string :=
  get FStr _tab ApplyRequest_VT_MANIFEST_JSON None.
Definition ApplyRequest_origin_peer (_tab : Table) : option string :=
  get FStr _tab ApplyRequest_VT_ORIGIN_PEER None.
Definition ApplyRequest_manifest_id (_tab : Table) : option string :=
  get FStr _tab ApplyRequest_VT_MANIFEST_ID None.

Definition fb_root_as_apply_request (buf : list byte) : result InvalidFlatbuffer Table :=
  root ApplyRequest_run_verifier buf.

Definition fb_size_prefixed_root_as_apply_request (buf : list byte) :
    result InvalidFlatbuffer Table :=
  size_prefixed_root ApplyRequest_run_verifier buf.

Definition fb_root_as_apply_request_with_opts (opts : VerifierOptions) (buf : list byte) :
    result InvalidFlatbuffer Table :=
  root_with_opts opts ApplyRequest_run_verifier buf.

Definition fb_size_prefixed_root_as_apply_request_with_opts (opts : VerifierOptions) (buf : list byte) :
    result InvalidFlatbuffer Table :=
  size_prefixed_root_with_opts opts ApplyRequest_run_verifier buf.

Definition fb_root_as_apply_request_unchecked (buf : list byte) : Table :=
  root_unchecked buf.

Definition fb_size_prefixed_root_as_apply_request_unchecked (buf : list byte) : Table :=
  size_prefixed_root_unchecked buf.

Definition finish_apply_request_buffer (root : WIPOffset) (fbb : FlatBufferBuilder) :
    FlatBufferBuilder :=
  fbb_finish root fbb.

Definition finish_size_prefixed_apply_request_buffer (root : WIPOffset) (fbb : FlatBufferBuilder) :
    FlatBufferBuilder :=
  fbb_finish_size_prefixed root fbb.

(** ** [ApplyResponse] *)

Definition ApplyResponse_VT_OK : Z := 4.
Definition ApplyResponse_VT_OPERATION_ID : Z := 6.
Definition ApplyResponse_VT_MESSAGE : Z := 8.

Record ApplyResponseArgs := {
  ApplyResponseArgs_ok : bool;
  ApplyResponseArgs_operation_id : option WIPOffset;
  ApplyResponseArgs_message : option WIPOffset;
}.

Definition ApplyResponseArgs_default : ApplyResponseArgs :=
  {| ApplyResponseArgs_ok := false;
     ApplyResponseArgs_operation_id := None;
     ApplyResponseArgs_message := None |}.

Definition ApplyResponseBuilder_add_ok (ok : bool) : TableBuilder → TableBuilder :=
  on_fbb (push_slot SBool ApplyResponse_VT_OK ok false).
Definition ApplyResponseBuilder_add_operation_id (operation_id : WIPOffset) :
    TableBuilder → TableBuilder :=
  on_fbb (push_slot_always ApplyResponse_VT_OPERATION_ID operation_id).
Definition ApplyResponseBuilder_add_message (message : WIPOffset) : TableBuilder → TableBuilder :=
  on_fbb (push_slot_always ApplyResponse_VT_MESSAGE message).

Definition ApplyResponseBuilder_new (_fbb : FlatBufferBuilder) : TableBuilder :=
  let '(start, _fbb) := start_table _fbb in {| fbb_ := _fbb; start_ := start |}.

Definition ApplyResponseBuilder_finish (self : TableBuilder) : WIPOffset * FlatBufferBuilder :=
  end_table (start_ self) (fbb_ self).

Definition ApplyResponse_create (args : ApplyResponseArgs) : Build WIPOffset := λ _fbb,
  let builder := ApplyResponseBuilder_new _fbb in
  let builder := if_let (ApplyResponseArgs_message args) ApplyResponseBuilder_add_message builder in
  let builder :=
    if_let (ApplyResponseArgs_operation_id args) ApplyResponseBuilder_add_operation_id builder in
  let builder := ApplyResponseBuilder_add_ok (ApplyResponseArgs_ok args) builder in
  ApplyResponseBuilder_finish builder.

Definition ApplyResponse_run_verifier : list field :=
  [("ok", ApplyResponse_VT_OK, FScalar SBool, false);
   ("operation_id", ApplyResponse_VT_OPERATION_ID, FStr, false);
   ("message", ApplyResponse_VT_MESSAGE, FStr, false)].

Definition ApplyResponse_ok (_tab : Table) : bool :=
  get_unwrap SBool _tab ApplyResponse_VT_OK false.
Definition ApplyResponse_operation_id (_tab : Table) : option string :=
  get FStr _tab ApplyResponse_VT_OPERATION_ID None.
Definition ApplyResponse_message (_tab : Table) : option string :=
  get FStr _tab ApplyResponse_VT_MESSAGE None.

Definition fb_root_as_apply_response (buf : list byte) : result InvalidFlatbuffer Table :=
  root ApplyResponse_run_verifier buf.

Definition fb_size_prefixed_root_as_apply_response (buf : list byte) :
    result InvalidFlatbuffer Table :=
  size_prefixed_root ApplyResponse_run_verifier buf.

Definition fb_root_as_apply_response_with_opts (opts : VerifierOptions) (buf : list byte) :
    result InvalidFlatbuffer Table :=
  root_with_opts opts ApplyResponse_run_verifier buf.

Definition fb_size_prefixed_root_as_apply_response_with_opts (opts : VerifierOptions) (buf : list byte) :
    result InvalidFlatbuffer Table :=
  size_prefixed_root_with_opts opts ApplyResponse_run_verifier buf.

Definition fb_root_as_apply_response_unchecked (buf : list byte) : Table :=
  root_unchecked buf.

Definition fb_size_prefixed_root_as_apply_response_unchecked (buf : list byte) : Table :=
  size_prefixed_root_unchecked buf.

Definition finish_apply_response_buffer (root : WIPOffset) (fbb : FlatBufferBuilder) :
    FlatBufferBuilder :=
  fbb_finish root fbb.

Definition finish_size_prefixed_apply_response_buffer (root : WIPOffset) (fbb : FlatBufferBuilder) :
    FlatBufferBuilder :=
  fbb_finish_size_prefixed root fbb.

(** ** [DeleteRequest] *)

Definition DeleteRequest_VT_MANIFEST_ID : Z := 4.
Definition DeleteRequest_VT_OPERATION_ID : Z := 6.
Definition DeleteRequest_VT_ORIGIN_PEER : Z := 8.
Definition DeleteRequest_VT_FORCE : Z := 10.

Record DeleteRequestArgs := {
  DeleteRequestArgs_manifest_id : option WIPOffset;
  DeleteRequestArgs_operation_id : option WIPOffset;
  DeleteRequestArgs_origin_peer : option WIPOffset;
  DeleteRequestArgs_force : bool;
}.

Definition DeleteRequestArgs_default : DeleteRequestArgs :=
  {| DeleteRequestArgs_manifest_id := None;
     DeleteRequestArgs_operation_id := None;
     DeleteRequestArgs_origin_peer := None;
     DeleteRequestArgs_force := false |}.

Definition DeleteRequestBuilder_add_manifest_id (manifest_id : WIPOffset) :
    TableBuilder → TableBuilder :=
  on_fbb (push_slot_always DeleteRequest_VT_MANIFEST_ID manifest_id).
Definition DeleteRequestBuilder_add_operation_id (operation_id : WIPOffset) :
    TableBuilder → TableBuilder :=
  on_fbb (push_slot_always DeleteRequest_VT_OPERATION_ID operation_id).
Definition DeleteRequestBuilder_add_origin_peer (origin_peer : WIPOffset) :
    TableBuilder → TableBuilder :=
  on_fbb (push_slot_always DeleteRequest_VT_ORIGIN_PEER origin_peer).
Definition DeleteRequestBuilder_add_force (force : bool) : TableBuilder → TableBuilder :=
  on_fbb (push_slot SBool DeleteRequest_VT_FORCE force false).

Definition DeleteRequestBuilder_new (_fbb : FlatBufferBuilder) : TableBuilder :=
  let '(start, _fbb) := start_table _fbb in {| fbb_ := _fbb; start_ := start |}.

Definition DeleteRequestBuilder_finish (self : TableBuilder) : WIPOffset * FlatBufferBuilder :=
  end_table (start_ self) (fbb_ self).

Definition DeleteRequest_create (args : DeleteRequestArgs) : Build WIPOffset := λ _fbb,
  let builder := DeleteRequestBuilder_new _fbb in
  let builder :=
    if_let (DeleteRequestArgs_origin_peer args) DeleteRequestBuilder_add_origin_peer builder in
  let builder :=
    if_let (DeleteRequestArgs_operation_id args) DeleteRequestBuilder_add_operation_id builder in
  let builder :=
    if_let (DeleteRequestArgs_manifest_id args) DeleteRequestBuilder_add_manifest_id builder in
  let builder := DeleteRequestBuilder_add_force (DeleteRequestArgs_force args) builder in
  DeleteRequestBuilder_finish builder.

Definition DeleteRequest_run_verifier : list field :=
  [("manifest_id", DeleteRequest_VT_MANIFEST_ID, FStr, false);
   ("operation_id", DeleteRequest_VT_OPERATION_ID, FStr, false);
   ("origin_peer", DeleteRequest_VT_ORIGIN_PEER, FStr, false);
   ("force", DeleteRequest_VT_FORCE, FScalar SBool, false)].

Definition DeleteRequest_manifest_id (_tab : Table) : option string :=
  get FStr _tab DeleteRequest_VT_MANIFEST_ID None.
Definition DeleteRequest_operation_id (_tab : Table) : option string :=
  get FStr _tab DeleteRequest_VT_OPERATION_ID None.
Definition DeleteRequest_origin_peer (_tab : Table) : option string :=
  get FStr _tab DeleteRequest_VT_ORIGIN_PEER None.
Definition DeleteRequest_force (_tab : Table) : bool :=
  get_unwrap SBool _tab DeleteRequest_VT_FORCE false.

Definition fb_root_as_delete_request (buf : list byte) : result InvalidFlatbuffer Table :=
  root DeleteRequest_run_verifier buf.

Definition fb_size_prefixed_root_as_delete_request (buf : list byte) :
    result InvalidFlatbuffer Table :=
  size_prefixed_root DeleteRequest_run_verifier buf.

Definition fb_root_as_delete_request_with_opts (opts : VerifierOptions) (buf : list byte) :
    result InvalidFlatbuffer Table :=
  root_with_opts opts DeleteRequest_run_verifier buf.

Definition fb_size_prefixed_root_as_delete_request_with_opts (opts : VerifierOptions) (buf : list byte) :
    result InvalidFlatbuffer Table :=
  size_prefixed_root_with_opts opts DeleteRequest_run_verifier buf.

Definition fb_root_as_delete_request_unchecked (buf : list byte) : Table :=
  root_unchecked buf.

Definition fb_size_prefixed_root_as_delete_request_unchecked (buf : list byte) : Table :=
  size_prefixed_root_unchecked buf.

Definition finish_delete_request_buffer (root : WIPOffset) (fbb : FlatBufferBuilder) :
    FlatBufferBuilder :=
  fbb_finish root fbb.

Definition finish_size_prefixed_delete_request_buffer (root : WIPOffset) (fbb : FlatBufferBuilder) :
    FlatBufferBuilder :=
  fbb_finish_size_prefixed root fbb.

(** ** [DeleteResponse] *)

Definition DeleteResponse_VT_OK : Z := 4.
Definition DeleteResponse_VT_OPERATION_ID : Z := 6.
Definition DeleteResponse_VT_MESSAGE : Z := 8.
Definition DeleteResponse_VT_MANIFEST_ID : Z := 10.
Definition DeleteResponse_VT_REMOVED_WORKLOADS : Z := 12.

Record DeleteResponseArgs := {
  DeleteResponseArgs_ok : bool;
  DeleteResponseArgs_operation_id : option WIPOffset;
  DeleteResponseArgs_message : option WIPOffset;
  DeleteResponseArgs_manifest_id : option WIPOffset;
  DeleteResponseArgs_removed_workloads : option WIPOffset;
}.

Definition DeleteResponseArgs_default : DeleteResponseArgs :=
  {| DeleteResponseArgs_ok := false;
     DeleteResponseArgs_operation_id := None;
     DeleteResponseArgs_message := None;
     DeleteResponseArgs_manifest_id := None;
     DeleteResponseArgs_removed_workloads := None |}.

Definition DeleteResponseBuilder_add_ok (ok : bool) : TableBuilder → TableBuilder :=
  on_fbb (push_slot SBool DeleteResponse_VT_OK ok false).
Definition DeleteResponseBuilder_add_operation_id (operation_id : WIPOffset) :
    TableBuilder → TableBuilder :=
  on_fbb (push_slot_always DeleteResponse_VT_OPERATION_ID operation_id).
Definition DeleteResponseBuilder_add_message (message : WIPOffset) : TableBuilder → TableBuilder :=
  on_fbb (push_slot_always DeleteResponse_VT_MESSAGE message).
Definition DeleteResponseBuilder_add_manifest_id (manifest_id : WIPOffset) :
    TableBuilder → TableBuilder :=
  on_fbb (push_slot_always DeleteResponse_VT_MANIFEST_ID manifest_id).
Definition DeleteResponseBuilder_add_removed_workloads (removed_workloads : WIPOffset) :
    TableBuilder → TableBuilder :=
  on_fbb (push_slot_always DeleteResponse_VT_REMOVED_WORKLOADS removed_workloads).

Definition DeleteResponseBuilder_new (_fbb : FlatBufferBuilder) : TableBuilder :=
  let '(start, _fbb) := start_table _fbb in {| fbb_ := _fbb; start_ := start |}.

Definition DeleteResponseBuilder_finish (self : TableBuilder) : WIPOffset * FlatBufferBuilder :=
  end_table (start_ self) (fbb_ self).

Definition DeleteResponse_create (args : DeleteResponseArgs) : Build WIPOffset := λ _fbb,
  let builder := DeleteResponseBuilder_new _fbb in
  let builder :=
    if_let (DeleteResponseArgs_removed_workloads args) DeleteResponseBuilder_add_removed_workloads builder in
  let builder :=
    if_let (DeleteResponseArgs_manifest_id args) DeleteResponseBuilder_add_manifest_id builder in
  let builder :=
    if_let (DeleteResponseArgs_message args) DeleteResponseBuilder_add_message builder in
  let builder :=
    if_let (DeleteResponseArgs_operation_id args) DeleteResponseBuilder_add_operation_id builder in
  let builder := DeleteResponseBuilder_add_ok (DeleteResponseArgs_ok args) builder in
  DeleteResponseBuilder_finish builder.

Definition DeleteResponse_run_verifier : list field :=
  [("ok", DeleteResponse_VT_OK, FScalar SBool, false);
   ("operation_id", DeleteResponse_VT_OPERATION_ID, FStr, false);
   ("message", DeleteResponse_VT_MESSAGE, FStr, false);
   ("manifest_id", DeleteResponse_VT_MANIFEST_ID, FStr, false);
   ("removed_workloads", DeleteResponse_VT_REMOVED_WORKLOADS, FStrs, false)].

Definition DeleteResponse_ok (_tab : Table) : bool :=
  get_unwrap SBool _tab DeleteResponse_VT_OK false.
Definition DeleteResponse_operation_id (_tab : Table) : option string :=
  get FStr _tab DeleteResponse_VT_OPERATION_ID None.
Definition DeleteResponse_message (_tab : Table) : option string :=
  get FStr _tab DeleteResponse_VT_MESSAGE None.
Definition DeleteResponse_manifest_id (_tab : Table) : option string :=
  get FStr _tab DeleteResponse_VT_MANIFEST_ID None.
Definition DeleteResponse_removed_workloads (_tab : Table) : option (list string) :=
  get FStrs _tab DeleteResponse_VT_REMOVED_WORKLOADS None.

Definition fb_root_as_delete_response (buf : list byte) : result InvalidFlatbuffer Table :=
  root DeleteResponse_run_verifier buf.

Definition fb_size_prefixed_root_as_delete_response (buf : list byte) :
    result InvalidFlatbuffer Table :=
  size_prefixed_root DeleteResponse_run_verifier buf.

Definition fb_root_as_delete_response_with_opts (opts : VerifierOptions) (buf : list byte) :
    result InvalidFlatbuffer Table :=
  root_with_opts opts DeleteResponse_run_verifier buf.

Definition fb_size_prefixed_root_as_delete_response_with_opts (opts : VerifierOptions) (buf : list byte) :
    result InvalidFlatbuffer Table :=
  size_prefixed_root_with_opts opts DeleteResponse_run_verifier buf.

Definition fb_root_as_delete_response_unchecked (buf : list byte) : Table :=
  root_unchecked buf.

Definition fb_size_prefixed_root_as_delete_response_unchecked (buf : list byte) : Table :=
  size_prefixed_root_unchecked buf.

Definition finish_delete_response_buffer (root : WIPOffset) (fbb : FlatBufferBuilder) :
    FlatBufferBuilder :=
  fbb_finish root fbb.

Definition finish_size_prefixed_delete_response_buffer (root : WIPOffset) (fbb : FlatBufferBuilder) :
    FlatBufferBuilder :=
  fbb_finish_size_prefixed root fbb.

(** ** [CapacityRequest] *)

Definition CapacityRequest_VT_REQUEST_ID : Z := 4.
Definition CapacityRequest_VT_CPU_MILLI : Z := 6.
Definition CapacityRequest_VT_MEMORY_BYTES : Z := 8.
Definition CapacityRequest_VT_STORAGE_BYTES : Z := 10.
Definition CapacityRequest_VT_REPLICAS : Z := 12.

Record CapacityRequestArgs := {
  CapacityRequestArgs_request_id : option WIPOffset;
  CapacityRequestArgs_cpu_milli : Z;
  CapacityRequestArgs_memory_bytes : Z;
  CapacityRequestArgs_storage_bytes : Z;
  CapacityRequestArgs_replicas : Z;
}.

Definition CapacityRequestArgs_default : CapacityRequestArgs :=
  {| CapacityRequestArgs_request_id := None;
     CapacityRequestArgs_cpu_milli := 0;
     CapacityRequestArgs_memory_bytes := 0;
     CapacityRequestArgs_storage_bytes := 0;
     CapacityRequestArgs_replicas := 1 |}.

Definition CapacityRequestBuilder_add_request_id (request_id : WIPOffset) :
    TableBuilder → TableBuilder :=
  on_fbb (push_slot_always CapacityRequest_VT_REQUEST_ID request_id).
Definition CapacityRequestBuilder_add_cpu_milli (cpu_milli : Z) : TableBuilder → TableBuilder :=
  on_fbb (push_slot SU32 CapacityRequest_VT_CPU_MILLI cpu_milli 0).
Definition CapacityRequestBuilder_add_memory_bytes (memory_bytes : Z) :
    TableBuilder → TableBuilder :=
  on_fbb (push_slot SU64 CapacityRequest_VT_MEMORY_BYTES memory_bytes 0).
Definition CapacityRequestBuilder_add_storage_bytes (storage_bytes : Z) :
    TableBuilder → TableBuilder :=
  on_fbb (push_slot SU64 CapacityRequest_VT_STORAGE_BYTES storage_bytes 0).
Definition CapacityRequestBuilder_add_replicas (replicas : Z) : TableBuilder → TableBuilder :=
  on_fbb (push_slot SU32 CapacityRequest_VT_REPLICAS replicas 1).

Definition CapacityRequestBuilder_new (_fbb : FlatBufferBuilder) : TableBuilder :=
  let '(start, _fbb) := start_table _fbb in {| fbb_ := _fbb; start_ := start |}.

Definition CapacityRequestBuilder_finish (self : TableBuilder) : WIPOffset * FlatBufferBuilder :=
  end_table (start_ self) (fbb_ self).

Definition CapacityRequest_create (args : CapacityRequestArgs) : Build WIPOffset := λ _fbb,
  let builder := CapacityRequestBuilder_new _fbb in
  let builder :=
    CapacityRequestBuilder_add_storage_bytes (CapacityRequestArgs_storage_bytes args) builder in
  let builder :=
    CapacityRequestBuilder_add_memory_bytes (CapacityRequestArgs_memory_bytes args) builder in
  let builder := CapacityRequestBuilder_add_replicas (CapacityRequestArgs_replicas args) builder in
  let builder :=
    CapacityRequestBuilder_add_cpu_milli (CapacityRequestArgs_cpu_milli args) builder in
  let builder :=
    if_let (CapacityRequestArgs_request_id args) CapacityRequestBuilder_add_request_id builder in
  CapacityRequestBuilder_finish builder.

Definition CapacityRequest_run_verifier : list field :=
  [("request_id", CapacityRequest_VT_REQUEST_ID, FStr, false);
   ("cpu_milli", CapacityRequest_VT_CPU_MILLI, FScalar SU32, false);
   ("memory_bytes", CapacityRequest_VT_MEMORY_BYTES, FScalar SU64, false);
   ("storage_bytes", CapacityRequest_VT_STORAGE_BYTES, FScalar SU64, false);
   ("replicas", CapacityRequest_VT_REPLICAS, FScalar SU32, false)].

Definition CapacityRequest_request_id (_tab : Table) : option string :=
  get FStr _tab CapacityRequest_VT_REQUEST_ID None.
Definition CapacityRequest_cpu_milli (_tab : Table) : Z :=
  get_unwrap SU32 _tab CapacityRequest_VT_CPU_MILLI 0.
Definition CapacityRequest_memory_bytes (_tab : Table) : Z :=
  get_unwrap SU64 _tab CapacityRequest_VT_MEMORY_BYTES 0.
Definition CapacityRequest_storage_bytes (_tab : Table) : Z :=
  get_unwrap SU64 _tab CapacityRequest_VT_STORAGE_BYTES 0.
Definition CapacityRequest_replicas (_tab : Table) : Z :=
  get_unwrap SU32 _tab CapacityRequest_VT_REPLICAS 1.

Definition fb_root_as_capacity_request (buf : list byte) : result InvalidFlatbuffer Table :=
  root CapacityRequest_run_verifier buf.

Definition fb_size_prefixed_root_as_capacity_request (buf : list byte) :
    result InvalidFlatbuffer Table :=
  size_prefixed_root CapacityRequest_run_verifier buf.

Definition fb_root_as_capacity_request_with_opts (opts : VerifierOptions) (buf : list byte) :
    result InvalidFlatbuffer Table :=
  root_with_opts opts CapacityRequest_run_verifier buf.

Definition fb_size_prefixed_root_as_capacity_request_with_opts (opts : VerifierOptions) (buf : list byte) :
    result InvalidFlatbuffer Table :=
  size_prefixed_root_with_opts opts CapacityRequest_run_verifier buf.

Definition fb_root_as_capacity_request_unchecked (buf : list byte) : Table :=
  root_unchecked buf.

Definition fb_size_prefixed_root_as_capacity_request_unchecked (buf : list byte) : Table :=
  size_prefixed_root_unchecked buf.

Definition finish_capacity_request_buffer (root : WIPOffset) (fbb : FlatBufferBuilder) :
    FlatBufferBuilder :=
  fbb_finish root fbb.

Definition finish_size_prefixed_capacity_request_buffer (root : WIPOffset) (fbb : FlatBufferBuilder) :
    FlatBufferBuilder :=
  fbb_finish_size_prefixed root fbb.

(** ** [CapacityReply] *)

Definition CapacityReply_VT_REQUEST_ID : Z := 4.
Definition CapacityReply_VT_OK : Z := 6.
Definition CapacityReply_VT_NODE_ID : Z := 8.
Definition CapacityReply_VT_REGION : Z := 10.
Definition CapacityReply_VT_KEM_PUBKEY : Z := 12.
Definition CapacityReply_VT_CAPABILITIES : Z := 14.
Definition CapacityReply_VT_CPU_AVAILABLE_MILLI : Z := 16.
Definition CapacityReply_VT_MEMORY_AVAILABLE_BYTES : Z := 18.
Definition CapacityReply_VT_STORAGE_AVAILABLE_BYTES : Z := 20.

Record CapacityReplyArgs := {
  CapacityReplyArgs_request_id : option WIPOffset;
  CapacityReplyArgs_ok : bool;
  CapacityReplyArgs_node_id : option WIPOffset;
  CapacityReplyArgs_region : option WIPOffset;
  CapacityReplyArgs_kem_pubkey : option WIPOffset;
  CapacityReplyArgs_capabilities : option WIPOffset;
  CapacityReplyArgs_cpu_available_milli : Z;
  CapacityReplyArgs_memory_available_bytes : Z;
  CapacityReplyArgs_storage_available_bytes : Z;
}.

Definition CapacityReplyArgs_default : CapacityReplyArgs :=
  {| CapacityReplyArgs_request_id := None;
     CapacityReplyArgs_ok := false;
     CapacityReplyArgs_node_id := None;
     CapacityReplyArgs_region := None;
     CapacityReplyArgs_kem_pubkey := None;
     CapacityReplyArgs_capabilities := None;
     CapacityReplyArgs_cpu_available_milli := 0;
     CapacityReplyArgs_memory_available_bytes := 0;
     CapacityReplyArgs_storage_available_bytes := 0 |}.

Definition CapacityReplyBuilder_add_request_id (request_id : WIPOffset) :
    TableBuilder → TableBuilder :=
  on_fbb (push_slot_always CapacityReply_VT_REQUEST_ID request_id).
Definition CapacityReplyBuilder_add_ok (ok : bool) : TableBuilder → TableBuilder :=
  on_fbb (push_slot SBool CapacityReply_VT_OK ok false).
Definition CapacityReplyBuilder_add_node_id (node_id : WIPOffset) : TableBuilder → TableBuilder :=
  on_fbb (push_slot_always CapacityReply_VT_NODE_ID node_id).
Definition CapacityReplyBuilder_add_region (region : WIPOffset) : TableBuilder → TableBuilder :=
  on_fbb (push_slot_always CapacityReply_VT_REGION region).
Definition CapacityReplyBuilder_add_kem_pubkey (kem_pubkey : WIPOffset) :
    TableBuilder → TableBuilder :=
  on_fbb (push_slot_always CapacityReply_VT_KEM_PUBKEY kem_pubkey).
Definition CapacityReplyBuilder_add_capabilities (capabilities : WIPOffset) :
    TableBuilder → TableBuilder :=
  on_fbb (push_slot_always CapacityReply_VT_CAPABILITIES capabilities).
Definition CapacityReplyBuilder_add_cpu_available_milli (cpu_available_milli : Z) :
    TableBuilder → TableBuilder :=
  on_fbb (push_slot SU32 CapacityReply_VT_CPU_AVAILABLE_MILLI cpu_available_milli 0).
Definition CapacityReplyBuilder_add_memory_available_bytes (memory_available_bytes : Z) :
    TableBuilder → TableBuilder :=
  on_fbb (push_slot SU64 CapacityReply_VT_MEMORY_AVAILABLE_BYTES memory_available_bytes 0).
Definition CapacityReplyBuilder_add_storage_available_bytes (storage_available_bytes : Z) :
    TableBuilder → TableBuilder :=
  on_fbb (push_slot SU64 CapacityReply_VT_STORAGE_AVAILABLE_BYTES storage_available_bytes 0).

Definition CapacityReplyBuilder_new (_fbb : FlatBufferBuilder) : TableBuilder :=
  let '(start, _fbb) := start_table _fbb in {| fbb_ := _fbb; start_ := start |}.

Definition CapacityReplyBuilder_finish (self : TableBuilder) : WIPOffset * FlatBufferBuilder :=
  end_table (start_ self) (fbb_ self).

Definition CapacityReply_create (args : CapacityReplyArgs) : Build WIPOffset := λ _fbb,
  let builder := CapacityReplyBuilder_new _fbb in
  let builder :=
    CapacityReplyBuilder_add_storage_available_bytes (CapacityReplyArgs_storage_available_bytes args) builder in
  let builder :=
    CapacityReplyBuilder_add_memory_available_bytes (CapacityReplyArgs_memory_available_bytes args) builder in
  let builder :=
    CapacityReplyBuilder_add_cpu_available_milli (CapacityReplyArgs_cpu_available_milli args) builder in
  let builder :=
    if_let (CapacityReplyArgs_capabilities args) CapacityReplyBuilder_add_capabilities builder in
  let builder :=
    if_let (CapacityReplyArgs_kem_pubkey args) CapacityReplyBuilder_add_kem_pubkey builder in
  let builder := if_let (CapacityReplyArgs_region args) CapacityReplyBuilder_add_region builder in
  let builder := if_let (CapacityReplyArgs_node_id args) CapacityReplyBuilder_add_node_id builder in
  let builder :=
    if_let (CapacityReplyArgs_request_id args) CapacityReplyBuilder_add_request_id builder in
  let builder := CapacityReplyBuilder_add_ok (CapacityReplyArgs_ok args) builder in
  CapacityReplyBuilder_finish builder.

Definition CapacityReply_run_verifier : list field :=
  [("request_id", CapacityReply_VT_REQUEST_ID, FStr, false);
   ("ok", CapacityReply_VT_OK, FScalar SBool, false);
   ("node_id", CapacityReply_VT_NODE_ID, FStr, false);
   ("region", CapacityReply_VT_REGION, FStr, false);
   ("kem_pubkey", CapacityReply_VT_KEM_PUBKEY, FStr, false);
   ("capabilities", CapacityReply_VT_CAPABILITIES, FStrs, false);
   ("cpu_available_milli", CapacityReply_VT_CPU_AVAILABLE_MILLI, FScalar SU32, false);
   ("memory_available_bytes", CapacityReply_VT_MEMORY_AVAILABLE_BYTES, FScalar SU64, false);
   ("storage_available_bytes", CapacityReply_VT_STORAGE_AVAILABLE_BYTES, FScalar SU64, false)].

Definition CapacityReply_request_id (_tab : Table) : option string :=
  get FStr _tab CapacityReply_VT_REQUEST_ID None.
Definition CapacityReply_ok (_tab : Table) : bool :=
  get_unwrap SBool _tab CapacityReply_VT_OK false.
Definition CapacityReply_node_id (_tab : Table) : option string :=
  get FStr _tab CapacityReply_VT_NODE_ID None.
Definition CapacityReply_region (_tab : Table) : option string :=
  get FStr _tab CapacityReply_VT_REGION None.
Definition CapacityReply_kem_pubkey (_tab : Table) : option string :=
  get FStr _tab CapacityReply_VT_KEM_PUBKEY None.
Definition CapacityReply_capabilities (_tab : Table) : option (list string) :=
  get FStrs _tab CapacityReply_VT_CAPABILITIES None.
Definition CapacityReply_cpu_available_milli (_tab : Table) : Z :=
  get_unwrap SU32 _tab CapacityReply_VT_CPU_AVAILABLE_MILLI 0.
Definition CapacityReply_memory_available_bytes (_tab : Table) : Z :=
  get_unwrap SU64 _tab CapacityReply_VT_MEMORY_AVAILABLE_BYTES 0.
Definition CapacityReply_storage_available_bytes (_tab : Table) : Z :=
  get_unwrap SU64 _tab CapacityReply_VT_STORAGE_AVAILABLE_BYTES 0.

Definition fb_root_as_capacity_reply (buf : list byte) : result InvalidFlatbuffer Table :=
  root CapacityReply_run_verifier buf.

Definition fb_size_prefixed_root_as_capacity_reply (buf : list byte) :
    result InvalidFlatbuffer Table :=
  size_prefixed_root CapacityReply_run_verifier buf.

Definition fb_root_as_capacity_reply_with_opts (opts : VerifierOptions) (buf : list byte) :
    result InvalidFlatbuffer Table :=
  root_with_opts opts CapacityReply_run_verifier buf.

Definition fb_size_prefixed_root_as_capacity_reply_with_opts (opts : VerifierOptions) (buf : list byte) :
    result InvalidFlatbuffer Table :=
  size_prefixed_root_with_opts opts CapacityReply_run_verifier buf.

Definition fb_root_as_capacity_reply_unchecked (buf : list byte) : Table :=
  root_unchecked buf.

Definition fb_size_prefixed_root_as_capacity_reply_unchecked (buf : list byte) : Table :=
  size_prefixed_root_unchecked buf.

Definition finish_capacity_reply_buffer (root : WIPOffset) (fbb : FlatBufferBuilder) :
    FlatBufferBuilder :=
  fbb_finish root fbb.

Definition finish_size_prefixed_capacity_reply_buffer (root : WIPOffset) (fbb : FlatBufferBuilder) :
    FlatBufferBuilder :=
  fbb_finish_size_prefixed root fbb.

(** ** [Handshake] *)

Definition Handshake_VT_NONCE : Z := 4.
Definition Handshake_VT_SIGNATURE : Z := 6.
Definition Handshake_VT_PROTOCOL_VERSION : Z := 8.
Definition Handshake_VT_TIMESTAMP : Z := 10.

Record HandshakeArgs := {
  HandshakeArgs_nonce : Z;
  HandshakeArgs_signature : option WIPOffset;
  HandshakeArgs_protocol_version : option WIPOffset;
  HandshakeArgs_timestamp : Z;
}.

Definition HandshakeArgs_default : HandshakeArgs :=
  {| HandshakeArgs_nonce := 0;
     HandshakeArgs_signature := None;
     HandshakeArgs_protocol_version := None;
     HandshakeArgs_timestamp := 0 |}.

Definition HandshakeBuilder_add_nonce (nonce : Z) : TableBuilder → TableBuilder :=
  on_fbb (push_slot SU32 Handshake_VT_NONCE nonce 0).
Definition HandshakeBuilder_add_signature (signature : WIPOffset) : TableBuilder → TableBuilder :=
  on_fbb (push_slot_always Handshake_VT_SIGNATURE signature).
Definition HandshakeBuilder_add_protocol_version (protocol_version : WIPOffset) :
    TableBuilder → TableBuilder :=
  on_fbb (push_slot_always Handshake_VT_PROTOCOL_VERSION protocol_version).
Definition HandshakeBuilder_add_timestamp (timestamp : Z) : TableBuilder → TableBuilder :=
  on_fbb (push_slot SU64 Handshake_VT_TIMESTAMP timestamp 0).

Definition HandshakeBuilder_new (_fbb : FlatBufferBuilder) : TableBuilder :=
  let '(start, _fbb) := start_table _fbb in {| fbb_ := _fbb; start_ := start |}.

Definition HandshakeBuilder_finish (self : TableBuilder) : WIPOffset * FlatBufferBuilder :=
  end_table (start_ self) (fbb_ self).

Definition Handshake_create (args : HandshakeArgs) : Build WIPOffset := λ _fbb,
  let builder := HandshakeBuilder_new _fbb in
  let builder := HandshakeBuilder_add_timestamp (HandshakeArgs_timestamp args) builder in
  let builder :=
    if_let (HandshakeArgs_protocol_version args) HandshakeBuilder_add_protocol_version builder in
  let builder := if_let (HandshakeArgs_signature args) HandshakeBuilder_add_signature builder in
  let builder := HandshakeBuilder_add_nonce (HandshakeArgs_nonce args) builder in
  HandshakeBuilder_finish builder.

Definition Handshake_run_verifier : list field :=
  [("nonce", Handshake_VT_NONCE, FScalar SU32, false);
   ("signature", Handshake_VT_SIGNATURE, FStr, false);
   ("protocol_version", Handshake_VT_PROTOCOL_VERSION, FStr, false);
   ("timestamp", Handshake_VT_TIMESTAMP, FScalar SU64, false)].

Definition Handshake_nonce (_tab : Table) : Z :=
  get_unwrap SU32 _tab Handshake_VT_NONCE 0.
Definition Handshake_signature (_tab : Table) : option string :=
  get FStr _tab Handshake_VT_SIGNATURE None.
Definition Handshake_protocol_version (_tab : Table) : option string :=
  get FStr _tab Handshake_VT_PROTOCOL_VERSION None.
Definition Handshake_timestamp (_tab : Table) : Z :=
  get_unwrap SU64 _tab Handshake_VT_TIMESTAMP 0.

Definition fb_root_as_handshake (buf : list byte) : result InvalidFlatbuffer Table :=
  root Handshake_run_verifier buf.

Definition fb_size_prefixed_root_as_handshake (buf : list byte) : result InvalidFlatbuffer Table :=
  size_prefixed_root Handshake_run_verifier buf.

Definition fb_root_as_handshake_with_opts (opts : VerifierOptions) (buf : list byte) :
    result InvalidFlatbuffer Table :=
  root_with_opts opts Handshake_run_verifier buf.

Definition fb_size_prefixed_root_as_handshake_with_opts (opts : VerifierOptions) (buf : list byte) :
    result InvalidFlatbuffer Table :=
  size_prefixed_root_with_opts opts Handshake_run_verifier buf.

Definition fb_root_as_handshake_unchecked (buf : list byte) : Table :=
  root_unchecked buf.

Definition fb_size_prefixed_root_as_handshake_unchecked (buf : list byte) : Table :=
  size_prefixed_root_unchecked buf.

Definition finish_handshake_buffer (root : WIPOffset) (fbb : FlatBufferBuilder) :
    FlatBufferBuilder :=
  fbb_finish root fbb.

Definition finish_size_prefixed_handshake_buffer (root : WIPOffset) (fbb : FlatBufferBuilder) :
    FlatBufferBuilder :=
  fbb_finish_size_prefixed root fbb.

End tables.

(** ** Automation *)

#[export] Hint Unfold Envelope_VT_PAYLOAD Envelope_VT_PAYLOAD_TYPE Envelope_VT_NONCE : flatbuf.
#[export] Hint Unfold Envelope_VT_TS Envelope_VT_ALG Envelope_VT_SIG Envelope_VT_PUBKEY : flatbuf.
#[export] Hint Unfold Envelope_VT_PEER_ID Envelope_VT_KEM_PUBKEY EnvelopeArgs_default : flatbuf.
#[export] Hint Unfold EnvelopeBuilder_add_payload EnvelopeBuilder_add_payload_type : flatbuf.
#[export] Hint Unfold EnvelopeBuilder_add_nonce EnvelopeBuilder_add_ts : flatbuf.
#[export] Hint Unfold EnvelopeBuilder_add_alg EnvelopeBuilder_add_sig : flatbuf.
#[export] Hint Unfold EnvelopeBuilder_add_pubkey EnvelopeBuilder_add_peer_id : flatbuf.
#[export] Hint Unfold EnvelopeBuilder_add_kem_pubkey EnvelopeBuilder_new : flatbuf.
#[export] Hint Unfold EnvelopeBuilder_finish Envelope_create Envelope_run_verifier : flatbuf.
#[export] Hint Unfold Envelope_payload Envelope_payload_type Envelope_nonce Envelope_ts : flatbuf.
#[export] Hint Unfold Envelope_alg Envelope_sig Envelope_pubkey Envelope_peer_id : flatbuf.
#[export] Hint Unfold Envelope_kem_pubkey ApplyRequest_VT_REPLICAS : flatbuf.
#[export] Hint Unfold ApplyRequest_VT_OPERATION_ID ApplyRequest_VT_MANIFEST_JSON : flatbuf.
#[export] Hint Unfold ApplyRequest_VT_ORIGIN_PEER ApplyRequest_VT_MANIFEST_ID : flatbuf.
#[export] Hint Unfold ApplyRequestArgs_default ApplyRequestBuilder_add_replicas : flatbuf.
#[export] Hint Unfold ApplyRequestBuilder_add_operation_id : flatbuf.
#[export] Hint Unfold ApplyRequestBuilder_add_manifest_json : flatbuf.
#[export] Hint Unfold ApplyRequestBuilder_add_origin_peer : flatbuf.
#[export] Hint Unfold ApplyRequestBuilder_add_manifest_id ApplyRequestBuilder_new : flatbuf.
#[export] Hint Unfold ApplyRequestBuilder_finish ApplyRequest_create : flatbuf.
#[export] Hint Unfold ApplyRequest_run_verifier ApplyRequest_replicas : flatbuf.
#[export] Hint Unfold ApplyRequest_operation_id ApplyRequest_manifest_json : flatbuf.
#[export] Hint Unfold ApplyRequest_origin_peer ApplyRequest_manifest_id ApplyResponse_VT_OK : flatbuf.
#[export] Hint Unfold ApplyResponse_VT_OPERATION_ID ApplyResponse_VT_MESSAGE : flatbuf.
#[export] Hint Unfold ApplyResponseArgs_default ApplyResponseBuilder_add_ok : flatbuf.
#[export] Hint Unfold ApplyResponseBuilder_add_operation_id : flatbuf.
#[export] Hint Unfold ApplyResponseBuilder_add_message ApplyResponseBuilder_new : flatbuf.
#[export] Hint Unfold ApplyResponseBuilder_finish ApplyResponse_create : flatbuf.
#[export] Hint Unfold ApplyResponse_run_verifier ApplyResponse_ok : flatbuf.
#[export] Hint Unfold ApplyResponse_operation_id ApplyResponse_message : flatbuf.
#[export] Hint Unfold DeleteRequest_VT_MANIFEST_ID DeleteRequest_VT_OPERATION_ID : flatbuf.
#[export] Hint Unfold DeleteRequest_VT_ORIGIN_PEER DeleteRequest_VT_FORCE : flatbuf.
#[export] Hint Unfold DeleteRequestArgs_default DeleteRequestBuilder_add_manifest_id : flatbuf.
#[export] Hint Unfold DeleteRequestBuilder_add_operation_id : flatbuf.
#[export] Hint Unfold DeleteRequestBuilder_add_origin_peer DeleteRequestBuilder_add_force : flatbuf.
#[export] Hint Unfold DeleteRequestBuilder_new DeleteRequestBuilder_finish : flatbuf.
#[export] Hint Unfold DeleteRequest_create DeleteRequest_run_verifier : flatbuf.
#[export] Hint Unfold DeleteRequest_manifest_id DeleteRequest_operation_id : flatbuf.
#[export] Hint Unfold DeleteRequest_origin_peer DeleteRequest_force DeleteResponse_VT_OK : flatbuf.
#[export] Hint Unfold DeleteResponse_VT_OPERATION_ID DeleteResponse_VT_MESSAGE : flatbuf.
#[export] Hint Unfold DeleteResponse_VT_MANIFEST_ID DeleteResponse_VT_REMOVED_WORKLOADS : flatbuf.
#[export] Hint Unfold DeleteResponseArgs_default DeleteResponseBuilder_add_ok : flatbuf.
#[export] Hint Unfold DeleteResponseBuilder_add_operation_id : flatbuf.
#[export] Hint Unfold DeleteResponseBuilder_add_message : flatbuf.
#[export] Hint Unfold DeleteResponseBuilder_add_manifest_id : flatbuf.
#[export] Hint Unfold DeleteResponseBuilder_add_removed_workloads DeleteResponseBuilder_new : flatbuf.
#[export] Hint Unfold DeleteResponseBuilder_finish DeleteResponse_create : flatbuf.
#[export] Hint Unfold DeleteResponse_run_verifier DeleteResponse_ok : flatbuf.
#[export] Hint Unfold DeleteResponse_operation_id DeleteResponse_message : flatbuf.
#[export] Hint Unfold DeleteResponse_manifest_id DeleteResponse_removed_workloads : flatbuf.
#[export] Hint Unfold CapacityRequest_VT_REQUEST_ID CapacityRequest_VT_CPU_MILLI : flatbuf.
#[export] Hint Unfold CapacityRequest_VT_MEMORY_BYTES CapacityRequest_VT_STORAGE_BYTES : flatbuf.
#[export] Hint Unfold CapacityRequest_VT_REPLICAS CapacityRequestArgs_default : flatbuf.
#[export] Hint Unfold CapacityRequestBuilder_add_request_id : flatbuf.
#[export] Hint Unfold CapacityRequestBuilder_add_cpu_milli : flatbuf.
#[export] Hint Unfold CapacityRequestBuilder_add_memory_bytes : flatbuf.
#[export] Hint Unfold CapacityRequestBuilder_add_storage_bytes : flatbuf.
#[export] Hint Unfold CapacityRequestBuilder_add_replicas CapacityRequestBuilder_new : flatbuf.
#[export] Hint Unfold CapacityRequestBuilder_finish CapacityRequest_create : flatbuf.
#[export] Hint Unfold CapacityRequest_run_verifier CapacityRequest_request_id : flatbuf.
#[export] Hint Unfold CapacityRequest_cpu_milli CapacityRequest_memory_bytes : flatbuf.
#[export] Hint Unfold CapacityRequest_storage_bytes CapacityRequest_replicas : flatbuf.
#[export] Hint Unfold CapacityReply_VT_REQUEST_ID CapacityReply_VT_OK : flatbuf.
#[export] Hint Unfold CapacityReply_VT_NODE_ID CapacityReply_VT_REGION : flatbuf.
#[export] Hint Unfold CapacityReply_VT_KEM_PUBKEY CapacityReply_VT_CAPABILITIES : flatbuf.
#[export] Hint Unfold CapacityReply_VT_CPU_AVAILABLE_MILLI : flatbuf.
#[export] Hint Unfold CapacityReply_VT_MEMORY_AVAILABLE_BYTES : flatbuf.
#[export] Hint Unfold CapacityReply_VT_STORAGE_AVAILABLE_BYTES CapacityReplyArgs_default : flatbuf.
#[export] Hint Unfold CapacityReplyBuilder_add_request_id CapacityReplyBuilder_add_ok : flatbuf.
#[export] Hint Unfold CapacityReplyBuilder_add_node_id CapacityReplyBuilder_add_region : flatbuf.
#[export] Hint Unfold CapacityReplyBuilder_add_kem_pubkey : flatbuf.
#[export] Hint Unfold CapacityReplyBuilder_add_capabilities : flatbuf.
#[export] Hint Unfold CapacityReplyBuilder_add_cpu_available_milli : flatbuf.
#[export] Hint Unfold CapacityReplyBuilder_add_memory_available_bytes : flatbuf.
#[export] Hint Unfold CapacityReplyBuilder_add_storage_available_bytes : flatbuf.
#[export] Hint Unfold CapacityReplyBuilder_new CapacityReplyBuilder_finish : flatbuf.
#[export] Hint Unfold CapacityReply_create CapacityReply_run_verifier : flatbuf.
#[export] Hint Unfold CapacityReply_request_id CapacityReply_ok CapacityReply_node_id : flatbuf.
#[export] Hint Unfold CapacityReply_region CapacityReply_kem_pubkey : flatbuf.
#[export] Hint Unfold CapacityReply_capabilities CapacityReply_cpu_available_milli : flatbuf.
#[export] Hint Unfold CapacityReply_memory_available_bytes : flatbuf.
#[export] Hint Unfold CapacityReply_storage_available_bytes Handshake_VT_NONCE : flatbuf.
#[export] Hint Unfold Handshake_VT_SIGNATURE Handshake_VT_PROTOCOL_VERSION : flatbuf.
#[export] Hint Unfold Handshake_VT_TIMESTAMP HandshakeArgs_default : flatbuf.
#[export] Hint Unfold HandshakeBuilder_add_nonce HandshakeBuilder_add_signature : flatbuf.
#[export] Hint Unfold HandshakeBuilder_add_protocol_version HandshakeBuilder_add_timestamp : flatbuf.
#[export] Hint Unfold HandshakeBuilder_new HandshakeBuilder_finish Handshake_create : flatbuf.
#[export] Hint Unfold Handshake_run_verifier Handshake_nonce Handshake_signature : flatbuf.
#[export] Hint Unfold Handshake_protocol_version Handshake_timestamp : flatbuf.
