(* ===== verification/GeneratedReplies.v ===== *)
(** * Generated tables: answers of the REST interface and the two assignment tables

    The code that the FlatBuffers compiler generates for these schemas
    ([protocol/src/generated]), table by table: the slots of the fields, the
    arguments and their defaults, [create] with the order of its calls, the
    fields the verifier visits, the accessors and the readers of a buffer. A
    table is the crate's [Table] itself, as the generated structures only wrap
    it; the names of the readers carry the prefix [fb_]. *)

From S2P Require Import Prelude FlatBuf.

Open Scope list_scope.

Section tables.
Context `{FlatBufferCrate}.

(** ** [Health] *)

Definition Health_VT_OK : Z := 4.
Definition Health_VT_STATUS : Z := 6.

Record HealthArgs := {
  HealthArgs_ok : bool;
  HealthArgs_status : option WIPOffset;
}.

Definition HealthArgs_default : HealthArgs :=
  {| HealthArgs_ok := false;
     HealthArgs_status := None |}.

Definition HealthBuilder_add_ok (ok : bool) : TableBuilder → TableBuilder :=
  on_fbb (push_slot SBool Health_VT_OK ok false).
Definition HealthBuilder_add_status (status : WIPOffset) : TableBuilder → TableBuilder :=
  on_fbb (push_slot_always Health_VT_STATUS status).

Definition HealthBuilder_new (_fbb : FlatBufferBuilder) : TableBuilder :=
  let '(start, _fbb) := start_table _fbb in {| fbb_ := _fbb; start_ := start |}.

Definition HealthBuilder_finish (self : TableBuilder) : WIPOffset * FlatBufferBuilder :=
  end_table (start_ self) (fbb_ self).

Definition Health_create (args : HealthArgs) : Build WIPOffset := λ _fbb,
  let builder := HealthBuilder_new _fbb in
  let builder := if_let (HealthArgs_status args) HealthBuilder_add_status builder in
  let builder := HealthBuilder_add_ok (HealthArgs_ok args) builder in
  HealthBuilder_finish builder.

Definition Health_run_verifier : list field :=
  [("ok", Health_VT_OK, FScalar SBool, false);
   ("status", Health_VT_STATUS, FStr, false)].

Definition Health_ok (_tab : Table) : bool :=
  get_unwrap SBool _tab Health_VT_OK false.
Definition Health_status (_tab : Table) : option string :=
  get FStr _tab Health_VT_STATUS None.

Definition fb_root_as_health (buf : list byte) : result InvalidFlatbuffer Table :=
  root Health_run_verifier buf.

Definition fb_size_prefixed_root_as_health (buf : list byte) : result InvalidFlatbuffer Table :=
  size_prefixed_root Health_run_verifier buf.

Definition fb_root_as_health_with_opts (opts : VerifierOptions) (buf : list byte) :
    result InvalidFlatbuffer Table :=
  root_with_opts opts Health_run_verifier buf.

Definition fb_size_prefixed_root_as_health_with_opts (opts : VerifierOptions) (buf : list byte) :
    result InvalidFlatbuffer Table :=
  size_prefixed_root_with_opts opts Health_run_verifier buf.

Definition fb_root_as_health_unchecked (buf : list byte) : Table :=
  root_unchecked buf.

Definition fb_size_prefixed_root_as_health_unchecked (buf : list byte) : Table :=
  size_prefixed_root_unchecked buf.

Definition finish_health_buffer (root : WIPOffset) (fbb : FlatBufferBuilder) : FlatBufferBuilder :=
  fbb_finish root fbb.

Definition finish_size_prefixed_health_buffer (root : WIPOffset) (fbb : FlatBufferBuilder) :
    FlatBufferBuilder :=
  fbb_finish_size_prefixed root fbb.

(** ** [NodesResponse] *)

Definition NodesResponse_VT_PEERS : Z := 4.

Record NodesResponseArgs := {
  NodesResponseArgs_peers : option WIPOffset;
}.

Definition NodesResponseArgs_default : NodesResponseArgs :=
  {| NodesResponseArgs_peers := None |}.

Definition NodesResponseBuilder_add_peers (peers : WIPOffset) : TableBuilder → TableBuilder :=
  on_fbb (push_slot_always NodesResponse_VT_PEERS peers).

Definition NodesResponseBuilder_new (_fbb : FlatBufferBuilder) : TableBuilder :=
  let '(start, _fbb) := start_table _fbb in {| fbb_ := _fbb; start_ := start |}.

Definition NodesResponseBuilder_finish (self : TableBuilder) : WIPOffset * FlatBufferBuilder :=
  end_table (start_ self) (fbb_ self).

Definition NodesResponse_create (args : NodesResponseArgs) : Build WIPOffset := λ _fbb,
  let builder := NodesResponseBuilder_new _fbb in
  let builder := if_let (NodesResponseArgs_peers args) NodesResponseBuilder_add_peers builder in
  NodesResponseBuilder_finish builder.

Definition NodesResponse_run_verifier : list field :=
  [("peers", NodesResponse_VT_PEERS, FStrs, false)].

Definition NodesResponse_peers (_tab : Table) : option (list string) :=
  get FStrs _tab NodesResponse_VT_PEERS None.

Definition fb_root_as_nodes_response (buf : list byte) : result InvalidFlatbuffer Table :=
  root NodesResponse_run_verifier buf.

Definition fb_size_prefixed_root_as_nodes_response (buf : list byte) :
    result InvalidFlatbuffer Table :=
  size_prefixed_root NodesResponse_run_verifier buf.

Definition fb_root_as_nodes_response_with_opts (opts : VerifierOptions) (buf : list byte) :
    result InvalidFlatbuffer Table :=
  root_with_opts opts NodesResponse_run_verifier buf.

Definition fb_size_prefixed_root_as_nodes_response_with_opts (opts : VerifierOptions) (buf : list byte) :
    result InvalidFlatbuffer Table :=
  size_prefixed_root_with_opts opts NodesResponse_run_verifier buf.

Definition fb_root_as_nodes_response_unchecked (buf : list byte) : Table :=
  root_unchecked buf.

Definition fb_size_prefixed_root_as_nodes_response_unchecked (buf : list byte) : Table :=
  size_prefixed_root_unchecked buf.

Definition finish_nodes_response_buffer (root : WIPOffset) (fbb : FlatBufferBuilder) :
    FlatBufferBuilder :=
  fbb_finish root fbb.

Definition finish_size_prefixed_nodes_response_buffer (root : WIPOffset) (fbb : FlatBufferBuilder) :
    FlatBufferBuilder :=
  fbb_finish_size_prefixed root fbb.

(** ** [CandidateNode] *)

Definition CandidateNode_VT_PEER_ID : Z := 4.
Definition CandidateNode_VT_PUBLIC_KEY : Z := 6.

Record CandidateNodeArgs := {
  CandidateNodeArgs_peer_id : option WIPOffset;
  CandidateNodeArgs_public_key : option WIPOffset;
}.

Definition CandidateNodeArgs_default : CandidateNodeArgs :=
  {| CandidateNodeArgs_peer_id := None;
     CandidateNodeArgs_public_key := None |}.

Definition CandidateNodeBuilder_add_peer_id (peer_id : WIPOffset) : TableBuilder → TableBuilder :=
  on_fbb (push_slot_always CandidateNode_VT_PEER_ID peer_id).
Definition CandidateNodeBuilder_add_public_key (public_key : WIPOffset) :
    TableBuilder → TableBuilder :=
  on_fbb (push_slot_always CandidateNode_VT_PUBLIC_KEY public_key).

Definition CandidateNodeBuilder_new (_fbb : FlatBufferBuilder) : TableBuilder :=
  let '(start, _fbb) := start_table _fbb in {| fbb_ := _fbb; start_ := start |}.

Definition CandidateNodeBuilder_finish (self : TableBuilder) : WIPOffset * FlatBufferBuilder :=
  end_table (start_ self) (fbb_ self).

Definition CandidateNode_create (args : CandidateNodeArgs) : Build WIPOffset := λ _fbb,
  let builder := CandidateNodeBuilder_new _fbb in
  let builder :=
    if_let (CandidateNodeArgs_public_key args) CandidateNodeBuilder_add_public_key builder in
  let builder := if_let (CandidateNodeArgs_peer_id args) CandidateNodeBuilder_add_peer_id builder in
  CandidateNodeBuilder_finish builder.

Definition CandidateNode_run_verifier : list field :=
  [("peer_id", CandidateNode_VT_PEER_ID, FStr, false);
   ("public_key", CandidateNode_VT_PUBLIC_KEY, FStr, false)].

Definition CandidateNode_peer_id (_tab : Table) : option string :=
  get FStr _tab CandidateNode_VT_PEER_ID None.
Definition CandidateNode_public_key (_tab : Table) : option string :=
  get FStr _tab CandidateNode_VT_PUBLIC_KEY None.

(** ** [CandidatesResponse] *)

Definition CandidatesResponse_VT_OK : Z := 4.
Definition CandidatesResponse_VT_CANDIDATES : Z := 6.

Record CandidatesResponseArgs := {
  CandidatesResponseArgs_ok : bool;
  CandidatesResponseArgs_candidates : option WIPOffset;
}.

Definition CandidatesResponseArgs_default : CandidatesResponseArgs :=
  {| CandidatesResponseArgs_ok := false;
     CandidatesResponseArgs_candidates := None |}.

Definition CandidatesResponseBuilder_add_ok (ok : bool) : TableBuilder → TableBuilder :=
  on_fbb (push_slot SBool CandidatesResponse_VT_OK ok false).
Definition CandidatesResponseBuilder_add_candidates (candidates : WIPOffset) :
    TableBuilder → TableBuilder :=
  on_fbb (push_slot_always CandidatesResponse_VT_CANDIDATES candidates).

Definition CandidatesResponseBuilder_new (_fbb : FlatBufferBuilder) : TableBuilder :=
  let '(start, _fbb) := start_table _fbb in {| fbb_ := _fbb; start_ := start |}.

Definition CandidatesResponseBuilder_finish (self : TableBuilder) : WIPOffset * FlatBufferBuilder :=
  end_table (start_ self) (fbb_ self).

Definition CandidatesResponse_create (args : CandidatesResponseArgs) : Build WIPOffset := λ _fbb,
  let builder := CandidatesResponseBuilder_new _fbb in
  let builder :=
    if_let (CandidatesResponseArgs_candidates args) CandidatesResponseBuilder_add_candidates builder in
  let builder := CandidatesResponseBuilder_add_ok (CandidatesResponseArgs_ok args) builder in
  CandidatesResponseBuilder_finish builder.

Definition CandidatesResponse_run_verifier : list field :=
  [("ok", CandidatesResponse_VT_OK, FScalar SBool, false);
   ("candidates", CandidatesResponse_VT_CANDIDATES, FTables CandidateNode_run_verifier, false)].

Definition CandidatesResponse_ok (_tab : Table) : bool :=
  get_unwrap SBool _tab CandidatesResponse_VT_OK false.
Definition CandidatesResponse_candidates (_tab : Table) : option (list Table) :=
  get (FTables CandidateNode_run_verifier) _tab CandidatesResponse_VT_CANDIDATES None.

Definition fb_root_as_candidates_response (buf : list byte) : result InvalidFlatbuffer Table :=
  root CandidatesResponse_run_verifier buf.

Definition fb_size_prefixed_root_as_candidates_response (buf : list byte) :
    result InvalidFlatbuffer Table :=
  size_prefixed_root CandidatesResponse_run_verifier buf.

Definition fb_root_as_candidates_response_with_opts (opts : VerifierOptions) (buf : list byte) :
    result InvalidFlatbuffer Table :=
  root_with_opts opts CandidatesResponse_run_verifier buf.

Definition fb_size_prefixed_root_as_candidates_response_with_opts (opts : VerifierOptions) (buf : list byte) :
    result InvalidFlatbuffer Table :=
  size_prefixed_root_with_opts opts CandidatesResponse_run_verifier buf.

Definition fb_root_as_candidates_response_unchecked (buf : list byte) : Table :=
  root_unchecked buf.

Definition fb_size_prefixed_root_as_candidates_response_unchecked (buf : list byte) : Table :=
  size_prefixed_root_unchecked buf.

Definition finish_candidates_response_buffer (root : WIPOffset) (fbb : FlatBufferBuilder) :
    FlatBufferBuilder :=
  fbb_finish root fbb.

Definition finish_size_prefixed_candidates_response_buffer (root : WIPOffset) (fbb : FlatBufferBuilder) :
    FlatBufferBuilder :=
  fbb_finish_size_prefixed root fbb.

(** ** [TaskCreateResponse] *)

Definition TaskCreateResponse_VT_OK : Z := 4.
Definition TaskCreateResponse_VT_TASK_ID : Z := 6.
Definition TaskCreateResponse_VT_MANIFEST_REF : Z := 8.
Definition TaskCreateResponse_VT_SELECTION_WINDOW_MS : Z := 10.
Definition TaskCreateResponse_VT_MESSAGE : Z := 12.

Record TaskCreateResponseArgs := {
  TaskCreateResponseArgs_ok : bool;
  TaskCreateResponseArgs_task_id : option WIPOffset;
  TaskCreateResponseArgs_manifest_ref : option WIPOffset;
  TaskCreateResponseArgs_selection_window_ms : Z;
  TaskCreateResponseArgs_message : option WIPOffset;
}.

Definition TaskCreateResponseArgs_default : TaskCreateResponseArgs :=
  {| TaskCreateResponseArgs_ok := false;
     TaskCreateResponseArgs_task_id := None;
     TaskCreateResponseArgs_manifest_ref := None;
     TaskCreateResponseArgs_selection_window_ms := 0;
     TaskCreateResponseArgs_message := None |}.

Definition TaskCreateResponseBuilder_add_ok (ok : bool) : TableBuilder → TableBuilder :=
  on_fbb (push_slot SBool TaskCreateResponse_VT_OK ok false).
Definition TaskCreateResponseBuilder_add_task_id (task_id : WIPOffset) :
    TableBuilder → TableBuilder :=
  on_fbb (push_slot_always TaskCreateResponse_VT_TASK_ID task_id).
Definition TaskCreateResponseBuilder_add_manifest_ref (manifest_ref : WIPOffset) :
    TableBuilder → TableBuilder :=
  on_fbb (push_slot_always TaskCreateResponse_VT_MANIFEST_REF manifest_ref).
Definition TaskCreateResponseBuilder_add_selection_window_ms (selection_window_ms : Z) :
    TableBuilder → TableBuilder :=
  on_fbb (push_slot SU64 TaskCreateResponse_VT_SELECTION_WINDOW_MS selection_window_ms 0).
Definition TaskCreateResponseBuilder_add_message (message : WIPOffset) :
    TableBuilder → TableBuilder :=
  on_fbb (push_slot_always TaskCreateResponse_VT_MESSAGE message).

Definition TaskCreateResponseBuilder_new (_fbb : FlatBufferBuilder) : TableBuilder :=
  let '(start, _fbb) := start_table _fbb in {| fbb_ := _fbb; start_ := start |}.

Definition TaskCreateResponseBuilder_finish (self : TableBuilder) : WIPOffset * FlatBufferBuilder :=
  end_table (start_ self) (fbb_ self).

Definition TaskCreateResponse_create (args : TaskCreateResponseArgs) : Build WIPOffset := λ _fbb,
  let builder := TaskCreateResponseBuilder_new _fbb in
  let builder :=
    TaskCreateResponseBuilder_add_selection_window_ms (TaskCreateResponseArgs_selection_window_ms args) builder in
  let builder :=
    if_let (TaskCreateResponseArgs_message args) TaskCreateResponseBuilder_add_message builder in
  let builder :=
    if_let (TaskCreateResponseArgs_manifest_ref args) TaskCreateResponseBuilder_add_manifest_ref builder in
  let builder :=
    if_let (TaskCreateResponseArgs_task_id args) TaskCreateResponseBuilder_add_task_id builder in
  let builder := TaskCreateResponseBuilder_add_ok (TaskCreateResponseArgs_ok args) builder in
  TaskCreateResponseBuilder_finish builder.

Definition TaskCreateResponse_run_verifier : list field :=
  [("ok", TaskCreateResponse_VT_OK, FScalar SBool, false);
   ("task_id", TaskCreateResponse_VT_TASK_ID, FStr, false);
   ("manifest_ref", TaskCreateResponse_VT_MANIFEST_REF, FStr, false);
   ("selection_window_ms", TaskCreateResponse_VT_SELECTION_WINDOW_MS, FScalar SU64, false);
   ("message", TaskCreateResponse_VT_MESSAGE, FStr, false)].

Definition TaskCreateResponse_ok (_tab : Table) : bool :=
  get_unwrap SBool _tab TaskCreateResponse_VT_OK false.
Definition TaskCreateResponse_task_id (_tab : Table) : option string :=
  get FStr _tab TaskCreateResponse_VT_TASK_ID None.
Definition TaskCreateResponse_manifest_ref (_tab : Table) : option string :=
  get FStr _tab TaskCreateResponse_VT_MANIFEST_REF None.
Definition TaskCreateResponse_selection_window_ms (_tab : Table) : Z :=
  get_unwrap SU64 _tab TaskCreateResponse_VT_SELECTION_WINDOW_MS 0.
Definition TaskCreateResponse_message (_tab : Table) : option string :=
  get FStr _tab TaskCreateResponse_VT_MESSAGE None.

Definition fb_root_as_task_create_response (buf : list byte) : result InvalidFlatbuffer Table :=
  root TaskCreateResponse_run_verifier buf.

Definition fb_size_prefixed_root_as_task_create_response (buf : list byte) :
    result InvalidFlatbuffer Table :=
  size_prefixed_root TaskCreateResponse_run_verifier buf.

Definition fb_root_as_task_create_response_with_opts (opts : VerifierOptions) (buf : list byte) :
    result InvalidFlatbuffer Table :=
  root_with_opts opts TaskCreateResponse_run_verifier buf.

Definition fb_size_prefixed_root_as_task_create_response_with_opts (opts : VerifierOptions) (buf : list byte) :
    result InvalidFlatbuffer Table :=
  size_prefixed_root_with_opts opts TaskCreateResponse_run_verifier buf.

Definition fb_root_as_task_create_response_unchecked (buf : list byte) : Table :=
  root_unchecked buf.

Definition fb_size_prefixed_root_as_task_create_response_unchecked (buf : list byte) : Table :=
  size_prefixed_root_unchecked buf.

Definition finish_task_create_response_buffer (root : WIPOffset) (fbb : FlatBufferBuilder) :
    FlatBufferBuilder :=
  fbb_finish root fbb.

Definition finish_size_prefixed_task_create_response_buffer (root : WIPOffset) (fbb : FlatBufferBuilder) :
    FlatBufferBuilder :=
  fbb_finish_size_prefixed root fbb.

(** ** [TaskStatusResponse] *)

Definition TaskStatusResponse_VT_TASK_ID : Z := 4.
Definition TaskStatusResponse_VT_STATE : Z := 6.
Definition TaskStatusResponse_VT_ASSIGNED_PEERS : Z := 8.
Definition TaskStatusResponse_VT_SHARES_DISTRIBUTED : Z := 10.
Definition TaskStatusResponse_VT_MANIFEST_CID : Z := 12.

Record TaskStatusResponseArgs := {
  TaskStatusResponseArgs_task_id : option WIPOffset;
  TaskStatusResponseArgs_state : option WIPOffset;
  TaskStatusResponseArgs_assigned_peers : option WIPOffset;
  TaskStatusResponseArgs_shares_distributed : option WIPOffset;
  TaskStatusResponseArgs_manifest_cid : option WIPOffset;
}.

Definition TaskStatusResponseArgs_default : TaskStatusResponseArgs :=
  {| TaskStatusResponseArgs_task_id := None;
     TaskStatusResponseArgs_state := None;
     TaskStatusResponseArgs_assigned_peers := None;
     TaskStatusResponseArgs_shares_distributed := None;
     TaskStatusResponseArgs_manifest_cid := None |}.

Definition TaskStatusResponseBuilder_add_task_id (task_id : WIPOffset) :
    TableBuilder → TableBuilder :=
  on_fbb (push_slot_always TaskStatusResponse_VT_TASK_ID task_id).
Definition TaskStatusResponseBuilder_add_state (state : WIPOffset) : TableBuilder → TableBuilder :=
  on_fbb (push_slot_always TaskStatusResponse_VT_STATE state).
Definition TaskStatusResponseBuilder_add_assigned_peers (assigned_peers : WIPOffset) :
    TableBuilder → TableBuilder :=
  on_fbb (push_slot_always TaskStatusResponse_VT_ASSIGNED_PEERS assigned_peers).
Definition TaskStatusResponseBuilder_add_shares_distributed (shares_distributed : WIPOffset) :
    TableBuilder → TableBuilder :=
  on_fbb (push_slot_always TaskStatusResponse_VT_SHARES_DISTRIBUTED shares_distributed).
Definition TaskStatusResponseBuilder_add_manifest_cid (manifest_cid : WIPOffset) :
    TableBuilder → TableBuilder :=
  on_fbb (push_slot_always TaskStatusResponse_VT_MANIFEST_CID manifest_cid).

Definition TaskStatusResponseBuilder_new (_fbb : FlatBufferBuilder) : TableBuilder :=
  let '(start, _fbb) := start_table _fbb in {| fbb_ := _fbb; start_ := start |}.

Definition TaskStatusResponseBuilder_finish (self : TableBuilder) : WIPOffset * FlatBufferBuilder :=
  end_table (start_ self) (fbb_ self).

Definition TaskStatusResponse_create (args : TaskStatusResponseArgs) : Build WIPOffset := λ _fbb,
  let builder := TaskStatusResponseBuilder_new _fbb in
  let builder :=
    if_let (TaskStatusResponseArgs_manifest_cid args) TaskStatusResponseBuilder_add_manifest_cid builder in
  let builder :=
    if_let (TaskStatusResponseArgs_shares_distributed args) TaskStatusResponseBuilder_add_shares_distributed builder in
  let builder :=
    if_let (TaskStatusResponseArgs_assigned_peers args) TaskStatusResponseBuilder_add_assigned_peers builder in
  let builder :=
    if_let (TaskStatusResponseArgs_state args) TaskStatusResponseBuilder_add_state builder in
  let builder :=
    if_let (TaskStatusResponseArgs_task_id args) TaskStatusResponseBuilder_add_task_id builder in
  TaskStatusResponseBuilder_finish builder.

Definition TaskStatusResponse_run_verifier : list field :=
  [("task_id", TaskStatusResponse_VT_TASK_ID, FStr, false);
   ("state", TaskStatusResponse_VT_STATE, FStr, false);
   ("assigned_peers", TaskStatusResponse_VT_ASSIGNED_PEERS, FStrs, false);
   ("shares_distributed", TaskStatusResponse_VT_SHARES_DISTRIBUTED, FStrs, false);
   ("manifest_cid", TaskStatusResponse_VT_MANIFEST_CID, FStr, false)].

Definition TaskStatusResponse_task_id (_tab : Table) : option string :=
  get FStr _tab TaskStatusResponse_VT_TASK_ID None.
Definition TaskStatusResponse_state (_tab : Table) : option string :=
  get FStr _tab TaskStatusResponse_VT_STATE None.
Definition TaskStatusResponse_assigned_peers (_tab : Table) : option (list string) :=
  get FStrs _tab TaskStatusResponse_VT_ASSIGNED_PEERS None.
Definition TaskStatusResponse_shares_distributed (_tab : Table) : option (list string) :=
  get FStrs _tab TaskStatusResponse_VT_SHARES_DISTRIBUTED None.
Definition TaskStatusResponse_manifest_cid (_tab : Table) : option string :=
  get FStr _tab TaskStatusResponse_VT_MANIFEST_CID None.

Definition fb_root_as_task_status_response (buf : list byte) : result InvalidFlatbuffer Table :=
  root TaskStatusResponse_run_verifier buf.

Definition fb_size_prefixed_root_as_task_status_response (buf : list byte) :
    result InvalidFlatbuffer Table :=
  size_prefixed_root TaskStatusResponse_run_verifier buf.

Definition fb_root_as_task_status_response_with_opts (opts : VerifierOptions) (buf : list byte) :
    result InvalidFlatbuffer Table :=
  root_with_opts opts TaskStatusResponse_run_verifier buf.

Definition fb_size_prefixed_root_as_task_status_response_with_opts (opts : VerifierOptions) (buf : list byte) :
    result InvalidFlatbuffer Table :=
  size_prefixed_root_with_opts opts TaskStatusResponse_run_verifier buf.

Definition fb_root_as_task_status_response_unchecked (buf : list byte) : Table :=
  root_unchecked buf.

Definition fb_size_prefixed_root_as_task_status_response_unchecked (buf : list byte) : Table :=
  size_prefixed_root_unchecked buf.

Definition finish_task_status_response_buffer (root : WIPOffset) (fbb : FlatBufferBuilder) :
    FlatBufferBuilder :=
  fbb_finish root fbb.

Definition finish_size_prefixed_task_status_response_buffer (root : WIPOffset) (fbb : FlatBufferBuilder) :
    FlatBufferBuilder :=
  fbb_finish_size_prefixed root fbb.

(** ** [AssignRequest] *)

Definition AssignRequest_VT_CHOSEN_PEERS : Z := 4.

Record AssignRequestArgs := {
  AssignRequestArgs_chosen_peers : option WIPOffset;
}.

Definition AssignRequestArgs_default : AssignRequestArgs :=
  {| AssignRequestArgs_chosen_peers := None |}.

Definition AssignRequestBuilder_add_chosen_peers (chosen_peers : WIPOffset) :
    TableBuilder → TableBuilder :=
  on_fbb (push_slot_always AssignRequest_VT_CHOSEN_PEERS chosen_peers).

Definition AssignRequestBuilder_new (_fbb : FlatBufferBuilder) : TableBuilder :=
  let '(start, _fbb) := start_table _fbb in {| fbb_ := _fbb; start_ := start |}.

Definition AssignRequestBuilder_finish (self : TableBuilder) : WIPOffset * FlatBufferBuilder :=
  end_table (start_ self) (fbb_ self).

Definition AssignRequest_create (args : AssignRequestArgs) : Build WIPOffset := λ _fbb,
  let builder := AssignRequestBuilder_new _fbb in
  let builder :=
    if_let (AssignRequestArgs_chosen_peers args) AssignRequestBuilder_add_chosen_peers builder in
  AssignRequestBuilder_finish builder.

Definition AssignRequest_run_verifier : list field :=
  [("chosen_peers", AssignRequest_VT_CHOSEN_PEERS, FStrs, false)].

Definition AssignRequest_chosen_peers (_tab : Table) : option (list string) :=
  get FStrs _tab AssignRequest_VT_CHOSEN_PEERS None.

Definition fb_root_as_assign_request (buf : list byte) : result InvalidFlatbuffer Table :=
  root AssignRequest_run_verifier buf.

Definition fb_size_prefixed_root_as_assign_request (buf : list byte) :
    result InvalidFlatbuffer Table :=
  size_prefixed_root AssignRequest_run_verifier buf.

Definition fb_root_as_assign_request_with_opts (opts : VerifierOptions) (buf : list byte) :
    result InvalidFlatbuffer Table :=
  root_with_opts opts AssignRequest_run_verifier buf.

Definition fb_size_prefixed_root_as_assign_request_with_opts (opts : VerifierOptions) (buf : list byte) :
    result InvalidFlatbuffer Table :=
  size_prefixed_root_with_opts opts AssignRequest_run_verifier buf.

Definition fb_root_as_assign_request_unchecked (buf : list byte) : Table :=
  root_unchecked buf.

Definition fb_size_prefixed_root_as_assign_request_unchecked (buf : list byte) : Table :=
  size_prefixed_root_unchecked buf.

Definition finish_assign_request_buffer (root : WIPOffset) (fbb : FlatBufferBuilder) :
    FlatBufferBuilder :=
  fbb_finish root fbb.

Definition finish_size_prefixed_assign_request_buffer (root : WIPOffset) (fbb : FlatBufferBuilder) :
    FlatBufferBuilder :=
  fbb_finish_size_prefixed root fbb.

(** ** [AssignResponse] *)

Definition AssignResponse_VT_OK : Z := 4.
Definition AssignResponse_VT_TASK_ID : Z := 6.
Definition AssignResponse_VT_ASSIGNED_PEERS : Z := 8.
Definition AssignResponse_VT_PER_PEER_RESULTS_JSON : Z := 10.

Record AssignResponseArgs := {
  AssignResponseArgs_ok : bool;
  AssignResponseArgs_task_id : option WIPOffset;
  AssignResponseArgs_assigned_peers : option WIPOffset;
  AssignResponseArgs_per_peer_results_json : option WIPOffset;
}.

Definition AssignResponseArgs_default : AssignResponseArgs :=
  {| AssignResponseArgs_ok := false;
     AssignResponseArgs_task_id := None;
     AssignResponseArgs_assigned_peers := None;
     AssignResponseArgs_per_peer_results_json := None |}.

Definition AssignResponseBuilder_add_ok (ok : bool) : TableBuilder → TableBuilder :=
  on_fbb (push_slot SBool AssignResponse_VT_OK ok false).
Definition AssignResponseBuilder_add_task_id (task_id : WIPOffset) : TableBuilder → TableBuilder :=
  on_fbb (push_slot_always AssignResponse_VT_TASK_ID task_id).
Definition AssignResponseBuilder_add_assigned_peers (assigned_peers : WIPOffset) :
    TableBuilder → TableBuilder :=
  on_fbb (push_slot_always AssignResponse_VT_ASSIGNED_PEERS assigned_peers).
Definition AssignResponseBuilder_add_per_peer_results_json (per_peer_results_json : WIPOffset) :
    TableBuilder → TableBuilder :=
  on_fbb (push_slot_always AssignResponse_VT_PER_PEER_RESULTS_JSON per_peer_results_json).

Definition AssignResponseBuilder_new (_fbb : FlatBufferBuilder) : TableBuilder :=
  let '(start, _fbb) := start_table _fbb in {| fbb_ := _fbb; start_ := start |}.

Definition AssignResponseBuilder_finish (self : TableBuilder) : WIPOffset * FlatBufferBuilder :=
  end_table (start_ self) (fbb_ self).

Definition AssignResponse_create (args : AssignResponseArgs) : Build WIPOffset := λ _fbb,
  let builder := AssignResponseBuilder_new _fbb in
  let builder :=
    if_let (AssignResponseArgs_per_peer_results_json args) AssignResponseBuilder_add_per_peer_results_json builder in
  let builder :=
    if_let (AssignResponseArgs_assigned_peers args) AssignResponseBuilder_add_assigned_peers builder in
  let builder :=
    if_let (AssignResponseArgs_task_id args) AssignResponseBuilder_add_task_id builder in
  let builder := AssignResponseBuilder_add_ok (AssignResponseArgs_ok args) builder in
  AssignResponseBuilder_finish builder.

Definition AssignResponse_run_verifier : list field :=
  [("ok", AssignResponse_VT_OK, FScalar SBool, false);
   ("task_id", AssignResponse_VT_TASK_ID, FStr, false);
   ("assigned_peers", AssignResponse_VT_ASSIGNED_PEERS, FStrs, false);
   ("per_peer_results_json", AssignResponse_VT_PER_PEER_RESULTS_JSON, FStr, false)].

Definition AssignResponse_ok (_tab : Table) : bool :=
  get_unwrap SBool _tab AssignResponse_VT_OK false.
Definition AssignResponse_task_id (_tab : Table) : option string :=
  get FStr _tab AssignResponse_VT_TASK_ID None.
Definition AssignResponse_assigned_peers (_tab : Table) : option (list string) :=
  get FStrs _tab AssignResponse_VT_ASSIGNED_PEERS None.
Definition AssignResponse_per_peer_results_json (_tab : Table) : option string :=
  get FStr _tab AssignResponse_VT_PER_PEER_RESULTS_JSON None.

Definition fb_root_as_assign_response (buf : list byte) : result InvalidFlatbuffer Table :=
  root AssignResponse_run_verifier buf.

Definition fb_size_prefixed_root_as_assign_response (buf : list byte) :
    result InvalidFlatbuffer Table :=
  size_prefixed_root AssignResponse_run_verifier buf.

Definition fb_root_as_assign_response_with_opts (opts : VerifierOptions) (buf : list byte) :
    result InvalidFlatbuffer Table :=
  root_with_opts opts AssignResponse_run_verifier buf.

Definition fb_size_prefixed_root_as_assign_response_with_opts (opts : VerifierOptions) (buf : list byte) :
    result InvalidFlatbuffer Table :=
  size_prefixed_root_with_opts opts AssignResponse_run_verifier buf.

Definition fb_root_as_assign_response_unchecked (buf : list byte) : Table :=
  root_unchecked buf.

Definition fb_size_prefixed_root_as_assign_response_unchecked (buf : list byte) : Table :=
  size_prefixed_root_unchecked buf.

Definition finish_assign_response_buffer (root : WIPOffset) (fbb : FlatBufferBuilder) :
    FlatBufferBuilder :=
  fbb_finish root fbb.

Definition finish_size_prefixed_assign_response_buffer (root : WIPOffset) (fbb : FlatBufferBuilder) :
    FlatBufferBuilder :=
  fbb_finish_size_prefixed root fbb.

End tables.

(** ** Automation *)

#[export] Hint Unfold Health_VT_OK Health_VT_STATUS HealthArgs_default HealthBuilder_add_ok : flatbuf.
#[export] Hint Unfold HealthBuilder_add_status HealthBuilder_new HealthBuilder_finish : flatbuf.
#[export] Hint Unfold Health_create Health_run_verifier Health_ok Health_status : flatbuf.
#[export] Hint Unfold NodesResponse_VT_PEERS NodesResponseArgs_default : flatbuf.
#[export] Hint Unfold NodesResponseBuilder_add_peers NodesResponseBuilder_new : flatbuf.
#[export] Hint Unfold NodesResponseBuilder_finish NodesResponse_create : flatbuf.
#[export] Hint Unfold NodesResponse_run_verifier NodesResponse_peers : flatbuf.
#[export] Hint Unfold CandidateNode_VT_PEER_ID CandidateNode_VT_PUBLIC_KEY : flatbuf.
#[export] Hint Unfold CandidateNodeArgs_default CandidateNodeBuilder_add_peer_id : flatbuf.
#[export] Hint Unfold CandidateNodeBuilder_add_public_key CandidateNodeBuilder_new : flatbuf.
#[export] Hint Unfold CandidateNodeBuilder_finish CandidateNode_create : flatbuf.
#[export] Hint Unfold CandidateNode_run_verifier CandidateNode_peer_id : flatbuf.
#[export] Hint Unfold CandidateNode_public_key CandidatesResponse_VT_OK : flatbuf.
#[export] Hint Unfold CandidatesResponse_VT_CANDIDATES CandidatesResponseArgs_default : flatbuf.
#[export] Hint Unfold CandidatesResponseBuilder_add_ok : flatbuf.
#[export] Hint Unfold CandidatesResponseBuilder_add_candidates : flatbuf.
#[export] Hint Unfold CandidatesResponseBuilder_new CandidatesResponseBuilder_finish : flatbuf.
#[export] Hint Unfold CandidatesResponse_create CandidatesResponse_run_verifier : flatbuf.
#[export] Hint Unfold CandidatesResponse_ok CandidatesResponse_candidates : flatbuf.
#[export] Hint Unfold TaskCreateResponse_VT_OK TaskCreateResponse_VT_TASK_ID : flatbuf.
#[export] Hint Unfold TaskCreateResponse_VT_MANIFEST_REF : flatbuf.
#[export] Hint Unfold TaskCreateResponse_VT_SELECTION_WINDOW_MS : flatbuf.
#[export] Hint Unfold TaskCreateResponse_VT_MESSAGE TaskCreateResponseArgs_default : flatbuf.
#[export] Hint Unfold TaskCreateResponseBuilder_add_ok : flatbuf.
#[export] Hint Unfold TaskCreateResponseBuilder_add_task_id : flatbuf.
#[export] Hint Unfold TaskCreateResponseBuilder_add_manifest_ref : flatbuf.
#[export] Hint Unfold TaskCreateResponseBuilder_add_selection_window_ms : flatbuf.
#[export] Hint Unfold TaskCreateResponseBuilder_add_message TaskCreateResponseBuilder_new : flatbuf.
#[export] Hint Unfold TaskCreateResponseBuilder_finish TaskCreateResponse_create : flatbuf.
#[export] Hint Unfold TaskCreateResponse_run_verifier TaskCreateResponse_ok : flatbuf.
#[export] Hint Unfold TaskCreateResponse_task_id TaskCreateResponse_manifest_ref : flatbuf.
#[export] Hint Unfold TaskCreateResponse_selection_window_ms TaskCreateResponse_message : flatbuf.
#[export] Hint Unfold TaskStatusResponse_VT_TASK_ID TaskStatusResponse_VT_STATE : flatbuf.
#[export] Hint Unfold TaskStatusResponse_VT_ASSIGNED_PEERS : flatbuf.
#[export] Hint Unfold TaskStatusResponse_VT_SHARES_DISTRIBUTED : flatbuf.
#[export] Hint Unfold TaskStatusResponse_VT_MANIFEST_CID TaskStatusResponseArgs_default : flatbuf.
#[export] Hint Unfold TaskStatusResponseBuilder_add_task_id : flatbuf.
#[export] Hint Unfold TaskStatusResponseBuilder_add_state : flatbuf.
#[export] Hint Unfold TaskStatusResponseBuilder_add_assigned_peers : flatbuf.
#[export] Hint Unfold TaskStatusResponseBuilder_add_shares_distributed : flatbuf.
#[export] Hint Unfold TaskStatusResponseBuilder_add_manifest_cid : flatbuf.
#[export] Hint Unfold TaskStatusResponseBuilder_new TaskStatusResponseBuilder_finish : flatbuf.
#[export] Hint Unfold TaskStatusResponse_create TaskStatusResponse_run_verifier : flatbuf.
#[export] Hint Unfold TaskStatusResponse_task_id TaskStatusResponse_state : flatbuf.
#[export] Hint Unfold TaskStatusResponse_assigned_peers : flatbuf.
#[export] Hint Unfold TaskStatusResponse_shares_distributed TaskStatusResponse_manifest_cid : flatbuf.
#[export] Hint Unfold AssignRequest_VT_CHOSEN_PEERS AssignRequestArgs_default : flatbuf.
#[export] Hint Unfold AssignRequestBuilder_add_chosen_peers AssignRequestBuilder_new : flatbuf.
#[export] Hint Unfold AssignRequestBuilder_finish AssignRequest_create : flatbuf.
#[export] Hint Unfold AssignRequest_run_verifier AssignRequest_chosen_peers : flatbuf.
#[export] Hint Unfold AssignResponse_VT_OK AssignResponse_VT_TASK_ID : flatbuf.
#[export] Hint Unfold AssignResponse_VT_ASSIGNED_PEERS : flatbuf.
#[export] Hint Unfold AssignResponse_VT_PER_PEER_RESULTS_JSON AssignResponseArgs_default : flatbuf.
#[export] Hint Unfold AssignResponseBuilder_add_ok AssignResponseBuilder_add_task_id : flatbuf.
#[export] Hint Unfold AssignResponseBuilder_add_assigned_peers : flatbuf.
#[export] Hint Unfold AssignResponseBuilder_add_per_peer_results_json : flatbuf.
#[export] Hint Unfold AssignResponseBuilder_new AssignResponseBuilder_finish : flatbuf.
#[export] Hint Unfold AssignResponse_create AssignResponse_run_verifier AssignResponse_ok : flatbuf.
#[export] Hint Unfold AssignResponse_task_id AssignResponse_assigned_peers : flatbuf.
#[export] Hint Unfold AssignResponse_per_peer_results_json : flatbuf.
