(* ===== verification/GeneratedManifest.v ===== *)
(** * Generated tables: applied manifests

    The code generated for [applied_manifest.fbs]: its two enumerations, the
    labels and the manifest, in the form of the other generated tables. *)

From S2P Require Import Prelude FlatBuf.

Open Scope list_scope.

(** ** Enumerations

    Each is an [i8]: a value the schema does not name is kept. *)

Record SignatureScheme := { scheme_value : Z }.
Definition SIG_NONE : SignatureScheme := {| scheme_value := 0 |}.
Definition ED25519 : SignatureScheme := {| scheme_value := 1 |}.
Definition RSA_PSS : SignatureScheme := {| scheme_value := 2 |}.

Definition SignatureScheme_ENUM_MIN : Z := 0.
Definition SignatureScheme_ENUM_MAX : Z := 2.
Definition SignatureScheme_ENUM_VALUES : list SignatureScheme := [SIG_NONE; ED25519; RSA_PSS].

Definition SignatureScheme_variant_name (s : SignatureScheme) : option string :=
  match scheme_value s with
  | 0 => Some "NONE"
  | 1 => Some "ED25519"
  | 2 => Some "RSA_PSS"
  | _ => None
  end.

(** [Debug]: the name, or the number in angle brackets. *)
Definition SignatureScheme_fmt (s : SignatureScheme) : string :=
  match SignatureScheme_variant_name s with
  | Some name => name
  | None => "<UNKNOWN " +:+ pretty (scheme_value s) +:+ ">"
  end.

(** [follow] wraps the byte that was read, [push] gives the one to write. *)
Definition SignatureScheme_follow (b : Z) : SignatureScheme := {| scheme_value := b |}.
Definition SignatureScheme_push (s : SignatureScheme) : Z := scheme_value s.

Record OperationType := { operation_value : Z }.
Definition APPLY : OperationType := {| operation_value := 0 |}.
Definition UPDATE : OperationType := {| operation_value := 1 |}.
Definition DELETE : OperationType := {| operation_value := 2 |}.

Definition OperationType_ENUM_MIN : Z := 0.
Definition OperationType_ENUM_MAX : Z := 2.
Definition OperationType_ENUM_VALUES : list OperationType := [APPLY; UPDATE; DELETE].

Definition OperationType_variant_name (s : OperationType) : option string :=
  match operation_value s with
  | 0 => Some "APPLY"
  | 1 => Some "UPDATE"
  | 2 => Some "DELETE"
  | _ => None
  end.

Definition OperationType_fmt (s : OperationType) : string :=
  match OperationType_variant_name s with
  | Some name => name
  | None => "<UNKNOWN " +:+ pretty (operation_value s) +:+ ">"
  end.

Definition OperationType_follow (b : Z) : OperationType := {| operation_value := b |}.
Definition OperationType_push (s : OperationType) : Z := operation_value s.

Section tables.
Context `{FlatBufferCrate}.

(** ** [KeyValue] *)

Definition KeyValue_VT_KEY : Z := 4.
Definition KeyValue_VT_VALUE : Z := 6.

Record KeyValueArgs := {
  KeyValueArgs_key : option WIPOffset;
  KeyValueArgs_value : option WIPOffset;
}.

Definition KeyValueArgs_default : KeyValueArgs :=
  {| KeyValueArgs_key := None;
     KeyValueArgs_value := None |}.

Definition KeyValueBuilder_add_key (key : WIPOffset) : TableBuilder → TableBuilder :=
  on_fbb (push_slot_always KeyValue_VT_KEY key).
Definition KeyValueBuilder_add_value (value : WIPOffset) : TableBuilder → TableBuilder :=
  on_fbb (push_slot_always KeyValue_VT_VALUE value).

Definition KeyValueBuilder_new (_fbb : FlatBufferBuilder) : TableBuilder :=
  let '(start, _fbb) := start_table _fbb in {| fbb_ := _fbb; start_ := start |}.

Definition KeyValueBuilder_finish (self : TableBuilder) : WIPOffset * FlatBufferBuilder :=
  end_table (start_ self) (fbb_ self).

Definition KeyValue_create (args : KeyValueArgs) : Build WIPOffset := λ _fbb,
  let builder := KeyValueBuilder_new _fbb in
  let builder := if_let (KeyValueArgs_value args) KeyValueBuilder_add_value builder in
  let builder := if_let (KeyValueArgs_key args) KeyValueBuilder_add_key builder in
  KeyValueBuilder_finish builder.

Definition KeyValue_run_verifier : list field :=
  [("key", KeyValue_VT_KEY, FStr, false);
   ("value", KeyValue_VT_VALUE, FStr, false)].

Definition KeyValue_key (_tab : Table) : option string :=
  get FStr _tab KeyValue_VT_KEY None.
Definition KeyValue_value (_tab : Table) : option string :=
  get FStr _tab KeyValue_VT_VALUE None.

(** ** [AppliedManifest] *)

Definition AppliedManifest_VT_ID : Z := 4.
Definition AppliedManifest_VT_OPERATION_ID : Z := 6.
Definition AppliedManifest_VT_ORIGIN_PEER : Z := 8.
Definition AppliedManifest_VT_OWNER_PUBKEY : Z := 10.
Definition AppliedManifest_VT_SIGNATURE_SCHEME : Z := 12.
Definition AppliedManifest_VT_SIGNATURE : Z := 14.
Definition AppliedManifest_VT_MANIFEST_JSON : Z := 16.
Definition AppliedManifest_VT_MANIFEST_KIND : Z := 18.
Definition AppliedManifest_VT_LABELS : Z := 20.
Definition AppliedManifest_VT_TIMESTAMP : Z := 22.
Definition AppliedManifest_VT_OPERATION : Z := 24.
Definition AppliedManifest_VT_TTL_SECS : Z := 26.
Definition AppliedManifest_VT_CONTENT_HASH : Z := 28.

Record AppliedManifestArgs := {
  AppliedManifestArgs_id : option WIPOffset;
  AppliedManifestArgs_operation_id : option WIPOffset;
  AppliedManifestArgs_origin_peer : option WIPOffset;
  AppliedManifestArgs_owner_pubkey : option WIPOffset;
  AppliedManifestArgs_signature_scheme : SignatureScheme;
  AppliedManifestArgs_signature : option WIPOffset;
  AppliedManifestArgs_manifest_json : option WIPOffset;
  AppliedManifestArgs_manifest_kind : option WIPOffset;
  AppliedManifestArgs_labels : option WIPOffset;
  AppliedManifestArgs_timestamp : Z;
  AppliedManifestArgs_operation : OperationType;
  AppliedManifestArgs_ttl_secs : Z;
  AppliedManifestArgs_content_hash : option WIPOffset;
}.

Definition AppliedManifestArgs_default : AppliedManifestArgs :=
  {| AppliedManifestArgs_id := None;
     AppliedManifestArgs_operation_id := None;
     AppliedManifestArgs_origin_peer := None;
     AppliedManifestArgs_owner_pubkey := None;
     AppliedManifestArgs_signature_scheme := SIG_NONE;
     AppliedManifestArgs_signature := None;
     AppliedManifestArgs_manifest_json := None;
     AppliedManifestArgs_manifest_kind := None;
     AppliedManifestArgs_labels := None;
     AppliedManifestArgs_timestamp := 0;
     AppliedManifestArgs_operation := APPLY;
     AppliedManifestArgs_ttl_secs := 0;
     AppliedManifestArgs_content_hash := None |}.

Definition AppliedManifestBuilder_add_id (id : WIPOffset) : TableBuilder → TableBuilder :=
  on_fbb (push_slot_always AppliedManifest_VT_ID id).
Definition AppliedManifestBuilder_add_operation_id (operation_id : WIPOffset) :
    TableBuilder → TableBuilder :=
  on_fbb (push_slot_always AppliedManifest_VT_OPERATION_ID operation_id).
Definition AppliedManifestBuilder_add_origin_peer (origin_peer : WIPOffset) :
    TableBuilder → TableBuilder :=
  on_fbb (push_slot_always AppliedManifest_VT_ORIGIN_PEER origin_peer).
Definition AppliedManifestBuilder_add_owner_pubkey (owner_pubkey : WIPOffset) :
    TableBuilder → TableBuilder :=
  on_fbb (push_slot_always AppliedManifest_VT_OWNER_PUBKEY owner_pubkey).
Definition AppliedManifestBuilder_add_signature_scheme (signature_scheme : SignatureScheme) :
    TableBuilder → TableBuilder :=
  on_fbb (push_slot SI8 AppliedManifest_VT_SIGNATURE_SCHEME (SignatureScheme_push signature_scheme)
    (SignatureScheme_push SIG_NONE)).
Definition AppliedManifestBuilder_add_signature (signature : WIPOffset) :
    TableBuilder → TableBuilder :=
  on_fbb (push_slot_always AppliedManifest_VT_SIGNATURE signature).
Definition AppliedManifestBuilder_add_manifest_json (manifest_json : WIPOffset) :
    TableBuilder → TableBuilder :=
  on_fbb (push_slot_always AppliedManifest_VT_MANIFEST_JSON manifest_json).
Definition AppliedManifestBuilder_add_manifest_kind (manifest_kind : WIPOffset) :
    TableBuilder → TableBuilder :=
  on_fbb (push_slot_always AppliedManifest_VT_MANIFEST_KIND manifest_kind).
Definition AppliedManifestBuilder_add_labels (labels : WIPOffset) : TableBuilder → TableBuilder :=
  on_fbb (push_slot_always AppliedManifest_VT_LABELS labels).
Definition AppliedManifestBuilder_add_timestamp (timestamp : Z) : TableBuilder → TableBuilder :=
  on_fbb (push_slot SU64 AppliedManifest_VT_TIMESTAMP timestamp 0).
Definition AppliedManifestBuilder_add_operation (operation : OperationType) :
    TableBuilder → TableBuilder :=
  on_fbb (push_slot SI8 AppliedManifest_VT_OPERATION (OperationType_push operation)
    (OperationType_push APPLY)).
Definition AppliedManifestBuilder_add_ttl_secs (ttl_secs : Z) : TableBuilder → TableBuilder :=
  on_fbb (push_slot SU32 AppliedManifest_VT_TTL_SECS ttl_secs 0).
Definition AppliedManifestBuilder_add_content_hash (content_hash : WIPOffset) :
    TableBuilder → TableBuilder :=
  on_fbb (push_slot_always AppliedManifest_VT_CONTENT_HASH content_hash).

Definition AppliedManifestBuilder_new (_fbb : FlatBufferBuilder) : TableBuilder :=
  let '(start, _fbb) := start_table _fbb in {| fbb_ := _fbb; start_ := start |}.

Definition AppliedManifestBuilder_finish (self : TableBuilder) : WIPOffset * FlatBufferBuilder :=
  end_table (start_ self) (fbb_ self).

Definition AppliedManifest_create (args : AppliedManifestArgs) : Build WIPOffset := λ _fbb,
  let builder := AppliedManifestBuilder_new _fbb in
  let builder :=
    AppliedManifestBuilder_add_timestamp (AppliedManifestArgs_timestamp args) builder in
  let builder :=
    if_let (AppliedManifestArgs_content_hash args) AppliedManifestBuilder_add_content_hash builder in
  let builder := AppliedManifestBuilder_add_ttl_secs (AppliedManifestArgs_ttl_secs args) builder in
  let builder :=
    if_let (AppliedManifestArgs_labels args) AppliedManifestBuilder_add_labels builder in
  let builder :=
    if_let (AppliedManifestArgs_manifest_kind args) AppliedManifestBuilder_add_manifest_kind builder in
  let builder :=
    if_let (AppliedManifestArgs_manifest_json args) AppliedManifestBuilder_add_manifest_json builder in
  let builder :=
    if_let (AppliedManifestArgs_signature args) AppliedManifestBuilder_add_signature builder in
  let builder :=
    if_let (AppliedManifestArgs_owner_pubkey args) AppliedManifestBuilder_add_owner_pubkey builder in
  let builder :=
    if_let (AppliedManifestArgs_origin_peer args) AppliedManifestBuilder_add_origin_peer builder in
  let builder :=
    if_let (AppliedManifestArgs_operation_id args) AppliedManifestBuilder_add_operation_id builder in
  let builder := if_let (AppliedManifestArgs_id args) AppliedManifestBuilder_add_id builder in
  let builder :=
    AppliedManifestBuilder_add_operation (AppliedManifestArgs_operation args) builder in
  let builder :=
    AppliedManifestBuilder_add_signature_scheme (AppliedManifestArgs_signature_scheme args) builder in
  AppliedManifestBuilder_finish builder.

Definition AppliedManifest_run_verifier : list field :=
  [("id", AppliedManifest_VT_ID, FStr, false);
   ("operation_id", AppliedManifest_VT_OPERATION_ID, FStr, false);
   ("origin_peer", AppliedManifest_VT_ORIGIN_PEER, FStr, false);
   ("owner_pubkey", AppliedManifest_VT_OWNER_PUBKEY, FBytes, false);
   ("signature_scheme", AppliedManifest_VT_SIGNATURE_SCHEME, FScalar SI8, false);
   ("signature", AppliedManifest_VT_SIGNATURE, FBytes, false);
   ("manifest_json", AppliedManifest_VT_MANIFEST_JSON, FStr, false);
   ("manifest_kind", AppliedManifest_VT_MANIFEST_KIND, FStr, false);
   ("labels", AppliedManifest_VT_LABELS, FTables KeyValue_run_verifier, false);
   ("timestamp", AppliedManifest_VT_TIMESTAMP, FScalar SU64, false);
   ("operation", AppliedManifest_VT_OPERATION, FScalar SI8, false);
   ("ttl_secs", AppliedManifest_VT_TTL_SECS, FScalar SU32, false);
   ("content_hash", AppliedManifest_VT_CONTENT_HASH, FStr, false)].

Definition AppliedManifest_id (_tab : Table) : option string :=
  get FStr _tab AppliedManifest_VT_ID None.
Definition AppliedManifest_operation_id (_tab : Table) : option string :=
  get FStr _tab AppliedManifest_VT_OPERATION_ID None.
Definition AppliedManifest_origin_peer (_tab : Table) : option string :=
  get FStr _tab AppliedManifest_VT_ORIGIN_PEER None.
Definition AppliedManifest_owner_pubkey (_tab : Table) : option (list byte) :=
  get FBytes _tab AppliedManifest_VT_OWNER_PUBKEY None.
Definition AppliedManifest_signature_scheme (_tab : Table) : SignatureScheme :=
  SignatureScheme_follow (get_unwrap SI8 _tab AppliedManifest_VT_SIGNATURE_SCHEME (SignatureScheme_push SIG_NONE)).
Definition AppliedManifest_signature (_tab : Table) : option (list byte) :=
  get FBytes _tab AppliedManifest_VT_SIGNATURE None.
Definition AppliedManifest_manifest_json (_tab : Table) : option string :=
  get FStr _tab AppliedManifest_VT_MANIFEST_JSON None.
Definition AppliedManifest_manifest_kind (_tab : Table) : option string :=
  get FStr _tab AppliedManifest_VT_MANIFEST_KIND None.
Definition AppliedManifest_labels (_tab : Table) : option (list Table) :=
  get (FTables KeyValue_run_verifier) _tab AppliedManifest_VT_LABELS None.
Definition AppliedManifest_timestamp (_tab : Table) : Z :=
  get_unwrap SU64 _tab AppliedManifest_VT_TIMESTAMP 0.
Definition AppliedManifest_operation (_tab : Table) : OperationType :=
  OperationType_follow (get_unwrap SI8 _tab AppliedManifest_VT_OPERATION (OperationType_push APPLY)).
Definition AppliedManifest_ttl_secs (_tab : Table) : Z :=
  get_unwrap SU32 _tab AppliedManifest_VT_TTL_SECS 0.
Definition AppliedManifest_content_hash (_tab : Table) : option string :=
  get FStr _tab AppliedManifest_VT_CONTENT_HASH None.

Definition fb_root_as_applied_manifest (buf : list byte) : result InvalidFlatbuffer Table :=
  root AppliedManifest_run_verifier buf.

Definition fb_size_prefixed_root_as_applied_manifest (buf : list byte) :
    result InvalidFlatbuffer Table :=
  size_prefixed_root AppliedManifest_run_verifier buf.

Definition fb_root_as_applied_manifest_with_opts (opts : VerifierOptions) (buf : list byte) :
    result InvalidFlatbuffer Table :=
  root_with_opts opts AppliedManifest_run_verifier buf.

Definition fb_size_prefixed_root_as_applied_manifest_with_opts (opts : VerifierOptions) (buf : list byte) :
    result InvalidFlatbuffer Table :=
  size_prefixed_root_with_opts opts AppliedManifest_run_verifier buf.

Definition fb_root_as_applied_manifest_unchecked (buf : list byte) : Table :=
  root_unchecked buf.

Definition fb_size_prefixed_root_as_applied_manifest_unchecked (buf : list byte) : Table :=
  size_prefixed_root_unchecked buf.

Definition finish_applied_manifest_buffer (root : WIPOffset) (fbb : FlatBufferBuilder) :
    FlatBufferBuilder :=
  fbb_finish root fbb.

Definition finish_size_prefixed_applied_manifest_buffer (root : WIPOffset) (fbb : FlatBufferBuilder) :
    FlatBufferBuilder :=
  fbb_finish_size_prefixed root fbb.

End tables.

(** ** Lemmas *)

(** The values the schema names are those with a name; printing tells every two
    values of the width apart. *)
Lemma scheme_named s : in_i 8 (scheme_value s) →
  is_Some (SignatureScheme_variant_name s) ↔ s ∈ SignatureScheme_ENUM_VALUES.
Proof.
  destruct s as [z]. intros _. unfold SignatureScheme_variant_name, SignatureScheme_ENUM_VALUES, SIG_NONE, ED25519, RSA_PSS.
  simpl. split.
  - intros [n Hn]. destruct z as [|[[]|[]|]|]; try done; set_solver.
  - rewrite !elem_of_cons. intros [[= ->]|[[= ->]|[[= ->]|Hz]]]; [eauto..|]. by apply elem_of_nil in Hz.
Qed.

Lemma operation_named s : in_i 8 (operation_value s) →
  is_Some (OperationType_variant_name s) ↔ s ∈ OperationType_ENUM_VALUES.
Proof.
  destruct s as [z]. intros _. unfold OperationType_variant_name, OperationType_ENUM_VALUES, APPLY, UPDATE, DELETE.
  simpl. split.
  - intros [n Hn]. destruct z as [|[[]|[]|]|]; try done; set_solver.
  - rewrite !elem_of_cons. intros [[= ->]|[[= ->]|[[= ->]|Hz]]]; [eauto..|]. by apply elem_of_nil in Hz.
Qed.

(** ** Automation *)

#[export] Hint Unfold KeyValue_VT_KEY KeyValue_VT_VALUE KeyValueArgs_default : flatbuf.
#[export] Hint Unfold KeyValueBuilder_add_key KeyValueBuilder_add_value KeyValueBuilder_new : flatbuf.
#[export] Hint Unfold KeyValueBuilder_finish KeyValue_create KeyValue_run_verifier : flatbuf.
#[export] Hint Unfold KeyValue_key KeyValue_value AppliedManifest_VT_ID : flatbuf.
#[export] Hint Unfold AppliedManifest_VT_OPERATION_ID AppliedManifest_VT_ORIGIN_PEER : flatbuf.
#[export] Hint Unfold AppliedManifest_VT_OWNER_PUBKEY AppliedManifest_VT_SIGNATURE_SCHEME : flatbuf.
#[export] Hint Unfold AppliedManifest_VT_SIGNATURE AppliedManifest_VT_MANIFEST_JSON : flatbuf.
#[export] Hint Unfold AppliedManifest_VT_MANIFEST_KIND AppliedManifest_VT_LABELS : flatbuf.
#[export] Hint Unfold AppliedManifest_VT_TIMESTAMP AppliedManifest_VT_OPERATION : flatbuf.
#[export] Hint Unfold AppliedManifest_VT_TTL_SECS AppliedManifest_VT_CONTENT_HASH : flatbuf.
#[export] Hint Unfold AppliedManifestArgs_default AppliedManifestBuilder_add_id : flatbuf.
#[export] Hint Unfold AppliedManifestBuilder_add_operation_id : flatbuf.
#[export] Hint Unfold AppliedManifestBuilder_add_origin_peer : flatbuf.
#[export] Hint Unfold AppliedManifestBuilder_add_owner_pubkey : flatbuf.
#[export] Hint Unfold AppliedManifestBuilder_add_signature_scheme : flatbuf.
#[export] Hint Unfold AppliedManifestBuilder_add_signature : flatbuf.
#[export] Hint Unfold AppliedManifestBuilder_add_manifest_json : flatbuf.
#[export] Hint Unfold AppliedManifestBuilder_add_manifest_kind : flatbuf.
#[export] Hint Unfold AppliedManifestBuilder_add_labels : flatbuf.
#[export] Hint Unfold AppliedManifestBuilder_add_timestamp : flatbuf.
#[export] Hint Unfold AppliedManifestBuilder_add_operation : flatbuf.
#[export] Hint Unfold AppliedManifestBuilder_add_ttl_secs : flatbuf.
#[export] Hint Unfold AppliedManifestBuilder_add_content_hash AppliedManifestBuilder_new : flatbuf.
#[export] Hint Unfold AppliedManifestBuilder_finish AppliedManifest_create : flatbuf.
#[export] Hint Unfold AppliedManifest_run_verifier AppliedManifest_id : flatbuf.
#[export] Hint Unfold AppliedManifest_operation_id AppliedManifest_origin_peer : flatbuf.
#[export] Hint Unfold AppliedManifest_owner_pubkey AppliedManifest_signature_scheme : flatbuf.
#[export] Hint Unfold AppliedManifest_signature AppliedManifest_manifest_json : flatbuf.
#[export] Hint Unfold AppliedManifest_manifest_kind AppliedManifest_labels : flatbuf.
#[export] Hint Unfold AppliedManifest_timestamp AppliedManifest_operation : flatbuf.
#[export] Hint Unfold AppliedManifest_ttl_secs AppliedManifest_content_hash : flatbuf.
