(* ===== verification/Envelope.v ===== *)
(** * Signed envelopes

    Building and signing envelopes ([protocol/src/lib.rs],
    [machine/src/libp2p_beemesh/envelope.rs], [crypto/src/lib.rs]), verifying
    them ([envelope.rs], [security.rs]) and the message verifier the handlers
    call ([behaviour/message_verifier.rs]). The FlatBuffers builder and the
    signature scheme are the interfaces of [Libp2p]; the nonce store is
    [NonceStore]'s. *)

From Stdlib Require Import Ascii.
From S2P Require Import Prelude RustStr Utf8 Constants NonceStore Libp2p Concrete.

Open Scope rust_scope.

(** ** Signing *)

Section signing.
Context `{FlatBuffers, Crypto}.

(** [crypto::sign_envelope]: base64 of the signature and of the public key. *)
Definition sign_envelope (sk pk envelope_bytes : list byte) : result string (string * string) :=
  let? pubk := ok_or "public key" (ml_dsa_public pk) in
  let? signature := ok_or "sign" (ml_dsa_sign sk envelope_bytes) in
  Ok (base64_encode signature, base64_encode pubk).

(** [crypto::verify_envelope] *)
Definition verify_envelope (pub envelope_bytes sig : list byte) : result string () :=
  match ml_dsa_verify pub envelope_bytes sig with
  | Some true => Ok ()
  | Some false => Err "signature verification failed: invalid signature"
  | None => Err "signature verification error"
  end.

Definition build_envelope_canonical_with_peer (payload : list byte)
    (payload_type nonce : string) (ts : Z) (alg peer_id : string) (kem_pub : option string) :
    list byte :=
  finish_envelope
    {| env_payload := Some payload; env_payload_type := Some payload_type;
       env_nonce := Some nonce; env_ts := ts; env_alg := Some alg;
       env_sig := Some ""; env_pubkey := Some "";
       env_kem_pubkey := Some (default "" kem_pub); env_peer_id := Some peer_id |}.

Definition build_envelope_canonical (payload : list byte) (payload_type nonce : string) (ts : Z)
    (alg : string) (kem_pub : option string) : list byte :=
  finish_envelope
    {| env_payload := Some payload; env_payload_type := Some payload_type;
       env_nonce := Some nonce; env_ts := ts; env_alg := Some alg;
       env_sig := Some ""; env_pubkey := Some "";
       env_kem_pubkey := Some (default "" kem_pub); env_peer_id := Some "" |}.

Definition build_envelope_signed_with_peer (payload : list byte) (payload_type nonce : string)
    (ts : Z) (alg sig_prefix sig_b64 pubkey_b64 peer_id : string) (kem_pub_b64 : option string) :
    list byte :=
  finish_envelope
    {| env_payload := Some payload; env_payload_type := Some payload_type;
       env_nonce := Some nonce; env_ts := ts; env_alg := Some alg;
       env_sig := Some (sig_prefix +:+ ":" +:+ sig_b64); env_pubkey := Some pubkey_b64;
       env_kem_pubkey := Some (default "" kem_pub_b64); env_peer_id := Some peer_id |}.

Definition build_envelope_signed (payload : list byte) (payload_type nonce : string) (ts : Z)
    (alg sig_prefix sig_b64 pubkey_b64 : string) (kem_pub_b64 : option string) : list byte :=
  finish_envelope
    {| env_payload := Some payload; env_payload_type := Some payload_type;
       env_nonce := Some nonce; env_ts := ts; env_alg := Some alg;
       env_sig := Some (sig_prefix +:+ ":" +:+ sig_b64); env_pubkey := Some pubkey_b64;
       env_kem_pubkey := Some (default "" kem_pub_b64); env_peer_id := Some "" |}.

Record SignEnvelopeConfig := {
  cfg_nonce : option string;
  cfg_timestamp : option Z;
  cfg_peer_id : option string;
  cfg_kem_pub_b64 : option string;
  cfg_algorithm : string;
  cfg_signature_prefix : string;
}.

Definition SignEnvelopeConfig_default : SignEnvelopeConfig :=
  {| cfg_nonce := None; cfg_timestamp := None; cfg_peer_id := None; cfg_kem_pub_b64 := None;
     cfg_algorithm := "ml-dsa-65"; cfg_signature_prefix := "ml-dsa-65" |}.

Record SignedEnvelope := {
  signed_bytes : list byte;
  signed_nonce : string;
  signed_timestamp : Z;
}.

(** [sign_internal]; [uuid] and [now_ms] are what [Uuid::new_v4] and the clock
    would return. *)
Definition sign_internal (uuid : string) (now_ms : Z) (payload : list byte)
    (payload_type : string) (config : SignEnvelopeConfig) (pub_bytes sk_bytes : list byte) :
    result string SignedEnvelope :=
  let nonce := default uuid (cfg_nonce config) in
  let timestamp := default now_ms (cfg_timestamp config) in
  let algorithm := cfg_algorithm config in
  let kem := cfg_kem_pub_b64 config in
  let canonical :=
    match cfg_peer_id config with
    | Some peer =>
        build_envelope_canonical_with_peer payload payload_type nonce timestamp algorithm peer kem
    | None => build_envelope_canonical payload payload_type nonce timestamp algorithm kem
    end in
  let? (sig_b64, pub_b64) := sign_envelope sk_bytes pub_bytes canonical in
  let bytes :=
    match cfg_peer_id config with
    | Some peer =>
        build_envelope_signed_with_peer payload payload_type nonce timestamp algorithm
          (cfg_signature_prefix config) sig_b64 pub_b64 peer kem
    | None =>
        build_envelope_signed payload payload_type nonce timestamp algorithm
          (cfg_signature_prefix config) sig_b64 pub_b64 kem
    end in
  Ok {| signed_bytes := bytes; signed_nonce := nonce; signed_timestamp := timestamp |}.

Definition sign_with_existing_keypair := sign_internal.

(** [sign_with_node_keys]; [node_keys] is what [ensure_keypair_on_disk] returns. *)
Definition sign_with_node_keys (node_keys : result string (list byte * list byte)) (uuid : string)
    (now_ms : Z) (payload : list byte) (payload_type : string) (config : SignEnvelopeConfig) :
    result string SignedEnvelope :=
  let? (pub_bytes, sk_bytes) := node_keys in
  sign_with_existing_keypair uuid now_ms payload payload_type config pub_bytes sk_bytes.

(** ** Verification *)

Record VerifiedEnvelopeParts := {
  payload : list byte;
  pubkey : list byte;
  signature : list byte;
  timestamp_ms : Z;
  payload_type : string;
}.

Definition verify_flatbuffer_envelope_for_peer (now : Z) (bytes : list byte) (nonce_window : Z)
    (peer_id : string) (store : nonce_store) :
    result string VerifiedEnvelopeParts * nonce_store :=
  match root_as_envelope bytes with
  | None => (Err "failed to parse flatbuffer envelope", store)
  | Some fb =>
    let sig_str := default "" (env_sig fb) in
    let pub_str := default "" (env_pubkey fb) in
    match normalize_and_decode_signature base64_decode (Some sig_str) with
    | Err e => (Err e, store)
    | Ok sig_bytes =>
      match base64_decode pub_str with
      | None => (Err "failed to base64-decode pubkey", store)
      | Some pub_bytes =>
        let payload_vec := default [] (env_payload fb) in
        let payload_type := default "" (env_payload_type fb) in
        let nonce := default "" (env_nonce fb) in
        let ts := env_ts fb in
        let alg := default "" (env_alg fb) in
        let canonical :=
          match env_peer_id fb with
          | Some p => build_envelope_canonical_with_peer payload_vec payload_type nonce ts alg p
                        (env_kem_pubkey fb)
          | None => build_envelope_canonical payload_vec payload_type nonce ts alg
                      (env_kem_pubkey fb)
          end in
        let '(checked, store') :=
          if decide (nonce = "") then (Ok (), store)
          else check_and_insert_nonce_for_peer now nonce nonce_window peer_id store in
        (let? _ := checked in
         let? _ := verify_envelope pub_bytes canonical sig_bytes in
         Ok {| payload := payload_vec; pubkey := pub_bytes; signature := sig_bytes;
               timestamp_ms := ts; payload_type := payload_type |}, store')
      end
    end
  end.

Definition verify_flatbuffer_envelope (now : Z) (bytes : list byte) (nonce_window : Z)
    (store : nonce_store) :=
  verify_flatbuffer_envelope_for_peer now bytes nonce_window "global" store.

(** The variant that leaves the nonce store alone; it rebuilds the canonical
    bytes without the peer and KEM fields. *)
Definition verify_flatbuffer_envelope_skip_nonce_check (bytes : list byte) :
    result string VerifiedEnvelopeParts :=
  let? fb := ok_or "failed to parse flatbuffer envelope" (root_as_envelope bytes) in
  let sig_str := default "" (env_sig fb) in
  let pub_str := default "" (env_pubkey fb) in
  let? sig_bytes := normalize_and_decode_signature base64_decode (Some sig_str) in
  let? pub_bytes := ok_or "failed to base64-decode pubkey" (base64_decode pub_str) in
  let payload_vec := default [] (env_payload fb) in
  let payload_type := default "" (env_payload_type fb) in
  let nonce := default "" (env_nonce fb) in
  let ts := env_ts fb in
  let alg := default "" (env_alg fb) in
  let canonical := build_envelope_canonical payload_vec payload_type nonce ts alg None in
  let? _ := verify_envelope pub_bytes canonical sig_bytes in
  Ok {| payload := payload_vec; pubkey := pub_bytes; signature := sig_bytes;
        timestamp_ms := ts; payload_type := payload_type |}.

(** ** The security layer *)

(** [verify_envelope_and_check_nonce_for_peer]: a window of 300 seconds. *)
Definition verify_envelope_and_check_nonce_for_peer (now : Z) (bytes : list byte)
    (peer_id : string) (store : nonce_store) :=
  verify_flatbuffer_envelope_for_peer now bytes (from_secs 300) peer_id store.

Inductive EnvelopeRejection := SignatureRequired (m : string).

Definition verify_signed_payload_for_peer `{PeerIds} (now : Z) (bytes : list byte)
    (peer : PeerId) (store : nonce_store) :
    result EnvelopeRejection VerifiedEnvelopeParts * nonce_store :=
  let '(r, store') :=
    verify_envelope_and_check_nonce_for_peer now bytes (peer_to_string peer) store in
  (map_err SignatureRequired r, store').

(** The handlers' entry: the verified parts, or nothing. *)
Definition verify_signed_message `{PeerIds} (now : Z) (peer : PeerId) (bytes : list byte)
    (store : nonce_store) : option VerifiedEnvelopeParts * nonce_store :=
  let '(r, store') := verify_signed_payload_for_peer now bytes peer store in
  (match r with Ok e => Some e | Err _ => None end, store').

(** [EnvelopeValidator::require_signed_messages] *)
Definition require_signed_messages : bool := true.

End signing.

(** ** Lemmas *)

Section lemmas.
Context `{FlatBuffers, Crypto}.

(** The bytes a decoded envelope's signature is checked against. *)
Definition envelope_canonical (fb : Envelope) : list byte :=
  match env_peer_id fb with
  | Some p => build_envelope_canonical_with_peer (default [] (env_payload fb))
      (default "" (env_payload_type fb)) (default "" (env_nonce fb)) (env_ts fb)
      (default "" (env_alg fb)) p (env_kem_pubkey fb)
  | None => build_envelope_canonical (default [] (env_payload fb))
      (default "" (env_payload_type fb)) (default "" (env_nonce fb)) (env_ts fb)
      (default "" (env_alg fb)) (env_kem_pubkey fb)
  end.

Definition envelope_parts (fb : Envelope) (pub sig : list byte) : VerifiedEnvelopeParts :=
  {| payload := default [] (env_payload fb); pubkey := pub; signature := sig;
     timestamp_ms := env_ts fb; payload_type := default "" (env_payload_type fb) |}.

(** Verification of an envelope whose fields decode: the nonce check, then
    the signature over the canonical bytes. *)
Lemma verify_decoded now bytes window peer store fb sig pub :
  root_as_envelope bytes = Some fb →
  normalize_and_decode_signature base64_decode (Some (default "" (env_sig fb))) = Ok sig →
  base64_decode (default "" (env_pubkey fb)) = Some pub →
  verify_flatbuffer_envelope_for_peer now bytes window peer store =
  let '(checked, store') :=
    if decide (default "" (env_nonce fb) = "") then (Ok (), store)
    else check_and_insert_nonce_for_peer now (default "" (env_nonce fb)) window peer store in
  (let? _ := checked in
   let? _ := verify_envelope pub (envelope_canonical fb) sig in Ok (envelope_parts fb pub sig), store').
Proof.
  intros Hr Hs Hp. unfold verify_flatbuffer_envelope_for_peer. by rewrite Hr, Hs, Hp.
Qed.

(** What an accepted envelope tells the caller. *)
Lemma verify_ok_inv now bytes window peer store parts store' :
  verify_flatbuffer_envelope_for_peer now bytes window peer store = (Ok parts, store') →
  ∃ fb, root_as_envelope bytes = Some fb ∧
    normalize_and_decode_signature base64_decode (Some (default "" (env_sig fb)))
      = Ok (signature parts) ∧
    base64_decode (default "" (env_pubkey fb)) = Some (pubkey parts) ∧
    parts = envelope_parts fb (pubkey parts) (signature parts) ∧
    verify_envelope (pubkey parts) (envelope_canonical fb) (signature parts) = Ok () ∧
    (default "" (env_nonce fb) ≠ "" →
     check_and_insert_nonce_for_peer now (default "" (env_nonce fb)) window peer store
       = (Ok (), store')).
Proof.
  intros Hv. unfold verify_flatbuffer_envelope_for_peer in Hv.
  destruct (root_as_envelope bytes) as [fb|]; [|done]. cbv zeta in Hv.
  destruct (normalize_and_decode_signature _ _) as [sig|] eqn:Es; [|done].
  destruct (base64_decode (default "" (env_pubkey fb))) as [pub|] eqn:Ep; [|done].
  fold (envelope_canonical fb) in Hv. exists fb. split; [done|].
  destruct (if decide (default "" (env_nonce fb) = "") then _ else _) as [checked st] eqn:Ec.
  destruct checked as [[]|]; simpl in Hv; [|done].
  destruct (verify_envelope pub (envelope_canonical fb) sig) as [[]|] eqn:Ev; simpl in Hv; [|done].
  simplify_eq. simpl. split_and!; [done..|]. intros Hn. by rewrite decide_False in Ec.
Qed.

End lemmas.

Section signed.
Context `{FlatBuffersLaws} {CR : Crypto} {keypair : list byte → list byte → Prop}
  {CL : CryptoLaws keypair}.

(** The decoded form of the bytes [sign_internal] produces. *)
Definition signed_table (payload : list byte) (ptype nonce : string) (ts : Z)
    (config : SignEnvelopeConfig) (sig_b64 pub_b64 : string) : Envelope :=
  {| env_payload := Some payload; env_payload_type := Some ptype; env_nonce := Some nonce;
     env_ts := ts; env_alg := Some (cfg_algorithm config);
     env_sig := Some (cfg_signature_prefix config +:+ ":" +:+ sig_b64);
     env_pubkey := Some pub_b64; env_kem_pubkey := Some (default "" (cfg_kem_pub_b64 config));
     env_peer_id := Some (default "" (cfg_peer_id config)) |}.

Lemma sign_internal_ok uuid now_ms payload ptype config pk sk :
  keypair pk sk →
  ∃ sig, let nonce := default uuid (cfg_nonce config) in
    let ts := default now_ms (cfg_timestamp config) in
    let fb := signed_table payload ptype nonce ts config (base64_encode sig) (base64_encode pk) in
    ml_dsa_verify pk (envelope_canonical fb) sig = Some true ∧
    sign_internal uuid now_ms payload ptype config pk sk =
      Ok {| signed_bytes := finish_envelope fb; signed_nonce := nonce; signed_timestamp := ts |}.
Proof.
  intros Hk. unfold sign_internal, sign_envelope.
  rewrite (ml_dsa_public_bytes pk sk Hk).
  set (nonce := default uuid (cfg_nonce config)). set (ts := default now_ms (cfg_timestamp config)).
  set (canonical := match cfg_peer_id config with Some _ => _ | None => _ end).
  destruct (ml_dsa_sign_total pk sk canonical Hk) as [sig Hsig]. rewrite Hsig. exists sig.
  pose proof (ml_dsa_correct pk sk canonical sig Hk Hsig) as Hv. simpl.
  unfold canonical in Hv. unfold signed_table. split; [|by destruct (cfg_peer_id config)].
  rewrite <- Hv. unfold envelope_canonical. simpl.
  by destruct (cfg_peer_id config), (cfg_kem_pub_b64 config).
Qed.

Lemma decode_signature prefix sig :
  (":"%char : ascii) ∉ String.list_ascii_of_string prefix →
  normalize_and_decode_signature base64_decode (Some (prefix +:+ ":" +:+ base64_encode sig)) = Ok sig.
Proof.
  intros Hc. unfold normalize_and_decode_signature.
  change (":" +:+ base64_encode sig) with (String ":"%char (base64_encode sig)). simpl.
  rewrite (after_char_app ":"%char) by done. simpl. by rewrite base64_roundtrip.
Qed.

(** Verifying what a key holder signed comes down to the nonce check. *)
Lemma verify_signed uuid now_ms payload ptype config pk sk s now window peer store :
  keypair pk sk → (":"%char : ascii) ∉ String.list_ascii_of_string (cfg_signature_prefix config) →
  sign_internal uuid now_ms payload ptype config pk sk = Ok s → signed_nonce s ≠ "" →
  in_u 64 (signed_timestamp s) →
  ∃ sig, verify_flatbuffer_envelope_for_peer now (signed_bytes s) window peer store =
    let '(checked, store') :=
      check_and_insert_nonce_for_peer now (signed_nonce s) window peer store in
    (let? _ := checked in
     Ok {| payload := payload; pubkey := pk; signature := sig;
           timestamp_ms := signed_timestamp s; payload_type := ptype |}, store').
Proof.
  intros Hk Hc Hs Hn Hu. destruct (sign_internal_ok uuid now_ms payload ptype config pk sk Hk)
    as (sig & Hv & Hs'). rewrite Hs in Hs'. simplify_eq. simpl in *. exists sig.
  rewrite (verify_decoded _ _ _ _ _ _ sig pk (root_finish (signed_table payload ptype _ _ config _ _) Hu));
    [|by apply decode_signature|apply base64_roundtrip].
  simpl. rewrite decide_False by done. destruct (check_and_insert_nonce_for_peer _ _ _ _ _).
  unfold verify_envelope. by rewrite Hv.
Qed.

(** ** Properties *)

Implicit Types (s : SignedEnvelope) (store : nonce_store).

(** C5: signing then verifying gives back the payload, its type, the
    timestamp and the signer's key, with or without a peer or a KEM key in the
    configuration, provided that the configured signature prefix contains no
    colon and that the nonce is new to the verifying peer or empty (an empty
    nonce is not checked). The timestamp is handed on as it is, however far it
    is from the verifier's clock. *)
Theorem sign_verify_roundtrip uuid now_ms payload ptype config pk sk now peer store :
  keypair pk sk → (":"%char : ascii) ∉ String.list_ascii_of_string (cfg_signature_prefix config) →
  in_u 64 (default now_ms (cfg_timestamp config)) →
  default uuid (cfg_nonce config) = "" ∨ seen_at store peer (default uuid (cfg_nonce config)) = None →
  ∃ s sig store', sign_with_existing_keypair uuid now_ms payload ptype config pk sk = Ok s ∧
    verify_envelope_and_check_nonce_for_peer now (signed_bytes s) peer store =
      (Ok {| payload := payload; pubkey := pk; signature := sig;
             timestamp_ms := default now_ms (cfg_timestamp config);
             payload_type := ptype |}, store').
Proof.
  intros Hk Hc Hu Hseen.
  destruct (sign_internal_ok uuid now_ms payload ptype config pk sk Hk) as (sig & Hv & Hs).
  eexists _, sig, (if decide (default uuid (cfg_nonce config) = "") then store
    else (check_and_insert_nonce_for_peer now (default uuid (cfg_nonce config)) (from_secs 300) peer store).2).
  split; [exact Hs|]. unfold verify_envelope_and_check_nonce_for_peer. cbn [signed_bytes].
  rewrite (verify_decoded _ _ _ _ _ _ sig pk (root_finish (signed_table payload ptype _ _ config _ _) Hu));
    [|by apply decode_signature|apply base64_roundtrip].
  unfold verify_envelope. rewrite Hv. cbn [signed_table env_nonce]. simpl. case_decide as Hn; [done|].
  destruct Hseen as [|Hseen]; [done|]. pose proof (check_unseen now _ (from_secs 300) _ _ Hn Hseen) as Hun.
  destruct (check_and_insert_nonce_for_peer now _ _ _ _) as [r st]. injection Hun as ->. done.
Qed.

(** the replay protection is per presenting peer: an envelope accepted
    from one peer is accepted again, with the same signer and payload, when
    another peer presents it, and from the same peer once the window is over. *)
Theorem replay_accepted_elsewhere uuid now_ms payload ptype config pk sk s now now' peer peer' store :
  keypair pk sk → (":"%char : ascii) ∉ String.list_ascii_of_string (cfg_signature_prefix config) →
  sign_with_existing_keypair uuid now_ms payload ptype config pk sk = Ok s → signed_nonce s ≠ "" →
  in_u 64 (signed_timestamp s) →
  seen_at store peer (signed_nonce s) = None → seen_at store peer' (signed_nonce s) = None →
  peer ≠ peer' ∨ now + from_secs 300 < now' →
  let first := verify_envelope_and_check_nonce_for_peer now (signed_bytes s) peer store in
  let second := verify_envelope_and_check_nonce_for_peer now' (signed_bytes s) peer' first.2 in
  is_ok first.1 = true ∧ is_ok second.1 = true.
Proof.
  intros Hk Hc Hs Hn Hu H1 H2 Hor. unfold verify_envelope_and_check_nonce_for_peer.
  destruct (verify_signed _ _ _ _ _ _ _ _ now (from_secs 300) peer store Hk Hc Hs Hn Hu) as [sig ->].
  destruct (check_and_insert_nonce_for_peer now _ _ _ store) as [r store'] eqn:Ec.
  pose proof (check_unseen now _ (from_secs 300) _ _ Hn H1) as Hun. rewrite Ec in Hun.
  injection Hun as ->.
  split; [done|]. simpl.
  destruct (verify_signed _ _ _ _ _ _ _ _ now' (from_secs 300) peer' store' Hk Hc Hs Hn Hu) as [sig' ->].
  assert (Hok : (check_and_insert_nonce_for_peer now' (signed_nonce s) (from_secs 300) peer' store').1 = Ok ()).
  { apply check_old_or_unseen; [done|]. rewrite (check_seen_at _ _ _ _ _ _ Ec).
    case_decide as Hd; [destruct Hd as [-> _]; destruct Hor; [done|u_lia]|].
    rewrite H2. by destruct (decide (peer' = peer)). }
  by destruct (check_and_insert_nonce_for_peer now' _ _ _ store') as [r ?]; simpl in *; subst r.
Qed.

End signed.

(** ** Authenticity *)

Section authentic.
Context `{FlatBuffersLaws, Crypto}.

(** What a reader of a table sees of the fields that matter to a handler. *)
Definition signed_content (fb : Envelope) : list byte * string * string * Z :=
  (default [] (env_payload fb), default "" (env_payload_type fb), default "" (env_nonce fb),
   env_ts fb).

(** The canonical form determines the content. *)
Lemma canonical_content fb fb' :
  in_u 64 (env_ts fb) → in_u 64 (env_ts fb') →
  envelope_canonical fb = envelope_canonical fb' → signed_content fb = signed_content fb'.
Proof.
  intros Hu Hu' Heq%(f_equal root_as_envelope).
  unfold envelope_canonical, build_envelope_canonical_with_peer, build_envelope_canonical in Heq.
  unfold signed_content.
  destruct (env_peer_id fb), (env_peer_id fb'); rewrite !root_finish in Heq by done.
  all: injection Heq; congruence.
Qed.

(** C4: an accepted envelope carries a signature that verifies, under the key
    that is reported, on the canonical form of the very table that was sent; the
    payload, type and timestamp handed to the caller are that table's, and no
    table with another payload, type, nonce or timestamp has the same canonical
    form. So nothing the signature does not cover reaches the caller. *)
Theorem accepted_was_signed now bytes peer store parts store' :
  verify_envelope_and_check_nonce_for_peer now bytes peer store = (Ok parts, store') →
  ∃ fb, root_as_envelope bytes = Some fb ∧
    base64_decode (default "" (env_pubkey fb)) = Some (pubkey parts) ∧
    ml_dsa_verify (pubkey parts) (envelope_canonical fb) (signature parts) = Some true ∧
    signed_content fb =
      (payload parts, payload_type parts, default "" (env_nonce fb), timestamp_ms parts) ∧
    ∀ fb', in_u 64 (env_ts fb') → envelope_canonical fb' = envelope_canonical fb →
      signed_content fb' = signed_content fb.
Proof.
  intros (fb & Hr & _ & Hpub & Hparts & Hv & _)%verify_ok_inv.
  unfold verify_envelope in Hv. destruct (ml_dsa_verify _ _ _) as [[]|] eqn:Ev; try done.
  exists fb. split_and!; [done..|by rewrite Hparts|]. intros fb' Hu Heq.
  apply canonical_content; [done|by eapply root_ts_u64|done].
Qed.

(** C6: an envelope that was accepted from a peer is refused as a replay when
    the same peer presents the same bytes again within the 300-second window,
    unless its nonce is empty: then it is accepted again, any number of times,
    because an empty nonce is not checked. *)
Theorem replay_rejected now now' bytes peer store parts store' :
  verify_envelope_and_check_nonce_for_peer now bytes peer store = (Ok parts, store') →
  now ≤ now' ≤ now + from_secs 300 →
  ∃ fb, root_as_envelope bytes = Some fb ∧
    let second := verify_envelope_and_check_nonce_for_peer now' bytes peer store' in
    if decide (default "" (env_nonce fb) = "") then second = (Ok parts, store')
    else second.1 = Err "replay detected: nonce already seen".
Proof.
  intros Hok Ht. pose proof (verify_ok_inv _ _ _ _ _ _ _ Hok) as (fb & Hr & Hs & Hp & Hparts & Hv & Hn).
  exists fb. split; [done|]. unfold verify_envelope_and_check_nonce_for_peer in *.
  rewrite (verify_decoded _ _ _ _ _ _ _ _ Hr Hs Hp) in Hok. rewrite (verify_decoded _ _ _ _ _ _ _ _ Hr Hs Hp).
  case_decide as He.
  - rewrite Hv in Hok |- *. simpl in *. congruence.
  - pose proof (check_again_rejected now now' _ _ _ _ _ (Hn He) ltac:(lia) ltac:(lia)) as Hag.
    destruct (check_and_insert_nonce_for_peer now' _ _ _ store') as [r st]. simpl in *. by subst r.
Qed.

End authentic.

(** ** Concrete runs *)

Section witnesses.
Import Toy.

Definition demo_config : SignEnvelopeConfig :=
  {| cfg_nonce := Some "n1"; cfg_timestamp := Some 5; cfg_peer_id := Some "p";
     cfg_kem_pub_b64 := None; cfg_algorithm := "ml-dsa-65"; cfg_signature_prefix := "ml-dsa-65" |}.

Definition demo_signed : result string SignedEnvelope :=
  sign_with_existing_keypair "uuid" 7 [x01; x02] "apply" demo_config [x0a] [x0a].

Definition demo_envelope : SignedEnvelope :=
  match demo_signed with
  | Ok s => s
  | Err _ => {| signed_bytes := []; signed_nonce := ""; signed_timestamp := 0 |}
  end.

Lemma sign_verify_roundtrip_witness :
  ∃ s sig store',
    sign_with_existing_keypair "uuid" 7 [x01; x02] "apply" demo_config [x0a] [x0a] = Ok s ∧
    verify_envelope_and_check_nonce_for_peer 0 (signed_bytes s) "q" ∅ =
      (Ok {| payload := [x01; x02]; pubkey := [x0a]; signature := sig;
             timestamp_ms := 5; payload_type := "apply" |}, store').
Proof.
  apply (sign_verify_roundtrip "uuid" 7 [x01; x02] "apply" demo_config [x0a] [x0a] 0 "q" ∅);
    [done|by apply (bool_decide_unpack _)|by apply (bool_decide_unpack _)|by right].
Defined.

Definition demo_parts : VerifiedEnvelopeParts :=
  match (verify_envelope_and_check_nonce_for_peer 0 (signed_bytes demo_envelope) "q" ∅).1 with
  | Ok parts => parts
  | Err _ => {| payload := []; pubkey := []; signature := []; timestamp_ms := 0; payload_type := "" |}
  end.

Definition demo_store : nonce_store :=
  (verify_envelope_and_check_nonce_for_peer 0 (signed_bytes demo_envelope) "q" ∅).2.

Lemma demo_accepted :
  verify_envelope_and_check_nonce_for_peer 0 (signed_bytes demo_envelope) "q" ∅ = (Ok demo_parts, demo_store).
Proof. unfold demo_store. apply pair_snd. vm_compute. reflexivity. Qed.

Lemma replay_rejected_witness :
  ∃ fb, root_as_envelope (signed_bytes demo_envelope) = Some fb ∧
    let second := verify_envelope_and_check_nonce_for_peer 100 (signed_bytes demo_envelope) "q" demo_store in
    if decide (default "" (env_nonce fb) = "") then second = (Ok demo_parts, demo_store)
    else second.1 = Err "replay detected: nonce already seen".
Proof. apply (replay_rejected 0 100 _ _ _ _ _ demo_accepted). unfold from_secs. lia. Defined.

Lemma replay_accepted_elsewhere_witness :
  let first := verify_envelope_and_check_nonce_for_peer 0 (signed_bytes demo_envelope) "q" ∅ in
  is_ok first.1 = true ∧
  is_ok (verify_envelope_and_check_nonce_for_peer 1 (signed_bytes demo_envelope) "r" first.2).1 = true.
Proof.
  apply (replay_accepted_elsewhere "uuid" 7 [x01; x02] "apply" demo_config [x0a] [x0a]
    demo_envelope 0 1 "q" "r" ∅);
    [done|by apply (bool_decide_unpack _)|vm_compute; reflexivity|vm_compute; discriminate
    |by apply (bool_decide_unpack _)|done|done|by left].
Defined.

Lemma accepted_was_signed_witness :
  ∃ fb, root_as_envelope (signed_bytes demo_envelope) = Some fb ∧
    base64_decode (default "" (env_pubkey fb)) = Some (pubkey demo_parts) ∧
    ml_dsa_verify (pubkey demo_parts) (envelope_canonical fb) (signature demo_parts) = Some true.
Proof.
  destruct (accepted_was_signed 0 _ _ _ _ _ demo_accepted) as (fb & Hr & Hp & Hv & _).
  exists fb. split; [exact Hr|]. split; [exact Hp|exact Hv].
Defined.

End witnesses.
