(* ===== verification/EnvelopeValidator.v ===== *)
(** * The envelope validator ([crypto/src/envelope_validator.rs])

    Validation of JSON envelopes in the crypto crate. Its verification function
    is a placeholder that always fails; the theorem says what that makes of the
    module. [from_slice] is [serde_json::from_slice], with the text of its
    error. *)

From S2P Require Import Prelude Utf8 Serde Libp2p Envelope.

Inductive EnvelopeError :=
| VerificationFailed (m : string)
| UnsignedRejected (m : string)
| InvalidFormat (m : string)
| SignatureFailed (m : string).

Definition envelope_error_text (e : EnvelopeError) : string :=
  match e with
  | VerificationFailed m => "Envelope verification failed: " +:+ m
  | UnsignedRejected m => "Unsigned envelope rejected: " +:+ m
  | InvalidFormat m => "Invalid envelope format: " +:+ m
  | SignatureFailed m => "Signature validation failed: " +:+ m
  end.

Inductive ValidationDirection := Inbound | Outbound.

Definition direction_text (d : ValidationDirection) : string :=
  match d with Inbound => "inbound" | Outbound => "outbound" end.

Definition verify_envelope_and_check_nonce (envelope_val : json) :
    result string (list byte * list byte * list byte) :=
  Err "verify_envelope_and_check_nonce not yet moved to crypto crate".

Section validator.
Context (from_slice : list byte → result string json).

Definition validate_or_fallback (request : list byte) (protocol : string)
    (direction : ValidationDirection) : result EnvelopeError (list byte) :=
  match from_slice request with
  | Ok envelope_val =>
      match verify_envelope_and_check_nonce envelope_val with
      | Ok (payload_bytes, _, _) => Ok payload_bytes
      | Err e =>
          if require_signed_messages then
            Err (UnsignedRejected ("rejecting unsigned/invalid " +:+ direction_text direction +:+
                   " request in " +:+ protocol +:+ ": " +:+ e))
          else Ok request
      end
  | Err _ =>
      if require_signed_messages then
        Err (InvalidFormat ("rejecting non-JSON " +:+ direction_text direction +:+ " request in " +:+
               protocol +:+ " (signing required)"))
      else Ok request
  end.

Definition validate_strict (request : list byte) (protocol : string)
    (direction : ValidationDirection) :
    result EnvelopeError (list byte * list byte * list byte) :=
  match from_slice request with
  | Ok envelope_val =>
      match verify_envelope_and_check_nonce envelope_val with
      | Ok parts => Ok parts
      | Err e =>
          Err (VerificationFailed ("envelope verification failed for " +:+ direction_text direction +:+
                 " request in " +:+ protocol +:+ ": " +:+ e))
      end
  | Err e =>
      Err (InvalidFormat ("invalid JSON format for " +:+ direction_text direction +:+ " request in " +:+
             protocol +:+ ": " +:+ e))
  end.

Definition validate_flatbuffer_envelope (request : list byte) (protocol : string)
    (direction : ValidationDirection) (timeout : Z) :
    result EnvelopeError (list byte * list byte * list byte) :=
  Err (VerificationFailed "Flatbuffer envelope verification not yet implemented in crypto crate").

(** The payload, or what the error handler is called with. *)
Definition validate_with_error_handler (request : list byte) (protocol : string)
    (direction : ValidationDirection) : option (list byte) * option string :=
  match validate_or_fallback request protocol direction with
  | Ok payload => (Some payload, None)
  | Err e => (None, Some (envelope_error_text e))
  end.

(** The module accepts nothing, signed or not. *)
Lemma validator_rejects_all request protocol direction timeout :
  is_ok (validate_or_fallback request protocol direction) = false ∧
  is_ok (validate_strict request protocol direction) = false ∧
  is_ok (validate_flatbuffer_envelope request protocol direction timeout) = false ∧
  (validate_with_error_handler request protocol direction).1 = None.
Proof.
  unfold validate_with_error_handler, validate_or_fallback, validate_strict.
  by destruct (from_slice request).
Qed.

End validator.
