(* ===== verification/RecipientBlob.v ===== *)
(** * Payloads encrypted for a recipient ([crypto/src/lib.rs])

    The hybrid encryption of manifests: a KEM-wrapped AES key, a nonce and the
    ciphertext in one length-prefixed blob; and the symmetric pair
    [encrypt_manifest]/[decrypt_manifest]. Randomness is an argument. The
    decryption can panic: [None]. *)

From S2P Require Import Prelude Utf8 Wire Libp2p Concrete.

Open Scope rust_scope.
Open Scope list_scope.

Section blob.
Context `{Kem}.

Definition encapsulate_to_pubkey (seed pub_bytes : list byte) :
    result string (list byte * list byte) :=
  ok_or "encapsulation failed" (kem_encapsulate seed pub_bytes).

Definition decapsulate_share (priv_bytes ciphertext : list byte) : result string (list byte) :=
  ok_or "decapsulation failed" (kem_decapsulate priv_bytes ciphertext).

(** [Aes256Gcm::new_from_slice]: the key must have 32 bytes. *)
Definition new_cipher (err : string) (key : list byte) : result string (list byte) :=
  if decide (length key = 32%nat) then Ok key else Err err.

Definition encrypt_payload_for_recipient (seed nonce_bytes recipient_pub payload : list byte) :
    result string (list byte) :=
  let? (wrapped_ct, shared_secret) := encapsulate_to_pubkey seed recipient_pub in
  let? cipher := new_cipher "invalid key length for AES-GCM" shared_secret in
  let? ciphertext := ok_or "aes-gcm encrypt error" (aes_encrypt cipher nonce_bytes payload) in
  Ok ([x02] ++ put_block 2 wrapped_ct ++ put_block 1 nonce_bytes ++ put_block 4 ciphertext).

(** The three blocks of a blob. *)
Definition parse_blob (blob : list byte) : result string (list byte * list byte * list byte) :=
  match blob with
  | x02 :: rest =>
      let? (wrapped, rest) := read_block 2 "blob too short" "blob too short for wrapped" rest in
      let? (nonce, rest) :=
        read_block 1 "blob too short for nonce len" "blob too short for nonce" rest in
      let? (ciphertext, rest) :=
        read_block 4 "blob too short for ct len" "blob too short for ciphertext" rest in
      Ok (wrapped, nonce, ciphertext)
  | _ => Err "unsupported recipient-blob version"
  end.

(** [Nonce::from_slice] panics unless the slice has 12 bytes. *)
Definition decrypt_payload_from_recipient_blob (blob priv_kem_bytes : list byte) :
    option (result string (list byte)) :=
  match (let? (wrapped, nonce, ciphertext) := parse_blob blob in
         let? shared := decapsulate_share priv_kem_bytes wrapped in
         let? cipher := new_cipher "aes key error" shared in
         Ok (cipher, nonce, ciphertext)) with
  | Err e => Some (Err e)
  | Ok (cipher, nonce, ciphertext) =>
      if decide (length nonce = 12%nat)
      then Some (ok_or "aes-gcm decrypt error" (aes_decrypt cipher nonce ciphertext))
      else None
  end.

(** [encrypt_manifest] on the serialized manifest, with its two random draws. *)
Definition encrypt_manifest (sym nonce_bytes plaintext : list byte) :
    result string (list byte * list byte * list byte * list byte) :=
  let? cipher := new_cipher "invalid key length for AES-GCM" sym in
  let? ciphertext := ok_or "aes-gcm encrypt error" (aes_encrypt cipher nonce_bytes plaintext) in
  Ok (ciphertext, nonce_bytes, sym, nonce_bytes).

Definition decrypt_manifest (sym nonce_bytes ciphertext : list byte) : result string (list byte) :=
  let? cipher := new_cipher "invalid key length for AES-GCM" sym in
  if decide (length nonce_bytes = 12%nat)
  then ok_or "aes-gcm decrypt error" (aes_decrypt cipher nonce_bytes ciphertext)
  else Err "invalid nonce length".

Lemma new_cipher_ok err key : length key = 32%nat → new_cipher err key = Ok key.
Proof. intros. unfold new_cipher. by rewrite decide_True. Qed.

Lemma parse_blob_put w n c :
  Z.of_nat (length w) < 2 ^ 16 → Z.of_nat (length n) < 2 ^ 8 → Z.of_nat (length c) < 2 ^ 32 →
  parse_blob ([x02] ++ put_block 2 w ++ put_block 1 n ++ put_block 4 c) = Ok (w, n, c).
Proof.
  intros Hw Hn Hc. change ([x02] ++ ?l) with (x02 :: l). unfold parse_blob.
  rewrite read_block_put by done. bind_ok. rewrite read_block_put by done. bind_ok.
  rewrite <- (app_nil_r (put_block 4 c)), read_block_put by done. by bind_ok.
Qed.

End blob.

(** ** Properties *)

Section properties.
Context `{Kem} (kem_pair : list byte → list byte → Prop) `{!KemLaws kem_pair}.

(** Encryption for a key of a pair and decryption with the other one. *)
Lemma blob_decrypts pk sk seed nonce payload :
  kem_pair pk sk → length nonce = 12%nat → Z.of_nat (length payload) < 2 ^ 32 - 16 →
  ∃ blob, encrypt_payload_for_recipient seed nonce pk payload = Ok blob ∧
    decrypt_payload_from_recipient_blob blob sk = Some (Ok payload).
Proof.
  intros Hk Hn Hp. destruct (kem_correct pk sk seed Hk) as (ct & shared & He & Hd & Hct & Hs).
  destruct (aes_correct shared nonce payload Hs Hn) as (c & Hc & Hdc & Hlen); [lia|].
  unfold encrypt_payload_for_recipient, encapsulate_to_pubkey. rewrite He. bind_ok.
  rewrite new_cipher_ok by done. bind_ok. rewrite Hc. bind_ok. eexists. split; [done|].
  unfold decrypt_payload_from_recipient_blob, decapsulate_share. rewrite parse_blob_put by lia.
  bind_ok. rewrite Hd. bind_ok. rewrite new_cipher_ok by done. bind_ok.
  by rewrite decide_True, Hdc.
Qed.

(** a payload encrypted for a recipient is recovered by the holder of the
    matching secret key, for any randomness and any payload below 4 GiB. *)
Theorem recipient_blob_roundtrip pk sk seed nonce payload :
  kem_pair pk sk → length nonce = 12%nat → Z.of_nat (length payload) < 2 ^ 32 - 16 →
  ∃ blob, encrypt_payload_for_recipient seed nonce pk payload = Ok blob ∧
    decrypt_payload_from_recipient_blob blob sk = Some (Ok payload).
Proof. apply blob_decrypts. Qed.

(** The sender chooses the nonce length and it is not checked: a blob
    whose key unwraps but whose nonce has not 12 bytes makes the recipient
    panic instead of returning an error. *)
Theorem recipient_blob_nonce_panics pk sk seed nonce c :
  kem_pair pk sk → length nonce ≠ 12%nat → Z.of_nat (length nonce) < 2 ^ 8 →
  Z.of_nat (length c) < 2 ^ 32 →
  ∃ wrapped, decrypt_payload_from_recipient_blob
    ([x02] ++ put_block 2 wrapped ++ put_block 1 nonce ++ put_block 4 c) sk = None ∧
    encapsulate_to_pubkey seed pk = Ok (wrapped, default [] (kem_decapsulate sk wrapped)).
Proof.
  intros Hk Hn Hl Hc. destruct (kem_correct pk sk seed Hk) as (ct & shared & He & Hd & Hct & Hs).
  exists ct. unfold decrypt_payload_from_recipient_blob, decapsulate_share, encapsulate_to_pubkey.
  rewrite parse_blob_put by done. bind_ok. rewrite Hd, He. bind_ok.
  rewrite new_cipher_ok by done. bind_ok. by rewrite decide_False.
Qed.

End properties.

(** ** Concrete runs *)

Section witnesses.
Import Toy.

Lemma recipient_blob_roundtrip_witness :
  ∃ blob, encrypt_payload_for_recipient [x05] (replicate 12 x07) [x01] [x0a; x0b] = Ok blob ∧
    decrypt_payload_from_recipient_blob blob [x01] = Some (Ok [x0a; x0b]).
Proof.
  apply (recipient_blob_roundtrip (λ pk sk, pk = sk) [x01] [x01] [x05] (replicate 12 x07) [x0a; x0b]);
    [reflexivity|reflexivity|simpl; lia].
Defined.

Lemma recipient_blob_nonce_panics_witness :
  ∃ wrapped, decrypt_payload_from_recipient_blob
    ([x02] ++ put_block 2 wrapped ++ put_block 1 [x01] ++ put_block 4 [x00]) [x01] = None ∧
    encapsulate_to_pubkey [x05] [x01] = Ok (wrapped, default [] (kem_decapsulate [x01] wrapped)).
Proof.
  apply (recipient_blob_nonce_panics (λ pk sk, pk = sk) [x01] [x01] [x05] [x01] [x00]);
    [reflexivity|discriminate|simpl; lia|simpl; lia].
Defined.

End witnesses.
