(* ===== verification/Keypairs.v ===== *)
(** * Key material ([crypto/src/lib.rs], [crypto/src/keypair_manager.rs])

    Where the node's signing and KEM keys live: files of the key directory, or
    caches of the process. The key generator is external: what it returns for a
    call is the argument [fresh] ([None] for an error, failed initialisation
    included). The outcome of each file-system call is part of [io]. *)

From S2P Require Import Prelude Utf8 Libp2p Concrete Envelope RecipientBlob.

Open Scope rust_scope.

Abbreviation keys := (list byte * list byte)%type.

Inductive KeypairMode := Persistent | Ephemeral.

Record KeypairConfig := {
  signing_mode : KeypairMode;
  kem_mode : KeypairMode;
  key_directory : option string;
}.

Definition KeypairConfig_default : KeypairConfig :=
  {| signing_mode := Persistent; kem_mode := Persistent; key_directory := None |}.

Definition KEY_DIR : string := ".beemesh".
Definition PUBKEY_FILE : string := "pubkey.bin".
Definition PRIVKEY_FILE : string := "privkey.bin".
Definition KEM_PUBFILE : string := "kem_pub.bin".
Definition KEM_PRIVFILE : string := "kem_priv.bin".

(** The process-wide state: configuration, home directory, files, the
    [OnceCell]s of [ensure_keypair_on_disk] and [ensure_kem_keypair_on_disk],
    and the caches of the keypair manager. *)
Record KeyState := {
  ks_config : KeypairConfig;
  home_dir : option string;
  files : gmap string (list byte);
  EPHEMERAL_SIGNING : option keys;
  EPHEMERAL_KEM : option keys;
  EPHEMERAL_SIGNING_KEYPAIR : option keys;
  EPHEMERAL_KEM_KEYPAIR : option keys;
}.

(** How writing a file ends: complete, without the file having been opened, or
    with an error after some bytes. An opened file has been truncated. *)
Inductive write_outcome := Written | NotOpened | Interrupted (bytes_written : nat).

Definition wrote (o : write_outcome) : bool := match o with Written => true | _ => false end.

Definition write_file (o : write_outcome) (path : string) (data : list byte)
    (f : gmap string (list byte)) : gmap string (list byte) :=
  match o with
  | Written => <[path := data]> f
  | NotOpened => f
  | Interrupted n => <[path := take n data]> f
  end.

(** How the calls end that prepare the directory, read the two files, write
    them and set their permissions. *)
Record io := {
  io_dir : bool;
  io_read : bool;
  io_write_pub : write_outcome;
  io_write_priv : write_outcome;
  io_chmod : bool;
}.

Definition set_keypair_config (c : KeypairConfig) (k : KeyState) : KeyState :=
  {| ks_config := c; home_dir := home_dir k; files := files k;
     EPHEMERAL_SIGNING := EPHEMERAL_SIGNING k; EPHEMERAL_KEM := EPHEMERAL_KEM k;
     EPHEMERAL_SIGNING_KEYPAIR := EPHEMERAL_SIGNING_KEYPAIR k;
     EPHEMERAL_KEM_KEYPAIR := EPHEMERAL_KEM_KEYPAIR k |}.

Definition set_files f (k : KeyState) : KeyState :=
  {| ks_config := ks_config k; home_dir := home_dir k; files := f;
     EPHEMERAL_SIGNING := EPHEMERAL_SIGNING k; EPHEMERAL_KEM := EPHEMERAL_KEM k;
     EPHEMERAL_SIGNING_KEYPAIR := EPHEMERAL_SIGNING_KEYPAIR k;
     EPHEMERAL_KEM_KEYPAIR := EPHEMERAL_KEM_KEYPAIR k |}.

Definition set_once_signing p (k : KeyState) : KeyState :=
  {| ks_config := ks_config k; home_dir := home_dir k; files := files k;
     EPHEMERAL_SIGNING := Some p; EPHEMERAL_KEM := EPHEMERAL_KEM k;
     EPHEMERAL_SIGNING_KEYPAIR := EPHEMERAL_SIGNING_KEYPAIR k;
     EPHEMERAL_KEM_KEYPAIR := EPHEMERAL_KEM_KEYPAIR k |}.

Definition set_once_kem p (k : KeyState) : KeyState :=
  {| ks_config := ks_config k; home_dir := home_dir k; files := files k;
     EPHEMERAL_SIGNING := EPHEMERAL_SIGNING k; EPHEMERAL_KEM := Some p;
     EPHEMERAL_SIGNING_KEYPAIR := EPHEMERAL_SIGNING_KEYPAIR k;
     EPHEMERAL_KEM_KEYPAIR := EPHEMERAL_KEM_KEYPAIR k |}.

Definition set_manager_caches sg km (k : KeyState) : KeyState :=
  {| ks_config := ks_config k; home_dir := home_dir k; files := files k;
     EPHEMERAL_SIGNING := EPHEMERAL_SIGNING k; EPHEMERAL_KEM := EPHEMERAL_KEM k;
     EPHEMERAL_SIGNING_KEYPAIR := sg; EPHEMERAL_KEM_KEYPAIR := km |}.

Definition get_keypair_config (k : KeyState) : KeypairConfig := ks_config k.

(** ** [crypto/src/lib.rs] *)

Definition resolve_key_dir (k : KeyState) : result string string :=
  match key_directory (ks_config k) with
  | Some path => Ok path
  | None => let? home := ok_or "could not determine home dir" (home_dir k) in
            Ok (home +:+ "/" +:+ KEY_DIR)
  end.

(** The persistent branch: load both files, or generate and write them. *)
Definition keypair_in_files (i : io) (fresh : option keys) (pubfile privfile : string) (k : KeyState) :
    result string keys * KeyState :=
  match resolve_key_dir k with
  | Err e => (Err e, k)
  | Ok key_dir =>
      if negb (io_dir i) then (Err "could not prepare key directory", k)
      else
        let pub_path := key_dir +:+ "/" +:+ pubfile in
        let priv_path := key_dir +:+ "/" +:+ privfile in
        match files k !! pub_path, files k !! priv_path with
        | Some pubb, Some privb =>
            if io_read i then (Ok (pubb, privb), k) else (Err "could not read key files", k)
        | _, _ =>
            match fresh with
            | None => (Err "key generation failed", k)
            | Some (pubb, privb) =>
                let k := set_files (write_file (io_write_pub i) pub_path pubb (files k)) k in
                if negb (wrote (io_write_pub i)) then (Err "could not write public key", k)
                else
                  let k := set_files (write_file (io_write_priv i) priv_path privb (files k)) k in
                  if negb (wrote (io_write_priv i)) then (Err "could not write private key", k)
                  else if negb (io_chmod i) then (Err "could not set permissions", k)
                  else (Ok (pubb, privb), k)
            end
        end
  end.

(** The ephemeral branch: the cached pair, or a new one that is cached. *)
Definition keypair_in_cell (cell : option keys) (set : keys → KeyState → KeyState)
    (fresh : option keys) (k : KeyState) : result string keys * KeyState :=
  match cell with
  | Some p => (Ok p, k)
  | None =>
      match fresh with
      | Some p => (Ok p, set p k)
      | None => (Err "key generation failed", k)
      end
  end.

Definition ensure_keypair_on_disk (i : io) (fresh : option keys) (k : KeyState) :
    result string keys * KeyState :=
  match signing_mode (ks_config k) with
  | Ephemeral => keypair_in_cell (EPHEMERAL_SIGNING k) set_once_signing fresh k
  | Persistent => keypair_in_files i fresh PUBKEY_FILE PRIVKEY_FILE k
  end.

Definition ensure_kem_keypair_on_disk (i : io) (fresh : option keys) (k : KeyState) :
    result string keys * KeyState :=
  match kem_mode (ks_config k) with
  | Ephemeral => keypair_in_cell (EPHEMERAL_KEM k) set_once_kem fresh k
  | Persistent => keypair_in_files i fresh KEM_PUBFILE KEM_PRIVFILE k
  end.

Definition ensure_keypair_ephemeral (fresh : option keys) : result string keys :=
  ok_or "key generation failed" fresh.

(** [ensure_pqc_init]: the library is initialised once, and an error is kept for
    every later call. *)
Definition ensure_pqc_init (api_init : result string ()) (cell : option (option string)) :
    result string () * option (option string) :=
  let cell := match cell with
              | Some r => r
              | None => match api_init with
                        | Ok _ => None
                        | Err e => Some ("pqc api_init failed: " +:+ e)
                        end
              end in
  (match cell with Some err => Err ("pqc init previously failed: " +:+ err) | None => Ok () end, Some cell).

(** ** [keypair_manager.rs] *)

Inductive KeypairError :=
| GenerationFailed (m : string)
| LoadingFailed (m : string)
| StorageFailed (m : string)
| InvalidFormat (m : string)
| PqcInitFailed (m : string).

Definition keypair_error_text (e : KeypairError) : string :=
  match e with
  | GenerationFailed m => "Keypair generation failed: " +:+ m
  | LoadingFailed m => "Keypair loading failed: " +:+ m
  | StorageFailed m => "Keypair storage failed: " +:+ m
  | InvalidFormat m => "Invalid keypair format: " +:+ m
  | PqcInitFailed m => "PQC initialization failed: " +:+ m
  end.

Inductive KeypairType := Signing | KemKeys.
Inductive StorageMode := StorePersistent | StoreEphemeral.

Definition get_persistent_signing_keypair (i : io) (fresh : option keys) (k : KeyState) :
    result KeypairError keys * KeyState :=
  let '(r, k) := ensure_keypair_on_disk i fresh k in
  (map_err (λ e, LoadingFailed ("signing keypair: " +:+ e)) r, k).

Definition get_persistent_kem_keypair (i : io) (fresh : option keys) (k : KeyState) :
    result KeypairError keys * KeyState :=
  let '(r, k) := ensure_kem_keypair_on_disk i fresh k in
  (map_err (λ e, LoadingFailed ("KEM keypair: " +:+ e)) r, k).

Definition get_ephemeral_signing_keypair (fresh : option keys) (k : KeyState) :
    result KeypairError keys * KeyState :=
  match EPHEMERAL_SIGNING_KEYPAIR k with
  | Some p => (Ok p, k)
  | None =>
      match ensure_keypair_ephemeral fresh with
      | Ok p => (Ok p, set_manager_caches (Some p) (EPHEMERAL_KEM_KEYPAIR k) k)
      | Err e => (Err (GenerationFailed ("ephemeral signing keypair: " +:+ e)), k)
      end
  end.

Definition get_ephemeral_kem_keypair (fresh : option keys) (k : KeyState) :
    result KeypairError keys * KeyState :=
  match EPHEMERAL_KEM_KEYPAIR k with
  | Some p => (Ok p, k)
  | None =>
      match fresh with
      | Some p => (Ok p, set_manager_caches (EPHEMERAL_SIGNING_KEYPAIR k) (Some p) k)
      | None => (Err (GenerationFailed "KEM keypair generation"), k)
      end
  end.

Definition get_signing_keypair (mode : StorageMode) (i : io) (fresh : option keys) (k : KeyState) :=
  match mode with
  | StorePersistent => get_persistent_signing_keypair i fresh k
  | StoreEphemeral => get_ephemeral_signing_keypair fresh k
  end.

Definition get_kem_keypair (mode : StorageMode) (i : io) (fresh : option keys) (k : KeyState) :=
  match mode with
  | StorePersistent => get_persistent_kem_keypair i fresh k
  | StoreEphemeral => get_ephemeral_kem_keypair fresh k
  end.

Definition generate_fresh_keypair (t : KeypairType) (fresh : option keys) : result KeypairError keys :=
  match t with
  | Signing => ok_or (GenerationFailed "signing keypair") fresh
  | KemKeys => ok_or (GenerationFailed "KEM keypair") fresh
  end.

Definition default_storage_mode (k : KeyState) : StorageMode :=
  match signing_mode (ks_config k) with
  | Ephemeral => StoreEphemeral
  | Persistent => StorePersistent
  end.

Definition get_default_signing_keypair (i : io) (fresh : option keys) (k : KeyState) :=
  get_signing_keypair (default_storage_mode k) i fresh k.

Definition get_default_kem_keypair (i : io) (fresh : option keys) (k : KeyState) :=
  get_kem_keypair (default_storage_mode k) i fresh k.

Definition clear_ephemeral_caches (k : KeyState) : KeyState := set_manager_caches None None k.

Record KeypairInfo := {
  keypair_type : KeypairType;
  storage_mode : StorageMode;
  public_key_len : nat;
  private_key_len : nat;
}.

Definition get_keypair_info (t : KeypairType) (mode : StorageMode) (i : io) (fresh : option keys)
    (k : KeyState) : result KeypairError KeypairInfo * KeyState :=
  let '(r, k) := match t with
                 | Signing => get_signing_keypair mode i fresh k
                 | KemKeys => get_kem_keypair mode i fresh k
                 end in
  (let? (pub_bytes, priv_bytes) := r in
   Ok {| keypair_type := t; storage_mode := mode; public_key_len := length pub_bytes;
         private_key_len := length priv_bytes |}, k).

Section operations.
Context `{Crypto, Kem}.

Definition sign_with_keypair (data : list byte) (mode : StorageMode) (i : io) (fresh : option keys)
    (k : KeyState) : result KeypairError (string * string) * KeyState :=
  let '(r, k) := get_signing_keypair mode i fresh k in
  (let? (pub_bytes, priv_bytes) := r in
   map_err (λ e, GenerationFailed ("signing operation: " +:+ e)) (sign_envelope priv_bytes pub_bytes data), k).

Definition verify_signature (pub_bytes data sig_bytes : list byte) : result KeypairError bool :=
  match verify_envelope pub_bytes data sig_bytes with Ok _ => Ok true | Err _ => Ok false end.

Definition manager_encapsulate_to_pubkey (seed pub_bytes : list byte) : result KeypairError keys :=
  map_err (λ e, GenerationFailed ("KEM encapsulation: " +:+ e)) (encapsulate_to_pubkey seed pub_bytes).

Definition decapsulate_with_keypair (ciphertext : list byte) (mode : StorageMode) (i : io)
    (fresh : option keys) (k : KeyState) : result KeypairError (list byte) * KeyState :=
  let '(r, k) := get_kem_keypair mode i fresh k in
  (let? (_, priv_bytes) := r in
   map_err (λ e, GenerationFailed ("KEM decapsulation: " +:+ e)) (decapsulate_share priv_bytes ciphertext), k).

Definition sign_with_default_keypair (data : list byte) (i : io) (fresh : option keys) (k : KeyState) :=
  sign_with_keypair data (default_storage_mode k) i fresh k.

Definition decapsulate_with_default_keypair (ciphertext : list byte) (i : io) (fresh : option keys)
    (k : KeyState) :=
  decapsulate_with_keypair ciphertext (default_storage_mode k) i fresh k.

(** [ensure_keypair_ephemeral_cached] of [lib.rs] *)
Definition ensure_keypair_ephemeral_cached (fresh : option keys) (k : KeyState) :
    result string keys * KeyState :=
  let '(r, k) := get_ephemeral_signing_keypair fresh k in
  (map_err (λ e, "ephemeral cached keypair: " +:+ keypair_error_text e) r, k).

End operations.

(** ** Lemmas *)

Lemma path_inj (a b d : string) : a +:+ "/" +:+ b = a +:+ "/" +:+ d → b = d.
Proof. intros Heq%(inj (String.append a)). by apply (inj (String.append "/")) in Heq. Qed.

(** The two files of a directory, when both are there, are the pair. *)
Lemma keypair_in_files_found i fresh f1 f2 k dir p :
  resolve_key_dir k = Ok dir → io_dir i = true → io_read i = true →
  files k !! (dir +:+ "/" +:+ f1) = Some p.1 → files k !! (dir +:+ "/" +:+ f2) = Some p.2 →
  keypair_in_files i fresh f1 f2 k = (Ok p, k).
Proof.
  destruct p as [a b]. intros Hd Hi Hr H1 H2. unfold keypair_in_files. rewrite Hd, Hi. cbn [negb].
  simpl in H1, H2. by rewrite H1, H2, Hr.
Qed.

(** A pair that is returned is in the two files afterwards, and nothing else
    of the state changes. *)
Lemma keypair_in_files_ok i fresh f1 f2 k p k' :
  f1 ≠ f2 → keypair_in_files i fresh f1 f2 k = (Ok p, k') →
  ∃ dir, resolve_key_dir k = Ok dir ∧ resolve_key_dir k' = Ok dir ∧ io_dir i = true ∧
    files k' !! (dir +:+ "/" +:+ f1) = Some p.1 ∧ files k' !! (dir +:+ "/" +:+ f2) = Some p.2 ∧
    k' = set_files (files k') k.
Proof.
  intros Hne. unfold keypair_in_files. destruct (resolve_key_dir k) as [dir|] eqn:Ed; [|done].
  destruct (io_dir i) eqn:Ei; [|done]. cbn [negb].
  assert (dir +:+ "/" +:+ f2 ≠ dir +:+ "/" +:+ f1) as Hpaths by (intros Heq%path_inj; congruence).
  destruct (files k !! _) as [pubb|] eqn:E1; [destruct (files k !! (dir +:+ "/" +:+ f2)) as [privb|] eqn:E2|].
  1: { destruct (io_read i); [|done]. intros [= <- <-]. exists dir. split_and!; try done. by destruct k. }
  all: destruct fresh as [[a b]|]; [|done]; destruct (io_write_pub i); try done; cbn [negb wrote];
    destruct (io_write_priv i); try done; cbn [negb wrote]; destruct (io_chmod i); [|done]; cbn [negb];
    intros [= <- <-]; exists dir; split_and!; try done; simpl;
    [rewrite lookup_insert_ne by done; by rewrite lookup_insert_eq|by rewrite lookup_insert_eq].
Qed.

(** A pair that was returned is found again, whatever is generated then. *)
Lemma keypair_in_files_stable i fresh i' fresh' f1 f2 k p k' :
  f1 ≠ f2 → io_dir i' = true → io_read i' = true → keypair_in_files i fresh f1 f2 k = (Ok p, k') →
  keypair_in_files i' fresh' f1 f2 k' = (Ok p, k').
Proof.
  intros Hne Hi Hr (dir & _ & Hd & _ & H1 & H2 & _)%keypair_in_files_ok; [|done].
  by eapply keypair_in_files_found.
Qed.

Lemma keypair_in_files_config i fresh f1 f2 k r k' :
  keypair_in_files i fresh f1 f2 k = (r, k') → ks_config k' = ks_config k.
Proof. unfold keypair_in_files. repeat case_match; by intros [= _ <-]. Qed.

(** ** Properties *)

(** the node's keys are stable: once a signing (or KEM) pair has been
    obtained, every later call with the same configuration returns the same pair
    and generates nothing, as long as the key directory stays usable and its
    files readable. *)
Theorem node_keys_stable i fresh i' fresh' k p k' :
  io_dir i' = true → io_read i' = true →
  (ensure_keypair_on_disk i fresh k = (Ok p, k') →
   ensure_keypair_on_disk i' fresh' k' = (Ok p, k')) ∧
  (ensure_kem_keypair_on_disk i fresh k = (Ok p, k') →
   ensure_kem_keypair_on_disk i' fresh' k' = (Ok p, k')).
Proof.
  intros Hi Hrd.
  split; intros Hr.
  - unfold ensure_keypair_on_disk in *. destruct (signing_mode (ks_config k)) eqn:Em.
    + rewrite (keypair_in_files_config _ _ _ _ _ _ _ Hr), Em. by eapply keypair_in_files_stable.
    + unfold keypair_in_cell in Hr. destruct (EPHEMERAL_SIGNING k) eqn:Ec; simplify_eq.
      * rewrite Em. unfold keypair_in_cell. by rewrite Ec.
      * destruct fresh; simplify_eq. simpl. by rewrite Em.
  - unfold ensure_kem_keypair_on_disk in *. destruct (kem_mode (ks_config k)) eqn:Em.
    + rewrite (keypair_in_files_config _ _ _ _ _ _ _ Hr), Em. by eapply keypair_in_files_stable.
    + unfold keypair_in_cell in Hr. destruct (EPHEMERAL_KEM k) eqn:Ec; simplify_eq.
      * rewrite Em. unfold keypair_in_cell. by rewrite Ec.
      * destruct fresh; simplify_eq. simpl. by rewrite Em.
Qed.

(** In ephemeral mode the key that signs the node's envelopes and the key the
    manager calls the default one come from two caches: they are the pairs
    generated by two separate calls. *)
Lemma ephemeral_keys_differ i k p q :
  signing_mode (ks_config k) = Ephemeral → EPHEMERAL_SIGNING k = None →
  EPHEMERAL_SIGNING_KEYPAIR k = None →
  let '(r1, k1) := ensure_keypair_on_disk i (Some p) k in
  let '(r2, _) := get_default_signing_keypair i (Some q) k1 in
  r1 = Ok p ∧ r2 = Ok q.
Proof.
  intros Hm H1 H2. unfold ensure_keypair_on_disk, keypair_in_cell. rewrite Hm, H1.
  unfold get_default_signing_keypair, default_storage_mode, get_signing_keypair,
    get_ephemeral_signing_keypair. simpl. by rewrite Hm, H2.
Qed.

(** A write of the private key that breaks off after [n] bytes makes the call
    fail, and every later one return the truncated key. *)
Lemma interrupted_key_is_loaded i i' fresh' k dir pk sk n :
  signing_mode (ks_config k) = Persistent → resolve_key_dir k = Ok dir → io_dir i = true →
  files k !! (dir +:+ "/" +:+ PUBKEY_FILE) = None →
  io_write_pub i = Written → io_write_priv i = Interrupted n → io_dir i' = true → io_read i' = true →
  let '(r, k1) := ensure_keypair_on_disk i (Some (pk, sk)) k in
  is_ok r = false ∧ ensure_keypair_on_disk i' fresh' k1 = (Ok (pk, take n sk), k1).
Proof.
  intros Hm Hd Hi Hf Hw1 Hw2 Hi' Hr'. unfold ensure_keypair_on_disk at 1. rewrite Hm.
  unfold keypair_in_files at 1. rewrite Hd, Hi, Hf, Hw1, Hw2. simpl. split; [done|].
  unfold ensure_keypair_on_disk. simpl. rewrite Hm.
  apply keypair_in_files_found with (dir := dir); simpl; try done.
  - rewrite lookup_insert_ne by (by intros ?%path_inj). by rewrite lookup_insert_eq.
  - by rewrite lookup_insert_eq.
Qed.

(** ** Concrete runs *)

Definition demo_keystate : KeyState :=
  {| ks_config := KeypairConfig_default; home_dir := Some "/root"; files := ∅;
     EPHEMERAL_SIGNING := None; EPHEMERAL_KEM := None; EPHEMERAL_SIGNING_KEYPAIR := None;
     EPHEMERAL_KEM_KEYPAIR := None |}.

Definition demo_io : io :=
  {| io_dir := true; io_read := true; io_write_pub := Written; io_write_priv := Written; io_chmod := true |}.

Lemma node_keys_stable_witness :
  let k' := (ensure_keypair_on_disk demo_io (Some ([x01], [x02])) demo_keystate).2 in
  ensure_keypair_on_disk demo_io (Some ([x03], [x04])) k' = (Ok ([x01], [x02]), k').
Proof.
  apply (node_keys_stable demo_io (Some ([x01], [x02])) demo_io (Some ([x03], [x04])) demo_keystate);
    reflexivity.
Defined.
