(* ===== verification/Provider.v ===== *)
(** * Provider announcements ([machine/src/provider/mod.rs])

    The provider manager: the manifests this node hosts, the providers of
    other manifests it has heard of, and the discovery queries that wait for
    an answer. A channel is a number; an [async] operation is split at its
    [await], and the steps of concurrent tasks interleave in [step]. *)

From S2P Require Import Prelude Constants Libp2p Concrete.

Inductive ProviderError :=
| DhtError (m : string)
| NetworkError (m : string)
| ProviderNotFound (m : string)
| Timeout.

Record ProviderConfig := {
  default_ttl_seconds : Z;
  reannounce_interval_seconds : Z;
  cleanup_interval_seconds : Z;
  max_providers_per_manifest : nat;
  discovery_timeout_seconds : Z;
}.

Definition ProviderConfig_default : ProviderConfig :=
  {| default_ttl_seconds := 3600; reannounce_interval_seconds := 1800;
     cleanup_interval_seconds := 300; max_providers_per_manifest := 50;
     discovery_timeout_seconds := 30 |}.

(** [SystemTime::elapsed]: an error when the instant is in the future. *)
Definition elapsed (now t : Z) : option Z := if decide (t ≤ now) then Some (now - t) else None.

Definition as_secs (d : Z) : Z := d / 1000000000.

Section manager.
Context `{PeerIds}.

Record ProviderInfo := {
  pi_peer_id : PeerId;
  pi_manifest_id : string;
  pi_announced_at : Z;
  pi_last_seen : Z;
  pi_ttl_seconds : Z;
  pi_metadata : gmap string string;
}.

Definition is_expired (now : Z) (p : ProviderInfo) : bool :=
  match elapsed now (pi_announced_at p) with
  | Some e => bool_decide (pi_ttl_seconds p < as_secs e)
  | None => true
  end.

Definition update_last_seen (now : Z) (p : ProviderInfo) : ProviderInfo :=
  {| pi_peer_id := pi_peer_id p; pi_manifest_id := pi_manifest_id p;
     pi_announced_at := pi_announced_at p; pi_last_seen := now;
     pi_ttl_seconds := pi_ttl_seconds p; pi_metadata := pi_metadata p |}.

Record ProviderManager := {
  local_providers : gmap string ProviderInfo;
  remote_providers : gmap string (list ProviderInfo);
  pending_queries : gmap string (list nat);
  config : ProviderConfig;
}.

Definition set_local l (m : ProviderManager) : ProviderManager :=
  {| local_providers := l; remote_providers := remote_providers m;
     pending_queries := pending_queries m; config := config m |}.
Definition set_remote r (m : ProviderManager) : ProviderManager :=
  {| local_providers := local_providers m; remote_providers := r;
     pending_queries := pending_queries m; config := config m |}.
Definition set_pending q (m : ProviderManager) : ProviderManager :=
  {| local_providers := local_providers m; remote_providers := remote_providers m;
     pending_queries := q; config := config m |}.

Definition ProviderManager_new (c : ProviderConfig) : ProviderManager :=
  {| local_providers := ∅; remote_providers := ∅; pending_queries := ∅; config := c |}.

Definition new_default : ProviderManager := ProviderManager_new ProviderConfig_default.

Definition provider_key (manifest_id : string) : string := "provider:" +:+ manifest_id.

Definition announce_via_dht `{!Kademlia} (manifest_id : string) (swarm : kad) :
    result ProviderError () * kad :=
  let '(r, swarm) := start_providing (provider_key manifest_id) swarm in
  (map_err (λ e, DhtError ("Failed to start providing: " +:+ e)) r, swarm).

Definition announce_provider `{!Kademlia} (now : Z) (manifest_id : string)
    (metadata : gmap string string) (mgr : ProviderManager) (swarm : kad) :
    result ProviderError () * ProviderManager * kad :=
  let provider_info :=
    {| pi_peer_id := local_peer_id swarm; pi_manifest_id := manifest_id;
       pi_announced_at := now; pi_last_seen := now;
       pi_ttl_seconds := default_ttl_seconds (config mgr); pi_metadata := metadata |} in
  let mgr := set_local (<[manifest_id := provider_info]> (local_providers mgr)) mgr in
  let '(r, swarm) := announce_via_dht manifest_id swarm in
  (r, mgr, swarm).

Definition stop_providing (manifest_id : string) (mgr : ProviderManager) :
    result ProviderError () * ProviderManager :=
  match local_providers mgr !! manifest_id with
  | Some _ => (Ok (), set_local (delete manifest_id (local_providers mgr)) mgr)
  | None => (Err (ProviderNotFound manifest_id), mgr)
  end.

Definition get_local_providers (mgr : ProviderManager) : list ProviderInfo :=
  (map_to_list (local_providers mgr)).*2.

Definition get_providers_for_manifest (manifest_id : string) (mgr : ProviderManager) :
    list ProviderInfo :=
  default [] (remote_providers mgr !! manifest_id).

(** The providers a cached entry still offers. *)
Definition valid_providers (now : Z) (l : list ProviderInfo) : list ProviderInfo :=
  filter (λ p, is_expired now p = false) l.

Definition cleanup_expired_providers (now : Z) (mgr : ProviderManager) : ProviderManager :=
  set_remote
    (filter (λ kl, kl.2 ≠ []) (valid_providers now <$> remote_providers mgr)) mgr.

(** One tick of the timer of [start_background_tasks], which repeats the same
    removal on the shared map. *)
Definition background_cleanup (now : Z) (mgr : ProviderManager) : ProviderManager :=
  cleanup_expired_providers now mgr.

Fixpoint announce_all `{!Kademlia} (ids : list string) (swarm : kad) : kad :=
  match ids with
  | [] => swarm
  | id :: ids' => announce_all ids' (announce_via_dht id swarm).2
  end.

Definition reannounce_local_providers `{!Kademlia} (mgr : ProviderManager) (swarm : kad) : kad :=
  announce_all (map_to_list (local_providers mgr)).*1 swarm.

(** [min_by_key(last_seen)]: the first of the least recently seen, with its time. *)
Fixpoint oldest_idx (l : list ProviderInfo) : option (nat * Z) :=
  match l with
  | [] => None
  | p :: l' =>
      match oldest_idx l' with
      | Some (i, t) => if decide (t < pi_last_seen p) then Some (S i, t)
                       else Some (0%nat, pi_last_seen p)
      | None => Some (0%nat, pi_last_seen p)
      end
  end.

(** [find] the entry of a peer and refresh it in place. *)
Fixpoint refresh_existing (now : Z) (peer : PeerId) (l : list ProviderInfo) :
    option (list ProviderInfo) :=
  match l with
  | [] => None
  | p :: l' => if decide (pi_peer_id p = peer) then Some (update_last_seen now p :: l')
               else cons p <$> refresh_existing now peer l'
  end.

Definition evict_oldest (max : nat) (l : list ProviderInfo) : list ProviderInfo :=
  if decide (max ≤ length l)%nat then
    match oldest_idx l with Some (i, _) => delete i l | None => l end
  else l.

(** The new list of providers of a manifest when [info] is found. *)
Definition add_provider (now : Z) (max : nat) (info : ProviderInfo) (l : list ProviderInfo) :
    list ProviderInfo :=
  match refresh_existing now (pi_peer_id info) l with
  | Some l' => l'
  | None => evict_oldest max l ++ [info]
  end.

(** The two critical sections of [handle_provider_found]: the provider goes into
    the cache, then the channels that wait are removed and sent the list cached
    at that time. Other tasks may run in between. *)
Definition record_provider (now : Z) (manifest_id : string) (provider_peer : PeerId)
    (mgr : ProviderManager) : ProviderManager :=
  let provider_info :=
    {| pi_peer_id := provider_peer; pi_manifest_id := manifest_id; pi_announced_at := now;
       pi_last_seen := now; pi_ttl_seconds := default_ttl_seconds (config mgr);
       pi_metadata := ∅ |} in
  let providers := default [] (remote_providers mgr !! manifest_id) in
  let providers := add_provider now (max_providers_per_manifest (config mgr)) provider_info providers in
  set_remote (<[manifest_id := providers]> (remote_providers mgr)) mgr.

Definition notify_waiters (manifest_id : string) (mgr : ProviderManager) :
    ProviderManager * list (nat * list ProviderInfo) :=
  match pending_queries mgr !! manifest_id with
  | Some senders =>
      let mgr := set_pending (delete manifest_id (pending_queries mgr)) mgr in
      let providers := get_providers_for_manifest manifest_id mgr in
      (mgr, (λ s, (s, providers)) <$> senders)
  | None => (mgr, [])
  end.

(** The whole call, run without interruption: the new manager, and what is sent
    to the channels that waited. *)
Definition handle_provider_found (now : Z) (manifest_id : string) (provider_peer : PeerId)
    (mgr : ProviderManager) : ProviderManager * list (nat * list ProviderInfo) :=
  notify_waiters manifest_id (record_provider now manifest_id provider_peer mgr).

(** [query_dht_providers] up to its [await]: the sender [tx] is registered and
    the query started. *)
Definition query_dht_providers_start `{!Kademlia} (manifest_id : string) (tx : nat)
    (mgr : ProviderManager) (swarm : kad) : ProviderManager * kad :=
  (set_pending (<[manifest_id := default [] (pending_queries mgr !! manifest_id) ++ [tx]]>
      (pending_queries mgr)) mgr,
   get_providers (provider_key manifest_id) swarm).

(** What the timed receive comes back with, and the rest of the query. *)
Inductive received :=
| Providers (l : list ProviderInfo)
| ChannelClosed
| TimedOut.

Definition query_dht_providers_finish (manifest_id : string) (r : received)
    (mgr : ProviderManager) : result ProviderError (list ProviderInfo) * ProviderManager :=
  match r with
  | Providers l => (Ok l, set_remote (<[manifest_id := l]> (remote_providers mgr)) mgr)
  | ChannelClosed => (Ok [], mgr)
  | TimedOut => (Err Timeout, mgr)
  end.

(** [discover_providers] up to its [await]: an answer from the cache, or a
    started query. *)
Definition discover_providers_start `{!Kademlia} (now : Z) (manifest_id : string) (tx : nat)
    (mgr : ProviderManager) (swarm : kad) :
    option (list ProviderInfo) * (ProviderManager * kad) :=
  match remote_providers mgr !! manifest_id with
  | Some providers =>
      match valid_providers now providers with
      | [] => (None, query_dht_providers_start manifest_id tx mgr swarm)
      | valid => (Some valid, (mgr, swarm))
      end
  | None => (None, query_dht_providers_start manifest_id tx mgr swarm)
  end.

Record ProviderStats := {
  stat_local_providers : nat;
  stat_remote_manifests : nat;
  stat_total_remote_providers : Z;
  stat_pending_queries : nat;
}.

Definition get_stats (mgr : ProviderManager) : ProviderStats :=
  {| stat_local_providers := size (local_providers mgr);
     stat_remote_manifests := size (remote_providers mgr);
     stat_total_remote_providers := map_sum (λ l, Z.of_nat (length l)) (remote_providers mgr);
     stat_pending_queries := size (pending_queries mgr) |}.

End manager.

(** ** Tasks and channels

    The manager shared by concurrent tasks: [waiting] are the channels whose
    receiver a discovery query still holds, with the manifest it asked for and
    the messages it has not read. Sending to a dropped receiver does nothing. *)

Section system.
Context `{PeerIds, !Kademlia}.

Record sys := {
  mgr : ProviderManager;
  swarm : kad;
  waiting : gmap nat (string * list (list ProviderInfo));
  next_chan : nat;
}.

Definition deliver1 (m : nat * list ProviderInfo) (w : gmap nat (string * list (list ProviderInfo))) :=
  alter (λ '(id, q), (id, q ++ [m.2])) m.1 w.

Definition deliver (ms : list (nat * list ProviderInfo)) (w : gmap nat (string * list (list ProviderInfo))) :=
  foldl (λ w m, deliver1 m w) w ms.

Definition sys_init (c : ProviderConfig) (k : kad) : sys :=
  {| mgr := ProviderManager_new c; swarm := k; waiting := ∅; next_chan := 0 |}.

Definition sys_found (now : Z) (id : string) (peer : PeerId) (s : sys) : sys :=
  let '(m, msgs) := handle_provider_found now id peer (mgr s) in
  {| mgr := m; swarm := swarm s; waiting := deliver msgs (waiting s); next_chan := next_chan s |}.

Definition with_mgr (m : ProviderManager) (s : sys) : sys :=
  {| mgr := m; swarm := swarm s; waiting := waiting s; next_chan := next_chan s |}.

(** Its two halves. *)
Definition sys_record (now : Z) (id : string) (peer : PeerId) (s : sys) : sys :=
  with_mgr (record_provider now id peer (mgr s)) s.

Definition sys_notify (id : string) (s : sys) : sys :=
  let '(m, msgs) := notify_waiters id (mgr s) in
  {| mgr := m; swarm := swarm s; waiting := deliver msgs (waiting s); next_chan := next_chan s |}.

(** A discovery: the receiver is held only when the query was started. *)
Definition sys_discover (now : Z) (id : string) (s : sys) : sys :=
  let '(r, (m, k)) := discover_providers_start now id (next_chan s) (mgr s) (swarm s) in
  {| mgr := m; swarm := k;
     waiting := match r with None => <[next_chan s := (id, [])]> (waiting s) | Some _ => waiting s end;
     next_chan := S (next_chan s) |}.

(** The query of channel [c] resumes and drops its receiver. *)
Definition sys_resume (c : nat) (id : string) (r : received) (s : sys) : sys :=
  {| mgr := (query_dht_providers_finish id r (mgr s)).2; swarm := swarm s;
     waiting := delete c (waiting s); next_chan := next_chan s |}.

(** One critical section per step: a found provider is recorded in one step and
    the waiting queries are answered in another, with anything in between. *)
Inductive step : sys → sys → Prop :=
| step_announce now id md s r m k :
    announce_provider now id md (mgr s) (swarm s) = (r, m, k) →
    step s {| mgr := m; swarm := k; waiting := waiting s; next_chan := next_chan s |}
| step_reannounce s :
    step s {| mgr := mgr s; swarm := reannounce_local_providers (mgr s) (swarm s);
              waiting := waiting s; next_chan := next_chan s |}
| step_stop id s : step s (with_mgr (stop_providing id (mgr s)).2 s)
| step_cleanup now s : step s (with_mgr (cleanup_expired_providers now (mgr s)) s)
| step_record now id peer s : step s (sys_record now id peer s)
| step_notify id s : step s (sys_notify id s)
| step_discover now id s : step s (sys_discover now id s)
| step_receive c id l q s :
    waiting s !! c = Some (id, l :: q) → step s (sys_resume c id (Providers l) s)
| step_closed c id s :
    waiting s !! c = Some (id, []) →
    (∀ m ss, pending_queries (mgr s) !! m = Some ss → c ∉ ss) →
    step s (sys_resume c id ChannelClosed s)
| step_timeout c id q s :
    waiting s !! c = Some (id, q) → step s (sys_resume c id TimedOut s).

Inductive reachable (c : ProviderConfig) (k : kad) : sys → Prop :=
| reach_init : reachable c k (sys_init c k)
| reach_step s s' : reachable c k s → step s s' → reachable c k s'.

End system.

(** ** Lemmas on the provider lists *)

Section list_lemmas.
Context `{PeerIds}.

(** A list of providers of manifest [id] that respects the bound. *)
Definition wf_list (c : ProviderConfig) (id : string) (l : list ProviderInfo) : Prop :=
  (length l ≤ Nat.max 1 (max_providers_per_manifest c))%nat ∧ NoDup (pi_peer_id <$> l) ∧
  Forall (λ p, pi_manifest_id p = id) l.

Lemma oldest_idx_spec l i t :
  oldest_idx l = Some (i, t) →
  ∃ p, l !! i = Some p ∧ pi_last_seen p = t ∧ ∀ q, q ∈ l → t ≤ pi_last_seen q.
Proof.
  revert i t. induction l as [|p l IH]; intros i t; simpl; [done|].
  destruct (oldest_idx l) as [[j u]|] eqn:E; [case_decide|]; intros [= <- <-].
  - destruct (IH _ _ eq_refl) as (q & ? & ? & Hmin). exists q. split_and!; [done..|].
    intros q' [->|?]%elem_of_cons; [lia|by apply Hmin].
  - destruct (IH _ _ eq_refl) as (q & ? & ? & Hmin). exists p. split_and!; [done..|].
    intros q' [->|Hq]%elem_of_cons; [lia|]. specialize (Hmin q' Hq). lia.
  - exists p. split_and!; [done..|]. destruct l; [set_solver|]. simpl in E. by repeat case_match.
Qed.

Lemma refresh_existing_spec now peer l :
  match refresh_existing now peer l with
  | Some l' => pi_peer_id <$> l' = pi_peer_id <$> l ∧ pi_manifest_id <$> l' = pi_manifest_id <$> l ∧
               peer ∈ (pi_peer_id <$> l) ∧
               ∀ p, p ∈ l → pi_peer_id p ≠ peer → p ∈ l'
  | None => peer ∉ (pi_peer_id <$> l)
  end.
Proof.
  induction l as [|p l IH]; csimpl; [set_solver|]. case_decide as Hp.
  - csimpl. split_and!; [done|done|set_solver|]. intros q [->|?]%elem_of_cons ?; [done|set_solver].
  - destruct (refresh_existing now peer l) as [l'|]; csimpl; [|set_solver].
    destruct IH as (-> & -> & ? & Hk). split_and!; [done|done|set_solver|].
    intros q [->|?]%elem_of_cons ?; [set_solver|]. apply elem_of_cons. eauto.
Qed.

Lemma oldest_idx_some p l : is_Some (oldest_idx (p :: l)).
Proof. simpl. repeat case_match; eauto. Qed.

Lemma evict_oldest_sub max l : sublist (evict_oldest max l) l.
Proof. unfold evict_oldest. repeat case_match; try done. apply sublist_delete. Qed.

(** There is room for one more after the eviction. *)
Lemma evict_oldest_length max l :
  (length l ≤ Nat.max 1 max → length (evict_oldest max l) < Nat.max 1 max)%nat.
Proof.
  intros Hl. unfold evict_oldest. case_decide; [|lia]. destruct l as [|p l]; [simpl; lia|].
  destruct (oldest_idx_some p l) as [[i t] E]. rewrite E.
  destruct (oldest_idx_spec _ _ _ E) as (q & Hq & _).
  rewrite length_delete by done. simpl in *. lia.
Qed.

(** Who leaves: at most the first least recently seen entry. *)
Lemma evict_oldest_keeps max l p :
  p ∈ l → p ∈ evict_oldest max l ∨ ((max ≤ length l)%nat ∧ ∀ q, q ∈ l → pi_last_seen p ≤ pi_last_seen q).
Proof.
  intros Hp. unfold evict_oldest. case_decide; [|by left].
  destruct (oldest_idx l) as [[i t]|] eqn:E; [|by left].
  destruct (oldest_idx_spec _ _ _ E) as (o & Ho & <- & Hmin).
  apply list_elem_of_lookup in Hp as [j Hj]. destruct (decide (i = j)) as [->|Hne].
  - right. split; [done|]. simplify_eq. done.
  - left. apply list_elem_of_lookup. destruct (decide (j < i)%nat).
    + exists j. by rewrite list_lookup_delete_lt.
    + exists (pred j). rewrite list_lookup_delete_ge by lia. by replace (S (pred j)) with j by lia.
Qed.

Lemma wf_list_add c now id info l :
  pi_manifest_id info = id → wf_list c id l →
  wf_list c id (add_provider now (max_providers_per_manifest c) info l).
Proof.
  intros Hid (Hlen & Hnd & Hf). unfold add_provider.
  pose proof (refresh_existing_spec now (pi_peer_id info) l) as Hr.
  destruct (refresh_existing _ _ _) as [l'|].
  - destruct Hr as (Hp & Hm & _). assert (length l' = length l) as Hlen'.
    { apply (f_equal length) in Hp. by rewrite !length_fmap in Hp. }
    split_and!; [lia|by rewrite Hp|].
    rewrite <- (Forall_fmap pi_manifest_id (λ x, x = id)) in Hf.
    apply (Forall_fmap pi_manifest_id (λ x, x = id)). by rewrite Hm.
  - pose proof (evict_oldest_sub (max_providers_per_manifest c) l) as Hs. split_and!.
    + rewrite length_app. pose proof (evict_oldest_length _ _ Hlen). simpl. lia.
    + rewrite fmap_app, NoDup_app. pose proof (sublist_map pi_peer_id _ _ Hs) as Hs'.
      split_and!; [by eapply sublist_NoDup| |apply NoDup_singleton].
      intros x Hx ->%list_elem_of_singleton. apply Hr. by eapply elem_of_sublist.
    + rewrite Forall_app. split; [|by constructor]. by eapply sublist_Forall.
Qed.

Lemma wf_list_filter c id now l : wf_list c id l → wf_list c id (valid_providers now l).
Proof.
  intros (Hlen & Hnd & Hf). unfold valid_providers. split_and!.
  - pose proof (sublist_length _ _ (sublist_filter (λ p, is_expired now p = false) l)). lia.
  - eapply sublist_NoDup; [done|apply sublist_map, sublist_filter].
  - eapply sublist_Forall; [apply sublist_filter|done].
Qed.

End list_lemmas.

(** ** The invariant of the running manager *)

Section invariant.
Context `{PeerIds, !Kademlia}.

Record wf (c : ProviderConfig) (s : sys) : Prop := {
  wf_config : config (mgr s) = c;
  wf_remote : ∀ id l, remote_providers (mgr s) !! id = Some l → wf_list c id l;
  wf_messages : ∀ ch id q, waiting s !! ch = Some (id, q) → Forall (wf_list c id) q;
  (** A query that has no answer yet is still registered. *)
  wf_registered : ∀ ch id, waiting s !! ch = Some (id, []) →
    ch ∈ default [] (pending_queries (mgr s) !! id);
  wf_once : ∀ id, NoDup (default [] (pending_queries (mgr s) !! id));
  wf_unanswered : ∀ ch id id' q, ch ∈ default [] (pending_queries (mgr s) !! id) →
    waiting s !! ch = Some (id', q) → id' = id ∧ q = [];
  wf_fresh : ∀ ch, (∃ id, ch ∈ default [] (pending_queries (mgr s) !! id)) ∨ is_Some (waiting s !! ch) →
    (ch < next_chan s)%nat;
}.

(** Sending the same answer to distinct channels. *)
Lemma lookup_deliver ss l w ch :
  NoDup ss →
  deliver ((λ s, (s, l)) <$> ss) w !! ch =
  if decide (ch ∈ ss) then (λ '(id, q), (id, q ++ [l])) <$> w !! ch else w !! ch.
Proof.
  unfold deliver. revert w. induction ss as [|s ss IH]; intros w Hnd.
  { by rewrite decide_False by set_solver. }
  csimpl.
  apply NoDup_cons in Hnd as [Hs Hnd]. rewrite IH by done. unfold deliver1. csimpl.
  destruct (decide (ch = s)) as [->|Hne].
  - rewrite decide_False, decide_True by set_solver. apply lookup_alter_eq.
  - rewrite lookup_alter_ne by done. repeat case_decide; set_solver.
Qed.

Lemma wf_with_mgr c s m :
  wf c s → config m = config (mgr s) → pending_queries m = pending_queries (mgr s) →
  (∀ id l, remote_providers m !! id = Some l → wf_list c id l) → wf c (with_mgr m s).
Proof. intros [] Hc Hp Hr. split; simpl; rewrite ?Hp; try done. congruence. Qed.

Lemma wf_cached c s id : wf c s → wf_list c id (get_providers_for_manifest id (mgr s)).
Proof.
  intros Hwf. unfold get_providers_for_manifest. destruct (remote_providers (mgr s) !! id) as [l|] eqn:E.
  - by eapply wf_remote.
  - split_and!; simpl; [lia|constructor|constructor].
Qed.

Lemma wf_record c s now id peer : wf c s → wf c (sys_record now id peer s).
Proof.
  intros Hwf. apply wf_with_mgr; [done..|]. simpl. intros id' l' [[<- <-]|[? ?]]%lookup_insert_Some.
  - rewrite (wf_config _ _ Hwf). apply wf_list_add; [done|by apply wf_cached].
  - by eapply wf_remote.
Qed.

Lemma wf_notify c s id : wf c s → wf c (sys_notify id s).
Proof.
  intros Hwf. pose proof (wf_cached _ _ id Hwf) as Hl. destruct Hwf as [Hc Hr Hm Hreg Honce Hun Hf].
  unfold sys_notify, notify_waiters. cbv zeta.
  destruct (pending_queries _ !! id) as [ss|] eqn:E; simpl in E; [|by split; simpl].
  pose proof (Honce id) as Hss. rewrite E in Hss. simpl in Hss.
  change (get_providers_for_manifest id (set_pending _ (mgr s))) with (get_providers_for_manifest id (mgr s)).
  assert (∀ id', default [] (delete id (pending_queries (mgr s)) !! id') =
    if decide (id' = id) then [] else default [] (pending_queries (mgr s) !! id')) as Hdel.
  { intros id'. case_decide; subst; by simplify_map_eq. }
  split; simpl; [done|done| | | | |].
  - intros ch id' q. rewrite lookup_deliver by done. case_decide as Hch; [|apply Hm].
    intros ([? q0] & Hw & [= -> ->])%fmap_Some_1. destruct (Hun ch id _ _ ltac:(by rewrite E) Hw) as [-> ->].
    by apply Forall_singleton.
  - intros ch id'. rewrite lookup_deliver by done. case_decide as Hch.
    { intros ([? q0] & Hw & [= _ Hq])%fmap_Some_1. by destruct q0. }
    intros Hw. rewrite Hdel. case_decide; [|by apply Hreg].
    subst id'. specialize (Hreg _ _ Hw). by rewrite E in Hreg.
  - intros id'. rewrite Hdel. case_decide; [constructor|apply Honce].
  - intros ch id1 id2 q. rewrite Hdel. case_decide as Hid; [set_solver|]. intros Hin.
    rewrite lookup_deliver by done. case_decide as Hch; [|by apply Hun].
    intros ([id3 q0] & Hw & _)%fmap_Some_1. destruct (Hun _ _ _ _ Hin Hw) as [-> _].
    destruct (Hun ch id _ _ ltac:(by rewrite E) Hw) as [-> _]. done.
  - intros ch [[id' Hin]|Hw]; apply Hf.
    + rewrite Hdel in Hin. case_decide; [set_solver|eauto].
    + right. rewrite lookup_deliver in Hw by done. case_decide; [|done]. by rewrite fmap_is_Some in Hw.
Qed.

Lemma wf_start c s id k :
  wf c s → wf c
    {| mgr := set_pending (<[id := default [] (pending_queries (mgr s) !! id) ++ [next_chan s]]>
                 (pending_queries (mgr s))) (mgr s);
       swarm := k; waiting := <[next_chan s := (id, [])]> (waiting s);
       next_chan := S (next_chan s) |}.
Proof.
  intros [Hc Hr Hm Hreg Honce Hun Hf].
  assert (∀ id', default [] (<[id := default [] (pending_queries (mgr s) !! id) ++ [next_chan s]]>
      (pending_queries (mgr s)) !! id') =
    default [] (pending_queries (mgr s) !! id') ++ if decide (id' = id) then [next_chan s] else []) as Hp.
  { intros id'. case_decide; simplify_map_eq; [done|by rewrite app_nil_r]. }
  assert (∀ id', next_chan s ∉ default [] (pending_queries (mgr s) !! id')) as Hnew.
  { intros id' Hin. specialize (Hf (next_chan s) ltac:(eauto)). lia. }
  split; simpl; [done|done| | | | |].
  - intros ch id' q [[<- [= <- <-]]|[? ?]]%lookup_insert_Some; [constructor|eauto].
  - intros ch id'. rewrite Hp. intros [[<- [= <-]]|[? ?]]%lookup_insert_Some.
    + rewrite decide_True by done. set_solver.
    + apply elem_of_app. eauto.
  - intros id'. rewrite Hp. apply NoDup_app. split_and!; [done| |case_decide; repeat constructor; set_solver].
    intros x Hx Hx'. case_decide; [|set_solver]. apply list_elem_of_singleton in Hx' as ->. by eapply Hnew.
  - intros ch id1 id2 q. rewrite Hp. intros Hin [[<- [= <- <-]]|[Hne Hw]]%lookup_insert_Some.
    + apply elem_of_app in Hin as [?|?]; [by exfalso; eapply Hnew|]. case_decide; [done|set_solver].
    + apply elem_of_app in Hin as [?|Hin]; [eauto|]. case_decide; [|set_solver].
      apply list_elem_of_singleton in Hin. done.
  - intros ch [[id' Hin]|Hw].
    + rewrite Hp in Hin. apply elem_of_app in Hin as [?|Hin]; [specialize (Hf ch ltac:(eauto)); lia|].
      case_decide; [apply list_elem_of_singleton in Hin; lia|set_solver].
    + destruct (decide (ch = next_chan s)) as [->|?]; [lia|].
      rewrite lookup_insert_ne in Hw by done. specialize (Hf ch ltac:(eauto)). lia.
Qed.

Lemma wf_resume c s ch id q r :
  wf c s → waiting s !! ch = Some (id, q) →
  match r with Providers l => wf_list c id l | _ => True end →
  wf c (sys_resume ch id r s).
Proof.
  intros [Hc Hr Hm Hreg Honce Hun Hf] Hw Hl.
  assert (pending_queries (query_dht_providers_finish id r (mgr s)).2 = pending_queries (mgr s)
    ∧ config (query_dht_providers_finish id r (mgr s)).2 = c) as [Hp Hc'] by by destruct r.
  split; simpl; rewrite ?Hp; [done| | | |done| |].
  - intros id' l. destruct r; simpl; [|apply Hr..].
    intros [[<- <-]|[? ?]]%lookup_insert_Some; eauto.
  - intros c' id' q' [_ ?]%lookup_delete_Some; eauto.
  - intros c' id' [_ ?]%lookup_delete_Some; eauto.
  - intros c' id1 id2 q' Hin [_ ?]%lookup_delete_Some; eauto.
  - intros c' [?|[? [_ ?]%lookup_delete_Some]]; apply Hf; eauto.
Qed.

Lemma step_wf c s s' : wf c s → step s s' → wf c s'.
Proof.
  intros Hwf Hst. destruct Hst as [now id md s r m k Ha|s|id s|now s|now id peer s|id s|now id s
    |ch id l q s Hw|ch id s Hw Hn|ch id q s Hw].
  - unfold announce_provider in Ha. destruct (announce_via_dht _ _). simplify_eq.
    by destruct Hwf; split.
  - by destruct Hwf; split.
  - apply wf_with_mgr; [done| | |]; unfold stop_providing; case_match; try done; apply Hwf.
  - apply wf_with_mgr; [done..|]. intros id l [(l0 & <- & Hl0)%lookup_fmap_Some _]%map_lookup_filter_Some.
    apply wf_list_filter. by eapply wf_remote.
  - by apply wf_record.
  - by apply wf_notify.
  - unfold sys_discover, discover_providers_start, query_dht_providers_start.
    repeat case_match; simplify_eq; try by apply wf_start.
    destruct Hwf as [? ? ? ? ? ? Hf]; split; simpl; try done.
    intros ch Hch. specialize (Hf ch Hch). lia.
  - eapply wf_resume; [done..|]. pose proof (wf_messages _ _ Hwf _ _ _ Hw) as Hq. by inversion Hq.
  - by eapply wf_resume.
  - by eapply wf_resume.
Qed.

Lemma reachable_wf c k s : reachable c k s → wf c s.
Proof.
  induction 1 as [|s s' _ IH Hst]; [|by eapply step_wf].
  split; simpl; try done; intros *; rewrite ?lookup_empty; simpl; try done; [constructor|].
  intros [[id Hin]|[? ?]]; [rewrite lookup_empty in Hin; set_solver|done].
Qed.

End invariant.

Lemma remote_after_found `{PeerIds} now id peer m :
  remote_providers (handle_provider_found now id peer m).1 =
  <[id := add_provider now (max_providers_per_manifest (config m))
            {| pi_peer_id := peer; pi_manifest_id := id; pi_announced_at := now;
               pi_last_seen := now; pi_ttl_seconds := default_ttl_seconds (config m);
               pi_metadata := ∅ |} (get_providers_for_manifest id m)]> (remote_providers m).
Proof. unfold handle_provider_found, notify_waiters. by case_match. Qed.

Section found.
Context `{PeerIds, !Kademlia}.

(** Every query on [id] that waits in [s] has the answer in [s'], the list both
    cache, and nothing else changed. *)
Definition answered (id : string) (s s' : sys) : Prop :=
  pending_queries (mgr s') !! id = None ∧
  get_providers_for_manifest id (mgr s') = get_providers_for_manifest id (mgr s) ∧
  (∀ ch, waiting s !! ch = Some (id, []) → waiting s' !! ch = Some (id, [get_providers_for_manifest id (mgr s)])) ∧
  (∀ ch id' q, id' ≠ id → waiting s !! ch = Some (id', q) → waiting s' !! ch = Some (id', q)).

Lemma notify_answers c s id : wf c s → answered id s (sys_notify id s).
Proof.
  intros Hwf. unfold answered, sys_notify, notify_waiters. cbv zeta.
  destruct (pending_queries (mgr s) !! id) as [ss|] eqn:E; simpl.
  - pose proof (wf_once _ _ Hwf id) as Hnd. rewrite E in Hnd. simpl in Hnd.
    split_and!; [by simplify_map_eq|done| |].
    + intros ch Hw. rewrite lookup_deliver by done.
      pose proof (wf_registered _ _ Hwf _ _ Hw) as Hch. rewrite E in Hch. simpl in Hch.
      by rewrite decide_True, Hw.
    + intros ch id' q Hne Hw. rewrite lookup_deliver by done. rewrite decide_False; [done|].
      intros Hch. by destruct (wf_unanswered _ _ Hwf ch id id' q ltac:(by rewrite E) Hw).
  - split_and!; [done..| |done]. intros ch Hw%(wf_registered _ _ Hwf). rewrite E in Hw. set_solver.
Qed.

Lemma record_names now id peer s :
  peer ∈ (pi_peer_id <$> get_providers_for_manifest id (mgr (sys_record now id peer s))).
Proof.
  unfold get_providers_for_manifest. simpl. rewrite lookup_insert_eq. simpl. unfold add_provider. simpl.
  pose proof (refresh_existing_spec now peer (default [] (remote_providers (mgr s) !! id))) as Hr.
  destruct (refresh_existing _ _ _); [by destruct Hr as (-> & _ & ? & _)|].
  rewrite fmap_app. set_solver.
Qed.

End found.

(** ** Properties *)

Section properties.
Context `{PeerIds, !Kademlia}.

(** C30: whatever the interleaving of announcements, discoveries, answers,
    timeouts and cleanups, the cached list of every manifest is bounded by
    [max_providers_per_manifest] (one provider at least), names no peer twice and
    holds providers of that manifest only; and a query without an answer is
    still registered, so its channel is never seen closed. *)
Theorem provider_reachable_invariant c k s :
  reachable c k s →
  (∀ id l, remote_providers (mgr s) !! id = Some l → wf_list c id l) ∧
  (∀ ch id, waiting s !! ch = Some (id, []) →
     ∃ senders, pending_queries (mgr s) !! id = Some senders ∧ ch ∈ senders).
Proof.
  intros Hwf%reachable_wf. split; [apply Hwf|]. intros ch id Hw%(wf_registered _ _ Hwf).
  destruct (pending_queries (mgr s) !! id) as [ss|]; simpl in Hw; [eauto|set_solver].
Qed.

(** C31: a provider found for a manifest answers every query that waits for
    it, once, with the list that names the provider; no query on it stays
    registered, and those on other manifests see nothing. When other tasks run
    between the two halves of the call, its second half still answers every query
    that waits by then, with the list cached by then, and leaves none
    registered. *)
Theorem provider_found_answers_waiters c k s now id peer :
  reachable c k s →
  (let s' := sys_found now id peer s in
   let answer := get_providers_for_manifest id (mgr s') in
   peer ∈ (pi_peer_id <$> answer) ∧ pending_queries (mgr s') !! id = None ∧
   (∀ ch, waiting s !! ch = Some (id, []) → waiting s' !! ch = Some (id, [answer])) ∧
   (∀ ch id' q, id' ≠ id → waiting s !! ch = Some (id', q) → waiting s' !! ch = Some (id', q))) ∧
  (peer ∈ (pi_peer_id <$> get_providers_for_manifest id (mgr (sys_record now id peer s)))) ∧
  answered id s (sys_notify id s).
Proof.
  intros Hwf%reachable_wf. split_and!; [|apply record_names|by eapply notify_answers].
  change (sys_found now id peer s) with (sys_notify id (sys_record now id peer s)).
  pose proof (record_names now id peer s) as Hin.
  destruct (notify_answers _ _ id (wf_record _ _ now id peer Hwf)) as (Hreg & Hl & Hw & Ho).
  split_and!; [by rewrite Hl|done|intros ch Hch; rewrite Hl; by apply Hw|apply Ho].
Qed.

(** finding a provider drops at most one other entry of the manifest,
    only when the list is full, and then a least recently seen one; the other
    entries are kept as they are. *)
Theorem provider_eviction_is_lru now id peer m p :
  let l := get_providers_for_manifest id m in
  let l' := get_providers_for_manifest id (handle_provider_found now id peer m).1 in
  p ∈ l → pi_peer_id p ≠ peer →
  p ∈ l' ∨ ((max_providers_per_manifest (config m) ≤ length l)%nat ∧
            (peer ∉ (pi_peer_id <$> l)) ∧ ∀ q, q ∈ l → pi_last_seen p ≤ pi_last_seen q).
Proof.
  intros l l' Hp Hne. subst l'. unfold get_providers_for_manifest at 1.
  rewrite remote_after_found, lookup_insert_eq. fold l. simpl. unfold add_provider. simpl.
  pose proof (refresh_existing_spec now peer l) as Hr.
  destruct (refresh_existing now peer l) as [l'|]; [left; by apply Hr|].
  destruct (evict_oldest_keeps (max_providers_per_manifest (config m)) l p Hp) as [?|[? ?]];
    [left; set_solver|by right].
Qed.

(** A cleanup removes exactly the expired providers: what it leaves for a
    manifest are the providers that have not expired, in their order, and no
    manifest is left without a provider. *)
Theorem cleanup_removes_exactly_expired now m id :
  get_providers_for_manifest id (cleanup_expired_providers now m) =
    valid_providers now (get_providers_for_manifest id m) ∧
  remote_providers (cleanup_expired_providers now m) !! id ≠ Some [].
Proof.
  unfold get_providers_for_manifest, cleanup_expired_providers. simpl. split.
  - rewrite map_lookup_filter, lookup_fmap. destruct (remote_providers m !! id) as [l|]; [|done].
    simpl. by case_guard as Hl; simpl in *; [|destruct (valid_providers now l)].
  - by intros [_ ?]%map_lookup_filter_Some.
Qed.

(** Being seen again does not renew a provider: once its first
    announcement has expired, a provider that is found again is still filtered
    out of the cache, so the next discovery goes back to the DHT. *)
Theorem refound_provider_stays_expired now id peer m p tx k :
  remote_providers m !! id = Some [p] → pi_peer_id p = peer → is_expired now p = true →
  let m' := (handle_provider_found now id peer m).1 in
  pi_last_seen <$> get_providers_for_manifest id m' = [now] ∧
  (discover_providers_start now id tx m' k).1 = None.
Proof.
  intros Hm Hp He m'. assert (remote_providers m' !! id = Some [update_last_seen now p]) as Hm'.
  { unfold m'. rewrite remote_after_found, lookup_insert_eq. unfold get_providers_for_manifest.
    rewrite Hm. simpl. unfold add_provider. simpl. by rewrite decide_True. }
  unfold get_providers_for_manifest, discover_providers_start. rewrite Hm'. split; [done|].
  unfold valid_providers. rewrite filter_cons_False; [done|].
  change (is_expired now p ≠ false). by rewrite He.
Qed.

End properties.

(** ** Concrete runs *)

Section witnesses.
Import Toy.

Definition demo_kad : @kad Toy.peers Toy.kademlia := @nil (string * string).

(** A query on ["m"] waits. *)
Definition demo_sys : sys := sys_discover 0 "m" (sys_init ProviderConfig_default demo_kad).

Lemma demo_reachable : reachable ProviderConfig_default demo_kad demo_sys.
Proof. eapply reach_step; [apply reach_init|apply step_discover]. Qed.

Lemma provider_reachable_invariant_witness :
  ∃ senders, pending_queries (mgr demo_sys) !! "m" = Some senders ∧ 0%nat ∈ senders.
Proof.
  apply (provider_reachable_invariant ProviderConfig_default demo_kad demo_sys demo_reachable). reflexivity.
Defined.

Lemma provider_found_answers_waiters_witness :
  ∃ l, waiting (sys_found 5 "m" (toy_peer x03) demo_sys) !! 0%nat = Some ("m", [l]) ∧ length l = 1%nat.
Proof.
  destruct (provider_found_answers_waiters ProviderConfig_default demo_kad demo_sys 5 "m" (toy_peer x03) demo_reachable)
    as [(_ & _ & Hw & _) _].
  eexists. split; [apply Hw; reflexivity|reflexivity].
Defined.

(** Two providers of a manifest in a manager that tracks two. *)
Definition small_config : ProviderConfig :=
  {| default_ttl_seconds := 3600; reannounce_interval_seconds := 1800;
     cleanup_interval_seconds := 300; max_providers_per_manifest := 2;
     discovery_timeout_seconds := 30 |}.

Definition seen (p : PeerId) (t : Z) : ProviderInfo :=
  {| pi_peer_id := p; pi_manifest_id := "m"; pi_announced_at := 0; pi_last_seen := t;
     pi_ttl_seconds := 10; pi_metadata := ∅ |}.

Definition full_manager : ProviderManager :=
  set_remote {[ "m" := [seen (toy_peer x01) 9; seen (toy_peer x02) 4] ]} (ProviderManager_new small_config).

Lemma provider_eviction_is_lru_witness :
  seen (toy_peer x01) 9 ∈ get_providers_for_manifest "m" (handle_provider_found 20 "m" (toy_peer x03) full_manager).1.
Proof.
  destruct (provider_eviction_is_lru 20 "m" (toy_peer x03) full_manager (seen (toy_peer x01) 9)) as [Hin|(_ & _ & Hle)];
    [by left|discriminate|exact Hin|].
  specialize (Hle (seen (toy_peer x02) 4) ltac:(right; by left)). simpl in Hle. lia.
Defined.

Lemma refound_provider_stays_expired_witness :
  (discover_providers_start (from_secs 100) "m" 0
     (handle_provider_found (from_secs 100) "m" (toy_peer x01)
        (set_remote {[ "m" := [seen (toy_peer x01) 9] ]} (ProviderManager_new small_config))).1
     demo_kad).1 = None.
Proof.
  apply (refound_provider_stays_expired (from_secs 100) "m" (toy_peer x01) _ (seen (toy_peer x01) 9)); reflexivity.
Defined.

End witnesses.
