(* ===== verification/Announcements.v ===== *)
(** * Announcement records ([machine/src/provider/announcements.rs])

    The byte format of a provider announcement in the DHT: serialization,
    the parser with every error it reports (and where it panics), validation
    and the calls on the DHT. *)

From S2P Require Import Prelude RustStr Utf8 Wire Constants Serde Libp2p Concrete Provider.

Open Scope rust_scope.
Open Scope list_scope.

Section announcements.
Context `{PeerIds, Serde}.

Record ProviderAnnouncement := {
  ann_peer_id : PeerId;
  ann_manifest_id : string;
  ann_timestamp : Z;
  ann_ttl_seconds : Z;
  ann_metadata : gmap string string;
  ann_signature : option (list byte);
}.

Definition ProviderAnnouncement_new (now : Z) (peer_id : PeerId) (manifest_id : string)
    (ttl_seconds : Z) (metadata : gmap string string) : ProviderAnnouncement :=
  {| ann_peer_id := peer_id; ann_manifest_id := manifest_id; ann_timestamp := now;
     ann_ttl_seconds := ttl_seconds; ann_metadata := metadata; ann_signature := None |}.

Definition new_signed (now : Z) (peer_id : PeerId) (manifest_id : string) (ttl_seconds : Z)
    (metadata : gmap string string) (signature : list byte) : ProviderAnnouncement :=
  {| ann_peer_id := peer_id; ann_manifest_id := manifest_id; ann_timestamp := now;
     ann_ttl_seconds := ttl_seconds; ann_metadata := metadata; ann_signature := Some signature |}.

Definition announcement_expired (now : Z) (a : ProviderAnnouncement) : bool :=
  match elapsed now (ann_timestamp a) with
  | Some e => bool_decide (ann_ttl_seconds a < as_secs e)
  | None => true
  end.

Definition get_dht_key (a : ProviderAnnouncement) : string := "provider:" +:+ ann_manifest_id a.

(** ** Serialization *)

(** [duration_since(UNIX_EPOCH).unwrap_or_default().as_secs()] *)
Definition epoch_secs (t : Z) : Z := as_secs (Z.max 0 t).

Definition to_bytes (a : ProviderAnnouncement) : list byte :=
  put_block 4 (peer_to_bytes (ann_peer_id a)) ++
  put_block 4 (as_bytes (ann_manifest_id a)) ++
  to_be_bytes 8 (epoch_secs (ann_timestamp a)) ++
  to_be_bytes 8 (ann_ttl_seconds a) ++
  put_block 4 (as_bytes (json_map_to_string (ann_metadata a))) ++
  match ann_signature a with
  | Some signature => [x01] ++ put_block 4 signature
  | None => [x00]
  end.

Inductive DecodeError :=
| InvalidData (m : string)
| PeerIdError
| Utf8Error
| JsonError.

Definition invalid (m : string) : DecodeError := InvalidData ("Invalid data: " +:+ m).

(** The fields up to the timestamp. *)
Definition read_header (data : list byte) : result DecodeError (PeerId * string * Z * list byte) :=
  let? (peer_bytes, rest) :=
    read_block 4 (invalid "missing peer ID length") (invalid "peer ID too short") data in
  let? peer_id := ok_or PeerIdError (peer_from_bytes peer_bytes) in
  let? (id_bytes, rest) :=
    read_block 4 (invalid "missing manifest ID length") (invalid "manifest ID too short") rest in
  let? manifest_id := ok_or Utf8Error (from_utf8 id_bytes) in
  let? (ts, rest) := read (invalid "missing timestamp") 8 rest in
  Ok (peer_id, manifest_id, from_be_bytes ts, rest).

(** The fields after it. *)
Definition read_trailer (data : list byte) :
    result DecodeError (Z * gmap string string * option (list byte) * list byte) :=
  let? (ttl, rest) := read (invalid "missing TTL") 8 data in
  let? (meta_bytes, rest) := read_block 4 (invalid "missing metadata length") (invalid "metadata too short") rest in
  let? metadata_json := ok_or Utf8Error (from_utf8 meta_bytes) in
  let? metadata := ok_or JsonError (json_map_from_str metadata_json) in
  let? (flag, rest) := read (invalid "missing signature flag") 1 rest in
  if decide (flag = [x01]) then
    let? (signature, rest) := read_block 4 (invalid "missing signature length") (invalid "signature too short") rest in
    Ok (from_be_bytes ttl, metadata, Some signature, rest)
  else Ok (from_be_bytes ttl, metadata, None, rest).

Definition i64_max : Z := 2 ^ 63 - 1.

(** The whole record with the bytes that follow it. [UNIX_EPOCH + Duration]
    panics, [None], when the seconds do not fit the signed clock. *)
Definition parse (data : list byte) :
    option (result DecodeError (ProviderAnnouncement * list byte)) :=
  match read_header data with
  | Err e => Some (Err e)
  | Ok (peer_id, manifest_id, timestamp_secs, rest) =>
      if decide (i64_max < timestamp_secs) then None
      else Some (
        let? (ttl_seconds, metadata, signature, rest) := read_trailer rest in
        Ok ({| ann_peer_id := peer_id; ann_manifest_id := manifest_id;
               ann_timestamp := from_secs timestamp_secs; ann_ttl_seconds := ttl_seconds;
               ann_metadata := metadata; ann_signature := signature |}, rest))
  end.

Definition from_bytes (data : list byte) : option (result DecodeError ProviderAnnouncement) :=
  match parse data with
  | None => None
  | Some r => Some (let? (a, _) := r in Ok a)
  end.

(** ** The announcement manager *)

Definition announce_in_dht `{!Kademlia} (now : Z) (manifest_id : string) (ttl_seconds : Z)
    (metadata : gmap string string) (swarm : kad) : result ProviderError () * kad :=
  let local := local_peer_id swarm in
  let announcement := ProviderAnnouncement_new now local manifest_id ttl_seconds metadata in
  let record_key := get_dht_key announcement in
  let '(r, swarm) := put_record record_key (to_bytes announcement) local swarm in
  match r with
  | Err e => (Err (DhtError ("Failed to put record: " +:+ e)), swarm)
  | Ok _ =>
      let '(r, swarm) := start_providing record_key swarm in
      (map_err (λ e, DhtError ("Failed to start providing: " +:+ e)) r, swarm)
  end.

Definition stop_announcing `{!Kademlia} (manifest_id : string) (swarm : kad) :
    result ProviderError () * kad :=
  (Ok (), stop_kad_providing ("provider:" +:+ manifest_id) swarm).

Definition create_metadata (now : Z) (node_capabilities : list string)
    (resource_info : option (gmap string string)) (custom_fields : gmap string string) :
    gmap string string :=
  let metadata : gmap string string :=
    if decide (node_capabilities = []) then ∅
    else {[ "capabilities" := str_join "," node_capabilities ]} in
  let metadata :=
    match resource_info with
    | Some resources =>
        foldl (λ m '(key, value), <[ "resource." +:+ key := value ]> m) metadata
          (map_to_list resources)
    | None => metadata
    end in
  let metadata := foldl (λ m '(key, value), <[ key := value ]> m) metadata (map_to_list custom_fields) in
  <[ "announced_at" := pretty (epoch_secs now) ]> metadata.

Definition validate_announcement (now : Z) (a : ProviderAnnouncement) : bool :=
  if announcement_expired now a then false
  else if decide (ann_manifest_id a = "") then false
  else true.

End announcements.

(** ** Lemmas on the readers *)

Section readers.
Context `{PeerIds, Serde}.

Lemma read_header_extensible : extensible read_header.
Proof.
  intros l k a r Hh. unfold read_header in *.
  extend_read Hh (read_block_extensible 4 (invalid "missing peer ID length") (invalid "peer ID too short")). extend_ok Hh.
  extend_read Hh (read_block_extensible 4 (invalid "missing manifest ID length") (invalid "manifest ID too short")).
  extend_ok Hh. extend_read Hh (read_extensible (invalid "missing timestamp") 8). by simplify_eq.
Qed.

Lemma read_trailer_extensible : extensible read_trailer.
Proof.
  intros l k a r Hh. unfold read_trailer in *.
  extend_read Hh (read_extensible (invalid "missing TTL") 8).
  extend_read Hh (read_block_extensible 4 (invalid "missing metadata length") (invalid "metadata too short")).
  extend_ok Hh. extend_ok Hh. extend_read Hh (read_extensible (invalid "missing signature flag") 1).
  case_decide; [|by simplify_eq].
  extend_read Hh (read_block_extensible 4 (invalid "missing signature length") (invalid "signature too short")). by simplify_eq.
Qed.

Lemma parse_extensible l k :
  match parse l with
  | None => parse (l ++ k) = None
  | Some (Ok (a, r)) => parse (l ++ k) = Some (Ok (a, r ++ k))
  | Some (Err _) => True
  end.
Proof.
  unfold parse. destruct (read_header l) as [[[[p id] ts] r]|] eqn:Eh; [|done].
  rewrite (read_header_extensible _ k _ _ Eh). case_decide; [done|].
  destruct (read_trailer r) as [[[[ttl md] sg] r']|] eqn:Et; simpl; [|done].
  by rewrite (read_trailer_extensible _ k _ _ Et).
Qed.

End readers.

(** ** Properties *)

Section properties.
Context `{PeerIdLaws, SerdeMapLaws}.

(** The announcements of a Rust program: valid strings, machine integers, a
    clock that fits the format, and fields shorter than 4 GiB. *)
Record serializable (a : ProviderAnnouncement) : Prop := {
  ser_id : utf8_string (ann_manifest_id a);
  ser_id_len : Z.of_nat (length (as_bytes (ann_manifest_id a))) < 2 ^ 32;
  ser_ts : epoch_secs (ann_timestamp a) ≤ i64_max;
  ser_ttl : in_u 64 (ann_ttl_seconds a);
  ser_md : map_Forall (λ k v, utf8_string k ∧ utf8_string v) (ann_metadata a);
  ser_md_len : Z.of_nat (length (as_bytes (json_map_to_string (ann_metadata a)))) < 2 ^ 32;
  ser_sig_len : Z.of_nat (length (default [] (ann_signature a))) < 2 ^ 32;
}.

(** What the format keeps: the timestamp in whole seconds since the epoch. *)
Definition to_seconds (a : ProviderAnnouncement) : ProviderAnnouncement :=
  {| ann_peer_id := ann_peer_id a; ann_manifest_id := ann_manifest_id a;
     ann_timestamp := from_secs (epoch_secs (ann_timestamp a));
     ann_ttl_seconds := ann_ttl_seconds a; ann_metadata := ann_metadata a;
     ann_signature := ann_signature a |}.

Lemma epoch_secs_nonneg t : 0 ≤ epoch_secs t.
Proof. unfold epoch_secs, as_secs. apply Z.div_pos; lia. Qed.

Lemma read_header_to_bytes a k :
  serializable a →
  read_header (put_block 4 (peer_to_bytes (ann_peer_id a)) ++ put_block 4 (as_bytes (ann_manifest_id a)) ++
     to_be_bytes 8 (epoch_secs (ann_timestamp a)) ++ k) =
  Ok (ann_peer_id a, ann_manifest_id a, epoch_secs (ann_timestamp a), k).
Proof.
  intros []. unfold read_header. rewrite read_block_put by apply peer_bytes_short. bind_ok.
  rewrite peer_bytes_roundtrip. bind_ok. rewrite read_block_put by done. bind_ok.
  rewrite from_utf8_as_bytes by done. bind_ok. rewrite (read_be _ 8). bind_ok.
  pose proof (epoch_secs_nonneg (ann_timestamp a)). unfold i64_max in *.
  by rewrite (from_be_small 8) by u_lia.
Qed.

Lemma read_trailer_to_bytes a k :
  serializable a →
  read_trailer (to_be_bytes 8 (ann_ttl_seconds a) ++
     put_block 4 (as_bytes (json_map_to_string (ann_metadata a))) ++
     match ann_signature a with Some s => [x01] ++ put_block 4 s | None => [x00] end ++ k) =
  Ok (ann_ttl_seconds a, ann_metadata a, ann_signature a, k).
Proof.
  intros []. unfold read_trailer. rewrite (read_be _ 8). bind_ok. rewrite read_block_put by done. bind_ok.
  rewrite from_utf8_as_bytes by by apply json_map_utf8. bind_ok.
  rewrite json_map_roundtrip by done. bind_ok. rewrite (from_be_small 8) by done.
  destruct (ann_signature a) as [s|]; bind_ok.
  - rewrite (read_app _ 1 [x01] (put_block 4 s ++ k)) by done. bind_ok. by rewrite read_block_put.
  - by rewrite (read_app _ 1 [x00] k).
Qed.

Lemma parse_to_bytes a : serializable a → parse (to_bytes a) = Some (Ok (to_seconds a, [])).
Proof.
  intros Hs. unfold parse, to_bytes. rewrite read_header_to_bytes by done.
  rewrite decide_False by (apply Z.le_ngt, Hs).
  pose proof (read_trailer_to_bytes a [] Hs) as Ht. rewrite app_nil_r in Ht. by rewrite Ht.
Qed.

(** C36: a serialized announcement parses back to itself, with its timestamp
    rounded down to seconds; bytes after the record are ignored. *)
Theorem announcement_roundtrip a k :
  serializable a → from_bytes (to_bytes a ++ k) = Some (Ok (to_seconds a)).
Proof.
  intros Hs. unfold from_bytes. pose proof (parse_extensible (to_bytes a) k) as He.
  rewrite (parse_to_bytes a Hs) in He. by rewrite He.
Qed.

(** a truncated announcement is always refused with an error: no strict
    prefix of a serialized record is accepted, and none makes the parser
    panic. *)
Theorem announcement_truncation_rejected a l k :
  serializable a → to_bytes a = l ++ k → k ≠ [] → ∃ e, from_bytes l = Some (Err e).
Proof.
  intros Hs Heq Hk. unfold from_bytes. pose proof (parse_extensible l k) as He.
  pose proof (parse_to_bytes a Hs) as Hp. rewrite Heq in Hp.
  destruct (parse l) as [[[b r]|e]|]; [|by eauto|congruence].
  rewrite Hp in He. simplify_eq. by destruct r.
Qed.

End properties.

Section panic.
Context `{PeerIdLaws, Serde}.

(** The parser does not refuse a timestamp that the clock cannot hold:
    it panics on a record that declares more than [i64::MAX] seconds, whatever
    follows the timestamp. *)
Theorem announcement_timestamp_panics (p : PeerId) id secs k :
  utf8_string id → Z.of_nat (length (as_bytes id)) < 2 ^ 32 → i64_max < secs → in_u 64 secs →
  from_bytes (put_block 4 (peer_to_bytes p) ++ put_block 4 (as_bytes id) ++ to_be_bytes 8 secs ++ k) = None.
Proof.
  intros Hid Hlen Hs Hu. unfold from_bytes, parse, read_header.
  rewrite read_block_put by apply peer_bytes_short. bind_ok. rewrite peer_bytes_roundtrip. bind_ok.
  rewrite read_block_put by done. bind_ok. rewrite from_utf8_as_bytes by done. bind_ok.
  rewrite (read_be _ 8). bind_ok. by rewrite (from_be_small 8), decide_True.
Qed.

End panic.

(** ** Concrete runs *)

Section witnesses.
Import Toy.

Definition demo_announcement : ProviderAnnouncement :=
  ProviderAnnouncement_new 1500000000 (toy_peer x05) "web" 3600 {[ "k" := "v" ]}.

Lemma demo_serializable : serializable demo_announcement.
Proof.
  split; simpl; try done; by apply (bool_decide_unpack _); vm_compute.
Qed.

Lemma announcement_roundtrip_witness :
  from_bytes (to_bytes demo_announcement ++ [xff]) = Some (Ok (to_seconds demo_announcement)).
Proof. apply announcement_roundtrip, demo_serializable. Defined.

Lemma announcement_truncation_rejected_witness :
  ∃ e, from_bytes (take 20 (to_bytes demo_announcement)) = Some (Err e).
Proof.
  apply (announcement_truncation_rejected demo_announcement _ (drop 20 (to_bytes demo_announcement)));
    [apply demo_serializable|symmetry; apply take_drop|vm_compute; discriminate].
Defined.

Lemma announcement_timestamp_panics_witness :
  from_bytes (put_block 4 (peer_to_bytes (toy_peer x05)) ++ put_block 4 (as_bytes "web") ++
    to_be_bytes 8 (2 ^ 63) ++ []) = None.
Proof. apply announcement_timestamp_panics; [done|done|done|by apply (bool_decide_unpack _)]. Defined.

End witnesses.
