(* ===== verification/Discovery.v ===== *)
(** * Provider discovery ([machine/src/provider/discovery.rs])

    Discovery queries with their cache and their limit on concurrent queries,
    the filter applied to what the DHT returns, and the list utilities. As in
    [Provider], an [async] operation is split at its [await]. *)

From S2P Require Import Prelude Constants Libp2p Concrete Provider.

Record DiscoveryQuery := {
  q_manifest_id : string;
  q_started_at : Z;
  q_timeout : Z;
  q_min_providers : nat;
  q_max_providers : nat;
  q_include_expired : bool;
}.

Definition DiscoveryQuery_new (now : Z) (manifest_id : string) : DiscoveryQuery :=
  {| q_manifest_id := manifest_id; q_started_at := now; q_timeout := from_secs 30;
     q_min_providers := 1; q_max_providers := 10; q_include_expired := false |}.

Definition with_timeout (timeout : Z) (q : DiscoveryQuery) : DiscoveryQuery :=
  {| q_manifest_id := q_manifest_id q; q_started_at := q_started_at q; q_timeout := timeout;
     q_min_providers := q_min_providers q; q_max_providers := q_max_providers q;
     q_include_expired := q_include_expired q |}.

Definition with_min_providers (n : nat) (q : DiscoveryQuery) : DiscoveryQuery :=
  {| q_manifest_id := q_manifest_id q; q_started_at := q_started_at q; q_timeout := q_timeout q;
     q_min_providers := n; q_max_providers := q_max_providers q;
     q_include_expired := q_include_expired q |}.

Definition with_max_providers (n : nat) (q : DiscoveryQuery) : DiscoveryQuery :=
  {| q_manifest_id := q_manifest_id q; q_started_at := q_started_at q; q_timeout := q_timeout q;
     q_min_providers := q_min_providers q; q_max_providers := n;
     q_include_expired := q_include_expired q |}.

Definition include_expired (b : bool) (q : DiscoveryQuery) : DiscoveryQuery :=
  {| q_manifest_id := q_manifest_id q; q_started_at := q_started_at q; q_timeout := q_timeout q;
     q_min_providers := q_min_providers q; q_max_providers := q_max_providers q;
     q_include_expired := b |}.

(** [elapsed().unwrap_or_default()] *)
Definition elapsed_or_zero (now t : Z) : Z := default 0 (elapsed now t).

Definition is_timed_out (now : Z) (q : DiscoveryQuery) : bool :=
  bool_decide (q_timeout q < elapsed_or_zero now (q_started_at q)).

Definition query_dht_key (q : DiscoveryQuery) : string := "provider:" +:+ q_manifest_id q.

Record DiscoveryConfig := {
  cache_ttl_seconds : Z;
  max_concurrent_queries : nat;
  default_timeout_seconds : Z;
  cache_cleanup_interval_seconds : Z;
}.

Definition DiscoveryConfig_default : DiscoveryConfig :=
  {| cache_ttl_seconds := 300; max_concurrent_queries := 20; default_timeout_seconds := 30;
     cache_cleanup_interval_seconds := 60 |}.

Section discovery.
Context `{PeerIds}.

Record DiscoveryResult := {
  res_manifest_id : string;
  res_providers : list ProviderInfo;
  res_success : bool;
  res_error : option string;
  res_duration : Z;
  res_timed_out : bool;
}.

Record DiscoveryManager := {
  active_queries : gmap string DiscoveryQuery;
  pending_channels : gmap string (list nat);
  provider_cache : gmap string (list ProviderInfo * Z);
  dconfig : DiscoveryConfig;
}.

Definition DiscoveryManager_new (c : DiscoveryConfig) : DiscoveryManager :=
  {| active_queries := ∅; pending_channels := ∅; provider_cache := ∅; dconfig := c |}.

Definition set_active a (m : DiscoveryManager) : DiscoveryManager :=
  {| active_queries := a; pending_channels := pending_channels m;
     provider_cache := provider_cache m; dconfig := dconfig m |}.
Definition set_channels c (m : DiscoveryManager) : DiscoveryManager :=
  {| active_queries := active_queries m; pending_channels := c;
     provider_cache := provider_cache m; dconfig := dconfig m |}.
Definition set_cache c (m : DiscoveryManager) : DiscoveryManager :=
  {| active_queries := active_queries m; pending_channels := pending_channels m;
     provider_cache := c; dconfig := dconfig m |}.

(** [retain(|p| seen_peers.insert(p.peer_id))]: the first entry of each peer. *)
Fixpoint dedup_peers (seen : list PeerId) (l : list ProviderInfo) : list ProviderInfo :=
  match l with
  | [] => []
  | p :: l' => if decide (pi_peer_id p ∈ seen) then dedup_peers seen l'
               else p :: dedup_peers (pi_peer_id p :: seen) l'
  end.

(** Most recently seen first. *)
Definition recent_cmp (a b : ProviderInfo) : comparison :=
  Z.compare (pi_last_seen b) (pi_last_seen a).

Definition filter_providers (now : Z) (query : DiscoveryQuery) (providers : list ProviderInfo) :
    list ProviderInfo :=
  let providers := if q_include_expired query then providers else valid_providers now providers in
  let providers := dedup_peers [] providers in
  let providers := sort_by recent_cmp providers in
  take (q_max_providers query) providers.

Definition get_cached_providers (now : Z) (manifest_id : string) (m : DiscoveryManager) :
    option DiscoveryResult :=
  match provider_cache m !! manifest_id with
  | Some (providers, cached_at) =>
      if decide (elapsed_or_zero now cached_at < from_secs (cache_ttl_seconds (dconfig m))) then
        Some {| res_manifest_id := manifest_id; res_providers := providers; res_success := true;
                res_error := None; res_duration := 0; res_timed_out := false |}
      else None
  | None => None
  end.

Definition cache_providers (now : Z) (manifest_id : string) (providers : list ProviderInfo)
    (m : DiscoveryManager) : DiscoveryManager :=
  set_cache (<[manifest_id := (providers, now)]> (provider_cache m)) m.

Definition cleanup_query (manifest_id : string) (m : DiscoveryManager) : DiscoveryManager :=
  set_active (delete manifest_id (active_queries m)) m.

Definition cleanup_expired_cache (now : Z) (m : DiscoveryManager) : DiscoveryManager :=
  set_cache (filter (λ e, elapsed_or_zero now e.2.2 < from_secs (cache_ttl_seconds (dconfig m)))
    (provider_cache m)) m.

Definition push_channel (manifest_id : string) (tx : nat) (m : DiscoveryManager) : DiscoveryManager :=
  set_channels (<[manifest_id := default [] (pending_channels m !! manifest_id) ++ [tx]]>
    (pending_channels m)) m.

(** Where [discover_providers] stands when it first has to wait. *)
Inductive discovery_progress :=
| Answered (r : result ProviderError DiscoveryResult)
| WaitingNew
| WaitingExisting.

(** [start_discovery_query] up to its [await]. *)
Definition start_discovery_query `{!Kademlia} (query : DiscoveryQuery) (tx : nat)
    (m : DiscoveryManager) (swarm : kad) : DiscoveryManager * kad :=
  let manifest_id := q_manifest_id query in
  let m := set_active (<[manifest_id := query]> (active_queries m)) m in
  (push_channel manifest_id tx m, get_providers (query_dht_key query) swarm).

(** [discover_providers] up to the [await] of the query it starts or joins. *)
Definition discover `{!Kademlia} (now : Z) (query : DiscoveryQuery) (tx : nat)
    (m : DiscoveryManager) (swarm : kad) : discovery_progress * DiscoveryManager * kad :=
  let manifest_id := q_manifest_id query in
  let go :=
    match active_queries m !! manifest_id with
    | Some _ => (WaitingExisting, push_channel manifest_id tx m, swarm)
    | None =>
        if decide (max_concurrent_queries (dconfig m) ≤ size (active_queries m))%nat then
          (Answered (Err (NetworkError "Too many concurrent queries")), m, swarm)
        else
          let '(m, swarm) := start_discovery_query query tx m swarm in (WaitingNew, m, swarm)
    end in
  match get_cached_providers now manifest_id m with
  | Some cached =>
      match res_providers cached with [] => go | _ => (Answered (Ok cached), m, swarm) end
  | None => go
  end.

(** What a timed receive gives. *)
Inductive wait_outcome :=
| Got (r : DiscoveryResult)
| WaitClosed
| WaitTimeout.

(** The rest of [start_discovery_query]. *)
Definition start_discovery_query_finish (now : Z) (manifest_id : string) (o : wait_outcome)
    (m : DiscoveryManager) : result ProviderError DiscoveryResult * DiscoveryManager :=
  let timeout := from_secs (default_timeout_seconds (dconfig m)) in
  match o with
  | Got r =>
      (Ok r, if res_success r && bool_decide (res_providers r ≠ [])
             then cache_providers now manifest_id (res_providers r) m else m)
  | WaitClosed =>
      (Ok {| res_manifest_id := manifest_id; res_providers := []; res_success := false;
             res_error := Some "Discovery channel closed"; res_duration := timeout;
             res_timed_out := false |}, cleanup_query manifest_id m)
  | WaitTimeout =>
      (Ok {| res_manifest_id := manifest_id; res_providers := []; res_success := false;
             res_error := Some "Discovery timeout"; res_duration := timeout;
             res_timed_out := true |}, cleanup_query manifest_id m)
  end.

(** The rest of [wait_for_existing_query]. *)
Definition wait_for_existing_query_finish (o : wait_outcome) : result ProviderError DiscoveryResult :=
  match o with
  | Got r => Ok r
  | WaitClosed => Err (NetworkError "Query channel closed")
  | WaitTimeout => Err Timeout
  end.

(** Sends [r] to the channels that wait for a manifest. *)
Definition notify (manifest_id : string) (r : DiscoveryResult) (m : DiscoveryManager) :
    DiscoveryManager * list (nat * DiscoveryResult) :=
  (set_channels (delete manifest_id (pending_channels m)) m,
   (λ tx, (tx, r)) <$> default [] (pending_channels m !! manifest_id)).

Definition handle_providers_found (now : Z) (manifest_id : string) (providers : list PeerId)
    (query_duration : Z) (m : DiscoveryManager) :
    DiscoveryManager * list (nat * DiscoveryResult) :=
  match active_queries m !! manifest_id with
  | None => (m, [])
  | Some query =>
      let provider_infos :=
        (λ peer_id, {| pi_peer_id := peer_id; pi_manifest_id := manifest_id;
                       pi_announced_at := now; pi_last_seen := now; pi_ttl_seconds := 3600;
                       pi_metadata := ∅ |}) <$> providers in
      let filtered_providers := filter_providers now query provider_infos in
      let r := {| res_manifest_id := manifest_id; res_providers := filtered_providers;
                  res_success := true; res_error := None; res_duration := query_duration;
                  res_timed_out := false |} in
      let m := match filtered_providers with
               | [] => m
               | _ => cache_providers now manifest_id filtered_providers m
               end in
      let '(m, sends) := notify manifest_id r m in
      (cleanup_query manifest_id m, sends)
  end.

Definition handle_discovery_error (now : Z) (manifest_id : string) (error : string)
    (m : DiscoveryManager) : DiscoveryManager * list (nat * DiscoveryResult) :=
  let query_duration :=
    match active_queries m !! manifest_id with
    | Some q => elapsed_or_zero now (q_started_at q)
    | None => 0
    end in
  let r := {| res_manifest_id := manifest_id; res_providers := []; res_success := false;
              res_error := Some error; res_duration := query_duration; res_timed_out := false |} in
  let '(m, sends) := notify manifest_id r m in
  (cleanup_query manifest_id m, sends).

Record DiscoveryStats := {
  stat_active_queries : nat;
  stat_cached_manifests : nat;
  stat_pending_channels : nat;
}.

Definition discovery_get_stats (m : DiscoveryManager) : DiscoveryStats :=
  {| stat_active_queries := size (active_queries m);
     stat_cached_manifests := size (provider_cache m);
     stat_pending_channels := size (pending_channels m) |}.

(** ** Utilities *)

Definition create_query (now : Z) (manifest_id : string) : DiscoveryQuery :=
  DiscoveryQuery_new now manifest_id.

Definition create_custom_query (now : Z) (manifest_id : string) (timeout_seconds : Z)
    (min_providers max_providers : nat) : DiscoveryQuery :=
  with_max_providers max_providers
    (with_min_providers min_providers
      (with_timeout (from_secs timeout_seconds) (DiscoveryQuery_new now manifest_id))).

(** [Vec::dedup]: drops an element equal to the one kept before it. *)
Fixpoint dedup_from {A} `{EqDecision A} (prev : A) (l : list A) : list A :=
  match l with
  | [] => []
  | x :: l' => if decide (x = prev) then dedup_from prev l' else x :: dedup_from x l'
  end.

Definition dedup {A} `{EqDecision A} (l : list A) : list A :=
  match l with [] => [] | x :: l' => x :: dedup_from x l' end.

Definition extract_peer_ids (providers : list ProviderInfo) : list PeerId :=
  dedup (sort_by peer_cmp (pi_peer_id <$> providers)).

Definition group_by_manifest (providers : list ProviderInfo) : gmap string (list ProviderInfo) :=
  foldl (λ grouped p,
    <[pi_manifest_id p := default [] (grouped !! pi_manifest_id p) ++ [p]]> grouped) ∅ providers.

Definition filter_by_metadata (providers : list ProviderInfo) (criteria : gmap string string) :
    list ProviderInfo :=
  filter (λ p, map_Forall (λ k v, pi_metadata p !! k = Some v) criteria) providers.

Definition preference_cmp (a b : ProviderInfo) : comparison :=
  match Z.compare (pi_last_seen b) (pi_last_seen a) with
  | Eq =>
      match Z.compare (pi_announced_at b) (pi_announced_at a) with
      | Eq => peer_cmp (pi_peer_id a) (pi_peer_id b)
      | c => c
      end
  | c => c
  end.

Definition sort_by_preference (providers : list ProviderInfo) : list ProviderInfo :=
  sort_by preference_cmp providers.

End discovery.

(** ** The running manager

    Every result that was sent on a channel is recorded; a waiting query
    resumes with one of them, or with none. *)

Section running.
Context `{PeerIds, !Kademlia}.

Inductive dreach (c : DiscoveryConfig) : DiscoveryManager → list (nat * DiscoveryResult) → Prop :=
| dreach_init : dreach c (DiscoveryManager_new c) []
| dreach_discover m sent now query tx swarm p m' swarm' :
    dreach c m sent → discover now query tx m swarm = (p, m', swarm') → dreach c m' sent
| dreach_found m sent now id peers dur m' sends :
    dreach c m sent → handle_providers_found now id peers dur m = (m', sends) →
    dreach c m' (sent ++ sends)
| dreach_error m sent now id err m' sends :
    dreach c m sent → handle_discovery_error now id err m = (m', sends) →
    dreach c m' (sent ++ sends)
| dreach_finish m sent now id o r m' :
    dreach c m sent →
    match o with Got res => ∃ tx, (tx, res) ∈ sent | _ => True end →
    start_discovery_query_finish now id o m = (r, m') → dreach c m' sent
| dreach_cleanup m sent now :
    dreach c m sent → dreach c (cleanup_expired_cache now m) sent.

Record dwf (c : DiscoveryConfig) (m : DiscoveryManager) (sent : list (nat * DiscoveryResult)) : Prop := {
  dwf_config : dconfig m = c;
  dwf_active : (size (active_queries m) ≤ max_concurrent_queries c)%nat;
  dwf_cache : ∀ id ps t, provider_cache m !! id = Some (ps, t) → ps ≠ [] ∧ NoDup (pi_peer_id <$> ps);
  dwf_sent : ∀ tx r, (tx, r) ∈ sent → NoDup (pi_peer_id <$> res_providers r);
}.

Lemma dedup_peers_sub seen l : sublist (dedup_peers seen l) l.
Proof.
  revert seen. induction l as [|p l IH]; intros seen; simpl; [done|].
  case_decide; by constructor.
Qed.

Lemma dedup_peers_spec seen l :
  NoDup (pi_peer_id <$> dedup_peers seen l) ∧
  ∀ x, x ∈ (pi_peer_id <$> dedup_peers seen l) ↔ x ∈ (pi_peer_id <$> l) ∧ x ∉ seen.
Proof.
  revert seen. induction l as [|p l IH]; intros seen; csimpl; [split; [constructor|set_solver]|].
  case_decide as Hd.
  - destruct (IH seen) as [? Hx]. split; [done|]. intros x. rewrite Hx, elem_of_cons. naive_solver.
  - destruct (IH (pi_peer_id p :: seen)) as [Hnd Hx]. csimpl. split.
    + constructor; [|done]. rewrite Hx. set_solver.
    + intros x. rewrite !elem_of_cons, Hx, elem_of_cons. destruct (decide (x = pi_peer_id p)); naive_solver.
Qed.

(** What [filter_providers] cuts off the front of. *)
Definition ranked (now : Z) (query : DiscoveryQuery) (providers : list ProviderInfo) : list ProviderInfo :=
  sort_by recent_cmp
    (dedup_peers [] (if q_include_expired query then providers else valid_providers now providers)).

Lemma ranked_nodup now query l : NoDup (pi_peer_id <$> ranked now query l).
Proof. unfold ranked. rewrite sort_by_perm. apply dedup_peers_spec. Qed.

Lemma filter_providers_nodup now query l : NoDup (pi_peer_id <$> filter_providers now query l).
Proof.
  eapply sublist_NoDup; [apply (ranked_nodup now query l)|]. apply sublist_map, sublist_take.
Qed.

Lemma recent_le a b : cmp_le recent_cmp a b ↔ pi_last_seen b ≤ pi_last_seen a.
Proof. done. Qed.

#[local] Instance recent_preorder : PreorderOn recent_cmp (λ _, True).
Proof.
  split; intros *; rewrite !recent_le; [|lia]. unfold recent_cmp. rewrite Z.compare_gt_iff. lia.
Qed.

Lemma ranked_sorted now query l : StronglySorted (cmp_le recent_cmp) (ranked now query l).
Proof. apply (sort_by_sorted _ (λ _, True)). by apply Forall_true. Qed.

Lemma dwf_cleanup_query c m sent id : dwf c m sent → dwf c (cleanup_query id m) sent.
Proof.
  intros [Hc Ha Hca Hs]. split; simpl; [done| |done|done].
  destruct (active_queries m !! id) as [q|] eqn:E.
  - rewrite map_size_delete_Some by eauto. lia.
  - by rewrite delete_id.
Qed.

Lemma dwf_cache_providers c m sent now id ps :
  dwf c m sent → ps ≠ [] → NoDup (pi_peer_id <$> ps) → dwf c (cache_providers now id ps m) sent.
Proof.
  intros [Hc Ha Hca Hs] Hne Hnd. split; simpl; [done..| |done].
  intros id' ps' t [[<- [= <- <-]]|[? ?]]%lookup_insert_Some; [done|by eapply Hca].
Qed.

Lemma dwf_notify c m sent id r :
  dwf c m sent → NoDup (pi_peer_id <$> res_providers r) →
  dwf c (notify id r m).1 (sent ++ (notify id r m).2).
Proof.
  intros [Hc Ha Hca Hs] Hnd. split; simpl; try done.
  intros tx r' [?|(tx' & [= -> ->] & _)%list_elem_of_fmap]%elem_of_app; [by eapply Hs|done].
Qed.

Lemma dreach_wf c m sent : dreach c m sent → dwf c m sent.
Proof.
  induction 1 as [|m sent now query tx swarm p m' swarm' _ IH Hd|m sent now id peers dur m' sends _ IH Hf
    |m sent now id err m' sends _ IH He|m sent now id o r m' _ IH Ho Hf|m sent now _ IH].
  - split; simpl; [done|by rewrite map_size_empty; lia|intros *; by rewrite lookup_empty|set_solver].
  - destruct IH as [Hc Ha Hca Hs]. unfold discover, start_discovery_query in Hd.
    case_branches Hd; split; simpl; try done.
    all: rewrite map_size_insert_None by done; lia.
  - unfold handle_providers_found in Hf. destruct (active_queries m !! id) as [query|];
      [|simplify_eq; by rewrite app_nil_r].
    set (fp := filter_providers now query _) in Hf.
    assert (NoDup (pi_peer_id <$> fp)) by apply filter_providers_nodup.
    assert (dwf c (match fp with [] => m | _ => cache_providers now id fp m end) sent) as Hm.
    { destruct fp; [done|]. by apply dwf_cache_providers. }
    set (r := {| res_manifest_id := id |}) in Hf.
    pose proof (dwf_notify _ _ _ id r Hm ltac:(done)) as Hn.
    destruct (notify id r _) as [m1 s1]. simplify_eq. by apply dwf_cleanup_query.
  - unfold handle_discovery_error in He. destruct (notify id _ m) as [m1 s1] eqn:E. simplify_eq.
    apply dwf_cleanup_query.
    change m1 with (m1, sends).1. change sends with (m1, sends).2 at 2. rewrite <- E.
    apply dwf_notify; [done|constructor].
  - unfold start_discovery_query_finish in Hf.
    destruct o as [res| |]; simplify_eq; [|by apply dwf_cleanup_query..].
    case_match eqn:E; [|done]. apply andb_true_iff in E as [_ E%bool_decide_eq_true].
    destruct Ho as [tx Htx]. apply dwf_cache_providers; [done..|]. by eapply dwf_sent.
  - destruct IH as [Hc Ha Hca Hs]. split; simpl; try done.
    intros id ps t [? _]%map_lookup_filter_Some. by eapply Hca.
Qed.

End running.

(** ** Lemmas on the utilities *)

Section utilities.
Context `{PeerIdLaws}.

#[local] Instance peer_preorder : PreorderOn peer_cmp (λ _, True).
Proof.
  split; unfold cmp_le; [intros a b _ _ Hab; by rewrite peer_cmp_antisym, Hab|].
  intros a b c _ _ _ Hab Hbc. destruct (peer_cmp a b) eqn:E1; [|destruct (peer_cmp b c) eqn:E2|]; try done.
  - apply peer_cmp_eq in E1. by subst.
  - apply peer_cmp_eq in E2. subst. by rewrite E1.
  - by rewrite (peer_cmp_lt_trans _ _ _ E1 E2).
Qed.

Lemma dedup_from_spec (prev : PeerId) l :
  StronglySorted (cmp_le peer_cmp) (prev :: l) →
  NoDup (prev :: dedup_from prev l) ∧ (∀ x, x ∈ prev :: dedup_from prev l ↔ x ∈ prev :: l).
Proof.
  revert prev. induction l as [|y l IH]; intros prev Hs; [split; [apply NoDup_singleton|done]|].
  apply StronglySorted_inv in Hs as [Hs Hf]. simpl. case_decide as Hd.
  - subst y. destruct (IH prev Hs) as [? Hx]. split; [done|]. intros x. rewrite Hx. set_solver.
  - destruct (IH y Hs) as [Hnd Hx]. split.
    + constructor; [|done]. rewrite Hx. intros Hin.
      apply StronglySorted_inv in Hs as [_ Hf']. rewrite Forall_forall in Hf'.
      apply Forall_cons in Hf as [Hpy _]. apply elem_of_cons in Hin as [->|Hin]; [done|].
      specialize (Hf' prev Hin). unfold cmp_le in *. rewrite peer_cmp_antisym in Hf'.
      destruct (peer_cmp prev y) eqn:E; try done. by apply peer_cmp_eq in E.
    + intros x. rewrite elem_of_cons, Hx. set_solver.
Qed.

(** Each peer of the list exactly once. *)
Lemma extract_peer_ids_spec l :
  NoDup (extract_peer_ids l) ∧ ∀ x, x ∈ extract_peer_ids l ↔ x ∈ (pi_peer_id <$> l).
Proof.
  unfold extract_peer_ids. pose proof (sort_by_perm peer_cmp (pi_peer_id <$> l)) as Hp.
  pose proof (sort_by_sorted peer_cmp (λ _, True) (pi_peer_id <$> l) ltac:(by apply Forall_true)) as Hs.
  destruct (sort_by peer_cmp (pi_peer_id <$> l)) as [|y k].
  - split; [constructor|]. intros x. by rewrite <- Hp.
  - destruct (dedup_from_spec y k Hs) as [? Hx]. split; [done|]. intros x. by rewrite <- Hp, <- Hx.
Qed.

Lemma group_by_manifest_spec l id :
  default [] (group_by_manifest l !! id) = filter (λ p, pi_manifest_id p = id) l.
Proof.
  unfold group_by_manifest. induction l as [|p l IH] using rev_ind; [simpl; by rewrite lookup_empty|].
  rewrite foldl_app, filter_app. simpl. rewrite <- IH. destruct (decide (pi_manifest_id p = id)) as [<-|Hne].
  - rewrite lookup_insert_eq, filter_cons_True by done. done.
  - rewrite lookup_insert_ne, filter_cons_False by done. by rewrite app_nil_r.
Qed.

End utilities.

(** ** Properties *)

Section properties.
Context `{PeerIds, !Kademlia}.

(** C38: however queries, answers, errors, timeouts and cleanups follow one
    another, no more than [max_concurrent_queries] queries are active, and a
    cached answer names at least one provider and none twice. *)
Theorem discovery_reachable_invariant c m sent :
  dreach c m sent →
  (size (active_queries m) ≤ max_concurrent_queries c)%nat ∧
  ∀ now id r, get_cached_providers now id m = Some r →
    res_providers r ≠ [] ∧ NoDup (pi_peer_id <$> res_providers r).
Proof.
  intros Hwf%dreach_wf. split; [apply Hwf|]. intros now id r Hc. unfold get_cached_providers in Hc.
  destruct (provider_cache m !! id) as [[ps t]|] eqn:E; [|done]. case_decide; [|done].
  simplify_eq. by eapply dwf_cache.
Qed.

(** filtering what the DHT returned keeps eligible entries only (live
    ones, unless expired ones were asked for), at most [max_providers] of them,
    one per peer, most recently seen first; and an eligible peer is left out
    only when the result is full of peers seen at least as recently. *)
Theorem filter_providers_spec now query l :
  let l' := filter_providers now query l in
  let eligible p := p ∈ l ∧ (q_include_expired query = true ∨ is_expired now p = false) in
  (length l' ≤ q_max_providers query)%nat ∧ NoDup (pi_peer_id <$> l') ∧ Forall eligible l' ∧
  StronglySorted (λ a b, pi_last_seen b ≤ pi_last_seen a) l' ∧
  (∀ p, eligible p → pi_peer_id p ∉ (pi_peer_id <$> l') →
     length l' = q_max_providers query ∧
     ∃ q, pi_peer_id q = pi_peer_id p ∧ eligible q ∧
          Forall (λ r, pi_last_seen q ≤ pi_last_seen r) l').
Proof.
  set (live := if q_include_expired query then l else valid_providers now l).
  assert (∀ p, p ∈ live ↔ p ∈ l ∧ (q_include_expired query = true ∨ is_expired now p = false)) as Hlive.
  { intros p. unfold live, valid_providers. destruct (q_include_expired query);
      [|rewrite list_elem_of_filter]; naive_solver. }
  intros l' eligible. change (take (q_max_providers query) (ranked now query l)) in (value of l').
  assert (∀ p, p ∈ ranked now query l → p ∈ live) as Hr.
  { intros p. unfold ranked. fold live. rewrite sort_by_perm. intros Hp.
    by eapply elem_of_sublist; [|apply dedup_peers_sub]. }
  pose proof (ranked_sorted now query l) as Hs.
  rewrite <- (take_drop (q_max_providers query) (ranked now query l)) in Hs. fold l' in Hs.
  apply StronglySorted_app in Hs as (Hcross & Hs & _). split_and!.
  - unfold l'. rewrite length_take. lia.
  - apply (filter_providers_nodup now query l).
  - apply Forall_forall. intros p Hp. apply Hlive, Hr. by eapply elem_of_sublist; [|apply sublist_take].
  - done.
  - intros p Hp Hout.
    assert (pi_peer_id p ∈ (pi_peer_id <$> ranked now query l)) as Hin.
    { unfold ranked. fold live. rewrite sort_by_perm. apply dedup_peers_spec. split; [|set_solver].
      apply list_elem_of_fmap_2. by apply Hlive. }
    rewrite <- (take_drop (q_max_providers query) (ranked now query l)) in Hin. fold l' in Hin.
    rewrite fmap_app in Hin. apply elem_of_app in Hin as [?|Hin]; [done|].
    apply list_elem_of_fmap in Hin as (q & Hq & Hin). split.
    + unfold l'. rewrite length_take. destruct (drop _ _) eqn:E; [set_solver|].
      apply (f_equal length) in E. rewrite length_drop in E. simpl in E. lia.
    + exists q. split_and!; [done| |].
      * apply Hlive, Hr. by eapply elem_of_sublist; [|apply sublist_drop].
      * apply Forall_forall. intros r Hr'. by apply recent_le, Hcross.
Qed.

End properties.

(** ** Concrete runs *)

Section witnesses.
Import Toy.

Definition demo_kad : @kad Toy.peers Toy.kademlia := @nil (string * string).

Definition demo_waiting : DiscoveryManager :=
  (discover 0 (DiscoveryQuery_new 0 "m") 0 (DiscoveryManager_new DiscoveryConfig_default) demo_kad).1.2.

Definition demo_discovery : DiscoveryManager :=
  (handle_providers_found 1 "m" [toy_peer x01; toy_peer x02; toy_peer x01] 1 demo_waiting).1.

Lemma demo_discovery_reachable : ∃ sent, dreach DiscoveryConfig_default demo_discovery sent.
Proof.
  assert (dreach DiscoveryConfig_default demo_waiting []) as Hw.
  { eapply (dreach_discover _ _ _ 0 (DiscoveryQuery_new 0 "m") 0 demo_kad); [apply dreach_init|reflexivity]. }
  eexists. eapply dreach_found; [exact Hw|apply surjective_pairing].
Qed.

Lemma discovery_reachable_invariant_witness :
  (size (active_queries demo_discovery) ≤ 20)%nat ∧
  pi_peer_id <$> default [] (res_providers <$> get_cached_providers 2 "m" demo_discovery)
    = [toy_peer x01; toy_peer x02].
Proof.
  destruct demo_discovery_reachable as [sent Hs].
  split; [apply (discovery_reachable_invariant _ _ _ Hs)|reflexivity].
Defined.

End witnesses.
