(* ===== verification/MockEngine.v ===== *)
(** * The mock runtime engine ([machine/src/runtime/mock.rs])

    The engine of debug builds: workloads in memory, metadata read from the
    manifest, simulated logs and exported manifests. Each deployment draws a
    random number, the argument [roll]. *)

From Stdlib Require Import SpecFloat Ascii.
From S2P Require Import Prelude RustStr Utf8 Serde Libp2p Concrete Runtime.

Open Scope rust_scope.

(** [format!("{}", x)] on an [f64]. *)
Class FloatDisplay := { f64_display : spec_float → string }.

Record MockWorkload := {
  mw_info : WorkloadInfo;
  mw_config : DeploymentConfig;
}.

Record MockConfig := {
  deployment_success_rate : spec_float;
  deployment_delay_ms : Z;
  simulate_ports : bool;
  default_ports : list PortMapping;
}.

(** [1.0] *)
Definition f64_one : spec_float := S754_finite false 4503599627370496 (-52).

Definition MockConfig_default : MockConfig :=
  {| deployment_success_rate := f64_one; deployment_delay_ms := 100; simulate_ports := true;
     default_ports := [{| container_port := 80; host_port := Some 8080; port_protocol := "tcp" |}] |}.

Abbreviation workloads := (gmap string MockWorkload).

Definition workload_count (w : workloads) : nat := size w.

Definition get_workloads_by_peer (local_peer_id : string) (w : workloads) : list MockWorkload :=
  filter (λ m, deployed_by local_peer_id (mw_info m) = true) (map_to_list w).*2.

Definition clear_workloads (w : workloads) : workloads := ∅.

Definition get_workload_config (workload_id : string) (w : workloads) : option DeploymentConfig :=
  mw_config <$> w !! workload_id.

Section mock.
Context `{Serde}.

Definition insert_opt (k : string) (v : option string) (m : gmap string string) : gmap string string :=
  match v with Some s => <[k := s]> m | None => m end.

Definition json_field (k : string) (v : json) : option string := json_get k v ≫= json_as_str.

(** The fields of a JSON manifest. *)
Definition json_manifest_metadata (v : json) : gmap string string :=
  let metadata := insert_opt "apiVersion" (json_field "apiVersion" v)
                    (insert_opt "kind" (json_field "kind" v) ∅) in
  match json_get "metadata" v ≫= json_as_object with
  | Some meta_obj =>
      insert_opt "namespace" (json_field "namespace" meta_obj)
        (insert_opt "name" (json_field "name" meta_obj) metadata)
  | None => metadata
  end.

(** One line of a manifest that is not JSON. *)
Definition line_metadata (metadata : gmap string string) (line : string) : gmap string string :=
  let line := trim line in
  if starts_with "kind:" line then insert_opt "kind" (trim <$> strip_prefix "kind:" line) metadata
  else if starts_with "apiVersion:" line then
    insert_opt "apiVersion" (trim <$> strip_prefix "apiVersion:" line) metadata
  else if str_contains "name:" line then
    match split_second "name:" line with
    | Some name_part =>
        let value := trim name_part in
        if decide (value = "") then metadata else <["name" := value]> metadata
    | None => metadata
    end
  else metadata.

Definition parse_manifest_metadata (manifest_content : list byte) : gmap string string :=
  let manifest_str := from_utf8_lossy manifest_content in
  match json_from_str manifest_str with
  | Some json_val => json_manifest_metadata json_val
  | None => foldl line_metadata ∅ (str_lines manifest_str)
  end.

Definition manifest_name (manifest_content : list byte) : string :=
  default "unnamed" (parse_manifest_metadata manifest_content !! "name").

Definition generate_workload_id (manifest_id : string) (manifest_content : list byte) : string :=
  "mock-" +:+ manifest_name manifest_content +:+ "-" +:+ manifest_id.

(** The last twelve characters of a longer string. *)
Definition peer_suffix (peer_str : string) : string :=
  if decide (12 < String.length peer_str)%nat
  then String.substring (String.length peer_str - 12) 12 peer_str
  else peer_str.

Definition generate_workload_id_with_peer (manifest_id : string) (manifest_content : list byte)
    (peer_str : string) : string :=
  "mock-" +:+ manifest_name manifest_content +:+ "-" +:+ manifest_id +:+ "-" +:+ peer_suffix peer_str.

Section engine.
Context (config : MockConfig).

(** [rng.gen::<f64>() < deployment_success_rate] *)
Definition should_deployment_succeed (roll : spec_float) : bool :=
  SFltb roll (deployment_success_rate config).

Definition generate_port_mappings : list PortMapping :=
  if simulate_ports config then default_ports config else [].

Definition running_info (now : Z) (workload_id manifest_id : string) (metadata : gmap string string) :
    WorkloadInfo :=
  {| info_id := workload_id; info_manifest_id := manifest_id; info_status := Running;
     info_metadata := metadata; info_created_at := now; info_updated_at := now;
     info_ports := generate_port_mappings |}.

(** The mock's own [deploy_workload_with_peer]: no validation. *)
Definition mock_deploy_workload_with_peer (roll : spec_float) (now : Z) (manifest_id : string)
    (manifest_content : list byte) (dconfig : DeploymentConfig) (local_peer_id : string)
    (w : workloads) : result RuntimeError WorkloadInfo * workloads :=
  if should_deployment_succeed roll then
    let workload_id := generate_workload_id_with_peer manifest_id manifest_content local_peer_id in
    let metadata := <["local_peer_id" := local_peer_id]> (parse_manifest_metadata manifest_content) in
    let workload_info := running_info now workload_id manifest_id metadata in
    (Ok workload_info, <[workload_id := {| mw_info := workload_info; mw_config := dconfig |}]> w)
  else (Err (DeploymentFailed "Mock deployment failure"), w).

Definition mock_validate_manifest (manifest_content : list byte) : result RuntimeError () :=
  let manifest_str := from_utf8_lossy manifest_content in
  if decide (trim manifest_str = "") then Err (InvalidManifest "Empty manifest")
  else match yaml_from_str manifest_str with
       | None => Err (InvalidManifest "Invalid YAML format")
       | Some _ => Ok ()
       end.

Definition mock_deploy_workload (roll : spec_float) (now : Z) (manifest_id : string)
    (manifest_content : list byte) (dconfig : DeploymentConfig) (w : workloads) :
    result RuntimeError WorkloadInfo * workloads :=
  match mock_validate_manifest manifest_content with
  | Err e => (Err e, w)
  | Ok _ =>
      if should_deployment_succeed roll then
        let workload_id := generate_workload_id manifest_id manifest_content in
        let workload_info :=
          running_info now workload_id manifest_id (parse_manifest_metadata manifest_content) in
        (Ok workload_info, <[workload_id := {| mw_info := workload_info; mw_config := dconfig |}]> w)
      else (Err (DeploymentFailed "Mock deployment failure"), w)
  end.

Definition refreshed (now : Z) (i : WorkloadInfo) : WorkloadInfo :=
  {| info_id := info_id i; info_manifest_id := info_manifest_id i; info_status := info_status i;
     info_metadata := info_metadata i; info_created_at := info_created_at i;
     info_updated_at := now; info_ports := info_ports i |}.

Definition mock_get_workload_status (now : Z) (workload_id : string) (w : workloads) :
    result RuntimeError WorkloadInfo :=
  match w !! workload_id with
  | Some workload => Ok (refreshed now (mw_info workload))
  | None => Err (RuntimeWorkloadNotFound workload_id)
  end.

Definition mock_list_workloads (now : Z) (w : workloads) : result RuntimeError (list WorkloadInfo) :=
  Ok (sort_by (λ a b, Z.compare (info_created_at a) (info_created_at b))
        ((λ m, refreshed now (mw_info m)) <$> (map_to_list w).*2)).

Definition mock_remove_workload (workload_id : string) (w : workloads) :
    result RuntimeError () * workloads :=
  match w !! workload_id with
  | Some _ => (Ok (), delete workload_id w)
  | None => (Err (RuntimeWorkloadNotFound workload_id), w)
  end.

Definition mock_log_lines : list string :=
  ["2024-01-01T00:00:00Z [INFO] Mock workload started";
   "2024-01-01T00:00:01Z [INFO] Initializing services";
   "2024-01-01T00:00:02Z [INFO] Services ready";
   "2024-01-01T00:00:03Z [INFO] Workload running normally";
   "2024-01-01T00:00:04Z [DEBUG] Processing requests";
   "2024-01-01T00:00:05Z [INFO] Health check passed"].

Definition nl : string := String LF "".

Definition mock_get_workload_logs (workload_id : string) (tail : option nat) (w : workloads) :
    result RuntimeError string :=
  match w !! workload_id with
  | Some workload =>
      let log_content :=
        match tail with
        | Some tail_lines => str_join nl (rev (take tail_lines (rev mock_log_lines)))
        | None => str_join nl mock_log_lines
        end in
      Ok (log_content +:+ nl +:+ "2024-01-01T00:00:06Z [INFO] Mock logs for workload " +:+ workload_id
          +:+ " (manifest_id: " +:+ info_manifest_id (mw_info workload) +:+ ")")
  | None => Err (RuntimeWorkloadNotFound workload_id)
  end.

(** The generated manifest, part by part. *)
Definition quoted (s : string) : string := String "034"%char s +:+ String "034"%char "".

Definition manifest_header (m : MockWorkload) : string :=
  let metadata := info_metadata (mw_info m) in
  let name := default (info_id (mw_info m)) (metadata !! "name") in
  let kind := default "Deployment" (metadata !! "kind") in
  let api_version := default "apps/v1" (metadata !! "apiVersion") in
  let namespace := default "default" (metadata !! "namespace") in
  str_join nl
    ["apiVersion: " +:+ api_version;
     "kind: " +:+ kind;
     "metadata:";
     "  name: " +:+ name;
     "  namespace: " +:+ namespace;
     "  labels:";
     "    beemesh.io/workload-id: " +:+ info_id (mw_info m);
     "    beemesh.io/manifest-id: " +:+ info_manifest_id (mw_info m);
     "    beemesh.io/generated: " +:+ quoted "true";
     "spec:";
     "  replicas: " +:+ pretty (replicas (mw_config m));
     "  selector:";
     "    matchLabels:";
     "      app: " +:+ name;
     "  template:";
     "    metadata:";
     "      labels:";
     "        app: " +:+ name;
     "        beemesh.io/workload-id: " +:+ info_id (mw_info m);
     "    spec:";
     "      containers:";
     "      - name: mock-container";
     "        image: mock:latest";
     "        ports:"].

Definition manifest_port (container_port protocol : string) : string :=
  nl +:+ "        - containerPort: " +:+ container_port +:+ nl +:+ "          protocol: " +:+ protocol.

Definition manifest_ports (ports : list PortMapping) : string :=
  match ports with
  | [] => manifest_port "80" "TCP"
  | _ => str_join "" ((λ p, manifest_port (pretty (container_port p)) (port_protocol p)) <$> ports)
  end.

Definition manifest_env (env : gmap string string) : string :=
  if decide (env = ∅) then ""
  else nl +:+ "        env:" +:+
       str_join "" ((λ '(key, value), nl +:+ "        - name: " +:+ key +:+ nl +:+
                       "          value: " +:+ quoted value) <$> map_to_list env).

Definition manifest_resources `{FloatDisplay} (r : ResourceLimits) : string :=
  if decide (limit_cpu r = None ∧ limit_memory r = None) then ""
  else nl +:+ "        resources:" +:+ nl +:+ "          limits:" +:+
       match limit_cpu r with
       | Some cpu => nl +:+ "            cpu: " +:+ quoted (f64_display cpu)
       | None => ""
       end +:+
       match limit_memory r with
       | Some memory => nl +:+ "            memory: " +:+ quoted (pretty memory)
       | None => ""
       end.

Definition mock_export_manifest `{FloatDisplay} (workload_id : string) (w : workloads) :
    result RuntimeError (list byte) :=
  match w !! workload_id with
  | Some m =>
      Ok (as_bytes (manifest_header m +:+ manifest_ports (info_ports (mw_info m)) +:+
                    manifest_env (env (mw_config m)) +:+
                    manifest_resources (resources (mw_config m))))
  | None => Err (RuntimeWorkloadNotFound workload_id)
  end.

(** The mock as an engine whose next deployment draws [roll]. *)
Definition mock_engine `{FloatDisplay} (roll : spec_float) : RuntimeEngine workloads :=
  {| engine_name := "mock";
     is_available := λ _, true;
     deploy_workload := mock_deploy_workload roll;
     get_workload_status := mock_get_workload_status;
     list_workloads := mock_list_workloads;
     remove_workload := mock_remove_workload;
     get_workload_logs := mock_get_workload_logs;
     validate_manifest := λ c _, mock_validate_manifest c;
     export_manifest := mock_export_manifest |}.

End engine.
End mock.

(** ** Lemmas *)

Section lemmas.
Context `{Serde} (config : MockConfig).

Lemma insert_opt_other k k' v m : k ≠ k' → insert_opt k v m !! k' = m !! k'.
Proof. intros. destruct v; simpl; [by rewrite lookup_insert_ne|done]. Qed.

Lemma line_metadata_keys m line : line_metadata m line !! "local_peer_id" = m !! "local_peer_id".
Proof.
  unfold line_metadata. repeat case_match; rewrite ?insert_opt_other, ?lookup_insert_ne by done; done.
Qed.

(** A manifest cannot set the peer of a workload. *)
Lemma parse_manifest_metadata_peer c : parse_manifest_metadata c !! "local_peer_id" = None.
Proof.
  unfold parse_manifest_metadata. destruct (json_from_str _) as [v|].
  - unfold json_manifest_metadata. case_match; rewrite !insert_opt_other, ?lookup_empty by done; done.
  - generalize (str_lines (from_utf8_lossy c)). intros ls.
    rewrite <- (lookup_empty (A:=string) "local_peer_id").
    generalize (∅ : gmap string string). induction ls as [|l ls IH]; intros m; simpl; [done|].
    by rewrite IH, line_metadata_keys.
Qed.

Lemma mock_deploy_ok roll now id c cfg w i w' :
  mock_deploy_workload config roll now id c cfg w = (Ok i, w') →
  i = running_info config now (generate_workload_id id c) id (parse_manifest_metadata c) ∧
  w' = <[info_id i := {| mw_info := i; mw_config := cfg |}]> w.
Proof.
  unfold mock_deploy_workload. destruct (mock_validate_manifest c); [|done].
  destruct (should_deployment_succeed config roll); [|done]. by intros [= <- <-].
Qed.

End lemmas.

#[export] Instance mock_engine_laws `{Serde, FloatDisplay} config roll :
  EngineLaws (mock_engine config roll).
Proof.
  split; simpl; unfold mock_get_workload_status, mock_remove_workload.
  - intros now id c cfg w i w' [Hi ->]%mock_deploy_ok now'. rewrite lookup_insert_eq.
    eexists. split; [done|]. by rewrite Hi.
  - intros now id c cfg w i w' [_ ->]%mock_deploy_ok now' wid Hne. by rewrite lookup_insert_ne.
  - intros now id c cfg w err w'. unfold mock_deploy_workload. repeat case_match; naive_solver.
  - by intros now id c cfg w i w' [-> _]%mock_deploy_ok.
  - intros wid w now i. by destruct (w !! wid).
  - intros wid w w'. destruct (w !! wid); [|done]. intros [= <-] now. by rewrite lookup_delete_eq.
  - intros wid w w'. destruct (w !! wid); [|done]. intros [= <-] now wid' Hne.
    by rewrite lookup_delete_ne.
  - intros wid w err w'. destruct (w !! wid); [done|]. by intros [= _ <-].
Qed.

#[local] Instance created_preorder :
  PreorderOn (λ a b : WorkloadInfo, Z.compare (info_created_at a) (info_created_at b)) (λ _, True).
Proof.
  split; unfold cmp_le; [intros a b _ _; rewrite Z.compare_gt_iff; intros ? ?%Z.compare_gt_iff; lia|].
  intros a b c _ _ _ Hab Hbc. fold (info_created_at a ≤ info_created_at b) in Hab.
  fold (info_created_at b ≤ info_created_at c) in Hbc.
  change (info_created_at a ≤ info_created_at c). lia.
Qed.

(** ** Properties *)

Section properties.
Context `{Serde, FloatDisplay} (config : MockConfig).

(** the mock engine keeps the promises of the engine interface (what it
    deploys can be queried and removed, what it removes is gone, failures change
    nothing and other workloads are left alone), and it lists every workload
    once, oldest first. *)
Theorem mock_engine_correct roll :
  EngineLaws (mock_engine config roll) ∧
  ∀ now w, ∃ l, list_workloads (mock_engine config roll) now w = Ok l ∧
    l ≡ₚ (λ m, refreshed now (mw_info m)) <$> (map_to_list w).*2 ∧
    StronglySorted (λ a b, info_created_at a ≤ info_created_at b) l.
Proof.
  split; [apply _|]. intros now w. eexists. split_and!; [done|apply sort_by_perm|].
  apply (sort_by_sorted _ (λ _, True)). by apply Forall_true.
Qed.

(** The trait's default [deploy_workload_with_peer] records the peer only
    in the value it returns: the engine keeps the workload without it, so the
    by-peer queries do not find it. The mock's own method does keep it. *)
Theorem deploy_with_peer_recorded roll now id c cfg peer w i w' :
  (default_deploy_workload_with_peer (mock_engine config roll) now id c cfg peer w = (Ok i, w') →
   deployed_by peer i = true ∧
   ∀ now', ∃ i', mock_get_workload_status now' (info_id i) w' = Ok i' ∧ deployed_by peer i' = false) ∧
  (mock_deploy_workload_with_peer config roll now id c cfg peer w = (Ok i, w') →
   deployed_by peer i = true ∧
   ∀ now', ∃ i', mock_get_workload_status now' (info_id i) w' = Ok i' ∧ deployed_by peer i' = true).
Proof.
  unfold deployed_by. split.
  - unfold default_deploy_workload_with_peer. simpl.
    destruct (mock_deploy_workload _ _ _ _ _ _ _) as [[i0|] w0] eqn:E; simpl; [|done].
    apply mock_deploy_ok in E as [-> ->]. intros [= <- <-]. simpl.
    rewrite lookup_insert_eq, bool_decide_eq_true_2 by done. split; [done|]. intros now'.
    unfold mock_get_workload_status. rewrite lookup_insert_eq. eexists. split; [done|]. simpl.
    by rewrite parse_manifest_metadata_peer.
  - unfold mock_deploy_workload_with_peer. case_match; [|done]. intros [= <- <-]. simpl.
    rewrite lookup_insert_eq, bool_decide_eq_true_2 by done. split; [done|]. intros now'.
    unfold mock_get_workload_status. rewrite lookup_insert_eq. eexists. split; [done|]. simpl.
    by rewrite lookup_insert_eq, bool_decide_eq_true_2.
Qed.

End properties.

(** ** Concrete runs *)

Section witnesses.
Import Toy.

#[local] Instance demo_display : FloatDisplay := {| f64_display _ := "1" |}.

(** A roll of zero. *)
Definition roll0 : spec_float := S754_zero false.

Lemma deploy_with_peer_recorded_witness :
  let w' := (default_deploy_workload_with_peer (mock_engine MockConfig_default roll0) 5 "id1"
               (as_bytes "name: web") DeploymentConfig_default "p" ∅).2 in
  default_list_workloads_by_peer (mock_engine MockConfig_default roll0) 6 "p" w' = Ok [] ∧
  ∃ i', mock_get_workload_status 6 "mock-web-id1" w' = Ok i' ∧ deployed_by "p" i' = false.
Proof.
  split; [reflexivity|].
  destruct (deploy_with_peer_recorded MockConfig_default roll0 5 "id1" (as_bytes "name: web")
    DeploymentConfig_default "p" ∅
    (add_metadata "local_peer_id" "p" (running_info MockConfig_default 5 "mock-web-id1" "id1" {["name" := "web"]}))
    (default_deploy_workload_with_peer (mock_engine MockConfig_default roll0) 5 "id1"
       (as_bytes "name: web") DeploymentConfig_default "p" ∅).2) as [Hd _].
  apply Hd. vm_compute. reflexivity.
Defined.

End witnesses.
