(* ===== verification/WorkloadManager.v ===== *)
(** * The workload manager ([machine/src/workload_manager.rs])

    Deployments on top of a runtime registry and a provider manager: which
    engine is chosen, what is recorded, what is announced, and how workloads
    are queried and removed. The engines act on an abstract world [W], the
    announcements on a Kademlia state. *)

From Stdlib Require Import SpecFloat.
From S2P Require Import Prelude Utf8 Serde Libp2p Concrete Provider Runtime MockEngine.

Open Scope rust_scope.

Inductive WorkloadManagerError :=
| WmRuntimeError (e : RuntimeError)
| WmProviderError (e : ProviderError)
| WmWorkloadNotFound (id : string)
| ManifestValidationFailed (m : string)
| NoRuntimeEngineAvailable
| WmNetworkError (m : string).

Record WorkloadManagerConfig := {
  announce_as_provider : bool;
  provider_ttl_seconds : Z;
  preferred_runtime : option string;
  validate_manifests : bool;
  max_concurrent_deployments : nat;
}.

Definition WorkloadManagerConfig_default : WorkloadManagerConfig :=
  {| announce_as_provider := true; provider_ttl_seconds := 3600; preferred_runtime := None;
     validate_manifests := true; max_concurrent_deployments := 10 |}.

Record DeploymentStatus := {
  ds_workload_id : string;
  ds_manifest_id : string;
  ds_status : WorkloadStatus;
  ds_runtime_engine : string;
  ds_announced_as_provider : bool;
  ds_deployed_at : Z;
  ds_last_updated : Z;
  ds_config : DeploymentConfig;
}.

Section manager.
Context `{PeerIds} {W : Type}.

Inductive WorkloadEvent :=
| WorkloadDeployed (workload_id manifest_id runtime_engine : string)
| EventDeploymentFailed (manifest_id error : string)
| WorkloadRemoved (workload_id manifest_id : string)
| ProviderAnnounced (manifest_id : string) (peer_id : PeerId)
| ProviderStopped (manifest_id : string).

(** [events] is what was sent on the event channel, when one is set. *)
Record WorkloadManager := {
  runtime_registry : RuntimeRegistry W;
  provider_manager : ProviderManager;
  deployments : gmap string DeploymentStatus;
  wm_config : WorkloadManagerConfig;
  events : option (list WorkloadEvent);
}.

Definition set_provider_manager p (m : WorkloadManager) : WorkloadManager :=
  {| runtime_registry := runtime_registry m; provider_manager := p; deployments := deployments m;
     wm_config := wm_config m; events := events m |}.
Definition set_deployments d (m : WorkloadManager) : WorkloadManager :=
  {| runtime_registry := runtime_registry m; provider_manager := provider_manager m;
     deployments := d; wm_config := wm_config m; events := events m |}.

(** [if let Some(ref sender) = self.event_sender { let _ = sender.send(e); }] *)
Definition send_event (e : WorkloadEvent) (m : WorkloadManager) : WorkloadManager :=
  {| runtime_registry := runtime_registry m; provider_manager := provider_manager m;
     deployments := deployments m; wm_config := wm_config m; events := (λ l, l ++ [e]) <$> events m |}.

Definition WorkloadManager_new (debug_assertions : bool) (podman docker mock : RuntimeEngine W)
    (config : WorkloadManagerConfig) (w : W) : WorkloadManager :=
  {| runtime_registry := create_default_registry debug_assertions podman docker mock w;
     provider_manager := ProviderManager_new
       {| default_ttl_seconds := provider_ttl_seconds config;
          reannounce_interval_seconds := reannounce_interval_seconds ProviderConfig_default;
          cleanup_interval_seconds := cleanup_interval_seconds ProviderConfig_default;
          max_providers_per_manifest := max_providers_per_manifest ProviderConfig_default;
          discovery_timeout_seconds := discovery_timeout_seconds ProviderConfig_default |};
     deployments := ∅; wm_config := config; events := None |}.

Definition set_event_channel (m : WorkloadManager) : WorkloadManager :=
  {| runtime_registry := runtime_registry m; provider_manager := provider_manager m;
     deployments := deployments m; wm_config := wm_config m; events := Some [] |}.

Definition get_runtime_engine (m : WorkloadManager) (w : W) : result WorkloadManagerError string :=
  let registry := runtime_registry m in
  let fallback :=
    match get_default_engine registry with
    | Some engine => if is_available engine w then Ok (engine_name engine)
                     else Err NoRuntimeEngineAvailable
    | None => Err NoRuntimeEngineAvailable
    end in
  match preferred_runtime (wm_config m) with
  | Some preferred =>
      match get_engine registry preferred with
      | Some engine => if is_available engine w then Ok preferred else fallback
      | None => fallback
      end
  | None => fallback
  end.

Definition get_runtime_engine_by_name (name : string) (m : WorkloadManager) :
    result WorkloadManagerError string :=
  match get_engine (runtime_registry m) name with
  | Some _ => Ok name
  | None => Err NoRuntimeEngineAvailable
  end.

Definition find_engine (name : string) (m : WorkloadManager) :
    result WorkloadManagerError (RuntimeEngine W) :=
  ok_or NoRuntimeEngineAvailable (get_engine (runtime_registry m) name).

Definition validate_manifest_content (manifest_content : list byte) (m : WorkloadManager) (w : W) :
    result WorkloadManagerError () :=
  let? engine_name := get_runtime_engine m w in
  let? engine := find_engine engine_name m in
  map_err WmRuntimeError (validate_manifest engine manifest_content w).

Definition wm_announce_provider `{!Kademlia} (now : Z) (manifest_id engine_name : string)
    (m : WorkloadManager) (swarm : kad) : result WorkloadManagerError () * WorkloadManager * kad :=
  let metadata : gmap string string :=
    <["node_type" := "beemesh-machine"]> {["runtime_engine" := engine_name]} in
  let '(r, pm, swarm) := announce_provider now manifest_id metadata (provider_manager m) swarm in
  (map_err WmProviderError r, set_provider_manager pm m, swarm).

(** The state an operation acts on: the manager, the containers, the DHT. *)
Record node `{!Kademlia} := { wm : WorkloadManager; world : W; dht : kad }.

(** The part of [deploy_workload] after the engine accepted the workload. *)
Definition record_deployment `{!Kademlia} (now : Z) (manifest_id engine_name : string)
    (config : DeploymentConfig) (i : WorkloadInfo) (n : node) : DeploymentStatus * node :=
  let deployment_status announced :=
    {| ds_workload_id := info_id i; ds_manifest_id := manifest_id; ds_status := info_status i;
       ds_runtime_engine := engine_name; ds_announced_as_provider := announced;
       ds_deployed_at := info_created_at i; ds_last_updated := info_updated_at i;
       ds_config := config |} in
  let m := set_deployments (<[info_id i := deployment_status false]> (deployments (wm n))) (wm n) in
  let '(announced, m, swarm) :=
    if announce_as_provider (wm_config m) then
      match wm_announce_provider now manifest_id engine_name m (dht n) with
      | (Ok _, m, swarm) => (true, send_event (ProviderAnnounced manifest_id (local_peer_id swarm)) m, swarm)
      | (Err _, m, swarm) => (false, m, swarm)
      end
    else (false, m, dht n) in
  (deployment_status announced,
   {| wm := send_event (WorkloadDeployed (info_id i) manifest_id engine_name) m;
      world := world n; dht := swarm |}).

Definition wm_deploy_workload `{!Kademlia} (now : Z) (manifest_id : string)
    (manifest_content : list byte) (config : DeploymentConfig) (n : node) :
    result WorkloadManagerError DeploymentStatus * node :=
  let prepared :=
    let? _ := if validate_manifests (wm_config (wm n))
              then validate_manifest_content manifest_content (wm n) (world n) else Ok () in
    let? engine_name := get_runtime_engine (wm n) (world n) in
    let? engine := find_engine engine_name (wm n) in
    Ok (engine_name, engine) in
  match prepared with
  | Err e => (Err e, n)
  | Ok (engine_name, engine) =>
      let '(r, w) := deploy_workload engine now manifest_id manifest_content config (world n) in
      let n := {| wm := wm n; world := w; dht := dht n |} in
      match r with
      | Err e => (Err (WmRuntimeError e), n)
      | Ok i => let '(st, n) := record_deployment now manifest_id engine_name config i n in (Ok st, n)
      end
  end.

Definition find_deployment (workload_id : string) (m : WorkloadManager) :
    result WorkloadManagerError DeploymentStatus :=
  ok_or (WmWorkloadNotFound workload_id) (deployments m !! workload_id).

(** The part of [remove_workload] after the engine removed the workload. *)
Definition forget_deployment (workload_id : string) (d : DeploymentStatus) (m : WorkloadManager) :
    WorkloadManager :=
  let m :=
    if ds_announced_as_provider d then
      let '(r, pm) := stop_providing (ds_manifest_id d) (provider_manager m) in
      let m := set_provider_manager pm m in
      match r with
      | Ok _ => send_event (ProviderStopped (ds_manifest_id d)) m
      | Err _ => m
      end
    else m in
  send_event (WorkloadRemoved workload_id (ds_manifest_id d))
    (set_deployments (delete workload_id (deployments m)) m).

Definition wm_remove_workload `{!Kademlia} (workload_id : string) (n : node) :
    result WorkloadManagerError () * node :=
  match (let? d := find_deployment workload_id (wm n) in
         let? engine := find_engine (ds_runtime_engine d) (wm n) in Ok (d, engine)) with
  | Err e => (Err e, n)
  | Ok (d, engine) =>
      let '(r, w) := remove_workload engine workload_id (world n) in
      match r with
      | Err e => (Err (WmRuntimeError e), {| wm := wm n; world := w; dht := dht n |})
      | Ok _ => (Ok (), {| wm := forget_deployment workload_id d (wm n); world := w; dht := dht n |})
      end
  end.

(** The removal loop: the identifiers that were removed, in order. *)
Fixpoint remove_each `{!Kademlia} (ids : list string) (n : node) : list string * node :=
  match ids with
  | [] => ([], n)
  | id :: ids' =>
      let '(r, n) := wm_remove_workload id n in
      let '(removed, n) := remove_each ids' n in
      (match r with Ok _ => id :: removed | Err _ => removed end, n)
  end.

Definition workloads_of_manifest (manifest_id : string) (m : WorkloadManager) : list string :=
  (map_to_list (filter (λ kd, ds_manifest_id kd.2 = manifest_id) (deployments m))).*1.

Definition remove_workloads_by_manifest_id `{!Kademlia} (manifest_id : string) (n : node) :
    result WorkloadManagerError (list string) * node :=
  let workloads_to_remove := workloads_of_manifest manifest_id (wm n) in
  match workloads_to_remove with
  | [] => (Ok [], n)
  | _ => let '(removed, n) := remove_each workloads_to_remove n in (Ok removed, n)
  end.

Definition with_fresh_status (i : WorkloadInfo) (d : DeploymentStatus) : DeploymentStatus :=
  {| ds_workload_id := ds_workload_id d; ds_manifest_id := ds_manifest_id d;
     ds_status := info_status i; ds_runtime_engine := ds_runtime_engine d;
     ds_announced_as_provider := ds_announced_as_provider d; ds_deployed_at := ds_deployed_at d;
     ds_last_updated := info_updated_at i; ds_config := ds_config d |}.

Definition wm_get_workload_status (now : Z) (workload_id : string) (m : WorkloadManager) (w : W) :
    result WorkloadManagerError DeploymentStatus * WorkloadManager :=
  match (let? d := find_deployment workload_id m in
         let? engine := find_engine (ds_runtime_engine d) m in Ok (d, engine)) with
  | Err e => (Err e, m)
  | Ok (d, engine) =>
      match get_workload_status engine now workload_id w with
      | Ok i =>
          let d := with_fresh_status i d in
          (Ok d, set_deployments (<[workload_id := d]> (deployments m)) m)
      | Err _ => (Ok d, m)
      end
  end.

Definition wm_list_workloads (m : WorkloadManager) : list DeploymentStatus :=
  (map_to_list (deployments m)).*2.

(** [global] is the process-wide registry of [workload_integration.rs]. *)
Definition wm_list_workloads_by_peer (global : option (RuntimeRegistry W)) (now : Z)
    (local_peer_id : string) (m : WorkloadManager) (w : W) : list DeploymentStatus :=
  filter (λ d,
    match global ≫= λ reg, get_engine reg (ds_runtime_engine d) with
    | Some engine =>
        match get_workload_status engine now (ds_workload_id d) w with
        | Ok i => deployed_by local_peer_id i
        | Err _ => false
        end
    | None => false
    end = true) (wm_list_workloads m).

Definition wm_get_workload_logs (workload_id : string) (tail : option nat) (m : WorkloadManager) (w : W) :
    result WorkloadManagerError string :=
  let? d := find_deployment workload_id m in
  let? engine := find_engine (ds_runtime_engine d) m in
  map_err WmRuntimeError (get_workload_logs engine workload_id tail w).

Definition export_workload_manifest (workload_id : string) (m : WorkloadManager) (w : W) :
    result WorkloadManagerError (list byte) :=
  let? d := find_deployment workload_id m in
  let? engine := find_engine (ds_runtime_engine d) m in
  map_err WmRuntimeError (export_manifest engine workload_id w).

(** [discover_providers], which delegates, up to its [await] and after it. *)
Definition wm_discover_providers `{!Kademlia} (now : Z) (manifest_id : string) (tx : nat)
    (m : WorkloadManager) (swarm : kad) : option (list ProviderInfo) * WorkloadManager * kad :=
  let '(r, (pm, swarm)) := discover_providers_start now manifest_id tx (provider_manager m) swarm in
  (r, set_provider_manager pm m, swarm).

Definition wm_discover_providers_finish (manifest_id : string) (received : received)
    (m : WorkloadManager) : result WorkloadManagerError (list ProviderInfo) * WorkloadManager :=
  let '(r, pm) := query_dht_providers_finish manifest_id received (provider_manager m) in
  (map_err WmProviderError r, set_provider_manager pm m).

(** [*counts.entry(key).or_insert(0) += 1] over the deployments. *)
Definition count_by (key : DeploymentStatus → string) (m : WorkloadManager) : gmap string nat :=
  foldl (λ counts d, <[key d := S (default 0%nat (counts !! key d))]> counts) ∅ (wm_list_workloads m).

Record WorkloadManagerStats := {
  total_workloads : nat;
  status_counts : gmap string nat;
  engine_counts : gmap string nat;
  announced_providers : nat;
  provider_stats : ProviderStats;
}.

(** [status_debug] is the derived [Debug] text of a status. *)
Definition wm_get_stats (status_debug : WorkloadStatus → string) (m : WorkloadManager) :
    WorkloadManagerStats :=
  {| total_workloads := size (deployments m);
     status_counts := count_by (λ d, status_debug (ds_status d)) m;
     engine_counts := count_by ds_runtime_engine m;
     announced_providers := length (filter (λ d, ds_announced_as_provider d = true) (wm_list_workloads m));
     provider_stats := get_stats (provider_manager m) |}.

End manager.

(** ** Runs of the manager *)

Section runs.
Context `{PeerIds, !Kademlia} {W : Type}.
Implicit Types (n : node (W:=W)) (m : WorkloadManager (W:=W)).

Inductive nstep : node (W:=W) → node (W:=W) → Prop :=
| nstep_deploy now id c cfg n r n' : wm_deploy_workload now id c cfg n = (r, n') → nstep n n'
| nstep_remove wid n r n' : wm_remove_workload wid n = (r, n') → nstep n n'
| nstep_remove_manifest id n r n' : remove_workloads_by_manifest_id id n = (r, n') → nstep n n'
| nstep_status now wid n r m :
    wm_get_workload_status now wid (wm n) (world n) = (r, m) →
    nstep n {| wm := m; world := world n; dht := dht n |}
| nstep_discover now id tx n r m swarm :
    wm_discover_providers now id tx (wm n) (dht n) = (r, m, swarm) →
    nstep n {| wm := m; world := world n; dht := swarm |}
| nstep_discovered id rcv n r m :
    wm_discover_providers_finish id rcv (wm n) = (r, m) →
    nstep n {| wm := m; world := world n; dht := dht n |}.

(** From a manager without deployments. *)
Inductive nreach (reg : RuntimeRegistry W) : node (W:=W) → Prop :=
| nreach_init n : runtime_registry (wm n) = reg → deployments (wm n) = ∅ → nreach reg n
| nreach_step n n' : nreach reg n → nstep n n' → nreach reg n'.

(** Every recorded deployment is filed under its identifier, names a
    registered engine, and is recorded as not announced. *)
Definition wm_ok (reg : RuntimeRegistry W) n : Prop :=
  runtime_registry (wm n) = reg ∧
  map_Forall (λ wid d, ds_workload_id d = wid ∧ is_Some (get_engine reg (ds_runtime_engine d)) ∧
                       ds_announced_as_provider d = false) (deployments (wm n)).

Lemma deploy_ok_inv now id c cfg n st n' :
  wm_deploy_workload now id c cfg n = (Ok st, n') →
  ∃ name e i w, get_engine (runtime_registry (wm n)) name = Some e ∧
    deploy_workload e now id c cfg (world n) = (Ok i, w) ∧
    record_deployment now id name cfg i {| wm := wm n; world := w; dht := dht n |} = (st, n').
Proof.
  unfold wm_deploy_workload. cbv zeta.
  destruct (result_bind _ _) as [[name e]|] eqn:Hp; [|done].
  apply result_bind_ok in Hp as (? & _ & Hp). apply result_bind_ok in Hp as (? & _ & Hp).
  apply result_bind_ok in Hp as (e' & He & [= -> ->]). unfold find_engine in He.
  destruct (get_engine _ name) eqn:E; simpl in He; [|done]. simplify_eq.
  destruct (deploy_workload _ _ _ _ _ _) as [[i|] w] eqn:Ed; [|done].
  destruct (record_deployment _ _ _ _ _ _) as [st' n''] eqn:Er. intros [= <- <-]. eauto 10.
Qed.

Lemma deploy_err_inv now id c cfg n e n' :
  wm_deploy_workload now id c cfg n = (Err e, n') → wm n' = wm n ∧ dht n' = dht n.
Proof.
  unfold wm_deploy_workload. cbv zeta. destruct (result_bind _ _) as [[name e']|]; [|by intros [= _ <-]].
  destruct (deploy_workload _ _ _ _ _ _) as [[i|] w].
  - by destruct (record_deployment _ _ _ _ _ _).
  - by intros [= _ <-].
Qed.

(** What recording a deployment changes. *)
Lemma record_deployment_spec now id name cfg i n st n' :
  record_deployment now id name cfg i n = (st, n') →
  ds_workload_id st = info_id i ∧ ds_manifest_id st = id ∧ ds_status st = info_status i ∧
  ds_runtime_engine st = name ∧ world n' = world n ∧
  runtime_registry (wm n') = runtime_registry (wm n) ∧
  deployments (wm n') = <[info_id i :=
    {| ds_workload_id := info_id i; ds_manifest_id := id; ds_status := info_status i;
       ds_runtime_engine := name; ds_announced_as_provider := false;
       ds_deployed_at := info_created_at i; ds_last_updated := info_updated_at i;
       ds_config := cfg |}]> (deployments (wm n)) ∧
  (ds_announced_as_provider st = true → is_Some (local_providers (provider_manager (wm n')) !! id)) ∧
  (∀ id', is_Some (local_providers (provider_manager (wm n)) !! id') →
          is_Some (local_providers (provider_manager (wm n')) !! id')).
Proof.
  unfold record_deployment, wm_announce_provider, announce_provider. cbv zeta. simpl.
  destruct (announce_as_provider _).
  - destruct (announce_via_dht _ _) as [[]]; simpl; intros [= <- <-]; simpl; split_and!; try done;
      intros; rewrite lookup_insert; case_decide; (done || by eexists).
  - intros [= <- <-]. simpl. split_and!; done.
Qed.

Lemma remove_inv wid n r n' :
  wm_remove_workload wid n = (r, n') →
  match r with
  | Err _ => wm n' = wm n
  | Ok _ => ∃ d e, deployments (wm n) !! wid = Some d ∧
      get_engine (runtime_registry (wm n)) (ds_runtime_engine d) = Some e ∧
      remove_workload e wid (world n) = (Ok (), world n') ∧
      wm n' = forget_deployment wid d (wm n)
  end.
Proof.
  unfold wm_remove_workload, find_deployment, find_engine.
  destruct (deployments (wm n) !! wid) as [d|] eqn:Ed; simpl; [|by intros [= <- <-]].
  destruct (get_engine _ _) as [e|] eqn:Ee; simpl; [|by intros [= <- <-]].
  destruct (remove_workload e wid (world n)) as [[[]|] w] eqn:Er; intros [= <- <-]; simpl; [|done].
  exists d, e. by rewrite Er.
Qed.

Lemma forget_deployments wid d m : deployments (forget_deployment wid d m) = delete wid (deployments m).
Proof. unfold forget_deployment. repeat case_match; done. Qed.

Lemma forget_registry wid d m : runtime_registry (forget_deployment wid d m) = runtime_registry m.
Proof. unfold forget_deployment. repeat case_match; done. Qed.

Lemma remove_wm_ok reg wid n r n' : wm_ok reg n → wm_remove_workload wid n = (r, n') → wm_ok reg n'.
Proof.
  intros [Hr Hd] Hrm%remove_inv. destruct r as [[]|].
  - destruct Hrm as (d & e & _ & _ & _ & Hw). unfold wm_ok. rewrite Hw, forget_registry, forget_deployments.
    split; [done|]. by apply map_Forall_delete.
  - unfold wm_ok. by rewrite Hrm.
Qed.

Lemma remove_each_wm_ok reg ids n r n' : wm_ok reg n → remove_each ids n = (r, n') → wm_ok reg n'.
Proof.
  revert n r. induction ids as [|id ids IH]; intros n r Hok; simpl; [by intros [= _ <-]|].
  destruct (wm_remove_workload id n) as [r1 n1] eqn:E1. destruct (remove_each ids n1) as [r2 n2] eqn:E2.
  intros [= _ <-]. eapply IH; [|done]. by eapply remove_wm_ok.
Qed.

Lemma nstep_wm_ok reg n n' : wm_ok reg n → nstep n n' → wm_ok reg n'.
Proof.
  intros Hok Hst. destruct Hst as [now id c cfg n r n' Hd|wid n r n' Hr|id n r n' Hr|now wid n r m Hs
    |now id tx n r m swarm Hs|id rcv n r m Hs].
  - destruct Hok as [Hreg Hds]. destruct r as [st|e].
    + apply deploy_ok_inv in Hd as (name & e & i & w & He & _ & Hrec).
      apply record_deployment_spec in Hrec as (_ & _ & _ & _ & _ & Hr' & Hd' & _).
      simpl in *. unfold wm_ok. rewrite Hr', Hd'. split; [done|].
      apply map_Forall_insert_2; [|done]. rewrite Hreg in He. eauto.
    + apply deploy_err_inv in Hd as [Hw _]. unfold wm_ok. by rewrite Hw.
  - by eapply remove_wm_ok.
  - unfold remove_workloads_by_manifest_id in Hr. destruct (workloads_of_manifest id (wm n)); [by simplify_eq|].
    destruct (remove_each _ n) eqn:E. simplify_eq. by eapply remove_each_wm_ok.
  - destruct Hok as [Hreg Hds]. unfold wm_get_workload_status, find_deployment in Hs.
    destruct (deployments (wm n) !! wid) as [d|] eqn:Ed; simpl in Hs; [|by simplify_eq].
    destruct (find_engine _ _) as [e|]; simpl in Hs; [|by simplify_eq].
    destruct (get_workload_status _ _ _ _); simplify_eq; [|done].
    split; [done|]. apply map_Forall_insert_2; [|done]. apply (Hds wid d Ed).
  - unfold wm_discover_providers in Hs. destruct (discover_providers_start _ _ _ _ _) as [? [? ?]].
    by simplify_eq.
  - unfold wm_discover_providers_finish in Hs. destruct (query_dht_providers_finish _ _ _) as [? ?].
    by simplify_eq.
Qed.

Lemma nreach_wm_ok reg n : nreach reg n → wm_ok reg n.
Proof.
  induction 1 as [n Hr Hd|n n' _ IH Hst]; [|by eapply nstep_wm_ok].
  split; [done|]. rewrite Hd. apply map_Forall_empty.
Qed.

(** The removal loop: exactly the reported identifiers are gone. *)
Lemma remove_each_deployments ids n removed n' :
  NoDup ids → remove_each ids n = (removed, n') →
  (∀ x, x ∈ removed → x ∈ ids) ∧ NoDup removed ∧
  ∀ wid, deployments (wm n') !! wid =
    if decide (wid ∈ removed) then None else deployments (wm n) !! wid.
Proof.
  revert n removed. induction ids as [|id ids IH]; intros n removed Hnd; simpl.
  { intros [= <- <-]. split_and!; [done|constructor|]. intros wid. by rewrite decide_False by set_solver. }
  apply NoDup_cons in Hnd as [Hid Hnd].
  destruct (wm_remove_workload id n) as [r n1] eqn:E1. destruct (remove_each ids n1) as [rm n2] eqn:E2.
  intros [= <- <-]. destruct (IH _ _ Hnd E2) as (Hsub & Hnd' & Hd). apply remove_inv in E1.
  destruct r as [[]|].
  - destruct E1 as (d & e & _ & _ & _ & Hw). split_and!; [set_solver|constructor; auto|].
    intros wid. rewrite Hd, Hw, forget_deployments. destruct (decide (wid = id)) as [->|Hne].
    + rewrite decide_False, decide_True, lookup_delete_eq; set_solver.
    + rewrite lookup_delete_ne by done. repeat case_decide; set_solver.
  - split_and!; [set_solver|done|]. intros wid. by rewrite Hd, E1.
Qed.

Lemma elem_of_workloads_of_manifest id m wid :
  wid ∈ workloads_of_manifest id m ↔ ∃ d, deployments (W:=W) m !! wid = Some d ∧ ds_manifest_id d = id.
Proof.
  unfold workloads_of_manifest. rewrite list_elem_of_fmap. split.
  - intros ([wid' d] & -> & Hin%elem_of_map_to_list). apply map_lookup_filter_Some in Hin as [? ?]. eauto.
  - intros (d & Hd & <-). exists (wid, d). split; [done|].
    apply elem_of_map_to_list, map_lookup_filter_Some. done.
Qed.

(** ** Properties *)

(** C32: on engines that keep their promises, a deployment that succeeds can be
    queried with the manifest and the status it was deployed with, and can be
    removed; after that neither the manager nor the engine knows it, and the
    other deployments are untouched. *)
Theorem workload_lifecycle reg n now id c cfg st n' :
  (∀ name e, engines reg !! name = Some e → EngineLaws e) →
  nreach reg n → wm_deploy_workload now id c cfg n = (Ok st, n') →
  let wid := ds_workload_id st in
  (∀ now', ∃ st', (wm_get_workload_status now' wid (wm n') (world n')).1 = Ok st' ∧
     ds_manifest_id st' = id ∧ ds_status st' = ds_status st ∧ ds_config st' = cfg) ∧
  ∃ n'', wm_remove_workload wid n' = (Ok (), n'') ∧
    (∀ now', (wm_get_workload_status now' wid (wm n'') (world n'')).1 = Err (WmWorkloadNotFound wid)) ∧
    (∃ e, get_engine reg (ds_runtime_engine st) = Some e ∧
       ∀ now', get_workload_status e now' wid (world n'') = Err (RuntimeWorkloadNotFound wid)) ∧
    (∀ wid', wid' ≠ wid → deployments (wm n'') !! wid' = deployments (wm n) !! wid').
Proof.
  intros Hlaws [Hreg _]%nreach_wm_ok (name & e & i & w & He & Hdep & Hrec)%deploy_ok_inv.
  apply record_deployment_spec in Hrec as (Hw & Hm & Hs & Hn & Hworld & Hr & Hd & _). simpl in *.
  rewrite Hreg in He, Hr. pose proof (Hlaws _ _ He) as Hl. rewrite Hw, Hn.
  destruct (deploy_then_status _ _ _ _ _ _ _ Hdep now) as (i0 & Hi0 & _).
  assert (Hfind : find_engine name (wm n') = Ok e) by (unfold find_engine; by rewrite Hr, He).
  split.
  - intros now'. destruct (deploy_then_status _ _ _ _ _ _ _ Hdep now') as (i' & Hi' & _ & _ & Hst).
    unfold wm_get_workload_status, find_deployment. rewrite Hd, lookup_insert_eq. simpl.
    rewrite Hfind. simpl. rewrite Hworld, Hi'. eexists. split; [done|]. simpl. by rewrite Hst, Hs.
  - pose proof (remove_known _ _ _ _ Hi0) as Hk.
    destruct (remove_workload e (info_id i) w) as [r w''] eqn:Erm. simpl in Hk. subst r.
    unfold wm_remove_workload at 1, find_deployment. rewrite Hd, lookup_insert_eq. simpl.
    rewrite Hfind. simpl. rewrite Hworld, Erm. eexists. split; [done|]. cbn [wm world]. split_and!.
    + intros now'. unfold wm_get_workload_status, find_deployment.
      by rewrite forget_deployments, lookup_delete_eq.
    + exists e. split; [done|]. by apply remove_then_status with (w := w).
    + intros wid' Hne. by rewrite forget_deployments, Hd, lookup_delete_ne, lookup_insert_ne.
Qed.

(** removing the workloads of a manifest reports exactly what it removed:
    each identifier once and only of that manifest; every other deployment,
    those whose removal failed included, stays as it was. *)
Theorem remove_by_manifest_exact id n r n' :
  remove_workloads_by_manifest_id id n = (r, n') →
  ∃ removed, r = Ok removed ∧ NoDup removed ∧
    (∀ wid, wid ∈ removed → ∃ d, deployments (wm n) !! wid = Some d ∧ ds_manifest_id d = id) ∧
    (∀ wid, deployments (wm n') !! wid =
       if decide (wid ∈ removed) then None else deployments (wm n) !! wid).
Proof.
  unfold remove_workloads_by_manifest_id.
  destruct (remove_each (workloads_of_manifest id (wm n)) n) as [removed n1] eqn:E.
  assert (NoDup (workloads_of_manifest id (wm n))) as Hnd by apply NoDup_fst_map_to_list.
  destruct (remove_each_deployments _ _ _ _ Hnd E) as (Hsub & Hrm & Hd).
  intros Hr. exists removed.
  assert (r = Ok removed ∧ n' = n1) as [-> ->].
  { destruct (workloads_of_manifest id (wm n)); simpl in E; by simplify_eq. }
  split_and!; [done..| |done]. intros wid Hwid. by apply elem_of_workloads_of_manifest, Hsub.
Qed.

(** an announcement made for a deployment is never withdrawn: the stored
    record says the workload was not announced, so its removal skips
    [stop_providing] and the node goes on offering a manifest it no longer runs. *)
Theorem announcement_outlives_workload reg n now id c cfg st n' n'' :
  nreach reg n → wm_deploy_workload now id c cfg n = (Ok st, n') →
  ds_announced_as_provider st = true →
  wm_remove_workload (ds_workload_id st) n' = (Ok (), n'') →
  deployments (wm n'') !! ds_workload_id st = None ∧
  is_Some (local_providers (provider_manager (wm n'')) !! id).
Proof.
  intros Hn Hdep Hann (d & e & Hd & _ & _ & Hw)%remove_inv.
  assert (wm_ok reg n') as [_ Hok].
  { eapply nreach_wm_ok, nreach_step; [done|by eapply nstep_deploy]. }
  rewrite Hw, forget_deployments, lookup_delete_eq. split; [done|].
  destruct (Hok _ _ Hd) as (_ & _ & Hf). unfold forget_deployment. rewrite Hf. simpl.
  apply deploy_ok_inv in Hdep as (name & e' & i & w & _ & _ & Hrec).
  by apply record_deployment_spec in Hrec as (_ & _ & _ & _ & _ & _ & _ & Ha & _); apply Ha.
Qed.

End runs.

(** ** Concrete runs *)

Section witnesses.
Import Toy.

#[local] Instance demo_display : FloatDisplay := {| f64_display _ := "1" |}.

Definition demo_registry : RuntimeRegistry (gmap string MockWorkload) :=
  register (mock_engine MockConfig_default (S754_zero false)) registry_new.

Definition demo_node : node :=
  {| wm := {| runtime_registry := demo_registry;
              provider_manager := ProviderManager_new ProviderConfig_default;
              deployments := ∅; wm_config := WorkloadManagerConfig_default; events := Some [] |};
     world := ∅; dht := @nil (string * string) : @kad Toy.peers Toy.kademlia |}.

Definition demo_deployed := wm_deploy_workload 5 "id1" (as_bytes "name: web") DeploymentConfig_default demo_node.

Definition demo_status : DeploymentStatus :=
  {| ds_workload_id := "mock-web-id1"; ds_manifest_id := "id1"; ds_status := Running;
     ds_runtime_engine := "mock"; ds_announced_as_provider := true; ds_deployed_at := 5;
     ds_last_updated := 5; ds_config := DeploymentConfig_default |}.

Lemma demo_laws name e : engines demo_registry !! name = Some e → EngineLaws e.
Proof.
  unfold demo_registry, register. simpl. intros [[_ <-]|[_ ?]]%lookup_insert_Some; [apply _|done].
Qed.

Lemma workload_lifecycle_witness :
  ∃ n'', wm_remove_workload "mock-web-id1" demo_deployed.2 = (Ok (), n'') ∧
    ∀ now', (wm_get_workload_status now' "mock-web-id1" (wm n'') (world n'')).1 =
      Err (WmWorkloadNotFound "mock-web-id1").
Proof.
  destruct (workload_lifecycle demo_registry demo_node 5 "id1" (as_bytes "name: web")
    DeploymentConfig_default demo_status demo_deployed.2 demo_laws) as (_ & n'' & Hr & Hs & _).
  - by apply nreach_init.
  - apply pair_snd. vm_compute. reflexivity.
  - exists n''. split; [exact Hr|exact Hs].
Defined.

Lemma remove_by_manifest_exact_witness :
  ∃ removed, Ok ["mock-web-id1"] = Ok (E:=WorkloadManagerError) removed ∧ NoDup removed.
Proof.
  destruct (remove_by_manifest_exact "id1" demo_deployed.2 (Ok ["mock-web-id1"])
    (remove_workloads_by_manifest_id "id1" demo_deployed.2).2) as (removed & Hr & Hn & _).
  - apply pair_snd. vm_compute. reflexivity.
  - exists removed. split; assumption.
Defined.

Lemma announcement_outlives_workload_witness :
  is_Some (local_providers (provider_manager (wm
    (wm_remove_workload "mock-web-id1" demo_deployed.2).2)) !! "id1").
Proof.
  apply (announcement_outlives_workload demo_registry demo_node 5 "id1" (as_bytes "name: web")
    DeploymentConfig_default demo_status demo_deployed.2).
  - by apply nreach_init.
  - apply pair_snd. vm_compute. reflexivity.
  - reflexivity.
  - apply pair_snd. vm_compute. reflexivity.
Defined.

End witnesses.
