(* ===== verification/WorkloadIntegration.v ===== *)
(** * Applying manifests ([machine/src/workload_integration.rs])

    The node-wide state (runtime registry, provider manager, resource verifier,
    owners of manifests) and the handler of apply requests: verification,
    reservation check, decryption, rewriting of the manifest, choice of an
    engine, deployment and announcement; and the removal of the workloads of a
    manifest. A panic of the handler is [None]. *)

From Stdlib Require Import SpecFloat.
From S2P Require Import Prelude RustStr Utf8 Constants Serde Libp2p Concrete Provider Runtime ResourceVerifier.
From S2P Require Import NonceStore Envelope RecipientBlob MockEngine.

Open Scope rust_scope.

Section integration.
Context `{PeerIds, !Kademlia, Serde, FlatBuffers, Crypto, Kem, Messages} {W : Type}.

(** ** The node-wide state

    The [static]s of the module, the replay store of the crypto crate, the
    containers and the DHT. *)

Record NodeState := {
  RUNTIME_REGISTRY : option (RuntimeRegistry W);
  PROVIDER_MANAGER : option ProviderManager;
  RESOURCE_VERIFIER : ResourceVerifier;
  MANIFEST_OWNER_MAP : gmap string (list byte);
  NONCE_STORE : nonce_store;
  engine_world : W;
  swarm_kad : kad;
}.

Definition set_owners o (s : NodeState) : NodeState :=
  {| RUNTIME_REGISTRY := RUNTIME_REGISTRY s; PROVIDER_MANAGER := PROVIDER_MANAGER s;
     RESOURCE_VERIFIER := RESOURCE_VERIFIER s; MANIFEST_OWNER_MAP := o;
     NONCE_STORE := NONCE_STORE s; engine_world := engine_world s; swarm_kad := swarm_kad s |}.
Definition set_world w (s : NodeState) : NodeState :=
  {| RUNTIME_REGISTRY := RUNTIME_REGISTRY s; PROVIDER_MANAGER := PROVIDER_MANAGER s;
     RESOURCE_VERIFIER := RESOURCE_VERIFIER s; MANIFEST_OWNER_MAP := MANIFEST_OWNER_MAP s;
     NONCE_STORE := NONCE_STORE s; engine_world := w; swarm_kad := swarm_kad s |}.
Definition set_verifier v (s : NodeState) : NodeState :=
  {| RUNTIME_REGISTRY := RUNTIME_REGISTRY s; PROVIDER_MANAGER := PROVIDER_MANAGER s;
     RESOURCE_VERIFIER := v; MANIFEST_OWNER_MAP := MANIFEST_OWNER_MAP s;
     NONCE_STORE := NONCE_STORE s; engine_world := engine_world s; swarm_kad := swarm_kad s |}.
Definition set_nonces n (s : NodeState) : NodeState :=
  {| RUNTIME_REGISTRY := RUNTIME_REGISTRY s; PROVIDER_MANAGER := PROVIDER_MANAGER s;
     RESOURCE_VERIFIER := RESOURCE_VERIFIER s; MANIFEST_OWNER_MAP := MANIFEST_OWNER_MAP s;
     NONCE_STORE := n; engine_world := engine_world s; swarm_kad := swarm_kad s |}.
Definition set_providers p k (s : NodeState) : NodeState :=
  {| RUNTIME_REGISTRY := RUNTIME_REGISTRY s; PROVIDER_MANAGER := Some p;
     RESOURCE_VERIFIER := RESOURCE_VERIFIER s; MANIFEST_OWNER_MAP := MANIFEST_OWNER_MAP s;
     NONCE_STORE := NONCE_STORE s; engine_world := engine_world s; swarm_kad := k |}.

(** The writes of [initialize_workload_manager], between which other tasks of
    the node may run: the engines go into the global registry, the provider
    manager is made, and the verifier reads the machine ([cpuinfo], [meminfo],
    [df]) and the workloads that run already. *)
Definition initialize_registry (debug_assertions force_mock_runtime mock_only_runtime : bool)
    (podman docker mock : RuntimeEngine W) (s : NodeState) : NodeState :=
  let use_mock_registry := force_mock_runtime || mock_only_runtime in
  let registry :=
    if debug_assertions && use_mock_registry
    then create_mock_only_registry debug_assertions podman docker mock (engine_world s)
    else create_default_registry debug_assertions podman docker mock (engine_world s) in
  {| RUNTIME_REGISTRY := Some registry; PROVIDER_MANAGER := PROVIDER_MANAGER s;
     RESOURCE_VERIFIER := RESOURCE_VERIFIER s; MANIFEST_OWNER_MAP := MANIFEST_OWNER_MAP s;
     NONCE_STORE := NONCE_STORE s; engine_world := engine_world s; swarm_kad := swarm_kad s |}.

Definition initialize_providers (s : NodeState) : NodeState :=
  set_providers (ProviderManager_new ProviderConfig_default) (swarm_kad s) s.

Definition initialize_verifier (now : Z) (cpuinfo meminfo : option string) (df : option (list byte))
    (s : NodeState) : NodeState :=
  set_verifier (update_system_resources now cpuinfo meminfo df (RUNTIME_REGISTRY s) (engine_world s)
    (RESOURCE_VERIFIER s)) s.

(** [initialize_workload_manager]: its writes, in order. *)
Definition initialize_workload_manager (debug_assertions force_mock_runtime mock_only_runtime
    scheduling_enabled : bool) (podman docker mock : RuntimeEngine W) (now : Z)
    (cpuinfo meminfo : option string) (df : option (list byte)) : list (NodeState → NodeState) :=
  if negb scheduling_enabled then []
  else [initialize_registry debug_assertions force_mock_runtime mock_only_runtime podman docker mock;
        initialize_providers; initialize_verifier now cpuinfo meminfo df].

Definition record_manifest_owner (manifest_id : string) (owner_pubkey : list byte) (s : NodeState) :
    NodeState :=
  set_owners (<[manifest_id := owner_pubkey]> (MANIFEST_OWNER_MAP s)) s.

Definition get_manifest_owner (manifest_id : string) (s : NodeState) : option (list byte) :=
  MANIFEST_OWNER_MAP s !! manifest_id.

Definition remove_manifest_owner (manifest_id : string) (s : NodeState) : NodeState :=
  set_owners (delete manifest_id (MANIFEST_OWNER_MAP s)) s.

(** ** Rewriting a manifest *)

(** [as_mapping_mut] looks through tags. *)
Fixpoint on_mapping (f : list (yaml * yaml) → list (yaml * yaml)) (v : yaml) : yaml :=
  match v with
  | YMapping entries => YMapping (f entries)
  | YTagged t v' => YTagged t (on_mapping f v')
  | _ => v
  end.

Definition one_replica : list (yaml * yaml) → list (yaml * yaml) :=
  yaml_insert "replicas" (YNumber "1").

Definition set_single_replica (doc : yaml) : yaml :=
  match yaml_get "spec" doc with
  | Some spec => on_mapping (yaml_update "spec" (on_mapping one_replica spec)) doc
  | None =>
      match yaml_get "replicas" doc with
      | Some _ => on_mapping one_replica doc
      | None => doc
      end
  end.

Definition modify_manifest_replicas (manifest_content : list byte) : result string (list byte) :=
  match yaml_from_str (from_utf8_lossy manifest_content) with
  | Some doc =>
      let? modified_yaml := ok_or "yaml serialization error" (yaml_to_string (set_single_replica doc)) in
      Ok (as_bytes modified_yaml)
  | None => Ok manifest_content
  end.

(** ** Choosing an engine *)

(** The annotation [beemesh.io/runtime-engine], when it is a string. *)
Definition engine_annotation (doc : yaml) : option string :=
  metadata ← yaml_get "metadata" doc;
  annotations ← yaml_get "annotations" metadata;
  engine ← yaml_get "beemesh.io/runtime-engine" annotations;
  yaml_as_str engine.

Definition select_runtime_engine (manifest_content : list byte) (s : NodeState) : result string string :=
  match yaml_from_str (from_utf8_lossy manifest_content) ≫= engine_annotation with
  | Some engine => Ok engine
  | None =>
      match RUNTIME_REGISTRY s with
      | Some registry =>
          if engine_available "podman" registry (engine_world s) then Ok "podman"
          else if engine_available "docker" registry (engine_world s) then Ok "docker"
          else if engine_available "mock" registry (engine_world s) then Ok "mock"
          else Err "No suitable runtime engine available"
      | None => Err "No suitable runtime engine available"
      end
  end.

Definition create_deployment_config (apply_req : ApplyRequest) : DeploymentConfig :=
  let config := DeploymentConfig_default in
  {| replicas := ar_replicas apply_req; resources := resources config;
     env := match ar_operation_id apply_req with
            | Some operation_id => <["BEEMESH_OPERATION_ID" := operation_id]> (env config)
            | None => env config
            end;
     runtime_options := runtime_options config |}.

(** ** Decryption *)

Section node_keys.
(** What [crypto::ensure_kem_keypair_on_disk] returns on this node. *)
Context (kem_keypair : result string (list byte * list byte)).

Definition decrypt_manifest_from_envelope (payload_bytes : list byte) :
    option (result string string) :=
  match payload_bytes with
  | x02 :: _ =>
      match kem_keypair with
      | Err e => Some (Err ("failed to load KEM keypair: " +:+ e))
      | Ok (_, priv_bytes) =>
          match decrypt_payload_from_recipient_blob payload_bytes priv_bytes with
          | None => None
          | Some r => Some (
              let? plaintext := map_err (λ e, "recipient-blob decryption failed: " +:+ e) r in
              ok_or "decrypted manifest is not valid UTF-8" (from_utf8 plaintext))
          end
      end
  | _ => Some (Err "unsupported payload format: expected recipient-blob (version byte 0x02)")
  end.

(** The manifest of an apply request: base64 of an envelope. An envelope of
    another payload type is taken for a plain manifest. *)
Definition decrypt_manifest_content (manifest_json : string) : option (result string (list byte)) :=
  match (let? envelope_bytes := ok_or "invalid base64" (base64_decode manifest_json) in
         ok_or "invalid flatbuffer" (root_as_envelope envelope_bytes)) with
  | Err e => Some (Err e)
  | Ok envelope =>
      if decide (default "" (env_payload_type envelope) = "manifest") then
        match env_payload envelope with
        | Some payload_bytes =>
            match decrypt_manifest_from_envelope payload_bytes with
            | None => None
            | Some r => Some (let? content := map_err (λ e, "decryption failed: " +:+ e) r in
                              Ok (as_bytes content))
            end
        | None => Some (Err "Missing payload in envelope")
        end
      else Some (Ok (as_bytes manifest_json))
  end.

(** ** Deployment *)

(** A debug build, and the downcast of an engine to the mock: its own
    deployment with a peer. *)
Context (debug_assertions : bool)
  (downcast_mock : RuntimeEngine W → option (Z → string → list byte → DeploymentConfig → string →
                                             W → result RuntimeError WorkloadInfo * W)).

Definition deploy_on_engine (now : Z) (engine_name manifest_id : string) (engine : RuntimeEngine W)
    (content : list byte) (config : DeploymentConfig) (local_peer : string) (w : W) :
    result RuntimeError WorkloadInfo * W :=
  if debug_assertions && bool_decide (engine_name = "mock") then
    match downcast_mock engine with
    | Some deploy_with_peer => deploy_with_peer now manifest_id content config local_peer w
    | None => deploy_workload engine now manifest_id content config w
    end
  else deploy_workload engine now manifest_id content config w.

(** The announcement after a deployment; its failure is only logged. *)
Definition announce_deployment (now : Z) (manifest_id engine_name workload_id : string) (s : NodeState) :
    NodeState :=
  match PROVIDER_MANAGER s with
  | Some pm =>
      let metadata : gmap string string :=
        <["node_type" := "beemesh-machine"]> (<["workload_id" := workload_id]>
          {["runtime_engine" := engine_name]}) in
      let '(_, pm, k) := announce_provider now manifest_id metadata pm (swarm_kad s) in
      set_providers pm k s
  | None => s
  end.

(** The part of [process_manifest_deployment] after decryption. *)
Definition deploy_manifest (now : Z) (apply_req : ApplyRequest) (manifest_id : string)
    (manifest_content : list byte) (s : NodeState) : result string string * NodeState :=
  match (let? modified := modify_manifest_replicas manifest_content in
         let? engine_name := select_runtime_engine modified s in
         let? registry := ok_or "Runtime registry not initialized" (RUNTIME_REGISTRY s) in
         let? engine := ok_or ("Runtime engine '" +:+ engine_name +:+ "' not available")
                          (get_engine registry engine_name) in
         Ok (modified, engine_name, engine)) with
  | Err e => (Err e, s)
  | Ok (modified, engine_name, engine) =>
      let '(r, w) := deploy_on_engine now engine_name manifest_id engine modified
                       (create_deployment_config apply_req)
                       (peer_to_string (local_peer_id (swarm_kad s))) (engine_world s) in
      let s := set_world w s in
      match r with
      | Err e => (Err (runtime_error_text e), s)
      | Ok i => (Ok (info_id i), announce_deployment now manifest_id engine_name (info_id i) s)
      end
  end.

Definition process_manifest_deployment (now : Z) (apply_req : ApplyRequest) (manifest_json : string)
    (owner_pubkey : list byte) (s : NodeState) : option (result string string) * NodeState :=
  match decrypt_manifest_content manifest_json with
  | None => (None, s)
  | Some (Err e) => (Some (Err e), s)
  | Some (Ok manifest_content) =>
      let manifest_id := default "unknown" (ar_manifest_id apply_req) in
      let s := match owner_pubkey with [] => s | _ => record_manifest_owner manifest_id owner_pubkey s end in
      let '(r, s) := deploy_manifest now apply_req manifest_id manifest_content s in
      (Some r, s)
  end.

(** ** The handlers *)

Record ApplyResponse := { resp_ok : bool; resp_operation_id : string; resp_message : string }.

Definition build_apply_response (ok : bool) (operation_id message : string) : ApplyResponse :=
  {| resp_ok := ok; resp_operation_id := operation_id; resp_message := message |}.

(** A verified request. *)
Definition apply_verified (now : Z) (payload owner_pubkey : list byte) (s : NodeState) :
    option ApplyResponse * NodeState :=
  match root_as_apply_request payload with
  | None => (Some (build_apply_response false "unknown" "invalid apply request format"), s)
  | Some apply_req =>
      match ar_manifest_json apply_req with
      | None => (Some (build_apply_response false "unknown" "missing manifest JSON"), s)
      | Some manifest_json =>
          let manifest_id := default "" (ar_manifest_id apply_req) in
          if decide (manifest_id = "") then
            (Some (build_apply_response false "unknown" "missing manifest id"), s)
          else
            let '(reservation_ok, v) :=
              has_active_reservation_for_manifest now manifest_id (RESOURCE_VERIFIER s) in
            let s := set_verifier v s in
            if reservation_ok then
              let '(r, s) := process_manifest_deployment now apply_req manifest_json owner_pubkey s in
              (match r with
               | None => None
               | Some (Ok workload_id) =>
                   Some (build_apply_response true workload_id "workload deployed successfully")
               | Some (Err e) =>
                   Some (build_apply_response false "unknown" ("deployment failed: " +:+ e))
               end, s)
            else
              (Some (build_apply_response false manifest_id "no active capacity reservation"), s)
      end
  end.

(** [handle_apply_message_with_workload_manager] on a request. *)
Definition handle_apply_request (now : Z) (peer : PeerId) (request : list byte) (s : NodeState) :
    option ApplyResponse * NodeState :=
  let '(r, nonces) :=
    verify_envelope_and_check_nonce_for_peer now request (peer_to_string peer) (NONCE_STORE s) in
  let s := set_nonces nonces s in
  match r with
  | Ok parts => apply_verified now (payload parts) (pubkey parts) s
  | Err _ =>
      if require_signed_messages
      then (Some (build_apply_response false "unknown" "unsigned or invalid envelope"), s)
      else apply_verified now request [] s
  end.

(** [process_enhanced_self_apply_request]; [own_pubkey] is the node's default
    signing key, empty when there is none. *)
Definition process_enhanced_self_apply_request (now : Z) (own_pubkey manifest : list byte)
    (s : NodeState) : option () * NodeState :=
  match root_as_apply_request manifest with
  | None => (Some (), s)
  | Some apply_req =>
      match ar_manifest_json apply_req with
      | None => (Some (), s)
      | Some manifest_json =>
          let '(r, s) := process_manifest_deployment now apply_req manifest_json own_pubkey s in
          (match r with None => None | Some _ => Some () end, s)
      end
  end.

End node_keys.

(** ** Queries and removal *)

Definition get_runtime_registry_stats (s : NodeState) : gmap string bool :=
  match RUNTIME_REGISTRY s with
  | Some registry => check_available_engines registry (engine_world s)
  | None => ∅
  end.

Definition list_available_engines (s : NodeState) : list string :=
  match RUNTIME_REGISTRY s with Some registry => list_engines registry | None => [] end.

Definition find_registered (engine_name : string) (s : NodeState) : result string (RuntimeEngine W) :=
  let? registry := ok_or "Runtime registry not initialized" (RUNTIME_REGISTRY s) in
  ok_or ("Runtime engine '" +:+ engine_name +:+ "' not available") (get_engine registry engine_name).

Definition remove_workload_by_id (workload_id engine_name : string) (s : NodeState) :
    result string () * NodeState :=
  match find_registered engine_name s with
  | Err e => (Err e, s)
  | Ok engine =>
      let '(r, w) := remove_workload engine workload_id (engine_world s) in
      (map_err runtime_error_text r, set_world w s)
  end.

Definition get_workload_logs_by_id (workload_id engine_name : string) (tail : option nat)
    (s : NodeState) : result string string :=
  let? engine := find_registered engine_name s in
  map_err runtime_error_text (get_workload_logs engine workload_id tail (engine_world s)).

(** Removes the matching workloads of one listing: removed, errors, world. *)
Fixpoint remove_matching (engine : RuntimeEngine W) (engine_name manifest_id : string)
    (l : list WorkloadInfo) (w : W) : list string * list string * W :=
  match l with
  | [] => ([], [], w)
  | i :: l' =>
      if decide (info_manifest_id i = manifest_id) then
        let '(r, w) := remove_workload engine (info_id i) w in
        let '(removed, errors, w) := remove_matching engine engine_name manifest_id l' w in
        match r with
        | Ok _ => (info_id i :: removed, errors, w)
        | Err _ => (removed, (engine_name +:+ ":" +:+ info_id i) :: errors, w)
        end
      else remove_matching engine engine_name manifest_id l' w
  end.

(** The loop over the engines. *)
Fixpoint remove_from_engines (now : Z) (registry : RuntimeRegistry W) (names : list string)
    (manifest_id : string) (w : W) : list string * list string * W :=
  match names with
  | [] => ([], [], w)
  | name :: names' =>
      let '(removed1, errors1, w) :=
        match get_engine registry name with
        | Some engine =>
            match list_workloads engine now w with
            | Ok l => remove_matching engine name manifest_id l w
            | Err _ => ([], ["list:" +:+ name], w)
            end
        | None => ([], [], w)
        end in
      let '(removed2, errors2, w) := remove_from_engines now registry names' manifest_id w in
      ((removed1 ++ removed2)%list, (errors1 ++ errors2)%list, w)
  end.

Definition withdraw_announcement (manifest_id : string) (s : NodeState) : NodeState :=
  match PROVIDER_MANAGER s with
  | Some pm => set_providers (stop_providing manifest_id pm).2 (swarm_kad s) s
  | None => s
  end.

Definition remove_workloads_by_manifest_id (now : Z) (manifest_id : string) (s : NodeState) :
    result string (list string) * NodeState :=
  match RUNTIME_REGISTRY s with
  | None => (Err "Runtime registry not initialized", s)
  | Some registry =>
      let '(removed, errors, w) :=
        remove_from_engines now registry (list_engines registry) manifest_id (engine_world s) in
      let s := withdraw_announcement manifest_id (set_world w s) in
      (Ok removed, match errors with [] => remove_manifest_owner manifest_id s | _ => s end)
  end.

(** [discover_manifest_providers] up to its [await]: without a provider
    manager, no provider. *)
Definition discover_manifest_providers (now : Z) (manifest_id : string) (tx : nat) (s : NodeState) :
    option (list ProviderInfo) * NodeState :=
  match PROVIDER_MANAGER s with
  | Some pm =>
      let '(r, (pm, k)) := discover_providers_start now manifest_id tx pm (swarm_kad s) in
      (r, set_providers pm k s)
  | None => (Some [], s)
  end.

End integration.

(** ** Lemmas *)

Section lemmas.
Context `{PeerIds, !Kademlia, Serde, FlatBuffers, Crypto, Kem, Messages} {W : Type}.
Context (kem_keypair : result string (list byte * list byte)) (debug_assertions : bool)
  (downcast_mock : RuntimeEngine W → option (Z → string → list byte → DeploymentConfig → string →
                                             W → result RuntimeError WorkloadInfo * W)).
Implicit Types s : NodeState (W:=W).

(** What an apply request can change for good: containers, announcements and
    owners. *)
Definition effects s := (engine_world s, swarm_kad s, PROVIDER_MANAGER s, MANIFEST_OWNER_MAP s).

Lemma announce_deployment_keeps now id name wid s :
  let s' := announce_deployment now id name wid s in
  engine_world s' = engine_world s ∧ RUNTIME_REGISTRY s' = RUNTIME_REGISTRY s ∧
  MANIFEST_OWNER_MAP s' = MANIFEST_OWNER_MAP s ∧ RESOURCE_VERIFIER s' = RESOURCE_VERIFIER s.
Proof.
  unfold announce_deployment. destruct (PROVIDER_MANAGER s); [|done].
  by destruct (announce_provider _ _ _ _ _) as [[? ?] ?].
Qed.

Lemma announce_deployment_local now id name wid s pm :
  PROVIDER_MANAGER s = Some pm →
  ∃ pm', PROVIDER_MANAGER (announce_deployment now id name wid s) = Some pm' ∧
    is_Some (local_providers pm' !! id).
Proof.
  intros Hpm. unfold announce_deployment, announce_provider. rewrite Hpm. cbv zeta.
  destruct (announce_via_dht _ _) as [? ?]. eexists. split; [done|]. simpl.
  rewrite lookup_insert_eq. by eexists.
Qed.

Lemma deploy_manifest_owners now req id c s :
  MANIFEST_OWNER_MAP (deploy_manifest debug_assertions downcast_mock now req id c s).2 =
  MANIFEST_OWNER_MAP s.
Proof.
  unfold deploy_manifest. destruct (result_bind _ _) as [[[m name] e]|]; [|done].
  destruct (deploy_on_engine _ _ _ _ _ _ _ _ _ _) as [[i|] w]; [|done].
  cbn [snd]. by destruct (announce_deployment_keeps now id name (info_id i) (set_world w s)) as (_ & _ & -> & _).
Qed.

Lemma deploy_manifest_verifier now req id c s :
  RESOURCE_VERIFIER (deploy_manifest debug_assertions downcast_mock now req id c s).2 =
  RESOURCE_VERIFIER s.
Proof.
  unfold deploy_manifest. destruct (result_bind _ _) as [[[m name] e]|]; [|done].
  destruct (deploy_on_engine _ _ _ _ _ _ _ _ _ _) as [[i|] w]; [|done].
  cbn [snd]. by destruct (announce_deployment_keeps now id name (info_id i) (set_world w s)) as (_ & _ & _ & ->).
Qed.

Lemma deploy_manifest_ok now req id c s wid s' :
  deploy_manifest debug_assertions downcast_mock now req id c s = (Ok wid, s') →
  ∃ registry name e i modified,
    RUNTIME_REGISTRY s = Some registry ∧ get_engine registry name = Some e ∧
    select_runtime_engine modified s = Ok name ∧ modify_manifest_replicas c = Ok modified ∧
    deploy_on_engine debug_assertions downcast_mock now name id e modified
      (create_deployment_config req) (peer_to_string (local_peer_id (swarm_kad s))) (engine_world s) =
      (Ok i, engine_world s') ∧ wid = info_id i ∧
    (∀ pm, PROVIDER_MANAGER s = Some pm →
       ∃ pm', PROVIDER_MANAGER s' = Some pm' ∧ is_Some (local_providers pm' !! id)).
Proof.
  unfold deploy_manifest. destruct (result_bind _ _) as [[[m name] e]|] eqn:Hp; [|done].
  apply result_bind_ok in Hp as (m' & Hm & Hp). apply result_bind_ok in Hp as (name' & Hn & Hp).
  apply result_bind_ok in Hp as (reg & Hr & Hp). apply result_bind_ok in Hp as (e' & He & [= -> -> ->]).
  destruct (RUNTIME_REGISTRY s) as [reg'|] eqn:Er; simpl in Hr; simplify_eq.
  destruct (get_engine reg name) as [e''|] eqn:Ee; simpl in He; simplify_eq.
  destruct (deploy_on_engine _ _ _ _ _ _ _ _ _ _) as [[i|] w] eqn:Ed; [|done]. intros [= <- <-].
  destruct (announce_deployment_keeps now id name (info_id i) (set_world w s)) as (-> & _).
  exists reg, name, e, i, m. split_and!; try done. intros pm Hpm. by eapply announce_deployment_local.
Qed.

(** ** The handler, case by case *)

Lemma apply_verified_cases now p owner s :
  let out := apply_verified kem_keypair debug_assertions downcast_mock now p owner s in
  effects out.2 = effects s ∨
  ∃ req json id v, root_as_apply_request p = Some req ∧ ar_manifest_json req = Some json ∧
    ar_manifest_id req = Some id ∧ id ≠ "" ∧
    has_active_reservation_for_manifest now id (RESOURCE_VERIFIER s) = (true, v) ∧
    out = let '(r, s') := process_manifest_deployment kem_keypair debug_assertions downcast_mock
                            now req json owner (set_verifier v s) in
          (match r with
           | None => None
           | Some (Ok wid) => Some (build_apply_response true wid "workload deployed successfully")
           | Some (Err e) => Some (build_apply_response false "unknown" ("deployment failed: " +:+ e))
           end, s').
Proof.
  unfold apply_verified. destruct (root_as_apply_request p) as [req|]; [|by left].
  destruct (ar_manifest_json req) as [json|] eqn:Ej; [|by left]. case_decide as Hd; [by left|].
  destruct (has_active_reservation_for_manifest _ _ _) as [[] v] eqn:Er; [|by left].
  right. destruct (ar_manifest_id req) as [id|] eqn:Ei; [|done]. by exists req, json, id, v.
Qed.

(** A response that reports success comes from a verified request and a
    deployment. *)
Lemma apply_success_inv now peer request s resp s' :
  handle_apply_request kem_keypair debug_assertions downcast_mock now peer request s = (Some resp, s') →
  resp_ok resp = true →
  ∃ parts nonces req json id v c s0,
    verify_envelope_and_check_nonce_for_peer now request (peer_to_string peer) (NONCE_STORE s) =
      (Ok parts, nonces) ∧
    root_as_apply_request (payload parts) = Some req ∧ ar_manifest_id req = Some id ∧
    ar_manifest_json req = Some json ∧
    has_active_reservation_for_manifest now id (RESOURCE_VERIFIER s) = (true, v) ∧
    decrypt_manifest_content kem_keypair json = Some (Ok c) ∧
    s0 = match pubkey parts with
         | [] => set_verifier v (set_nonces nonces s)
         | pk => record_manifest_owner id pk (set_verifier v (set_nonces nonces s))
         end ∧
    deploy_manifest debug_assertions downcast_mock now req id c s0 = (Ok (resp_operation_id resp), s').
Proof.
  unfold handle_apply_request. destruct (verify_envelope_and_check_nonce_for_peer _ _ _ _) as [r n] eqn:Ev.
  destruct r as [parts|]; [|intros [= <- _]; done]. unfold apply_verified.
  destruct (root_as_apply_request _) as [req|] eqn:Eq; [|intros [= <- _]; done].
  destruct (ar_manifest_json req) as [json|] eqn:Ej; [|intros [= <- _]; done].
  case_decide as Hd; [intros [= <- _]; done|].
  destruct (ar_manifest_id req) as [id|] eqn:Ei; [|done]. simpl default.
  destruct (has_active_reservation_for_manifest _ _ _) as [[] v] eqn:Er; [|intros [= <- _]; done].
  unfold process_manifest_deployment. rewrite Ei. simpl default.
  destruct (decrypt_manifest_content _ json) as [[c|]|] eqn:Ec; [|intros [= <- _]; done|done].
  destruct (deploy_manifest _ _ _ _ _ _ _) as [[wid|] s''] eqn:Ed; intros [= <- <-]; [|done].
  intros _. exists parts, n, req, json, id, v, c. eexists. split_and!; [done..|].
  by destruct (pubkey parts).
Qed.

(** Whoever signs the latest apply request of a manifest owns it: the
    owner is replaced before the deployment is attempted, so a request of
    another signer takes a running manifest over even when its own deployment
    fails. *)
Lemma apply_takes_ownership now req json id owner c s :
  decrypt_manifest_content kem_keypair json = Some (Ok c) → ar_manifest_id req = Some id →
  owner ≠ [] →
  get_manifest_owner id
    (process_manifest_deployment kem_keypair debug_assertions downcast_mock now req json owner s).2 = Some owner.
Proof.
  intros Hc Hid Ho. unfold process_manifest_deployment. rewrite Hc, Hid. simpl default.
  destruct owner as [|b owner]; [done|].
  pose proof (deploy_manifest_owners now req id c
    (record_manifest_owner id (b :: owner) s)) as Hown.
  destruct (deploy_manifest _ _ _ _ _ _ _) as [r s']. cbn [snd] in *.
  unfold get_manifest_owner. rewrite Hown. simpl. by rewrite lookup_insert_eq.
Qed.

(** The envelope of an apply request verifies and an unexpired reservation is
    held for its manifest. *)
Definition apply_authorised now peer request s : Prop :=
  ∃ parts nonces req id rid r,
    verify_envelope_and_check_nonce_for_peer now request (peer_to_string peer) (NONCE_STORE s) =
      (Ok parts, nonces) ∧
    root_as_apply_request (payload parts) = Some req ∧ ar_manifest_id req = Some id ∧
    reservations (RESOURCE_VERIFIER s) !! rid = Some r ∧ manifest_id r = Some id ∧ now < expires_at r.

Lemma handle_apply_effects now peer request s :
  effects (handle_apply_request kem_keypair debug_assertions downcast_mock now peer request s).2 =
    effects s ∨ apply_authorised now peer request s.
Proof.
  unfold handle_apply_request, apply_authorised.
  destruct (verify_envelope_and_check_nonce_for_peer _ _ _ _) as [[parts|] nonces] eqn:Ev; [|by left].
  destruct (apply_verified_cases now (payload parts) (pubkey parts)
    (set_nonces nonces s)) as [Heq|(req & json & id & v & Hreq & _ & Hid & _ & Hres & _)];
    [left; by rewrite Heq|right].
  assert (Hact : (has_active_reservation_for_manifest now id (RESOURCE_VERIFIER s)).1 = true)
    by by apply (f_equal fst) in Hres.
  apply has_active_reservation_iff in Hact as (rid & r & ? & ? & ?).
  by exists parts, nonces, req, id, rid, r.
Qed.

(** What a deployment leaves alone: reservations, nonces and the registry. *)
Lemma process_manifest_deployment_keeps now req json owner s :
  let s' := (process_manifest_deployment kem_keypair debug_assertions downcast_mock now req json owner s).2 in
  RESOURCE_VERIFIER s' = RESOURCE_VERIFIER s ∧
  MANIFEST_OWNER_MAP s' = MANIFEST_OWNER_MAP s ∨
  RESOURCE_VERIFIER s' = RESOURCE_VERIFIER s ∧ owner ≠ [] ∧
  MANIFEST_OWNER_MAP s' = <[default "unknown" (ar_manifest_id req) := owner]> (MANIFEST_OWNER_MAP s).
Proof.
  unfold process_manifest_deployment.
  destruct (decrypt_manifest_content _ json) as [[c|]|]; [|by left..].
  set (id := default "unknown" (ar_manifest_id req)).
  set (s0 := match owner with [] => s | _ => record_manifest_owner id owner s end).
  pose proof (deploy_manifest_owners now req id c s0) as Hown.
  pose proof (deploy_manifest_verifier now req id c s0) as Hver.
  destruct (deploy_manifest _ _ _ _ _ _ s0) as [r s']. cbn [snd] in *. rewrite Hown, Hver.
  subst s0. destruct owner; [by left|right]. by split_and!.
Qed.

Lemma apply_verified_keeps now p owner s :
  let s' := (apply_verified kem_keypair debug_assertions downcast_mock now p owner s).2 in
  (RESOURCE_VERIFIER s' = RESOURCE_VERIFIER s ∨
   RESOURCE_VERIFIER s' = prune_expired_reservations now (RESOURCE_VERIFIER s)) ∧
  (MANIFEST_OWNER_MAP s' = MANIFEST_OWNER_MAP s ∨
   owner ≠ [] ∧ ∃ id, MANIFEST_OWNER_MAP s' = <[id := owner]> (MANIFEST_OWNER_MAP s)).
Proof.
  unfold apply_verified. destruct (root_as_apply_request p) as [req|]; [|by split; left].
  destruct (ar_manifest_json req) as [json|]; [|by split; left]. case_decide; [by split; left|].
  destruct (has_active_reservation_for_manifest _ _ _) as [ok v] eqn:Er.
  unfold has_active_reservation_for_manifest in Er. injection Er as _ <-.
  destruct ok; [|by split; [right|left]].
  pose proof (process_manifest_deployment_keeps now req json owner
    (set_verifier (prune_expired_reservations now (RESOURCE_VERIFIER s)) s)) as Hk. cbv zeta in Hk.
  destruct (process_manifest_deployment _ _ _ _ _ _ _ _) as [r s']. cbn [snd] in *.
  destruct Hk as [[-> ->]|(-> & Hne & ->)]; (split; [by right|]); [by left|right; eauto].
Qed.

End lemmas.

(** ** Lemmas on rewritten manifests *)

Lemma untag_on_mapping f v :
  untag (on_mapping f v) = match untag v with YMapping e => YMapping (f e) | v' => v' end.
Proof. induction v; simpl; done. Qed.

Lemma yaml_get_on_mapping k f v :
  yaml_get k (on_mapping f v) = match untag v with YMapping e => yaml_assoc k (f e) | _ => None end.
Proof. unfold yaml_get. rewrite untag_on_mapping. by destruct (untag v). Qed.

Lemma one_replica_get k v e :
  untag v = YMapping e →
  yaml_get k (on_mapping one_replica v) =
    if decide (k = "replicas") then Some (YNumber "1") else yaml_get k v.
Proof.
  intros Hv. rewrite yaml_get_on_mapping. unfold yaml_get. rewrite Hv. unfold one_replica.
  case_decide; [subst; apply yaml_insert_get|by apply yaml_insert_get_ne].
Qed.

(** ** Properties *)

Section properties.
Context `{PeerIds, !Kademlia, Serde, FlatBuffers, Crypto, Kem, Messages} {W : Type}.
Context (kem_keypair : result string (list byte * list byte)).
Implicit Types s : NodeState (W:=W).

(** C15: an apply request has no effect on the containers, the announcements
    or the owners of this node unless its envelope verifies and an unexpired
    capacity reservation is held for the manifest it names; this in debug and
    release builds, whatever the bytes. *)
Theorem apply_needs_signature_and_reservation dbg downcast now peer request s :
  effects (handle_apply_request kem_keypair dbg downcast now peer request s).2 = effects s ∨
  ∃ parts nonces req id rid r,
    verify_envelope_and_check_nonce_for_peer now request (peer_to_string peer) (NONCE_STORE s) =
      (Ok parts, nonces) ∧
    root_as_apply_request (payload parts) = Some req ∧ ar_manifest_id req = Some id ∧
    reservations (RESOURCE_VERIFIER s) !! rid = Some r ∧ manifest_id r = Some id ∧ now < expires_at r.
Proof. apply handle_apply_effects. Qed.

(** C16: a response that reports success is true, on any engines and in both
    builds: the request was verified, its manifest decrypted and rewritten for
    one replica, an engine of the registry was asked to deploy that text under
    the manifest identifier of the request and with its configuration, and this
    engine reported success; the response names the workload the engine
    reported, the containers are those the engine left, the signer of the
    request is the recorded owner, and a node with a provider manager has entered
    the manifest among those it provides. *)
Theorem apply_success_is_deployed dbg downcast now peer request s resp s' :
  handle_apply_request kem_keypair dbg downcast now peer request s = (Some resp, s') →
  resp_ok resp = true →
  ∃ parts nonces req id json content modified reg name e info,
    verify_envelope_and_check_nonce_for_peer now request (peer_to_string peer) (NONCE_STORE s) =
      (Ok parts, nonces) ∧
    root_as_apply_request (payload parts) = Some req ∧ ar_manifest_id req = Some id ∧
    ar_manifest_json req = Some json ∧ decrypt_manifest_content kem_keypair json = Some (Ok content) ∧
    modify_manifest_replicas content = Ok modified ∧
    RUNTIME_REGISTRY s = Some reg ∧ get_engine reg name = Some e ∧
    deploy_on_engine dbg downcast now name id e modified (create_deployment_config req)
      (peer_to_string (local_peer_id (swarm_kad s))) (engine_world s) = (Ok info, engine_world s') ∧
    resp_operation_id resp = info_id info ∧
    (pubkey parts ≠ [] → get_manifest_owner id s' = Some (pubkey parts)) ∧
    (∀ pm, PROVIDER_MANAGER s = Some pm →
       ∃ pm', PROVIDER_MANAGER s' = Some pm' ∧ is_Some (local_providers pm' !! id)).
Proof.
  intros Hh Hok.
  destruct (apply_success_inv _ _ _ _ _ _ _ _ _ Hh Hok)
    as (parts & nonces & req & json & id & v & c & s0 & Hver & Hreq & Hid & Hjson & _ & Hdec & Hs0 & Hd).
  assert (RUNTIME_REGISTRY s0 = RUNTIME_REGISTRY s ∧ PROVIDER_MANAGER s0 = PROVIDER_MANAGER s ∧
    engine_world s0 = engine_world s ∧ swarm_kad s0 = swarm_kad s)
    as (Hreg & Hpm & Hw & Hk) by by subst s0; destruct (pubkey parts).
  pose proof (deploy_manifest_owners dbg downcast now req id c s0) as Hown. rewrite Hd in Hown.
  destruct (deploy_manifest_ok _ _ _ _ _ _ _ _ _ Hd)
    as (reg & name & e & i & m & Hr & He & _ & Hm & Hdep & Hwid & Hann).
  rewrite Hreg in Hr. rewrite Hpm in Hann. rewrite Hw, Hk in Hdep.
  exists parts, nonces, req, id, json, c, m, reg, name, e, i. split_and!; try done.
  intros Hne. unfold get_manifest_owner. cbn [snd] in Hown. rewrite Hown, Hs0.
  destruct (pubkey parts); [done|]. simpl. by rewrite lookup_insert_eq.
Qed.

(** rewriting a manifest for one node sets [spec.replicas] to 1 (the
    top-level [replicas] when there is no [spec]) and changes no other field of
    the document nor of its [spec]. *)
Theorem set_single_replica_spec doc :
  (∀ k, k ≠ "spec" → k ≠ "replicas" → yaml_get k (set_single_replica doc) = yaml_get k doc) ∧
  match yaml_get "spec" doc with
  | Some spec =>
      yaml_get "replicas" (set_single_replica doc) = yaml_get "replicas" doc ∧
      ∃ spec', yaml_get "spec" (set_single_replica doc) = Some spec' ∧
        ∀ e, untag spec = YMapping e →
          ∀ k, yaml_get k spec' = if decide (k = "replicas") then Some (YNumber "1") else yaml_get k spec
  | None =>
      yaml_get "replicas" (set_single_replica doc) =
        (if decide (is_Some (yaml_get "replicas" doc)) then Some (YNumber "1") else None)
  end.
Proof.
  unfold set_single_replica. destruct (yaml_get "spec" doc) as [spec|] eqn:Es.
  - assert (∃ e, untag doc = YMapping e ∧ yaml_assoc "spec" e = Some spec) as (e & He & Hes).
    { unfold yaml_get in Es. destruct (untag doc); try done. eauto. }
    assert (∀ k, k ≠ "spec" →
      yaml_get k (on_mapping (yaml_update "spec" (on_mapping one_replica spec)) doc) = yaml_get k doc) as Hk.
    { intros k Hk. rewrite yaml_get_on_mapping. unfold yaml_get. rewrite He.
      by apply yaml_update_get_ne. }
    split; [intros; by apply Hk|]. split; [by apply Hk|].
    exists (on_mapping one_replica spec). split.
    + rewrite yaml_get_on_mapping, He. apply yaml_update_get. by eexists.
    + intros e' He' k. by eapply one_replica_get.
  - destruct (yaml_get "replicas" doc) as [r|] eqn:Er.
    + assert (∃ e, untag doc = YMapping e) as [e He].
      { unfold yaml_get in Er. destruct (untag doc); try done. eauto. }
      split; [|by rewrite (one_replica_get _ _ _ He), decide_True, decide_True by (done || by eexists)].
      intros k _ Hk. by rewrite (one_replica_get _ _ _ He), decide_False.
    + split; [done|]. rewrite decide_False; [done|]. by intros [? ?].
Qed.

End properties.

(** ** Concrete runs *)

Section witnesses.
Import Toy.
#[local] Instance demo_display : FloatDisplay := {| f64_display _ := "1" |}.

Definition demo_blob : list byte :=
  match encrypt_payload_for_recipient [x05] (replicate 12 x07) [x01] (as_bytes "name: web") with
  | Ok b => b
  | Err _ => []
  end.

Definition demo_manifest_json : string :=
  base64_encode (finish_envelope
    {| env_payload := Some demo_blob; env_payload_type := Some "manifest"; env_nonce := Some "m";
       env_ts := 1; env_alg := None; env_sig := None; env_pubkey := None; env_kem_pubkey := None;
       env_peer_id := None |}).

Definition demo_apply : ApplyRequest :=
  {| ar_replicas := 3; ar_operation_id := Some "op"; ar_manifest_json := Some demo_manifest_json;
     ar_origin_peer := None; ar_manifest_id := Some "id1" |}.

#[local] Instance demo_messages : Messages :=
  {| root_as_apply_request _ := Some demo_apply; root_as_delete_request _ := None;
     root_as_capacity_request _ := None; root_as_capacity_reply _ := None;
     root_as_handshake _ := None; finish_capacity_request _ := []; finish_capacity_reply _ := [];
     finish_handshake _ := [] |}.

Definition demo_request : list byte :=
  match sign_with_existing_keypair "uuid" 7 [x01] "apply" demo_config [x0a] [x0a] with
  | Ok e => signed_bytes e
  | Err _ => []
  end.

Definition demo_state : NodeState :=
  {| RUNTIME_REGISTRY := Some (register (mock_engine MockConfig_default (S754_zero false)) registry_new);
     PROVIDER_MANAGER := Some (ProviderManager_new ProviderConfig_default);
     RESOURCE_VERIFIER := insert_reservation 0 "r1" (Some "id1")
       (ResourceRequest_new None None None 1) ResourceVerifier_new;
     MANIFEST_OWNER_MAP := ∅; NONCE_STORE := ∅; engine_world := ∅;
     swarm_kad := @nil (string * string) : @kad Toy.peers Toy.kademlia |}.

Definition demo_keys : result string (list byte * list byte) := Ok ([x01], [x01]).

Definition demo_outcome :=
  handle_apply_request demo_keys false (λ _, None) 1 (toy_peer x02) demo_request demo_state.

End witnesses.
