(* ===== verification/EngineHost.v ===== *)
(** * The host of the container engines

    What the Podman and Docker engines use of the machine: external commands and
    temporary files. A command is run on the containers [C] of the host; what it
    prints and does is the class [Host]. File operations can fail: their outcomes
    are the record [file_io]. *)

From S2P Require Import Prelude RustStr Utf8 Serde Runtime MockEngine WorkloadIntegration.

(** [Command::new(program).args(args)], with the engine host given in the
    environment. *)
Record command := {
  cmd_program : string;
  cmd_args : list string;
  cmd_host : option string;
}.

Record Output := { out_success : bool; out_stdout : list byte; out_stderr : list byte }.

(** The external programs; they see the temporary files. *)
Class Host (C : Type) := {
  run_command : command → gmap string (list byte) → C → result string Output * C;
}.

Record HostWorld (C : Type) := {
  containers : C;
  temp_files : gmap string (list byte);
}.
Arguments containers {C} _.
Arguments temp_files {C} _.

Definition set_containers {C} c (w : HostWorld C) : HostWorld C :=
  {| containers := c; temp_files := temp_files w |}.
Definition set_temp_files {C} f (w : HostWorld C) : HostWorld C :=
  {| containers := containers w; temp_files := f |}.

(** Errors of creating and of writing the file, whether removing it works, and
    whether its path is valid UTF-8. *)
Record file_io := {
  create_error : option string;
  write_error : option string;
  remove_works : bool;
  path_is_utf8 : bool;
}.

(** What a deployment reads from its environment: the temporary directory, the
    UUID drawn for its file, the outcomes of the file operations. *)
Record deploy_env := {
  env_temp_dir : string;
  env_uuid : string;
  env_io : file_io;
}.

(** [dir.join(name)] *)
Definition path_join (dir name : string) : string :=
  if decide (dir = "") then name
  else if ends_with "/" dir then dir +:+ name else dir +:+ "/" +:+ name.

Section files.
Context {C : Type}.
Implicit Types w : HostWorld C.

(** [process_command_output], shared by the engines. *)
Definition process_command_output (o : Output) : result RuntimeError string :=
  if out_success o then Ok (from_utf8_lossy (out_stdout o))
  else Err (CommandFailed (from_utf8_lossy (out_stderr o))).

Definition run `{Host C} (cmd : command) w : result RuntimeError string * HostWorld C :=
  let '(r, c) := run_command cmd (temp_files w) (containers w) in
  (match r with Ok o => process_command_output o | Err e => Err (IoError e) end, set_containers c w).

(** Creates the file, writes it, flushes it. A failed write leaves it empty. *)
Definition write_temp_file (io : file_io) (path : string) (content : list byte) w :
    result RuntimeError () * HostWorld C :=
  match create_error io with
  | Some e => (Err (IoError e), w)
  | None =>
      match write_error io with
      | Some e => (Err (IoError e), set_temp_files (<[path := []]> (temp_files w)) w)
      | None => (Ok (), set_temp_files (<[path := content]> (temp_files w)) w)
      end
  end.

(** [cleanup_temp_file]: a failure is only logged. *)
Definition cleanup_temp_file (io : file_io) (path : string) w : HostWorld C :=
  if remove_works io then set_temp_files (delete path (temp_files w)) w else w.

End files.

(** ** Reading JSON and YAML *)

Definition json_as_array (v : json) : option (list json) :=
  match v with JArray l => Some l | _ => None end.

Definition yaml_str_field (k : string) (v : yaml) : option string := yaml_get k v ≫= yaml_as_str.

(** An update through [get_mut(k)]. *)
Definition yaml_modify (k : string) (f : yaml → yaml) (v : yaml) : yaml :=
  on_mapping (λ entries, match yaml_assoc k entries with
                         | Some x => yaml_update k (f x) entries
                         | None => entries
                         end) v.

(** ** Lemmas *)

Lemma yaml_modify_get k f v x :
  yaml_get k v = Some x → yaml_get k (yaml_modify k f v) = Some (f x).
Proof.
  unfold yaml_get, yaml_modify. rewrite untag_on_mapping. destruct (untag v); try done.
  intros Hx. rewrite Hx. apply yaml_update_get. by eexists.
Qed.

Lemma yaml_modify_get_ne k k' f v : k ≠ k' → yaml_get k' (yaml_modify k f v) = yaml_get k' v.
Proof.
  intros Hne. unfold yaml_get, yaml_modify. rewrite untag_on_mapping. destruct (untag v); try done.
  destruct (yaml_assoc k entries); [|done]. by apply yaml_update_get_ne.
Qed.

Lemma yaml_modify_none k f v : yaml_get k v = None → yaml_get k (yaml_modify k f v) = None.
Proof.
  unfold yaml_get, yaml_modify. rewrite untag_on_mapping. destruct (untag v); try done.
  intros Hx. by rewrite Hx.
Qed.

Section file_lemmas.
Context {C : Type}.
Implicit Types w : HostWorld C.

(** A file that was written and removed leaves no trace. *)
Lemma cleanup_restores io path content w c :
  remove_works io = true → temp_files w !! path = None →
  temp_files (cleanup_temp_file io path
    (set_containers c (set_temp_files (<[path := content]> (temp_files w)) w))) = temp_files w.
Proof.
  intros Hr Hp. unfold cleanup_temp_file. rewrite Hr. simpl. by rewrite delete_insert_id.
Qed.

Lemma run_files `{Host C} cmd w : temp_files (run cmd w).2 = temp_files w.
Proof. unfold run. by destruct (run_command _ _ _). Qed.

End file_lemmas.
