(* ===== verification/Podman.v ===== *)
(** * The Podman engine ([runtime/engines/podman.rs])

    Kubernetes manifests played with [podman kube play], locally or over a
    socket; pods are named after the manifest. The engine draws a UUID for its
    temporary file; [temp_dir] is [std::env::temp_dir()]. *)

From Stdlib Require Import SpecFloat.
From S2P Require Import Prelude RustStr Utf8 Serde Libp2p Concrete Runtime MockEngine WorkloadIntegration EngineHost.

Open Scope rust_scope.
Open Scope list_scope.

(** ** Configuration *)

Record PodmanEngine := {
  podman_binary : string;
  podman_socket : option string;
  force_remote : bool;
}.

(** The process-wide overrides. *)
Record PodmanConfig := { PODMAN_SOCKET_OVERRIDE : option string; PODMAN_FORCE_REMOTE : bool }.

Definition normalize_socket (value : string) : string :=
  if str_contains "://" value then value else "unix://" +:+ value.

Definition configure_runtime (socket : option string) (remote : bool) : PodmanConfig :=
  {| PODMAN_SOCKET_OVERRIDE :=
       value ← socket;
       if decide (trim value = "") then None else Some (normalize_socket (trim value));
     PODMAN_FORCE_REMOTE := remote |}.

(** [configure_podman_runtime] of [runtime/mod.rs]: a socket given on the command
    line, even an empty one, forces remote execution. *)
Definition configure_podman_runtime (socket : option string) : PodmanConfig :=
  configure_runtime socket (bool_decide (is_Some socket)).

Definition detect_podman_socket (c : PodmanConfig) : option string := PODMAN_SOCKET_OVERRIDE c.

Definition PodmanEngine_with_binary (binary_path : string) (c : PodmanConfig) : PodmanEngine :=
  {| podman_binary := binary_path; podman_socket := detect_podman_socket c;
     force_remote := PODMAN_FORCE_REMOTE c |}.

Definition PodmanEngine_new (c : PodmanConfig) : PodmanEngine := PodmanEngine_with_binary "podman" c.

(** ** Commands *)

Definition is_socket_connection_error (stderr : string) : bool :=
  let lower := to_ascii_lowercase stderr in
  str_contains "dial unix" lower || str_contains "connect:" lower
  || str_contains "connection refused" lower || str_contains "no such file or directory" lower.

Section commands.
Context {C : Type} `{Host C} (e : PodmanEngine).
Implicit Types (w : HostWorld C) (args : list string).

Definition execute_command_with_socket args (socket : string) w :
    result RuntimeError string * HostWorld C :=
  run {| cmd_program := podman_binary e; cmd_args := ["--remote"; "--url"; socket] ++ args;
         cmd_host := Some socket |} w.

Definition execute_command_local args w : result RuntimeError string * HostWorld C :=
  run {| cmd_program := podman_binary e; cmd_args := args; cmd_host := None |} w.

(** Whether a failed remote command may be retried on the local engine. *)
Definition falls_back (err : RuntimeError) : bool :=
  negb (force_remote e) &&
  match err with CommandFailed stderr => is_socket_connection_error stderr | _ => false end.

Definition execute_command args w : result RuntimeError string * HostWorld C :=
  match podman_socket e with
  | Some socket =>
      match execute_command_with_socket args socket w with
      | (Ok output, w) => (Ok output, w)
      | (Err err, w) => if falls_back err then execute_command_local args w else (Err err, w)
      end
  | None =>
      if force_remote e then
        (Err (CommandFailed "Podman socket command failed and fallback disabled"), w)
      else execute_command_local args w
  end.

Definition podman_is_available w : bool :=
  match podman_socket e with
  | Some socket => is_ok (execute_command_with_socket ["--version"] socket w).1
  | None => if force_remote e then false else is_ok (execute_command_local ["--version"] w).1
  end.

End commands.

(** ** Manifests *)

Section manifests.
Context `{Serde}.

Definition podman_parse_manifest_metadata (manifest_content : list byte) : gmap string string :=
  match yaml_from_str (from_utf8_lossy manifest_content) with
  | Some doc =>
      let metadata := insert_opt "apiVersion" (yaml_str_field "apiVersion" doc)
                        (insert_opt "kind" (yaml_str_field "kind" doc) ∅) in
      match yaml_get "metadata" doc with
      | Some meta =>
          insert_opt "namespace" (yaml_str_field "namespace" meta)
            (insert_opt "name" (yaml_str_field "name" meta) metadata)
      | None => metadata
      end
  | None => ∅
  end.

Definition podman_validate_manifest (manifest_content : list byte) : result RuntimeError () :=
  match yaml_from_str (from_utf8_lossy manifest_content) with
  | Some doc =>
      match yaml_get "apiVersion" doc with
      | None => Err (InvalidManifest "Missing apiVersion field")
      | Some _ =>
          match yaml_get "kind" doc with
          | None => Err (InvalidManifest "Missing kind field")
          | Some _ => Ok ()
          end
      end
  | None => Err (InvalidManifest "YAML parse error")
  end.

(** The pod and the workload are named after the manifest. *)
Definition pod_name_of (manifest_id : string) : string := "beemesh-" +:+ manifest_id.

Definition podman_generate_workload_id (manifest_id : string) (manifest_content : list byte) : string :=
  pod_name_of manifest_id.

Definition set_name (name : string) : yaml → yaml := on_mapping (yaml_insert "name" (YString name)).

(** The names of the manifest and of its pod template. *)
Definition rename_manifest (manifest_id : string) (doc : yaml) : yaml :=
  let pod_name := pod_name_of manifest_id in
  yaml_modify "spec" (yaml_modify "template" (yaml_modify "metadata" (set_name (pod_name +:+ "-pod"))))
    (yaml_modify "metadata" (set_name pod_name) doc).

Definition modified_manifest (manifest_content : list byte) (manifest_id : string) :
    result RuntimeError string :=
  let? doc := ok_or (InvalidManifest "YAML parse error")
                (yaml_from_str (from_utf8_lossy manifest_content)) in
  ok_or (InvalidManifest "YAML serialize error") (yaml_to_string (rename_manifest manifest_id doc)).

End manifests.

(** ** Deployment *)

(** [for (key, value) in &config.runtime_options]: the order is the map's. *)
Definition option_args (options : gmap string string) : list string :=
  concat ((λ '(key, value),
    if decide (key = "network") then ["--network"; value]
    else if decide (key = "volume") then ["--volume"; value]
    else if decide (key = "security-opt") then ["--security-opt"; value]
    else []) <$> map_to_list options).

(** The arguments of [deploy_workload] before the file. *)
Definition play_args `{FloatDisplay} (config : DeploymentConfig) : list string :=
  ["kube"; "play"; "--replace"]
  ++ (if decide (1 < replicas config) then ["--replicas"; pretty (replicas config)] else [])
  ++ match limit_memory (resources config) with
     | Some memory => ["--memory"; pretty memory +:+ "b"]
     | None => []
     end
  ++ match limit_cpu (resources config) with
     | Some cpu => ["--cpus"; f64_display cpu]
     | None => []
     end
  ++ option_args (runtime_options config).

Section operations.
Context {C : Type} `{Host C, Serde, FloatDisplay} (e : PodmanEngine).
Implicit Types (w : HostWorld C) (now : Z) (env : deploy_env).

(** The ports are never parsed; the inspections still run. *)
Definition podman_extract_port_mappings (pod_name : string) w : list PortMapping * HostWorld C :=
  match execute_command e ["pod"; "inspect"; pod_name +:+ "-pod"; "--format"; "json"] w with
  | (Ok _, w) => ([], w)
  | (Err _, w) => ([], (execute_command e ["pod"; "inspect"; pod_name; "--format"; "json"] w).2)
  end.

Definition podman_create_temp_manifest_file env (manifest_content : list byte)
    (manifest_id : string) w : result RuntimeError string * HostWorld C :=
  let temp_file := path_join (env_temp_dir env) ("beemesh-manifest-" +:+ env_uuid env +:+ ".yaml") in
  match modified_manifest manifest_content manifest_id with
  | Err err => (Err err, w)
  | Ok text =>
      let '(r, w) := write_temp_file (env_io env) temp_file (as_bytes text) w in
      (let? _ := r in Ok temp_file, w)
  end.

(** What follows the command line in both deployments. *)
Definition play_and_report env now (args : list string) (temp_file manifest_id : string)
    (workload_id : string) (metadata : gmap string string) w :
    result RuntimeError WorkloadInfo * HostWorld C :=
  let '(r, w) := execute_command e args w in
  let w := cleanup_temp_file (env_io env) temp_file w in
  match r with
  | Ok _ =>
      let '(ports, w) := podman_extract_port_mappings (pod_name_of manifest_id) w in
      (Ok {| info_id := workload_id; info_manifest_id := manifest_id; info_status := Running;
             info_metadata := metadata; info_created_at := now; info_updated_at := now;
             info_ports := ports |}, w)
  | Err err => (Err (DeploymentFailed ("Podman deployment failed: " +:+ runtime_error_text err)), w)
  end.

(** A temporary path that is not UTF-8 is refused, and the file stays. *)
Definition podman_deploy_workload env now (manifest_id : string) (manifest_content : list byte)
    (config : DeploymentConfig) w : result RuntimeError WorkloadInfo * HostWorld C :=
  match podman_validate_manifest manifest_content with
  | Err err => (Err err, w)
  | Ok _ =>
      let workload_id := podman_generate_workload_id manifest_id manifest_content in
      match podman_create_temp_manifest_file env manifest_content manifest_id w with
      | (Err err, w) => (Err err, w)
      | (Ok temp_file, w) =>
          if path_is_utf8 (env_io env) then
            play_and_report env now (play_args config ++ [temp_file]) temp_file manifest_id workload_id
              (podman_parse_manifest_metadata manifest_content) w
          else (Err (InvalidManifest "Invalid temporary file path"), w)
      end
  end.

(** The replicas, limits and options of [config] are not passed on; such a path
    panics ([unwrap]). *)
Definition podman_deploy_workload_with_peer env now (manifest_id : string)
    (manifest_content : list byte) (config : DeploymentConfig) (local_peer_id : string) w :
    option (result RuntimeError WorkloadInfo * HostWorld C) :=
  match podman_validate_manifest manifest_content with
  | Err err => Some (Err err, w)
  | Ok _ =>
      let workload_id := podman_generate_workload_id manifest_id manifest_content in
      match podman_create_temp_manifest_file env manifest_content manifest_id w with
      | (Err err, w) => Some (Err err, w)
      | (Ok temp_file, w) =>
          if path_is_utf8 (env_io env) then
            Some (play_and_report env now ["kube"; "play"; "--replace"; temp_file] temp_file
                    manifest_id workload_id
                    (<["local_peer_id" := local_peer_id]>
                       (podman_parse_manifest_metadata manifest_content)) w)
          else None
      end
  end.

(** ** Queries *)

(** The listing is not looked at. *)
Definition podman_get_workload_status now (workload_id : string) w :
    result RuntimeError WorkloadInfo * HostWorld C :=
  let '(r, w) := execute_command e ["pod"; "ls"; "--format"; "json"] w in
  (let? _ := r in
   Ok {| info_id := workload_id; info_manifest_id := "unknown"; info_status := Unknown;
         info_metadata := ∅; info_created_at := now; info_updated_at := now; info_ports := [] |}, w).

(** The manifest a pod was played from, by its name. *)
Definition pod_manifest_id (pod_name : string) : string :=
  if ends_with "-pod" pod_name then
    default pod_name (strip_suffix "-pod" (default pod_name (strip_prefix "beemesh-" pod_name)))
  else default pod_name (strip_prefix "beemesh-" pod_name).

Definition pod_status (pod : json) : WorkloadStatus :=
  match json_field "Status" pod with
  | Some "Running" => Running
  | Some "Stopped" | Some "Exited" => Stopped
  | Some "Error" => Failed "Pod in error state"
  | Some "Failed" => Failed "Pod failed"
  | _ => Unknown
  end.

(** [Labels]: the entries that are strings, a later one replacing an earlier. *)
Definition pod_labels (pod : json) : gmap string string :=
  match json_get "Labels" pod with
  | Some (JObject labels) =>
      foldl (λ metadata '(key, value), insert_opt key (json_as_str value) metadata) ∅ labels
  | _ => ∅
  end.

(** [UNIX_EPOCH.checked_add(secs)]: seconds are kept in an [i64]. *)
Definition pod_created_at now (pod : json) : Z :=
  match json_field "Created" pod with
  | Some created_str =>
      let secs := default 0 (parse_uint 64 created_str) in
      if decide (secs ≤ umax 63) then secs * 1000000000 else now
  | None => now
  end.

Definition pod_workload now (pod : json) : option WorkloadInfo :=
  pod_name ← json_field "Name" pod;
  if starts_with "beemesh-" pod_name then
    let manifest_id := pod_manifest_id pod_name in
    Some {| info_id := "beemesh-" +:+ manifest_id; info_manifest_id := manifest_id;
            info_status := pod_status pod; info_metadata := pod_labels pod;
            info_created_at := pod_created_at now pod; info_updated_at := now; info_ports := [] |}
  else None.

(** What is not JSON, or not an array, lists nothing. *)
Definition pods_workloads now (output : string) : list WorkloadInfo :=
  if decide (trim output = "") then []
  else match json_from_str output ≫= json_as_array with
       | Some pods_array => omap (pod_workload now) pods_array
       | None => []
       end.

Definition podman_list_workloads now w : result RuntimeError (list WorkloadInfo) * HostWorld C :=
  let '(r, w) := execute_command e ["pod"; "ls"; "--format"; "json"] w in
  (let? output := r in Ok (pods_workloads now output), w).

(** ** Removal *)

Definition pod_rm (name : string) : list string := ["pod"; "rm"; "-f"; name].

(** The non-empty trimmed lines of an output. *)
Definition output_names (output : string) : list string :=
  filter (λ n, n ≠ "") (trim <$> str_lines output).

Definition remove_pods (ids : list string) w : HostWorld C :=
  foldl (λ w pod_id, (execute_command e (pod_rm pod_id) w).2) w ids.

Definition podman_remove_workload (workload_id : string) w : result RuntimeError () * HostWorld C :=
  match execute_command e (pod_rm (workload_id +:+ "-pod")) w with
  | (Ok _, w) => (Ok (), w)
  | (Err _, w) =>
      match execute_command e (pod_rm workload_id) w with
      | (Ok _, w) => (Ok (), w)
      | (Err _, w) =>
          match execute_command e ["pod"; "ls"; "-q"; "--filter"; "name=" +:+ workload_id] w with
          | (Ok output, w) => (Ok (), remove_pods (output_names output) w)
          | (Err err, w) => (Err err, w)
          end
      end
  end.

(** ** Logs and export *)

Definition podman_get_workload_logs (workload_id : string) (tail : option nat) w :
    result RuntimeError string * HostWorld C :=
  let tail_args := match tail with Some n => ["--tail"; pretty n] | None => [] end in
  let '(r, w) := execute_command e (["pod"; "logs"] ++ tail_args ++ [workload_id]) w in
  (Ok (match r with
       | Ok logs => logs
       | Err err => "Failed to retrieve logs: " +:+ runtime_error_text err
       end), w).

(** Tries the names in turn; the last error is kept. *)
Fixpoint try_generate (names : list string) (last_error : option RuntimeError) w :
    result (option RuntimeError) (list byte) * HostWorld C :=
  match names with
  | [] => (Err last_error, w)
  | name :: names =>
      match execute_command e ["generate"; "kube"; name] w with
      | (Ok manifest_yaml, w) => (Ok (as_bytes manifest_yaml), w)
      | (Err err, w) => try_generate names (Some err) w
      end
  end.

Definition export_error (workload_id : string) (last_error : option RuntimeError) : RuntimeError :=
  RuntimeWorkloadNotFound
    match last_error with
    | Some err => "Failed to export manifest for workload " +:+ workload_id +:+ ": "
                  +:+ runtime_error_text err
    | None => "No running pod found for workload " +:+ workload_id
    end.

Definition podman_export_manifest (workload_id : string) w :
    result RuntimeError (list byte) * HostWorld C :=
  match try_generate [workload_id +:+ "-pod"; workload_id] None w with
  | (Ok manifest, w) => (Ok manifest, w)
  | (Err last_error, w) =>
      match execute_command e ["pod"; "ls"; "--format"; "{{.Name}}"; "--filter";
                               "name=" +:+ workload_id] w with
      | (Ok output, w) =>
          let found := filter (λ n, str_contains workload_id n = true) (output_names output) in
          match try_generate found last_error w with
          | (Ok manifest, w) => (Ok manifest, w)
          | (Err last_error, w) => (Err (export_error workload_id last_error), w)
          end
      | (Err err, w) => (Err (export_error workload_id (Some err)), w)
      end
  end.

(** The trait's methods, for calls whose deployments run in [env]. The queries
    change no container: the record drops the world they return. *)
Definition podman_engine env : RuntimeEngine (HostWorld C) :=
  {| engine_name := "podman";
     is_available w := podman_is_available e w;
     deploy_workload := podman_deploy_workload env;
     get_workload_status now id w := (podman_get_workload_status now id w).1;
     list_workloads now w := (podman_list_workloads now w).1;
     remove_workload := podman_remove_workload;
     get_workload_logs id tail w := (podman_get_workload_logs id tail w).1;
     validate_manifest content w := podman_validate_manifest content;
     export_manifest id w := (podman_export_manifest id w).1 |}.

End operations.

(** ** Names *)

Lemma pod_manifest_id_suffixed id : pod_manifest_id (pod_name_of id +:+ "-pod") = id.
Proof.
  unfold pod_manifest_id, pod_name_of. rewrite ends_with_app, string_app_assoc, strip_prefix_app.
  simpl. by rewrite strip_suffix_app.
Qed.

Lemma pod_manifest_id_plain id :
  ends_with "-pod" (pod_name_of id) = false → pod_manifest_id (pod_name_of id) = id.
Proof. intros Hid. unfold pod_manifest_id. rewrite Hid. unfold pod_name_of. by rewrite strip_prefix_app. Qed.

Lemma set_name_get name v e k : untag v = YMapping e →
  yaml_get k (set_name name v) = if decide (k = "name") then Some (YString name) else yaml_get k v.
Proof.
  intros Hv. unfold set_name. rewrite yaml_get_on_mapping. unfold yaml_get. rewrite Hv.
  case_decide; [subst; apply yaml_insert_get|by apply yaml_insert_get_ne].
Qed.

(** ** Commands *)

Section execution.
Context {C : Type} `{Host C} (e : PodmanEngine).
Implicit Types (w : HostWorld C) (args : list string).

Lemma execute_command_files args w : temp_files (execute_command e args w).2 = temp_files w.
Proof.
  unfold execute_command, execute_command_with_socket, execute_command_local.
  destruct (podman_socket e) as [socket|]; [|destruct (force_remote e); [done|apply run_files]].
  pose proof (run_files {| cmd_program := podman_binary e; cmd_args := ["--remote"; "--url"; socket] ++ args;
                           cmd_host := Some socket |} w) as Hf.
  destruct (run _ w) as [[o|err] w1]; [done|]. destruct (falls_back e err); [|done].
  by rewrite run_files.
Qed.

(** An invariant of the host that no remote command breaks. *)
Context (P : C → Prop).
Hypothesis P_remote : ∀ cmd files c, is_Some (cmd_host cmd) → P c → P (run_command cmd files c).2.

Lemma run_remote cmd w : is_Some (cmd_host cmd) → P (containers w) → P (containers (run cmd w).2).
Proof.
  intros Hc HP. unfold run. pose proof (P_remote cmd (temp_files w) (containers w) Hc HP) as HP'.
  by destruct (run_command _ _ _).
Qed.

Lemma execute_remote args w : force_remote e = true →
  P (containers w) → P (containers (execute_command e args w).2).
Proof.
  intros Hforce HP. unfold execute_command, falls_back. rewrite Hforce. simpl.
  destruct (podman_socket e) as [socket|]; [|done]. unfold execute_command_with_socket.
  pose proof (run_remote {| cmd_program := podman_binary e; cmd_args := ["--remote"; "--url"; socket] ++ args;
                            cmd_host := Some socket |} w ltac:(by eexists) HP) as HP'.
  by destruct (run _ w) as [[o|err] w1].
Qed.

End execution.

(** ** What the operations do to the containers *)

Section effects.
Context {C : Type} `{Host C, Serde, FloatDisplay} (e : PodmanEngine) (Q : C → Prop).
Implicit Types (w : HostWorld C) (now : Z) (env : deploy_env).

(** Every operation reaches the containers through [execute_command] only. *)
Hypothesis Q_execute : ∀ args w, Q (containers w) → Q (containers (execute_command e args w).2).

Ltac executes :=
  match goal with
  | |- context [execute_command e ?args ?w] =>
      let HQ := fresh "HQ" in
      pose proof (Q_execute args w ltac:(eassumption)) as HQ; destruct (execute_command e args w) as [[?|?] ?];
      simpl in *
  end.

Lemma extract_port_mappings_effect pod_name w :
  Q (containers w) → Q (containers (podman_extract_port_mappings e pod_name w).2).
Proof. intros HQ0. unfold podman_extract_port_mappings. executes; [done|by apply Q_execute]. Qed.

Lemma create_temp_effect env content id w :
  containers (podman_create_temp_manifest_file env content id w).2 = containers w.
Proof.
  unfold podman_create_temp_manifest_file, write_temp_file.
  destruct (modified_manifest _ _); [|done].
  destruct (create_error (env_io env)); [done|]. by destruct (write_error (env_io env)).
Qed.

Lemma play_and_report_effect env now args temp_file id wid metadata w : Q (containers w) →
  Q (containers (play_and_report e env now args temp_file id wid metadata w).2).
Proof.
  intros HQ0. unfold play_and_report, cleanup_temp_file. executes; destruct (remove_works _); try done.
  - pose proof (extract_port_mappings_effect (pod_name_of id) (set_temp_files (delete temp_file (temp_files h)) h) HQ) as HQ2.
    by destruct (podman_extract_port_mappings _ _ _).
  - pose proof (extract_port_mappings_effect (pod_name_of id) h HQ) as HQ2.
    by destruct (podman_extract_port_mappings _ _ _).
Qed.

Lemma deploy_workload_effect env now id content config w :
  Q (containers w) → Q (containers (podman_deploy_workload e env now id content config w).2).
Proof.
  intros HQ0. unfold podman_deploy_workload. destruct (podman_validate_manifest content); [|done].
  pose proof (create_temp_effect env content id w) as Hc. rewrite <- Hc in HQ0.
  destruct (podman_create_temp_manifest_file _ _ _ _) as [[temp_file|err] w1]; [|done].
  destruct (path_is_utf8 _); [|done]. by apply play_and_report_effect.
Qed.

Lemma deploy_with_peer_effect env now id content config peer w r w' : Q (containers w) →
  podman_deploy_workload_with_peer e env now id content config peer w = Some (r, w') → Q (containers w').
Proof.
  intros HQ0. unfold podman_deploy_workload_with_peer. destruct (podman_validate_manifest content); [|naive_solver].
  pose proof (create_temp_effect env content id w) as Hc. rewrite <- Hc in HQ0.
  destruct (podman_create_temp_manifest_file _ _ _ _) as [[temp_file|err] w1]; [|naive_solver].
  destruct (path_is_utf8 _); [|done]. intros [= Hr].
  change w' with (r, w').2. rewrite <- Hr. by apply play_and_report_effect.
Qed.

Lemma remove_pods_effect ids w : Q (containers w) → Q (containers (remove_pods e ids w)).
Proof.
  unfold remove_pods. revert w. induction ids as [|id ids IH]; intros w HQ0; [done|].
  by apply IH, Q_execute.
Qed.

Lemma remove_workload_effect wid w :
  Q (containers w) → Q (containers (podman_remove_workload e wid w).2).
Proof.
  intros HQ0. unfold podman_remove_workload. executes; [done|]. executes; [done|].
  executes; [|done]. by apply remove_pods_effect.
Qed.

Lemma try_generate_effect names last w :
  Q (containers w) → Q (containers (try_generate e names last w).2).
Proof.
  revert last w. induction names as [|name names IH]; intros last w HQ0; [done|].
  simpl. executes; [done|]. by apply IH.
Qed.

Lemma export_effect wid w : Q (containers w) → Q (containers (podman_export_manifest e wid w).2).
Proof.
  intros HQ0. unfold podman_export_manifest.
  pose proof (try_generate_effect [wid +:+ "-pod"; wid] None w HQ0) as HQ1.
  destruct (try_generate _ _ _ _) as [[m|last] w1]; [done|]. simpl in *.
  executes; [|done].
  match goal with |- context [try_generate e ?names last ?w1] =>
    pose proof (try_generate_effect names last w1 HQ) as HQ2; by destruct (try_generate e names last w1) as [[m|last'] w2]
  end.
Qed.

Lemma query_effect now wid tail w : Q (containers w) →
  Q (containers (podman_get_workload_status e now wid w).2) ∧
  Q (containers (podman_list_workloads e now w).2) ∧
  Q (containers (podman_get_workload_logs e wid tail w).2).
Proof.
  intros HQ0. unfold podman_get_workload_status, podman_list_workloads, podman_get_workload_logs.
  split_and!; executes; done.
Qed.

End effects.

(** an engine configured with a socket on the command line never touches
    the local containers: whatever no remote command can change, no operation
    of the engine changes, whether the deployments, removals, queries and
    exports succeed or fail. *)
Theorem podman_remote_only {C} `{Host C, Serde, FloatDisplay} binary socket (P : C → Prop)
    env now id content config peer wid tail (w : HostWorld C) :
  let e := PodmanEngine_with_binary binary (configure_podman_runtime (Some socket)) in
  (∀ cmd files c, is_Some (cmd_host cmd) → P c → P (run_command cmd files c).2) →
  P (containers w) →
  P (containers (podman_deploy_workload e env now id content config w).2) ∧
  (∀ r w', podman_deploy_workload_with_peer e env now id content config peer w = Some (r, w') →
           P (containers w')) ∧
  P (containers (podman_remove_workload e wid w).2) ∧
  P (containers (podman_get_workload_status e now wid w).2) ∧
  P (containers (podman_list_workloads e now w).2) ∧
  P (containers (podman_get_workload_logs e wid tail w).2) ∧
  P (containers (podman_export_manifest e wid w).2).
Proof.
  intros e HP HPw.
  assert (∀ args w, P (containers w) → P (containers (execute_command e args w).2)) as Hx.
  { intros args w1. by apply execute_remote. }
  pose proof (query_effect e P Hx now wid tail w HPw) as (Hst & Hls & Hlg).
  split_and!; try done.
  - by apply deploy_workload_effect.
  - intros r w'. by apply deploy_with_peer_effect.
  - by apply remove_workload_effect.
  - by apply export_effect.
Qed.

(** the manifest that is played carries the names the engine looks for. Its
    metadata is named after the manifest identifier and its pod template after
    that with the suffix Podman's pods have, from which the listing recovers the
    identifier; every other field of the document, of its metadata and of its
    template is untouched. *)
Theorem rename_manifest_names id doc meta me spec template tmeta te :
  yaml_get "metadata" doc = Some meta → untag meta = YMapping me →
  yaml_get "spec" doc = Some spec → yaml_get "template" spec = Some template →
  yaml_get "metadata" template = Some tmeta → untag tmeta = YMapping te →
  ∃ meta' spec' template' tmeta' pod,
    yaml_get "metadata" (rename_manifest id doc) = Some meta' ∧
    yaml_get "spec" (rename_manifest id doc) = Some spec' ∧
    yaml_get "template" spec' = Some template' ∧ yaml_get "metadata" template' = Some tmeta' ∧
    yaml_str_field "name" meta' = Some (podman_generate_workload_id id []) ∧
    yaml_str_field "name" tmeta' = Some pod ∧ pod_manifest_id pod = id ∧
    (∀ k, k ≠ "metadata" → k ≠ "spec" → yaml_get k (rename_manifest id doc) = yaml_get k doc) ∧
    (∀ k, k ≠ "name" → yaml_get k meta' = yaml_get k meta ∧ yaml_get k tmeta' = yaml_get k tmeta) ∧
    (∀ k, k ≠ "template" → yaml_get k spec' = yaml_get k spec) ∧
    (∀ k, k ≠ "metadata" → yaml_get k template' = yaml_get k template).
Proof.
  intros Hm Hme Hs Ht Htm Hte. unfold rename_manifest.
  eexists _, _, _, _, _. split_and!.
  - rewrite yaml_modify_get_ne by done. by apply yaml_modify_get.
  - apply yaml_modify_get. by rewrite yaml_modify_get_ne.
  - by apply yaml_modify_get.
  - by apply yaml_modify_get.
  - unfold yaml_str_field. erewrite set_name_get by done. done.
  - unfold yaml_str_field. erewrite set_name_get by done. done.
  - apply pod_manifest_id_suffixed.
  - intros k Hk1 Hk2. by rewrite !yaml_modify_get_ne.
  - intros k Hk. erewrite !set_name_get by done. by rewrite !decide_False.
  - intros k Hk. by rewrite yaml_modify_get_ne.
  - intros k Hk. by rewrite yaml_modify_get_ne.
Qed.

(** ** The command line of a deployment *)

Section flags.
Context `{FloatDisplay}.
Implicit Types (config : DeploymentConfig) (flag value : string).

(** The options that are passed on; each is the flag of its name. *)
Definition passed_options : list string := ["network"; "volume"; "security-opt"].

(** The flags a configuration asks for. *)
Definition asked_flag config flag value : Prop :=
  (flag = "--replicas" ∧ 1 < replicas config ∧ value = pretty (replicas config)) ∨
  (flag = "--memory" ∧ ∃ memory, limit_memory (resources config) = Some memory ∧ value = pretty memory +:+ "b") ∨
  (flag = "--cpus" ∧ ∃ cpu, limit_cpu (resources config) = Some cpu ∧ value = f64_display cpu) ∨
  (∃ key, key ∈ passed_options ∧ flag = "--" +:+ key ∧ runtime_options config !! key = Some value).

Definition flag_args (flags : list (string * string)) : list string :=
  concat ((λ f, [f.1; f.2]) <$> flags).

Lemma flag_args_app l1 l2 : flag_args (l1 ++ l2) = flag_args l1 ++ flag_args l2.
Proof. unfold flag_args. by rewrite fmap_app, concat_app. Qed.

Definition option_flags (l : list (string * string)) : list (string * string) :=
  (λ kv, ("--" +:+ kv.1, kv.2)) <$> filter (λ kv, kv.1 ∈ passed_options) l.

Lemma option_args_flags options : option_args options = flag_args (option_flags (map_to_list options)).
Proof.
  unfold option_args, option_flags. generalize (map_to_list options). intros l.
  induction l as [|[key value] l IH]; [done|]. cbn [fmap list_fmap concat]. rewrite IH, filter_cons. clear IH.
  unfold passed_options. cbn [fst].
  destruct (decide (key = "network")) as [->|H1]; [by rewrite decide_True by (by left)|].
  destruct (decide (key = "volume")) as [->|H2]; [by rewrite decide_True by (right; by left)|].
  destruct (decide (key = "security-opt")) as [->|H3]; [by rewrite decide_True by (do 2 right; by left)|].
  rewrite decide_False; [done|]. set_solver.
Qed.

Lemma option_flags_NoDup (options : gmap string string) : NoDup (option_flags (map_to_list options)).*1.
Proof.
  unfold option_flags. rewrite <- list_fmap_compose.
  change (NoDup ((String.append "--" ∘ fst) <$> filter (λ kv, kv.1 ∈ passed_options) (map_to_list options))).
  eapply sublist_NoDup; [|apply sublist_map, sublist_filter].
  rewrite (list_fmap_compose fst (String.append "--")). apply NoDup_fmap_2; [intros x y Hxy; by injection Hxy|].
  apply NoDup_fst_map_to_list.
Qed.

Lemma option_flags_elem (options : gmap string string) flag value :
  (flag, value) ∈ option_flags (map_to_list options) ↔
  ∃ key, key ∈ passed_options ∧ flag = "--" +:+ key ∧ options !! key = Some value.
Proof.
  unfold option_flags. rewrite list_elem_of_fmap. setoid_rewrite list_elem_of_filter. split.
  - intros ([key v] & [= -> ->] & Hk & ?%elem_of_map_to_list). eauto.
  - intros (key & Hk & -> & Hv). exists (key, value). by rewrite elem_of_map_to_list.
Qed.

(** The flags of [play_args], as the configuration asks for them. *)
Lemma play_args_flags config :
  ∃ flags, play_args config = ["kube"; "play"; "--replace"] ++ flag_args flags ∧ NoDup flags.*1 ∧
    ∀ flag value, (flag, value) ∈ flags ↔ asked_flag config flag value.
Proof.
  exists ((if decide (1 < replicas config) then [("--replicas", pretty (replicas config))] else [])
    ++ match limit_memory (resources config) with Some m => [("--memory", pretty m +:+ "b")] | None => [] end
    ++ match limit_cpu (resources config) with Some c => [("--cpus", f64_display c)] | None => [] end
    ++ option_flags (map_to_list (runtime_options config))).
  assert (Hopt : ∀ f, f ∈ (option_flags (map_to_list (runtime_options config))).*1 →
    f ∈ ["--network"; "--volume"; "--security-opt"]).
  { intros f ([f' v] & -> & (key & Hk & -> & _)%option_flags_elem)%list_elem_of_fmap. unfold passed_options in Hk.
    set_solver. }
  pose proof (option_flags_NoDup (runtime_options config)) as Hnd.
  split_and!.
  - unfold play_args. rewrite !flag_args_app, option_args_flags. f_equal.
    f_equal; [by case_decide|]. f_equal; [by destruct (limit_memory _)|]. f_equal. by destruct (limit_cpu _).
  - assert (∀ f, f ∈ ["--replicas"; "--memory"; "--cpus"] →
      f ∉ (option_flags (map_to_list (runtime_options config))).*1) as Hother.
    { intros f Hf Hin%Hopt. rewrite !elem_of_cons, elem_of_nil in Hf, Hin. naive_solver. }
    pose proof (Hother "--replicas" ltac:(set_solver)). pose proof (Hother "--memory" ltac:(set_solver)).
    pose proof (Hother "--cpus" ltac:(set_solver)). rewrite !fmap_app.
    case_decide; destruct (limit_memory _), (limit_cpu _); csimpl; rewrite ?NoDup_cons, ?elem_of_cons; naive_solver.
  - intros flag value. rewrite !elem_of_app, option_flags_elem. unfold asked_flag.
    case_decide; destruct (limit_memory _), (limit_cpu _); rewrite ?list_elem_of_singleton, ?elem_of_nil; naive_solver.
Qed.

End flags.

Section behaviour.
Context {C : Type} `{Host C, Serde, FloatDisplay} (e : PodmanEngine).
Implicit Types (w : HostWorld C) (now : Z) (env : deploy_env).

Lemma extract_port_mappings_spec pod_name w :
  (podman_extract_port_mappings e pod_name w).1 = [] ∧
  temp_files (podman_extract_port_mappings e pod_name w).2 = temp_files w.
Proof.
  unfold podman_extract_port_mappings.
  pose proof (execute_command_files e ["pod"; "inspect"; pod_name +:+ "-pod"; "--format"; "json"] w) as Hf.
  destruct (execute_command _ _ w) as [[o|err] w1]; simpl in *; [done|].
  by rewrite execute_command_files.
Qed.

Lemma play_and_report_spec env now args path content id wid metadata w :
  remove_works (env_io env) = true → temp_files w !! path = None →
  let w0 := set_temp_files (<[path := content]> (temp_files w)) w in
  let '(r, w') := play_and_report e env now args path id wid metadata w0 in
  temp_files w' = temp_files w ∧
  r = match (execute_command e args w0).1 with
      | Ok _ => Ok {| info_id := wid; info_manifest_id := id; info_status := Running;
                      info_metadata := metadata; info_created_at := now; info_updated_at := now;
                      info_ports := [] |}
      | Err err => Err (DeploymentFailed ("Podman deployment failed: " +:+ runtime_error_text err))
      end.
Proof.
  intros Hr Hp w0. unfold play_and_report, cleanup_temp_file. rewrite Hr.
  pose proof (execute_command_files e args w0) as Hf.
  destruct (execute_command e args w0) as [r w1]. simpl in *.
  assert (delete path (temp_files w1) = temp_files w) as Hd by (rewrite Hf; by apply delete_insert_id).
  destruct r as [o|err]; simpl; [|done].
  pose proof (extract_port_mappings_spec (pod_name_of id) (set_temp_files (delete path (temp_files w1)) w1)) as [Hp1 Hp2].
  destruct (podman_extract_port_mappings _ _ _) as [ports w2]. simpl in *. by rewrite Hp2, Hp1.
Qed.

(** C26: for a manifest that parses and has an [apiVersion] and a [kind], when the
    temporary file can be written under a UTF-8 path and removed, a deployment
    plays exactly the renamed manifest, with one [kube play --replace] whose flags
    are those the configuration asks for: the replicas when there is more than
    one, each limit that is set, and the network, volume and security options,
    each once. It reports the outcome of that command: a running workload under
    the identifier [beemesh-<manifest id>], or a failure with the engine's
    message; and its temporary file is gone afterwards either way. *)
Theorem podman_deploy_correct env now id content config w doc text :
  let path := path_join (env_temp_dir env) ("beemesh-manifest-" +:+ env_uuid env +:+ ".yaml") in
  let w0 := set_temp_files (<[path := as_bytes text]> (temp_files w)) w in
  env_io env = {| create_error := None; write_error := None; remove_works := true; path_is_utf8 := true |} →
  temp_files w !! path = None →
  yaml_from_str (from_utf8_lossy content) = Some doc →
  is_Some (yaml_get "apiVersion" doc) → is_Some (yaml_get "kind" doc) →
  yaml_to_string (rename_manifest id doc) = Some text →
  let '(r, w') := podman_deploy_workload e env now id content config w in
  temp_files w' = temp_files w ∧
  ∃ flags, NoDup flags.*1 ∧ (∀ flag value, (flag, value) ∈ flags ↔ asked_flag config flag value) ∧
    match (execute_command e (["kube"; "play"; "--replace"] ++ flag_args flags ++ [path]) w0).1 with
    | Ok _ => ∃ i, r = Ok i ∧ info_id i = pod_name_of id ∧ info_manifest_id i = id ∧
                   info_status i = Running ∧ info_metadata i = podman_parse_manifest_metadata content
    | Err err => r = Err (DeploymentFailed ("Podman deployment failed: " +:+ runtime_error_text err))
    end.
Proof.
  destruct env as [dir uuid io]. intros path w0 Hio Hp Hdoc [v Hv] [k Hk] Ht. simpl in Hio. subst io.
  destruct (play_args_flags config) as (flags & Hargs & Hnd & Hflags).
  unfold podman_deploy_workload, podman_validate_manifest, podman_create_temp_manifest_file,
    modified_manifest. rewrite Hargs, Hdoc. simpl. rewrite Hv, Hk, Ht. simpl.
  pose proof (play_and_report_spec (Build_deploy_env dir uuid (Build_file_io None None true true)) now
    (["kube"; "play"; "--replace"] ++ flag_args flags ++ [path]) path (as_bytes text) id
    (podman_generate_workload_id id content) (podman_parse_manifest_metadata content) w) as Hs.
  specialize (Hs eq_refl Hp). simpl in path. subst path w0. simpl in *.
  destruct (play_and_report _ _ _ _ _ _ _ _ _) as [r w']. destruct Hs as [Hf ->]. split; [done|].
  exists flags. split_and!; [done..|]. destruct (execute_command _ _ _).1; [|done]. by eexists.
Qed.

(** C27: the listing finds every pod the engine played and no other. Each pod
    named after a manifest identifier, with Podman's suffix or without it, is
    listed under that identifier and under the workload identifier its
    deployment returned; a pod whose name lacks the prefix is not listed. *)
Theorem podman_list_exact now w w' output pods l content :
  execute_command e ["pod"; "ls"; "--format"; "json"] w = (Ok output, w') →
  trim output ≠ "" → json_from_str output = Some (JArray pods) →
  podman_list_workloads e now w = (Ok l, w') →
  (∀ pod id, pod ∈ pods →
     json_field "Name" pod = Some (pod_name_of id +:+ "-pod") ∨
     (json_field "Name" pod = Some (pod_name_of id) ∧ ends_with "-pod" (pod_name_of id) = false) →
     ∃ i, i ∈ l ∧ info_manifest_id i = id ∧ info_id i = podman_generate_workload_id id content ∧
          info_status i = pod_status pod) ∧
  (∀ i, i ∈ l → ∃ pod name, pod ∈ pods ∧ json_field "Name" pod = Some name ∧
     starts_with "beemesh-" name = true ∧ info_id i = "beemesh-" +:+ info_manifest_id i) ∧
  (length l ≤ length pods)%nat.
Proof.
  unfold podman_list_workloads, pods_workloads. intros -> Ht Hj. simpl. rewrite decide_False, Hj by done.
  simpl. intros [= <-]. split_and!.
  - intros pod id Hpod Hname.
    assert (∃ name, json_field "Name" pod = Some name ∧ starts_with "beemesh-" name = true ∧
              pod_manifest_id name = id) as (name & Hn & Hs & Hm).
    { destruct Hname as [Hn|[Hn He]]; eexists; (split; [exact Hn|]); split.
      - unfold pod_name_of. rewrite string_app_assoc. apply starts_with_app.
      - apply pod_manifest_id_suffixed.
      - apply starts_with_app.
      - by apply pod_manifest_id_plain. }
    eexists. split_and!; [apply list_elem_of_omap; exists pod; split; [done|]|..].
    { unfold pod_workload. rewrite Hn. cbn -[starts_with]. rewrite Hs. reflexivity. }
    all: simpl; by rewrite ?Hm.
  - intros i (pod & Hpod & Hi)%list_elem_of_omap. unfold pod_workload in Hi.
    destruct (json_field "Name" pod) as [name|] eqn:En; [|done]. cbn -[starts_with] in Hi.
    destruct (starts_with "beemesh-" name) eqn:Es; [|done]. simplify_eq. eauto 10.
  - clear. induction pods as [|p ps IH]; [done|]. cbn -[pod_workload].
    destruct (pod_workload now p); cbn -[pod_workload]; [by apply le_n_S|by apply le_S].
Qed.

End behaviour.

(** ** Removal against Podman's documented behaviour *)

(** The pods of the host, identifier to name. [pod rm -f] takes a pod's name or
    its identifier and fails when there is none; [--filter name=] matches a part
    of the name; [-q] prints one identifier per line. Names the engine gives
    (prefix [beemesh-]) are never identifiers. *)
Class PodmanPods (C : Type) `{Host C} (binary : string) := {
  pods : C → gmap string string;
  pod_rm_name x files c : starts_with "beemesh-" x = true →
    ∃ o c', run_command {| cmd_program := binary; cmd_args := pod_rm x; cmd_host := None |} files c = (Ok o, c') ∧
      out_success o = bool_decide (x ∈ (map_to_list (pods c)).*2) ∧
      pods c' = filter (λ p, p.2 ≠ x) (pods c);
  pod_rm_id x files c : is_Some (pods c !! x) →
    ∃ o c', run_command {| cmd_program := binary; cmd_args := pod_rm x; cmd_host := None |} files c = (Ok o, c') ∧
      out_success o = true ∧ pods c' = delete x (pods c);
  pod_ls_filter x files c :
    ∃ o c', run_command {| cmd_program := binary; cmd_args := ["pod"; "ls"; "-q"; "--filter"; "name=" +:+ x];
                           cmd_host := None |} files c = (Ok o, c') ∧
      out_success o = true ∧ pods c' = pods c ∧
      NoDup (output_names (from_utf8_lossy (out_stdout o))) ∧
      ∀ id, id ∈ output_names (from_utf8_lossy (out_stdout o)) ↔
            ∃ name, pods c !! id = Some name ∧ str_contains x name = true;
}.

(** [pod ls --format json] prints the pods as an array, a name each; names are
    unique. *)
Class PodmanListing (C : Type) `{PodmanPods C binary, Serde} : Prop := {
  pod_ls_json files c :
    ∃ o c' arr, run_command {| cmd_program := binary; cmd_args := ["pod"; "ls"; "--format"; "json"];
                               cmd_host := None |} files c = (Ok o, c') ∧
      out_success o = true ∧ trim (from_utf8_lossy (out_stdout o)) ≠ "" ∧
      json_from_str (from_utf8_lossy (out_stdout o)) = Some (JArray arr) ∧
      omap (json_field "Name") arr ≡ₚ (map_to_list (pods c)).*2;
  pod_names_unique c : NoDup (map_to_list (pods c)).*2;
}.

Definition has_pod {C} `{PodmanPods C binary} (name : string) (c : C) : bool :=
  bool_decide (name ∈ (map_to_list (pods c)).*2).

Section removal.
Context {C : Type} `{PodmanPods C binary}.
Implicit Types w : HostWorld C.

Definition local_engine : PodmanEngine := PodmanEngine_with_binary binary (configure_podman_runtime None).

Lemma filter_absent name c : has_pod name c = false → filter (λ p, p.2 ≠ name) (pods c) = pods c.
Proof.
  intros Hn%bool_decide_eq_false. apply map_filter_id. intros i n Hi ?. simpl in *. subst n. apply Hn, list_elem_of_fmap.
  exists (i, name). split; [done|]. by apply elem_of_map_to_list.
Qed.

Lemma execute_rm_name x w : starts_with "beemesh-" x = true →
  let '(r, w') := execute_command local_engine (pod_rm x) w in
  is_ok r = has_pod x (containers w) ∧
  pods (containers w') = filter (λ p, p.2 ≠ x) (pods (containers w)).
Proof.
  intros Hx. destruct (pod_rm_name x (temp_files w) (containers w) Hx) as (o & c' & Hrun & Hok & Hp).
  cbn. unfold execute_command_local, run. simpl. rewrite Hrun. simpl. split; [|done].
  unfold process_command_output, has_pod. rewrite <- Hok. by destruct (out_success o).
Qed.

Lemma remove_pods_spec ids w : NoDup ids → (∀ id, id ∈ ids → is_Some (pods (containers w) !! id)) →
  pods (containers (remove_pods local_engine ids w)) = filter (λ p, p.1 ∉ ids) (pods (containers w)).
Proof.
  unfold remove_pods. revert w. induction ids as [|id ids IH]; intros w Hnd Hin; simpl.
  { symmetry. apply map_filter_id. intros. apply not_elem_of_nil. }
  apply NoDup_cons in Hnd as [Hid Hnd].
  destruct (pod_rm_id id (temp_files w) (containers w)) as (o & c' & Hrun & Hok & Hp).
  { apply Hin. by left. }
  assert (pods (containers (execute_command local_engine (pod_rm id) w).2) = delete id (pods (containers w))) as Hd.
  { cbn. unfold execute_command_local, run. simpl. by rewrite Hrun. }
  rewrite IH; [|done|].
  - rewrite Hd. apply map_eq. intros j. apply option_eq. intros n.
    rewrite !map_lookup_filter_Some, lookup_delete_Some, not_elem_of_cons. simpl. naive_solver.
  - intros j Hj. rewrite Hd, lookup_delete_ne by (by intros ->). apply Hin. by right.
Qed.

(** The last resort: every pod whose name contains the identifier. *)
Lemma remove_listed_spec x w :
  let '(r, w1) := execute_command local_engine ["pod"; "ls"; "-q"; "--filter"; "name=" +:+ x] w in
  ∃ output, r = Ok output ∧
    pods (containers (remove_pods local_engine (output_names output) w1)) =
    filter (λ p, str_contains x p.2 = false) (pods (containers w)).
Proof.
  destruct (pod_ls_filter x (temp_files w) (containers w)) as (o & c' & Hrun & Hok & Hp & Hnd & Hids).
  cbn -[remove_pods]. unfold execute_command_local, run. simpl. rewrite Hrun.
  unfold process_command_output. rewrite Hok. eexists. split; [done|].
  rewrite remove_pods_spec; simpl; [|done|].
  - rewrite Hp. apply map_eq. intros j. apply option_eq. intros n.
    rewrite !map_lookup_filter_Some, Hids. cbn [fst snd].
    split; intros [Hn Hc]; (split; [done|]).
    + destruct (str_contains x n) eqn:E; [|done]. destruct Hc. by exists n.
    + intros (n' & Hn' & Ht). congruence.
  - intros j (n & Hn & _)%Hids. rewrite Hp. by exists n.
Qed.

Lemma remove_workload_spec id w :
  let wid := podman_generate_workload_id id [] in
  let before := pods (containers w) in
  let '(r, w') := podman_remove_workload local_engine wid w in
  r = Ok () ∧
  pods (containers w') =
    if has_pod (wid +:+ "-pod") (containers w) then filter (λ p, p.2 ≠ wid +:+ "-pod") before
    else if has_pod wid (containers w) then filter (λ p, p.2 ≠ wid) before
    else filter (λ p, str_contains wid p.2 = false) before.
Proof.
  intros wid before. unfold podman_remove_workload.
  assert (starts_with "beemesh-" wid = true) as Hw by apply starts_with_app.
  assert (starts_with "beemesh-" (wid +:+ "-pod") = true) as Hwp.
  { unfold wid, podman_generate_workload_id, pod_name_of. rewrite string_app_assoc. apply starts_with_app. }
  pose proof (execute_rm_name (wid +:+ "-pod") w Hwp) as Hs.
  destruct (execute_command _ (pod_rm (wid +:+ "-pod")) w) as [r1 w1]. destruct Hs as [Hr1 Hp1].
  rewrite <- Hr1. destruct r1 as [o1|e1]; simpl; [done|].
  rewrite filter_absent in Hp1 by done.
  pose proof (execute_rm_name wid w1 Hw) as Hs.
  destruct (execute_command _ (pod_rm wid) w1) as [r2 w2]. destruct Hs as [Hr2 Hp2].
  unfold has_pod in Hr2. rewrite Hp1 in Hr2. fold (has_pod wid (containers w)) in Hr2.
  rewrite <- Hr2. destruct r2 as [o2|e2]; simpl; [by rewrite Hp2, Hp1|].
  rewrite Hp1, filter_absent in Hp2 by done.
  pose proof (remove_listed_spec wid w2) as Hs.
  destruct (execute_command _ _ w2) as [r3 w3]. destruct Hs as (output & -> & Hp3).
  by rewrite Hp3, Hp2.
Qed.

(** what a removal takes away. When the pod with Podman's suffix exists it
    alone is removed, else the pod with exactly the workload's name; a removal of
    a workload that has neither removes every pod whose name contains its
    identifier, other manifests' included, and still reports success. *)
Theorem podman_remove_exact id w :
  let wid := podman_generate_workload_id id [] in
  let before := pods (containers w) in
  let '(r, w') := podman_remove_workload local_engine wid w in
  r = Ok () ∧
  pods (containers w') =
    if has_pod (wid +:+ "-pod") (containers w) then filter (λ p, p.2 ≠ wid +:+ "-pod") before
    else if has_pod wid (containers w) then filter (λ p, p.2 ≠ wid) before
    else filter (λ p, str_contains wid p.2 = false) before.
Proof. apply remove_workload_spec. Qed.

End removal.

(** ** A small host

    At most two pods, of the manifests [1] and [12]. Remote commands cannot
    connect; playing a manifest starts the first pod. *)
Module ToyPodman.

Record pair := { first : bool; second : bool }.

Abbreviation name1 := "beemesh-1-pod".
Abbreviation name2 := "beemesh-12-pod".

Definition toy_pods (c : pair) : gmap string string :=
  (if first c then {["aa" := name1]} else ∅) ∪ (if second c then {["bb" := name2]} else ∅).

Definition success (out : string) : Output :=
  {| out_success := true; out_stdout := as_bytes out; out_stderr := [] |}.
Definition failure (err : string) : Output :=
  {| out_success := false; out_stdout := []; out_stderr := as_bytes err |}.

(** [pod rm -f x] *)
Definition remove (x : string) (c : pair) : pair :=
  {| first := first c && negb (bool_decide (x = name1 ∨ x = "aa"));
     second := second c && negb (bool_decide (x = name2 ∨ x = "bb")) |}.

Definition known (x : string) (c : pair) : bool :=
  bool_decide (x ∈ (map_to_list (toy_pods c)).*2) || bool_decide (is_Some (toy_pods c !! x)).

Definition line (b : bool) (text : string) : string := if b then text +:+ String LF "" else "".

(** The output of [pod ls --format json], read back by [toy_serde]. *)
Definition listing_text (c : pair) : string :=
  match first c, second c with
  | false, false => "[]" | true, false => "[1]" | false, true => "[2]" | true, true => "[12]"
  end.

Definition listed_pod (b : bool) (name : string) : list json :=
  if b then [JObject [("Name", JString name); ("Status", JString "Running")]] else [].

Definition toy_listing (c : pair) : list json := listed_pod (first c) name1 ++ listed_pod (second c) name2.

Definition toy_run (cmd : command) (files : gmap string (list byte)) (c : pair) :
    result string Output * pair :=
  if decide (cmd_program cmd ≠ "podman") then (Err "No such file or directory", c)
  else match cmd_host cmd, cmd_args cmd with
  | Some _, _ => (Ok (failure "dial unix: connection refused"), c)
  | None, ["pod"; "rm"; "-f"; x] =>
      (Ok (if known x c then success x else failure "no such pod"), remove x c)
  | None, ["pod"; "ls"; "-q"; "--filter"; f] =>
      let x := default "" (strip_prefix "name=" f) in
      (Ok (success (line (first c && str_contains x name1) "aa"
                    +:+ line (second c && str_contains x name2) "bb")), c)
  | None, ["pod"; "ls"; "--format"; "json"] => (Ok (success (listing_text c)), c)
  | None, "kube" :: "play" :: _ => (Ok (success ""), {| first := true; second := second c |})
  | None, _ => (Ok (success ""), c)
  end.

#[export] Instance toy_host : Host pair := {| run_command := toy_run |}.

Lemma toy_lookup c id n : toy_pods c !! id = Some n ↔
  (first c = true ∧ id = "aa" ∧ n = name1) ∨ (second c = true ∧ id = "bb" ∧ n = name2).
Proof.
  unfold toy_pods. rewrite lookup_union_Some.
  - destruct c as [[] []]; simpl; rewrite ?lookup_singleton_Some, ?lookup_empty; naive_solver.
  - destruct c as [[] []]; simpl; try apply map_disjoint_empty_r; try apply map_disjoint_empty_l.
    by apply map_disjoint_singleton_l, lookup_singleton_ne.
Qed.

Lemma toy_rm_names x c : x ≠ "aa" → x ≠ "bb" →
  toy_pods (remove x c) = filter (λ p, p.2 ≠ x) (toy_pods c).
Proof.
  intros Ha Hb. apply map_eq. intros id. apply option_eq. intros n.
  rewrite map_lookup_filter_Some, !toy_lookup. simpl.
  rewrite !andb_true_iff, !negb_true_iff, !bool_decide_eq_false. naive_solver.
Qed.

Lemma toy_rm_ids x c : is_Some (toy_pods c !! x) → toy_pods (remove x c) = delete x (toy_pods c).
Proof.
  intros [m Hm]. apply map_eq. intros id. apply option_eq. intros n.
  rewrite lookup_delete_Some, !toy_lookup. apply toy_lookup in Hm. simpl.
  rewrite !andb_true_iff, !negb_true_iff, !bool_decide_eq_false. naive_solver.
Qed.

Definition listed (x : string) (c : pair) : list string :=
  (if first c && str_contains x name1 then ["aa"] else []) ++
  (if second c && str_contains x name2 then ["bb"] else []).

Lemma toy_listed x c id :
  id ∈ listed x c ↔ ∃ name, toy_pods c !! id = Some name ∧ str_contains x name = true.
Proof.
  setoid_rewrite toy_lookup. unfold listed. rewrite elem_of_app.
  split.
  - intros [Hin|Hin].
    + destruct (_ && _) eqn:E; [|by apply elem_of_nil in Hin]. apply list_elem_of_singleton in Hin as ->.
      apply andb_true_iff in E as [? ?]. exists name1. split; [by left|done].
    + destruct (second c && _) eqn:E; [|by apply elem_of_nil in Hin].
      apply list_elem_of_singleton in Hin as ->.
      apply andb_true_iff in E as [? ?]. exists name2. split; [by right|done].
  - intros (name & [(Hf & -> & ->)|(Hf & -> & ->)] & Hc); rewrite Hf, Hc; [left|right];
      by apply list_elem_of_singleton.
Qed.

Lemma toy_output b1 b2 :
  output_names (from_utf8_lossy (as_bytes (line b1 "aa" +:+ line b2 "bb"))) =
  (if b1 then ["aa"] else []) ++ (if b2 then ["bb"] else []).
Proof. by destruct b1, b2; vm_compute. Qed.

Lemma toy_ls x files c :
  toy_run {| cmd_program := "podman"; cmd_args := ["pod"; "ls"; "-q"; "--filter"; "name=" +:+ x];
             cmd_host := None |} files c =
  (Ok (success (line (first c && str_contains x name1) "aa"
                +:+ line (second c && str_contains x name2) "bb")), c).
Proof. unfold toy_run. cbn [cmd_host cmd_args]. by rewrite strip_prefix_app. Qed.

#[export, program] Instance toy_podman : PodmanPods pair "podman" := {| pods := toy_pods |}.
Next Obligation.
  intros x files c Hx. eexists _, _. split; [reflexivity|].
  assert (x ≠ "aa" ∧ x ≠ "bb") as [Ha Hb] by (split; by intros ->).
  split; [|by apply toy_rm_names]. unfold known.
  rewrite (bool_decide_eq_false_2 (is_Some _)); [by destruct (bool_decide _)|].
  intros [n Hn]. apply toy_lookup in Hn. naive_solver.
Qed.
Next Obligation.
  intros x files c Hx. eexists _, _. split; [reflexivity|]. split; [|by apply toy_rm_ids].
  unfold known. by rewrite (bool_decide_eq_true_2 (is_Some _)), orb_true_r.
Qed.
Next Obligation.
  intros x files c. eexists _, _. split; [apply toy_ls|]. split; [done|]. split; [done|].
  cbn [out_stdout success]. rewrite toy_output. split; [|intros id; apply toy_listed].
  destruct (_ && _), (_ && _); simpl; repeat constructor; set_solver.
Qed.

(** *** Witnesses *)

Definition doc : yaml := YMapping
  [(YString "apiVersion", YString "apps/v1"); (YString "kind", YString "Deployment");
   (YString "metadata", YMapping [(YString "name", YString "web")]);
   (YString "spec", YMapping
     [(YString "replicas", YNumber "3");
      (YString "template", YMapping [(YString "metadata", YMapping [(YString "name", YString "web")])])])].

#[export] Instance toy_serde : Serde :=
  {| json_from_str t :=
       if decide (t = "[]") then Some (JArray [])
       else if decide (t = "[1]") then Some (JArray (listed_pod true name1))
       else if decide (t = "[2]") then Some (JArray (listed_pod true name2))
       else if decide (t = "[12]") then Some (JArray (listed_pod true name1 ++ listed_pod true name2))
       else None;
     yaml_from_str t := if decide (t = "deployment") then Some doc else None;
     yaml_to_string _ := Some "renamed";
     json_map_to_string _ := ""; json_map_from_str _ := None |}.

#[export] Instance toy_podman_listing : PodmanListing pair.
Proof.
  split.
  - intros files [a b]. exists (success (listing_text {| first := a; second := b |})), {| first := a; second := b |},
      (toy_listing {| first := a; second := b |}). split; [done|]. split; [done|].
    destruct a, b; (split; [done|]); (split; [done|]); vm_compute; reflexivity || (apply perm_swap).
  - intros [[] []]; by apply (bool_decide_unpack _).
Qed.

#[export] Instance toy_float : FloatDisplay := {| f64_display _ := "1" |}.

Definition toy_env : deploy_env :=
  {| env_temp_dir := "/tmp"; env_uuid := "u";
     env_io := {| create_error := None; write_error := None; remove_works := true; path_is_utf8 := true |} |}.

Definition world (a b : bool) : HostWorld pair :=
  {| containers := {| first := a; second := b |}; temp_files := ∅ |}.

Lemma podman_remote_only_witness :
  let e := PodmanEngine_with_binary "podman" (configure_podman_runtime (Some "/run/podman.sock")) in
  containers (podman_remove_workload e "beemesh-1" (world true true)).2 = {| first := true; second := true |}.
Proof.
  refine (proj1 (proj2 (proj2 (podman_remote_only "podman" "/run/podman.sock"
    (λ c, c = {| first := true; second := true |}) toy_env 0 "1" [] DeploymentConfig_default "p"
    "beemesh-1" None (world true true) _ _)))).
  - intros [program args [h|]] files c [x Hx] ->; [|discriminate].
    simpl. unfold toy_run. case_decide; reflexivity.
  - reflexivity.
Defined.

Lemma rename_manifest_names_witness :
  ∃ meta', yaml_get "metadata" (rename_manifest "1" doc) = Some meta' ∧
           yaml_str_field "name" meta' = Some "beemesh-1".
Proof.
  destruct (rename_manifest_names "1" doc (YMapping [(YString "name", YString "web")])
    [(YString "name", YString "web")]
    (YMapping
     [(YString "replicas", YNumber "3");
      (YString "template", YMapping [(YString "metadata", YMapping [(YString "name", YString "web")])])])
    (YMapping [(YString "metadata", YMapping [(YString "name", YString "web")])])
    (YMapping [(YString "name", YString "web")]) [(YString "name", YString "web")]
    eq_refl eq_refl eq_refl eq_refl eq_refl eq_refl)
    as (meta' & ? & ? & ? & ? & Hm & ? & ? & ? & Hn & ?).
  exists meta'. split; [exact Hm|exact Hn].
Defined.

Lemma podman_deploy_correct_witness :
  let e := local_engine (binary := "podman") in
  temp_files (podman_deploy_workload e toy_env 0 "1" (as_bytes "deployment") DeploymentConfig_default
    (world false false)).2 = ∅.
Proof.
  refine (proj1 (podman_deploy_correct (local_engine (binary := "podman")) toy_env 0 "1" (as_bytes "deployment")
    DeploymentConfig_default (world false false) doc "renamed" eq_refl eq_refl _ _ _ eq_refl)).
  - vm_compute. reflexivity.
  - eexists. reflexivity.
  - eexists. reflexivity.
Defined.

Lemma podman_list_exact_witness :
  ∃ l, (podman_list_workloads (local_engine (binary := "podman")) 0 (world true true)).1 = Ok l ∧
       (length l ≤ 2)%nat.
Proof.
  eexists. split; [vm_compute; reflexivity|].
  refine (proj2 (proj2 (podman_list_exact (local_engine (binary := "podman")) 0 (world true true) (world true true) "[12]"
    (toy_listing {| first := true; second := true |}) _ [] _ _ _ _))); [vm_compute; reflexivity|discriminate|reflexivity|vm_compute; reflexivity].
Defined.

(** Removing manifest [1], which is not deployed, takes the pod of manifest [12]. *)
Lemma podman_remove_exact_witness :
  pods (containers (podman_remove_workload (local_engine (binary := "podman")) "beemesh-1" (world false true)).2) = ∅.
Proof.
  transitivity (filter (λ p, str_contains "beemesh-1" p.2 = false) (toy_pods {| first := false; second := true |})).
  - exact (proj2 (podman_remove_exact "1" (world false true))).
  - vm_compute. reflexivity.
Defined.

End ToyPodman.
