(* ===== verification/Docker.v ===== *)
(** * The Docker engine ([runtime/engines/docker.rs])

    Compose files run with [docker compose], the project named after the
    workload. *)

From Stdlib Require Import SpecFloat Ascii.
From S2P Require Import Prelude RustStr Utf8 Serde Runtime MockEngine WorkloadManager WorkloadIntegration EngineHost Podman.

Open Scope rust_scope.
Open Scope list_scope.

Record DockerEngine := { docker_binary : string }.

Definition DockerEngine_with_binary (binary_path : string) : DockerEngine :=
  {| docker_binary := binary_path |}.

Definition DockerEngine_new : DockerEngine := DockerEngine_with_binary "docker".

(** ** Manifests *)

Definition yaml_keys (v : yaml) : option (list string) :=
  match untag v with YMapping entries => Some (omap (λ e, yaml_as_str e.1) entries) | _ => None end.

Section manifests.
Context `{Serde}.

Definition docker_parse_manifest_metadata (manifest_content : list byte) : gmap string string :=
  match yaml_from_str (from_utf8_lossy manifest_content) with
  | Some doc =>
      insert_opt "name" (yaml_get "metadata" doc ≫= yaml_str_field "name")
        (insert_opt "services" (str_join "," <$> (yaml_get "services" doc ≫= yaml_keys))
           (insert_opt "version" (yaml_str_field "version" doc) ∅))
  | None => ∅
  end.

Definition docker_generate_workload_id (manifest_id : string) (manifest_content : list byte) : string :=
  "beemesh-" +:+ default "unnamed" (docker_parse_manifest_metadata manifest_content !! "name")
  +:+ "-" +:+ manifest_id.

Definition docker_validate_manifest (manifest_content : list byte) : result RuntimeError () :=
  match yaml_from_str (from_utf8_lossy manifest_content) with
  | Some doc =>
      match yaml_get "services" doc with
      | None => Err (InvalidManifest "Missing services section in Docker Compose")
      | Some _ => Ok ()
      end
  | None => Err (InvalidManifest "YAML parse error")
  end.

End manifests.

(** The service [service=1] is written out: the replicas are not passed on. *)
Definition compose_args (temp_file workload_id : string) (config : DeploymentConfig) : list string :=
  ["compose"; "-f"; temp_file; "-p"; workload_id]
  ++ if decide (1 < replicas config) then ["up"; "-d"; "--scale"; "service=1"] else ["up"; "-d"].

Section operations.
Context {C : Type} `{Host C, Serde} (e : DockerEngine).
Implicit Types (w : HostWorld C) (now : Z) (env : deploy_env).

Definition docker_command (args : list string) : command :=
  {| cmd_program := docker_binary e; cmd_args := args; cmd_host := None |}.

Definition docker_execute_command (args : list string) w : result RuntimeError string * HostWorld C :=
  run (docker_command args) w.

Definition docker_is_available w : bool :=
  match (run_command (docker_command ["--version"]) (temp_files w) (containers w)).1 with
  | Ok o => out_success o
  | Err _ => false
  end.

(** One entry of [NetworkSettings.Ports]; only TCP ports are kept. *)
Definition docker_port (binding : string * json) : option PortMapping :=
  port_str ← strip_suffix "/tcp" binding.1;
  port_num ← parse_uint 16 port_str;
  let host_port :=
    bindings ← json_as_array (binding.2);
    first ← head bindings;
    host_port_str ← json_field "HostPort" first;
    parse_uint 16 host_port_str in
  Some {| container_port := port_num; host_port := host_port; port_protocol := "tcp" |}.

Definition docker_extract_port_mappings (container_name : string) w :
    result RuntimeError (list PortMapping) * HostWorld C :=
  let '(r, w) := docker_execute_command
                   ["inspect"; container_name; "--format"; "{{json .NetworkSettings.Ports}}"] w in
  (let? output := r in
   Ok (match json_from_str output with
       | Some (JObject ports_obj) => omap docker_port ports_obj
       | _ => []
       end), w).

(** ** Deployment *)

Definition docker_create_temp_manifest_file env (manifest_content : list byte) w :
    result RuntimeError string * HostWorld C :=
  let temp_file := path_join (env_temp_dir env) ("beemesh-compose-" +:+ env_uuid env +:+ ".yml") in
  let '(r, w) := write_temp_file (env_io env) temp_file manifest_content w in
  (let? _ := r in Ok temp_file, w).

Definition compose_and_report env now (manifest_id workload_id temp_file : string)
    (config : DeploymentConfig) (metadata : gmap string string) w :
    result RuntimeError WorkloadInfo * HostWorld C :=
  let '(r, w) := docker_execute_command (compose_args temp_file workload_id config) w in
  let w := cleanup_temp_file (env_io env) temp_file w in
  match r with
  | Ok _ =>
      (Ok {| info_id := workload_id; info_manifest_id := manifest_id; info_status := Running;
             info_metadata := metadata; info_created_at := now; info_updated_at := now;
             info_ports := [] |}, w)
  | Err err => (Err (DeploymentFailed ("Docker deployment failed: " +:+ runtime_error_text err)), w)
  end.

Definition docker_deploy_workload env now (manifest_id : string) (manifest_content : list byte)
    (config : DeploymentConfig) w : result RuntimeError WorkloadInfo * HostWorld C :=
  match docker_validate_manifest manifest_content with
  | Err err => (Err err, w)
  | Ok _ =>
      let workload_id := docker_generate_workload_id manifest_id manifest_content in
      match docker_create_temp_manifest_file env manifest_content w with
      | (Err err, w) => (Err err, w)
      | (Ok temp_file, w) =>
          if path_is_utf8 (env_io env) then
            compose_and_report env now manifest_id workload_id temp_file config
              (docker_parse_manifest_metadata manifest_content) w
          else (Err (InvalidManifest "Invalid temporary file path"), w)
      end
  end.

Definition docker_deploy_workload_with_peer env now (manifest_id : string)
    (manifest_content : list byte) (config : DeploymentConfig) (local_peer_id : string) w :
    option (result RuntimeError WorkloadInfo * HostWorld C) :=
  match docker_validate_manifest manifest_content with
  | Err err => Some (Err err, w)
  | Ok _ =>
      let workload_id := docker_generate_workload_id manifest_id manifest_content in
      match docker_create_temp_manifest_file env manifest_content w with
      | (Err err, w) => Some (Err err, w)
      | (Ok temp_file, w) =>
          if path_is_utf8 (env_io env) then
            Some (compose_and_report env now manifest_id workload_id temp_file config
                    (<["local_peer_id" := local_peer_id]>
                       (docker_parse_manifest_metadata manifest_content)) w)
          else None
      end
  end.

(** ** Queries *)

Definition docker_info now (id : string) (status : WorkloadStatus) : WorkloadInfo :=
  {| info_id := id; info_manifest_id := "unknown"; info_status := status; info_metadata := ∅;
     info_created_at := now; info_updated_at := now; info_ports := [] |}.

(** Any output counts as running. *)
Definition docker_get_workload_status now (workload_id : string) w :
    result RuntimeError WorkloadInfo * HostWorld C :=
  let '(r, w) := docker_execute_command ["compose"; "-p"; workload_id; "ps"; "--format"; "json"] w in
  (let? output := r in
   Ok (docker_info now workload_id (if decide (trim output = "") then Stopped else Running)), w).

Definition container_state (container_info : json) : WorkloadStatus :=
  match json_field "State" container_info with
  | Some "running" => Running
  | Some "exited" => Stopped
  | Some "created" => Starting
  | _ => Unknown
  end.

(** One line of [docker ps --format json]. *)
Definition container_workload now (line : string) : option WorkloadInfo :=
  container_info ← json_from_str line;
  name ← json_field "Names" container_info;
  Some (docker_info now name (container_state container_info)).

Definition docker_list_workloads now w : result RuntimeError (list WorkloadInfo) * HostWorld C :=
  let '(r, w) := docker_execute_command
                   ["ps"; "-a"; "--filter"; "name=beemesh-"; "--format"; "json"] w in
  (let? output := r in Ok (omap (container_workload now) (str_lines output)), w).

(** ** Removal, logs, export *)

Definition docker_remove_workload (workload_id : string) w : result RuntimeError () * HostWorld C :=
  match docker_execute_command ["compose"; "-p"; workload_id; "down"; "-v"] w with
  | (Ok _, w) => (Ok (), w)
  | (Err _, w) => (Ok (), (docker_execute_command ["container"; "rm"; "-f"; workload_id] w).2)
  end.

Definition docker_get_workload_logs (workload_id : string) (tail : option nat) w :
    result RuntimeError string * HostWorld C :=
  let tail_args := match tail with Some n => ["--tail"; pretty n] | None => [] end in
  let '(r, w) := docker_execute_command (["compose"; "-p"; workload_id; "logs"] ++ tail_args) w in
  (Ok (match r with
       | Ok logs => logs
       | Err err => "Failed to retrieve logs: " +:+ runtime_error_text err
       end), w).

Definition nl : string := String LF "".

(** The service generated for one container; the service name is what follows
    the last [/] of the container's. *)
Definition container_service (line : string) : string :=
  default "" (
    container_info ← json_from_str line;
    names ← json_field "Names" container_info;
    image ← json_field "Image" container_info;
    let service_name := default names (last (split_char "/"%char names)) in
    Some ("  " +:+ service_name +:+ ":" +:+ nl +:+ "    image: " +:+ image +:+ nl
          +:+ "    container_name: " +:+ names +:+ nl +:+ "    restart: unless-stopped" +:+ nl)).

Definition compose_header (workload_id : string) : string :=
  "# Generated Docker Compose manifest for workload: " +:+ workload_id +:+ nl
  +:+ "version: '3.8'" +:+ nl +:+ "services:" +:+ nl.

Definition docker_export_manifest (workload_id : string) w :
    result RuntimeError (list byte) * HostWorld C :=
  match docker_execute_command ["compose"; "-p"; workload_id; "config"] w with
  | (Ok compose_config, w) => (Ok (as_bytes compose_config), w)
  | (Err _, w) =>
      match docker_execute_command
              ["ps"; "-a"; "--filter"; "name=" +:+ workload_id; "--format"; "json"] w with
      | (Ok containers_output, w) =>
          if decide (trim containers_output = "") then
            (Err (RuntimeWorkloadNotFound ("No containers found for workload " +:+ workload_id)), w)
          else
            (Ok (as_bytes (compose_header workload_id
                           +:+ str_join "" (container_service <$> str_lines containers_output))), w)
      | (Err err, w) =>
          (Err (RuntimeWorkloadNotFound ("Failed to export manifest for workload " +:+ workload_id
                                         +:+ ": " +:+ runtime_error_text err)), w)
      end
  end.

Definition docker_engine env : RuntimeEngine (HostWorld C) :=
  {| engine_name := "docker";
     is_available w := docker_is_available w;
     deploy_workload := docker_deploy_workload env;
     get_workload_status now id w := (docker_get_workload_status now id w).1;
     list_workloads now w := (docker_list_workloads now w).1;
     remove_workload := docker_remove_workload;
     get_workload_logs id tail w := (docker_get_workload_logs id tail w).1;
     validate_manifest content w := docker_validate_manifest content;
     export_manifest id w := (docker_export_manifest id w).1 |}.

End operations.
