(* ===== verification/EngineNode.v ===== *)
(** * Deletions on a node that runs a container engine

    [remove_workloads_by_manifest_id] composed with the Podman and the Docker
    engine: the listing decides what is removed. *)

From Stdlib Require Import SpecFloat.
From S2P Require Import Prelude RustStr Utf8 Serde Wire Libp2p Concrete Envelope RecipientBlob Runtime MockEngine Provider WorkloadIntegration EngineHost Podman Docker.

Open Scope list_scope.

(** The manifest a pod name stands for, when the engine lists it at all. *)
Definition pod_of (id name : string) : bool :=
  starts_with "beemesh-" name && bool_decide (pod_manifest_id name = id).

(** ** Which names stand for a manifest *)

Lemma strip_prefix_sound p s r : strip_prefix p s = Some r → s = p +:+ r.
Proof.
  revert s. induction p as [|a p IH]; intros s; simpl; [by intros [= ->]|].
  destruct s as [|b s]; [done|]. case_decide as Hab; [|done]. subst b. intros Hs.
  exact (f_equal (String a) (IH s Hs)).
Qed.

(** The prefix ends with the character the suffix starts with. *)
Lemma suffix_overlap r t : "beemesh-" +:+ r = t +:+ "-pod" → r = "pod" ∨ ∃ t', r = t' +:+ "-pod".
Proof.
  rewrite !string_app_cons.
  do 7 (destruct t as [|? t]; [discriminate|]; rewrite string_app_cons; intros Ht; injection Ht as _ Ht; revert Ht).
  destruct t as [|? t]; [intros Ht; injection Ht as Ht; left; exact Ht|].
  rewrite string_app_cons. intros Ht. injection Ht as _ Ht. right. by exists t.
Qed.

Lemma pod_of_cases id name : id ≠ "beemesh-pod" → pod_of id name = true →
  name = pod_name_of id +:+ "-pod" ∨ name = pod_name_of id.
Proof.
  unfold pod_of, pod_manifest_id. intros Hid [Hs Hm%bool_decide_eq_true]%andb_true_iff.
  apply starts_with_spec in Hs as [r ->]. rewrite strip_prefix_app in Hm.
  destruct (ends_with "-pod" ("beemesh-" +:+ r)) eqn:Ee; [|right; cbn in Hm; by subst].
  change (default _ (Some r)) with r in Hm.
  destruct (strip_suffix "-pod" r) as [m|] eqn:Er.
  - change (m = id) in Hm. subst m. left. apply strip_suffix_sound in Er as ->. unfold pod_name_of. by rewrite string_app_assoc.
  - change ("beemesh-" +:+ r = id) in Hm. subst id. apply bool_decide_eq_true in Ee as [t Ht]. apply strip_suffix_sound in Ht.
    destruct (suffix_overlap _ _ Ht) as [-> | [t' ->]]; [done|]. by rewrite strip_suffix_app in Er.
Qed.

Lemma pod_of_suffixed id : pod_of id (pod_name_of id +:+ "-pod") = true.
Proof.
  unfold pod_of. rewrite pod_manifest_id_suffixed, bool_decide_eq_true_2 by done.
  unfold pod_name_of. by rewrite string_app_assoc, starts_with_app.
Qed.

(** ** Podman *)

Lemma omap_cons {A B} (f : A → option B) x l :
  omap f (x :: l) = match f x with Some y => y :: omap f l | None => omap f l end.
Proof. done. Qed.

Lemma pod_of_listed id n : pod_of id n = true ↔ starts_with "beemesh-" n = true ∧ pod_manifest_id n = id.
Proof. unfold pod_of. by rewrite andb_true_iff, bool_decide_eq_true. Qed.

Section podman.
Context {C : Type} `{PodmanPods C binary, Serde, !PodmanListing C, FloatDisplay} (env : deploy_env).
Implicit Types (w : HostWorld C) (c : C) (now : Z).

Abbreviation engine := (podman_engine (local_engine (binary := binary)) env).
Abbreviation pod_names c := ((map_to_list (pods c)).*2).

(** The pods of a manifest, removed one after the other. *)
Definition remove_times (k : nat) (wid : string) w : HostWorld C :=
  Nat.iter k (λ w, (podman_remove_workload (local_engine (binary := binary)) wid w).2) w.

Lemma remove_times_S k wid w :
  remove_times (S k) wid w = remove_times k wid (podman_remove_workload (local_engine (binary := binary)) wid w).2.
Proof. unfold remove_times. by rewrite Nat.iter_succ_r. Qed.

Lemma remove_times_0 wid w : remove_times 0 wid w = w.
Proof. done. Qed.

Lemma remove_matching_podman name id l w :
  (∀ i, i ∈ l → info_id i = "beemesh-" +:+ info_manifest_id i) →
  let k := length (filter (λ i, info_manifest_id i = id) l) in
  remove_matching engine name id l w =
    (replicate k (pod_name_of id), [], remove_times k (pod_name_of id) w).
Proof.
  revert w. induction l as [|i l IH]; intros w Hl; [done|].
  assert (info_id i = "beemesh-" +:+ info_manifest_id i) as Hi by (apply Hl; by left).
  assert (∀ i, i ∈ l → info_id i = "beemesh-" +:+ info_manifest_id i) as Hl' by (intros; apply Hl; by right).
  simpl. rewrite filter_cons. case_decide as Hm; [|by apply IH].
  rewrite Hi, Hm. fold (pod_name_of id).
  pose proof (remove_workload_spec id w) as Hr.
  cbn [length]. rewrite remove_times_S.
  unfold podman_generate_workload_id in Hr.
  destruct (podman_remove_workload _ (pod_name_of id) w) as [r w1]. destruct Hr as [-> _].
  by rewrite (IH w1 Hl').
Qed.

Lemma podman_listing now w : ∃ l, list_workloads engine now w = Ok l ∧
  (∀ i, i ∈ l → info_id i = "beemesh-" +:+ info_manifest_id i) ∧
  ∀ id, length (filter (λ i, info_manifest_id i = id) l) =
        length (filter (λ n, pod_of id n = true) (pod_names (containers w))).
Proof.
  destruct (pod_ls_json (temp_files w) (containers w)) as (o & c' & arr & Hrun & Hok & Ht & Hj & Hn).
  exists (omap (pod_workload now) arr). split_and!.
  - cbn. unfold podman_list_workloads, execute_command. cbn. unfold execute_command_local, run. simpl.
    rewrite Hrun. unfold process_command_output, pods_workloads. rewrite Hok. simpl.
    by rewrite decide_False, Hj.
  - intros i (pod & _ & Hi)%list_elem_of_omap. unfold pod_workload in Hi.
    destruct (json_field "Name" pod); [|done]. cbn -[starts_with] in Hi.
    destruct (starts_with _ _); by simplify_eq.
  - intros id. rewrite <- (Permutation_length (filter_Permutation _ _ _ Hn)).
    clear. induction arr as [|pod arr IH]; [done|]. rewrite !omap_cons. unfold pod_workload at 1.
    destruct (json_field "Name" pod) as [n|]; [|done]. cbn [mbind option_bind].
    rewrite (filter_cons _ n). pose proof (pod_of_listed id n) as Hp.
    destruct (starts_with "beemesh-" n); [rewrite filter_cons; cbn [info_manifest_id]|];
      repeat case_decide; cbn [length]; rewrite ?IH; naive_solver.
Qed.

(** A removal while one of the manifest's pods is there takes exactly one. *)
Lemma remove_step id w :
  let a := pod_name_of id +:+ "-pod" in
  let b := pod_name_of id in
  let c' := containers (podman_remove_workload (local_engine (binary := binary)) b w).2 in
  (has_pod a (containers w) = true → pods c' = filter (λ p, p.2 ≠ a) (pods (containers w))) ∧
  (has_pod a (containers w) = false → has_pod b (containers w) = true →
   pods c' = filter (λ p, p.2 ≠ b) (pods (containers w))).
Proof.
  cbv zeta. pose proof (remove_workload_spec id w) as Hr. unfold podman_generate_workload_id in Hr.
  destruct (podman_remove_workload _ _ w) as [r w1]. destruct Hr as [_ Hp]. cbn [snd]. rewrite Hp.
  split; [by intros -> | by intros -> ->].
Qed.

Lemma has_pod_names name c : has_pod name c = bool_decide (name ∈ pod_names c).
Proof. done. Qed.

(** The names that stand for a manifest, at most two. *)
Lemma pod_of_count id c : id ≠ "beemesh-pod" →
  let a := pod_name_of id +:+ "-pod" in
  let b := pod_name_of id in
  filter (λ n, pod_of id n = true) (pod_names c) ≡ₚ
    (if has_pod a c then [a] else []) ++ (if has_pod b c && pod_of id b then [b] else []).
Proof.
  intros Hid a b. assert (a ≠ b) as Hab.
  { intros Hab%(f_equal String.length). unfold a, b in Hab. rewrite string_app_length in Hab. simpl in Hab. lia. }
  apply NoDup_Permutation.
  - apply NoDup_filter, pod_names_unique.
  - destruct (has_pod a c), (_ && _); simpl; repeat constructor; set_solver.
  - intros n. rewrite list_elem_of_filter, elem_of_app, !has_pod_names.
    pose proof (pod_of_suffixed id) as Ha. pose proof (pod_of_cases id n Hid) as Hn. fold a b in Ha, Hn.
    split.
    + intros [Hp Hin]. destruct (Hn Hp) as [-> | ->].
      * left. rewrite bool_decide_eq_true_2 by done. by apply list_elem_of_singleton.
      * right. rewrite bool_decide_eq_true_2, Hp by done. by apply list_elem_of_singleton.
    + intros [Hin|Hin]; case_bool_decide; cbn [andb] in Hin; try by apply elem_of_nil in Hin.
      * by apply list_elem_of_singleton in Hin as ->.
      * destruct (pod_of id b) eqn:Ep; [|by apply elem_of_nil in Hin].
        by apply list_elem_of_singleton in Hin as ->.
Qed.

Lemma has_pod_lookup name c : has_pod name c = true ↔ ∃ i, pods c !! i = Some name.
Proof.
  unfold has_pod. rewrite bool_decide_eq_true, list_elem_of_fmap. split.
  - intros ([i n] & -> & Hin). exists i. by apply elem_of_map_to_list.
  - intros [i Hi]. exists (i, name). split; [done|]. by apply elem_of_map_to_list.
Qed.

(** The pods that are left, name by name. *)
Lemma remaining_pods id c (m : gmap string string) : id ≠ "beemesh-pod" →
  (∀ i n, m !! i = Some n ↔ pods c !! i = Some n ∧ n ≠ pod_name_of id +:+ "-pod" ∧
     (has_pod (pod_name_of id) c && pod_of id (pod_name_of id) = true → n ≠ pod_name_of id)) →
  m = filter (λ p, pod_of id p.2 = false) (pods c).
Proof.
  intros Hid Hm. apply map_eq. intros i. apply option_eq. intros n.
  rewrite Hm, map_lookup_filter_Some. cbn [snd]. split.
  - intros (Hi & Ha & Hb). split; [done|]. apply not_true_iff_false. intros Hn.
    destruct (pod_of_cases id n Hid Hn) as [-> | ->]; [done|].
    apply Hb; [|done]. rewrite Hn, andb_true_r. apply has_pod_lookup. by exists i.
  - intros [Hi Hn]. split_and!; [done| |].
    + intros ->. by rewrite pod_of_suffixed in Hn.
    + intros [_ Hb]%andb_true_iff ->. congruence.
Qed.

(** As many removals as the manifest has pods take exactly these. *)
Lemma remove_times_spec id w : id ≠ "beemesh-pod" →
  let k := length (filter (λ n, pod_of id n = true) (pod_names (containers w))) in
  pods (containers (remove_times k (pod_name_of id) w)) =
  filter (λ p, pod_of id p.2 = false) (pods (containers w)).
Proof.
  intros Hid k. unfold k. rewrite (Permutation_length (pod_of_count id (containers w) Hid)).
  apply remaining_pods; [done|]. intros i n.
  pose proof (remove_step id w) as [Hsa Hsb].
  set (a := pod_name_of id +:+ "-pod") in *. set (b := pod_name_of id) in *.
  assert (a ≠ b) as Hab.
  { intros Hab%(f_equal String.length). unfold a, b in Hab. rewrite string_app_length in Hab. simpl in Hab. lia. }
  destruct (has_pod a (containers w)) eqn:Ea; [specialize (Hsa eq_refl)|specialize (Hsb eq_refl)];
    destruct (has_pod b (containers w) && pod_of id b) eqn:Eb; cbn [length app].
  - rewrite remove_times_S. set (w1 := (podman_remove_workload _ b w).2) in *.
    pose proof (remove_step id w1) as [_ Hs1]. fold a b in Hs1.
    rewrite remove_times_S, remove_times_0, Hs1.
    + rewrite Hsa, !map_lookup_filter_Some. cbn [snd]. clear. tauto.
    + apply not_true_iff_false. rewrite has_pod_lookup, Hsa. intros [j Hj%map_lookup_filter_Some]. by destruct Hj.
    + apply andb_true_iff in Eb as [[j Hj]%has_pod_lookup _]. apply has_pod_lookup. exists j.
      rewrite Hsa. apply map_lookup_filter_Some. split; [done|]. cbn [snd]. by intros ?%eq_sym.
  - rewrite remove_times_S, remove_times_0, Hsa, map_lookup_filter_Some. cbn [snd]. clear. intuition congruence.
  - apply andb_true_iff in Eb as [Hb _]. rewrite remove_times_S, remove_times_0, (Hsb Hb), map_lookup_filter_Some.
    cbn [snd]. split; [|clear; tauto]. intros [Hi Hn]. split_and!; [done| |done]. intros ->.
    apply not_true_iff_false in Ea. apply Ea, has_pod_lookup. by exists i.
  - rewrite remove_times_0. split; [|clear; tauto]. intros Hi. split_and!; [done| |done]. intros ->.
    apply not_true_iff_false in Ea. apply Ea, has_pod_lookup. by exists i.
Qed.

End podman.

(** ** The node's removal *)

Section node.
Context `{PeerIds, !Kademlia} {C : Type} `{PodmanPods C binary, Serde, FloatDisplay}.
Context (env : deploy_env) (d : DockerEngine) (mock : RuntimeEngine (HostWorld C)).
Implicit Types (w : HostWorld C) (now : Z) (s : NodeState (W := HostWorld C)).

Abbreviation podman := (podman_engine (local_engine (binary := binary)) env).
Abbreviation docker := (docker_engine d env).

(** What a release build registers. *)
Definition release_registry w : RuntimeRegistry (HostWorld C) :=
  create_default_registry false podman docker mock w.

Lemma release_engines w : engines (release_registry w) = <["docker" := docker]> (<["podman" := podman]> ∅).
Proof.
  unfold release_registry, create_default_registry, set_default_engine.
  repeat case_match; done.
Qed.

Lemma two_engines (p q : RuntimeEngine (HostWorld C)) :
  (map_to_list (<["docker" := q]> (<["podman" := p]> (∅ : gmap string (RuntimeEngine (HostWorld C)))))).*1 =
  ["docker"; "podman"].
Proof. vm_compute. reflexivity. Qed.

(** Docker's listing names no manifest: nothing of it is ever removed. *)
Lemma remove_matching_docker name id now w l : id ≠ "unknown" →
  list_workloads docker now w = Ok l → remove_matching docker name id l w = ([], [], w).
Proof.
  intros Hid. cbn. unfold docker_list_workloads. destruct (docker_execute_command _ _ _) as [[o|err] w'];
    intros [= <-].
  generalize (str_lines o). intros lines. induction lines as [|x lines IH]; [done|].
  rewrite omap_cons. unfold container_workload at 1.
  destruct (json_from_str x) as [j|]; [|done]. cbn [mbind option_bind].
  destruct (json_field "Names" j) as [n|]; [|done]. cbn [mbind option_bind remove_matching].
  by rewrite decide_False by done.
Qed.

(** The loop over the two engines. *)
Lemma remove_from_release now id w0 w : id ≠ "unknown" →
  remove_from_engines now (release_registry w0) (list_engines (release_registry w0)) id w =
  let docker_errors := match list_workloads docker now w with Ok _ => [] | Err _ => ["list:docker"] end in
  match list_workloads podman now w with
  | Ok l =>
      let '(removed, errors, w') := remove_matching podman "podman" id l w in
      (removed, docker_errors ++ errors, w')
  | Err _ => ([], docker_errors ++ ["list:podman"], w)
  end.
Proof.
  intros Hid. unfold list_engines. rewrite release_engines, two_engines.
  cbn [remove_from_engines]. unfold get_engine. rewrite release_engines.
  rewrite lookup_insert_eq, lookup_insert_ne, lookup_insert_eq by done.
  destruct (list_workloads docker now w) as [ld|ed] eqn:Ed.
  - rewrite (remove_matching_docker _ _ _ _ _ Hid Ed).
    destruct (list_workloads podman now w) as [lp|ep]; [|done].
    destruct (remove_matching podman _ _ _ _) as [[removed errors] w']. by rewrite !app_nil_r.
  - destruct (list_workloads podman now w) as [lp|ep]; [|done].
    destruct (remove_matching podman _ _ _ _) as [[removed errors] w']. by rewrite !app_nil_r.
Qed.

(** C25: on a node of a release build, which registers Podman and Docker, the
    deletion of a manifest removes exactly the pods named after it and no pod of
    another manifest, although the engine's own removal falls back to a pattern.
    The owner of the manifest is forgotten only when Docker answers too: on a
    host without Docker it is kept although nothing of the manifest is left. *)
Theorem podman_delete_exact `{!PodmanListing C} now id s w0 :
  id ≠ "unknown" → id ≠ "beemesh-pod" → RUNTIME_REGISTRY s = Some (release_registry w0) →
  let '(r, s') := remove_workloads_by_manifest_id now id s in
  let before := pods (containers (engine_world s)) in
  (∃ k, r = Ok (replicate k (podman_generate_workload_id id [])) ∧
        k = length (filter (λ n, pod_of id n = true) (map_to_list before).*2)) ∧
  pods (containers (engine_world s')) = filter (λ p, pod_of id p.2 = false) before ∧
  MANIFEST_OWNER_MAP s' =
    match list_workloads docker now (engine_world s) with
    | Ok _ => delete id (MANIFEST_OWNER_MAP s)
    | Err _ => MANIFEST_OWNER_MAP s
    end.
Proof.
  intros Hid Hpod Hreg. unfold remove_workloads_by_manifest_id. rewrite Hreg, remove_from_release by done.
  destruct (podman_listing env now (engine_world s)) as (l & Hl & Hi & Hlen).
  cbv zeta. rewrite Hl, (remove_matching_podman env "podman" id l _ Hi), app_nil_r, Hlen.
  set (k := length _). set (s1 := withdraw_announcement _ _).
  assert (engine_world s1 = remove_times (binary := binary) k (pod_name_of id) (engine_world s) ∧
          MANIFEST_OWNER_MAP s1 = MANIFEST_OWNER_MAP s) as [Hw Ho].
  { subst s1. unfold withdraw_announcement. by destruct (PROVIDER_MANAGER _). }
  split; [by exists k|]. rewrite <- Ho.
  assert (∀ m, engine_world (remove_manifest_owner m s1) = engine_world s1) as Hr by done.
  destruct (list_workloads docker now (engine_world s)); rewrite ?Hr, Hw; (split; [by apply remove_times_spec|done]).
Qed.

(** workloads deployed with Docker cannot be deleted. The listing gives
    every container the manifest identifier [unknown], so that on a node whose
    Podman does not answer a deletion of any other manifest removes no container
    and leaves the host as it was, yet reports success with nothing removed. *)
Theorem docker_delete_ineffective now id s w0 err :
  id ≠ "unknown" → RUNTIME_REGISTRY s = Some (release_registry w0) →
  list_workloads podman now (engine_world s) = Err err →
  (remove_workloads_by_manifest_id now id s).1 = Ok [] ∧
  engine_world (remove_workloads_by_manifest_id now id s).2 = engine_world s.
Proof.
  intros Hid Hreg Hp. unfold remove_workloads_by_manifest_id. rewrite Hreg, remove_from_release by done.
  cbv zeta. rewrite Hp. destruct (list_workloads docker now (engine_world s)); simpl; (split; [done|]);
    unfold withdraw_announcement; by destruct (PROVIDER_MANAGER _).
Qed.

End node.

(** ** The contract of an engine *)

Lemma unknown_manifest_unlawful {W} (e : RuntimeEngine W) now id c cfg w i w' :
  (∀ now wid w i, get_workload_status e now wid w = Ok i → info_manifest_id i = "unknown") →
  deploy_workload e now id c cfg w = (Ok i, w') → id ≠ "unknown" → ¬ EngineLaws e.
Proof.
  intros Hst Hd Hid Hlaws.
  destruct (deploy_then_status now id c cfg w i w' Hd now) as (i' & Hi & _ & Hm & _).
  apply Hid. rewrite <- Hm. by eapply Hst.
Qed.

(** the contract the workload manager relies on, which the mock engine
    keeps, is kept by neither container engine: as soon as one deployment of a
    manifest succeeds, the status of the deployed workload names the manifest
    [unknown]. *)
Theorem container_engines_unlawful {C} `{Host C, Serde, FloatDisplay} (p : PodmanEngine) (d : DockerEngine)
    env now id content config (w w' : HostWorld C) i :
  id ≠ "unknown" →
  (podman_deploy_workload p env now id content config w = (Ok i, w') → ¬ EngineLaws (podman_engine p env)) ∧
  (docker_deploy_workload d env now id content config w = (Ok i, w') → ¬ EngineLaws (docker_engine d env)).
Proof.
  intros Hid. split; intros Hd; (eapply unknown_manifest_unlawful; [|exact Hd|done]); simpl; intros ? wid w1 j.
  - unfold podman_get_workload_status. destruct (execute_command _ _ _) as [[o|e] w2]; by intros [= <-].
  - unfold docker_get_workload_status. destruct (docker_execute_command _ _ _) as [[o|e] w2]; by intros [= <-].
Qed.

(** ** Concrete nodes *)

Module ToyNode.
Import Toy ToyPodman.

Definition node_state {C} (r : RuntimeRegistry (HostWorld C)) (w : HostWorld C) : NodeState :=
  {| RUNTIME_REGISTRY := Some r; PROVIDER_MANAGER := None;
     RESOURCE_VERIFIER := ResourceVerifier.ResourceVerifier_new;
     MANIFEST_OWNER_MAP := {["1" := [x0a]]}; NONCE_STORE := ∅; engine_world := w;
     swarm_kad := @nil (string * string) : @kad Toy.peers Toy.kademlia |}.

(** Deleting manifest [1] leaves the pod of manifest [12], and, without Docker on
    the host, the owner. *)
Lemma podman_delete_exact_witness :
  let r := release_registry (binary := "podman") toy_env DockerEngine_new
             (podman_engine (local_engine (binary := "podman")) toy_env) (world true true) in
  let s' := (remove_workloads_by_manifest_id 0 "1" (node_state r (world true true))).2 in
  pods (containers (engine_world s')) = {["bb" := "beemesh-12-pod"]} ∧
  MANIFEST_OWNER_MAP s' = {["1" := [x0a]]}.
Proof.
  intros r s'.
  pose proof (podman_delete_exact toy_env DockerEngine_new (podman_engine (local_engine (binary := "podman")) toy_env) 0 "1"
    (node_state r (world true true)) (world true true) ltac:(discriminate) ltac:(discriminate) eq_refl) as Hd.
  rewrite (surjective_pairing (remove_workloads_by_manifest_id _ _ _)) in Hd.
  destruct Hd as (_ & Hp & Ho). split.
  - transitivity (filter (λ p, pod_of "1" p.2 = false) (toy_pods {| first := true; second := true |})); [exact Hp|].
    vm_compute. reflexivity.
  - exact Ho.
Defined.

Lemma container_engines_unlawful_witness :
  ¬ EngineLaws (podman_engine (local_engine (binary := "podman")) toy_env).
Proof.
  refine (proj1 (container_engines_unlawful (local_engine (binary := "podman")) DockerEngine_new toy_env 0 "1"
    (as_bytes "deployment") DeploymentConfig_default (world false false) (world true false)
    {| info_id := "beemesh-1"; info_manifest_id := "1"; info_status := Running;
       info_metadata := podman_parse_manifest_metadata (as_bytes "deployment");
       info_created_at := 0; info_updated_at := 0; info_ports := [] |} _) _).
  - discriminate.
  - vm_compute. reflexivity.
Defined.

(** A host where only Docker is installed. *)
Definition docker_run (cmd : command) (files : gmap string (list byte)) (c : unit) : result string Output * unit :=
  if decide (cmd_program cmd = "docker") then (Ok (success "container"), c) else (Err "No such file or directory", c).

#[local] Instance docker_host : Host unit := {| run_command := docker_run |}.

#[local] Instance docker_serde : Serde :=
  {| json_from_str t := Some (JObject [("Names", JString "beemesh-web-1"); ("State", JString "running")]);
     yaml_from_str t := None; yaml_to_string _ := None;
     json_map_to_string _ := ""; json_map_from_str _ := None |}.

Lemma docker_delete_ineffective_witness :
  let w := {| containers := (); temp_files := ∅ |} in
  let r := release_registry (binary := "podman") toy_env DockerEngine_new (docker_engine DockerEngine_new toy_env) w in
  (remove_workloads_by_manifest_id 0 "1" (node_state r w)).1 = Ok [].
Proof.
  intros w r.
  refine (proj1 (docker_delete_ineffective (binary := "podman") toy_env DockerEngine_new
    (docker_engine DockerEngine_new toy_env) 0 "1" (node_state r w) w
    (IoError "No such file or directory") _ eq_refl _)).
  - discriminate.
  - vm_compute. reflexivity.
Defined.

(** An apply on the registry of a release build, with podman on the host. *)
Section deploying.

#[local] Instance deploy_serde : Serde :=
  {| json_from_str _ := None; yaml_from_str _ := Some doc; yaml_to_string _ := Some "renamed";
     json_map_to_string _ := ""; json_map_from_str _ := None |}.

Definition deploy_state : NodeState :=
  let s := node_state (release_registry (binary := "podman") toy_env DockerEngine_new
             (podman_engine (local_engine (binary := "podman")) toy_env) (world false true)) (world false true) in
  set_verifier (ResourceVerifier.insert_reservation 0 "r1" (Some "id1")
    (ResourceVerifier.ResourceRequest_new None None None 1) ResourceVerifier.ResourceVerifier_new) s.

Definition deploy_outcome :=
  @handle_apply_request _ _ deploy_serde _ _ _ demo_messages _ demo_keys false (λ _, None) 1 (toy_peer x02)
    demo_request deploy_state.

Lemma apply_success_is_deployed_witness :
  ∃ id modified req reg name e info, RUNTIME_REGISTRY deploy_state = Some reg ∧ get_engine reg name = Some e ∧
    deploy_on_engine false (λ _, None) 1 name id e modified (create_deployment_config req) "peer-0"
      (world false true) = (Ok info, engine_world deploy_outcome.2) ∧ info_id info = "beemesh-id1".
Proof.
  destruct (@apply_success_is_deployed _ _ deploy_serde _ _ _ demo_messages _ demo_keys false (λ _, None) 1 (toy_peer x02)
    demo_request deploy_state (build_apply_response true "beemesh-id1" "workload deployed successfully") deploy_outcome.2)
    as (parts & nonces & req & id & json & content & modified & reg & name & e & info & _ & _ & _ & _ & _ & _ & Hr & He
      & Hd & Hi & _).
  - unfold deploy_outcome. apply pair_snd. vm_compute. reflexivity.
  - reflexivity.
  - exists id, modified, req, reg, name, e, info. split; [exact Hr|]. split; [exact He|]. split; [exact Hd|].
    symmetry. exact Hi.
Defined.

End deploying.

End ToyNode.
