(* ===== verification/DeleteMessage.v ===== *)
(** * Deleting manifests ([behaviour/delete_message.rs])

    The handler of delete requests: it verifies the envelope, answers at once
    and leaves the removal to a task it spawns; the task checks that the signer
    owns the manifest and then removes. The task is given twice: as a function
    that runs it to its end ([run_delete_task]), and as the stages between which
    it waits and other work of the node may come ([delete_step]); run without
    interruption the two agree. *)

From S2P Require Import Prelude Utf8 Serde Libp2p Concrete Provider Runtime NonceStore Envelope.
From S2P Require Import WorkloadIntegration.

Section delete.
Context `{PeerIds, !Kademlia, FlatBuffers, Crypto, Messages} {W : Type}.
Implicit Types s : NodeState (W:=W).

Record DeleteResponse := {
  del_ok : bool;
  del_operation_id : string;
  del_message : string;
  del_manifest_id : string;
  del_removed : list string;
}.

Definition delete_error_response (message : string) : DeleteResponse :=
  {| del_ok := false; del_operation_id := "unknown"; del_message := message;
     del_manifest_id := "unknown"; del_removed := [] |}.

Definition delete_ack_response (operation_id manifest_id : string) : DeleteResponse :=
  {| del_ok := true; del_operation_id := operation_id;
     del_message := "delete request received and processing"; del_manifest_id := manifest_id;
     del_removed := [] |}.

Inductive OwnershipStatus := Match | Mismatch | UnknownOwner.

Definition verify_delete_ownership (manifest_id : string) (envelope_pubkey : list byte) s :
    OwnershipStatus :=
  match get_manifest_owner manifest_id s with
  | None => UnknownOwner
  | Some owner_pubkey =>
      if decide (owner_pubkey = []) then UnknownOwner
      else if decide (owner_pubkey = envelope_pubkey) then Match
      else Mismatch
  end.

(** What the task makes of the removal. *)
Definition delete_report (r : result string (list string)) : bool * string * list string :=
  match r with
  | Ok [] => (true, "no workloads found for manifest", [])
  | Ok removed => (true, "removed " +:+ pretty (length removed) +:+ " workloads", removed)
  | Err e => (false, "failed to remove workloads: Failed to remove workloads: " +:+ e, [])
  end.

(** The removal, once the ownership is settled. *)
Definition delete_workloads (now : Z) (manifest_id : string) s :
    bool * string * list string * NodeState :=
  let '(r, s) := remove_workloads_by_manifest_id now manifest_id s in (delete_report r, s).

Definition process_delete_request (now : Z) (manifest_id : string) (force : bool)
    (envelope_pubkey : list byte) s : bool * string * list string * NodeState :=
  match verify_delete_ownership manifest_id envelope_pubkey s with
  | Match => delete_workloads now manifest_id s
  | Mismatch =>
      if force then delete_workloads now manifest_id s
      else (false, "ownership verification failed", [], s)
  | UnknownOwner => (false, "ownership unknown for manifest on this node", [], s)
  end.

(** What the handler hands to the spawned task. *)
Record delete_task := {
  task_manifest_id : string;
  task_operation_id : string;
  task_force : bool;
  task_pubkey : list byte;
}.

Definition run_delete_task (now : Z) (t : delete_task) s : DeleteResponse * NodeState :=
  let '(success, message, removed, s) :=
    process_delete_request now (task_manifest_id t) (task_force t) (task_pubkey t) s in
  ({| del_ok := success; del_operation_id := task_operation_id t; del_message := message;
      del_manifest_id := task_manifest_id t; del_removed := removed |}, s).

(** The task between two of its waits: the engines left, the workloads of the
    current engine left, what was removed and what went wrong so far. *)
Inductive delete_stage :=
| CheckOwner
| ReadRegistry
| NextEngine (names removed errors : list string)
| NextWorkload (name : string) (rest : list WorkloadInfo) (names removed errors : list string)
| Withdraw (removed errors : list string)
| DropOwner (removed errors : list string).

(** An engine of the registry, whose read guard the removal holds. *)
Definition held_engine (name : string) s : option (RuntimeEngine W) :=
  RUNTIME_REGISTRY s ≫= λ registry, get_engine registry name.

(** One stage: the task goes on, or ends with what it reports. *)
Definition delete_step (now : Z) (t : delete_task) (st : delete_stage) s :
    (bool * string * list string + delete_stage) * NodeState :=
  match st with
  | CheckOwner =>
      (match verify_delete_ownership (task_manifest_id t) (task_pubkey t) s with
       | Match => inr ReadRegistry
       | Mismatch => if task_force t then inr ReadRegistry else inl (false, "ownership verification failed", [])
       | UnknownOwner => inl (false, "ownership unknown for manifest on this node", [])
       end, s)
  | ReadRegistry =>
      (match RUNTIME_REGISTRY s with
       | None => inl (delete_report (Err "Runtime registry not initialized"))
       | Some registry => inr (NextEngine (list_engines registry) [] [])
       end, s)
  | NextEngine [] removed errors => (inr (Withdraw removed errors), s)
  | NextEngine (name :: names) removed errors =>
      (inr (match held_engine name s with
            | Some engine =>
                match list_workloads engine now (engine_world s) with
                | Ok l => NextWorkload name l names removed errors
                | Err _ => NextEngine names removed (errors ++ ["list:" +:+ name])%list
                end
            | None => NextEngine names removed errors
            end), s)
  | NextWorkload name [] names removed errors => (inr (NextEngine names removed errors), s)
  | NextWorkload name (i :: rest) names removed errors =>
      if decide (info_manifest_id i = task_manifest_id t) then
        match held_engine name s with
        | Some engine =>
            let '(r, w) := remove_workload engine (info_id i) (engine_world s) in
            (inr (match r with
                  | Ok _ => NextWorkload name rest names (removed ++ [info_id i])%list errors
                  | Err _ => NextWorkload name rest names removed (errors ++ [name +:+ ":" +:+ info_id i])%list
                  end), set_world w s)
        | None => (inr (NextWorkload name rest names removed errors), s)
        end
      else (inr (NextWorkload name rest names removed errors), s)
  | Withdraw removed errors => (inr (DropOwner removed errors), withdraw_announcement (task_manifest_id t) s)
  | DropOwner removed errors =>
      (inl (delete_report (Ok removed)),
       match errors with [] => remove_manifest_owner (task_manifest_id t) s | _ => s end)
  end.


(** [delete_message] on a request: the response that is sent, and the task. *)
Definition delete_message (now : Z) (peer : PeerId) (request : list byte) s :
    DeleteResponse * option delete_task * NodeState :=
  let '(verified, nonces) := verify_signed_message now peer request (NONCE_STORE s) in
  let s := set_nonces nonces s in
  match verified with
  | None => (delete_error_response "unsigned or invalid envelope", None, s)
  | Some envelope =>
      match root_as_delete_request (payload envelope) with
      | Some delete_req =>
          (delete_ack_response (default "unknown" (dr_operation_id delete_req))
             (default "unknown" (dr_manifest_id delete_req)),
           Some {| task_manifest_id := default "" (dr_manifest_id delete_req);
                   task_operation_id := default "" (dr_operation_id delete_req);
                   task_force := dr_force delete_req; task_pubkey := pubkey envelope |}, s)
      | None => (delete_error_response "invalid delete request format", None, s)
      end
  end.

End delete.

(** ** Lemmas *)

Section lemmas.
Context `{PeerIds, !Kademlia} {W : Type}.
Implicit Types s : NodeState (W:=W).

Lemma withdraw_announcement_owners id s :
  MANIFEST_OWNER_MAP (withdraw_announcement id s) = MANIFEST_OWNER_MAP s.
Proof. unfold withdraw_announcement. by destruct (PROVIDER_MANAGER s). Qed.

Lemma withdraw_announcement_local id s pm :
  PROVIDER_MANAGER (withdraw_announcement id s) = Some pm → local_providers pm !! id = None.
Proof.
  unfold withdraw_announcement. destruct (PROVIDER_MANAGER s) as [pm0|] eqn:E; simpl; [|congruence].
  intros [= <-]. unfold stop_providing. destruct (local_providers pm0 !! id) eqn:El; simpl; [|done].
  by rewrite lookup_delete_eq.
Qed.

(** Removal leaves the owners of other manifests and withdraws the manifest. *)
Lemma remove_workloads_by_manifest_id_ok now id s r s' :
  remove_workloads_by_manifest_id now id s = (Ok r, s') →
  (∀ id', id' ≠ id → get_manifest_owner id' s' = get_manifest_owner id' s) ∧
  (∀ pm, PROVIDER_MANAGER s' = Some pm → local_providers pm !! id = None).
Proof.
  unfold remove_workloads_by_manifest_id. destruct (RUNTIME_REGISTRY s) as [reg|]; [|done].
  destruct (remove_from_engines _ _ _ _ _) as [[removed errors] w]. intros [= <- <-].
  unfold get_manifest_owner. split.
  - intros id' Hne. destruct errors; simpl; rewrite ?lookup_delete_ne by done;
      by rewrite withdraw_announcement_owners.
  - intros pm Hpm. apply (withdraw_announcement_local id (set_world w s)).
    by destruct errors.
Qed.

(** *** The stages run to the end *)








(** Removal touches no reservation and records no owner. *)
Lemma remove_workloads_by_manifest_id_keeps now id s :
  let s' := (remove_workloads_by_manifest_id now id s).2 in
  RESOURCE_VERIFIER s' = RESOURCE_VERIFIER s ∧ MANIFEST_OWNER_MAP s' ⊆ MANIFEST_OWNER_MAP s.
Proof.
  unfold remove_workloads_by_manifest_id. destruct (RUNTIME_REGISTRY s) as [reg|]; [|done].
  destruct (remove_from_engines _ _ _ _ _) as [[removed errors] w]. cbn [snd].
  assert (RESOURCE_VERIFIER (withdraw_announcement id (set_world w s)) = RESOURCE_VERIFIER s) as Hv
    by (unfold withdraw_announcement; by destruct (PROVIDER_MANAGER _)).
  pose proof (withdraw_announcement_owners id (set_world w s)) as Ho.
  destruct errors; simpl; rewrite Hv, ?Ho; (split; [done|]); simpl; [apply delete_subseteq|done].
Qed.

Lemma delete_workloads_cases now id s ok msg removed s' :
  delete_workloads now id s = (ok, msg, removed, s') →
  if ok then ∃ r, remove_workloads_by_manifest_id now id s = (Ok r, s') else removed = [].
Proof.
  unfold delete_workloads. destruct (remove_workloads_by_manifest_id now id s) as [[[|x l]|e] s1];
    cbn [delete_report]; intros [= <- <- <- <-]; eauto.
Qed.

(** *** What one stage may do *)

(** The check passes for the recorded owner, or by force when there is one. *)
Definition may_delete (t : delete_task) (owner : list byte) : Prop :=
  owner ≠ [] ∧ (owner = task_pubkey t ∨ task_force t = true).

Lemma check_step now t s :
  delete_step now t CheckOwner s = (inr ReadRegistry, s) ∧
    (∃ owner, get_manifest_owner (task_manifest_id t) s = Some owner ∧ may_delete t owner) ∨
  ∃ msg, delete_step now t CheckOwner s = (inl (false, msg, []), s).
Proof.
  unfold delete_step, verify_delete_ownership, may_delete.
  destruct (get_manifest_owner _ s) as [owner|]; [|right; by eexists]. case_decide; [right; by eexists|].
  case_decide; [left; eauto 6|]. destruct (task_force t); [left; eauto 6|right; by eexists].
Qed.

(** No stage touches a reservation, and only the manifest of the task may lose
    its owner. *)
Lemma delete_step_keeps now t st s :
  let s' := (delete_step now t st s).2 in
  RESOURCE_VERIFIER s' = RESOURCE_VERIFIER s ∧
  (MANIFEST_OWNER_MAP s' = MANIFEST_OWNER_MAP s ∨
   MANIFEST_OWNER_MAP s' = delete (task_manifest_id t) (MANIFEST_OWNER_MAP s)).
Proof.
  destruct st as [| |[|name names] removed errors|name [|i l] names removed errors|removed errors|removed [|]];
    simpl; auto.
  - case_decide; [|auto]. destruct (held_engine name s) as [engine|]; [|auto].
    destruct (remove_workload _ _ _). auto.
  - unfold withdraw_announcement. destruct (PROVIDER_MANAGER s); auto.
Qed.

(** What the task may do and reports, when it runs to its end. *)
Lemma process_delete_owned now id force pk s :
  let '(ok, msg, removed, s') := process_delete_request now id force pk s in
  (ok = true →
     ∃ owner, get_manifest_owner id s = Some owner ∧ owner ≠ [] ∧ (owner = pk ∨ force = true)) ∧
  ((∀ owner, get_manifest_owner id s = Some owner → owner = [] ∨ (owner ≠ pk ∧ force = false)) →
     ok = false ∧ removed = [] ∧ s' = s) ∧
  (ok = true →
     (∀ id', id' ≠ id → get_manifest_owner id' s' = get_manifest_owner id' s) ∧
     (∀ pm, PROVIDER_MANAGER s' = Some pm → local_providers pm !! id = None)).
Proof.
  destruct (process_delete_request now id force pk s) as [[[ok msg] removed] s'] eqn:Hp.
  unfold process_delete_request, verify_delete_ownership in Hp.
  destruct (get_manifest_owner id s) as [owner|] eqn:Eo; [|simplify_eq; split_and!; try done; naive_solver].
  case_decide as He; [simplify_eq; split_and!; try done; naive_solver|].
  assert (delete_workloads now id s = (ok, msg, removed, s') ∧ (owner = pk ∨ force = true) ∨
          (ok = false ∧ removed = [] ∧ s' = s ∧ owner ≠ pk ∧ force = false)) as [[Hd Hc]|Hno].
  { case_decide; [left; split; [done|by left]|]. destruct force; [left; split; [done|by right]|].
    right. by simplify_eq. }
  - split_and!; [naive_solver| |].
    + intros Hall. destruct (Hall owner eq_refl) as [?|[? ?]]; [done|]. destruct Hc; congruence.
    + intros ->. apply delete_workloads_cases in Hd as [r Hr].
      by eapply remove_workloads_by_manifest_id_ok.
  - destruct Hno as (-> & -> & -> & ? & ?). split_and!; naive_solver.
Qed.

End lemmas.

(** ** Properties *)

Section properties.
Context `{PeerIds, !Kademlia, FlatBuffers, Crypto, Messages} {W : Type}.
Implicit Types s : NodeState (W:=W).

(** C17: the path of a delete request. The handler changes nothing but the
    nonces, and it acknowledges ([ok = true]) exactly the requests whose envelope
    verifies and whose table parses, whoever owns the manifest; the ownership is
    left to the task it spawns, which carries the key that signed the envelope.
    Run to its end in any later state, the task removes nothing and changes nothing unless
    that state records a nonempty owner for the manifest that is this key, or
    [force] is set (which does not help when the owner is unknown); a removal it
    reports as done withdraws the announcement of the manifest and keeps the
    owners of all others. What the task reports is not sent to anyone. *)
Theorem delete_respects_ownership now peer request s :
  let '(resp, tsk, s1) := delete_message now peer request s in
  let '(verified, nonces) := verify_signed_message now peer request (NONCE_STORE s) in
  s1 = set_nonces nonces s ∧ (del_ok resp = true ↔ is_Some tsk) ∧ del_removed resp = [] ∧
  (is_Some tsk ↔ ∃ env, verified = Some env ∧ is_Some (root_as_delete_request (payload env))) ∧
  ∀ t, tsk = Some t →
    (∃ env dr, verified = Some env ∧ root_as_delete_request (payload env) = Some dr ∧
       task_pubkey t = pubkey env ∧ task_manifest_id t = default "" (dr_manifest_id dr) ∧
       task_force t = dr_force dr) ∧
    ∀ now' s2, let '(report, s3) := run_delete_task now' t s2 in
      (del_ok report = true →
         ∃ owner, get_manifest_owner (task_manifest_id t) s2 = Some owner ∧ may_delete t owner) ∧
      ((∀ owner, get_manifest_owner (task_manifest_id t) s2 = Some owner → ¬ may_delete t owner) →
         del_ok report = false ∧ del_removed report = [] ∧ s3 = s2) ∧
      (del_ok report = true →
         (∀ id', id' ≠ task_manifest_id t → get_manifest_owner id' s3 = get_manifest_owner id' s2) ∧
         (∀ pm, PROVIDER_MANAGER s3 = Some pm → local_providers pm !! task_manifest_id t = None)).
Proof.
  destruct (delete_message now peer request s) as [[resp tsk] s1] eqn:Ed. unfold delete_message in Ed.
  destruct (verify_signed_message now peer request (NONCE_STORE s)) as [[env|] nonces];
    [destruct (root_as_delete_request (payload env)) as [dr|] eqn:Er|]; simplify_eq;
    cbn [del_ok del_removed delete_ack_response delete_error_response]; cycle 1.
  { split_and!; [done|by split; [|intros []]|done|split; [by intros []|]|done].
    intros (? & [= <-] & [? ?]). congruence. }
  { split_and!; [done|by split; [|intros []]|done|split; [by intros []|]|done]. by intros (? & ? & _). }
  split_and!; [done|by split|done|split; [intros _; exists env; by rewrite Er|by eexists]|].
  intros t [= <-]. split; [by exists env, dr|]. intros now' s2.
  unfold run_delete_task, may_delete. cbn [task_manifest_id task_force task_pubkey].
  pose proof (process_delete_owned now' (default "" (dr_manifest_id dr)) (dr_force dr) (pubkey env) s2) as Hp.
  destruct (process_delete_request _ _ _ _ _) as [[[ok msg] removed] s3]. cbn [del_ok del_removed].
  destruct Hp as (? & Hrefuse & ?). split_and!; [done| |done]. intros Hno. apply Hrefuse. intros owner Ho.
  specialize (Hno owner Ho). destruct (decide (owner = [])); [by left|right].
  split; [naive_solver|]. destruct (dr_force dr); naive_solver.
Qed.


End properties.

Section takeover.
Context `{PeerIds, !Kademlia, Serde, FlatBuffers, Crypto, Kem, Messages} {W : Type}.
Context (kem_keypair : result string (list byte * list byte)).
Implicit Types s : NodeState (W:=W).

(** the owner of a manifest can be locked out by another signer: after an
    apply request of [owner'] for the same manifest, successful or not, the
    first owner's deletion is refused (unless forced) and leaves everything in
    place, while [owner'] passes the ownership check. *)
Theorem takeover_locks_out_owner dbg downcast now now' req json id owner owner' c s :
  decrypt_manifest_content kem_keypair json = Some (Ok c) → ar_manifest_id req = Some id →
  owner' ≠ [] → owner ≠ owner' → get_manifest_owner id s = Some owner →
  let s' := (process_manifest_deployment kem_keypair dbg downcast now req json owner' s).2 in
  process_delete_request now' id false owner s' = (false, "ownership verification failed", [], s') ∧
  verify_delete_ownership id owner' s' = Match.
Proof.
  intros Hc Hid Hne Hd Ho s'.
  assert (get_manifest_owner id s' = Some owner') as Hs' by by eapply apply_takes_ownership.
  unfold process_delete_request, verify_delete_ownership. rewrite Hs'.
  rewrite !(decide_False (P := owner' = [])) by done. split; [|by rewrite decide_True].
  by rewrite decide_False by congruence.
Qed.

End takeover.

(** ** Concrete runs *)

Section witnesses.
Import Toy.

Lemma takeover_locks_out_owner_witness :
  let s := record_manifest_owner "id1" [x0a] demo_state in
  let s' := (process_manifest_deployment demo_keys true (λ _, None) 1 demo_apply
               demo_manifest_json [x0b] s).2 in
  process_delete_request 2 "id1" false [x0a] s' = (false, "ownership verification failed", [], s') ∧
  verify_delete_ownership "id1" [x0b] s' = Match.
Proof.
  apply (takeover_locks_out_owner demo_keys true (λ _, None) 1 2 demo_apply demo_manifest_json "id1"
    [x0a] [x0b] (as_bytes "name: web") (record_manifest_owner "id1" [x0a] demo_state)).
  - vm_compute. reflexivity.
  - reflexivity.
  - discriminate.
  - discriminate.
  - reflexivity.
Defined.

End witnesses.
