(* ===== verification/Protocol.v ===== *)
(** * Messages and manifest identifiers ([protocol/src/lib.rs])

    The builders of the requests and of the replies of the REST interface, the
    encrypted and signed envelopes clients send, the readers of an envelope's
    signature, and the identifiers of manifests. The generated FlatBuffers code
    is the class [Tables] here; [TableBuilders] gives its instance. *)

From Stdlib Require Import Ascii.
From S2P Require Import Prelude RustStr Utf8 RustHash Libp2p Concrete NonceStore Envelope RecipientBlob.
From S2P Require Import WorkloadIntegration DeleteMessage GeneratedManifest.

Open Scope rust_scope.
Open Scope list_scope.

(** ** Tables *)

Record Health := { health_ok : bool; health_status : option string }.

Record NodesResponse := { nodes_peers : option (list string) }.

Record CandidateNode := { cand_peer_id : option string; cand_public_key : option string }.
Record CandidatesResponse := {
  candidates_ok : bool;
  candidates_nodes : option (list CandidateNode);
}.

Record TaskCreateResponse := {
  tc_ok : bool;
  tc_task_id : option string;
  tc_manifest_ref : option string;
  tc_selection_window_ms : Z;
  tc_message : option string;
}.

Record TaskStatusResponse := {
  ts_task_id : option string;
  ts_state : option string;
  ts_assigned_peers : option (list string);
  ts_shares_distributed : option (list string);
  ts_manifest_cid : option string;
}.

(** The two replies as the generated readers see them: a peer may leave any
    string out. *)
Record ApplyResponseTable := {
  at_ok : bool;
  at_operation_id : option string;
  at_message : option string;
}.

Record DeleteResponseTable := {
  dt_ok : bool;
  dt_operation_id : option string;
  dt_message : option string;
  dt_manifest_id : option string;
  dt_removed_workloads : option (list string);
}.

Record AppliedManifest := {
  am_id : option string;
  am_operation_id : option string;
  am_origin_peer : option string;
  am_owner_pubkey : option (list byte);
  am_signature_scheme : SignatureScheme;
  am_signature : option (list byte);
  am_manifest_json : option string;
  am_manifest_kind : option string;
  am_labels : option (list (option string * option string));
  am_timestamp : Z;
  am_operation : OperationType;
  am_ttl_secs : Z;
  am_content_hash : option string;
}.

(** The generated [create] followed by [finish], and the readers. *)
Class Tables := {
  finish_health : Health → list byte;
  root_as_health : list byte → option Health;
  finish_apply_request : ApplyRequest → list byte;
  finish_delete_request : DeleteRequest → list byte;
  finish_apply_response : ApplyResponseTable → list byte;
  root_as_apply_response : list byte → option ApplyResponseTable;
  finish_delete_response : DeleteResponseTable → list byte;
  root_as_delete_response : list byte → option DeleteResponseTable;
  finish_nodes_response : NodesResponse → list byte;
  root_as_nodes_response : list byte → option NodesResponse;
  finish_candidates_response : CandidatesResponse → list byte;
  root_as_candidates_response : list byte → option CandidatesResponse;
  finish_task_create_response : TaskCreateResponse → list byte;
  root_as_task_create_response : list byte → option TaskCreateResponse;
  finish_task_status_response : TaskStatusResponse → list byte;
  root_as_task_status_response : list byte → option TaskStatusResponse;
  finish_applied_manifest : AppliedManifest → list byte;
  root_as_applied_manifest : list byte → option AppliedManifest;
}.

(** What is built is read back, scalars being in range. *)
Class TablesLaws `{Messages, Tables} : Prop := {
  root_finish_apply_request r : in_u 32 (ar_replicas r) →
    root_as_apply_request (finish_apply_request r) = Some r;
  root_finish_delete_request r : root_as_delete_request (finish_delete_request r) = Some r;
  root_finish_apply_response r : root_as_apply_response (finish_apply_response r) = Some r;
  root_finish_delete_response r : root_as_delete_response (finish_delete_response r) = Some r;
  root_finish_nodes_response r : root_as_nodes_response (finish_nodes_response r) = Some r;
  root_finish_candidates_response r :
    root_as_candidates_response (finish_candidates_response r) = Some r;
  root_finish_task_create_response r : in_u 64 (tc_selection_window_ms r) →
    root_as_task_create_response (finish_task_create_response r) = Some r;
  root_finish_task_status_response r :
    root_as_task_status_response (finish_task_status_response r) = Some r;
  root_finish_applied_manifest r : in_u 64 (am_timestamp r) → in_u 32 (am_ttl_secs r) →
    in_i 8 (scheme_value (am_signature_scheme r)) → in_i 8 (operation_value (am_operation r)) →
    root_as_applied_manifest (finish_applied_manifest r) = Some r;
}.

(** ** Builders *)

Section builders.
Context `{Messages, Tables}.

Definition build_health (ok : bool) (status : string) : list byte :=
  finish_health {| health_ok := ok; health_status := Some status |}.

(** The request identifier is not set. *)
Definition build_capacity_request (cpu_milli memory_bytes storage_bytes replicas : Z) : list byte :=
  finish_capacity_request {| cr_request_id := None; cr_cpu_milli := cpu_milli;
    cr_memory_bytes := memory_bytes; cr_storage_bytes := storage_bytes; cr_replicas := replicas |}.

Definition build_apply_request (replicas : Z)
    (operation_id manifest_json origin_peer manifest_id : string) : list byte :=
  finish_apply_request {| ar_replicas := replicas; ar_operation_id := Some operation_id;
    ar_manifest_json := Some manifest_json; ar_origin_peer := Some origin_peer;
    ar_manifest_id := Some manifest_id |}.

Definition apply_response_bytes (ok : bool) (operation_id message : string) : list byte :=
  finish_apply_response {| at_ok := ok; at_operation_id := Some operation_id; at_message := Some message |}.

Definition build_delete_request (manifest_id operation_id origin_peer : string) (force : bool) :
    list byte :=
  finish_delete_request {| dr_manifest_id := Some manifest_id; dr_operation_id := Some operation_id;
    dr_origin_peer := Some origin_peer; dr_force := force |}.

Definition build_delete_response (ok : bool) (operation_id message manifest_id : string)
    (removed_workloads : list string) : list byte :=
  finish_delete_response {| dt_ok := ok; dt_operation_id := Some operation_id; dt_message := Some message;
    dt_manifest_id := Some manifest_id; dt_removed_workloads := Some removed_workloads |}.

Definition build_applied_manifest (id operation_id origin_peer : string)
    (owner_pubkey signature : list byte) (manifest_json manifest_kind : string)
    (labels : list (string * string)) (timestamp ttl_secs : Z) (content_hash : string) : list byte :=
  finish_applied_manifest
    {| am_id := Some id; am_operation_id := Some operation_id; am_origin_peer := Some origin_peer;
       am_owner_pubkey := Some owner_pubkey; am_signature_scheme := SIG_NONE;
       am_signature := Some signature; am_manifest_json := Some manifest_json;
       am_manifest_kind := Some manifest_kind;
       am_labels := Some ((λ kv, (Some kv.1, Some kv.2)) <$> labels);
       am_timestamp := timestamp; am_operation := APPLY; am_ttl_secs := ttl_secs;
       am_content_hash := Some content_hash |}.

Definition build_manifest_target (peer_id payload_json : string) : string * string :=
  (peer_id, payload_json).

Definition build_nodes_response (peers : list string) : list byte :=
  finish_nodes_response {| nodes_peers := Some peers |}.

Definition build_candidates_response_with_keys (ok : bool) (candidates : list (string * string)) :
    list byte :=
  finish_candidates_response
    {| candidates_ok := ok;
       candidates_nodes := Some ((λ c, {| cand_peer_id := Some c.1; cand_public_key := Some c.2 |})
                                   <$> candidates) |}.

Definition build_candidates_response (ok : bool) (responders : list string) : list byte :=
  build_candidates_response_with_keys ok ((λ peer_id, (peer_id, "")) <$> responders).

Definition build_task_create_response (ok : bool) (task_id manifest_id : string)
    (selection_window_ms : Z) : list byte :=
  finish_task_create_response
    {| tc_ok := ok; tc_task_id := Some task_id; tc_manifest_ref := Some manifest_id;
       tc_selection_window_ms := selection_window_ms; tc_message := Some "task created" |}.

Definition build_task_status_response (task_id state : string)
    (assigned_peers shares_distributed : list string) (manifest_cid : option string) : list byte :=
  finish_task_status_response
    {| ts_task_id := Some task_id; ts_state := Some state; ts_assigned_peers := Some assigned_peers;
       ts_shares_distributed := Some shares_distributed; ts_manifest_cid := manifest_cid |}.

End builders.

(** ** Envelopes *)

Section envelopes.
Context `{FlatBuffers, Crypto, Kem}.

(** The text after the first colon, or all of it. *)
Definition signature_text (sig_field : string) : string :=
  default sig_field (after_char ":"%char sig_field).

Definition fb_envelope_extract_sig_pub (envelope_bytes : list byte) :
    option (list byte * list byte) :=
  envelope ← root_as_envelope envelope_bytes;
  sig_field ← env_sig envelope;
  sig_bytes ← base64_decode (signature_text sig_field);
  pubkey_field ← env_pubkey envelope;
  pub_bytes ← base64_decode pubkey_field;
  Some (sig_bytes, pub_bytes).

(** The canonical bytes, the signature and the key, and the two fields as
    text. The canonical form is the one without a peer. *)
Definition fb_envelope_extract_sig_pub_legacy (buf : list byte) :
    result string (list byte * list byte * list byte * string * string) :=
  let? fb_env := ok_or "failed to parse envelope flatbuffer" (root_as_envelope buf) in
  let canonical := build_envelope_canonical (default [] (env_payload fb_env))
    (default "" (env_payload_type fb_env)) (default "" (env_nonce fb_env)) (env_ts fb_env)
    (default "" (env_alg fb_env)) (Some (default "" (env_kem_pubkey fb_env))) in
  let sig_field := default "" (env_sig fb_env) in
  let pubkey_field := default "" (env_pubkey fb_env) in
  let? sig_bytes := ok_or "failed to base64-decode signature"
                      (base64_decode (signature_text sig_field)) in
  let? pub_bytes := ok_or "failed to base64-decode pubkey" (base64_decode pubkey_field) in
  Ok (canonical, sig_bytes, pub_bytes, sig_field, pubkey_field).

(** The nonce of an encrypted envelope: the hash of the clock. *)
Definition clock_nonce (now_ns : Z) : string := lower_hex (default_hash (hash_time now_ns)).

(** [seed] and [aes_nonce] are the random draws of the encryption; the clock is
    read twice. *)
Definition build_encrypted_envelope (seed aes_nonce : list byte) (now_ns now_ns' : Z)
    (payload : list byte) (payload_type : string) (recipient_pubkey sender_privkey : list byte)
    (sender_pubkey : string) : result string (list byte) :=
  let? encrypted_payload := encrypt_payload_for_recipient seed aes_nonce recipient_pubkey payload in
  let nonce := clock_nonce now_ns in
  let ts := now_ns' / 1000000000 in
  let canonical :=
    build_envelope_canonical encrypted_payload payload_type nonce ts "ml-dsa-65" None in
  let? sender_pubkey_bytes :=
    ok_or "Failed to decode sender public key" (base64_decode sender_pubkey) in
  let? (sig_b64, pub_b64) := sign_envelope sender_privkey sender_pubkey_bytes canonical in
  Ok (build_envelope_signed encrypted_payload payload_type nonce ts "ml-dsa-65" "ml-dsa-65"
        sig_b64 pub_b64 None).

Definition build_encrypted_envelope_with_peer (seed aes_nonce : list byte) (now_ns now_ns' : Z)
    (payload : list byte) (payload_type : string) (recipient_pubkey sender_privkey : list byte)
    (sender_pubkey peer_id : string) (sender_kem_pub_b64 : option string) :
    result string (list byte) :=
  let? encrypted_payload := encrypt_payload_for_recipient seed aes_nonce recipient_pubkey payload in
  let nonce := clock_nonce now_ns in
  let ts := now_ns' / 1000000000 in
  let canonical := build_envelope_canonical_with_peer encrypted_payload payload_type nonce ts
                     "ml-dsa-65" peer_id sender_kem_pub_b64 in
  let? sender_pubkey_bytes :=
    ok_or "Failed to decode sender public key" (base64_decode sender_pubkey) in
  let? (sig_b64, pub_b64) := sign_envelope sender_privkey sender_pubkey_bytes canonical in
  Ok (build_envelope_signed_with_peer encrypted_payload payload_type nonce ts "ml-dsa-65"
        "ml-dsa-65" sig_b64 pub_b64 peer_id sender_kem_pub_b64).

End envelopes.

(** ** Manifest identifiers *)

(** The value of the first line [name: value] of a manifest. *)
Definition extract_manifest_name (manifest_data : list byte) : option string :=
  manifest_str ← from_utf8 manifest_data;
  line ← head (filter (λ l, starts_with "name:" l = true) (trim <$> str_lines manifest_str));
  trim <$> split_char ":" line !! 1%nat.

(** [format!("{:x}", hash)[..16]] *)
Definition hash_id (hash : Z) : option string := slice_to 16 (lower_hex hash).

Definition compute_manifest_id (name : string) (version : Z) : option string :=
  hash_id (default_hash (hash_str name ++ hash_u64 version)).

Definition compute_manifest_id_from_content (manifest_data : list byte) : option string :=
  hash_id (default_hash (hash_bytes manifest_data)).

(** ** Lemmas *)

Lemma hash_id_cases h : in_u 64 h →
  hash_id h = if decide (2 ^ 60 ≤ h) then Some (lower_hex h) else None.
Proof. apply slice_hex. Qed.

Lemma hash_id_Some h id : in_u 64 h → hash_id h = Some id →
  2 ^ 60 ≤ h ∧ String.length id = 16%nat ∧ parse_hex 0 id = Some h.
Proof.
  intros Hh. rewrite hash_id_cases by done. case_decide as Hc; [|done]. intros [= <-].
  split_and!; [done|apply lower_hex_length; unfold in_u in Hh; lia|by apply parse_lower_hex].
Qed.

Lemma hash_id_None h : in_u 64 h → hash_id h = None → h < 2 ^ 60.
Proof. intros Hh. rewrite hash_id_cases by done. case_decide; [done|lia]. Qed.

Lemma clock_nonce_nonempty now_ns : clock_nonce now_ns ≠ "".
Proof.
  unfold clock_nonce. generalize (default_hash (hash_time now_ns)). intros h Heq.
  assert (Hl : (1 ≤ String.length (lower_hex h))%nat); [|by rewrite Heq in Hl; simpl in Hl; lia].
  unfold lower_hex. cbn [hex_go]. case_decide; simpl; [lia|].
  pose proof (hex_go_length 15 (h / 16) (String (hex_digit (h mod 16)) "")) as Hg. simpl in Hg. lia.
Qed.

Section envelope_lemmas.
Context `{FlatBuffers, Crypto, Kem}.

(** The configuration under which the encrypted payload is signed. *)
Definition encrypted_config (nonce : string) (ts : Z) (peer kem : option string) : SignEnvelopeConfig :=
  {| cfg_nonce := Some nonce; cfg_timestamp := Some ts; cfg_peer_id := peer;
     cfg_kem_pub_b64 := kem; cfg_algorithm := "ml-dsa-65"; cfg_signature_prefix := "ml-dsa-65" |}.

(** An encrypted envelope is a signed envelope around a recipient blob. *)
Lemma encrypted_envelope_is_signed seed aes_nonce t t' payload ptype rpk sk pk_b64 :
  build_encrypted_envelope seed aes_nonce t t' payload ptype rpk sk pk_b64 =
  (let? blob := encrypt_payload_for_recipient seed aes_nonce rpk payload in
   let? pk := ok_or "Failed to decode sender public key" (base64_decode pk_b64) in
   let? s := sign_internal "" 0 blob ptype
               (encrypted_config (clock_nonce t) (t' / 1000000000) None None) pk sk in
   Ok (signed_bytes s)).
Proof.
  unfold build_encrypted_envelope, sign_internal.
  destruct (encrypt_payload_for_recipient _ _ _ _) as [blob|]; [|done]. simpl.
  destruct (base64_decode pk_b64) as [pk|]; [|done]. simpl.
  by destruct (sign_envelope sk pk _) as [[sg pb]|].
Qed.

Lemma encrypted_envelope_with_peer_is_signed seed aes_nonce t t' payload ptype rpk sk pk_b64 peer kem :
  build_encrypted_envelope_with_peer seed aes_nonce t t' payload ptype rpk sk pk_b64 peer kem =
  (let? blob := encrypt_payload_for_recipient seed aes_nonce rpk payload in
   let? pk := ok_or "Failed to decode sender public key" (base64_decode pk_b64) in
   let? s := sign_internal "" 0 blob ptype
               (encrypted_config (clock_nonce t) (t' / 1000000000) (Some peer) kem) pk sk in
   Ok (signed_bytes s)).
Proof.
  unfold build_encrypted_envelope_with_peer, sign_internal.
  destruct (encrypt_payload_for_recipient _ _ _ _) as [blob|]; [|done]. simpl.
  destruct (base64_decode pk_b64) as [pk|]; [|done]. simpl.
  by destruct (sign_envelope sk pk _) as [[sg pb]|].
Qed.

(** The readers agree with the verifier on an accepted envelope whose two
    fields are present; the legacy one rebuilds the signed bytes only for an
    envelope without a peer. *)
Lemma extract_agrees now bytes window peer store parts store' fb :
  verify_flatbuffer_envelope_for_peer now bytes window peer store = (Ok parts, store') →
  root_as_envelope bytes = Some fb → is_Some (env_sig fb) → is_Some (env_pubkey fb) →
  fb_envelope_extract_sig_pub bytes = Some (signature parts, pubkey parts).
Proof.
  intros (fb' & Hr & Hs & Hp & _)%verify_ok_inv Hfb [sg Hsg] [pb Hpb]. simplify_eq.
  unfold fb_envelope_extract_sig_pub. rewrite Hr. simpl. rewrite Hsg, Hpb in *. simpl in *.
  unfold normalize_and_decode_signature in Hs. simpl in Hs. unfold signature_text.
  destruct (base64_decode _) as [d|]; simpl in *; [|done]. simplify_eq. by rewrite Hp.
Qed.

End envelope_lemmas.

(** ** Concrete tables *)

Module ToyTables.

#[export] Instance apply_request_countable_eq : EqDecision ApplyRequest.
Proof. solve_decision. Defined.
#[export] Instance apply_request_countable : Countable ApplyRequest := inj_countable'
  (λ r, (ar_replicas r, ar_operation_id r, ar_manifest_json r, ar_origin_peer r, ar_manifest_id r))
  (λ '(a, b, c, d, e), Build_ApplyRequest a b c d e) (λ r, match r with Build_ApplyRequest _ _ _ _ _ => eq_refl end).

#[export] Instance delete_request_eq : EqDecision DeleteRequest.
Proof. solve_decision. Defined.
#[export] Instance delete_request_countable : Countable DeleteRequest := inj_countable'
  (λ r, (dr_manifest_id r, dr_operation_id r, dr_origin_peer r, dr_force r))
  (λ '(a, b, c, d), Build_DeleteRequest a b c d) (λ r, match r with Build_DeleteRequest _ _ _ _ => eq_refl end).

#[export] Instance capacity_request_eq : EqDecision CapacityRequest.
Proof. solve_decision. Defined.
#[export] Instance capacity_request_countable : Countable CapacityRequest := inj_countable'
  (λ r, (cr_request_id r, cr_cpu_milli r, cr_memory_bytes r, cr_storage_bytes r, cr_replicas r))
  (λ '(a, b, c, d, e), Build_CapacityRequest a b c d e)
  (λ r, match r with Build_CapacityRequest _ _ _ _ _ => eq_refl end).

#[export] Instance apply_response_eq : EqDecision ApplyResponseTable.
Proof. solve_decision. Defined.
#[export] Instance apply_response_countable : Countable ApplyResponseTable := inj_countable'
  (λ r, (at_ok r, at_operation_id r, at_message r))
  (λ '(a, b, c), Build_ApplyResponseTable a b c) (λ r, match r with Build_ApplyResponseTable _ _ _ => eq_refl end).

#[export] Instance delete_response_eq : EqDecision DeleteResponseTable.
Proof. solve_decision. Defined.
#[export] Instance delete_response_countable : Countable DeleteResponseTable := inj_countable'
  (λ r, (dt_ok r, dt_operation_id r, dt_message r, dt_manifest_id r, dt_removed_workloads r))
  (λ '(a, b, c, d, e), Build_DeleteResponseTable a b c d e)
  (λ r, match r with Build_DeleteResponseTable _ _ _ _ _ => eq_refl end).

#[export] Instance health_eq : EqDecision Health.
Proof. solve_decision. Defined.
#[export] Instance health_countable : Countable Health := inj_countable'
  (λ r, (health_ok r, health_status r)) (λ '(a, b), Build_Health a b)
  (λ r, match r with Build_Health _ _ => eq_refl end).

#[export] Instance nodes_eq : EqDecision NodesResponse.
Proof. solve_decision. Defined.
#[export] Instance nodes_countable : Countable NodesResponse := inj_countable'
  nodes_peers Build_NodesResponse (λ r, match r with Build_NodesResponse _ => eq_refl end).

#[export] Instance candidate_eq : EqDecision CandidateNode.
Proof. solve_decision. Defined.
#[export] Instance candidate_countable : Countable CandidateNode := inj_countable'
  (λ r, (cand_peer_id r, cand_public_key r)) (λ '(a, b), Build_CandidateNode a b)
  (λ r, match r with Build_CandidateNode _ _ => eq_refl end).

#[export] Instance candidates_eq : EqDecision CandidatesResponse.
Proof. solve_decision. Defined.
#[export] Instance candidates_countable : Countable CandidatesResponse := inj_countable'
  (λ r, (candidates_ok r, candidates_nodes r)) (λ '(a, b), Build_CandidatesResponse a b)
  (λ r, match r with Build_CandidatesResponse _ _ => eq_refl end).

#[export] Instance task_create_eq : EqDecision TaskCreateResponse.
Proof. solve_decision. Defined.
#[export] Instance task_create_countable : Countable TaskCreateResponse := inj_countable'
  (λ r, (tc_ok r, tc_task_id r, tc_manifest_ref r, tc_selection_window_ms r, tc_message r))
  (λ '(a, b, c, d, e), Build_TaskCreateResponse a b c d e)
  (λ r, match r with Build_TaskCreateResponse _ _ _ _ _ => eq_refl end).

#[export] Instance task_status_eq : EqDecision TaskStatusResponse.
Proof. solve_decision. Defined.
#[export] Instance task_status_countable : Countable TaskStatusResponse := inj_countable'
  (λ r, (ts_task_id r, ts_state r, ts_assigned_peers r, ts_shares_distributed r, ts_manifest_cid r))
  (λ '(a, b, c, d, e), Build_TaskStatusResponse a b c d e)
  (λ r, match r with Build_TaskStatusResponse _ _ _ _ _ => eq_refl end).

#[export] Instance scheme_eq : EqDecision SignatureScheme.
Proof. solve_decision. Defined.
#[export] Instance operation_eq : EqDecision OperationType.
Proof. solve_decision. Defined.
#[export] Instance applied_manifest_eq : EqDecision AppliedManifest.
Proof. solve_decision. Defined.
#[export] Instance applied_manifest_countable : Countable AppliedManifest.
Proof.
  refine (inj_countable'
    (λ r, (am_id r, am_operation_id r, am_origin_peer r, am_owner_pubkey r,
           scheme_value (am_signature_scheme r), am_signature r, am_manifest_json r, am_manifest_kind r,
           am_labels r, am_timestamp r, operation_value (am_operation r), am_ttl_secs r,
           am_content_hash r))
    (λ '(a, b, c, d, e, f, g, h, i, j, k, l, m),
       Build_AppliedManifest a b c d (Build_SignatureScheme e) f g h i j (Build_OperationType k) l m) _).
  by intros [????[]?????[]??].
Defined.

Definition toy_finish `{Countable A} (x : A) : list byte := pos_bytes (encode x).
Definition toy_root `{Countable A} (l : list byte) : option A := bytes_pos l ≫= decode.

Lemma toy_root_finish `{Countable A} (x : A) : toy_root (toy_finish x) = Some x.
Proof. unfold toy_root, toy_finish. rewrite bytes_pos_bytes. simpl. apply decode_encode. Qed.

#[export] Instance messages : Messages :=
  {| root_as_apply_request := toy_root; root_as_delete_request := toy_root;
     root_as_capacity_request := toy_root; root_as_capacity_reply _ := None;
     root_as_handshake _ := None; finish_capacity_request := toy_finish;
     finish_capacity_reply _ := []; finish_handshake _ := [] |}.

#[export] Instance tables : Tables :=
  {| finish_health := toy_finish; root_as_health := toy_root;
     finish_apply_request := toy_finish; finish_delete_request := toy_finish;
     finish_apply_response := toy_finish; root_as_apply_response := toy_root;
     finish_delete_response := toy_finish; root_as_delete_response := toy_root;
     finish_nodes_response := toy_finish; root_as_nodes_response := toy_root;
     finish_candidates_response := toy_finish; root_as_candidates_response := toy_root;
     finish_task_create_response := toy_finish; root_as_task_create_response := toy_root;
     finish_task_status_response := toy_finish; root_as_task_status_response := toy_root;
     finish_applied_manifest := toy_finish; root_as_applied_manifest := toy_root |}.

#[export] Instance tables_laws : TablesLaws.
Proof. split; intros; apply toy_root_finish. Qed.

End ToyTables.

(** ** Properties *)

(** C39: the identifier of a named manifest is the sixteen hexadecimal digits of
    the hash of name and version, from which the hash is read back; when the
    hash is below 2^60 the slice is out of range and the computation panics. *)
Theorem manifest_id_exact name version :
  let hash := default_hash (hash_str name ++ hash_u64 version) in
  match compute_manifest_id name version with
  | Some id => 2 ^ 60 ≤ hash ∧ String.length id = 16%nat ∧ parse_hex 0 id = Some hash
  | None => hash < 2 ^ 60
  end.
Proof.
  cbv zeta. unfold compute_manifest_id. destruct (hash_id _) as [id|] eqn:E.
  - apply hash_id_Some; [apply default_hash_in_u|done].
  - apply hash_id_None; [apply default_hash_in_u|done].
Qed.
