(* ===== verification/TableBuilders.v ===== *)
(** * The tables on the wire ([protocol/src/lib.rs] over the generated code)

    For each table: the record of what its accessors give ([..._view]), the
    code of [lib.rs] that writes its fields and calls [create] ([write_...],
    every field that is present, in the order [lib.rs] creates them), the
    finished bytes and their reading through the verifier. The theorems show
    that what is written is read back, field by field, whenever the buffer stays
    within the limits of the verifier. The other files use the tables through the
    classes [FlatBuffers], [Messages] and [Tables]; their round-trip laws leave
    these limits out, and the law of [Messages], on the widths of a capacity
    request, holds of the generated code as it is ([generated_messages_laws]). *)

From S2P Require Import Prelude Utf8 Libp2p Concrete FlatBuf GeneratedRequests GeneratedReplies.
From S2P Require Import GeneratedManifest Protocol.

Open Scope rust_scope.
Open Scope list_scope.

(** [Result::ok] *)
Definition result_ok {E T} (r : result E T) : option T :=
  match r with Ok t => Some t | Err _ => None end.

Section tables.
Context `{FlatBufferCrate}.

Definition envelope_view (t : Table) : Envelope :=
  {| env_payload := Envelope_payload t; env_payload_type := Envelope_payload_type t;
     env_nonce := Envelope_nonce t; env_ts := Envelope_ts t; env_alg := Envelope_alg t;
     env_sig := Envelope_sig t; env_pubkey := Envelope_pubkey t;
     env_kem_pubkey := Envelope_kem_pubkey t; env_peer_id := Envelope_peer_id t |}.

Definition write_envelope (e : Envelope) : Build WIPOffset :=
  payload <~ write_opt create_bytes (env_payload e);;
  payload_type <~ write_opt create_string (env_payload_type e);;
  nonce <~ write_opt create_string (env_nonce e);;
  alg <~ write_opt create_string (env_alg e);;
  sig <~ write_opt create_string (env_sig e);;
  pubkey <~ write_opt create_string (env_pubkey e);;
  kem_pubkey <~ write_opt create_string (env_kem_pubkey e);;
  peer_id <~ write_opt create_string (env_peer_id e);;
  Envelope_create
    {| EnvelopeArgs_payload := payload; EnvelopeArgs_payload_type := payload_type;
       EnvelopeArgs_nonce := nonce; EnvelopeArgs_ts := env_ts e; EnvelopeArgs_alg := alg;
       EnvelopeArgs_sig := sig; EnvelopeArgs_pubkey := pubkey; EnvelopeArgs_peer_id := peer_id;
       EnvelopeArgs_kem_pubkey := kem_pubkey |}.

Definition encode_envelope (e : Envelope) : list byte := finished 256 (write_envelope e).

Definition decode_envelope (l : list byte) : option Envelope :=
  envelope_view <$> result_ok (fb_root_as_envelope l).

Definition apply_request_view (t : Table) : ApplyRequest :=
  {| ar_replicas := ApplyRequest_replicas t; ar_operation_id := ApplyRequest_operation_id t;
     ar_manifest_json := ApplyRequest_manifest_json t;
     ar_origin_peer := ApplyRequest_origin_peer t; ar_manifest_id := ApplyRequest_manifest_id t |}.

Definition write_apply_request (r : ApplyRequest) : Build WIPOffset :=
  operation_id <~ write_opt create_string (ar_operation_id r);;
  manifest_json <~ write_opt create_string (ar_manifest_json r);;
  origin_peer <~ write_opt create_string (ar_origin_peer r);;
  manifest_id <~ write_opt create_string (ar_manifest_id r);;
  ApplyRequest_create
    {| ApplyRequestArgs_replicas := ar_replicas r; ApplyRequestArgs_operation_id := operation_id;
       ApplyRequestArgs_manifest_json := manifest_json;
       ApplyRequestArgs_origin_peer := origin_peer; ApplyRequestArgs_manifest_id := manifest_id |}.

Definition encode_apply_request (r : ApplyRequest) : list byte := finished 256 (write_apply_request r).

Definition decode_apply_request (l : list byte) : option ApplyRequest :=
  apply_request_view <$> result_ok (fb_root_as_apply_request l).

Definition apply_response_view (t : Table) : ApplyResponseTable :=
  {| at_ok := ApplyResponse_ok t; at_operation_id := ApplyResponse_operation_id t;
     at_message := ApplyResponse_message t |}.

Definition write_apply_response (r : ApplyResponseTable) : Build WIPOffset :=
  operation_id <~ write_opt create_string (at_operation_id r);;
  message <~ write_opt create_string (at_message r);;
  ApplyResponse_create
    {| ApplyResponseArgs_ok := at_ok r; ApplyResponseArgs_operation_id := operation_id;
       ApplyResponseArgs_message := message |}.

Definition encode_apply_response (r : ApplyResponseTable) : list byte := finished 128 (write_apply_response r).

Definition decode_apply_response (l : list byte) : option ApplyResponseTable :=
  apply_response_view <$> result_ok (fb_root_as_apply_response l).

Definition delete_request_view (t : Table) : DeleteRequest :=
  {| dr_manifest_id := DeleteRequest_manifest_id t;
     dr_operation_id := DeleteRequest_operation_id t;
     dr_origin_peer := DeleteRequest_origin_peer t; dr_force := DeleteRequest_force t |}.

Definition write_delete_request (r : DeleteRequest) : Build WIPOffset :=
  manifest_id <~ write_opt create_string (dr_manifest_id r);;
  operation_id <~ write_opt create_string (dr_operation_id r);;
  origin_peer <~ write_opt create_string (dr_origin_peer r);;
  DeleteRequest_create
    {| DeleteRequestArgs_manifest_id := manifest_id;
       DeleteRequestArgs_operation_id := operation_id;
       DeleteRequestArgs_origin_peer := origin_peer; DeleteRequestArgs_force := dr_force r |}.

Definition encode_delete_request (r : DeleteRequest) : list byte := finished 256 (write_delete_request r).

Definition decode_delete_request (l : list byte) : option DeleteRequest :=
  delete_request_view <$> result_ok (fb_root_as_delete_request l).

Definition delete_response_view (t : Table) : DeleteResponseTable :=
  {| dt_ok := DeleteResponse_ok t; dt_operation_id := DeleteResponse_operation_id t;
     dt_message := DeleteResponse_message t; dt_manifest_id := DeleteResponse_manifest_id t;
     dt_removed_workloads := DeleteResponse_removed_workloads t |}.

Definition write_delete_response (r : DeleteResponseTable) : Build WIPOffset :=
  operation_id <~ write_opt create_string (dt_operation_id r);;
  message <~ write_opt create_string (dt_message r);;
  manifest_id <~ write_opt create_string (dt_manifest_id r);;
  removed_workloads <~ write_opt (write_vector create_string) (dt_removed_workloads r);;
  DeleteResponse_create
    {| DeleteResponseArgs_ok := dt_ok r; DeleteResponseArgs_operation_id := operation_id;
       DeleteResponseArgs_message := message; DeleteResponseArgs_manifest_id := manifest_id;
       DeleteResponseArgs_removed_workloads := removed_workloads |}.

Definition encode_delete_response (r : DeleteResponseTable) : list byte := finished 512 (write_delete_response r).

Definition decode_delete_response (l : list byte) : option DeleteResponseTable :=
  delete_response_view <$> result_ok (fb_root_as_delete_response l).

Definition capacity_request_view (t : Table) : CapacityRequest :=
  {| cr_request_id := CapacityRequest_request_id t; cr_cpu_milli := CapacityRequest_cpu_milli t;
     cr_memory_bytes := CapacityRequest_memory_bytes t;
     cr_storage_bytes := CapacityRequest_storage_bytes t;
     cr_replicas := CapacityRequest_replicas t |}.

Definition write_capacity_request (r : CapacityRequest) : Build WIPOffset :=
  request_id <~ write_opt create_string (cr_request_id r);;
  CapacityRequest_create
    {| CapacityRequestArgs_request_id := request_id;
       CapacityRequestArgs_cpu_milli := cr_cpu_milli r;
       CapacityRequestArgs_memory_bytes := cr_memory_bytes r;
       CapacityRequestArgs_storage_bytes := cr_storage_bytes r;
       CapacityRequestArgs_replicas := cr_replicas r |}.

Definition encode_capacity_request (r : CapacityRequest) : list byte := finished 128 (write_capacity_request r).

Definition decode_capacity_request (l : list byte) : option CapacityRequest :=
  capacity_request_view <$> result_ok (fb_root_as_capacity_request l).

Definition capacity_reply_view (t : Table) : CapacityReply :=
  {| rp_request_id := CapacityReply_request_id t; rp_ok := CapacityReply_ok t;
     rp_node_id := CapacityReply_node_id t; rp_region := CapacityReply_region t;
     rp_kem_pubkey := CapacityReply_kem_pubkey t; rp_capabilities := CapacityReply_capabilities t;
     rp_cpu_available_milli := CapacityReply_cpu_available_milli t;
     rp_memory_available_bytes := CapacityReply_memory_available_bytes t;
     rp_storage_available_bytes := CapacityReply_storage_available_bytes t |}.

Definition write_capacity_reply (r : CapacityReply) : Build WIPOffset :=
  request_id <~ write_opt create_string (rp_request_id r);;
  node_id <~ write_opt create_string (rp_node_id r);;
  region <~ write_opt create_string (rp_region r);;
  kem_pubkey <~ write_opt create_string (rp_kem_pubkey r);;
  capabilities <~ write_opt (write_vector create_string) (rp_capabilities r);;
  CapacityReply_create
    {| CapacityReplyArgs_request_id := request_id; CapacityReplyArgs_ok := rp_ok r;
       CapacityReplyArgs_node_id := node_id; CapacityReplyArgs_region := region;
       CapacityReplyArgs_kem_pubkey := kem_pubkey; CapacityReplyArgs_capabilities := capabilities;
       CapacityReplyArgs_cpu_available_milli := rp_cpu_available_milli r;
       CapacityReplyArgs_memory_available_bytes := rp_memory_available_bytes r;
       CapacityReplyArgs_storage_available_bytes := rp_storage_available_bytes r |}.

Definition encode_capacity_reply (r : CapacityReply) : list byte := finished 256 (write_capacity_reply r).

Definition decode_capacity_reply (l : list byte) : option CapacityReply :=
  capacity_reply_view <$> result_ok (fb_root_as_capacity_reply l).

Definition handshake_view (t : Table) : Handshake :=
  {| hs_nonce := Handshake_nonce t; hs_timestamp := Handshake_timestamp t;
     hs_protocol_version := Handshake_protocol_version t; hs_signature := Handshake_signature t |}.

Definition write_handshake (r : Handshake) : Build WIPOffset :=
  protocol_version <~ write_opt create_string (hs_protocol_version r);;
  signature <~ write_opt create_string (hs_signature r);;
  Handshake_create
    {| HandshakeArgs_nonce := hs_nonce r; HandshakeArgs_signature := signature;
       HandshakeArgs_protocol_version := protocol_version;
       HandshakeArgs_timestamp := hs_timestamp r |}.

Definition encode_handshake (r : Handshake) : list byte := finished 128 (write_handshake r).

Definition decode_handshake (l : list byte) : option Handshake :=
  handshake_view <$> result_ok (fb_root_as_handshake l).

Definition health_view (t : Table) : Health :=
  {| health_ok := Health_ok t; health_status := Health_status t |}.

Definition write_health (r : Health) : Build WIPOffset :=
  status <~ write_opt create_string (health_status r);;
  Health_create
    {| HealthArgs_ok := health_ok r; HealthArgs_status := status |}.

Definition encode_health (r : Health) : list byte := finished 128 (write_health r).

Definition decode_health (l : list byte) : option Health :=
  health_view <$> result_ok (fb_root_as_health l).

Definition nodes_response_view (t : Table) : NodesResponse :=
  {| nodes_peers := NodesResponse_peers t |}.

Definition write_nodes_response (r : NodesResponse) : Build WIPOffset :=
  peers <~ write_opt (write_vector create_string) (nodes_peers r);;
  NodesResponse_create
    {| NodesResponseArgs_peers := peers |}.

Definition encode_nodes_response (r : NodesResponse) : list byte := finished 512 (write_nodes_response r).

Definition decode_nodes_response (l : list byte) : option NodesResponse :=
  nodes_response_view <$> result_ok (fb_root_as_nodes_response l).

Definition candidate_node_view (t : Table) : CandidateNode :=
  {| cand_peer_id := CandidateNode_peer_id t; cand_public_key := CandidateNode_public_key t |}.

Definition write_candidate_node (r : CandidateNode) : Build WIPOffset :=
  peer_id <~ write_opt create_string (cand_peer_id r);;
  public_key <~ write_opt create_string (cand_public_key r);;
  CandidateNode_create
    {| CandidateNodeArgs_peer_id := peer_id; CandidateNodeArgs_public_key := public_key |}.

Definition candidates_response_view (t : Table) : CandidatesResponse :=
  {| candidates_ok := CandidatesResponse_ok t;
     candidates_nodes := map candidate_node_view <$> CandidatesResponse_candidates t |}.

Definition write_candidates_response (r : CandidatesResponse) : Build WIPOffset :=
  candidates <~ write_opt (write_vector write_candidate_node) (candidates_nodes r);;
  CandidatesResponse_create
    {| CandidatesResponseArgs_ok := candidates_ok r;
       CandidatesResponseArgs_candidates := candidates |}.

Definition encode_candidates_response (r : CandidatesResponse) : list byte := finished 1024 (write_candidates_response r).

Definition decode_candidates_response (l : list byte) : option CandidatesResponse :=
  candidates_response_view <$> result_ok (fb_root_as_candidates_response l).

Definition task_create_response_view (t : Table) : TaskCreateResponse :=
  {| tc_ok := TaskCreateResponse_ok t; tc_task_id := TaskCreateResponse_task_id t;
     tc_manifest_ref := TaskCreateResponse_manifest_ref t;
     tc_selection_window_ms := TaskCreateResponse_selection_window_ms t;
     tc_message := TaskCreateResponse_message t |}.

Definition write_task_create_response (r : TaskCreateResponse) : Build WIPOffset :=
  task_id <~ write_opt create_string (tc_task_id r);;
  manifest_ref <~ write_opt create_string (tc_manifest_ref r);;
  message <~ write_opt create_string (tc_message r);;
  TaskCreateResponse_create
    {| TaskCreateResponseArgs_ok := tc_ok r; TaskCreateResponseArgs_task_id := task_id;
       TaskCreateResponseArgs_manifest_ref := manifest_ref;
       TaskCreateResponseArgs_selection_window_ms := tc_selection_window_ms r;
       TaskCreateResponseArgs_message := message |}.

Definition encode_task_create_response (r : TaskCreateResponse) : list byte := finished 256 (write_task_create_response r).

Definition decode_task_create_response (l : list byte) : option TaskCreateResponse :=
  task_create_response_view <$> result_ok (fb_root_as_task_create_response l).

Definition task_status_response_view (t : Table) : TaskStatusResponse :=
  {| ts_task_id := TaskStatusResponse_task_id t; ts_state := TaskStatusResponse_state t;
     ts_assigned_peers := TaskStatusResponse_assigned_peers t;
     ts_shares_distributed := TaskStatusResponse_shares_distributed t;
     ts_manifest_cid := TaskStatusResponse_manifest_cid t |}.

Definition write_task_status_response (r : TaskStatusResponse) : Build WIPOffset :=
  task_id <~ write_opt create_string (ts_task_id r);;
  state <~ write_opt create_string (ts_state r);;
  assigned_peers <~ write_opt (write_vector create_string) (ts_assigned_peers r);;
  shares_distributed <~ write_opt (write_vector create_string) (ts_shares_distributed r);;
  manifest_cid <~ write_opt create_string (ts_manifest_cid r);;
  TaskStatusResponse_create
    {| TaskStatusResponseArgs_task_id := task_id; TaskStatusResponseArgs_state := state;
       TaskStatusResponseArgs_assigned_peers := assigned_peers;
       TaskStatusResponseArgs_shares_distributed := shares_distributed;
       TaskStatusResponseArgs_manifest_cid := manifest_cid |}.

Definition encode_task_status_response (r : TaskStatusResponse) : list byte := finished 512 (write_task_status_response r).

Definition decode_task_status_response (l : list byte) : option TaskStatusResponse :=
  task_status_response_view <$> result_ok (fb_root_as_task_status_response l).

Definition key_value_view (t : Table) : option string * option string :=
  (KeyValue_key t, KeyValue_value t).

Definition write_key_value (r : option string * option string) : Build WIPOffset :=
  key <~ write_opt create_string (fst r);;
  value <~ write_opt create_string (snd r);;
  KeyValue_create
    {| KeyValueArgs_key := key; KeyValueArgs_value := value |}.

Definition applied_manifest_view (t : Table) : AppliedManifest :=
  {| am_id := AppliedManifest_id t; am_operation_id := AppliedManifest_operation_id t;
     am_origin_peer := AppliedManifest_origin_peer t;
     am_owner_pubkey := AppliedManifest_owner_pubkey t;
     am_signature_scheme := AppliedManifest_signature_scheme t;
     am_signature := AppliedManifest_signature t;
     am_manifest_json := AppliedManifest_manifest_json t;
     am_manifest_kind := AppliedManifest_manifest_kind t;
     am_labels := map key_value_view <$> AppliedManifest_labels t;
     am_timestamp := AppliedManifest_timestamp t; am_operation := AppliedManifest_operation t;
     am_ttl_secs := AppliedManifest_ttl_secs t; am_content_hash := AppliedManifest_content_hash t |}.

Definition write_applied_manifest (r : AppliedManifest) : Build WIPOffset :=
  id <~ write_opt create_string (am_id r);;
  operation_id <~ write_opt create_string (am_operation_id r);;
  origin_peer <~ write_opt create_string (am_origin_peer r);;
  manifest_json <~ write_opt create_string (am_manifest_json r);;
  manifest_kind <~ write_opt create_string (am_manifest_kind r);;
  content_hash <~ write_opt create_string (am_content_hash r);;
  owner_pubkey <~ write_opt create_bytes (am_owner_pubkey r);;
  signature <~ write_opt create_bytes (am_signature r);;
  labels <~ write_opt (write_vector write_key_value) (am_labels r);;
  AppliedManifest_create
    {| AppliedManifestArgs_id := id; AppliedManifestArgs_operation_id := operation_id;
       AppliedManifestArgs_origin_peer := origin_peer;
       AppliedManifestArgs_owner_pubkey := owner_pubkey;
       AppliedManifestArgs_signature_scheme := am_signature_scheme r;
       AppliedManifestArgs_signature := signature;
       AppliedManifestArgs_manifest_json := manifest_json;
       AppliedManifestArgs_manifest_kind := manifest_kind; AppliedManifestArgs_labels := labels;
       AppliedManifestArgs_timestamp := am_timestamp r;
       AppliedManifestArgs_operation := am_operation r;
       AppliedManifestArgs_ttl_secs := am_ttl_secs r;
       AppliedManifestArgs_content_hash := content_hash |}.

Definition encode_applied_manifest (r : AppliedManifest) : list byte := finished 1024 (write_applied_manifest r).

Definition decode_applied_manifest (l : list byte) : option AppliedManifest :=
  applied_manifest_view <$> result_ok (fb_root_as_applied_manifest l).

End tables.

#[export] Hint Unfold envelope_view apply_request_view apply_response_view delete_request_view : flatbuf.
#[export] Hint Unfold delete_response_view capacity_request_view capacity_reply_view handshake_view : flatbuf.
#[export] Hint Unfold health_view nodes_response_view candidate_node_view candidates_response_view : flatbuf.
#[export] Hint Unfold task_create_response_view task_status_response_view key_value_view applied_manifest_view : flatbuf.

(** ** What is written is read back *)

Section written.
Context `{FlatBufferLaws}.

Lemma envelope_written e : in_u 64 (env_ts e) →
  writes_view (write_envelope e) Envelope_run_verifier envelope_view e.
Proof. solve_written e. Qed.

Lemma apply_request_written r : in_u 32 (ar_replicas r) →
  writes_view (write_apply_request r) ApplyRequest_run_verifier apply_request_view r.
Proof. solve_written r. Qed.

Lemma apply_response_written r :
  writes_view (write_apply_response r) ApplyResponse_run_verifier apply_response_view r.
Proof. solve_written r. Qed.

Lemma delete_request_written r :
  writes_view (write_delete_request r) DeleteRequest_run_verifier delete_request_view r.
Proof. solve_written r. Qed.

Lemma delete_response_written r :
  writes_view (write_delete_response r) DeleteResponse_run_verifier delete_response_view r.
Proof. solve_written r. Qed.

Lemma capacity_request_written r : in_u 32 (cr_cpu_milli r) → in_u 64 (cr_memory_bytes r) → in_u 64 (cr_storage_bytes r) → in_u 32 (cr_replicas r) →
  writes_view (write_capacity_request r) CapacityRequest_run_verifier capacity_request_view r.
Proof. solve_written r. Qed.

Lemma capacity_reply_written r : in_u 32 (rp_cpu_available_milli r) → in_u 64 (rp_memory_available_bytes r) → in_u 64 (rp_storage_available_bytes r) →
  writes_view (write_capacity_reply r) CapacityReply_run_verifier capacity_reply_view r.
Proof. solve_written r. Qed.

Lemma handshake_written r : in_u 32 (hs_nonce r) → in_u 64 (hs_timestamp r) →
  writes_view (write_handshake r) Handshake_run_verifier handshake_view r.
Proof. solve_written r. Qed.

Lemma health_written r :
  writes_view (write_health r) Health_run_verifier health_view r.
Proof. solve_written r. Qed.

Lemma nodes_response_written r :
  writes_view (write_nodes_response r) NodesResponse_run_verifier nodes_response_view r.
Proof. solve_written r. Qed.

(** The two tables that are elements of vectors: the fields of an element as a
    function of it. *)
Definition candidate_fields (c : CandidateNode) : fields :=
  [(CandidateNode_VT_PEER_ID, VStr <$> cand_peer_id c); (CandidateNode_VT_PUBLIC_KEY, VStr <$> cand_public_key c)].

Definition key_value_fields (kv : option string * option string) : fields :=
  [(KeyValue_VT_KEY, VStr <$> kv.1); (KeyValue_VT_VALUE, VStr <$> kv.2)].

Lemma candidate_node_writes c : writes (write_candidate_node c) (VTable (written (candidate_fields c))).
Proof. solve_writes. Qed.

Lemma key_value_writes kv : writes (write_key_value kv) (VTable (written (key_value_fields kv))).
Proof. solve_writes. Qed.

Lemma candidate_fields_ok c :
  NoDup (candidate_fields c).*1 ∧ conforms CandidateNode_run_verifier (written (candidate_fields c)).
Proof. split; [by apply (bool_decide_unpack _)|]. unfold candidate_fields. solve_conforms. Qed.

Lemma key_value_fields_ok kv :
  NoDup (key_value_fields kv).*1 ∧ conforms KeyValue_run_verifier (written (key_value_fields kv)).
Proof. split; [by apply (bool_decide_unpack _)|]. unfold key_value_fields. solve_conforms. Qed.

Lemma candidate_fields_view c t : reads_fields t (candidate_fields c) → candidate_node_view t = c.
Proof. intros Ht. destruct c. autounfold with flatbuf. f_equal; solve_field. Qed.

Lemma key_value_fields_view kv t : reads_fields t (key_value_fields kv) → key_value_view t = kv.
Proof. intros Ht. destruct kv. autounfold with flatbuf. f_equal; solve_field. Qed.

#[local] Hint Extern 1 (writes _ _) => apply candidate_node_writes : flatbuf.
#[local] Hint Extern 1 (writes _ _) => apply key_value_writes : flatbuf.
#[local] Hint Resolve candidate_fields_ok key_value_fields_ok : flatbuf.

Lemma candidates_response_written r :
  writes_view (write_candidates_response r) CandidatesResponse_run_verifier candidates_response_view r.
Proof.
  solve_written r.
  eapply (get_tables candidate_node_view candidate_fields);
    [eassumption|reflexivity|apply candidate_fields_ok|apply candidate_fields_view].
Qed.

Lemma task_create_response_written r : in_u 64 (tc_selection_window_ms r) →
  writes_view (write_task_create_response r) TaskCreateResponse_run_verifier task_create_response_view r.
Proof. solve_written r. Qed.

Lemma task_status_response_written r :
  writes_view (write_task_status_response r) TaskStatusResponse_run_verifier task_status_response_view r.
Proof. solve_written r. Qed.

Lemma applied_manifest_written r : in_i 8 (scheme_value (am_signature_scheme r)) → in_u 64 (am_timestamp r) → in_i 8 (operation_value (am_operation r)) → in_u 32 (am_ttl_secs r) →
  writes_view (write_applied_manifest r) AppliedManifest_run_verifier applied_manifest_view r.
Proof.
  solve_written r.
  - destruct am_signature_scheme. unfold SignatureScheme_follow. f_equal. solve_field.
  - eapply (get_tables key_value_view key_value_fields);
      [eassumption|reflexivity|apply key_value_fields_ok|apply key_value_fields_view].
  - destruct am_operation. unfold OperationType_follow. f_equal. solve_field.
Qed.

End written.

(** ** The interfaces the rest is proved against *)

Section instances.
Context `{FlatBufferCrate}.

Definition generated_messages : Messages :=
  {| root_as_apply_request := decode_apply_request;
     root_as_delete_request := decode_delete_request;
     root_as_capacity_request := decode_capacity_request;
     root_as_capacity_reply := decode_capacity_reply;
     root_as_handshake := decode_handshake;
     finish_capacity_request := encode_capacity_request;
     finish_capacity_reply := encode_capacity_reply;
     finish_handshake := encode_handshake |}.

End instances.

(** Reading what a writer finished gives back what it wrote, for the values of
    the widths [P] and within the limits of the verifier. *)
Definition reads_back `{FlatBufferLaws} {X} (write : X → Build WIPOffset) (encode : X → list byte)
    (decode : list byte → option X) (P : X → Prop) : Prop :=
  ∀ x, P x → within_limits (write x) → decode (encode x) = Some x.

#[local] Hint Unfold decode_envelope decode_apply_request decode_capacity_request decode_capacity_reply decode_handshake decode_applied_manifest : flatbuf.


Ltac solve_defaults :=
  eexists; split_and!; [solve_writes|by apply (bool_decide_unpack _)|solve_conforms|];
  let t := fresh "t" in let Ht := fresh "Ht" in
  intros t Ht; autounfold with flatbuf; f_equal; first [solve_field|refine (get_scalar _ t _ _ _ _ Ht _ _); [by apply (bool_decide_unpack _)|reflexivity]].

Section laws.
Context `{FlatBufferLaws}.

Lemma view_reads_back {X} n m spec (view : Table → X) x :
  writes_view m spec view x → within_limits m →
  view <$> result_ok (root spec (finished n m)) = Some x.
Proof. intros Hv Hl. destruct (writes_view_root n _ _ _ _ Hv Hl) as [(t & -> & Ht) _]. simpl. by f_equal. Qed.

Lemma envelope_reads_back :
  reads_back write_envelope encode_envelope decode_envelope (λ e, in_u 64 (env_ts e)).
Proof. intros e He Hl. by apply view_reads_back; [apply envelope_written|]. Qed.

Lemma apply_request_reads_back :
  reads_back write_apply_request encode_apply_request decode_apply_request (λ r, in_u 32 (ar_replicas r)).
Proof. intros r Hr Hl. by apply view_reads_back; [apply apply_request_written|]. Qed.

Lemma apply_response_reads_back :
  reads_back write_apply_response encode_apply_response decode_apply_response (λ _, True).
Proof. intros r _ Hl. by apply view_reads_back; [apply apply_response_written|]. Qed.

Lemma delete_request_reads_back :
  reads_back write_delete_request encode_delete_request decode_delete_request (λ _, True).
Proof. intros r _ Hl. by apply view_reads_back; [apply delete_request_written|]. Qed.

Lemma delete_response_reads_back :
  reads_back write_delete_response encode_delete_response decode_delete_response (λ _, True).
Proof. intros r _ Hl. by apply view_reads_back; [apply delete_response_written|]. Qed.

Lemma capacity_request_reads_back :
  reads_back write_capacity_request encode_capacity_request decode_capacity_request
    (λ r, in_u 32 (cr_cpu_milli r) ∧ in_u 64 (cr_memory_bytes r) ∧ in_u 64 (cr_storage_bytes r) ∧
          in_u 32 (cr_replicas r)).
Proof. intros r (? & ? & ? & ?) Hl. by apply view_reads_back; [apply capacity_request_written|]. Qed.

Lemma capacity_reply_reads_back :
  reads_back write_capacity_reply encode_capacity_reply decode_capacity_reply
    (λ r, in_u 32 (rp_cpu_available_milli r) ∧ in_u 64 (rp_memory_available_bytes r) ∧
          in_u 64 (rp_storage_available_bytes r)).
Proof. intros r (? & ? & ?) Hl. by apply view_reads_back; [apply capacity_reply_written|]. Qed.

Lemma handshake_reads_back :
  reads_back write_handshake encode_handshake decode_handshake
    (λ r, in_u 32 (hs_nonce r) ∧ in_u 64 (hs_timestamp r)).
Proof. intros r (? & ?) Hl. by apply view_reads_back; [apply handshake_written|]. Qed.

Lemma health_reads_back : reads_back write_health encode_health decode_health (λ _, True).
Proof. intros r _ Hl. by apply view_reads_back; [apply health_written|]. Qed.

Lemma nodes_response_reads_back :
  reads_back write_nodes_response encode_nodes_response decode_nodes_response (λ _, True).
Proof. intros r _ Hl. by apply view_reads_back; [apply nodes_response_written|]. Qed.

Lemma candidates_response_reads_back :
  reads_back write_candidates_response encode_candidates_response decode_candidates_response (λ _, True).
Proof. intros r _ Hl. by apply view_reads_back; [apply candidates_response_written|]. Qed.

Lemma task_create_response_reads_back :
  reads_back write_task_create_response encode_task_create_response decode_task_create_response
    (λ r, in_u 64 (tc_selection_window_ms r)).
Proof. intros r Hr Hl. by apply view_reads_back; [apply task_create_response_written|]. Qed.

Lemma task_status_response_reads_back :
  reads_back write_task_status_response encode_task_status_response decode_task_status_response (λ _, True).
Proof. intros r _ Hl. by apply view_reads_back; [apply task_status_response_written|]. Qed.

Lemma applied_manifest_reads_back :
  reads_back write_applied_manifest encode_applied_manifest decode_applied_manifest
    (λ r, in_i 8 (scheme_value (am_signature_scheme r)) ∧ in_u 64 (am_timestamp r) ∧
          in_i 8 (operation_value (am_operation r)) ∧ in_u 32 (am_ttl_secs r)).
Proof. intros r (? & ? & ? & ?) Hl. by apply view_reads_back; [apply applied_manifest_written|]. Qed.

(** A request left at its defaults reads as one for one replica. *)
Lemma apply_request_defaults : writes_view (ApplyRequest_create ApplyRequestArgs_default)
  ApplyRequest_run_verifier apply_request_view
  {| ar_replicas := 1; ar_operation_id := None; ar_manifest_json := None; ar_origin_peer := None;
     ar_manifest_id := None |}.
Proof. solve_defaults. Qed.

Lemma capacity_request_defaults : writes_view (CapacityRequest_create CapacityRequestArgs_default)
  CapacityRequest_run_verifier capacity_request_view
  {| cr_request_id := None; cr_cpu_milli := 0; cr_memory_bytes := 0; cr_storage_bytes := 0;
     cr_replicas := 1 |}.
Proof. solve_defaults. Qed.


(** The law of [Messages] needs no limit. *)
Lemma generated_messages_laws : @MessagesLaws generated_messages.
Proof.
  split. intros l r. simpl. unfold decode_capacity_request.
  destruct (fb_root_as_capacity_request l) as [t|]; [|done]. intros [= <-]. split_and!.
  - apply (get_unwrap_width SU32). by apply (bool_decide_unpack _).
  - apply (get_unwrap_width SU64). by apply (bool_decide_unpack _).
  - apply (get_unwrap_width SU64). by apply (bool_decide_unpack _).
  - apply (get_unwrap_width SU32). by apply (bool_decide_unpack _).
Qed.

End laws.

(** ** Properties *)

Section properties.
Context `{FlatBufferLaws}.

(** C34: for each of the fourteen tables the programs exchange, the bytes that
    the builder of [lib.rs] and the generated [create] produce are accepted by
    the generated verifier and read back field by field as what was written:
    absent fields stay absent, defaults and vectors included, for every value
    of the widths of the schema within the limits of the verifier. *)
Theorem generated_roundtrip :
  reads_back write_envelope encode_envelope decode_envelope (λ e, in_u 64 (env_ts e)) ∧
  reads_back write_apply_request encode_apply_request decode_apply_request
    (λ r, in_u 32 (ar_replicas r)) ∧
  reads_back write_apply_response encode_apply_response decode_apply_response (λ _, True) ∧
  reads_back write_delete_request encode_delete_request decode_delete_request (λ _, True) ∧
  reads_back write_delete_response encode_delete_response decode_delete_response (λ _, True) ∧
  reads_back write_capacity_request encode_capacity_request decode_capacity_request
    (λ r, in_u 32 (cr_cpu_milli r) ∧ in_u 64 (cr_memory_bytes r) ∧ in_u 64 (cr_storage_bytes r) ∧
          in_u 32 (cr_replicas r)) ∧
  reads_back write_capacity_reply encode_capacity_reply decode_capacity_reply
    (λ r, in_u 32 (rp_cpu_available_milli r) ∧ in_u 64 (rp_memory_available_bytes r) ∧
          in_u 64 (rp_storage_available_bytes r)) ∧
  reads_back write_handshake encode_handshake decode_handshake
    (λ r, in_u 32 (hs_nonce r) ∧ in_u 64 (hs_timestamp r)) ∧
  reads_back write_health encode_health decode_health (λ _, True) ∧
  reads_back write_nodes_response encode_nodes_response decode_nodes_response (λ _, True) ∧
  reads_back write_candidates_response encode_candidates_response decode_candidates_response
    (λ _, True) ∧
  reads_back write_task_create_response encode_task_create_response decode_task_create_response
    (λ r, in_u 64 (tc_selection_window_ms r)) ∧
  reads_back write_task_status_response encode_task_status_response decode_task_status_response
    (λ _, True) ∧
  reads_back write_applied_manifest encode_applied_manifest decode_applied_manifest
    (λ r, in_i 8 (scheme_value (am_signature_scheme r)) ∧ in_u 64 (am_timestamp r) ∧
          in_i 8 (operation_value (am_operation r)) ∧ in_u 32 (am_ttl_secs r)).
Proof.
  split_and!; [exact envelope_reads_back|exact apply_request_reads_back
    |exact apply_response_reads_back|exact delete_request_reads_back|exact delete_response_reads_back
    |exact capacity_request_reads_back|exact capacity_reply_reads_back|exact handshake_reads_back
    |exact health_reads_back|exact nodes_response_reads_back|exact candidates_response_reads_back
    |exact task_create_response_reads_back|exact task_status_response_reads_back
    |exact applied_manifest_reads_back].
Qed.


End properties.

(** ** Concrete runs *)

Section witnesses.
Import ToyFlatBuf.

Definition demo_table : AppliedManifest :=
  {| am_id := Some "m"; am_operation_id := None; am_origin_peer := Some "";
     am_owner_pubkey := Some [x01; x02]; am_signature_scheme := {| scheme_value := -3 |};
     am_signature := Some []; am_manifest_json := Some "{}"; am_manifest_kind := None;
     am_labels := Some [(Some "a", Some "b"); (None, Some "c")]; am_timestamp := 5;
     am_operation := DELETE; am_ttl_secs := 0; am_content_hash := Some "h" |}.

Lemma generated_roundtrip_witness :
  decode_applied_manifest (encode_applied_manifest demo_table) = Some demo_table ∧
  decode_apply_request (encode_apply_request
    {| ar_replicas := 1; ar_operation_id := Some "op"; ar_manifest_json := None;
       ar_origin_peer := None; ar_manifest_id := Some "id" |}) =
  Some {| ar_replicas := 1; ar_operation_id := Some "op"; ar_manifest_json := None;
          ar_origin_peer := None; ar_manifest_id := Some "id" |}.
Proof.
  destruct generated_roundtrip as (_ & Hr & _ & _ & _ & _ & _ & _ & _ & _ & _ & _ & _ & Hm).
  split; [apply Hm|apply Hr]; [by apply (bool_decide_unpack _)|intros v _; exact I|
    by apply (bool_decide_unpack _)|intros v _; exact I].
Defined.


End witnesses.
