(* ===== verification/DhtManager.v ===== *)
(** * Manifests in the DHT ([libp2p_beemesh/dht_manager.rs])

    The manager of [AppliedManifest] records: operations start Kademlia
    queries, whose results answer the channel that was given with the
    operation. The record store of the swarm is the class [RecordStore]. *)

From S2P Require Import Prelude Utf8 RustHash Libp2p Concrete WorkloadIntegration DeleteMessage GeneratedManifest Protocol.

Open Scope list_scope.

(** [kademlia.put_record] and [get_record]: the identifier of the query, or the
    [Debug] text of the error. *)
Class RecordStore := {
  dht : Type;
  RecordQuery : Type;
  RecordQuery_eq_dec :: EqDecision RecordQuery;
  RecordQuery_countable :: Countable RecordQuery;
  put_manifest_record : string → list byte → dht → result string RecordQuery * dht;
  get_record : string → dht → RecordQuery * dht;
}.

(** Reply channels are numbers. *)
Inductive DhtOperation :=
| StoreManifest (manifest : AppliedManifest) (reply_tx : nat)
| GetManifest (id : string) (reply_tx : nat)
| GetManifestsByPeer (peer_id : string) (reply_tx : nat).

Inductive DhtQueryContext :=
| StoreContext (reply_tx : nat)
| GetContext (reply_tx : nat).

Inductive dht_reply :=
| StoreReply (r : result string ())
| GetReply (r : result string (option AppliedManifest))
| PeerReply (r : result string (list AppliedManifest)).

(** [kad::QueryResult], as far as the manager looks at it; errors as text. *)
Inductive QueryResult :=
| PutRecordOk
| PutRecordErr (e : string)
| FoundRecord (value : list byte)
| FinishedWithNoAdditionalRecord
| GetRecordErr (e : string)
| OtherQueryResult.

Definition manifest_key (id : string) : string := "manifest:" +:+ id.
Definition peer_index_key (peer_id : string) : string := "peer-index:" +:+ peer_id.

Section manager.
Context `{Messages, Tables, RecordStore}.

Record DhtManager := { pending_queries : gmap RecordQuery DhtQueryContext }.

Definition DhtManager_new : DhtManager := {| pending_queries := ∅ |}.

(** The labels with a key and a value. *)
Definition full_labels (labels : option (list (option string * option string))) :
    list (string * string) :=
  match labels with
  | Some l => omap (λ kv, match kv with (Some k, Some v) => Some (k, v) | _ => None end) l
  | None => []
  end.

(** The record is rebuilt field by field; its signature scheme and operation
    are read but not passed on. *)
Definition serialize_manifest (manifest_id : string) (m : AppliedManifest) : list byte :=
  build_applied_manifest manifest_id (default "" (am_operation_id m)) (default "" (am_origin_peer m))
    (default [] (am_owner_pubkey m)) (default [] (am_signature m)) (default "" (am_manifest_json m))
    (default "" (am_manifest_kind m)) (full_labels (am_labels m)) (am_timestamp m) (am_ttl_secs m)
    (default "" (am_content_hash m)).

Definition store_manifest (m : AppliedManifest) (reply_tx : nat) (mgr : DhtManager) (d : dht) :
    list (nat * dht_reply) * DhtManager * dht :=
  match am_id m with
  | None => ([(reply_tx, StoreReply (Err "Manifest missing ID"))], mgr, d)
  | Some manifest_id =>
      match put_manifest_record (manifest_key manifest_id) (serialize_manifest manifest_id m) d with
      | (Ok query_id, d) =>
          ([], {| pending_queries := <[query_id := StoreContext reply_tx]> (pending_queries mgr) |}, d)
      | (Err e, d) =>
          ([(reply_tx, StoreReply (Err ("Failed to initiate DHT store: " +:+ e)))], mgr, d)
      end
  end.

Definition get_manifest (id : string) (reply_tx : nat) (mgr : DhtManager) (d : dht) :
    list (nat * dht_reply) * DhtManager * dht :=
  let '(query_id, d) := get_record (manifest_key id) d in
  ([], {| pending_queries := <[query_id := GetContext reply_tx]> (pending_queries mgr) |}, d).

Definition handle_operation (op : DhtOperation) (mgr : DhtManager) (d : dht) :
    list (nat * dht_reply) * DhtManager * dht :=
  match op with
  | StoreManifest m reply_tx => store_manifest m reply_tx mgr d
  | GetManifest id reply_tx => get_manifest id reply_tx mgr d
  | GetManifestsByPeer _ reply_tx =>
      ([(reply_tx, PeerReply (Err "Peer queries not implemented yet"))], mgr, d)
  end.

(** What a pending query is told. *)
Definition query_reply (ctx : DhtQueryContext) (res : QueryResult) : nat * dht_reply :=
  match ctx with
  | StoreContext reply_tx =>
      (reply_tx, StoreReply match res with
                            | PutRecordOk => Ok ()
                            | PutRecordErr e => Err ("Failed to store manifest: " +:+ e)
                            | _ => Err "Unexpected query result"
                            end)
  | GetContext reply_tx =>
      (reply_tx, GetReply match res with
                          | FoundRecord value =>
                              match root_as_applied_manifest value with
                              | Some manifest => Ok (Some manifest)
                              | None => Err "Failed to parse manifest"
                              end
                          | FinishedWithNoAdditionalRecord => Ok None
                          | GetRecordErr e => Err ("Failed to get manifest: " +:+ e)
                          | _ => Err "Unexpected query result"
                          end)
  end.

Definition handle_query_result (query_id : RecordQuery) (res : QueryResult) (mgr : DhtManager) :
    list (nat * dht_reply) * DhtManager :=
  match pending_queries mgr !! query_id with
  | Some ctx =>
      ([query_reply ctx res], {| pending_queries := delete query_id (pending_queries mgr) |})
  | None => ([], mgr)
  end.

Definition create_applied_manifest_for_deployment (now_ms : Z)
    (id operation_id origin_peer manifest_json manifest_kind : string) : list byte :=
  build_applied_manifest id operation_id origin_peer [] [] manifest_json manifest_kind
    [("deployed-by", "beemesh-node"); ("kind", manifest_kind)] now_ms 3600
    (lower_hex (default_hash (hash_str manifest_json))).

(** ** Runs *)

(** The manager at work: the channels given to it so far and what was sent on
    them, latest first. The swarm names a new query by an identifier that is not
    in use. *)
Inductive dht_step : list nat * list (nat * dht_reply) * DhtManager * dht →
    list nat * list (nat * dht_reply) * DhtManager * dht → Prop :=
| dht_step_operation issued answered mgr d op tx out mgr' d' :
    match op with StoreManifest _ t | GetManifest _ t | GetManifestsByPeer _ t => t = tx end →
    tx ∉ issued →
    handle_operation op mgr d = (out, mgr', d') →
    pending_queries mgr ⊆ pending_queries mgr' →
    dht_step (issued, answered, mgr, d) (tx :: issued, out ++ answered, mgr', d')
| dht_step_result issued answered mgr d query_id res out mgr' :
    handle_query_result query_id res mgr = (out, mgr') →
    dht_step (issued, answered, mgr, d) (issued, out ++ answered, mgr', d).

Inductive dht_reach (d0 : dht) : list nat * list (nat * dht_reply) * DhtManager * dht → Prop :=
| dht_reach_init : dht_reach d0 ([], [], DhtManager_new, d0)
| dht_reach_step c c' : dht_reach d0 c → dht_step c c' → dht_reach d0 c'.

End manager.

(** ** Lemmas *)

Section lemmas.
Context `{Messages, Tables, RecordStore}.

Definition context_channel (ctx : DhtQueryContext) : nat :=
  match ctx with StoreContext tx | GetContext tx => tx end.

Lemma full_labels_wrap labels :
  full_labels (Some ((λ kv, (Some kv.1, Some kv.2)) <$> labels)) = labels.
Proof.
  unfold full_labels. induction labels as [|[k v] labels IH]; [done|]. csimpl. f_equal. exact IH.
Qed.

(** The channels of the queries under way. *)
Definition pending_channels (mgr : DhtManager) : list nat :=
  (λ p, context_channel p.2) <$> map_to_list (pending_queries mgr).

Lemma query_reply_channel ctx res : (query_reply ctx res).1 = context_channel ctx.
Proof. by destruct ctx. Qed.

Lemma pending_channels_insert q ctx mgr issued answered :
  answered ++ pending_channels mgr ≡ₚ issued → context_channel ctx ∉ issued →
  pending_queries mgr ⊆ <[q := ctx]> (pending_queries mgr) →
  answered ++ pending_channels {| pending_queries := <[q := ctx]> (pending_queries mgr) |}
    ≡ₚ context_channel ctx :: issued.
Proof.
  intros Hp Hf Hsub. destruct (pending_queries mgr !! q) as [old|] eqn:Eq.
  - exfalso. pose proof (lookup_weaken _ _ _ _ Eq Hsub) as Hq. rewrite lookup_insert_eq in Hq.
    injection Hq as ->. apply Hf. rewrite <- Hp, elem_of_app. right.
    apply list_elem_of_fmap. exists (q, old). split; [done|by apply elem_of_map_to_list].
  - unfold pending_channels. simpl. rewrite map_to_list_insert by done. cbn [fmap list_fmap].
    rewrite <- Permutation_middle. by apply Permutation_skip.
Qed.

Lemma pending_channels_delete q ctx mgr :
  pending_queries mgr !! q = Some ctx →
  pending_channels mgr ≡ₚ
    context_channel ctx :: pending_channels {| pending_queries := delete q (pending_queries mgr) |}.
Proof.
  intros Hq. unfold pending_channels. simpl.
  etrans; [apply fmap_Permutation; symmetry; by apply map_to_list_delete|]. reflexivity.
Qed.

(** The channels given to the manager are those answered and those pending. *)
Definition accounted (c : list nat * list (nat * dht_reply) * DhtManager * dht) : Prop :=
  let '(issued, answered, mgr, _) := c in
  NoDup issued ∧ answered.*1 ++ pending_channels mgr ≡ₚ issued.

Lemma dht_step_accounted c c' : accounted c → dht_step c c' → accounted c'.
Proof.
  intros Hc Hst. destruct Hst as
    [issued answered mgr d op tx out mgr' d' Htx Hf Hop Hsub|issued answered mgr d q res out mgr' Hres];
    destruct Hc as [Hnd Hp].
  - split; [by constructor|]. destruct op as [m t|id t|peer t]; subst t; simpl in Hop.
    + unfold store_manifest in Hop. destruct (am_id m) as [id|].
      * destruct (put_manifest_record _ _ _) as [[q|e] d0]; simplify_eq; simpl.
        -- by apply (pending_channels_insert q (StoreContext tx)).
        -- by rewrite Hp.
      * simplify_eq. simpl. by rewrite Hp.
    + unfold get_manifest in Hop. destruct (get_record _ _) as [q d0]. simplify_eq. simpl.
      by apply (pending_channels_insert q (GetContext tx)).
    + simplify_eq. simpl. by rewrite Hp.
  - split; [done|]. unfold handle_query_result in Hres.
    destruct (pending_queries mgr !! q) as [ctx|] eqn:Eq; simplify_eq; simpl; [|done].
    rewrite <- Hp, (pending_channels_delete q ctx mgr Eq). rewrite query_reply_channel.
    by rewrite Permutation_middle.
Qed.

End lemmas.

(** ** Properties *)

Section properties.
Context `{Messages, Tables, !TablesLaws, RecordStore}.

(** every channel given to the DHT manager with an operation is answered at
    most once, and until it is answered exactly one pending query holds it, over
    every order of operations and query results. *)
Theorem dht_answers_once d0 issued answered mgr d :
  dht_reach d0 (issued, answered, mgr, d) →
  NoDup issued ∧ answered.*1 ++ pending_channels mgr ≡ₚ issued.
Proof.
  intros Hr. change (accounted (issued, answered, mgr, d)).
  induction Hr as [|c c' _ IH Hst]; [by split; [constructor|]|by eapply dht_step_accounted].
Qed.

(** A manifest with every field set. *)
Definition complete (m : AppliedManifest) : Prop :=
  is_Some (am_operation_id m) ∧ is_Some (am_origin_peer m) ∧ is_Some (am_owner_pubkey m) ∧
  is_Some (am_signature m) ∧ is_Some (am_manifest_json m) ∧ is_Some (am_manifest_kind m) ∧
  is_Some (am_content_hash m) ∧
  ∃ labels, am_labels m = Some ((λ kv, (Some kv.1, Some kv.2)) <$> labels).

(** The manifest without its signature scheme and operation. *)
Definition forget_kind (m : AppliedManifest) : AppliedManifest :=
  {| am_id := am_id m; am_operation_id := am_operation_id m; am_origin_peer := am_origin_peer m;
     am_owner_pubkey := am_owner_pubkey m; am_signature_scheme := SIG_NONE;
     am_signature := am_signature m; am_manifest_json := am_manifest_json m;
     am_manifest_kind := am_manifest_kind m; am_labels := am_labels m;
     am_timestamp := am_timestamp m; am_operation := APPLY; am_ttl_secs := am_ttl_secs m;
     am_content_hash := am_content_hash m |}.

(** C33: the record that storing a complete manifest puts in the DHT answers a
    lookup with the manifest, except that its signature scheme is NONE and its
    operation APPLY whatever they were: a stored deletion reads back as an
    apply. *)
Theorem dht_manifest_roundtrip m id tx query mgr :
  am_id m = Some id → complete m → in_u 64 (am_timestamp m) → in_u 32 (am_ttl_secs m) →
  pending_queries mgr !! query = Some (GetContext tx) →
  (∀ tx' mgr' d, (store_manifest m tx' mgr' d).2 =
     (put_manifest_record (manifest_key id) (serialize_manifest id m) d).2) ∧
  (handle_query_result query (FoundRecord (serialize_manifest id m)) mgr).1 =
    [(tx, GetReply (Ok (Some (forget_kind m))))].
Proof.
  intros Hid ([? Ho] & [? Hp] & [? Hk] & [? Hg] & [? Hj] & [? Hki] & [? Hh] & labels & Hl) Hts Httl Hq. split.
  - intros tx' mgr' d. unfold store_manifest. rewrite Hid.
    by destruct (put_manifest_record _ _ _) as [[]].
  - unfold handle_query_result. rewrite Hq. simpl. unfold serialize_manifest, build_applied_manifest.
    rewrite root_finish_applied_manifest by done. unfold forget_kind. rewrite Hl, Hid, Ho, Hp, Hk, Hg, Hj, Hki, Hh.
    by rewrite full_labels_wrap.
Qed.

End properties.

(** ** Concrete runs *)

Section witnesses.
Import Toy ToyTables.

(** Records in a list; a query is named by its length. *)
#[local] Instance record_store : RecordStore := {|
  dht := list (string * list byte);
  RecordQuery := nat;
  put_manifest_record k v d := (Ok (length d), (k, v) :: d);
  get_record k d := (length d, (k, []) :: d);
|}.

Definition demo_applied : AppliedManifest :=
  {| am_id := Some "m"; am_operation_id := Some "op"; am_origin_peer := Some "p";
     am_owner_pubkey := Some [x01]; am_signature_scheme := ED25519; am_signature := Some [x02];
     am_manifest_json := Some "{}"; am_manifest_kind := Some "Pod";
     am_labels := Some [(Some "a", Some "b")]; am_timestamp := 5; am_operation := DELETE;
     am_ttl_secs := 60; am_content_hash := Some "h" |}.

Definition no_records : dht := @nil (string * list byte).
Definition one_lookup : dht := [("manifest:m", @nil byte)].

Definition query0 : RecordQuery := 0%nat.

Definition demo_pending : DhtManager := {| pending_queries := {[0%nat := GetContext 3]} |}.

Lemma dht_answers_once_witness :
  NoDup [1%nat] ∧ ([] : list (nat * dht_reply)).*1 ++
    pending_channels {| pending_queries := {[0%nat := GetContext 1]} |} ≡ₚ [1%nat].
Proof.
  apply (dht_answers_once no_records [1%nat] [] {| pending_queries := {[0%nat := GetContext 1]} |}
    one_lookup).
  eapply dht_reach_step; [apply dht_reach_init|].
  apply (dht_step_operation [] [] DhtManager_new no_records (GetManifest "m" 1) 1 []); try done.
  - by intros ?%elem_of_nil.
  - apply map_empty_subseteq.
Defined.

Lemma dht_manifest_roundtrip_witness :
  (handle_query_result query0 (FoundRecord (serialize_manifest "m" demo_applied)) demo_pending).1 =
    [(3%nat, GetReply (Ok (Some (forget_kind demo_applied))))] ∧
  forget_kind demo_applied ≠ demo_applied.
Proof.
  split; [|discriminate].
  destruct (dht_manifest_roundtrip demo_applied "m" 3 query0 demo_pending) as [_ Hr].
  - reflexivity.
  - unfold complete. simpl. split_and!; eauto. by exists [("a", "b")].
  - by apply (bool_decide_unpack _).
  - by apply (bool_decide_unpack _).
  - reflexivity.
  - exact Hr.
Defined.

End witnesses.
