(* ===== verification/RestEnvelope.v ===== *)
(** * Envelopes of the REST interface ([restapi/envelope_handler.rs])

    The middleware in front of every route: it verifies and decrypts a request
    that is an envelope and hands the sender's keys to the handler, and lets
    everything else through without keys; and the functions that encrypt a
    response for the sender. Decryption can panic: [None]. *)

From Stdlib Require Import Ascii.
From S2P Require Import Prelude RustStr Utf8 RustHash Constants Libp2p Concrete NonceStore Envelope.
From S2P Require Import RecipientBlob Protocol.

Open Scope rust_scope.

(** [MlKemPublicKey::from_bytes] for ML-KEM-512. *)
Class KemPublic := { ml_kem_public_from_bytes : list byte → result string () }.

Record EnvelopeMetadata := {
  signing_pubkey : list byte;
  kem_pubkey : list byte;
  meta_peer_id : option string;
}.

Definition no_metadata : EnvelopeMetadata :=
  {| signing_pubkey := []; kem_pubkey := []; meta_peer_id := None |}.

Record EnvelopeHandler := {
  kem_private_key : list byte;
  signing_private_key : option (list byte);
  public_key : string;
}.

(** Headers by name; a value that is not visible ASCII has no text. *)
Abbreviation HeaderMap := (gmap string (option string)).

(** A request: its body is read by the middleware only when it is needed, and
    reading it can fail. *)
Record Request := { headers : HeaderMap; request_body : option (list byte) }.

Record Response := { content_type : string; response_body : list byte }.

(** What the middleware decides. *)
Inductive admission :=
| Rejected (status : Z)
| Forwarded (metadata : EnvelopeMetadata) (body : option (list byte)).

(** What building a response reads: the randomness of the encryption, a UUID
    and the clock. *)
Record response_draws := {
  draw_seed : list byte;
  draw_aes_nonce : list byte;
  draw_uuid : string;
  draw_now_ms : Z;
}.

Section handler.
Context `{FlatBuffers, Crypto, Kem, KemPublic}.
Implicit Types (h : EnvelopeHandler) (store : nonce_store) (d : response_draws).

Definition signing_key_on_disk (on_disk : result string (list byte * list byte)) :
    option (list byte) :=
  match on_disk with Ok (_, priv_bytes) => Some priv_bytes | Err _ => None end.

(** [NODE_KEYPAIR] may be unset or hold no pair; [on_disk] is what
    [ensure_keypair_on_disk] returns. *)
Definition EnvelopeHandler_new (NODE_KEYPAIR : option (option (list byte * list byte)))
    (on_disk : result string (list byte * list byte)) (kem_private_key : list byte)
    (public_key : string) : EnvelopeHandler :=
  {| kem_private_key := kem_private_key;
     signing_private_key :=
       match NODE_KEYPAIR with
       | Some (Some (_, priv_bytes)) => Some priv_bytes
       | Some None | None => signing_key_on_disk on_disk
       end;
     public_key := public_key |}.

Definition get_public_key h : string := public_key h.

Definition decrypt_request_envelope (now : Z) h (envelope_bytes : list byte) store :
    option (result string (list byte)) * nonce_store :=
  match root_as_envelope envelope_bytes with
  | None => (Some (Err "Failed to parse envelope"), store)
  | Some envelope =>
      let peer_id := default "global" (env_peer_id envelope) in
      let '(verified, store) :=
        verify_flatbuffer_envelope_for_peer now envelope_bytes (from_secs 300) peer_id store in
      match verified with
      | Err e => (Some (Err ("Envelope verification failed: " +:+ e)), store)
      | Ok _ =>
          match env_payload envelope with
          | None => (Some (Err "No payload in envelope"), store)
          | Some encrypted_payload =>
              (map_err (λ e, "Failed to decrypt payload: " +:+ e) <$>
                 decrypt_payload_from_recipient_blob encrypted_payload (kem_private_key h), store)
          end
      end
  end.

Definition encrypt_response_envelope_with_key d h (payload : list byte)
    (payload_type recipient_peer_id : string) (kem_pubkey : list byte) : result string (list byte) :=
  if decide (kem_pubkey = []) then
    Err ("No KEM public key provided for peer: " +:+ recipient_peer_id)
  else
    let? _ := map_err (λ e, "Failed to parse KEM public key for peer " +:+ recipient_peer_id
                            +:+ ": " +:+ e) (ml_kem_public_from_bytes kem_pubkey) in
    let? encrypted_blob :=
      encrypt_payload_for_recipient (draw_seed d) (draw_aes_nonce d) kem_pubkey payload in
    let nonce := draw_uuid d in
    let ts := draw_now_ms d in
    let canonical_bytes :=
      build_envelope_canonical encrypted_blob payload_type nonce ts "ml-dsa-65" None in
    let? signing_key := ok_or ("No signing private key available for peer: " +:+ recipient_peer_id)
                          (signing_private_key h) in
    let? public_key_bytes := ok_or "Failed to decode public key" (base64_decode (public_key h)) in
    let? (sig_b64, pub_b64) := sign_envelope signing_key public_key_bytes canonical_bytes in
    Ok (build_envelope_signed encrypted_blob payload_type nonce ts "ml-dsa-65" "ml-dsa-65"
          sig_b64 pub_b64 None).

Definition header_text (name : string) (hs : HeaderMap) : option string := hs !! name ≫= id.

(** The header, when it has a text; otherwise the peer of the envelope. *)
Definition extract_peer_id (hs : HeaderMap) (envelope : Envelope) : option string :=
  match header_text "x-peer-id" hs with
  | Some peer_id => Some peer_id
  | None => env_peer_id envelope
  end.

Definition get_peer_id_from_request (hs : HeaderMap) : option string := header_text "x-peer-id" hs.

Definition decode_field (field : option string) : list byte := default [] (field ≫= base64_decode).

Definition envelope_metadata (envelope : Envelope) : EnvelopeMetadata :=
  {| signing_pubkey := decode_field (env_pubkey envelope);
     kem_pubkey := decode_field (env_kem_pubkey envelope);
     meta_peer_id := env_peer_id envelope |}.

Definition BAD_REQUEST : Z := 400.
Definition UNAUTHORIZED : Z := 401.

Definition envelope_middleware (now : Z) h (request : Request) store :
    option admission * nonce_store :=
  let content_type := default "" (header_text "content-type" (headers request)) in
  if decide (content_type = "application/octet-stream") then
    match request_body request with
    | None => (Some (Rejected BAD_REQUEST), store)
    | Some body_bytes =>
        match root_as_envelope body_bytes with
        | Some envelope =>
            let '(r, store) := decrypt_request_envelope now h body_bytes store in
            (match r with
             | None => None
             | Some (Ok decrypted_payload) =>
                 Some (Forwarded (envelope_metadata envelope) (Some decrypted_payload))
             | Some (Err _) => Some (Rejected UNAUTHORIZED)
             end, store)
        | None => (Some (Forwarded no_metadata (Some body_bytes)), store)
        end
    end
  else (Some (Forwarded no_metadata (request_body request)), store).

(** ** Responses *)

Definition octet_stream (body : list byte) : Response :=
  {| content_type := "application/octet-stream"; response_body := body |}.

Definition create_encrypted_response_with_key d h (payload : list byte) (payload_type : string)
    (peer_id : option string) (kem_pubkey : list byte) : Response :=
  match peer_id with
  | Some peer_id =>
      match encrypt_response_envelope_with_key d h payload payload_type peer_id kem_pubkey with
      | Ok encrypted_envelope => octet_stream encrypted_envelope
      | Err _ => octet_stream payload
      end
  | None => octet_stream payload
  end.

Definition create_response_with_fallback (payload : list byte) : Response := octet_stream payload.

Definition create_response_for_envelope_metadata d h (payload : list byte) (payload_type : string)
    (metadata : EnvelopeMetadata) : Response :=
  if decide (kem_pubkey metadata = []) then create_response_with_fallback payload
  else create_encrypted_response_with_key d h payload payload_type (meta_peer_id metadata)
         (kem_pubkey metadata).

End handler.

(** ** Lemmas *)

Section lemmas.
Context `{FlatBuffers, Crypto, Kem, KemPublic}.
Implicit Types (h : EnvelopeHandler) (store : nonce_store) (d : response_draws).

(** A response envelope is a signed envelope around a recipient blob. *)
Lemma response_envelope_is_signed d h payload ptype peer kem :
  kem ≠ [] → ml_kem_public_from_bytes kem = Ok () →
  encrypt_response_envelope_with_key d h payload ptype peer kem =
  (let? blob := encrypt_payload_for_recipient (draw_seed d) (draw_aes_nonce d) kem payload in
   let? sk := ok_or ("No signing private key available for peer: " +:+ peer) (signing_private_key h) in
   let? pk := ok_or "Failed to decode public key" (base64_decode (public_key h)) in
   let? s := sign_internal "" 0 blob ptype
               (encrypted_config (draw_uuid d) (draw_now_ms d) None None) pk sk in
   Ok (signed_bytes s)).
Proof.
  intros Hne Hp. unfold encrypt_response_envelope_with_key. rewrite decide_False, Hp by done. simpl.
  destruct (encrypt_payload_for_recipient _ _ _ _) as [blob|]; [|done]. simpl.
  destruct (signing_private_key h) as [sk|]; [|done]. simpl.
  destruct (base64_decode (public_key h)) as [pk|]; [|done]. unfold sign_internal. simpl.
  by destruct (sign_envelope sk pk _) as [[sg pb]|].
Qed.

(** A request is forwarded decrypted only after its envelope was accepted. *)
Lemma decrypt_request_ok now h bytes store plain store' :
  decrypt_request_envelope now h bytes store = (Some (Ok plain), store') →
  ∃ fb parts, root_as_envelope bytes = Some fb ∧
    verify_flatbuffer_envelope_for_peer now bytes (from_secs 300)
      (default "global" (env_peer_id fb)) store = (Ok parts, store') ∧
    decrypt_payload_from_recipient_blob (payload parts) (kem_private_key h) = Some (Ok plain).
Proof.
  unfold decrypt_request_envelope. destruct (root_as_envelope bytes) as [fb|] eqn:Er; [|done].
  destruct (verify_flatbuffer_envelope_for_peer _ _ _ _ _) as [[parts|] st] eqn:Ev; [|done].
  destruct (env_payload fb) as [enc|] eqn:Ep; [|done]. intros [= Hd <-].
  exists fb, parts. split_and!; [done..|].
  destruct (verify_ok_inv _ _ _ _ _ _ _ Ev) as (fb' & Hr & _ & _ & -> & _).
  rewrite Er in Hr. simplify_eq. simpl. rewrite Ep. simpl.
  destruct (decrypt_payload_from_recipient_blob _ _) as [[p|]|]; simpl in Hd; by simplify_eq.
Qed.

Lemma middleware_cases now h request store meta body store' :
  envelope_middleware now h request store = (Some (Forwarded meta body), store') →
  (meta = no_metadata ∧ body = request_body request ∧ store' = store) ∨
  ∃ bytes fb plain, request_body request = Some bytes ∧ root_as_envelope bytes = Some fb ∧
    decrypt_request_envelope now h bytes store = (Some (Ok plain), store') ∧
    meta = envelope_metadata fb ∧ body = Some plain.
Proof.
  unfold envelope_middleware. case_decide; [|intros [= <- <- <-]; by left].
  destruct (request_body request) as [bytes|]; [|done].
  destruct (root_as_envelope bytes) as [fb|] eqn:Er; [|intros [= <- <- <-]; by left].
  destruct (decrypt_request_envelope now h bytes store) as [[[plain|]|] st] eqn:Ed; try done.
  intros [= <- <- <-]. right. by exists bytes, fb, plain.
Qed.

(** What a forwarded request tells of its envelope. *)
Lemma middleware_verified now h request store meta body store' :
  envelope_middleware now h request store = (Some (Forwarded meta body), store') →
  (meta = no_metadata ∧ body = request_body request ∧ store' = store) ∨
  ∃ bytes fb parts plain, request_body request = Some bytes ∧ root_as_envelope bytes = Some fb ∧
    verify_envelope (pubkey parts) (envelope_canonical fb) (signature parts) = Ok () ∧
    (signing_pubkey meta ≠ [] → signing_pubkey meta = pubkey parts) ∧
    verify_flatbuffer_envelope_for_peer now bytes (from_secs 300)
      (default "global" (env_peer_id fb)) store = (Ok parts, store') ∧
    meta_peer_id meta = env_peer_id fb ∧
    decrypt_payload_from_recipient_blob (payload parts) (kem_private_key h) = Some (Ok plain) ∧
    body = Some plain.
Proof.
  intros [?|(bytes & fb & plain & Hb & Hr & Hd & -> & ->)]%middleware_cases; [by left|right].
  destruct (decrypt_request_ok _ _ _ _ _ _ Hd) as (fb' & parts & Hr' & Hv & Hdec). simplify_eq.
  destruct (verify_ok_inv _ _ _ _ _ _ _ Hv) as (fb' & Hr'' & _ & Hp & _ & Hsig & _). simplify_eq.
  exists bytes, fb, parts, plain. split_and!; try done. simpl. unfold decode_field.
  destruct (env_pubkey fb) as [pk|]; simpl in *; [|done]. by rewrite Hp.
Qed.

End lemmas.

(** ** Properties *)

Section properties.
Context `{FlatBuffersLaws} {CR : Crypto} {keypair : list byte → list byte → Prop}
  {CL : CryptoLaws keypair} {KM : Kem} {kem_pair : list byte → list byte → Prop}
  {KL : KemLaws kem_pair} {KP : KemPublic}.
Implicit Types (h : EnvelopeHandler) (store : nonce_store) (d : response_draws).

(** A blob signed by a key holder: the bytes read back, and verifying them
    comes down to the nonce. *)
Lemma signed_blob blob ptype nonce ts peer kem pk sk :
  keypair pk sk → nonce ≠ "" → in_u 64 ts →
  ∃ s sig, sign_internal "" 0 blob ptype (encrypted_config nonce ts peer kem) pk sk = Ok s ∧
    root_as_envelope (signed_bytes s) = Some (signed_table blob ptype nonce ts
      (encrypted_config nonce ts peer kem) (base64_encode sig) (base64_encode pk)) ∧
    ∀ now window from store, ∃ sig',
      verify_flatbuffer_envelope_for_peer now (signed_bytes s) window from store =
      let '(checked, store') := check_and_insert_nonce_for_peer now nonce window from store in
      (let? _ := checked in
       Ok {| Envelope.payload := blob; pubkey := pk; signature := sig';
             timestamp_ms := ts; payload_type := ptype |}, store').
Proof.
  intros Hk Hn Hu.
  destruct (sign_internal_ok "" 0 blob ptype (encrypted_config nonce ts peer kem) pk sk Hk)
    as (sig & _ & Hs). simpl in Hs. eexists _, sig. split; [exact Hs|]. split.
  { simpl. by apply root_finish. }
  intros now window from store.
  apply (verify_signed _ _ _ _ _ _ _ _ now window from store Hk) in Hs; try done.
  by apply (bool_decide_unpack _).
Qed.

(** A request the client encrypts for the node and signs, with the nonces it leaves. *)
Lemma request_accepted now h hs seed aes_nonce t t' payload ptype npk pk sk peer ckem store :
  header_text "content-type" hs = Some "application/octet-stream" →
  keypair pk sk → kem_pair npk (kem_private_key h) → length aes_nonce = 12%nat →
  Z.of_nat (length payload) < 2 ^ 32 - 16 → in_u 64 (t' / 1000000000) →
  seen_at store peer (clock_nonce t) = None →
  ∃ bytes,
    build_encrypted_envelope_with_peer seed aes_nonce t t' payload ptype npk sk (base64_encode pk)
      peer (Some (base64_encode ckem)) = Ok bytes ∧
    envelope_middleware now h {| headers := hs; request_body := Some bytes |} store =
      (Some (Forwarded {| signing_pubkey := pk; kem_pubkey := ckem; meta_peer_id := Some peer |}
               (Some payload)),
       (check_and_insert_nonce_for_peer now (clock_nonce t) (from_secs 300) peer store).2).
Proof.
  intros Hct Hk Hkem Hl Hp Hu Hseen.
  destruct (blob_decrypts kem_pair npk (kem_private_key h) seed aes_nonce payload Hkem Hl Hp)
    as (blob & Henc & Hdec).
  pose proof (clock_nonce_nonempty t) as Hn. rewrite encrypted_envelope_with_peer_is_signed, Henc.
  revert Hn Hseen. generalize (clock_nonce t) as nonce. intros nonce Hn Hseen.
  destruct (signed_blob blob ptype nonce (t' / 1000000000) (Some peer)
    (Some (base64_encode ckem)) pk sk Hk Hn Hu) as (s & sig & Hs & Hroot & Hv).
  simpl. rewrite base64_roundtrip. simpl.
  rewrite Hs. simpl. destruct (Hv now (from_secs 300) peer store) as [sig' Hv'].
  rewrite (check_unseen _ _ _ _ _ Hn Hseen) in Hv'. simpl in Hv'.
  eexists. split; [done|]. unfold envelope_middleware. simpl. rewrite Hct. simpl.
  unfold decrypt_request_envelope. rewrite Hroot. simpl. rewrite Hv', Hdec. simpl.
  unfold envelope_metadata, decode_field. simpl. by rewrite !base64_roundtrip.
Qed.

(** what a client encrypts for the node and signs reaches the handler as it
    was, with the client's signing key, KEM key and peer identifier, whenever
    the nonce is new. *)
Theorem request_roundtrip now h hs seed aes_nonce t t' payload ptype npk pk sk peer ckem store :
  header_text "content-type" hs = Some "application/octet-stream" →
  keypair pk sk → kem_pair npk (kem_private_key h) → length aes_nonce = 12%nat →
  Z.of_nat (length payload) < 2 ^ 32 - 16 → in_u 64 (t' / 1000000000) →
  seen_at store peer (clock_nonce t) = None →
  ∃ bytes store',
    build_encrypted_envelope_with_peer seed aes_nonce t t' payload ptype npk sk (base64_encode pk)
      peer (Some (base64_encode ckem)) = Ok bytes ∧
    envelope_middleware now h {| headers := hs; request_body := Some bytes |} store =
      (Some (Forwarded {| signing_pubkey := pk; kem_pubkey := ckem; meta_peer_id := Some peer |}
               (Some payload)), store').
Proof.
  intros Hct Hk Hkem Hl Hp Hu Hseen.
  destruct (request_accepted now h hs seed aes_nonce t t' payload ptype npk pk sk peer ckem store) as (bytes & ? & ?);
    try done. by eexists _, _.
Qed.

(** a response made for a request that carried a KEM key and a peer is an
    envelope that verifies under the node's key and that the client decrypts to
    the payload. *)
Theorem response_roundtrip d h payload ptype meta peer csk npk nsk now from store :
  kem_pair (kem_pubkey meta) csk → kem_pubkey meta ≠ [] →
  ml_kem_public_from_bytes (kem_pubkey meta) = Ok () → meta_peer_id meta = Some peer →
  keypair npk nsk → signing_private_key h = Some nsk → public_key h = base64_encode npk →
  length (draw_aes_nonce d) = 12%nat → Z.of_nat (length payload) < 2 ^ 32 - 16 →
  draw_uuid d ≠ "" → in_u 64 (draw_now_ms d) → seen_at store from (draw_uuid d) = None →
  let response := create_response_for_envelope_metadata d h payload ptype meta in
  ∃ parts store',
    verify_flatbuffer_envelope_for_peer now (response_body response) (from_secs 300) from store
      = (Ok parts, store') ∧
    pubkey parts = npk ∧ payload_type parts = ptype ∧
    decrypt_payload_from_recipient_blob (Envelope.payload parts) csk = Some (Ok payload).
Proof.
  intros Hkem Hne Hparse Hpeer Hk Hsk Hpk Hl Hp Hn Hu Hseen.
  destruct (blob_decrypts kem_pair _ csk (draw_seed d) _ payload Hkem Hl Hp) as (blob & Henc & Hdec).
  destruct (signed_blob blob ptype (draw_uuid d) (draw_now_ms d) None None npk nsk Hk Hn Hu)
    as (s & sig & Hs & _ & Hv).
  cbv zeta. unfold create_response_for_envelope_metadata, create_encrypted_response_with_key.
  rewrite decide_False, Hpeer by done. rewrite response_envelope_is_signed, Henc by done. simpl.
  rewrite Hsk, Hpk. simpl. rewrite base64_roundtrip. simpl. rewrite Hs. simpl.
  destruct (Hv now (from_secs 300) from store) as [sig' ->].
  rewrite (check_unseen _ _ _ _ _ Hn Hseen). simpl. by eexists _, _.
Qed.

End properties.

Section authenticity.
Context `{FlatBuffers, Crypto, Kem}.
Implicit Types (h : EnvelopeHandler) (store : nonce_store).

(** C20: a handler sees a signing key only when the request was an envelope that
    carries it and verifies under it; the body it sees is then what the
    envelope's signed payload decrypts to. Any other request it gets has no
    keys and the body the client sent. *)
Theorem metadata_authentic now h request store meta body store' :
  envelope_middleware now h request store = (Some (Forwarded meta body), store') →
  (meta = no_metadata ∧ body = request_body request ∧ store' = store) ∨
  ∃ bytes fb parts plain, request_body request = Some bytes ∧ root_as_envelope bytes = Some fb ∧
    verify_envelope (pubkey parts) (envelope_canonical fb) (signature parts) = Ok () ∧
    (signing_pubkey meta ≠ [] → signing_pubkey meta = pubkey parts) ∧
    verify_flatbuffer_envelope_for_peer now bytes (from_secs 300)
      (default "global" (env_peer_id fb)) store = (Ok parts, store') ∧
    meta_peer_id meta = env_peer_id fb ∧
    decrypt_payload_from_recipient_blob (payload parts) (kem_private_key h) = Some (Ok plain) ∧
    body = Some plain.
Proof.
  apply middleware_verified.
Qed.

(** a request envelope with a nonce is admitted at most once in five
    minutes, whoever presents the copy: the peer it is filed under is part of
    what was signed, not the connection it came on. *)
Theorem request_replay_rejected now now' h request request' bytes fb meta body store store' :
  header_text "content-type" (headers request') = Some "application/octet-stream" →
  request_body request = Some bytes → request_body request' = Some bytes →
  root_as_envelope bytes = Some fb → default "" (env_nonce fb) ≠ "" →
  header_text "content-type" (headers request) = Some "application/octet-stream" →
  now ≤ now' ≤ now + from_secs 300 →
  envelope_middleware now h request store = (Some (Forwarded meta body), store') →
  (envelope_middleware now' h request' store').1 = Some (Rejected UNAUTHORIZED).
Proof.
  intros Hct' Hb Hb' Hr Hn Hct Ht Hm. unfold envelope_middleware in *.
  rewrite Hct' , Hb', Hr. rewrite Hct, Hb, Hr in Hm. simpl in *.
  destruct (decrypt_request_envelope now h bytes store) as [[[plain|]|] st] eqn:Ed; try done.
  injection Hm as <- <- ->. destruct (decrypt_request_ok _ _ _ _ _ _ Ed) as (fb' & parts & Hr' & Hv & _).
  simplify_eq. destruct (verify_ok_inv _ _ _ _ _ _ _ Hv) as (fb' & Hr'' & Hsig & Hpub & _ & _ & Hc).
  simplify_eq. specialize (Hc Hn). unfold decrypt_request_envelope. rewrite Hr.
  rewrite (verify_decoded _ _ _ _ _ _ _ _ Hr Hsig Hpub), decide_False by done.
  pose proof (check_again_rejected now now' _ _ _ _ _ Hc ltac:(lia) ltac:(lia)) as Hrej.
  destruct (check_and_insert_nonce_for_peer now' _ _ _ store') as [r ?]. simpl in *. by subst r.
Qed.

End authenticity.

Section fallback.
Context `{FlatBuffers, Crypto, Kem, KemPublic}.

(** a response leaves the node in the clear exactly when the request gave
    no usable KEM key or no peer, or the encryption or the signature failed;
    otherwise it is the envelope made for the sender. *)
Theorem response_plain_iff d h payload ptype meta :
  let response := create_response_for_envelope_metadata d h payload ptype meta in
  response_body response =
    match meta_peer_id meta with
    | Some peer =>
        match encrypt_response_envelope_with_key d h payload ptype peer (kem_pubkey meta) with
        | Ok envelope => envelope
        | Err _ => payload
        end
    | None => payload
    end.
Proof.
  cbv zeta. unfold create_response_for_envelope_metadata, create_encrypted_response_with_key.
  case_decide as Hk; destruct (meta_peer_id meta) as [peer|]; try done.
  - unfold encrypt_response_envelope_with_key. by rewrite decide_True.
  - by destruct (encrypt_response_envelope_with_key _ _ _ _ _ _).
Qed.

End fallback.

(** ** Concrete runs *)

Module ToyKemPublic.
#[export] Instance kem_public : KemPublic :=
  {| ml_kem_public_from_bytes l := if decide (l = []) then Err "empty key" else Ok () |}.
End ToyKemPublic.

Section witnesses.
Import Toy ToyKemPublic.

Definition demo_handler : EnvelopeHandler :=
  EnvelopeHandler_new (Some (Some ([x0b], [x0b]))) (Err "no disk") [x01] (base64_encode [x0b]).

Definition octet_headers : HeaderMap := {["content-type" := Some "application/octet-stream"]}.

Definition demo_bytes : list byte :=
  match build_encrypted_envelope_with_peer [x05] (replicate 12 x07) 9 9 [x01; x02] "task" [x01] [x0a]
          (base64_encode [x0a]) "client" (Some (base64_encode [x0c])) with
  | Ok bytes => bytes
  | Err _ => []
  end.

Definition demo_rest_request : Request :=
  {| headers := octet_headers; request_body := Some demo_bytes |}.

Definition demo_admitted : option admission * nonce_store :=
  envelope_middleware 0 demo_handler demo_rest_request ∅.

Definition demo_meta : EnvelopeMetadata :=
  {| signing_pubkey := [x0a]; kem_pubkey := [x0c]; meta_peer_id := Some "client" |}.

Lemma request_roundtrip_witness :
  ∃ bytes store',
    build_encrypted_envelope_with_peer [x05] (replicate 12 x07) 9 9 [x01; x02] "task" [x01] [x0a]
      (base64_encode [x0a]) "client" (Some (base64_encode [x0c])) = Ok bytes ∧
    envelope_middleware 0 demo_handler {| headers := octet_headers; request_body := Some bytes |} ∅ =
      (Some (Forwarded demo_meta (Some [x01; x02])), store').
Proof.
  apply (request_roundtrip (keypair := λ pk sk, pk = sk) (kem_pair := λ pk sk, pk = sk)
    0 demo_handler octet_headers [x05] (replicate 12 x07) 9 9
    [x01; x02] "task" [x01] [x0a] [x0a] "client" [x0c] ∅);
    [vm_compute; reflexivity|done|done|done|simpl; lia|by apply (bool_decide_unpack _)|done].
Defined.

Definition demo_draws : response_draws :=
  {| draw_seed := [x06]; draw_aes_nonce := replicate 12 x08; draw_uuid := "u1"; draw_now_ms := 3 |}.

Lemma response_roundtrip_witness :
  let response := create_response_for_envelope_metadata demo_draws demo_handler [x05] "ok" demo_meta in
  ∃ parts store',
    verify_flatbuffer_envelope_for_peer 0 (response_body response) (from_secs 300) "node" ∅
      = (Ok parts, store') ∧
    pubkey parts = [x0b] ∧ payload_type parts = "ok" ∧
    decrypt_payload_from_recipient_blob (payload parts) [x0c] = Some (Ok [x05]).
Proof.
  apply (response_roundtrip (keypair := λ pk sk, pk = sk) (kem_pair := λ pk sk, pk = sk)
    demo_draws demo_handler [x05] "ok" demo_meta "client" [x0c] [x0b] [x0b] 0 "node" ∅);
    [done|done|reflexivity|done|done|done|reflexivity|done|simpl; lia|done
    |by apply (bool_decide_unpack _)|done].
Defined.

Lemma metadata_authentic_witness :
  ∃ store', envelope_middleware 0 demo_handler demo_rest_request ∅ =
      (Some (Forwarded demo_meta (Some [x01; x02])), store') ∧
    ((demo_meta = no_metadata ∧ Some [x01; x02] = request_body demo_rest_request ∧ store' = ∅) ∨
     ∃ bytes fb parts plain, request_body demo_rest_request = Some bytes ∧
       root_as_envelope bytes = Some fb ∧
       verify_envelope (pubkey parts) (envelope_canonical fb) (signature parts) = Ok () ∧
       (signing_pubkey demo_meta ≠ [] → signing_pubkey demo_meta = pubkey parts) ∧
       verify_flatbuffer_envelope_for_peer 0 bytes (from_secs 300)
         (default "global" (env_peer_id fb)) ∅ = (Ok parts, store') ∧
       meta_peer_id demo_meta = env_peer_id fb ∧
       decrypt_payload_from_recipient_blob (payload parts) (kem_private_key demo_handler)
         = Some (Ok plain) ∧
       Some [x01; x02] = Some plain).
Proof.
  exists demo_admitted.2.
  assert (He : envelope_middleware 0 demo_handler demo_rest_request ∅ =
      (Some (Forwarded demo_meta (Some [x01; x02])), demo_admitted.2)).
  { apply pair_snd. vm_compute. reflexivity. }
  split; [exact He|]. exact (metadata_authentic 0 demo_handler demo_rest_request ∅ _ _ _ He).
Defined.

Lemma request_replay_rejected_witness :
  (envelope_middleware 100 demo_handler demo_rest_request demo_admitted.2).1 =
    Some (Rejected UNAUTHORIZED).
Proof.
  eapply (request_replay_rejected 0 100 demo_handler demo_rest_request demo_rest_request demo_bytes _
    demo_meta (Some [x01; x02]) ∅).
  - vm_compute. reflexivity.
  - reflexivity.
  - reflexivity.
  - vm_compute. reflexivity.
  - vm_compute. discriminate.
  - vm_compute. reflexivity.
  - unfold from_secs. lia.
  - apply pair_snd. vm_compute. reflexivity.
Defined.

End witnesses.
