(* ===== verification/CapacityMessages.v ===== *)
(** * Capacity bids

    Capacity requests over GossipSub ([behaviour/gossipsub_message.rs]) and over
    the scheduler protocol ([behaviour/scheduler_message.rs]), the query side
    ([control/query_capacity.rs]), the construction of replies ([reply.rs],
    [capacity.rs]) and the helpers of [utils.rs]. A reply channel is a number;
    what is sent on it is part of the result. *)

From Stdlib Require Import Ascii.
From S2P Require Import Prelude RustStr Utf8 Constants Serde Libp2p Concrete Provider Runtime ResourceVerifier.
From S2P Require Import NonceStore Envelope WorkloadIntegration.

Open Scope rust_scope.

(** ** Request identifiers ([utils.rs]) *)

Definition extract_manifest_id_from_request_id (request_id : string) : option string :=
  let legacy :=
    if starts_with FREE_CAPACITY_PREFIX request_id then
      match split_char "-"%char request_id with
      | _ :: part1 :: _ => if decide (part1 = "") then None else Some part1
      | _ => None
      end
    else None in
  match split_char ":"%char request_id with
  | prefix :: manifest :: _ =>
      if decide (prefix = FREE_CAPACITY_PREFIX ∧ manifest ≠ "") then Some manifest else legacy
  | _ => legacy
  end.

Definition notify_capacity_observers (pending_queries : gmap string (list nat)) (request_id : string)
    (payload : string) : list (nat * string) :=
  (λ tx, (tx, payload)) <$> default [] (pending_queries !! request_id).

(** [random] is the [u32] drawn. *)
Definition make_nonce (random : Z) (prefix : option string) : string :=
  match prefix with
  | Some p => p +:+ "_" +:+ pretty random
  | None => "nonce_" +:+ pretty random
  end.

(** [now] in nanoseconds since the epoch. *)
Definition make_timestamp_ms (now : Z) : Z := if decide (0 ≤ now) then wrap 64 (now / 1000000) else 0.

(** ** Replies ([reply.rs], [capacity.rs]) *)

Record CapacityReplyParams := {
  p_ok : bool;
  p_cpu_milli : Z;
  p_memory_bytes : Z;
  p_storage_bytes : Z;
  p_request_id : string;
  p_responder_peer : string;
  p_region : string;
  p_capabilities : list string;
}.

Definition DEFAULT_CAPACITY_CPU_MILLI : Z := 1000.
Definition DEFAULT_CAPACITY_MEMORY_BYTES : Z := 1024 * 1024 * 512.
Definition DEFAULT_CAPACITY_STORAGE_BYTES : Z := 1024 * 1024 * 1024.
Definition DEFAULT_CAPACITY_REGION : string := "local".
Definition DEFAULT_CAPACITY_CAPABILITIES : list string := ["default"].

Definition baseline_capacity_params (request_id responder_peer : string) : CapacityReplyParams :=
  {| p_ok := true; p_cpu_milli := DEFAULT_CAPACITY_CPU_MILLI;
     p_memory_bytes := DEFAULT_CAPACITY_MEMORY_BYTES;
     p_storage_bytes := DEFAULT_CAPACITY_STORAGE_BYTES; p_request_id := request_id;
     p_responder_peer := responder_peer; p_region := DEFAULT_CAPACITY_REGION;
     p_capabilities := DEFAULT_CAPACITY_CAPABILITIES |}.

(** The adjustments of the callers: [params.ok = true], and the three amounts. *)
Definition with_ok (p : CapacityReplyParams) : CapacityReplyParams :=
  {| p_ok := true; p_cpu_milli := p_cpu_milli p; p_memory_bytes := p_memory_bytes p;
     p_storage_bytes := p_storage_bytes p; p_request_id := p_request_id p;
     p_responder_peer := p_responder_peer p; p_region := p_region p;
     p_capabilities := p_capabilities p |}.

Definition with_amounts (cpu memory storage : Z) (p : CapacityReplyParams) : CapacityReplyParams :=
  {| p_ok := p_ok p; p_cpu_milli := cpu; p_memory_bytes := memory; p_storage_bytes := storage;
     p_request_id := p_request_id p; p_responder_peer := p_responder_peer p;
     p_region := p_region p; p_capabilities := p_capabilities p |}.

(** The flatbuffer payload and the encoded KEM key. *)
Record BuiltReply := { reply_payload : list byte; reply_kem_pub_b64 : option string }.

Section capacity.
Context `{PeerIds, !Kademlia, FlatBuffers, Crypto, Messages} {W : Type}.
(** The node's KEM and signing keys, as the crypto crate returns them. *)
Context (kem_keypair node_keys : result string (list byte * list byte)).
Implicit Types s : NodeState (W:=W).

(** The [CapacityReply] table that [protocol::machine::build_capacity_reply] writes. *)
Definition reply_table (p : CapacityReplyParams) (kem_pub_b64 : option string) : CapacityReply :=
  {| rp_request_id := Some (p_request_id p); rp_ok := p_ok p;
     rp_node_id := Some (p_responder_peer p); rp_region := Some (p_region p);
     rp_kem_pubkey := kem_pub_b64; rp_capabilities := Some (p_capabilities p);
     rp_cpu_available_milli := p_cpu_milli p; rp_memory_available_bytes := p_memory_bytes p;
     rp_storage_available_bytes := p_storage_bytes p |}.

Definition build_capacity_reply (p : CapacityReplyParams) : BuiltReply :=
  let kem_pub_b64 :=
    match kem_keypair with Ok (pubb, _) => Some (base64_encode pubb) | Err _ => None end in
  {| reply_payload := finish_capacity_reply (reply_table p kem_pub_b64);
     reply_kem_pub_b64 := kem_pub_b64 |}.

Definition build_capacity_reply_with (request_id responder_peer : string)
    (adjust : CapacityReplyParams → CapacityReplyParams) : BuiltReply :=
  build_capacity_reply (adjust (baseline_capacity_params request_id responder_peer)).

Definition compose_capacity_reply := build_capacity_reply_with.

Definition compose_default_capacity_reply (request_id responder_peer : string) : BuiltReply :=
  compose_capacity_reply request_id responder_peer id.

(** ** Answering a request *)

(** Why no bid is made. *)
Inductive no_bid :=
| StaleRequest
| MissingManifestId
| NoCapacity (reason : option string)
| ReservationFailed (m : string).

(** The common part of the two handlers, on a verified capacity request: the
    age, the manifest, the capacity check and the reservation. The bid is the
    manifest it is for and the reply. [now_ms] and [now] are readings of the
    wall clock and of the monotonic clock. *)
Definition bid (now_ms now timestamp_ms : Z) (responder_peer : string) (cap_req : CapacityRequest)
    (v : ResourceVerifier) : result no_bid (string * BuiltReply) * ResourceVerifier :=
  let request_id := default "" (cr_request_id cap_req) in
  let age_ms := saturating_sub now_ms timestamp_ms in
  if decide (FREE_CAPACITY_TIMEOUT_MS < age_ms) then (Err StaleRequest, v)
  else
    match extract_manifest_id_from_request_id request_id with
    | None => (Err MissingManifestId, v)
    | Some manifest_id =>
        let resource_request :=
          ResourceRequest_new (Some (cr_cpu_milli cap_req)) (Some (cr_memory_bytes cap_req))
            (Some (cr_storage_bytes cap_req)) (cr_replicas cap_req) in
        let '(check_result, v) := verify_capacity now resource_request v in
        if has_capacity check_result then
          let '(outcome, v) :=
            reserve_capacity now now now request_id (Some manifest_id) resource_request v in
          match outcome with
          | Err err => (Err (ReservationFailed err), v)
          | Ok _ =>
              (Ok (manifest_id,
                   compose_capacity_reply request_id responder_peer
                     (λ params, with_amounts (check_cpu_milli check_result)
                                  (check_memory_bytes check_result) (check_storage_bytes check_result)
                                  (with_ok params))), v)
          end
        else (Err (NoCapacity (rejection_reason check_result)), v)
    end.

(** [send_scheduler_capacity_reply]: the response on the channel, unsigned. *)
Definition send_scheduler_capacity_reply (reply : BuiltReply) : list byte := reply_payload reply.

(** [scheduler_message] on a request: the response, unsigned, if any.
    [scheduling_disabled] is [is_scheduling_disabled_for] of the local peer. *)
Definition scheduler_request (scheduling_disabled : bool) (now_ms now : Z) (peer local_peer : PeerId)
    (request : list byte) s : option (list byte) * NodeState :=
  if scheduling_disabled then (None, s)
  else
    let '(verified, nonces) := verify_signed_message now peer request (NONCE_STORE s) in
    let s := set_nonces nonces s in
    match verified with
    | None => (None, s)
    | Some envelope =>
        match root_as_capacity_request (payload envelope) with
        | None => (None, s)
        | Some cap_req =>
            let '(r, v) := bid now_ms now (timestamp_ms envelope) (peer_to_string local_peer) cap_req
                             (RESOURCE_VERIFIER s) in
            (match r with Ok (_, reply) => Some (send_scheduler_capacity_reply reply) | Err _ => None end,
             set_verifier v s)
        end
    end.

(** [scheduler_message] on a response: what the waiting queries are told. *)
Definition scheduler_response (peer : PeerId) (response : list byte)
    (pending_queries : gmap string (list nat)) : list (nat * string) :=
  match root_as_capacity_reply response with
  | Some cap_reply =>
      notify_capacity_observers pending_queries (default "" (rp_request_id cap_reply))
        (peer_to_string peer +:+ ":" +:+ default "" (rp_kem_pubkey cap_reply))
  | None => []
  end.

(** [sign_payload_default]; [random] and [now_ms] feed the nonce and the time. *)
Definition sign_payload_default (random now_ms : Z) (payload : list byte) (payload_type : string)
    (nonce_prefix : option string) : result string (list byte) :=
  let sign_cfg :=
    {| cfg_nonce := Some (make_nonce random nonce_prefix); cfg_timestamp := Some now_ms;
       cfg_peer_id := None; cfg_kem_pub_b64 := None;
       cfg_algorithm := cfg_algorithm SignEnvelopeConfig_default;
       cfg_signature_prefix := cfg_signature_prefix SignEnvelopeConfig_default |} in
  let? signed := sign_with_node_keys node_keys "" now_ms payload payload_type sign_cfg in
  Ok (signed_bytes signed).

(** [publish_gossipsub_capacity_reply]: the bytes handed to GossipSub. *)
Definition publish_gossipsub_capacity_reply (random now_ms : Z) (reply : BuiltReply) :
    result string (list byte) :=
  map_err (λ _, "signing capacity reply")
    (sign_payload_default random now_ms (reply_payload reply) "capacity_reply" (Some "capreply")).

(** [sign_capacity_reply]: with a nonce drawn as [uuid]. *)
Definition sign_capacity_reply (uuid : string) (now_ms : Z) (payload : list byte) :
    result string SignedEnvelope :=
  sign_with_node_keys node_keys uuid now_ms payload "capacity_reply" SignEnvelopeConfig_default.

(** What a GossipSub message leads to: a message to publish, and what waiting
    queries are told. *)
Record gossip_effect := { published : option (list byte); notified : list (nat * string) }.

Definition gossipsub_message (random now_ms now : Z) (peer_id local_peer : PeerId) (data : list byte)
    (pending_queries : gmap string (list nat)) s : gossip_effect * NodeState :=
  let nothing := {| published := None; notified := [] |} in
  let '(verified, nonces) := verify_signed_message now peer_id data (NONCE_STORE s) in
  let s := set_nonces nonces s in
  match verified with
  | None => (nothing, s)
  | Some envelope =>
      match root_as_capacity_request (payload envelope) with
      | Some cap_req =>
          let '(r, v) := bid now_ms now (timestamp_ms envelope) (peer_to_string local_peer) cap_req
                           (RESOURCE_VERIFIER s) in
          let s := set_verifier v s in
          match r with
          | Ok (_, reply) =>
              match publish_gossipsub_capacity_reply random now_ms reply with
              | Ok bytes => ({| published := Some bytes; notified := [] |}, s)
              | Err _ => (nothing, s)
              end
          | Err _ => (nothing, s)
          end
      | None =>
          match root_as_capacity_reply (payload envelope) with
          | Some cap_reply =>
              ({| published := None;
                  notified := notify_capacity_observers pending_queries
                                (default "" (rp_request_id cap_reply)) (peer_to_string peer_id) |}, s)
          | None => (nothing, s)
          end
      end
  end.

(** ** Asking ([control/query_capacity.rs], [utils.rs]) *)

(** [broadcast_signed_request_to_peers]: one envelope per peer, with its own
    nonce; [randoms] are the draws. A peer whose envelope cannot be signed is
    skipped. *)
Fixpoint sign_for_peers (pub_bytes sk_bytes payload : list byte) (payload_type : string)
    (timestamp : Z) (peers : list PeerId) (randoms : list Z) : list (PeerId * list byte) :=
  match peers with
  | [] => []
  | peer :: peers' =>
      let nonce := make_nonce (default 0 (head randoms)) (Some (peer_to_string peer +:+ "_query")) in
      let sign_cfg :=
        {| cfg_nonce := Some nonce; cfg_timestamp := Some timestamp; cfg_peer_id := None;
           cfg_kem_pub_b64 := None; cfg_algorithm := cfg_algorithm SignEnvelopeConfig_default;
           cfg_signature_prefix := cfg_signature_prefix SignEnvelopeConfig_default |} in
      let rest := sign_for_peers pub_bytes sk_bytes payload payload_type timestamp peers' (tail randoms) in
      match sign_with_existing_keypair "" timestamp payload payload_type sign_cfg pub_bytes sk_bytes with
      | Ok signed => (peer, signed_bytes signed) :: rest
      | Err _ => rest
      end
  end.

Definition broadcast_signed_request_to_peers (now_ms : Z) (randoms : list Z) (peers : list PeerId)
    (payload : list byte) (payload_type : string) : result string (list (PeerId * list byte)) :=
  let? (pub_bytes, sk_bytes) := map_err (λ _, "loading keypair") node_keys in
  Ok (sign_for_peers pub_bytes sk_bytes payload payload_type now_ms peers randoms).

(** The pending queries, the requests sent and the local answer. *)
Definition handle_query_capacity_with_payload (scheduling_disabled : bool) (now_ms : Z)
    (randoms : list Z) (local_peer : PeerId) (peers : list PeerId) (request_id : string)
    (reply_tx : nat) (payload : list byte) (pending_queries : gmap string (list nat)) :
    gmap string (list nat) * list (PeerId * list byte) * list (nat * string) :=
  let pending_queries :=
    <[request_id := (default [] (pending_queries !! request_id) ++ [reply_tx])%list]> pending_queries in
  match root_as_capacity_request payload with
  | None => (pending_queries, [], [])
  | Some cap_req =>
      let finished := finish_capacity_request
        {| cr_request_id := Some request_id; cr_cpu_milli := cr_cpu_milli cap_req;
           cr_memory_bytes := cr_memory_bytes cap_req; cr_storage_bytes := cr_storage_bytes cap_req;
           cr_replicas := cr_replicas cap_req |} in
      match broadcast_signed_request_to_peers now_ms randoms peers finished "capacity" with
      | Err _ => (pending_queries, [], [])
      | Ok sent =>
          if scheduling_disabled then (pending_queries, sent, [])
          else
            let reply := compose_capacity_reply request_id (peer_to_string local_peer)
              (with_amounts (cr_cpu_milli cap_req) (cr_memory_bytes cap_req) (cr_storage_bytes cap_req)) in
            let local_response :=
              peer_to_string local_peer +:+ ":" +:+ default "" (reply_kem_pub_b64 reply) in
            (pending_queries, sent, notify_capacity_observers pending_queries request_id local_response)
      end
  end.

End capacity.

(** ** Lemmas *)

Lemma prune_subseteq now v : reservations (prune_expired_reservations now v) ⊆ reservations v.
Proof. apply map_filter_subseteq. Qed.

Section lemmas.
Context `{PeerIds, Crypto, Messages}.
Context (kem_keypair : result string (list byte * list byte)).

Lemma verify_capacity_state now q v : (verify_capacity now q v).2 = prune_expired_reservations now v.
Proof.
  unfold verify_capacity. destruct (total_reserved_resources _) as [[? ?] ?]. cbv zeta.
  by repeat case_match.
Qed.

Lemma bid_ok now_ms now ts responder req v mid reply v' :
  bid kem_keypair now_ms now ts responder req v = (Ok (mid, reply), v') →
  saturating_sub now_ms ts ≤ FREE_CAPACITY_TIMEOUT_MS ∧
  ∃ q, q = ResourceRequest_new (Some (cr_cpu_milli req)) (Some (cr_memory_bytes req))
             (Some (cr_storage_bytes req)) (cr_replicas req) ∧
    extract_manifest_id_from_request_id (default "" (cr_request_id req)) = Some mid ∧
    has_capacity (verify_capacity now q v).1 = true ∧
    reserve_capacity now now now (default "" (cr_request_id req)) (Some mid) q
      (prune_expired_reservations now v) = (Ok (), v').
Proof.
  unfold bid. case_decide as Hage; [done|]. destruct (extract_manifest_id_from_request_id _) as [m|]; [|done].
  pose proof (verify_capacity_state now (ResourceRequest_new (Some (cr_cpu_milli req))
    (Some (cr_memory_bytes req)) (Some (cr_storage_bytes req)) (cr_replicas req)) v) as Hs.
  destruct (verify_capacity now _ v) as [chk v1] eqn:Ev. cbn [snd] in Hs. subst v1.
  destruct (has_capacity chk) eqn:Hc; [|done].
  destruct (reserve_capacity _ _ _ _ _ _ _) as [[[]|] v2] eqn:Er; [|done].
  intros [= <- _ <-]. split; [lia|]. eexists. split; [done|]. by rewrite Ev.
Qed.

Lemma bid_err now_ms now ts responder req v e v' :
  bid kem_keypair now_ms now ts responder req v = (Err e, v') → reservations v' ⊆ reservations v.
Proof.
  unfold bid. case_decide; [by intros [= _ <-]|].
  destruct (extract_manifest_id_from_request_id _) as [m|]; [|by intros [= _ <-]].
  pose proof (verify_capacity_state now (ResourceRequest_new (Some (cr_cpu_milli req))
    (Some (cr_memory_bytes req)) (Some (cr_storage_bytes req)) (cr_replicas req)) v) as Hs.
  destruct (verify_capacity now _ v) as [chk v1]. cbn [snd] in Hs. subst v1.
  destruct (has_capacity chk); [|intros [= _ <-]; apply prune_subseteq].
  unfold reserve_capacity. destruct (refresh_existing _ _ _ _); [done|].
  destruct (check_reservable _ _ _); [done|]. intros [= _ <-].
  etrans; apply prune_subseteq.
Qed.

(** The verifier's invariant survives, whether or not there is a bid. *)
Lemma bid_verifier_ok `{!MessagesLaws} now_ms now ts responder req v l :
  root_as_capacity_request l = Some req → verifier_ok v →
  verifier_ok (bid kem_keypair now_ms now ts responder req v).2.
Proof.
  intros Hl Hv. unfold bid. case_decide; [done|].
  destruct (extract_manifest_id_from_request_id _) as [m|]; [|done].
  set (q := ResourceRequest_new _ _ _ _).
  assert (request_wf q) as Hq.
  { destruct (capacity_request_widths l req Hl) as (? & ? & ? & ?). split_and!; simpl; [done..|u_lia]. }
  pose proof (verify_capacity_state now q v) as Hs.
  destruct (verify_capacity now q v) as [chk v1]. cbn [snd] in Hs. subst v1.
  apply (prune_ok now) in Hv. destruct (has_capacity chk); [|done].
  pose proof (reserve_capacity_ok now now now (default "" (cr_request_id req)) (Some m) q _ Hv Hq) as Hr.
  by destruct (reserve_capacity _ _ _ _ _ _ _) as [[[]|] v2].
Qed.

End lemmas.

(** A capacity message changes nothing but nonces and reservations. *)
Section handlers.
Context `{PeerIds, !Kademlia, FlatBuffers, Crypto, Messages, !MessagesLaws} {W : Type}.
Context (kem_keypair node_keys : result string (list byte * list byte)).
Implicit Types s : NodeState (W:=W).

(** What the machine has is not touched by a bid: only the reservations are. *)
Lemma bid_resources now_ms now ts responder req v :
  system_resources (bid kem_keypair now_ms now ts responder req v).2 = system_resources v.
Proof.
  unfold bid. case_decide; [done|]. destruct (extract_manifest_id_from_request_id _) as [m|]; [|done].
  pose proof (verify_capacity_state now (ResourceRequest_new (Some (cr_cpu_milli req))
    (Some (cr_memory_bytes req)) (Some (cr_storage_bytes req)) (cr_replicas req)) v) as Hs.
  destruct (verify_capacity now _ v) as [chk v1]. cbn [snd] in Hs. subst v1. destruct (has_capacity chk); [|done].
  unfold reserve_capacity. destruct (refresh_existing _ _ _ _) as [v2|] eqn:Ex.
  - revert Ex. unfold refresh_existing. by repeat case_match; intros; simplify_eq.
  - destruct (check_reservable _ _ _); [|done]. unfold insert_reservation. by rewrite Ex.
Qed.

Lemma scheduler_request_resources disabled now_ms now peer local request s :
  system_resources (RESOURCE_VERIFIER (scheduler_request kem_keypair disabled now_ms now peer local request s).2) =
  system_resources (RESOURCE_VERIFIER s).
Proof.
  unfold scheduler_request. destruct disabled; [done|].
  destruct (verify_signed_message _ _ _ _) as [[env|] nonces]; [|done].
  destruct (root_as_capacity_request _) as [req|]; [|done]. cbv zeta.
  pose proof (bid_resources now_ms now (timestamp_ms env) (peer_to_string local) req (RESOURCE_VERIFIER s)) as Hb.
  simpl. by destruct (bid _ _ _ _ _ _ _) as [r v].
Qed.

Lemma gossipsub_message_resources random now_ms now peer local data pending s :
  system_resources (RESOURCE_VERIFIER
    (gossipsub_message kem_keypair node_keys random now_ms now peer local data pending s).2) =
  system_resources (RESOURCE_VERIFIER s).
Proof.
  unfold gossipsub_message. destruct (verify_signed_message _ _ _ _) as [[env|] nonces]; [|done].
  destruct (root_as_capacity_request _) as [req|]; [|by destruct (root_as_capacity_reply _)].
  pose proof (bid_resources now_ms now (timestamp_ms env) (peer_to_string local) req (RESOURCE_VERIFIER s)) as Hb.
  simpl. destruct (bid _ _ _ _ _ _ _) as [[[mid reply]|] v]; [|done].
  by destruct (publish_gossipsub_capacity_reply _ _ _ _).
Qed.

Lemma scheduler_request_keeps disabled now_ms now peer local request s :
  let s' := (scheduler_request kem_keypair disabled now_ms now peer local request s).2 in
  engine_world s' = engine_world s ∧ MANIFEST_OWNER_MAP s' = MANIFEST_OWNER_MAP s ∧
  (verifier_ok (RESOURCE_VERIFIER s) → verifier_ok (RESOURCE_VERIFIER s')).
Proof.
  unfold scheduler_request. destruct disabled; [done|].
  destruct (verify_signed_message _ _ _ _) as [[env|] nonces]; [|done].
  destruct (root_as_capacity_request _) as [req|] eqn:Er; [|done].
  pose proof (λ ts p, bid_verifier_ok kem_keypair now_ms now ts p req (RESOURCE_VERIFIER s) _ Er) as Hb.
  specialize (Hb (timestamp_ms env) (peer_to_string local)). simpl.
  by destruct (bid _ _ _ _ _ _ _) as [r v].
Qed.

Lemma gossipsub_message_keeps random now_ms now peer local data pending s :
  let s' := (gossipsub_message kem_keypair node_keys random now_ms now peer local data pending s).2 in
  engine_world s' = engine_world s ∧ MANIFEST_OWNER_MAP s' = MANIFEST_OWNER_MAP s ∧
  (verifier_ok (RESOURCE_VERIFIER s) → verifier_ok (RESOURCE_VERIFIER s')).
Proof.
  unfold gossipsub_message. destruct (verify_signed_message _ _ _ _) as [[env|] nonces]; [|done].
  destruct (root_as_capacity_request _) as [req|] eqn:Er.
  - pose proof (λ ts p, bid_verifier_ok kem_keypair now_ms now ts p req (RESOURCE_VERIFIER s) _ Er) as Hb.
    specialize (Hb (timestamp_ms env) (peer_to_string local)). simpl.
    destruct (bid _ _ _ _ _ _ _) as [[[mid reply]|] v]; [|done]. by destruct (publish_gossipsub_capacity_reply _ _ _ _).
  - by destruct (root_as_capacity_reply _).
Qed.

End handlers.

Lemma prefix_no_colon : (":"%char : ascii) ∉ String.list_ascii_of_string FREE_CAPACITY_PREFIX.
Proof. by apply (bool_decide_unpack _). Qed.

(** ** Properties *)

(** the manifest of a capacity request is the second field of its
    identifier [prefix:manifest:rest]; of the legacy form [prefix-manifest-rest]
    it is never recovered, because the prefix itself contains dashes. *)
Theorem request_id_manifest m rest :
  ((":"%char : ascii) ∉ String.list_ascii_of_string m → m ≠ "" →
   extract_manifest_id_from_request_id
     (FREE_CAPACITY_PREFIX +:+ String ":" (m +:+ String ":" rest)) = Some m) ∧
  extract_manifest_id_from_request_id (FREE_CAPACITY_PREFIX +:+ String "-" (m +:+ String "-" rest))
    = Some "free".
Proof.
  unfold extract_manifest_id_from_request_id. split.
  - intros Hm Hne. rewrite split_char_app by apply prefix_no_colon.
    rewrite split_char_app by done. by rewrite decide_True.
  - set (tl := m +:+ String "-" rest).
    assert (∀ x, FREE_CAPACITY_PREFIX +:+ x = "beemesh" +:+ String "-" ("free" +:+ String "-" ("capacity" +:+ x)))
      as Hp by done.
    assert (Hleg : (if starts_with FREE_CAPACITY_PREFIX (FREE_CAPACITY_PREFIX +:+ String "-" tl) then
      match split_char "-"%char (FREE_CAPACITY_PREFIX +:+ String "-" tl) with
      | _ :: part1 :: _ => if decide (part1 = "") then None else Some part1
      | _ => None
      end else None) = Some "free").
    { assert (starts_with FREE_CAPACITY_PREFIX (FREE_CAPACITY_PREFIX +:+ String "-" tl) = true) as ->
        by by apply starts_with_spec; eexists.
      rewrite Hp, !split_char_app by by apply (bool_decide_unpack _). done. }
    rewrite Hleg. destruct (split_char ":"%char _) as [|p0 [|m0 l]] eqn:Es; [done..|].
    rewrite decide_False; [done|]. intros [-> _].
    destruct (split_char_first _ _ _ _ _ Es) as [s' Hs']. done.
Qed.

Section bid_property.
Context `{PeerIds, Crypto, Messages}.
Context (kem_keypair : result string (list byte * list byte)).

(** The reservation behind a bid. *)
Lemma bid_reserves now_ms now ts responder req v mid reply v' now' :
  bid kem_keypair now_ms now ts responder req v = (Ok (mid, reply), v') → now' < now + from_secs 3 →
  (has_active_reservation_for_manifest now' mid v').1 = true.
Proof.
  intros (_ & q & _ & _ & _ & Hr)%bid_ok Hnow. apply has_active_reservation_iff.
  destruct (reserve_capacity_entry now now now (default "" (cr_request_id req)) (Some mid) q
    (prune_expired_reservations now v)) as (r & Hr' & He & Hmid); [by rewrite Hr|].
  rewrite Hr in Hr'. cbn [snd] in Hr'. eexists _, r. split_and!; [done|by apply Hmid|].
  change (from_secs 3) with reservation_hold_duration in Hnow. lia.
Qed.

(** The totals of a request fit beside what is reserved. *)
Definition has_room (q : ResourceRequest) (v : ResourceVerifier) : Prop :=
  let '(cpu, memory, storage) := total_reserved_resources v in
  request_total_cpu_milli q ≤ saturating_sub (available_cpu_milli (system_resources v)) cpu ∧
  request_total_memory_bytes q ≤ saturating_sub (available_memory_bytes (system_resources v)) memory ∧
  request_total_storage_bytes q ≤ saturating_sub (available_storage_bytes (system_resources v)) storage.

Lemma reservable_room q v :
  is_ok (check_reservable (total_reserved_resources v) q (system_resources v)) = true ↔ has_room q v.
Proof.
  unfold has_room, check_reservable. destruct (total_reserved_resources v) as [[? ?] ?].
  repeat case_bool_decide; simpl; (split; [intros ?; try done; lia|intros ?; try done; lia]).
Qed.

Lemma prune_twice now v :
  prune_expired_reservations now (prune_expired_reservations now v) = prune_expired_reservations now v.
Proof.
  unfold prune_expired_reservations, set_reservations. simpl. f_equal.
  apply map_filter_id. intros k r Hr%map_lookup_filter_Some. naive_solver.
Qed.

(** The amounts of a reservation. *)
Definition reserved_amounts (r : CapacityReservation) : Z * Z * Z := (cpu_milli r, memory_bytes r, storage_bytes r).

(** The reservation of a bid, in full. *)
Lemma reserve_exact now rid mid q v v' :
  reserve_capacity now now now rid (Some mid) q (prune_expired_reservations now v) = (Ok (), v') →
  let live := reservations (prune_expired_reservations now v) in
  ∃ r, reservations v' = <[rid := r]> live ∧ manifest_id r = Some mid ∧ expires_at r = now + from_secs 3 ∧
    reserved_amounts r = match live !! rid with
      | Some old => reserved_amounts old
      | None => (request_total_cpu_milli q, request_total_memory_bytes q, request_total_storage_bytes q)
      end.
Proof.
  intros Hr live. destruct (live !! rid) as [old|] eqn:E.
  - unfold reserve_capacity, refresh_existing in Hr. rewrite prune_twice in Hr. unfold live in E. rewrite E in Hr.
    injection Hr as <-. by exists (refresh_reservation now (Some mid) old).
  - rewrite reserve_capacity_fresh in Hr by by rewrite prune_twice. cbv zeta in Hr. rewrite prune_twice in Hr.
    destruct (check_reservable _ _ _); [|done]. injection Hr as <-. by exists (new_reservation now (Some mid) q).
Qed.

(** What refuses a bid that is fresh and names a manifest: too little room. *)
Lemma bid_refused now_ms now ts responder req v e v' mid :
  bid kem_keypair now_ms now ts responder req v = (Err e, v') →
  saturating_sub now_ms ts ≤ FREE_CAPACITY_TIMEOUT_MS →
  extract_manifest_id_from_request_id (default "" (cr_request_id req)) = Some mid →
  ¬ has_room (ResourceRequest_new (Some (cr_cpu_milli req)) (Some (cr_memory_bytes req))
      (Some (cr_storage_bytes req)) (cr_replicas req)) (prune_expired_reservations now v).
Proof.
  unfold bid. intros Hb Hage Hm. rewrite decide_False in Hb by lia. rewrite Hm in Hb.
  set (q := ResourceRequest_new _ _ _ _) in *. rewrite <- reservable_room.
  pose proof (verify_capacity_state now q v) as Hs. pose proof (verify_capacity_check now q v) as Hc. cbv zeta in Hc.
  rewrite <- Hc. destruct (verify_capacity now q v) as [chk v1]. cbn [fst snd] in *. subst v1.
  destruct (has_capacity chk) eqn:Ec; [|done]. intros _.
  destruct (reserve_capacity _ _ _ _ _ _ _) as [[[]|] v2] eqn:Er; [done|]. symmetry in Hc.
  unfold reserve_capacity, insert_reservation in Er. rewrite prune_twice in Er.
  destruct (refresh_existing _ _ _ _); [done|]. by destruct (check_reservable _ _ _).
Qed.

(** C13: a bid is made exactly when the capacity request is at most 500 ms old,
    names a manifest, and asks for amounts (times its replicas) that fit beside
    the live reservations. Then one reservation is entered under the identifier
    of the request, for that manifest, until three seconds later: it holds the
    amounts asked for, or, when the identifier already had a live reservation,
    the amounts of that one; and a node that was not overcommitted stays so.
    Without a bid no reservation is added. *)
Theorem bid_is_backed now_ms now ts responder req v :
  let rid := default "" (cr_request_id req) in
  let q := ResourceRequest_new (Some (cr_cpu_milli req)) (Some (cr_memory_bytes req))
             (Some (cr_storage_bytes req)) (cr_replicas req) in
  let live := reservations (prune_expired_reservations now v) in
  let '(r, v') := bid kem_keypair now_ms now ts responder req v in
  match r with
  | Ok (mid, reply) =>
      saturating_sub now_ms ts ≤ 500 ∧ extract_manifest_id_from_request_id rid = Some mid ∧
      has_room q (prune_expired_reservations now v) ∧
      (∃ res, reservations v' = <[rid := res]> live ∧ manifest_id res = Some mid ∧
         expires_at res = now + from_secs 3 ∧
         reserved_amounts res = match live !! rid with
           | Some old => reserved_amounts old
           | None => (request_total_cpu_milli q, request_total_memory_bytes q, request_total_storage_bytes q)
           end) ∧
      (verifier_ok v →
       in_u 32 (cr_cpu_milli req) ∧ in_u 64 (cr_memory_bytes req) ∧ in_u 64 (cr_storage_bytes req) ∧
       in_u 32 (cr_replicas req) → verifier_ok v')
  | Err _ =>
      reservations v' ⊆ reservations v ∧
      (500 < saturating_sub now_ms ts ∨ extract_manifest_id_from_request_id rid = None ∨
       ¬ has_room q (prune_expired_reservations now v))
  end.
Proof.
  intros rid q live. destruct (bid kem_keypair now_ms now ts responder req v) as [[[mid reply]|e] v'] eqn:Hb.
  - destruct (bid_ok _ _ _ _ _ _ _ _ _ _ Hb) as (Hage & ? & -> & Hm & Hcap & Hr).
    split_and!; [done|done| |by apply reserve_exact|].
    + rewrite verify_capacity_check in Hcap. by apply reservable_room.
    + intros Hv (Hcpu & Hmem & Hst & Hrep).
      change v' with ((Ok (E:=string) tt, v').2). rewrite <- Hr. apply reserve_capacity_ok; [by apply prune_ok|].
      split_and!; simpl; [done..|u_lia].
  - split; [by eapply bid_err|].
    destruct (decide (500 < saturating_sub now_ms ts)) as [|Hage]; [by left|right].
    destruct (extract_manifest_id_from_request_id rid) as [mid|] eqn:Hm; [right|by left].
    eapply bid_refused; [exact Hb|unfold FREE_CAPACITY_TIMEOUT_MS; lia|exact Hm].
Qed.

End bid_property.
