(* ===== verification/Handshake.v ===== *)
(** * Handshakes and framing

    The handshake handlers ([behaviour/handshake_message.rs]), which confirm a
    peer, and the length-prefixed frames of every request-response protocol
    ([request_response_codec.rs]). *)

From S2P Require Import Prelude RustStr Utf8 Wire Constants Libp2p Concrete NonceStore Envelope.

Open Scope rust_scope.
Open Scope list_scope.

(** ** Frames *)

(** [read_request] and [read_response]: the message and the rest of the
    stream, or the error of [read_exact] on a stream that ends too early. *)
Definition codec_read (stream : list byte) : result string (list byte * list byte) :=
  read_block 4 "unexpected end of file" "unexpected end of file" stream.

(** [write_request] and [write_response]. *)
Definition codec_write (message : list byte) : list byte := put_block 4 message.

Fixpoint codec_read_all (n : nat) (stream : list byte) : result string (list (list byte) * list byte) :=
  match n with
  | O => Ok ([], stream)
  | S n' =>
      let? (m, stream) := codec_read stream in
      let? (ms, stream) := codec_read_all n' stream in
      Ok (m :: ms, stream)
  end.

(** ** Handshakes *)

Record HandshakeState := {
  hs_attempts : Z;
  hs_last_attempt : Z;
  hs_confirmed : bool;
}.

Section handshake.
Context `{PeerIds, FlatBuffers, Crypto, Messages}.
Context (node_keys : result string (list byte * list byte)).

Abbreviation handshake_states := (gmap PeerId HandshakeState).

Definition ensure_handshake_state (now : Z) (peer : PeerId) (states : handshake_states) :
    HandshakeState :=
  default {| hs_attempts := 0; hs_last_attempt := now - from_secs 3; hs_confirmed := false |}
    (states !! peer).

(** [ensure_handshake_state(..).confirmed = true] *)
Definition confirm (now : Z) (peer : PeerId) (states : handshake_states) : handshake_states :=
  let st := ensure_handshake_state now peer states in
  <[peer := {| hs_attempts := hs_attempts st; hs_last_attempt := hs_last_attempt st;
               hs_confirmed := true |}]> states.

Definition build_handshake (nonce timestamp : Z) (protocol_version signature : string) : list byte :=
  finish_handshake {| hs_nonce := nonce; hs_timestamp := timestamp;
                      hs_protocol_version := Some protocol_version; hs_signature := Some signature |}.

Definition error_handshake : list byte := build_handshake 0 0 "" "".

(** The response, signed with the node's keys; [r1] and [r2] are random. *)
Definition handshake_reply (r1 r2 now_ms : Z) (peer : PeerId) : list byte :=
  let sign_cfg :=
    {| cfg_nonce := Some ("handshake_resp_" +:+ pretty r1); cfg_timestamp := Some now_ms;
       cfg_peer_id := None; cfg_kem_pub_b64 := None;
       cfg_algorithm := cfg_algorithm SignEnvelopeConfig_default;
       cfg_signature_prefix := cfg_signature_prefix SignEnvelopeConfig_default |} in
  match sign_with_node_keys node_keys "" now_ms
          (build_handshake r2 now_ms "beemesh/1.0" (peer_to_string peer)) "handshake" sign_cfg with
  | Ok signed => signed_bytes signed
  | Err _ => error_handshake
  end.

Definition handshake_request (r1 r2 now_ms now : Z) (request : list byte) (peer : PeerId)
    (states : handshake_states) (nonces : nonce_store) :
    list byte * handshake_states * nonce_store :=
  let '(verified, nonces) := verify_signed_message now peer request nonces in
  match verified with
  | None => (error_handshake, states, nonces)
  | Some envelope =>
      match root_as_handshake (payload envelope) with
      | Some _ => (handshake_reply r1 r2 now_ms peer, confirm now peer states, nonces)
      | None => (error_handshake, states, nonces)
      end
  end.

Definition handshake_response (now : Z) (response : list byte) (peer : PeerId)
    (states : handshake_states) (nonces : nonce_store) : handshake_states * nonce_store :=
  let '(verified, nonces) := verify_signed_message now peer response nonces in
  match verified with
  | None => (states, nonces)
  | Some envelope =>
      match root_as_handshake (payload envelope) with
      | Some _ => (confirm now peer states, nonces)
      | None => (states, nonces)
      end
  end.

(** [handshake_message_event]: a request is answered, a response is not. *)
Inductive rr_message := RrRequest (data : list byte) | RrResponse (data : list byte).

Definition handshake_message_event (r1 r2 now_ms now : Z) (message : rr_message) (peer : PeerId)
    (states : handshake_states) (nonces : nonce_store) :
    option (list byte) * handshake_states * nonce_store :=
  match message with
  | RrRequest request =>
      let '(resp, states, nonces) := handshake_request r1 r2 now_ms now request peer states nonces in
      (Some resp, states, nonces)
  | RrResponse response =>
      let '(states, nonces) := handshake_response now response peer states nonces in
      (None, states, nonces)
  end.

(** ** Properties *)

Definition message_data (m : rr_message) : list byte :=
  match m with RrRequest d | RrResponse d => d end.

(** a handshake message confirms a peer only when that peer sent it in an
    envelope that verifies, and then only that peer; otherwise no peer's state
    changes, and a request is answered with the empty handshake. *)
Theorem handshake_confirms_verified_peer r1 r2 now_ms now m peer states nonces :
  let '(reply, states', _) := handshake_message_event r1 r2 now_ms now m peer states nonces in
  (∀ p, p ≠ peer → states' !! p = states !! p) ∧
  ((∃ parts, (verify_signed_message now peer (message_data m) nonces).1 = Some parts ∧
      is_Some (root_as_handshake (payload parts)) ∧
      ∃ st, states' !! peer = Some st ∧ hs_confirmed st = true) ∨
   (states' = states ∧ (reply = None ∨ reply = Some error_handshake))).
Proof.
  assert (∀ p, p ≠ peer → confirm now peer states !! p = states !! p) as Hother
    by (intros; unfold confirm; by rewrite lookup_insert_ne).
  assert (∃ st, confirm now peer states !! peer = Some st ∧ hs_confirmed st = true) as Hpeer
    by (unfold confirm; rewrite lookup_insert_eq; eauto).
  destruct m as [data|data]; unfold handshake_message_event, handshake_request, handshake_response; simpl;
    destruct (verify_signed_message now peer data nonces) as [[parts|] nonces'] eqn:Ev; simpl;
    try (split; [done|right; by eauto]).
  all: destruct (root_as_handshake (payload parts)) eqn:Eh; simpl; [|split; [done|right; by eauto]].
  all: split; [done|left]; exists parts; rewrite Eh; eauto.
Qed.

End handshake.

(** Frames do not run into one another: a stream of messages, each below
    4 GiB, is read back message by message, whatever follows. *)
Lemma codec_stream_roundtrip ms k :
  Forall (λ m, Z.of_nat (length m) < 2 ^ 32) ms →
  codec_read_all (length ms) (concat (codec_write <$> ms) ++ k) = Ok (ms, k).
Proof.
  induction 1 as [|m ms Hm _ IH]; [done|]. cbn [length codec_read_all fmap list_fmap concat].
  unfold codec_read, codec_write at 1. rewrite <- app_assoc, read_block_put by done.
  cbn [result_bind]. by rewrite IH.
Qed.
