(* ===== verification/Control.v ===== *)
(** * Control messages ([control/mod.rs], [control/send_*.rs],
      [behaviour/kademlia_event.rs])

    What the REST handlers ask of the libp2p task: capacity queries, apply and
    delete requests, provider announcements with their renewal, and lookups of
    providers answered by Kademlia events. A reply channel is a number; what is
    sent, to channels or to peers, is a list of [output]s. *)

From S2P Require Import Prelude RustStr Utf8 Constants Serde Libp2p Concrete Provider Runtime.
From S2P Require Import ResourceVerifier NonceStore Envelope WorkloadIntegration DeleteMessage CapacityMessages.

Open Scope rust_scope.
Open Scope list_scope.

(** [from_millis], in nanoseconds. *)
Definition from_millis (ms : Z) : Z := ms * 1000000.

(** An active announcement. *)
Record AnnounceEntry := { entry_ttl_ms : Z; entry_next_due : Z }.

Section control.
Context `{PeerIds, !Kademlia, !Swarm, Serde, FlatBuffers, Crypto, Kem, Messages} {W : Type}.

(** ** Messages and outputs *)

Inductive Libp2pControl :=
| QueryCapacityWithPayload (request_id : string) (reply_tx : nat) (payload : list byte)
| SendApplyRequest (peer_id : PeerId) (manifest : list byte) (reply_tx : nat)
| SendDeleteRequest (peer_id : PeerId) (delete_request : list byte) (reply_tx : nat)
| FindManifestHolders (manifest_id : string) (reply_tx : nat)
| BootstrapDht (reply_tx : nat)
| AnnounceProvider (cid : string) (ttl_ms : Z) (reply_tx : nat)
| WithdrawProvider (cid : string) (reply_tx : nat)
| GetDhtPeers (reply_tx : nat)
| GetConnectedPeers (reply_tx : nat)
| GetLocalPeerId (reply_tx : nat).

(** The value sent on a reply channel, by the type of the channel. *)
Inductive reply :=
| RString (s : string)
| RStringResult (r : result string string)
| RUnitResult (r : result string ())
| RPeers (l : list PeerId)
| RPeer (p : PeerId)
| RJson (r : result string json).

Inductive rr_protocol := ApplyRr | DeleteRr | HandshakeRr | SchedulerRr.

Inductive output :=
| Reply (tx : nat) (r : reply)
| SendRequest (p : rr_protocol) (to : PeerId) (request : list byte)
| RespondBytes (p : rr_protocol) (to : PeerId) (response : list byte)
| RespondApply (to : PeerId) (response : ApplyResponse)
| RespondDelete (to : PeerId) (response : DeleteResponse)
| Publish (message : list byte)
| PeerList (peers : list string).

(** The [static]s of the module. *)
Record ControlState := {
  ACTIVE_ANNOUNCES : gmap string AnnounceEntry;
  ENQUEUED_CONTROLS : list Libp2pControl;
  PENDING_PROVIDERS_QUERIES : gmap string nat;
  PENDING_MANIFEST_REQUESTS : gmap nat (nat * Z);
}.

Definition set_announces a (c : ControlState) : ControlState :=
  {| ACTIVE_ANNOUNCES := a; ENQUEUED_CONTROLS := ENQUEUED_CONTROLS c;
     PENDING_PROVIDERS_QUERIES := PENDING_PROVIDERS_QUERIES c;
     PENDING_MANIFEST_REQUESTS := PENDING_MANIFEST_REQUESTS c |}.
Definition set_enqueued q (c : ControlState) : ControlState :=
  {| ACTIVE_ANNOUNCES := ACTIVE_ANNOUNCES c; ENQUEUED_CONTROLS := q;
     PENDING_PROVIDERS_QUERIES := PENDING_PROVIDERS_QUERIES c;
     PENDING_MANIFEST_REQUESTS := PENDING_MANIFEST_REQUESTS c |}.
Definition set_providers_queries q (c : ControlState) : ControlState :=
  {| ACTIVE_ANNOUNCES := ACTIVE_ANNOUNCES c; ENQUEUED_CONTROLS := ENQUEUED_CONTROLS c;
     PENDING_PROVIDERS_QUERIES := q; PENDING_MANIFEST_REQUESTS := PENDING_MANIFEST_REQUESTS c |}.
Definition set_manifest_requests q (c : ControlState) : ControlState :=
  {| ACTIVE_ANNOUNCES := ACTIVE_ANNOUNCES c; ENQUEUED_CONTROLS := ENQUEUED_CONTROLS c;
     PENDING_PROVIDERS_QUERIES := PENDING_PROVIDERS_QUERIES c; PENDING_MANIFEST_REQUESTS := q |}.

(** ** Announcements *)

(** The lifetime is ignored; a withdrawal calls this with 0. *)
Definition announce_provider_direct (cid : string) (ttl_ms : Z) (swarm : kad) :
    result string () * kad :=
  match connected_peers swarm with
  | [] => (Err "No connected peers for DHT announcement", swarm)
  | _ =>
      match start_providing cid swarm with
      | (Ok _, swarm) => (Ok (), swarm)
      | (Err e, swarm) => (Err ("kademlia start_providing failed: " +:+ store_error_debug e), swarm)
      end
  end.

(** At most [attempts] calls, until one succeeds. *)
Fixpoint announce_attempts (attempts : nat) (cid : string) (ttl_ms : Z) (swarm : kad) : bool * kad :=
  match attempts with
  | O => (false, swarm)
  | S attempts' =>
      match announce_provider_direct cid ttl_ms swarm with
      | (Ok _, swarm) => (true, swarm)
      | (Err _, swarm) => announce_attempts attempts' cid ttl_ms swarm
      end
  end.

Definition renewal_delay (ttl_ms : Z) : Z := from_millis (Z.max 2000 (ttl_ms / 3)).

Definition renew_entry (now : Z) (e : AnnounceEntry) : AnnounceEntry :=
  if decide (entry_ttl_ms e ≠ 0 ∧ entry_next_due e ≤ now)
  then {| entry_ttl_ms := entry_ttl_ms e; entry_next_due := now + renewal_delay (entry_ttl_ms e) |}
  else e.

(** The calls of a renewal: the entries that are due, failures ignored. *)
Fixpoint announce_due (now : Z) (l : list (string * AnnounceEntry)) (swarm : kad) : kad :=
  match l with
  | [] => swarm
  | (cid, e) :: l' =>
      if decide (entry_ttl_ms e ≠ 0 ∧ entry_next_due e ≤ now)
      then announce_due now l' (announce_provider_direct cid (entry_ttl_ms e) swarm).2
      else announce_due now l' swarm
  end.

Definition renew_due_providers (now : Z) (c : ControlState) (swarm : kad) : ControlState * kad :=
  (set_announces (renew_entry now <$> ACTIVE_ANNOUNCES c) c,
   announce_due now (map_to_list (ACTIVE_ANNOUNCES c)) swarm).

Fixpoint withdraw_each (cids : list string) (swarm : kad) : kad :=
  match cids with
  | [] => swarm
  | cid :: cids' => withdraw_each cids' (announce_provider_direct cid 0 swarm).2
  end.

Definition list_active_announces (c : ControlState) : list string :=
  (map_to_list (ACTIVE_ANNOUNCES c)).*1.

Definition withdraw_all_providers (c : ControlState) (swarm : kad) : ControlState * kad :=
  (set_announces ∅ c, withdraw_each (list_active_announces c) swarm).

(** ** Pending requests *)

Definition insert_pending_providers_query (id : QueryId) (sender : nat) (c : ControlState) :
    ControlState :=
  set_providers_queries (<[query_id_debug id := sender]> (PENDING_PROVIDERS_QUERIES c)) c.

Definition take_pending_providers_query (id : QueryId) (c : ControlState) :
    option nat * ControlState :=
  (PENDING_PROVIDERS_QUERIES c !! query_id_debug id,
   set_providers_queries (delete (query_id_debug id) (PENDING_PROVIDERS_QUERIES c)) c).

(** The progress of a Kademlia query, as far as [kademlia_event] looks at it. *)
Inductive kad_event :=
| FoundProviders (id : QueryId) (providers : list PeerId)
| GetProvidersError (id : QueryId)
| OtherKadEvent.

Definition kademlia_event (event : kad_event) (c : ControlState) : list output * ControlState :=
  let answer id providers :=
    let '(tx, c) := take_pending_providers_query id c in
    (match tx with Some tx => [Reply tx (RPeers providers)] | None => [] end, c) in
  match event with
  | FoundProviders id providers => answer id providers
  | GetProvidersError id => answer id []
  | OtherKadEvent => ([], c)
  end.

Definition timed_out (now : Z) (entry : nat * Z) : bool :=
  bool_decide (from_secs 5 < saturating_sub now entry.2).

Definition cleanup_timed_out_manifest_requests (now : Z) (c : ControlState) :
    list output * ControlState :=
  let late := filter (λ p, timed_out now p.2 = true) (PENDING_MANIFEST_REQUESTS c) in
  ((λ p, Reply p.2.1 (RUnitResult (Err "Request timeout"))) <$> map_to_list late,
   set_manifest_requests (filter (λ p, timed_out now p.2 = false) (PENDING_MANIFEST_REQUESTS c)) c).

(** The [ManifestFetchRr] failure branch of the event loop. *)
Definition manifest_fetch_failure (request_id : nat) (error : string) (c : ControlState) :
    list output * ControlState :=
  (match PENDING_MANIFEST_REQUESTS c !! request_id with
   | Some (tx, _) => [Reply tx (RUnitResult (Err ("Outbound failure: " +:+ error)))]
   | None => []
   end, set_manifest_requests (delete request_id (PENDING_MANIFEST_REQUESTS c)) c).

Definition enqueue_control (msg : Libp2pControl) (c : ControlState) : ControlState :=
  set_enqueued (ENQUEUED_CONTROLS c ++ [msg]) c.

(** ** The dispatch *)

(** What the task reads from its surroundings while it handles a message: the
    monotonic clock, the wall clock in milliseconds, random draws, the keys. *)
Record surroundings := {
  now : Z;
  now_ms : Z;
  draws : list Z;
  peer_draw : PeerId → Z;
  own_pubkey : list byte;
}.

Context (kem_keypair node_keys : result string (list byte * list byte)) (debug_assertions : bool).
Context (downcast_mock : RuntimeEngine W → option (Z → string → list byte → DeploymentConfig → string →
                                                   W → result RuntimeError WorkloadInfo * W)).
Context (scheduling_disabled : bool).
Implicit Types s : NodeState (W:=W).

(** A self-apply can panic in the decryption: [None]. An apply request that
    cannot be signed is sent as it is. *)
Definition handle_send_apply_request (e : surroundings) (peer_id : PeerId) (manifest : list byte)
    (reply_tx : nat) s : option (list output) * NodeState :=
  if decide (peer_id = local_peer_id (swarm_kad s)) then
    let '(r, s) := process_enhanced_self_apply_request kem_keypair debug_assertions downcast_mock
                     (now e) (own_pubkey e) manifest s in
    (match r with
     | None => None
     | Some _ => Some [Reply reply_tx (RStringResult (Ok
         ("Apply request handled locally for " +:+ peer_to_string peer_id)))]
     end, s)
  else
    let signed_apply_request :=
      match sign_payload_default node_keys (default 0 (head (draws e))) (now_ms e) manifest
              "apply_request" (Some "apply") with
      | Ok bytes => bytes
      | Err _ => manifest
      end in
    (Some [SendRequest ApplyRr peer_id signed_apply_request;
           Reply reply_tx (RStringResult (Ok ("Apply request sent to " +:+ peer_to_string peer_id)))], s).

Definition handle_send_delete_request (peer_id : PeerId) (delete_request : list byte)
    (reply_tx : nat) : list output :=
  [SendRequest DeleteRr peer_id delete_request;
   Reply reply_tx (RStringResult (Ok "Delete request sent"))].

(** The node as the libp2p task sees it. *)
Record Task := {
  task_node : NodeState (W:=W);
  task_control : ControlState;
  task_pending : gmap string (list nat);
}.

Definition with_node s (t : Task) : Task :=
  {| task_node := s; task_control := task_control t; task_pending := task_pending t |}.
Definition with_control c (t : Task) : Task :=
  {| task_node := task_node t; task_control := c; task_pending := task_pending t |}.
Definition with_pending q (t : Task) : Task :=
  {| task_node := task_node t; task_control := task_control t; task_pending := q |}.

Definition with_kad k s : NodeState :=
  {| RUNTIME_REGISTRY := RUNTIME_REGISTRY s; PROVIDER_MANAGER := PROVIDER_MANAGER s;
     RESOURCE_VERIFIER := RESOURCE_VERIFIER s; MANIFEST_OWNER_MAP := MANIFEST_OWNER_MAP s;
     NONCE_STORE := NONCE_STORE s; engine_world := engine_world s; swarm_kad := k |}.

Definition handle_announce_provider (e : surroundings) (cid : string) (ttl_ms : Z) (reply_tx : nat)
    (t : Task) : list output * Task :=
  let '(announce_success, k) := announce_attempts 3 cid ttl_ms (swarm_kad (task_node t)) in
  let t := with_node (with_kad k (task_node t)) t in
  if announce_success then
    let next := if decide (ttl_ms = 0) then now e + from_secs 3600
                else now e + renewal_delay ttl_ms in
    ([Reply reply_tx (RUnitResult (Ok ()))],
     with_control (set_announces
       (<[cid := {| entry_ttl_ms := ttl_ms; entry_next_due := next |}]>
          (ACTIVE_ANNOUNCES (task_control t))) (task_control t)) t)
  else ([Reply reply_tx (RUnitResult (Err "All provider announcement attempts failed"))], t).

Definition handle_withdraw_provider (cid : string) (reply_tx : nat) (t : Task) : list output * Task :=
  let t := with_control (set_announces (delete cid (ACTIVE_ANNOUNCES (task_control t)))
                           (task_control t)) t in
  let '(r, k) := announce_provider_direct cid 0 (swarm_kad (task_node t)) in
  ([Reply reply_tx (RUnitResult r)], with_node (with_kad k (task_node t)) t).

(** [serde_json::json!] of the peers. *)
Definition dht_info (k : kad) : json :=
  JObject [("connected_count", JNumber (pretty (length (connected_peers k))));
           ("connected_peers", JArray ((λ p, JString (peer_to_string p)) <$> connected_peers k));
           ("local_peer_id", JString (peer_to_string (local_peer_id k)))].

Definition handle_control_message (e : surroundings) (msg : Libp2pControl) (t : Task) :
    option (list output) * Task :=
  let s := task_node t in
  match msg with
  | QueryCapacityWithPayload request_id reply_tx payload =>
      let '(pending, sent, notified) :=
        handle_query_capacity_with_payload kem_keypair node_keys scheduling_disabled (now_ms e)
          (draws e) (local_peer_id (swarm_kad s)) (gossip_peers (swarm_kad s)) request_id reply_tx
          payload (task_pending t) in
      (Some (((λ p, SendRequest SchedulerRr p.1 p.2) <$> sent)
             ++ ((λ n, Reply n.1 (RString n.2)) <$> notified)), with_pending pending t)
  | SendApplyRequest peer_id manifest reply_tx =>
      let '(r, s) := handle_send_apply_request e peer_id manifest reply_tx s in (r, with_node s t)
  | SendDeleteRequest peer_id delete_request reply_tx =>
      (Some (handle_send_delete_request peer_id delete_request reply_tx), t)
  | FindManifestHolders manifest_id reply_tx =>
      let key := provider_key manifest_id in
      let query_id := get_providers_query key (swarm_kad s) in
      (Some [], with_control (insert_pending_providers_query query_id reply_tx (task_control t))
                  (with_node (with_kad (get_providers key (swarm_kad s)) s) t))
  | BootstrapDht reply_tx =>
      (Some [Reply reply_tx (RUnitResult (Ok ()))],
       with_node (with_kad (bootstrap (swarm_kad s)) s) t)
  | AnnounceProvider cid ttl_ms reply_tx =>
      let '(o, t) := handle_announce_provider e cid ttl_ms reply_tx t in (Some o, t)
  | GetDhtPeers reply_tx =>
      (Some [Reply reply_tx (RJson (Ok (dht_info (swarm_kad s))))], t)
  | WithdrawProvider cid reply_tx =>
      let '(o, t) := handle_withdraw_provider cid reply_tx t in (Some o, t)
  | GetConnectedPeers reply_tx => (Some [Reply reply_tx (RPeers (connected_peers (swarm_kad s)))], t)
  | GetLocalPeerId reply_tx => (Some [Reply reply_tx (RPeer (local_peer_id (swarm_kad s)))], t)
  end.

(** Messages in order; a panic ends the loop. *)
Fixpoint handle_controls (e : surroundings) (msgs : list Libp2pControl) (t : Task) :
    option (list output) * Task :=
  match msgs with
  | [] => (Some [], t)
  | msg :: msgs' =>
      match handle_control_message e msg t with
      | (None, t) => (None, t)
      | (Some o, t) => let '(r, t) := handle_controls e msgs' t in (app o <$> r, t)
      end
  end.

Definition drain_enqueued_controls (e : surroundings) (t : Task) : option (list output) * Task :=
  handle_controls e (ENQUEUED_CONTROLS (task_control t))
    (with_control (set_enqueued [] (task_control t)) t).

End control.

(** ** Properties *)

Section properties.
Context `{PeerIds, !Kademlia, !Swarm, Serde, FlatBuffers, Crypto, Kem, Messages} {W : Type}.
Context (kem_keypair node_keys : result string (list byte * list byte)) (debug_assertions : bool).
Context (downcast_mock : RuntimeEngine W → option (Z → string → list byte → DeploymentConfig → string →
                                                   W → result RuntimeError WorkloadInfo * W)).
Implicit Types (t : Task (W:=W)) (c : ControlState).

Lemma renewal_delay_pos ttl_ms : from_secs 2 ≤ renewal_delay ttl_ms.
Proof. unfold renewal_delay, from_millis, from_secs. lia. Qed.

(** A renewal keeps the set of announcements and their lifetimes,
    touches only the entries that are due, and leaves none due before two more
    seconds have passed (entries without a lifetime are never renewed). *)
Theorem renew_due_spec now c swarm cid :
  let c' := (renew_due_providers now c swarm).1 in
  match ACTIVE_ANNOUNCES c !! cid, ACTIVE_ANNOUNCES c' !! cid with
  | Some e, Some e' =>
      entry_ttl_ms e' = entry_ttl_ms e ∧ entry_next_due e ≤ Z.max now (entry_next_due e') ∧
      (entry_ttl_ms e = 0 ∨ now < entry_next_due e → e' = e) ∧
      (entry_ttl_ms e ≠ 0 → entry_next_due e ≤ now → now + from_secs 2 ≤ entry_next_due e')
  | None, None => True
  | _, _ => False
  end.
Proof.
  simpl. rewrite lookup_fmap. destruct (ACTIVE_ANNOUNCES c !! cid) as [e|]; simpl; [|done].
  pose proof (renewal_delay_pos (entry_ttl_ms e)). unfold renew_entry.
  case_decide; simpl; split_and!; try lia; done || (intros [?|?]; naive_solver lia).
Qed.

(** A lookup of the providers of a manifest is answered once: the
    first event about its query sends what was found to the channel of the
    request, and later events about the query are ignored. *)
Theorem provider_lookup_answered disabled e manifest_id tx t :
  let q := get_providers_query (provider_key manifest_id) (swarm_kad (task_node t)) in
  let t' := (handle_control_message kem_keypair node_keys debug_assertions downcast_mock disabled e
               (FindManifestHolders manifest_id tx) t).2 in
  (∀ l, (kademlia_event (FoundProviders q l) (task_control t')).1 = [Reply tx (RPeers l)]) ∧
  (kademlia_event (GetProvidersError q) (task_control t')).1 = [Reply tx (RPeers [])] ∧
  ∀ l l', (kademlia_event (FoundProviders q l')
             (kademlia_event (FoundProviders q l) (task_control t')).2).1 = [].
Proof.
  simpl. split_and!; intros.
  - by rewrite lookup_insert_eq.
  - by rewrite lookup_insert_eq.
  - by rewrite lookup_delete_eq.
Qed.

(** Withdrawing an announcement announces it again: the control
    message drops the local entry, but the call it makes on Kademlia is
    [start_providing], so a connected node goes on providing; the same holds of
    every entry at shutdown. *)
Theorem withdraw_keeps_providing disabled e cid tx t p peers :
  connected_peers (swarm_kad (task_node t)) = p :: peers →
  let t' := (handle_control_message kem_keypair node_keys debug_assertions downcast_mock disabled e
               (WithdrawProvider cid tx) t).2 in
  ACTIVE_ANNOUNCES (task_control t') !! cid = None ∧
  swarm_kad (task_node t') = (start_providing cid (swarm_kad (task_node t))).2.
Proof.
  intros Hc. simpl. unfold handle_withdraw_provider, announce_provider_direct. simpl. rewrite Hc.
  destruct (start_providing _ _) as [[]]; simpl; by rewrite lookup_delete_eq.
Qed.

(** A request that waits for a manifest is told about its timeout
    exactly when five seconds have passed, and is forgotten then. *)
Theorem cleanup_exact now c tx id ts :
  PENDING_MANIFEST_REQUESTS c !! id = Some (tx, ts) →
  let '(o, c') := cleanup_timed_out_manifest_requests now c in
  if decide (from_secs 5 < saturating_sub now ts)
  then Reply tx (RUnitResult (Err "Request timeout")) ∈ o ∧ PENDING_MANIFEST_REQUESTS c' !! id = None
  else PENDING_MANIFEST_REQUESTS c' !! id = Some (tx, ts).
Proof.
  intros Hid. simpl. case_decide as Hd.
  - split.
    + apply list_elem_of_fmap. exists (id, (tx, ts)). split; [done|].
      apply elem_of_map_to_list, map_lookup_filter_Some. split; [done|]. by apply bool_decide_eq_true_2.
    + apply map_lookup_filter_None. right. intros x Hx. simplify_eq/=. unfold timed_out.
      rewrite bool_decide_eq_true_2 by done. done.
  - apply map_lookup_filter_Some. split; [done|]. by apply bool_decide_eq_false_2.
Qed.

End properties.
