(* ===== verification/RestApi.v ===== *)
(** * The REST interface ([restapi/mod.rs])

    The routes of the node's HTTP server: tasks and their placement, direct
    applies, deletion, keys and debugging. A handler asks the libp2p task over
    the control channel and waits; what came back is an argument of type
    [asked]. A handler that panics gives [None] (the server drops the request
    and goes on). *)

From Stdlib Require Import Ascii.
From S2P Require Import Prelude RustStr Utf8 RustHash Constants Serde Libp2p Concrete Provider Runtime.
From S2P Require Import ResourceVerifier NonceStore Envelope RecipientBlob MockEngine WorkloadIntegration.
From S2P Require Import DeleteMessage Protocol CapacityMessages Control RestEnvelope.

Open Scope rust_scope.
Open Scope list_scope.

(** [PeerId::from_str] *)
Class PeerParse `{PeerIds} := { peer_parse : string → result string PeerId }.
Class PeerParseLaws `{PeerParse} : Prop := {
  peer_parse_string p : peer_parse (peer_to_string p) = Ok p;
}.

(** [serde_json::to_string] *)
Class JsonPrint := { json_to_string : json → option string }.

(** ** Text of debugging output *)

(** The [Debug] form of a string: quotes, backslashes and control characters
    are escaped. *)
Definition escape_debug_char (a : ascii) : string :=
  let n := Z.of_nat (nat_of_ascii a) in
  if decide (n = 34) then String "092" (String "034" "")
  else if decide (n = 92) then String "092" (String "092" "")
  else if decide (n = 0) then String "092" "0"
  else if decide (n = 9) then String "092" "t"
  else if decide (n = 10) then String "092" "n"
  else if decide (n = 13) then String "092" "r"
  else if decide (n < 32 ∨ n = 127) then String "092" ("u{" +:+ lower_hex n +:+ "}")
  else String a "".

Fixpoint escape_debug (s : string) : string :=
  match s with
  | EmptyString => ""
  | String a s' => escape_debug_char a +:+ escape_debug s'
  end.

Definition debug_str (s : string) : string :=
  String "034" "" +:+ escape_debug s +:+ String "034" "".

(** [format!("{:?}", v)] on a vector of strings. *)
Definition debug_strings (l : list string) : string :=
  "[" +:+ str_join ", " (debug_str <$> l) +:+ "]".

Definition debug_status (s : WorkloadStatus) : string :=
  match s with
  | Starting => "Starting"
  | Running => "Running"
  | Stopped => "Stopped"
  | Failed m => "Failed(" +:+ debug_str m +:+ ")"
  | Unknown => "Unknown"
  end.

(** ** State *)

Record TaskRecord := {
  manifest_bytes : list byte;
  created_at : Z;
  shares_distributed : gmap string bool;
  manifests_distributed : gmap string string;
  assigned_peers : option (list string);
  manifest_cid : option string;
  last_operation_id : option string;
  owner_pubkey : list byte;
}.

(** [RestState] with the [static]s of the module. *)
Record RestState := {
  peer_rx : list string;
  task_store : gmap string TaskRecord;
  envelope_handler : EnvelopeHandler;
  DECRYPTED_MANIFESTS : gmap string json;
  OPERATION_MANIFEST_MAPPING : gmap string string;
}.

Definition set_tasks t (r : RestState) : RestState :=
  {| peer_rx := peer_rx r; task_store := t; envelope_handler := envelope_handler r;
     DECRYPTED_MANIFESTS := DECRYPTED_MANIFESTS r;
     OPERATION_MANIFEST_MAPPING := OPERATION_MANIFEST_MAPPING r |}.
Definition set_decrypted d (r : RestState) : RestState :=
  {| peer_rx := peer_rx r; task_store := task_store r; envelope_handler := envelope_handler r;
     DECRYPTED_MANIFESTS := d; OPERATION_MANIFEST_MAPPING := OPERATION_MANIFEST_MAPPING r |}.
Definition set_mapping m (r : RestState) : RestState :=
  {| peer_rx := peer_rx r; task_store := task_store r; envelope_handler := envelope_handler r;
     DECRYPTED_MANIFESTS := DECRYPTED_MANIFESTS r; OPERATION_MANIFEST_MAPPING := m |}.

Definition store_decrypted_manifest (manifest_id : string) (value : json) (r : RestState) : RestState :=
  set_decrypted (<[manifest_id := value]> (DECRYPTED_MANIFESTS r)) r.

Definition store_operation_manifest_mapping (operation_id manifest_cid : string) (r : RestState) :
    RestState :=
  set_mapping (<[operation_id := manifest_cid]> (OPERATION_MANIFEST_MAPPING r)) r.

Definition get_manifest_cid_for_operation (operation_id : string) (r : RestState) : option string :=
  OPERATION_MANIFEST_MAPPING r !! operation_id.

Definition get_decrypted_manifests_map (r : RestState) : json :=
  JObject (map_to_list (DECRYPTED_MANIFESTS r)).

(** The outcome of a request sent on the control channel: it could not be
    sent, or what the wait for its reply gave. *)
Inductive asked (A : Type) :=
| NotSent (error : string)
| Received (a : A)
| ChannelClosed
| TimedOut.
Arguments NotSent {_} _.
Arguments Received {_} _.
Arguments ChannelClosed {_}.
Arguments TimedOut {_}.

(** The message, when it reached the channel. *)
Definition if_sent {A M} (a : asked A) (msg : M) : list M :=
  match a with NotSent _ => [] | _ => [msg] end.

(** ** Routes *)

Inductive method := GET | POST | DELETE_METHOD.

Inductive endpoint :=
| EpHealth | EpKemPubkey | EpSigningPubkey | EpDecryptedManifests | EpActiveAnnounces | EpDhtPeers
| EpPeers | EpAllTasks | EpWorkloadsByPeer (peer_id : string) | EpLocalPeerId
| EpTaskManifestId (task_id : string) | EpCreateTask | EpTaskStatus (task_id : string)
| EpDeleteTask (task_id : string) | EpCandidates (task_id : string) | EpApplyDirect (peer_id : string)
| EpNodes.

(** [build_router], on the decoded segments of the path. *)
Definition route (m : method) (path : list string) : option endpoint :=
  match m, path with
  | GET, ["health"] => Some EpHealth
  | GET, ["api"; "v1"; "kem_pubkey"] => Some EpKemPubkey
  | GET, ["api"; "v1"; "signing_pubkey"] => Some EpSigningPubkey
  | GET, ["debug"; "decrypted_manifests"] => Some EpDecryptedManifests
  | GET, ["debug"; "dht"; "active_announces"] => Some EpActiveAnnounces
  | GET, ["debug"; "dht"; "peers"] => Some EpDhtPeers
  | GET, ["debug"; "peers"] => Some EpPeers
  | GET, ["debug"; "tasks"] => Some EpAllTasks
  | GET, ["debug"; "workloads_by_peer"; peer_id] => Some (EpWorkloadsByPeer peer_id)
  | GET, ["debug"; "local_peer_id"] => Some EpLocalPeerId
  | GET, ["tasks"; task_id; "manifest_id"] => Some (EpTaskManifestId task_id)
  | POST, ["tasks"] => Some EpCreateTask
  | GET, ["tasks"; task_id] => Some (EpTaskStatus task_id)
  | DELETE_METHOD, ["tasks"; task_id] => Some (EpDeleteTask task_id)
  | POST, ["tasks"; task_id; "candidates"] => Some (EpCandidates task_id)
  | POST, ["apply_direct"; peer_id] => Some (EpApplyDirect peer_id)
  | GET, ["nodes"] => Some EpNodes
  | _, _ => None
  end.

Definition build_router (peers : list string) (handler : EnvelopeHandler)
    (decrypted : gmap string json) (mapping : gmap string string) : RestState :=
  {| peer_rx := peers; task_store := ∅; envelope_handler := handler;
     DECRYPTED_MANIFESTS := decrypted; OPERATION_MANIFEST_MAPPING := mapping |}.

(** ** Collecting candidates *)

(** One turn of the loop of [get_candidates]: the time since its start when the
    loop condition is tested, and what the bounded wait gave. *)
Record turn := { elapsed : Z; received : asked string }.

Inductive collecting :=
| Continue (responders : list string)
| Stop (responders : list string)
| Panic.

(** [log_info]: the message that slices the reply is only formatted when the
    level is enabled. *)
Definition collect_turn (log_info : bool) (responders : list string) (t : turn) : collecting :=
  if decide (elapsed t < from_millis FREE_CAPACITY_TIMEOUT_MS) then
    match received t with
    | Received peer =>
        match (if log_info then slice_to 16 peer else Some "") with
        | None => Panic
        | Some _ =>
            if decide (peer ∈ responders) then Continue responders
            else
              let responders := responders ++ [peer] in
              if decide (5 ≤ length responders)%nat then Stop responders else Continue responders
        end
    | ChannelClosed | TimedOut | NotSent _ => Stop responders
    end
  else Stop responders.

(** The turns from the [i]-th on; the result is [Continue] only when the fuel
    runs out. *)
Fixpoint collect_responders (fuel : nat) (log_info : bool) (turns : nat → turn) (i : nat)
    (responders : list string) : collecting :=
  match fuel with
  | O => Continue responders
  | S fuel' =>
      match collect_turn log_info responders (turns i) with
      | Continue responders => collect_responders fuel' log_info turns (S i) responders
      | r => r
      end
  end.

(** A reply [peer:key]; without a colon or a key it is skipped. *)
Definition parse_candidate (peer_with_key : string) : option (string * string) :=
  match split_once ":" peer_with_key with
  | Some (peer_id_str, pubkey_b64) =>
      if decide (pubkey_b64 = "") then None else Some (peer_id_str, pubkey_b64)
  | None => None
  end.

Definition parse_candidates (responders : list string) : list (string * string) :=
  omap parse_candidate responders.

Section handlers.
Context `{PeerIds, !Kademlia, !PeerParse, Serde, JsonPrint, FlatBuffers, Crypto, Kem, KemPublic, Messages, Tables, FloatDisplay}
  {W : Type}.
Implicit Types (s : NodeState (W:=W)) (r : RestState) (d : response_draws) (meta : EnvelopeMetadata).

(** ** Keys and nodes *)

Definition get_nodes r : Response := create_response_with_fallback (build_nodes_response (peer_rx r)).

(** [kem_keypair] is what [ensure_kem_keypair_on_disk] returns. *)
Definition get_kem_public_key (kem_keypair : result string (list byte * list byte)) : string :=
  match kem_keypair with
  | Ok (kem_pub_bytes, _) => base64_encode kem_pub_bytes
  | Err e => "ERROR: Failed to get KEM public key: " +:+ e
  end.

Definition get_signing_public_key (node_keys : result string (list byte * list byte)) : string :=
  match node_keys with
  | Ok (signing_pub_bytes, _) => base64_encode signing_pub_bytes
  | Err e => "ERROR: Failed to get signing public key: " +:+ e
  end.

(** ** Candidates *)

Definition candidates_query (task_id uuid : string) (tx : nat) : Libp2pControl :=
  QueryCapacityWithPayload (FREE_CAPACITY_PREFIX +:+ ":" +:+ task_id +:+ ":" +:+ uuid) tx
    (build_capacity_request 500 (512 * 1024 * 1024) (10 * 1024 * 1024 * 1024) 1).

(** Once the loop has stopped with these responders. *)
Definition candidates_response d r meta (responders : list string) : Response :=
  create_response_for_envelope_metadata d (envelope_handler r)
    (build_candidates_response_with_keys true (parse_candidates responders)) "candidates_response" meta.

(** [get_candidates]: what is sent, and the response after [fuel] turns of the
    loop; [None] for a panic or a loop that is not over. *)
Definition get_candidates (fuel : nat) (log_info : bool) (turns : nat → turn) (uuid : string) (tx : nat) d
    (task_id : string) r meta : Libp2pControl * option Response :=
  (candidates_query task_id uuid tx,
   match collect_responders fuel log_info turns 0 [] with
   | Stop responders => Some (candidates_response d r meta responders)
   | Continue _ | Panic => None
   end).

(** ** Tasks *)

(** What [create_task] draws and reads: an operation identifier, the nonce of
    the stored envelope, the wall clock. *)
Record task_draws := { op_uuid : string; envelope_nonce : list byte; task_now : Z }.

(** The name of the manifest, or its content. *)
Definition content_hash (body : list byte) : Z :=
  default_hash (match extract_manifest_name body with
                | Some name => hash_str name
                | None => hash_bytes body
                end).

(** The identifiers of manifest and operation; the slice of the hash can
    panic. *)
Definition task_ids (td : task_draws) (params : gmap string string) (body : list byte) :
    option (string * string) :=
  match params !! "manifest_id" with
  | Some id => Some (id, default (op_uuid td) (params !! "operation_id"))
  | None =>
      match params !! "operation_id" with
      | Some operation_id => (λ manifest_id, (manifest_id, operation_id)) <$> hash_id (content_hash body)
      | None => (λ manifest_id, (manifest_id, op_uuid td)) <$> hash_id (content_hash body)
      end
  end.

(** An encrypted payload is stored inside an envelope. *)
Definition manifest_bytes_to_store (td : task_draws) (body : list byte) : list byte :=
  match body with
  | x02 :: _ =>
      build_envelope_canonical body "manifest" (base64_encode (envelope_nonce td))
        (task_now td / 1000000) "ml-kem-512" None
  | _ => body
  end.

Definition new_task (td : task_draws) meta (body : list byte) (manifest_id operation_id : string) :
    TaskRecord :=
  {| manifest_bytes := manifest_bytes_to_store td body; created_at := task_now td;
     shares_distributed := ∅; manifests_distributed := ∅; assigned_peers := None;
     manifest_cid := Some manifest_id; last_operation_id := Some operation_id;
     owner_pubkey := signing_pubkey meta |}.

Definition create_task (td : task_draws) d (params : gmap string string) meta (body : list byte) r s :
    option Response * RestState * NodeState :=
  match task_ids td params body with
  | None => (None, r, s)
  | Some (manifest_id, operation_id) =>
      let task_id := manifest_id in
      let r := store_operation_manifest_mapping operation_id manifest_id r in
      let r := set_tasks (<[task_id := new_task td meta body manifest_id operation_id]> (task_store r)) r in
      let s := match signing_pubkey meta with
               | [] => s
               | owner => record_manifest_owner manifest_id owner s
               end in
      (Some (create_response_for_envelope_metadata d (envelope_handler r)
               (build_task_create_response true task_id manifest_id FREE_CAPACITY_TIMEOUT_MS)
               "task_create_response" meta), r, s)
  end.

Definition status_error : Response :=
  create_response_with_fallback (build_task_status_response "" "Error" [] [] None).

Definition get_task_manifest_id (task_id : string) r : Response :=
  match task_store r !! task_id with
  | None => status_error
  | Some task =>
      match last_operation_id task with
      | None => status_error
      | Some operation_id =>
          let found :=
            match get_manifest_cid_for_operation operation_id r with
            | Some cid => Some cid
            | None => manifest_cid task
            end in
          match found with
          | Some manifest_id =>
              create_response_with_fallback (as_bytes (default ""
                (json_to_string (JObject [("manifest_id", JString manifest_id); ("ok", JBool true)]))))
          | None => status_error
          end
      end
  end.

Definition get_task_status (task_id : string) r : Response :=
  match task_store r !! task_id with
  | Some task =>
      let distributed :=
        (map_to_list (filter (λ p, p.2 = true) (shares_distributed task))).*1 in
      create_response_with_fallback
        (build_task_status_response task_id "Pending" (default [] (assigned_peers task)) distributed
           (manifest_cid task))
  | None => status_error
  end.

(** ** Debugging

    The order of the fields of an object is not modelled. *)

Definition json_ok (fields : list (string * json)) : json := JObject (("ok", JBool true) :: fields).
Definition json_failed (error : string) : json :=
  JObject [("error", JString error); ("ok", JBool false)].

Definition json_opt_str (o : option string) : json :=
  match o with Some t => JString t | None => JNull end.

(** Seconds since the epoch; a time before it counts as the epoch. *)
Definition json_secs (ns : Z) : json := JNumber (pretty (Z.max 0 ns / 1000000000)).

Definition json_port (p : PortMapping) : json :=
  JObject [("container_port", JNumber (pretty (container_port p)));
           ("host_port", match host_port p with Some h => JNumber (pretty h) | None => JNull end);
           ("protocol", JString (port_protocol p))].

Definition debug_decrypted_manifests r : json :=
  json_ok [("decrypted_manifests", get_decrypted_manifests_map r)].

Definition debug_active_announces (c : ControlState) : json :=
  json_ok [("cids", JArray (JString <$> list_active_announces c))].

Definition debug_local_peer_id (answer : asked PeerId) : json :=
  match answer with
  | NotSent _ => json_failed "Failed to send control message"
  | Received peer_id => json_ok [("local_peer_id", JString (peer_to_string peer_id))]
  | ChannelClosed => json_failed "Control channel closed"
  | TimedOut => json_failed "Timeout waiting for local peer ID"
  end.

Definition debug_dht_peers (answer : asked (result string json)) : json :=
  match answer with
  | NotSent e => json_failed ("Failed to send DHT peers request: " +:+ e)
  | Received (Ok peer_info) => json_ok [("dht_peers", peer_info)]
  | Received (Err e) => json_failed ("DHT peers query failed: " +:+ e)
  | ChannelClosed => json_failed "DHT peers channel closed"
  | TimedOut => json_failed "DHT peers request timed out"
  end.

Definition debug_peers r : json :=
  json_ok [("count", JNumber (pretty (length (peer_rx r)))); ("peers", JArray (JString <$> peer_rx r))].

Definition debug_task (t : TaskRecord) : json :=
  JObject [("assigned_peers", match assigned_peers t with
                              | Some l => JArray (JString <$> l) | None => JNull end);
           ("created_at", json_secs (created_at t));
           ("manifest_bytes_len", JNumber (pretty (length (manifest_bytes t))));
           ("manifest_cid", json_opt_str (manifest_cid t));
           ("shares_distributed_count", JNumber (pretty (size (shares_distributed t))))].

Definition debug_all_tasks r : json :=
  json_ok [("tasks", JObject (prod_map id debug_task <$> map_to_list (task_store r)))].

(** The mock engine behind an engine of the registry: its workloads. *)
Context (debug_assertions : bool) (downcast_mock_view : RuntimeEngine W → option (W → gmap string MockWorkload)).

Definition debug_workload (w : gmap string MockWorkload) (m : MockWorkload) : string * json :=
  let i := mw_info m in
  let exported_manifest :=
    match mock_export_manifest (info_id i) w with
    | Ok manifest_bytes => from_utf8 manifest_bytes
    | Err _ => None
    end in
  (info_id i,
   JObject [("created_at", json_secs (info_created_at i));
            ("exported_manifest", json_opt_str exported_manifest);
            ("manifest_id", JString (info_manifest_id i));
            ("metadata", JObject (prod_map id JString <$> map_to_list (info_metadata i)));
            ("ports", JArray (json_port <$> info_ports i));
            ("status", JString (debug_status (info_status i)));
            ("updated_at", json_secs (info_updated_at i))]).

Definition mock_workloads s : option (gmap string MockWorkload) :=
  if debug_assertions then
    registry ← RUNTIME_REGISTRY s;
    engine ← get_engine registry "mock";
    view ← downcast_mock_view engine;
    Some (view (engine_world s))
  else None.

Definition debug_workloads_by_peer (peer_id : string) s : json :=
  match mock_workloads s with
  | Some w =>
      let peer_workloads := get_workloads_by_peer peer_id w in
      json_ok [("peer_id", JString peer_id);
               ("workload_count", JNumber (pretty (length peer_workloads)));
               ("workloads", JObject (debug_workload w <$> peer_workloads))]
  | None =>
      JObject [("error", JString "MockEngine not available"); ("ok", JBool false);
               ("peer_id", JString peer_id); ("workload_count", JNumber "0"); ("workloads", JObject [])]
  end.

(** ** Deletion *)

(** [find_manifest_providers]: nothing that goes wrong is an error. *)
Definition find_manifest_providers (answer : asked (list PeerId)) : result string (list string) :=
  match answer with
  | Received providers => Ok (peer_to_string <$> providers)
  | NotSent _ | ChannelClosed | TimedOut => Ok []
  end.

Definition handle_local_delete (now : Z) (manifest_id : string) (force : bool) s :
    result string (list string) * NodeState :=
  let '(r, s) := remove_workloads_by_manifest_id now manifest_id s in
  (map_err (λ e, "local deletion failed: " +:+ e) r, s).

(** The message to the libp2p task, if the peer parses, and what comes of it. *)
Definition send_delete_request_to_peer (peer_id : string) (delete_request : list byte) (tx : nat)
    (answer : asked (result string string)) : list Libp2pControl * result string string :=
  match peer_parse peer_id with
  | Err e => ([], Err ("Invalid peer ID '" +:+ peer_id +:+ "': " +:+ e))
  | Ok target_peer_id =>
      (if_sent answer (SendDeleteRequest target_peer_id delete_request tx),
       match answer with
       | NotSent e => Err ("Failed to send delete request to libp2p control: " +:+ e)
       | Received res => res
       | ChannelClosed => Err "Reply channel closed"
       | TimedOut => Err "Request timed out"
       end)
  end.

(** The lists the loop over the providers fills, and what it sent. *)
Record delete_progress := {
  successful_deletes : list string;
  failed_deletes : list string;
  removed_workloads : list string;
  sent : list Libp2pControl;
}.

Definition delete_nothing : delete_progress :=
  {| successful_deletes := []; failed_deletes := []; removed_workloads := []; sent := [] |}.

Definition delete_failure (m : string) (p : delete_progress) : delete_progress :=
  {| successful_deletes := successful_deletes p; failed_deletes := failed_deletes p ++ [m];
     removed_workloads := removed_workloads p; sent := sent p |}.

Definition delete_success (peer : string) (removed : list string) (p : delete_progress) :
    delete_progress :=
  {| successful_deletes := successful_deletes p ++ [peer]; failed_deletes := failed_deletes p;
     removed_workloads := removed_workloads p ++ removed; sent := sent p |}.

Definition delete_sent (msgs : list Libp2pControl) (p : delete_progress) : delete_progress :=
  {| successful_deletes := successful_deletes p; failed_deletes := failed_deletes p;
     removed_workloads := removed_workloads p; sent := sent p ++ msgs |}.

(** What the other side of the waits of [delete_task] does: the provider lookup,
    the local peer, and the answer about each remote provider. *)
Record delete_answers := {
  holders : asked (list PeerId);
  local_peer : asked PeerId;
  peer_answer : string → asked (result string string);
}.

(** One provider. *)
Definition delete_on_provider (now : Z) (a : delete_answers) (local_peer_id : PeerId)
    (task_id : string) (force : bool) (delete_request : list byte) (tx : nat) (provider : string)
    (p : delete_progress) s : delete_progress * NodeState :=
  match peer_parse provider with
  | Err _ => (delete_failure (provider +:+ ":invalid_peer_id") p, s)
  | Ok provider_peer_id =>
      if decide (provider_peer_id = local_peer_id) then
        let '(res, s) := handle_local_delete now task_id force s in
        (match res with
         | Ok removed => delete_success provider removed p
         | Err e => delete_failure (provider +:+ ":self_delete_failed:" +:+ e) p
         end, s)
      else
        let '(msgs, res) := send_delete_request_to_peer provider delete_request tx (peer_answer a provider) in
        let p := delete_sent msgs p in
        (match res with
         | Ok _ => delete_success provider [] p
         | Err e => delete_failure (provider +:+ ":" +:+ e) p
         end, s)
  end.

(** The loop; [clock] is read once per provider. *)
Fixpoint delete_on_providers (clock : nat → Z) (a : delete_answers) (local_peer_id : PeerId)
    (task_id : string) (force : bool) (delete_request : list byte) (tx : nat) (providers : list string)
    (p : delete_progress) s : delete_progress * NodeState :=
  match providers with
  | [] => (p, s)
  | provider :: providers' =>
      let '(p, s) := delete_on_provider (clock tx) a local_peer_id task_id force delete_request tx
                       provider p s in
      delete_on_providers clock a local_peer_id task_id force delete_request (S tx) providers' p s
  end.

Definition delete_verdict (p : delete_progress) : bool * string :=
  let success := negb (bool_decide (successful_deletes p = [])) in
  (success,
   if success then
     if decide (failed_deletes p = []) then
       "Delete requests sent to " +:+ pretty (length (successful_deletes p)) +:+ " providers"
     else
       "Delete requests sent to " +:+ pretty (length (successful_deletes p)) +:+ "/" +:+
       pretty (length (successful_deletes p) + length (failed_deletes p))%nat +:+
       " providers. Failures: " +:+ debug_strings (failed_deletes p)
   else "Failed to send delete requests to any providers: " +:+ debug_strings (failed_deletes p)).

Definition force_requested (body : list byte) : bool := str_contains "force=true" (from_utf8_lossy body).

(** [delete_task]: the table answered to the client, what was sent to the
    libp2p task, and the node. [tx] is the first free channel. *)
Definition delete_task_outcome (now_ms : Z) (clock : nat → Z) (a : delete_answers) (tx : nat)
    (task_id : string) meta (body : list byte) s : list byte * list Libp2pControl * NodeState :=
  let operation_id := "delete-" +:+ task_id +:+ "-" +:+ pretty now_ms in
  let origin_peer := default "unknown" (meta_peer_id meta) in
  let force := force_requested body in
  let find := if_sent (holders a) (FindManifestHolders task_id tx) in
  let answer ok message removed := build_delete_response ok operation_id message task_id removed in
  match find_manifest_providers (holders a) with
  | Err e => (answer false ("Failed to discover providers: " +:+ e) [], find, s)
  | Ok [] => (answer true "No providers found for task" [], find, s)
  | Ok providers =>
      let delete_request := build_delete_request task_id operation_id origin_peer force in
      let asked_local := GetLocalPeerId (S tx) in
      match local_peer a with
      | NotSent e => (answer false ("Failed to get local peer ID: " +:+ e) [], find, s)
      | ChannelClosed | TimedOut =>
          (answer false "Timeout getting local peer ID" [], find ++ [asked_local], s)
      | Received local_peer_id =>
          let '(p, s) := delete_on_providers clock a local_peer_id task_id force delete_request
                           (S (S tx)) providers delete_nothing s in
          let '(success, message) := delete_verdict p in
          (answer success message (removed_workloads p), find ++ [asked_local] ++ sent p, s)
      end
  end.

Definition delete_task d (now_ms : Z) (clock : nat → Z) (a : delete_answers) (tx : nat)
    (task_id : string) meta (body : list byte) r s : Response * list Libp2pControl * NodeState :=
  let '(table, msgs, s) := delete_task_outcome now_ms clock a tx task_id meta body s in
  (create_response_for_envelope_metadata d (envelope_handler r) table "delete_response" meta, msgs, s).

(** ** Direct application *)

(** The message to the libp2p task and the response. *)
Definition apply_direct (peer_id : string) (body : list byte) (tx : nat)
    (answer : asked (result string string)) : list Libp2pControl * Response :=
  match peer_parse peer_id with
  | Err e =>
      ([], create_response_with_fallback
               (apply_response_bytes false "unknown" ("Invalid peer ID: " +:+ e)))
  | Ok target_peer_id =>
      (if_sent answer (SendApplyRequest target_peer_id body tx),
       create_response_with_fallback
         match answer with
         | NotSent _ => apply_response_bytes false "unknown" "Failed to forward request to libp2p"
         | Received (Ok _) =>
             apply_response_bytes true "forwarded" "Request forwarded successfully"
         | Received (Err e) => apply_response_bytes false "forwarded" ("Forward failed: " +:+ e)
         | ChannelClosed | TimedOut =>
             apply_response_bytes false "forwarded" "Timeout waiting for peer response"
         end)
  end.

End handlers.

(** ** Lemmas on the collection of candidates *)

Section collecting.
Context (log_info : bool) (turns : nat → turn).
Implicit Types responders : list string.

Definition in_time (t : turn) : Prop := elapsed t < from_millis FREE_CAPACITY_TIMEOUT_MS.

Lemma collect_turn_continue responders t responders' :
  collect_turn log_info responders t = Continue responders' →
  in_time t ∧ ∃ p, received t = Received p ∧
    ((p ∈ responders ∧ responders' = responders) ∨
     ((p ∉ responders) ∧ responders' = responders ++ [p] ∧ (length responders' < 5)%nat)).
Proof.
  unfold collect_turn. case_decide; [|done]. destruct (received t) as [|p| |]; try done.
  destruct (if log_info then _ else _); [|done]. intros Hc. split; [done|]. exists p. split; [done|].
  case_decide; [left; naive_solver|]. case_decide; [done|]. simplify_eq. right. split_and!; try done. lia.
Qed.

Lemma collect_turn_stop responders t responders' :
  collect_turn log_info responders t = Stop responders' →
  (responders' = responders ∧ (in_time t → ∀ p, received t ≠ Received p)) ∨
  (in_time t ∧ ∃ p, received t = Received p ∧ (p ∉ responders) ∧ responders' = responders ++ [p] ∧
     (5 ≤ length responders')%nat).
Proof.
  unfold collect_turn. case_decide; [|intros [= <-]; by left].
  destruct (received t) as [|p| |]; try (intros [= <-]; left; done).
  destruct (if log_info then _ else _); [|done]. case_decide; [done|]. case_decide; [|done].
  intros [= <-]. right. split; [done|]. by exists p.
Qed.

(** What the responders are after the first [n] turns. *)
Definition collected (n : nat) responders : Prop :=
  NoDup responders ∧
  (∀ p, p ∈ responders ↔ ∃ i, (i < n)%nat ∧ received (turns i) = Received p) ∧
  ∀ i, (i < n)%nat → in_time (turns i).

Lemma collected_nothing : collected 0 [].
Proof. split_and!; [constructor| |lia]. intros p. split; [by intros ?%elem_of_nil|intros (i & ? & _); lia]. Qed.

Lemma collected_again n responders p :
  collected n responders → in_time (turns n) → received (turns n) = Received p → p ∈ responders →
  collected (S n) responders.
Proof.
  intros (Hd & Hin & Ht) Hn Hp Hm. split_and!; [done| |].
  - intros q. rewrite Hin. split; [intros (i & ? & ?); exists i; split; [lia|done]|].
    intros (i & Hi & Hq). destruct (decide (i = n)) as [->|]; [|exists i; split; [lia|done]].
    assert (q = p) as -> by congruence. by apply Hin.
  - intros i Hi. destruct (decide (i = n)) as [->|]; [done|apply Ht; lia].
Qed.

Lemma collected_new n responders p :
  collected n responders → in_time (turns n) → received (turns n) = Received p → p ∉ responders →
  collected (S n) (responders ++ [p]).
Proof.
  intros (Hd & Hin & Ht) Hn Hp Hm. split_and!.
  - apply NoDup_app. split_and!; [done|set_solver|apply NoDup_singleton].
  - intros q. rewrite elem_of_app, list_elem_of_singleton, Hin. split.
    + intros [(i & ? & ?)| ->]; [exists i; split; [lia|done]|exists n; split; [lia|done]].
    + intros (i & Hi & Hq). destruct (decide (i = n)) as [->|]; [right; congruence|left].
      exists i. split; [lia|done].
  - intros i Hi. destruct (decide (i = n)) as [->|]; [done|apply Ht; lia].
Qed.

Lemma collect_stops fuel n responders responders' :
  collected n responders → (length responders < 5)%nat →
  collect_responders fuel log_info turns n responders = Stop responders' →
  ∃ m, collected m responders' ∧ (length responders' ≤ 5)%nat ∧
    ((length responders' = 5)%nat ∨ (in_time (turns m) → ∀ p, received (turns m) ≠ Received p)).
Proof.
  revert n responders. induction fuel as [|fuel IH]; intros n responders Hc Hl; simpl; [done|].
  destruct (collect_turn _ _ _) as [l|l|] eqn:Et; [|intros [= <-]|done].
  - apply collect_turn_continue in Et as (Ht & p & Hp & [[Hm ->]|(Hm & -> & Hlen)]); apply IH; try done.
    + by eapply collected_again.
    + by apply collected_new.
  - apply collect_turn_stop in Et as [[-> Hs]|(Ht & p & Hp & Hm & -> & Hlen)].
    + exists n. split_and!; [done|lia|by right].
    + exists (S n). split; [by apply collected_new|]. rewrite length_app in *. simpl in *. lia.
Qed.

(** Time passes: after as many turns as there are nanoseconds left, it is over. *)
Lemma collect_ends fuel n responders :
  (∀ i, elapsed (turns i) < elapsed (turns (S i))) →
  Z.max 0 (from_millis FREE_CAPACITY_TIMEOUT_MS - elapsed (turns n)) < Z.of_nat fuel →
  ∃ outcome, (∀ l, outcome ≠ Continue l) ∧
    ∀ fuel', (fuel ≤ fuel')%nat → collect_responders fuel' log_info turns n responders = outcome.
Proof.
  intros Hclock. revert n responders. induction fuel as [|fuel IH]; intros n responders Hf; [lia|].
  destruct (collect_turn log_info responders (turns n)) as [l|l|] eqn:Et; cycle 1.
  { exists (Stop l). split; [done|]. intros [|fuel'] ?; [lia|]. simpl. by rewrite Et. }
  { exists Panic. split; [done|]. intros [|fuel'] ?; [lia|]. simpl. by rewrite Et. }
  pose proof (collect_turn_continue _ _ _ Et) as [Ht _]. unfold in_time in Ht.
  specialize (Hclock n) as Hn. destruct (IH (S n) l) as (o & Ho & Hrun); [lia|].
  exists o. split; [done|]. intros [|fuel'] ?; [lia|]. simpl. rewrite Et. apply Hrun. lia.
Qed.

End collecting.

Lemma split_once_app c p q :
  c ∉ String.list_ascii_of_string p →
  split_once (String c "") (p +:+ String c q) = Some (p, q).
Proof.
  intros Hp. induction p as [|a p IH].
  { change ("" +:+ ?t) with t. cbn [split_once strip_prefix]. by rewrite decide_True. }
  simpl in Hp.
  change (String a p +:+ ?t) with (String a (p +:+ t)).
  cbn [split_once strip_prefix]. rewrite decide_False by set_solver. rewrite IH; [done|set_solver].
Qed.

Definition no_colon_in (s : string) : Prop := (":"%char : ascii) ∉ String.list_ascii_of_string s.

(** The first part holds no separator. *)
Lemma split_once_first s l r : split_once ":" s = Some (l, r) → no_colon_in l.
Proof.
  unfold no_colon_in. revert l. induction s as [|a s IH]; intros l; cbn [split_once strip_prefix]; [done|].
  case_decide as Ha; [intros [= <- _]; apply not_elem_of_nil|].
  destruct (split_once ":" s) as [[l' r']|]; [|done]. intros [= <- ->]. simpl.
  apply not_elem_of_cons. split; [congruence|by apply IH].
Qed.

Lemma split_once_sound p s l r : split_once p s = Some (l, r) → s = l +:+ p +:+ r.
Proof.
  assert (Hstrip : ∀ q t u, strip_prefix q t = Some u → t = q +:+ u).
  { intros q. induction q as [|a q IH]; intros [|b t] u; cbn [strip_prefix]; try by intros [= <-].
    case_decide; [|done]. subst. by intros ->%IH. }
  revert l. induction s as [|a s IH]; intros l; cbn [split_once].
  - destruct (strip_prefix p "") eqn:E; [|done]. intros [= <- <-]. by apply Hstrip in E.
  - destruct (strip_prefix p (String a s)) eqn:E; [intros [= <- <-]; by apply Hstrip in E|].
    destruct (split_once p s) as [[l' r']|]; [|done]. intros [= <- ->]. by rewrite (IH l' eq_refl) at 1.
Qed.

(** ** Properties of the placement *)

(** C22: the loop that collects candidates ends, whatever replies come, as soon
    as time passes between two turns: one turn per nanosecond of the timeout is
    enough fuel. *)
Theorem candidate_collection_terminates log_info turns :
  (∀ i, elapsed (turns i) < elapsed (turns (S i))) → 0 ≤ elapsed (turns 0%nat) →
  ∃ outcome, (∀ l, outcome ≠ Continue l) ∧
    ∀ fuel, from_millis FREE_CAPACITY_TIMEOUT_MS < Z.of_nat fuel →
      collect_responders fuel log_info turns 0 [] = outcome.
Proof.
  intros Hclock H0. set (fuel := Z.to_nat (from_millis FREE_CAPACITY_TIMEOUT_MS + 1)).
  assert (Hz : Z.of_nat fuel = from_millis FREE_CAPACITY_TIMEOUT_MS + 1) by (by apply Z2Nat.id).
  destruct (collect_ends log_info turns fuel 0 [] Hclock) as (o & Ho & Hrun).
  { rewrite Hz. unfold from_millis, FREE_CAPACITY_TIMEOUT_MS. lia. }
  exists o. split; [done|]. intros f Hf. apply Hrun. clearbody fuel. lia.
Qed.

Lemma parse_candidate_sound reply peer key :
  parse_candidate reply = Some (peer, key) ↔ reply = peer +:+ ":" +:+ key ∧ no_colon_in peer ∧ key ≠ "".
Proof.
  unfold parse_candidate. split.
  - destruct (split_once ":" reply) as [[q k]|] eqn:E; [|done]. case_decide; intros [= -> ->].
    split_and!; [by apply split_once_sound in E|by eapply split_once_first|done].
  - intros (-> & Hp & Hk). change (":" +:+ key) with (String ":"%char key).
    rewrite (split_once_app ":"%char) by done. by rewrite decide_False.
Qed.

Lemma parse_candidates_NoDup responders : NoDup responders → NoDup (parse_candidates responders).
Proof.
  intros Hnd. unfold parse_candidates. induction Hnd as [|reply l Hn Hnd IH]; simpl; [constructor|].
  destruct (parse_candidate reply) as [[p k]|] eqn:E; [|done]. constructor; [|done].
  intros (reply' & Hin & E')%list_elem_of_omap. apply Hn.
  apply parse_candidate_sound in E as (-> & _). by apply parse_candidate_sound in E' as (-> & _).
Qed.

(** C21: the candidates offered to a client are exactly the replies [peer:key],
    with a key, that came in time; each pair of a peer and a key once, and five
    at most. A peer that replied with several keys is offered once with each.
    The collection stops at the fifth reply, at the timeout or when the channel
    closes, and drops no reply before that. *)
Theorem candidates_exact fuel log_info turns responders :
  collect_responders fuel log_info turns 0 [] = Stop responders →
  ∃ n, NoDup (parse_candidates responders) ∧ (length responders ≤ 5)%nat ∧
    (∀ i, (i < n)%nat → in_time (turns i)) ∧
    (length responders = 5%nat ∨ (in_time (turns n) → ∀ p, received (turns n) ≠ Received p)) ∧
    (∀ peer key, (peer, key) ∈ parse_candidates responders ↔
       no_colon_in peer ∧ key ≠ "" ∧
       ∃ i, (i < n)%nat ∧ received (turns i) = Received (peer +:+ ":" +:+ key)).
Proof.
  intros Hc. destruct (collect_stops log_info turns fuel 0 [] responders) as (n & (Hd & Hin & Ht) & Hl & Hs);
    [apply collected_nothing|simpl; lia|done|].
  exists n. split_and!; try done; [by apply parse_candidates_NoDup|].
  intros peer key. unfold parse_candidates. rewrite list_elem_of_omap.
  setoid_rewrite parse_candidate_sound. setoid_rewrite <- Hin. naive_solver.
Qed.

(** ** Tasks: lemmas and properties *)

Section tasks.
Context `{Serde, JsonPrint, FlatBuffers, Crypto, Kem, KemPublic, Messages, Tables, PeerIds, !Kademlia}
  {W : Type}.
Implicit Types (s : NodeState (W:=W)) (r : RestState) (d : response_draws) (meta : EnvelopeMetadata).

(** The answer of [get_task_manifest_id] that names a manifest. *)
Definition manifest_id_response (manifest_id : string) : Response :=
  create_response_with_fallback (as_bytes (default ""
    (json_to_string (JObject [("manifest_id", JString manifest_id); ("ok", JBool true)])))).

(** What every stored task satisfies: it is stored under its manifest, names
    an operation that is mapped, and was never assigned to anyone. *)
Definition task_ok r (task_id : string) (t : TaskRecord) : Prop :=
  manifest_cid t = Some task_id ∧ assigned_peers t = None ∧ shares_distributed t = ∅ ∧
  ∃ op, last_operation_id t = Some op ∧ is_Some (OPERATION_MANIFEST_MAPPING r !! op).

Definition rest_ok r : Prop := map_Forall (task_ok r) (task_store r).

Lemma task_ids_None td params body :
  task_ids td params body = None ↔ params !! "manifest_id" = None ∧ content_hash body < 2 ^ 60.
Proof.
  unfold task_ids. destruct (params !! "manifest_id"); [naive_solver|].
  pose proof (hash_id_cases (content_hash body) (default_hash_in_u _)) as Hh.
  destruct (params !! "operation_id"); rewrite Hh; case_decide; simpl; split; naive_solver lia.
Qed.

Lemma create_task_cases td d params meta body r s resp r' s' :
  create_task td d params meta body r s = (resp, r', s') →
  (task_ids td params body = None ∧ resp = None ∧ r' = r ∧ s' = s) ∨
  ∃ id op, task_ids td params body = Some (id, op) ∧ is_Some resp ∧
    task_store r' = <[id := new_task td meta body id op]> (task_store r) ∧
    OPERATION_MANIFEST_MAPPING r' = <[op := id]> (OPERATION_MANIFEST_MAPPING r) ∧
    s' = match signing_pubkey meta with [] => s | owner => record_manifest_owner id owner s end.
Proof.
  unfold create_task. destruct (task_ids _ _ _) as [[id op]|]; [|intros [= <- <- <-]; by left].
  intros [= <- <- <-]. right. exists id, op. split_and!; eauto.
Qed.

Lemma create_task_rest_ok td d params meta body r s resp r' s' :
  rest_ok r → create_task td d params meta body r s = (resp, r', s') → rest_ok r'.
Proof.
  intros Hok [(_ & _ & -> & _)|(id & op & _ & _ & Ht & Hm & _)]%create_task_cases; [done|].
  unfold rest_ok. rewrite Ht. apply map_Forall_insert_2.
  - split_and!; try done. exists op. split; [done|]. rewrite Hm. rewrite lookup_insert_eq. eauto.
  - intros id' t Ht'. destruct (Hok id' t Ht') as (? & ? & ? & op' & ? & Hop). split_and!; try done.
    exists op'. split; [done|]. rewrite Hm. destruct (decide (op = op')) as [->|].
    + rewrite lookup_insert_eq. eauto.
    + by rewrite lookup_insert_ne.
Qed.

(** The states of the REST module: what creates tasks, stores manifests for
    debugging and updates the list of peers, in any order. *)
Inductive rest_reach (r0 : RestState) : RestState → Prop :=
| rest_reach_init : rest_reach r0 r0
| rest_reach_create r td d params meta body s resp r' s' :
    rest_reach r0 r → create_task td d params meta body r s = (resp, r', s') → rest_reach r0 r'
| rest_reach_decrypted r id v : rest_reach r0 r → rest_reach r0 (store_decrypted_manifest id v r)
| rest_reach_peers r peers :
    rest_reach r0 r →
    rest_reach r0 {| peer_rx := peers; task_store := task_store r; envelope_handler := envelope_handler r;
                     DECRYPTED_MANIFESTS := DECRYPTED_MANIFESTS r;
                     OPERATION_MANIFEST_MAPPING := OPERATION_MANIFEST_MAPPING r |}.

Lemma rest_reach_ok r0 r : rest_ok r0 → rest_reach r0 r → rest_ok r.
Proof. induction 2; [done| |done|done]. by eapply create_task_rest_ok. Qed.

(** C24: in every state the REST module can reach from its start, each stored
    task is well formed, and so both queries about it answer: the status is
    "Pending" with no peers, and the manifest query names a manifest. *)
Theorem stored_tasks_answer peers handler decrypted mapping r task_id t :
  rest_reach (build_router peers handler decrypted mapping) r → task_store r !! task_id = Some t →
  task_ok r task_id t ∧
  get_task_status task_id r = create_response_with_fallback
    (build_task_status_response task_id "Pending" [] [] (Some task_id)) ∧
  ∃ manifest_id, get_task_manifest_id task_id r = manifest_id_response manifest_id.
Proof.
  intros Hr Ht. apply rest_reach_ok in Hr; [|apply map_Forall_empty].
  destruct (Hr _ _ Ht) as (Hc & Ha & Hs & op & Hop & cid & Hcid).
  split; [by split_and!; eauto|]. unfold get_task_status, get_task_manifest_id.
  rewrite Ht, Hc, Ha, Hs, Hop. unfold get_manifest_cid_for_operation. rewrite Hcid.
  split; [|by exists cid]. by rewrite map_filter_empty, map_to_list_empty.
Qed.

(** creating a task panics exactly when the client gave no manifest id and
    the hash of the name or content has fewer than sixteen hexadecimal digits;
    nothing is stored then. *)
Theorem create_task_panics_iff td d params meta body r s :
  create_task td d params meta body r s = (None, r, s) ↔
  params !! "manifest_id" = None ∧ content_hash body < 2 ^ 60.
Proof.
  rewrite <- (task_ids_None td). unfold create_task.
  destruct (task_ids td params body) as [[id op]|]; [|done].
  split; [intros Hc; injection Hc; done|done].
Qed.

(** C23: a task that was created is found: its status is "Pending", without
    peers, and names its manifest, the manifest query returns it, the record holds the payload and the owner's
    key, and the node's owner of the manifest is the signer (unchanged for an
    unsigned request). No other task changes. *)
Theorem create_then_query td d params meta body r s resp r' s' :
  create_task td d params meta body r s = (Some resp, r', s') →
  ∃ id op, task_ids td params body = Some (id, op) ∧
    task_store r' !! id = Some (new_task td meta body id op) ∧
    get_task_status id r' = create_response_with_fallback
      (build_task_status_response id "Pending" [] [] (Some id)) ∧
    get_task_manifest_id id r' = manifest_id_response id ∧
    get_manifest_owner id s' =
      (if decide (signing_pubkey meta = []) then get_manifest_owner id s
       else Some (signing_pubkey meta)) ∧
    (∀ id', id' ≠ id → task_store r' !! id' = task_store r !! id' ∧
                       get_manifest_owner id' s' = get_manifest_owner id' s).
Proof.
  intros [(_ & ? & _)|(id & op & Hids & _ & Ht & Hm & ->)]%create_task_cases; [done|].
  exists id, op. split; [done|]. rewrite Ht, lookup_insert_eq. split; [done|]. split.
  { unfold get_task_status. by rewrite Ht, lookup_insert_eq. } split.
  { unfold get_task_manifest_id. rewrite Ht, lookup_insert_eq. simpl.
    unfold get_manifest_cid_for_operation. by rewrite Hm, lookup_insert_eq. }
  unfold get_manifest_owner, record_manifest_owner. split.
  - destruct (signing_pubkey meta); [done|]. simpl. by rewrite lookup_insert_eq.
  - intros id' Hne. rewrite lookup_insert_ne by done. split; [done|].
    destruct (signing_pubkey meta); [done|]. simpl. by rewrite lookup_insert_ne.
Qed.

(** operation identifiers are chosen by clients and shared by all of them:
    a second task with the same one changes what the manifest query answers for
    the first task. *)
Theorem operation_id_confuses td td' d d' meta meta' body body' m1 m2 op r s :
  m1 ≠ m2 →
  let params m : gmap string string := <["manifest_id" := m]> {["operation_id" := op]} in
  let '(_, r1, s1) := create_task td d (params m1) meta body r s in
  let '(_, r2, _) := create_task td' d' (params m2) meta' body' r1 s1 in
  get_task_manifest_id m1 r1 = manifest_id_response m1 ∧
  get_task_manifest_id m1 r2 = manifest_id_response m2.
Proof.
  intros Hne. cbv zeta. unfold create_task, task_ids. rewrite !lookup_insert_eq.
  rewrite !lookup_insert_ne by done. rewrite !lookup_singleton_eq. cbn [default].
  unfold get_task_manifest_id. cbn [task_store set_tasks]. rewrite lookup_insert_eq. split.
  - simpl. unfold get_manifest_cid_for_operation. simpl. by rewrite lookup_insert_eq.
  - rewrite lookup_insert_ne by done. simpl. rewrite lookup_insert_eq. simpl.
    unfold get_manifest_cid_for_operation. simpl. by rewrite lookup_insert_eq.
Qed.

End tasks.

(** ** Deletion: lemmas and properties *)

Section deletion.
Context `{PeerIds, !Kademlia, !PeerParse, !PeerParseLaws, Messages, Tables} {W : Type}.
Implicit Types (s : NodeState (W:=W)) (meta : EnvelopeMetadata) (p : delete_progress).

Lemma delete_on_provider_state now a local task_id force req tx q p s :
  (delete_on_provider now a local task_id force req tx (peer_to_string q) p s).2 =
  if decide (q = local) then (remove_workloads_by_manifest_id now task_id s).2 else s.
Proof.
  unfold delete_on_provider, handle_local_delete. rewrite peer_parse_string. case_decide.
  - by destruct (remove_workloads_by_manifest_id _ _ _).
  - by destruct (send_delete_request_to_peer _ _ _ _).
Qed.

Lemma delete_on_providers_state clock a local task_id force req tx hs p s :
  NoDup hs →
  ∃ i, (delete_on_providers clock a local task_id force req tx (peer_to_string <$> hs) p s).2 =
    if decide (local ∈ hs) then (remove_workloads_by_manifest_id (clock i) task_id s).2 else s.
Proof.
  intros Hd. revert tx p s. induction Hd as [|q hs Hq _ IH]; intros tx p s; [by exists 0%nat|].
  cbn [fmap list_fmap delete_on_providers].
  pose proof (delete_on_provider_state (clock tx) a local task_id force req tx q p s) as Hs.
  destruct (delete_on_provider _ _ _ _ _ _ _ _ _ _) as [p' s']. simpl in Hs. subst s'.
  destruct (decide (q = local)) as [->|Hne].
  - destruct (IH (S tx) p' (remove_workloads_by_manifest_id (clock tx) task_id s).2) as [i Hi].
    exists tx. rewrite Hi. rewrite (decide_False (P := local ∈ hs)) by done.
    by rewrite decide_True by by left.
  - destruct (IH (S tx) p' s) as [i Hi]. exists i. rewrite Hi.
    destruct (decide (local ∈ hs)); [by rewrite decide_True by by right|].
    rewrite decide_False; [done|]. by intros [|]%elem_of_cons.
Qed.

(** what a delete request over HTTP does to the node depends only on the
    providers found, never on who asks: when the node itself is a provider, the
    workloads and the owner of the manifest are removed, whatever keys the
    request carried and whoever owns the manifest. *)
Theorem rest_delete_unchecked now_ms clock a tx task_id meta body hs local s :
  holders a = Received hs → NoDup hs → local_peer a = Received local →
  ∃ i, (delete_task_outcome now_ms clock a tx task_id meta body s).2 =
    if decide (local ∈ hs) then (remove_workloads_by_manifest_id (clock i) task_id s).2 else s.
Proof.
  intros Hh Hd Hl. unfold delete_task_outcome. rewrite Hh. cbn [find_manifest_providers].
  destruct (peer_to_string <$> hs) as [|q l] eqn:Ehs.
  { apply fmap_nil_inv in Ehs as ->. by exists 0%nat. }
  rewrite Hl. destruct (delete_on_providers_state clock a local task_id (force_requested body)
    (build_delete_request task_id ("delete-" +:+ task_id +:+ "-" +:+ pretty now_ms)
       (default "unknown" (meta_peer_id meta)) (force_requested body)) (S (S tx)) hs delete_nothing s Hd)
    as [i Hi]. exists i. rewrite <- Hi, Ehs. clear Hi.
  destruct (delete_on_providers _ _ _ _ _ _ _ _ _ _) as [p s']. by destruct (delete_verdict p).
Qed.

End deletion.

Section remote.
Context `{PeerIds, !Kademlia, !Swarm, Serde, Kem, !PeerParse, !PeerParseLaws, FlatBuffers, Crypto, Messages, Tables, !TablesLaws}
  {W : Type}.
Implicit Types (s : NodeState (W:=W)) (meta : EnvelopeMetadata).

(** Bytes that read as no envelope, or as one without signature and key, are
    refused. *)
Lemma unsigned_refused now peer bytes store :
  (∀ fb, root_as_envelope bytes = Some fb → env_sig fb = None ∧ env_pubkey fb = None) →
  (∀ k m sg, base64_decode "" = Some k → ml_dsa_verify k m sg ≠ Some true) →
  (verify_signed_message now peer bytes store).1 = None.
Proof.
  intros Hb Hk. unfold verify_signed_message, verify_signed_payload_for_peer,
    verify_envelope_and_check_nonce_for_peer.
  destruct (verify_flatbuffer_envelope_for_peer _ _ _ _ _) as [[parts|] st] eqn:Ev; [|done].
  destruct (verify_ok_inv _ _ _ _ _ _ _ Ev) as (fb & Hr & _ & Hp & _ & Hv & _).
  destruct (Hb fb Hr) as [_ Hpk]. rewrite Hpk in Hp. simpl in Hp.
  unfold verify_envelope in Hv. pose proof (Hk _ (envelope_canonical fb) (signature parts) Hp).
  by destruct (ml_dsa_verify _ _ _) as [[]|].
Qed.

(** a delete request for a manifest held by another node is forwarded
    unsigned: the libp2p task sends it and reports success, the client is told
    that the delete request was sent, and the node that receives it refuses it
    and starts no task. *)
Theorem remote_delete_ineffective kem_keypair node_keys debug_assertions downcast_mock disabled
    now_ms clock a tx task_id meta body q local s :
  holders a = Received [q] → local_peer a = Received local → q ≠ local →
  peer_answer a (peer_to_string q) = Received (Ok "Delete request sent") →
  let operation_id := "delete-" +:+ task_id +:+ "-" +:+ pretty now_ms in
  let request := build_delete_request task_id operation_id (default "unknown" (meta_peer_id meta))
                   (force_requested body) in
  (∀ fb, root_as_envelope request = Some fb → env_sig fb = None ∧ env_pubkey fb = None) →
  (∀ k m sg, base64_decode "" = Some k → ml_dsa_verify k m sg ≠ Some true) →
  let '(table, msgs, s') := delete_task_outcome now_ms clock a tx task_id meta body s in
  s' = s ∧
  (dt_ok <$> root_as_delete_response table) = Some true ∧
  msgs = [FindManifestHolders task_id tx; GetLocalPeerId (S tx);
          SendDeleteRequest q request (S (S tx))] ∧
  (∀ e (t : Task (W:=W)), handle_control_message kem_keypair node_keys debug_assertions downcast_mock disabled e
            (SendDeleteRequest q request (S (S tx))) t =
     (Some [SendRequest DeleteRr q request;
            Reply (S (S tx)) (RStringResult (Ok "Delete request sent"))], t)) ∧
  (∀ now peer (s_q : NodeState (W:=W)),
     (delete_message now peer request s_q).1 =
       (delete_error_response "unsigned or invalid envelope", None)).
Proof.
  intros Hh Hl Hne Ha operation_id request Hfb Hk. unfold delete_task_outcome. rewrite Hh, Hl. simpl.
  unfold delete_on_provider, send_delete_request_to_peer. rewrite peer_parse_string.
  rewrite decide_False, Ha by done. simpl. split_and!; try done.
  - unfold build_delete_response. by rewrite root_finish_delete_response.
  - intros now peer s_q. unfold delete_message.
    pose proof (unsigned_refused now peer request (NONCE_STORE s_q) Hfb Hk) as Hr.
    destruct (verify_signed_message _ _ _ _) as [v st]. simpl in Hr. by subst v.
Qed.

End remote.

(** ** From bids to candidates *)

Section bids.
Context `{PeerIds, !Kademlia, FlatBuffers, Crypto, Kem, Messages}.

(** the reply to a capacity request that comes back from a peer becomes a
    candidate with that peer's name and key; a reply without a key is not
    offered. *)
Theorem bid_becomes_candidate peer response pending tx msg :
  (":"%char : ascii) ∉ String.list_ascii_of_string (peer_to_string peer) →
  (tx, msg) ∈ scheduler_response peer response pending →
  ∃ cap_reply, root_as_capacity_reply response = Some cap_reply ∧
    tx ∈ default [] (pending !! default "" (rp_request_id cap_reply)) ∧
    parse_candidate msg =
      let key := default "" (rp_kem_pubkey cap_reply) in
      if decide (key = "") then None else Some (peer_to_string peer, key).
Proof.
  intros Hc. unfold scheduler_response. destruct (root_as_capacity_reply response) as [rp|];
    [|by intros ?%elem_of_nil].
  unfold notify_capacity_observers. intros (tx' & Heq & Hin)%list_elem_of_fmap. simplify_eq.
  exists rp. split_and!; [done..|]. cbv zeta. unfold parse_candidate.
  change (":" +:+ ?k) with (String ":"%char k). by rewrite (split_once_app ":"%char).
Qed.

End bids.

(** ** Concrete runs *)

Module ToyRest.
#[export] Instance peer_parse : @PeerParse Toy.peers :=
  {| peer_parse t :=
       match (digits ← strip_prefix "peer-" t; n ← parse_uint 8 digits; Byte.of_N (Z.to_N n)) with
       | Some b => Ok b
       | None => Err "invalid"
       end |}.
#[export] Instance peer_parse_laws : @PeerParseLaws Toy.peers peer_parse.
Proof.
  split. intros b. unfold RestApi.peer_parse, peer_parse.
  change (strip_prefix "peer-" (peer_to_string b)) with (Some (pretty (Byte.to_N b))).
  cbn [mbind option_bind]. rewrite (parse_uint_pretty 8); [|lia|].
  - cbn [mbind option_bind]. by rewrite N2Z.id, Byte.of_to_N.
  - pose proof (Byte.to_N_bounded b). unfold umax. lia.
Qed.
#[export] Instance json_print : JsonPrint :=
  {| json_to_string j :=
       match j with JObject [(_, JString m); _] => Some m | _ => None end |}.
#[export] Instance float_display : FloatDisplay := {| f64_display _ := "0" |}.
End ToyRest.

Section witnesses.
Import Toy ToyTables ToyKemPublic ToyRest.

Definition demo_turns (i : nat) : turn :=
  {| elapsed := 10 + Z.of_nat i;
     received := match i with
                 | O => Received "12D3KooWAAAAAAAA:key1"
                 | 1%nat => Received "12D3KooWAAAAAAAA:key1"
                 | 2%nat => Received "12D3KooWBBBBBBBB:"
                 | _ => TimedOut
                 end |}.

Lemma candidate_collection_terminates_witness :
  ∃ outcome, (∀ l, outcome ≠ Continue l) ∧
    ∀ fuel, from_millis FREE_CAPACITY_TIMEOUT_MS < Z.of_nat fuel →
      collect_responders fuel true demo_turns 0 [] = outcome.
Proof.
  apply (candidate_collection_terminates true demo_turns); [intros i; simpl; lia|simpl; lia].
Defined.

Lemma candidates_exact_witness :
  collect_responders 10 true demo_turns 0 [] =
    Stop ["12D3KooWAAAAAAAA:key1"; "12D3KooWBBBBBBBB:"] ∧
  parse_candidates ["12D3KooWAAAAAAAA:key1"; "12D3KooWBBBBBBBB:"] = [("12D3KooWAAAAAAAA", "key1")] ∧
  ∃ n, NoDup (parse_candidates ["12D3KooWAAAAAAAA:key1"; "12D3KooWBBBBBBBB:"]) ∧ (2 ≤ 5)%nat ∧
    (∀ i, (i < n)%nat → in_time (demo_turns i)) ∧
    (2%nat = 5%nat ∨ (in_time (demo_turns n) → ∀ p, received (demo_turns n) ≠ Received p)) ∧
    (∀ peer key, (peer, key) ∈ parse_candidates ["12D3KooWAAAAAAAA:key1"; "12D3KooWBBBBBBBB:"] ↔
       no_colon_in peer ∧ key ≠ "" ∧ ∃ i, (i < n)%nat ∧ received (demo_turns i) = Received (peer +:+ ":" +:+ key)).
Proof.
  assert (Hc : collect_responders 10 true demo_turns 0 [] =
    Stop ["12D3KooWAAAAAAAA:key1"; "12D3KooWBBBBBBBB:"]) by (vm_compute; reflexivity).
  split; [exact Hc|]. split; [vm_compute; reflexivity|].
  exact (candidates_exact 10 true demo_turns _ Hc).
Defined.

Definition demo_rest : RestState := build_router ["p"] demo_handler ∅ ∅.
Definition demo_task_draws : task_draws :=
  {| op_uuid := "op"; envelope_nonce := [x01]; task_now := 5 |}.
Definition demo_node : NodeState (W := gmap string MockWorkload) := demo_state.
Definition demo_created :=
  create_task demo_task_draws demo_draws {["manifest_id" := "m1"]} demo_meta [x09] demo_rest demo_node.

Lemma stored_tasks_answer_witness :
  ∃ t, task_ok demo_created.1.2 "m1" t ∧
    get_task_status "m1" demo_created.1.2 = create_response_with_fallback
      (build_task_status_response "m1" "Pending" [] [] (Some "m1")) ∧
    ∃ manifest_id, get_task_manifest_id "m1" demo_created.1.2 = manifest_id_response manifest_id.
Proof.
  exists (new_task demo_task_draws demo_meta [x09] "m1" "op").
  apply (stored_tasks_answer (W := gmap string MockWorkload) ["p"] demo_handler ∅ ∅).
  - apply (rest_reach_create _ demo_rest demo_task_draws demo_draws {["manifest_id" := "m1"]} demo_meta
      [x09] demo_node demo_created.1.1 demo_created.1.2 demo_created.2); [apply rest_reach_init|].
    reflexivity.
  - vm_compute. reflexivity.
Defined.

Lemma create_then_query_witness :
  ∃ id op, task_ids demo_task_draws {["manifest_id" := "m1"]} [x09] = Some (id, op) ∧
    task_store demo_created.1.2 !! id = Some (new_task demo_task_draws demo_meta [x09] id op) ∧
    get_task_status id demo_created.1.2 = create_response_with_fallback
      (build_task_status_response id "Pending" [] [] (Some id)) ∧
    get_task_manifest_id id demo_created.1.2 = manifest_id_response id ∧
    get_manifest_owner id demo_created.2 =
      (if decide (signing_pubkey demo_meta = []) then get_manifest_owner id demo_node
       else Some (signing_pubkey demo_meta)) ∧
    (∀ id', id' ≠ id → task_store demo_created.1.2 !! id' = task_store demo_rest !! id' ∧
                       get_manifest_owner id' demo_created.2 = get_manifest_owner id' demo_node).
Proof.
  eapply (create_then_query demo_task_draws demo_draws {["manifest_id" := "m1"]} demo_meta [x09]
    demo_rest demo_node (default (octet_stream []) demo_created.1.1)).
  reflexivity.
Defined.

Lemma operation_id_confuses_witness :
  let params m : gmap string string := <["manifest_id" := m]> {["operation_id" := "op"]} in
  let '(_, r1, s1) :=
    create_task demo_task_draws demo_draws (params "m1") demo_meta [x09] demo_rest demo_node in
  let '(_, r2, _) := create_task demo_task_draws demo_draws (params "m2") no_metadata [x08] r1 s1 in
  get_task_manifest_id "m1" r1 = manifest_id_response "m1" ∧
  get_task_manifest_id "m1" r2 = manifest_id_response "m2".
Proof.
  exact (operation_id_confuses demo_task_draws demo_task_draws demo_draws demo_draws demo_meta
    no_metadata [x09] [x08] "m1" "m2" "op" demo_rest demo_node ltac:(discriminate)).
Defined.

(** A manifest named nginx has a hash of fifteen digits. *)
Definition nginx_manifest : list byte := as_bytes ("metadata:" +:+ String "010" "  name: nginx").

Example create_nginx_panics :
  create_task demo_task_draws demo_draws ∅ demo_meta nginx_manifest demo_rest demo_node =
    (None, demo_rest, demo_node).
Proof.
  unfold create_task. rewrite (proj2 (task_ids_None demo_task_draws ∅ nginx_manifest)); [done|].
  split; [done|]. apply Z.ltb_lt. vm_compute. reflexivity.
Qed.

(** The node after the apply of [WorkloadIntegration]: one workload, owned by
    the key [0a]; its only provider is the node itself. *)
Definition demo_deployed : NodeState (W := gmap string MockWorkload) := demo_outcome.2.

Definition demo_answers : delete_answers :=
  {| holders := Received [toy_peer x07]; local_peer := Received (toy_peer x07);
     peer_answer _ := TimedOut |}.

Lemma rest_delete_unchecked_witness :
  get_manifest_owner "id1" demo_deployed = Some [x0a] ∧
  is_Some (engine_world demo_deployed !! "mock-web-id1") ∧
  let after := (delete_task_outcome 5 (λ _, 9) demo_answers 0 "id1" no_metadata [] demo_deployed).2 in
  engine_world after = ∅ ∧ get_manifest_owner "id1" after = None ∧
  ∃ i : nat, after = if decide (toy_peer x07 ∈ [toy_peer x07])
              then (remove_workloads_by_manifest_id 9 "id1" demo_deployed).2 else demo_deployed.
Proof.
  split; [vm_compute; reflexivity|]. split; [vm_compute; by eexists|].
  split; [vm_compute; reflexivity|]. split; [vm_compute; reflexivity|].
  apply (rest_delete_unchecked 5 (λ _, 9) demo_answers 0 "id1" no_metadata [] [toy_peer x07]
    (toy_peer x07) demo_deployed); [reflexivity|apply NoDup_singleton|reflexivity].
Defined.

Definition remote_answers : delete_answers :=
  {| holders := Received [toy_peer x02]; local_peer := Received (toy_peer x07);
     peer_answer _ := Received (Ok "Delete request sent") |}.

Definition demo_delete_request : list byte :=
  build_delete_request "id1" ("delete-" +:+ "id1" +:+ "-" +:+ pretty 5) "unknown" false.

Lemma remote_delete_ineffective_witness :
  let '(table, msgs, s') :=
    delete_task_outcome 5 (λ _, 9) remote_answers 0 "id1" no_metadata [] demo_deployed in
  s' = demo_deployed ∧
  (dt_ok <$> root_as_delete_response table) = Some true ∧
  msgs = [FindManifestHolders "id1" 0; GetLocalPeerId 1;
          SendDeleteRequest (toy_peer x02) demo_delete_request 2] ∧
  (∀ e (t : Task (W := gmap string MockWorkload)),
     @handle_control_message _ _ _ _ _ (Toy.sealed []) _ _ _ demo_keys demo_keys false (λ _, None) false e
       (SendDeleteRequest (toy_peer x02) demo_delete_request 2) t =
     (Some [SendRequest DeleteRr (toy_peer x02) demo_delete_request;
            Reply 2 (RStringResult (Ok "Delete request sent"))], t)) ∧
  (∀ now peer (s_q : NodeState (W := gmap string MockWorkload)),
     (@delete_message _ _ _ (Toy.sealed []) _ _ now peer demo_delete_request s_q).1 =
       (delete_error_response "unsigned or invalid envelope", None)).
Proof.
  apply (@remote_delete_ineffective _ _ _ _ _ _ _ _ (Toy.sealed []) _ _ _ _ demo_keys demo_keys false
    (λ _, None) false 5 (λ _, 9) remote_answers 0 "id1" no_metadata [] (toy_peer x02) (toy_peer x07)
    demo_deployed); [reflexivity|reflexivity|discriminate|reflexivity| |].
  - intros fb Hfb. vm_compute in Hfb. discriminate Hfb.
  - intros k m sg _ Hv. vm_compute in Hv. discriminate Hv.
Defined.

Definition reply_messages : Messages :=
  {| root_as_apply_request _ := None; root_as_delete_request _ := None;
     root_as_capacity_request _ := None;
     root_as_capacity_reply _ := Some
       {| rp_request_id := Some "r"; rp_ok := true; rp_node_id := None; rp_region := None;
          rp_kem_pubkey := Some "key"; rp_capabilities := Some []; rp_cpu_available_milli := 1;
          rp_memory_available_bytes := 1; rp_storage_available_bytes := 1 |};
     root_as_handshake _ := None; finish_capacity_request _ := [];
     finish_capacity_reply _ := []; finish_handshake _ := [] |}.

Lemma bid_becomes_candidate_witness :
  ∃ cap_reply, @root_as_capacity_reply reply_messages [] = Some cap_reply ∧
    4%nat ∈ default [] (({["r" := [4%nat]]} : gmap string (list nat)) !! default "" (rp_request_id cap_reply)) ∧
    parse_candidate "peer-2:key" =
      let key := default "" (rp_kem_pubkey cap_reply) in
      if decide (key = "") then None else Some (peer_to_string (toy_peer x02), key).
Proof.
  apply (@bid_becomes_candidate _ reply_messages (toy_peer x02) [] {["r" := [4%nat]]} 4 "peer-2:key").
  - by apply (bool_decide_unpack _).
  - vm_compute. by left.
Defined.

End witnesses.
