(* ===== verification/Node.v ===== *)
(** * The node's event loop ([libp2p_beemesh/mod.rs], [start_libp2p_node])

    One iteration of the [select!] loop per event: control messages, messages
    of the request-response protocols and of GossipSub, Kademlia and connection
    events, and the three timers. An iteration is one step. Delete requests are
    carried out by tasks the handler spawns; each runs one stage at a time (the
    ownership check, the listing of an engine, the removal of one workload, ...),
    in any order with the stages of the others and between any two events. *)

From S2P Require Import Prelude RustStr Utf8 Constants Serde Libp2p Concrete Provider Runtime.
From S2P Require Import ResourceVerifier NonceStore Envelope RecipientBlob MockEngine WorkloadIntegration.
From S2P Require Import DeleteMessage CapacityMessages Handshake Control.

Open Scope rust_scope.
Open Scope list_scope.

Section node.
Context `{PeerIds, !Kademlia, !Swarm, Serde, FlatBuffers, Crypto, Kem, Messages} {W : Type}.

(** ** Scheduling preferences *)

Definition register_scheduling_preference (peer : PeerId) (disabled : bool)
    (m : gmap PeerId bool) : gmap PeerId bool := <[peer := disabled]> m.

Definition is_scheduling_disabled_for (peer : PeerId) (m : gmap PeerId bool) : bool :=
  default false (m !! peer).

(** ** State and events *)

Record Node := {
  task : Task (W:=W);
  handshake_states : gmap PeerId HandshakeState;
  DISABLED_SCHEDULING : gmap PeerId bool;
  spawned : list (delete_task * delete_stage);
  running : bool;
}.

Definition set_task t (n : Node) : Node :=
  {| task := t; handshake_states := handshake_states n; DISABLED_SCHEDULING := DISABLED_SCHEDULING n;
     spawned := spawned n; running := running n |}.
Definition set_node s (n : Node) : Node := set_task (with_node s (task n)) n.
Definition set_handshakes h (n : Node) : Node :=
  {| task := task n; handshake_states := h; DISABLED_SCHEDULING := DISABLED_SCHEDULING n;
     spawned := spawned n; running := running n |}.
Definition set_spawned l (n : Node) : Node :=
  {| task := task n; handshake_states := handshake_states n;
     DISABLED_SCHEDULING := DISABLED_SCHEDULING n; spawned := l; running := running n |}.
Definition stop (n : Node) : Node :=
  {| task := task n; handshake_states := handshake_states n;
     DISABLED_SCHEDULING := DISABLED_SCHEDULING n; spawned := spawned n; running := false |}.

Inductive event :=
| ControlMessage (msg : Libp2pControl)
| ControlClosed
| HandshakeMessage (m : rr_message) (peer : PeerId)
| ApplyMessage (m : rr_message) (peer : PeerId)
| DeleteMessageEvent (m : rr_message) (peer : PeerId)
| GossipsubMessage (peer : PeerId) (data : list byte)
| SchedulerMessage (m : rr_message) (peer : PeerId)
| KademliaEvent (e : kad_event)
| ManifestFetchFailure (request_id : nat) (error : string)
| ConnectionEstablished (peer : PeerId) (address : string)
| ConnectionClosed (peer : PeerId) (num_established : nat)
| HandshakeTick
| RenewTick
| CleanupTick
| OtherEvent.

Context (kem_keypair node_keys : result string (list byte * list byte)) (debug_assertions : bool).
Context (downcast_mock : RuntimeEngine W → option (Z → string → list byte → DeploymentConfig → string →
                                                   W → result RuntimeError WorkloadInfo * W)).

(** ** The handshake timer *)

(** The handshake request for a peer, signed with the node's keys; [nonce] is
    random. *)
Definition build_handshake_request (now_ms nonce : Z) (local_peer : PeerId) :
    result string (list byte) :=
  let? (pub_bytes, sk_bytes) := node_keys in
  let handshake_request := build_handshake nonce now_ms "beemesh/1.0" (peer_to_string local_peer) in
  let envelope_nonce := "handshake_req_" +:+ pretty nonce in
  let canonical_bytes :=
    build_envelope_canonical handshake_request "handshake" envelope_nonce now_ms "ml-dsa-65" None in
  let? (sig_b64, pub_b64) := sign_envelope sk_bytes pub_bytes canonical_bytes in
  Ok (build_envelope_signed handshake_request "handshake" envelope_nonce now_ms "ml-dsa-65"
        "ml-dsa-65" sig_b64 pub_b64 None).

(** What the timer does about one peer. *)
Inductive tick_action :=
| Skip
| GiveUp
| SendHandshake (request : list byte) (st : HandshakeState).

Definition tick_peer (e : surroundings) (local_peer peer : PeerId) (st : HandshakeState) : tick_action :=
  if hs_confirmed st then Skip
  else if decide (3 ≤ hs_attempts st) then GiveUp
  else if decide (from_secs 2 ≤ saturating_sub (now e) (hs_last_attempt st)) then
    match build_handshake_request (now_ms e) (peer_draw e peer) local_peer with
    | Ok request =>
        SendHandshake request {| hs_attempts := hs_attempts st + 1; hs_last_attempt := now e;
                                 hs_confirmed := hs_confirmed st |}
    | Err _ => Skip
    end
  else Skip.

(** The states after the tick: peers given up are removed. *)
Definition ticked (e : surroundings) (local_peer peer : PeerId) (st : HandshakeState) :
    option HandshakeState :=
  match tick_peer e local_peer peer st with
  | Skip => Some st
  | GiveUp => None
  | SendHandshake _ st' => Some st'
  end.

(** The requests sent and the peers removed from GossipSub, in the order of
    the iteration. *)
Fixpoint tick_all (e : surroundings) (local_peer : PeerId) (l : list (PeerId * HandshakeState))
    (swarm : kad) : list output * kad :=
  match l with
  | [] => ([], swarm)
  | (peer, st) :: l' =>
      match tick_peer e local_peer peer st with
      | Skip => tick_all e local_peer l' swarm
      | GiveUp => tick_all e local_peer l' (remove_explicit_peer peer swarm)
      | SendHandshake request _ =>
          let '(o, swarm) := tick_all e local_peer l' swarm in
          (SendRequest HandshakeRr peer request :: o, swarm)
      end
  end.

Definition handshake_tick (e : surroundings) (n : Node) : list output * Node :=
  let k := swarm_kad (task_node (task n)) in
  let '(o, k) := tick_all e (local_peer_id k) (map_to_list (handshake_states n)) k in
  (o ++ [PeerList (peer_to_string <$> gossip_peers k)],
   set_handshakes (map_imap (ticked e (local_peer_id k)) (handshake_states n))
     (set_node (with_kad k (task_node (task n))) n)).

(** ** One event *)

Definition handle_event (e : surroundings) (ev : event) (n : Node) : option (list output) * Node :=
  let t := task n in
  let s := task_node t in
  let local_peer := local_peer_id (swarm_kad s) in
  let scheduling_disabled := is_scheduling_disabled_for local_peer (DISABLED_SCHEDULING n) in
  match ev with
  | ControlMessage msg =>
      let '(o, t) := handle_control_message kem_keypair node_keys debug_assertions downcast_mock
                       scheduling_disabled e msg t in
      (o, set_task t n)
  | ControlClosed =>
      let '(c, k) := withdraw_all_providers (task_control t) (swarm_kad s) in
      (Some [], stop (set_task (with_control c (with_node (with_kad k s) t)) n))
  | HandshakeMessage m peer =>
      let '(resp, states, nonces) :=
        handshake_message_event node_keys (default 0 (head (draws e))) (peer_draw e peer) (now_ms e)
          (now e) m peer (handshake_states n) (NONCE_STORE s) in
      (Some (match resp with Some r => [RespondBytes HandshakeRr peer r] | None => [] end),
       set_handshakes states (set_node (set_nonces nonces s) n))
  | ApplyMessage (RrRequest request) peer =>
      let '(resp, s) := handle_apply_request kem_keypair debug_assertions downcast_mock
                          (now e) peer request s in
      ((λ r, [RespondApply peer r]) <$> resp, set_node s n)
  | ApplyMessage (RrResponse _) _ => (Some [], n)
  | DeleteMessageEvent (RrRequest request) peer =>
      let '(resp, tsk, s) := delete_message (now e) peer request s in
      (Some [RespondDelete peer resp],
       set_spawned (spawned n ++ option_list ((., CheckOwner) <$> tsk)) (set_node s n))
  | DeleteMessageEvent (RrResponse _) _ => (Some [], n)
  | GossipsubMessage peer data =>
      let '(eff, s) := gossipsub_message kem_keypair node_keys (default 0 (head (draws e))) (now_ms e)
                         (now e) peer local_peer data (task_pending t) s in
      (Some (match published eff with Some m => [Publish m] | None => [] end
             ++ ((λ x, Reply x.1 (RString x.2)) <$> notified eff)), set_node s n)
  | SchedulerMessage (RrRequest request) peer =>
      let '(resp, s) := scheduler_request kem_keypair scheduling_disabled (now_ms e) (now e) peer
                          local_peer request s in
      (Some (match resp with Some r => [RespondBytes SchedulerRr peer r] | None => [] end), set_node s n)
  | SchedulerMessage (RrResponse response) peer =>
      (Some ((λ x, Reply x.1 (RString x.2)) <$> scheduler_response peer response (task_pending t)), n)
  | KademliaEvent ke =>
      let '(o, c) := kademlia_event ke (task_control t) in (Some o, set_task (with_control c t) n)
  | ManifestFetchFailure request_id error =>
      let '(o, c) := manifest_fetch_failure request_id error (task_control t) in
      (Some o, set_task (with_control c t) n)
  | ConnectionEstablished peer address =>
      let k := add_address peer address (swarm_kad s) in
      let k := if decide (2 ≤ length (connected_peers k))%nat then bootstrap k else k in
      (Some [], set_node (with_kad k s) n)
  | ConnectionClosed peer num_established =>
      (Some [], if decide (num_established = 0%nat)
                then set_node (with_kad (remove_peer peer (swarm_kad s)) s) n else n)
  | HandshakeTick => let '(o, n) := handshake_tick e n in (Some o, n)
  | RenewTick =>
      let '(o, t) := drain_enqueued_controls kem_keypair node_keys debug_assertions downcast_mock
                       scheduling_disabled e t in
      match o with
      | None => (None, set_task t n)
      | Some o =>
          let '(c, k) := renew_due_providers (now e) (task_control t) (swarm_kad (task_node t)) in
          (Some o, set_task (with_control c (with_node (with_kad k (task_node t)) t)) n)
      end
  | CleanupTick =>
      let '(o, c) := cleanup_timed_out_manifest_requests (now e) (task_control t) in
      (Some o, set_task (with_control c t) n)
  | OtherEvent => (Some [], n)
  end.

(** A spawned delete task runs until it waits again, or ends. *)
Definition run_spawned (now : Z) (i : nat) (n : Node) : Node :=
  match spawned n !! i with
  | Some (tsk, stage) =>
      match delete_step now tsk stage (task_node (task n)) with
      | (inr stage, s) => set_spawned (<[i := (tsk, stage)]> (spawned n)) (set_node s n)
      | (inl _, s) => set_spawned (delete i (spawned n)) (set_node s n)
      end
  | None => n
  end.

(** ** Runs *)

(** What happened, latest first: an event with what was read and put out, or
    a stage of a task, with the owner recorded at that time. *)
Inductive step_label :=
| Handled (e : surroundings) (ev : event) (nonces : nonce_store)
| Deleting (now : Z) (tsk : delete_task) (stage : delete_stage) (owner : option (list byte)).

(** A panic ([None]) ends the task, hence the run. *)
Inductive node_step : list step_label → Node → list step_label → Node → Prop :=
| node_step_event tr e ev n o n' :
    running n = true → handle_event e ev n = (Some o, n') →
    node_step tr n (Handled e ev (NONCE_STORE (task_node (task n))) :: tr) n'
| node_step_task tr now i tsk stage n :
    spawned n !! i = Some (tsk, stage) →
    node_step tr n (Deleting now tsk stage (get_manifest_owner (task_manifest_id tsk) (task_node (task n))) :: tr)
      (run_spawned now i n).

Inductive node_reach (n0 : Node) : list step_label → Node → Prop :=
| node_reach_init : node_reach n0 [] n0
| node_reach_step tr n tr' n' : node_reach n0 tr n → node_step tr n tr' n' → node_reach n0 tr' n'.

End node.

(** ** Lemmas *)

Section lemmas.
Context `{PeerIds, !Kademlia, !Swarm, Serde, FlatBuffers, Crypto, Kem, Messages, !MessagesLaws} {W : Type}.
Context (kem_keypair node_keys : result string (list byte * list byte)) (debug_assertions : bool).
Context (downcast_mock : RuntimeEngine W → option (Z → string → list byte → DeploymentConfig → string →
                                                   W → result RuntimeError WorkloadInfo * W)).
Implicit Types (n : Node (W:=W)) (s : NodeState (W:=W)) (t : Task (W:=W)).

Abbreviation handle_event := (handle_event kem_keypair node_keys debug_assertions downcast_mock).
Abbreviation handle_control_message :=
  (handle_control_message kem_keypair node_keys debug_assertions downcast_mock).

(** The containers and the owners of their manifests. *)
Definition holdings s := (engine_world s, MANIFEST_OWNER_MAP s).

(** What holds of a node's state at any time. *)
Definition state_ok s : Prop :=
  verifier_ok (RESOURCE_VERIFIER s) ∧ map_Forall (λ _ owner, owner ≠ []) (MANIFEST_OWNER_MAP s).

Definition node_ok n : Prop :=
  state_ok (task_node (task n)) ∧
  map_Forall (λ _ st, hs_confirmed st = true) (handshake_states n) ∧
  ENQUEUED_CONTROLS (task_control (task n)) = [].

Lemma effects_holdings s s' : effects s' = effects s → holdings s' = holdings s.
Proof. unfold effects, holdings. congruence. Qed.

Lemma apply_state_ok now peer request s :
  state_ok s →
  state_ok (handle_apply_request kem_keypair debug_assertions downcast_mock now peer request s).2.
Proof.
  intros [Hv Ho]. unfold handle_apply_request.
  destruct (verify_envelope_and_check_nonce_for_peer _ _ _ _) as [[parts|] nonces]; [|by split].
  destruct (apply_verified_keeps kem_keypair debug_assertions downcast_mock now (payload parts)
    (pubkey parts) (set_nonces nonces s)) as [Hver Hown].
  destruct (apply_verified _ _ _ _ _ _ _) as [r s']. cbn [snd] in *. split.
  - destruct Hver as [->| ->]; [done|by apply prune_ok].
  - destruct Hown as [->|(Hne & id & ->)]; [done|]. by apply map_Forall_insert_2.
Qed.

Lemma self_apply_state_ok now own manifest s :
  state_ok s →
  state_ok (process_enhanced_self_apply_request kem_keypair debug_assertions downcast_mock now own
              manifest s).2.
Proof.
  intros [Hv Ho]. unfold process_enhanced_self_apply_request.
  destruct (root_as_apply_request _) as [req|]; [|by split].
  destruct (ar_manifest_json req) as [json|]; [|by split].
  pose proof (process_manifest_deployment_keeps kem_keypair debug_assertions downcast_mock now req json
    own s) as Hk. destruct (process_manifest_deployment _ _ _ _ _ _ _ _) as [r s']. cbn [snd] in *.
  destruct Hk as [[Hver Hown]|(Hver & Hne & Hown)]; split; rewrite ?Hver, ?Hown; try done.
  by apply map_Forall_insert_2.
Qed.

(** A control message keeps the invariant, and only a self-apply touches the
    holdings. *)
Lemma control_keeps disabled e msg t o t' :
  handle_control_message disabled e msg t = (o, t') →
  (state_ok (task_node t) → state_ok (task_node t')) ∧
  ENQUEUED_CONTROLS (task_control t') = ENQUEUED_CONTROLS (task_control t) ∧
  (holdings (task_node t') = holdings (task_node t) ∨
   ∃ manifest tx, msg = SendApplyRequest (local_peer_id (swarm_kad (task_node t))) manifest tx).
Proof.
  destruct msg; simpl.
  - destruct (handle_query_capacity_with_payload _ _ _ _ _ _ _ _ _ _ _) as [[? ?] ?].
    intros [= _ <-]. simpl. eauto.
  - unfold handle_send_apply_request. case_decide as Hp.
    + pose proof (self_apply_state_ok (now e) (own_pubkey e) manifest (task_node t)) as Hs.
      destruct (process_enhanced_self_apply_request _ _ _ _ _ _ _) as [r s'].
      intros [= _ <-]. subst. simpl. split_and!; eauto.
    + intros [= _ <-]. simpl. eauto.
  - intros [= _ <-]. eauto.
  - intros [= _ <-]. simpl. eauto.
  - intros [= _ <-]. simpl. eauto.
  - unfold handle_announce_provider. destruct (announce_attempts _ _ _ _) as [[] k];
      intros [= _ <-]; simpl; eauto.
  - unfold handle_withdraw_provider. destruct (announce_provider_direct _ _ _) as [? k].
    intros [= _ <-]. simpl. eauto.
  - intros [= _ <-]. eauto.
  - intros [= _ <-]. eauto.
  - intros [= _ <-]. eauto.
Qed.

Lemma drain_empty disabled e t :
  ENQUEUED_CONTROLS (task_control t) = [] →
  drain_enqueued_controls kem_keypair node_keys debug_assertions downcast_mock disabled e t = (Some [], t).
Proof.
  unfold drain_enqueued_controls. intros Hq. rewrite Hq. simpl.
  destruct t as [? [? ? ? ?] ?]. simpl in *. by subst.
Qed.

Lemma handshake_event_confirmed r1 r2 now_ms now m peer states nonces :
  map_Forall (λ _ st, hs_confirmed st = true) states →
  map_Forall (λ _ st, hs_confirmed st = true)
    (handshake_message_event node_keys r1 r2 now_ms now m peer states nonces).1.2.
Proof.
  intros Hc. assert (Hin : map_Forall (λ _ st, hs_confirmed st = true) (confirm now peer states))
    by by apply map_Forall_insert_2.
  destruct m; simpl; unfold handshake_request, handshake_response;
    destruct (verify_signed_message _ _ _ _) as [[env|] ?]; simpl; try done;
    by destruct (root_as_handshake _).
Qed.

(** With every state confirmed, the timer does nothing to any of them. *)
Lemma tick_all_confirmed e local l k :
  Forall (λ p, hs_confirmed p.2 = true) l → tick_all node_keys e local l k = ([], k).
Proof.
  induction 1 as [|[peer st] l Hc _ IH]; [done|]. simpl in *. unfold tick_peer. by rewrite Hc.
Qed.

Lemma ticked_confirmed e local (m : gmap PeerId HandshakeState) :
  map_Forall (λ _ st, hs_confirmed st = true) m → map_imap (ticked node_keys e local) m = m.
Proof.
  intros Hm. apply map_eq. intros p. rewrite map_lookup_imap.
  destruct (m !! p) as [st|] eqn:Ep; [|done]. simpl. unfold ticked, tick_peer.
  by rewrite (Hm _ _ Ep : hs_confirmed st = true).
Qed.

Lemma handshake_tick_confirmed e n :
  map_Forall (λ _ st, hs_confirmed st = true) (handshake_states n) →
  handshake_tick node_keys e n =
    ([PeerList (peer_to_string <$> gossip_peers (swarm_kad (task_node (task n))))], n).
Proof.
  intros Hc. unfold handshake_tick. rewrite tick_all_confirmed.
  - rewrite ticked_confirmed by done. simpl. f_equal.
    by destruct n as [[[? ? ? ? ? ? ?] ? ?] ? ? ? ?].
  - apply Forall_forall. intros [p st] Hin%elem_of_map_to_list. by apply (Hc p).
Qed.

(** ** One event, on a node that satisfies the invariant *)

(** Who may change the holdings: the sender of a verified apply request that
    holds a reservation, and the local API by a self-apply. *)
Definition event_authorised (e : surroundings) (ev : event) n : Prop :=
  let s := task_node (task n) in
  match ev with
  | ApplyMessage (RrRequest request) peer => apply_authorised (now e) peer request s
  | ControlMessage (SendApplyRequest peer _ _) => peer = local_peer_id (swarm_kad s)
  | _ => False
  end.

(** The delete request a task comes from: its envelope verified, and its key
    is the task's. *)
Definition delete_verified (e : surroundings) (ev : event) (nonces : nonce_store)
    (tsk : delete_task) : Prop :=
  ∃ request peer env nonces', ev = DeleteMessageEvent (RrRequest request) peer ∧
    verify_signed_message (now e) peer request nonces = (Some env, nonces') ∧
    task_pubkey tsk = pubkey env.

(** What an event can do to a node. *)
Record outcome (e : surroundings) (ev : event) n n' : Prop := {
  out_ok : node_ok n';
  out_holdings : holdings (task_node (task n')) = holdings (task_node (task n)) ∨ event_authorised e ev n;
  out_spawned : spawned n' = spawned n ∨
    ∃ tsk, spawned n' = spawned n ++ [(tsk, CheckOwner)] ∧
      delete_verified e ev (NONCE_STORE (task_node (task n))) tsk;
}.

Lemma quiet_outcome e ev n n' :
  node_ok n → (state_ok (task_node (task n)) → state_ok (task_node (task n'))) →
  holdings (task_node (task n')) = holdings (task_node (task n)) →
  handshake_states n' = handshake_states n →
  ENQUEUED_CONTROLS (task_control (task n')) = ENQUEUED_CONTROLS (task_control (task n)) →
  spawned n' = spawned n → outcome e ev n n'.
Proof.
  intros (Hs & Hh & Hq) Hs' Hw Hh' Hq' Hsp. split; [|by left..].
  split_and!; [by apply Hs'|by rewrite Hh'|by rewrite Hq'].
Qed.

(** The common case: the new node is given, and it is quiet. *)
Ltac quiet := intros [= _ <-]; by apply quiet_outcome.

Lemma capacity_outcome e ev n s' :
  node_ok n →
  engine_world s' = engine_world (task_node (task n)) ∧
  MANIFEST_OWNER_MAP s' = MANIFEST_OWNER_MAP (task_node (task n)) ∧
  (verifier_ok (RESOURCE_VERIFIER (task_node (task n))) → verifier_ok (RESOURCE_VERIFIER s')) →
  outcome e ev n (set_node s' n).
Proof.
  intros Hok (Hw & Ho & Hv). apply quiet_outcome; try done; unfold state_ok, holdings; simpl.
  - rewrite Ho. naive_solver.
  - by rewrite Hw, Ho.
Qed.

Lemma apply_outcome e request peer n :
  node_ok n →
  outcome e (ApplyMessage (RrRequest request) peer) n
    (set_node (handle_apply_request kem_keypair debug_assertions downcast_mock (now e) peer request
                 (task_node (task n))).2 n).
Proof.
  intros (Hs & Hh & Hq). split; [|simpl|by left].
  - split_and!; [by apply apply_state_ok|done..].
  - destruct (handle_apply_effects kem_keypair debug_assertions downcast_mock (now e) peer request
      (task_node (task n))); [left; by apply effects_holdings|by right].
Qed.

Lemma delete_outcome e request peer n resp tsk s' :
  node_ok n → delete_message (now e) peer request (task_node (task n)) = (resp, tsk, s') →
  outcome e (DeleteMessageEvent (RrRequest request) peer) n
    (set_spawned (spawned n ++ option_list ((., CheckOwner) <$> tsk)) (set_node s' n)).
Proof.
  intros Hok. unfold delete_message.
  destruct (verify_signed_message _ _ _ _) as [[env|] nonces] eqn:Ev.
  - destruct (root_as_delete_request _); intros [= _ <- <-].
    + split; [exact Hok|by left|right]. eexists. split; [done|].
      by exists request, peer, env, nonces.
    + apply quiet_outcome; try done. apply app_nil_r.
  - intros [= _ <- <-]. apply quiet_outcome; try done. apply app_nil_r.
Qed.

Lemma handshake_outcome e m peer n r states nonces :
  node_ok n →
  handshake_message_event node_keys (default 0 (head (draws e))) (peer_draw e peer) (now_ms e) (now e)
    m peer (handshake_states n) (NONCE_STORE (task_node (task n))) = (r, states, nonces) →
  outcome e (HandshakeMessage m peer) n
    (set_handshakes states (set_node (set_nonces nonces (task_node (task n))) n)).
Proof.
  intros (Hs & Hh & Hq) Hm. split; [|by left..]. split_and!; [done| |done].
  eapply (handshake_event_confirmed (default 0 (head (draws e)))) in Hh. by rewrite Hm in Hh.
Qed.

Lemma control_outcome disabled e msg n o t' :
  node_ok n → handle_control_message disabled e msg (task n) = (o, t') →
  outcome e (ControlMessage msg) n (set_task t' n).
Proof.
  intros (Hs & Hh & Hq) (Hk & Hq' & Hc)%control_keeps. split; [|simpl|by left].
  - split_and!; [by apply Hk|done|simpl; by rewrite Hq'].
  - destruct Hc as [?|(m & tx & ->)]; [by left|by right].
Qed.

Lemma event_outcome e ev n o n' :
  node_ok n → handle_event e ev n = (o, n') → outcome e ev n n'.
Proof.
  intros Hok. pose proof Hok as (Hs & Hh & Hq). destruct ev; simpl.
  - destruct (handle_control_message _ _ _ _) as [o' t'] eqn:Ec. intros [= _ <-].
    by eapply control_outcome.
  - quiet.
  - destruct (handshake_message_event _ _ _ _ _ _ _ _ _) as [[r st] nonces] eqn:Em. intros [= _ <-].
    by eapply handshake_outcome.
  - destruct m; [|quiet]. pose proof (apply_outcome e data peer n Hok) as Ha.
    destruct (handle_apply_request _ _ _ _ _ _ _). by intros [= _ <-].
  - destruct m; [|quiet]. destruct (delete_message _ _ _ _) as [[resp tsk] s'] eqn:Ed. intros [= _ <-].
    by eapply delete_outcome.
  - match goal with |- context [gossipsub_message ?a ?b ?c ?d ?e ?f ?g ?h ?i ?j] =>
      pose proof (gossipsub_message_keeps a b c d e f g h i j) as Hk;
      destruct (gossipsub_message a b c d e f g h i j) end.
    intros [= _ <-]. by apply capacity_outcome.
  - destruct m; [|quiet].
    match goal with |- context [scheduler_request ?a ?b ?c ?d ?e ?f ?g ?h] =>
      pose proof (scheduler_request_keeps a b c d e f g h) as Hk;
      destruct (scheduler_request a b c d e f g h) end.
    intros [= _ <-]. by apply capacity_outcome.
  - destruct e0; quiet.
  - quiet.
  - quiet.
  - intros [= _ <-]. by case_decide; apply quiet_outcome.
  - rewrite handshake_tick_confirmed by done. quiet.
  - rewrite drain_empty by done. quiet.
  - quiet.
  - quiet.
Qed.

(** ** Runs *)

Abbreviation node_step := (node_step kem_keypair node_keys debug_assertions downcast_mock).
Abbreviation node_reach := (node_reach kem_keypair node_keys debug_assertions downcast_mock).

(** The task was spawned by a verified delete request of the run. *)
Definition requested (tr : list step_label) (tsk : delete_task) : Prop :=
  ∃ e ev nonces, Handled e ev nonces ∈ tr ∧ delete_verified e ev nonces tsk.

(** The task has checked the ownership in the run, and may delete. *)
Definition checked (tr : list step_label) (tsk : delete_task) : Prop :=
  ∃ now owner, Deleting now tsk CheckOwner (Some owner) ∈ tr ∧ may_delete tsk owner.

(** Every task was requested, and past its check it passed it. *)
Definition task_traced (tr : list step_label) (dt : delete_task * delete_stage) : Prop :=
  requested tr dt.1 ∧ (dt.2 = CheckOwner ∨ checked tr dt.1).

Lemma task_traced_cons l tr dt : task_traced tr dt → task_traced (l :: tr) dt.
Proof.
  intros [(e & ev & nonces & Hin & Hd) Hc]. split.
  - exists e, ev, nonces. split; [by right|done].
  - destruct Hc as [?|(now & owner & ? & ?)]; [by left|right]. exists now, owner. split; [by right|done].
Qed.

Lemma tasks_traced_cons l tr ts : Forall (task_traced tr) ts → Forall (task_traced (l :: tr)) ts.
Proof. intros Hts. eapply Forall_impl; [done|apply task_traced_cons]. Qed.

Lemma run_spawned_ok now i n : node_ok n → node_ok (run_spawned now i n).
Proof.
  intros Hn. pose proof Hn as (Hs & Hh & Hq). unfold run_spawned. destruct (spawned n !! i) as [[tsk st]|]; [|done].
  destruct (delete_step_keeps now tsk st (task_node (task n))) as [Hv Ho].
  assert (state_ok (delete_step now tsk st (task_node (task n))).2) as Hs'.
  { destruct Hs as [Hv0 Ho0]. split; [by rewrite Hv|]. intros id owner Hid. apply (Ho0 id owner).
    destruct Ho as [Ho|Ho]; rewrite Ho in Hid; [done|by apply lookup_delete_Some in Hid as [_ ?]]. }
  destruct (delete_step _ _ _ _) as [[report|st'] s']; by split_and!.
Qed.

Lemma run_spawned_tasks tr now i tsk st n :
  Forall (task_traced tr) (spawned n) → spawned n !! i = Some (tsk, st) →
  Forall (task_traced (Deleting now tsk st (get_manifest_owner (task_manifest_id tsk) (task_node (task n))) :: tr))
    (spawned (run_spawned now i n)).
Proof.
  intros Hts Hi. unfold run_spawned. rewrite Hi.
  pose proof (proj1 (Forall_lookup _ _) Hts _ _ Hi) as Ht.
  destruct (delete_step now tsk st _) as [[report|st'] s'] eqn:Ed; cbn [spawned set_spawned].
  - by apply Forall_delete, tasks_traced_cons.
  - apply Forall_insert; [by apply tasks_traced_cons|].
    destruct (task_traced_cons (Deleting now tsk st (get_manifest_owner (task_manifest_id tsk) (task_node (task n))))
      _ _ Ht) as [Hr Hc]. split; [exact Hr|right]. cbn [fst snd] in *. destruct Hc as [->|Hc]; [|done].
    destruct (check_step now tsk (task_node (task n))) as [(_ & owner & Ho & Hm)|(msg & Hm)]; [|congruence].
    exists now, owner. split; [rewrite Ho; by left|done].
Qed.

Lemma node_step_inv tr n tr' n' :
  node_ok n → Forall (task_traced tr) (spawned n) → node_step tr n tr' n' →
  node_ok n' ∧ Forall (task_traced tr') (spawned n').
Proof.
  intros IHok IHsp Hst. destruct Hst as [tr e ev n o n' _ He|tr now i tsk st n Hi].
  - destruct (event_outcome _ _ _ _ _ IHok He) as [Hok' _ Hsp']. split; [done|].
    destruct Hsp' as [->|(tsk & -> & Hd)]; [by apply tasks_traced_cons|].
    apply Forall_app_2; [by apply tasks_traced_cons|]. apply Forall_singleton. split; [|by left].
    eexists _, _, _. split; [by left|done].
  - split; [by apply run_spawned_ok|by apply run_spawned_tasks].
Qed.

(** The invariant alone, whatever tasks are under way. *)
Lemma node_step_ok tr n tr' n' : node_ok n → node_step tr n tr' n' → node_ok n'.
Proof.
  intros Hok Hst. destruct Hst as [tr e ev n o n' _ He|tr now i tsk st n Hi]; [|by apply run_spawned_ok].
  by destruct (event_outcome _ _ _ _ _ Hok He).
Qed.

(** *** What the machine has *)

Abbreviation resources n := (system_resources (RESOURCE_VERIFIER (task_node (task n)))).

Lemma process_resources now req json owner s :
  system_resources (RESOURCE_VERIFIER
    (process_manifest_deployment kem_keypair debug_assertions downcast_mock now req json owner s).2) =
  system_resources (RESOURCE_VERIFIER s).
Proof.
  by destruct (process_manifest_deployment_keeps kem_keypair debug_assertions downcast_mock now req json owner s)
    as [[-> _]|[-> _]].
Qed.

Lemma control_resources disabled e msg t :
  system_resources (RESOURCE_VERIFIER (task_node (handle_control_message disabled e msg t).2)) =
  system_resources (RESOURCE_VERIFIER (task_node t)).
Proof.
  destruct msg; simpl; try done.
  - by destruct (handle_query_capacity_with_payload _ _ _ _ _ _ _ _ _ _ _) as [[? ?] ?].
  - unfold handle_send_apply_request. case_decide; [|done]. unfold process_enhanced_self_apply_request.
    destruct (root_as_apply_request manifest) as [req|]; [|done].
    destruct (ar_manifest_json req) as [json|]; [|done].
    pose proof (process_resources (now e) req json (own_pubkey e) (task_node t)) as Hp.
    by destruct (process_manifest_deployment _ _ _ _ _ _ _ _).
  - unfold handle_announce_provider. by destruct (announce_attempts _ _ _ _) as [[] k].
  - unfold handle_withdraw_provider. by destruct (announce_provider_direct _ _ _).
Qed.

Lemma event_resources e ev n o n' :
  node_ok n → handle_event e ev n = (o, n') → resources n' = resources n.
Proof.
  intros (_ & Hh & Hq). destruct ev; simpl; try by intros [= _ <-].
  - match goal with |- context [handle_control_message ?d e msg (task n)] =>
      pose proof (control_resources d e msg (task n)) as Hc; destruct (handle_control_message d e msg (task n)) end.
    by intros [= _ <-].
  - destruct (handshake_message_event _ _ _ _ _ _ _ _ _) as [[? ?] ?]. by intros [= _ <-].
  - destruct m; [|by intros [= _ <-]].
    destruct (handle_apply_request _ _ _ _ _ _ _) as [r s'] eqn:Ea. intros [= _ <-]. simpl. revert Ea.
    unfold handle_apply_request. destruct (verify_envelope_and_check_nonce_for_peer _ _ _ _) as [[parts|] nonces];
      [|by intros [= _ <-]].
    intros Ea. destruct (apply_verified_keeps kem_keypair debug_assertions downcast_mock (now e) (payload parts)
      (pubkey parts) (set_nonces nonces (task_node (task n)))) as [Hv _]. rewrite Ea in Hv.
    cbn [snd] in Hv. by destruct Hv as [-> | ->].
  - destruct m; [|by intros [= _ <-]]. destruct (delete_message _ _ _ _) as [[resp tsk] s'] eqn:Ed.
    intros [= _ <-]. revert Ed. unfold delete_message. destruct (verify_signed_message _ _ _ _) as [[env|] nonces];
      [destruct (root_as_delete_request _)|]; by intros [= _ _ <-].
  - match goal with |- context [gossipsub_message ?a ?b ?c ?d ?e ?f ?g ?h ?i ?j] =>
      pose proof (gossipsub_message_resources a b c d e f g h i j) as Hk;
      destruct (gossipsub_message a b c d e f g h i j) end. by intros [= _ <-].
  - destruct m; [|by intros [= _ <-]].
    match goal with |- context [scheduler_request ?a ?b ?c ?d ?e ?f ?g ?h] =>
      pose proof (scheduler_request_resources a b c d e f g h) as Hk;
      destruct (scheduler_request a b c d e f g h) end. by intros [= _ <-].
  - destruct e0; by intros [= _ <-].
  - intros [= _ <-]. by case_decide.
  - rewrite handshake_tick_confirmed by done. by intros [= _ <-].
  - rewrite drain_empty by done. by intros [= _ <-].
Qed.

(** No step of the node changes what the machine has. *)
Lemma node_step_resources tr n tr' n' : node_ok n → node_step tr n tr' n' → resources n' = resources n.
Proof.
  intros Hok Hst. destruct Hst as [tr e ev n o n' _ He|tr now i tsk st n Hi]; [by eapply event_resources|].
  unfold run_spawned. rewrite Hi. destruct (delete_step_keeps now tsk st (task_node (task n))) as [Hv _].
  destruct (delete_step _ _ _ _) as [[] s']; simpl in *; by rewrite Hv.
Qed.

Lemma node_reach_inv n0 tr n :
  node_ok n0 → spawned n0 = [] → node_reach n0 tr n → node_ok n ∧ Forall (task_traced tr) (spawned n).
Proof.
  intros Hok Hsp. induction 1 as [|tr n tr' n' _ [IHok IHsp] Hst]; [by rewrite Hsp|].
  by eapply node_step_inv.
Qed.

(** Who may change the holdings, over a whole run. *)
Definition authorised (tr : list step_label) n (l : step_label) : Prop :=
  match l with
  | Handled e ev _ => event_authorised e ev n
  | Deleting _ tsk stage _ => stage ≠ CheckOwner ∧ requested tr tsk ∧ checked tr tsk
  end.

Lemma node_step_authorised tr n l n' :
  node_ok n → Forall (task_traced tr) (spawned n) → node_step tr n (l :: tr) n' →
  holdings (task_node (task n')) = holdings (task_node (task n)) ∨ authorised tr n l.
Proof.
  intros Hn Htasks Hst. inversion Hst as [tr' e ev ? o ? _ He|tr' now i tsk st ? Hi]; subst.
  - by destruct (event_outcome _ _ _ _ _ Hn He).
  - destruct (proj1 (Forall_lookup _ _) Htasks _ _ Hi) as [Hr Hc]. cbn [fst snd] in *.
    assert (st = CheckOwner ∨ st ≠ CheckOwner) as [->|Hne] by (destruct st; auto).
    + left. unfold run_spawned. rewrite Hi.
      by destruct (check_step now tsk (task_node (task n))) as [(-> & _)|(msg & ->)].
    + right. split_and!; [done..|]. by destruct Hc.
Qed.

End lemmas.

(** ** Properties *)

Section properties.
Context `{PeerIds, !Kademlia, !Swarm, Serde, FlatBuffers, Crypto, Kem, Messages, !MessagesLaws} {W : Type}.
Context (kem_keypair node_keys : result string (list byte * list byte)) (debug_assertions : bool).
Context (downcast_mock : RuntimeEngine W → option (Z → string → list byte → DeploymentConfig → string →
                                                   W → result RuntimeError WorkloadInfo * W)).
Implicit Types n : Node (W:=W).

(** Whatever the peers send and in whatever order, the containers of
    a node and the owners it records change only in three ways: an apply request
    in a verified envelope, for a manifest that holds a capacity reservation; a
    self-apply of the local API; a stage of a delete task that an earlier verified
    request spawned and that, earlier in the run, found an owner recorded that is
    its signer, or was forced. *)
Theorem changes_are_authorised n0 tr n l n' :
  node_ok n0 → spawned n0 = [] →
  node_reach kem_keypair node_keys debug_assertions downcast_mock n0 tr n →
  node_step kem_keypair node_keys debug_assertions downcast_mock tr n (l :: tr) n' →
  holdings (task_node (task n')) = holdings (task_node (task n)) ∨ authorised tr n l.
Proof.
  intros Hok Hsp [Hn Htasks]%node_reach_inv Hst; [|done..]. by eapply node_step_authorised.
Qed.

(** A node never promises more than it has and never records an empty
    owner, over any run of its event loop and of the tasks it spawns, from any
    state in which this holds (such as a freshly started node). *)
Theorem node_run_invariant n0 tr n :
  node_ok n0 → spawned n0 = [] →
  node_reach kem_keypair node_keys debug_assertions downcast_mock n0 tr n →
  let s := task_node (task n) in
  no_overcommit (RESOURCE_VERIFIER s) ∧ (∀ id, get_manifest_owner id s ≠ Some []) ∧
  Forall (task_traced tr) (spawned n).
Proof.
  intros Hok Hsp [((Hv & Ho) & _) Ht]%node_reach_inv; [|done..].
  split_and!; [by destruct Hv as (_ & _ & ?)| |done].
  intros id Hid. by apply (Ho id []).
Qed.

(** A node never starts a handshake: its peers enter the table only
    already confirmed, so the timer, which contacts the unconfirmed ones, sends
    nothing and gives up on nobody. *)
Theorem handshake_never_started n0 tr n e :
  node_ok n0 → spawned n0 = [] →
  node_reach kem_keypair node_keys debug_assertions downcast_mock n0 tr n →
  handle_event kem_keypair node_keys debug_assertions downcast_mock e HandshakeTick n =
    (Some [PeerList (peer_to_string <$> gossip_peers (swarm_kad (task_node (task n))))], n).
Proof.
  intros Hok Hsp [(_ & Hh & _) _]%node_reach_inv; [|done..].
  simpl. by rewrite handshake_tick_confirmed.
Qed.

End properties.

(** ** Concrete runs *)

Section witnesses.
Import Toy.
#[local] Existing Instance demo_messages.

#[local] Instance demo_messages_laws : MessagesLaws.
Proof. split. done. Qed.

(** A node that has bid for manifest [id1]. *)
Definition bidding_state : NodeState :=
  set_verifier (reserve_capacity 0 0 0 "r1" (Some "id1") test_request test_verifier).2 demo_state.

Definition bidding_node : Node :=
  {| task := {| task_node := bidding_state;
                task_control := {| ACTIVE_ANNOUNCES := ∅; ENQUEUED_CONTROLS := [];
                                   PENDING_PROVIDERS_QUERIES := ∅; PENDING_MANIFEST_REQUESTS := ∅ |};
                task_pending := ∅ |};
     handshake_states := ∅; DISABLED_SCHEDULING := ∅; spawned := []; running := true |}.

Lemma bidding_node_ok : node_ok bidding_node.
Proof.
  split_and!; [|apply map_Forall_empty|done]. split; [|apply map_Forall_empty].
  apply reserve_capacity_ok; [apply test_verifier_ok|apply test_request_wf].
Qed.

Definition demo_surroundings : surroundings :=
  {| now := 1; now_ms := 1; draws := []; peer_draw := λ _, 0; own_pubkey := [] |}.

(** The loop handles the apply request of peer 2. *)
Definition demo_event : event := ApplyMessage (RrRequest demo_request) (toy_peer x02).

Definition demo_step := handle_event demo_keys demo_keys false (λ _, None) demo_surroundings demo_event bidding_node.

Definition demo_output : list output :=
  [RespondApply (toy_peer x02) (build_apply_response true "mock-web-id1" "workload deployed successfully")].

Lemma demo_step_eq : demo_step = (Some demo_output, demo_step.2).
Proof. apply pair_snd. vm_compute. reflexivity. Qed.

Lemma changes_are_authorised_witness :
  holdings (task_node (task demo_step.2)) = holdings (task_node (task bidding_node)) ∨
  authorised [] bidding_node (Handled demo_surroundings demo_event (NONCE_STORE bidding_state)).
Proof.
  apply (changes_are_authorised demo_keys demo_keys false (λ _, None) bidding_node [] bidding_node
    (Handled demo_surroundings demo_event (NONCE_STORE bidding_state)) demo_step.2).
  - apply bidding_node_ok.
  - reflexivity.
  - apply node_reach_init.
  - exact (node_step_event demo_keys demo_keys false (λ _, None) [] demo_surroundings demo_event
      bidding_node demo_output demo_step.2 eq_refl demo_step_eq).
Defined.

Lemma demo_reach :
  node_reach demo_keys demo_keys false (λ _, None) bidding_node
    [Handled demo_surroundings demo_event (NONCE_STORE bidding_state)] demo_step.2.
Proof.
  eapply node_reach_step; [apply node_reach_init|].
  exact (node_step_event demo_keys demo_keys false (λ _, None) [] demo_surroundings demo_event
    bidding_node demo_output demo_step.2 eq_refl demo_step_eq).
Qed.

Lemma node_run_invariant_witness :
  no_overcommit (RESOURCE_VERIFIER (task_node (task demo_step.2))) ∧
  get_manifest_owner "id1" (task_node (task demo_step.2)) ≠ Some [].
Proof.
  destruct (node_run_invariant demo_keys demo_keys false (λ _, None) bidding_node
    [Handled demo_surroundings demo_event (NONCE_STORE bidding_state)] demo_step.2) as (H1 & H2 & _).
  - apply bidding_node_ok.
  - reflexivity.
  - apply demo_reach.
  - split; [exact H1|apply H2].
Defined.

Lemma handshake_never_started_witness :
  handle_event demo_keys demo_keys false (λ _, None) demo_surroundings HandshakeTick demo_step.2 =
    (Some [PeerList ["peer-2"]], demo_step.2).
Proof.
  apply (handshake_never_started demo_keys demo_keys false (λ _, None) bidding_node
    [Handled demo_surroundings demo_event (NONCE_STORE bidding_state)]).
  - apply bidding_node_ok.
  - reflexivity.
  - apply demo_reach.
Defined.

End witnesses.
