(* ===== verification/System.v ===== *)
(** * The node with its REST server

    The event loop of [Node] and the HTTP server of [RestApi] run side by side
    and share the node's state: owners, containers, nonces. A request passes the
    middleware, waits, and is served; a delete request is served one provider at
    a time. Everything interleaves in any order. *)

From S2P Require Import Prelude RustStr Utf8 RustHash Constants Serde Libp2p Concrete Provider Runtime.
From S2P Require Import ResourceVerifier NonceStore Envelope RecipientBlob MockEngine WorkloadIntegration.
From S2P Require Import DeleteMessage Protocol RestEnvelope CapacityMessages Handshake Control RestApi Node.

Open Scope list_scope.

(** An admitted request that waits for its handler. *)
Record pending := {
  p_endpoint : endpoint;
  p_params : gmap string string;
  p_meta : EnvelopeMetadata;
  p_body : option (list byte);
}.

Section system.
Context `{PeerIds, !Kademlia, !Swarm, !PeerParse, Serde, JsonPrint, FlatBuffers, Crypto, Kem, KemPublic, Messages, Tables}
  {W : Type}.

(** A [delete_task] handler in its loop: the providers left. *)
Record delete_run := {
  run_task : string;
  run_force : bool;
  run_request : list byte;
  run_local : PeerId;
  run_tx : nat;
  run_left : list string;
  run_progress : delete_progress;
}.

Record System := {
  sys_node : Node (W:=W);
  sys_rest : RestState;
  sys_pending : list pending;
  sys_deletes : list delete_run;
}.

(** What happened, latest first. *)
Inductive sys_label :=
| LNode (l : step_label)
| LAdmitted (now : Z) (request : Request) (store : nonce_store)
| LCreated (p : pending)
| LServed (p : pending)
| LDeleteStarted (p : pending) (task_id : string)
| LDeleteOn (now : Z) (run : delete_run) (provider : string).

Definition node_labels (tr : list sys_label) : list step_label :=
  omap (λ l, match l with LNode l => Some l | _ => None end) tr.

Context (kem_keypair node_keys : result string (list byte * list byte)) (debug_assertions : bool).
Context (downcast_mock : RuntimeEngine W → option (Z → string → list byte → DeploymentConfig → string →
                                                   W → result RuntimeError WorkloadInfo * W)).
(** The handler the router was built with. *)
Context (handler : EnvelopeHandler).

Abbreviation state_of n := (task_node (task n)).

(** The rest of a run after one provider. *)
Definition run_next (run : delete_run) (left : list string) (p : delete_progress) : delete_run :=
  {| run_task := run_task run; run_force := run_force run; run_request := run_request run;
     run_local := run_local run; run_tx := S (run_tx run); run_left := left; run_progress := p |}.

Inductive sys_step : list sys_label → System → sys_label → System → Prop :=
| sys_step_node tr n r ps ds l n' :
    node_step kem_keypair node_keys debug_assertions downcast_mock (node_labels tr) n
      (l :: node_labels tr) n' →
    sys_step tr {| sys_node := n; sys_rest := r; sys_pending := ps; sys_deletes := ds |} (LNode l)
      {| sys_node := n'; sys_rest := r; sys_pending := ps; sys_deletes := ds |}
(** A request that the middleware forwards and a route matches. *)
| sys_step_admit tr n r ps ds now m path params request meta body store' ep :
    envelope_middleware now handler request (NONCE_STORE (state_of n)) =
      (Some (Forwarded meta body), store') →
    route m path = Some ep →
    sys_step tr {| sys_node := n; sys_rest := r; sys_pending := ps; sys_deletes := ds |}
      (LAdmitted now request (NONCE_STORE (state_of n)))
      {| sys_node := set_node (set_nonces store' (state_of n)) n; sys_rest := r;
         sys_pending := {| p_endpoint := ep; p_params := params; p_meta := meta; p_body := body |} :: ps;
         sys_deletes := ds |}
(** A request that is rejected; its nonce may have been recorded. *)
| sys_step_reject tr n r ps ds now request o store' :
    envelope_middleware now handler request (NONCE_STORE (state_of n)) = (o, store') →
    sys_step tr {| sys_node := n; sys_rest := r; sys_pending := ps; sys_deletes := ds |}
      (LAdmitted now request (NONCE_STORE (state_of n)))
      {| sys_node := set_node (set_nonces store' (state_of n)) n; sys_rest := r;
         sys_pending := ps; sys_deletes := ds |}
| sys_step_create tr n r ps ds i p body td d resp r' s' :
    ps !! i = Some p → p_endpoint p = EpCreateTask → p_body p = Some body →
    create_task td d (p_params p) (p_meta p) body r (state_of n) = (resp, r', s') →
    sys_step tr {| sys_node := n; sys_rest := r; sys_pending := ps; sys_deletes := ds |} (LCreated p)
      {| sys_node := set_node s' n; sys_rest := r'; sys_pending := delete i ps; sys_deletes := ds |}
(** The other handlers read and answer, or end before their loop. *)
| sys_step_serve tr n r ps ds i p :
    ps !! i = Some p → p_endpoint p ≠ EpCreateTask →
    sys_step tr {| sys_node := n; sys_rest := r; sys_pending := ps; sys_deletes := ds |} (LServed p)
      {| sys_node := n; sys_rest := r; sys_pending := delete i ps; sys_deletes := ds |}
(** The providers and the local peer are known: the loop starts. *)
| sys_step_delete tr n r ps ds i p body task_id (now_ms : Z) hs local tx :
    ps !! i = Some p → p_endpoint p = EpDeleteTask task_id → p_body p = Some body →
    sys_step tr {| sys_node := n; sys_rest := r; sys_pending := ps; sys_deletes := ds |}
      (LDeleteStarted p task_id)
      {| sys_node := n; sys_rest := r; sys_pending := delete i ps;
         sys_deletes :=
           {| run_task := task_id; run_force := force_requested body;
              run_request := build_delete_request task_id
                ("delete-" +:+ task_id +:+ "-" +:+ pretty now_ms)
                (default "unknown" (meta_peer_id (p_meta p))) (force_requested body);
              run_local := local; run_tx := tx; run_left := peer_to_string <$> (hs : list PeerId);
              run_progress := delete_nothing |} :: ds |}
| sys_step_provider tr n r ps ds i now a run provider left p' s' :
    ds !! i = Some run → run_left run = provider :: left →
    delete_on_provider now a (run_local run) (run_task run) (run_force run) (run_request run)
      (run_tx run) provider (run_progress run) (state_of n) = (p', s') →
    sys_step tr {| sys_node := n; sys_rest := r; sys_pending := ps; sys_deletes := ds |}
      (LDeleteOn now run provider)
      {| sys_node := set_node s' n; sys_rest := r; sys_pending := ps;
         sys_deletes := run_next run left p' :: delete i ds |}.

Inductive sys_reach (s0 : System) : list sys_label → System → Prop :=
| sys_reach_init : sys_reach s0 [] s0
| sys_reach_step tr s l s' : sys_reach s0 tr s → sys_step tr s l s' → sys_reach s0 (l :: tr) s'.

(** ** Invariant *)

(** The request went through the middleware with these keys and body. *)
Definition was_admitted (tr : list sys_label) (p : pending) : Prop :=
  ∃ now request store store', LAdmitted now request store ∈ tr ∧
    envelope_middleware now handler request store = (Some (Forwarded (p_meta p) (p_body p)), store').

(** The loop belongs to a delete request that was admitted. *)
Definition was_started (tr : list sys_label) (run : delete_run) : Prop :=
  ∃ p, LDeleteStarted p (run_task run) ∈ tr ∧ p_endpoint p = EpDeleteTask (run_task run).

Record sys_ok (tr : list sys_label) (s : System) : Prop := {
  ok_node : node_ok (sys_node s);
  ok_spawned : Forall (task_traced (node_labels tr)) (spawned (sys_node s));
  ok_rest : rest_ok (sys_rest s);
  ok_pending : Forall (was_admitted tr) (sys_pending s);
  ok_deletes : Forall (was_started tr) (sys_deletes s);
}.

Definition start_ok (s : System) : Prop :=
  node_ok (sys_node s) ∧ spawned (sys_node s) = [] ∧ rest_ok (sys_rest s) ∧
  sys_pending s = [] ∧ sys_deletes s = [].

Lemma was_admitted_cons l tr p : was_admitted tr p → was_admitted (l :: tr) p.
Proof. intros (? & ? & ? & ? & Hin & ?). do 4 eexists. split; [by right|done]. Qed.

Lemma was_started_cons l tr run : was_started tr run → was_started (l :: tr) run.
Proof. intros (p & ? & ?). exists p. split; [by right|done]. Qed.

Lemma admitted_cons l tr ps : Forall (was_admitted tr) ps → Forall (was_admitted (l :: tr)) ps.
Proof. intros Hp. eapply Forall_impl; [done|]. apply was_admitted_cons. Qed.

Lemma started_cons l tr ds : Forall (was_started tr) ds → Forall (was_started (l :: tr)) ds.
Proof. intros Hd. eapply Forall_impl; [done|]. apply was_started_cons. Qed.

(** A new state of the node keeps the invariant when the state does. *)
Lemma set_node_ok (n : Node (W:=W)) s' : node_ok n → (state_ok (state_of n) → state_ok s') → node_ok (set_node s' n).
Proof. intros (Hs & Hh & Hq) Hk. split_and!; [by apply Hk|done|done]. Qed.

Lemma create_state_ok td d params meta body r (s : NodeState (W:=W)) resp r' s' :
  create_task td d params meta body r s = (resp, r', s') → state_ok s → state_ok s'.
Proof.
  intros [(_ & _ & _ & ->)|(id & op & _ & _ & _ & _ & ->)]%create_task_cases [Hv Ho]; [done|].
  destruct (signing_pubkey meta) as [|b l]; [done|]. split; [done|]. by apply map_Forall_insert_2.
Qed.

Lemma provider_cases now a local task force req tx provider p (s : NodeState (W:=W)) p' s' :
  delete_on_provider now a local task force req tx provider p s = (p', s') →
  s' = s ∨ (peer_parse provider = Ok local ∧ s' = (remove_workloads_by_manifest_id now task s).2).
Proof.
  unfold delete_on_provider, handle_local_delete. destruct (peer_parse provider) as [q|]; [|naive_solver].
  case_decide as Hq.
  - subst. destruct (remove_workloads_by_manifest_id _ _ _). intros [= _ <-]. by right.
  - destruct (send_delete_request_to_peer _ _ _ _). intros [= _ <-]. by left.
Qed.

Lemma remove_state_ok now id (s : NodeState (W:=W)) :
  state_ok s → state_ok (remove_workloads_by_manifest_id now id s).2.
Proof.
  intros [Hv Ho]. destruct (remove_workloads_by_manifest_id_keeps now id s) as [Hver Hown].
  split; [by rewrite Hver|]. intros i owner Hi. eapply Ho, lookup_weaken; done.
Qed.

Context `{!MessagesLaws}.

Lemma sys_step_ok tr s l s' : sys_ok tr s → sys_step tr s l s' → sys_ok (l :: tr) s'.
Proof.
  intros [Hn Hsp Hr Hp Hd] Hst. destruct Hst as
    [tr n r ps ds l n' Hns|tr n r ps ds now m path params request meta body store' ep Hm Hroute
    |tr n r ps ds now request o store' Hm|tr n r ps ds i p body td d resp r' s' Hi Hep Hb Hc
    |tr n r ps ds i p Hi Hep|tr n r ps ds i p body task_id now_ms hs local tx Hi Hep Hb
    |tr n r ps ds i now a run provider left p' s' Hi Hl Hdel]; cbn [sys_node sys_rest sys_pending sys_deletes] in *;
    split; cbn [sys_node sys_rest sys_pending sys_deletes]; try (by apply admitted_cons);
    try (by apply started_cons); try done.
  - by eapply node_step_inv.
  - by eapply node_step_inv.
  - constructor; [|by apply admitted_cons]. do 4 eexists. split; [by left|exact Hm].
  - apply set_node_ok; [done|]. by eapply create_state_ok.
  - by eapply create_task_rest_ok.
  - by apply Forall_delete, admitted_cons.
  - by apply Forall_delete, admitted_cons.
  - by apply Forall_delete, admitted_cons.
  - constructor; [|by apply started_cons]. exists p. split; [by left|done].
  - apply set_node_ok; [done|]. apply provider_cases in Hdel as [->|[_ ->]]; [done|apply remove_state_ok].
  - apply started_cons with (l := LDeleteOn now run provider) in Hd.
    constructor; [|by apply Forall_delete]. rewrite Forall_lookup in Hd. exact (Hd _ _ Hi).
Qed.

(** The invariant of the node and of the stored tasks, from any start. *)
Definition live_ok (s : System) : Prop := node_ok (sys_node s) ∧ rest_ok (sys_rest s).

Lemma sys_step_live tr s l s' : live_ok s → sys_step tr s l s' → live_ok s'.
Proof.
  intros [Hn Hr] Hst. destruct Hst as
    [tr n r ps ds l n' Hns| | |tr n r ps ds i p body td d resp r' s' Hi Hep Hb Hc| |
    |tr n r ps ds i now a run provider left p' s' Hi Hl Hdel]; cbn [sys_node sys_rest] in *;
    (split; cbn [sys_node sys_rest]; try done).
  - by eapply node_step_ok.
  - apply set_node_ok; [done|]. by eapply create_state_ok.
  - by eapply create_task_rest_ok.
  - apply set_node_ok; [done|]. apply provider_cases in Hdel as [->|[_ ->]]; [done|apply remove_state_ok].
Qed.

Lemma sys_reach_live s0 tr s : live_ok s0 → sys_reach s0 tr s → live_ok s.
Proof. intros Hok. induction 1 as [|tr s l s' _ IH Hst]; [done|by eapply sys_step_live]. Qed.

Lemma sys_reach_ok s0 tr s : start_ok s0 → sys_reach s0 tr s → sys_ok tr s.
Proof.
  intros (Hn & Hsp & Hr & Hp & Hd). induction 1 as [|tr s l s' _ IH Hst]; [|by eapply sys_step_ok].
  split; [done|by rewrite Hsp|done|by rewrite Hp|by rewrite Hd].
Qed.

End system.

(** ** Properties *)

Section properties.
Context `{PeerIds, !Kademlia, !Swarm, !PeerParse, Serde, JsonPrint, FlatBuffers, Crypto, Kem, KemPublic, Messages, Tables, !MessagesLaws}
  {W : Type}.
Context (kem_keypair node_keys : result string (list byte * list byte)) (debug_assertions : bool).
Context (downcast_mock : RuntimeEngine W → option (Z → string → list byte → DeploymentConfig → string →
                                                   W → result RuntimeError WorkloadInfo * W)).
Context (handler : EnvelopeHandler).
Implicit Types (s : System (W:=W)).

Abbreviation sys_reach := (sys_reach kem_keypair node_keys debug_assertions downcast_mock handler).
Abbreviation sys_step := (sys_step kem_keypair node_keys debug_assertions downcast_mock handler).
Abbreviation state_of s := (task_node (task (sys_node s))).

(** An admitted request carried an envelope that verified under this key. *)
Definition key_verified (tr : list sys_label) (key : list byte) : Prop :=
  ∃ now request store bytes fb parts store', LAdmitted now request store ∈ tr ∧
    request_body request = Some bytes ∧ root_as_envelope bytes = Some fb ∧
    verify_flatbuffer_envelope_for_peer now bytes (from_secs 300)
      (default "global" (env_peer_id fb)) store = (Ok parts, store') ∧ pubkey parts = key.

(** Who may change the containers and the owners, and how. *)
Definition change_allowed (tr : list sys_label) s s' (l : sys_label) : Prop :=
  match l with
  | LNode l => authorised (node_labels tr) (sys_node s) l
  | LCreated p =>
      let key := signing_pubkey (p_meta p) in
      key ≠ [] ∧ key_verified tr key ∧ engine_world (state_of s') = engine_world (state_of s) ∧
      ∃ id, MANIFEST_OWNER_MAP (state_of s') = <[id := key]> (MANIFEST_OWNER_MAP (state_of s))
  | LDeleteOn now run provider =>
      was_started tr run ∧ peer_parse provider = Ok (run_local run) ∧
      state_of s' = (remove_workloads_by_manifest_id now (run_task run) (state_of s)).2
  | _ => False
  end.

Lemma admitted_key tr p :
  was_admitted handler tr p → signing_pubkey (p_meta p) ≠ [] →
  key_verified tr (signing_pubkey (p_meta p)).
Proof.
  intros (now & request & store & store' & Hin & Hm) Hne.
  destruct (middleware_verified _ _ _ _ _ _ _ Hm) as [[Hno _]|(bytes & fb & parts & plain & Hb & Hr & _ & Hk & Hv & _)].
  - by rewrite Hno in Hne.
  - exists now, request, store, bytes, fb, parts, store'. split_and!; try done. symmetry. by apply Hk.
Qed.

(** C7: with the REST server running beside the event loop, containers and
    owners change only as the event loop allows (an authorised apply, a self-apply,
    or a stage of a delete task that was requested under a verified signature and
    whose ownership check has passed earlier in the run; the owner may have changed
    since), or by a created task whose
    signing key verified on an admitted request and becomes the owner of one
    manifest, or by a delete request over HTTP, which needs no key at all. *)
Theorem system_changes s0 tr s l s' :
  start_ok s0 → sys_reach s0 tr s → sys_step tr s l s' →
  holdings (state_of s') = holdings (state_of s) ∨ change_allowed tr s s' l.
Proof.
  intros Hs0 Hreach Hst. apply sys_reach_ok in Hreach as [Hn Hsp Hr Hp Hd]; [|done..].
  destruct Hst as
    [tr n r ps ds l n' Hns|? ? ? ? ? ? ? ? ? ? ? ? ? ? Hm _|? ? ? ? ? ? ? ? ? Hm
    |tr n r ps ds i p body td d resp r' s' Hi Hep Hb Hc|?|?
    |tr n r ps ds i now a run provider left p' s' Hi Hl Hdel];
    cbn [sys_node sys_rest sys_pending sys_deletes] in *.
  all: try by left.
  - by eapply node_step_authorised.
  - apply create_task_cases in Hc as [(_ & _ & _ & ->)|(id & op & _ & _ & _ & _ & ->)]; [by left|].
    destruct (signing_pubkey (p_meta p)) as [|b key] eqn:Ek; [by left|right].
    rewrite Forall_lookup in Hp. specialize (Hp _ _ Hi). simpl. rewrite Ek. split_and!; [done| |done|by exists id].
    rewrite <- Ek. apply admitted_key; [done|by rewrite Ek].
  - apply provider_cases in Hdel as [->|[Hpp ->]]; [by left|right]. rewrite Forall_lookup in Hd.
    split_and!; [exact (Hd _ _ Hi)|done|done].
Qed.

(** over every interleaving of network events, delete tasks and HTTP
    requests, the node never overcommits, never records an empty owner, and
    every stored task stays well formed. *)
Theorem system_run_invariant s0 tr s :
  start_ok s0 → sys_reach s0 tr s →
  no_overcommit (RESOURCE_VERIFIER (state_of s)) ∧
  (∀ id, get_manifest_owner id (state_of s) ≠ Some []) ∧
  (∀ task_id t, task_store (sys_rest s) !! task_id = Some t → task_ok (sys_rest s) task_id t).
Proof.
  intros Hs0 Hreach. apply sys_reach_ok in Hreach as [((Hv & Ho) & _) _ Hr _ _]; [|done..].
  split_and!; [by destruct Hv as (_ & _ & ?)| |done]. intros id Hid. by apply (Ho id []).
Qed.

End properties.

(** ** Concrete runs *)

Section witnesses.
Import Toy ToyTables ToyKemPublic ToyRest.

#[local] Instance no_messages : Messages := reply_messages.
#[local] Instance no_messages_laws : MessagesLaws.
Proof. split. done. Qed.

(** The node of [RestApi] with one workload, owned by the key [0a]. *)
Definition serving : System :=
  {| sys_node :=
       {| task := {| task_node := set_verifier test_verifier demo_deployed;
                     task_control := {| ACTIVE_ANNOUNCES := ∅; ENQUEUED_CONTROLS := [];
                                        PENDING_PROVIDERS_QUERIES := ∅; PENDING_MANIFEST_REQUESTS := ∅ |};
                     task_pending := ∅ |};
          handshake_states := ∅; DISABLED_SCHEDULING := ∅; spawned := []; running := true |};
     sys_rest := demo_rest; sys_pending := []; sys_deletes := [] |}.

Lemma serving_ok : start_ok serving.
Proof.
  split; [|split; [done|split; [apply map_Forall_empty|done]]].
  split; [|split; [apply map_Forall_empty|done]]. split; [apply test_verifier_ok|].
  apply map_Forall_to_list. vm_compute. repeat constructor. discriminate.
Qed.

(** A DELETE without an envelope. *)
Definition plain_request : Request := {| headers := ∅; request_body := Some [] |}.

Definition plain_pending : pending :=
  {| p_endpoint := EpDeleteTask "id1"; p_params := ∅; p_meta := no_metadata; p_body := Some [] |}.

Definition plain_run : delete_run :=
  {| run_task := "id1"; run_force := false;
     run_request := build_delete_request "id1" ("delete-" +:+ "id1" +:+ "-" +:+ pretty 5) "unknown" false;
     run_local := toy_peer x07; run_tx := 2; run_left := ["peer-7"]; run_progress := delete_nothing |}.

Definition waiting (ps : list pending) (ds : list delete_run) : System :=
  {| sys_node := set_node (set_nonces (NONCE_STORE (task_node (task (sys_node serving))))
                   (task_node (task (sys_node serving)))) (sys_node serving);
     sys_rest := demo_rest; sys_pending := ps; sys_deletes := ds |}.

Definition plain_trace : list sys_label :=
  [LDeleteStarted plain_pending "id1";
   LAdmitted 1 plain_request (NONCE_STORE (task_node (task (sys_node serving))))].

Abbreviation demo_sys_step :=
  (sys_step (W := gmap string MockWorkload) demo_keys demo_keys false (λ _, None) demo_handler).
Abbreviation demo_sys_reach :=
  (sys_reach (W := gmap string MockWorkload) demo_keys demo_keys false (λ _, None) demo_handler).

Lemma plain_reach : demo_sys_reach serving plain_trace (waiting [] [plain_run]).
Proof.
  eapply sys_reach_step; [eapply sys_reach_step; [apply sys_reach_init|]|].
  - eapply (sys_step_admit demo_keys demo_keys false (λ _, None) demo_handler [] (sys_node serving) demo_rest
      [] [] 1 DELETE_METHOD ["tasks"; "id1"] ∅ plain_request no_metadata (Some [])); reflexivity.
  - exact (sys_step_delete demo_keys demo_keys false (λ _, None) demo_handler _
      (sys_node (waiting [] [])) demo_rest [plain_pending] [] 0 plain_pending [] "id1" 5 [toy_peer x07] (toy_peer x07) 2
      eq_refl eq_refl eq_refl).
Qed.

Definition plain_done :=
  delete_on_provider 9 demo_answers (toy_peer x07) "id1" false (run_request plain_run) 2 "peer-7"
    delete_nothing (task_node (task (sys_node (waiting [] [])))).

Definition deleted : System :=
  {| sys_node := set_node plain_done.2 (sys_node (waiting [] []));
     sys_rest := demo_rest; sys_pending := []; sys_deletes := [run_next plain_run [] plain_done.1] |}.

Lemma system_changes_witness :
  engine_world (task_node (task (sys_node serving))) ≠ ∅ ∧
  engine_world (task_node (task (sys_node deleted))) = ∅ ∧
  (holdings (task_node (task (sys_node deleted))) = holdings (task_node (task (sys_node (waiting [] [plain_run])))) ∨
   change_allowed plain_trace (waiting [] [plain_run]) deleted (LDeleteOn 9 plain_run "peer-7")).
Proof.
  split; [vm_compute; discriminate|]. split; [vm_compute; reflexivity|].
  eapply (system_changes demo_keys demo_keys false (λ _, None) demo_handler serving plain_trace).
  - apply serving_ok.
  - apply plain_reach.
  - exact (sys_step_provider demo_keys demo_keys false (λ _, None) demo_handler plain_trace
      (sys_node (waiting [] [])) demo_rest [] [plain_run] 0 9 demo_answers plain_run "peer-7" []
      plain_done.1 plain_done.2 eq_refl eq_refl (surjective_pairing plain_done)).
Defined.

Lemma system_run_invariant_witness :
  no_overcommit (RESOURCE_VERIFIER (task_node (task (sys_node (waiting [] [plain_run]))))) ∧
  get_manifest_owner "id1" (task_node (task (sys_node (waiting [] [plain_run])))) ≠ Some [] ∧
  (∀ task_id t, task_store (sys_rest (waiting [] [plain_run])) !! task_id = Some t →
     task_ok (sys_rest (waiting [] [plain_run])) task_id t).
Proof.
  destruct (system_run_invariant demo_keys demo_keys false (λ _, None) demo_handler serving plain_trace
    (waiting [] [plain_run])) as (H1 & H2 & H3).
  - apply serving_ok.
  - apply plain_reach.
  - split; [exact H1|]. split; [apply H2|exact H3].
Defined.

End witnesses.
