(* ===== verification/Startup.v ===== *)
(** * Start-up of a node ([machine/src/lib.rs], [libp2p_beemesh/mod.rs], [main.rs])

    From the command line to the running tasks: the key configuration, the
    node's key pair, the swarm, the envelope handler of the REST server, the
    engines and the servers. The libp2p task runs from the moment it is spawned,
    while the rest of the start-up initialises what it uses ([starting]). The state
    of the process is a record; what the
    operating system and the network answer are arguments. An error ends the
    start where it happens; the files and globals written before stay. *)

From S2P Require Import Prelude RustStr Utf8 RustHash Constants Network Serde Libp2p Concrete Provider Runtime.
From S2P Require Import ResourceVerifier NonceStore Envelope RecipientBlob Keypairs MockEngine.
From S2P Require Import WorkloadIntegration EngineHost Podman DeleteMessage Protocol RestEnvelope.
From S2P Require Import CapacityMessages Handshake Control RestApi Node System.

Open Scope rust_scope.
Open Scope list_scope.

(** ** The command line *)

Record Cli := {
  ephemeral : bool;
  rest_api_host : string;
  rest_api_port : Z;
  disable_rest_api : bool;
  disable_machine_api : bool;
  disable_scheduling : bool;
  node_name : option string;
  mock_only_runtime : bool;
  podman_socket : option string;
  signing_ephemeral : bool;
  kem_ephemeral : bool;
  ephemeral_keys : bool;
  api_socket : option string;
  key_dir : string;
  bootstrap_peer : list string;
  libp2p_quic_port : Z;
  libp2p_host : string;
}.

(** Without any option the REST server listens on [host]: the command line says
    [0.0.0.0], [Default] says [127.0.0.1]. *)
Definition no_options (host : string) : Cli :=
  {| ephemeral := false; rest_api_host := host; rest_api_port := 3000; disable_rest_api := false;
     disable_machine_api := false; disable_scheduling := false; node_name := None;
     mock_only_runtime := false; podman_socket := None; signing_ephemeral := false;
     kem_ephemeral := false; ephemeral_keys := false; api_socket := Some "/run/beemesh/host.sock";
     key_dir := "/etc/beemesh/machine"; bootstrap_peer := []; libp2p_quic_port := 0;
     libp2p_host := "0.0.0.0" |}.

Definition Cli_parse_nothing : Cli := no_options "0.0.0.0".
Definition Cli_default : Cli := no_options "127.0.0.1".

(** ** Keys *)

Definition keypair_mode (is_ephemeral : bool) : KeypairMode :=
  if is_ephemeral then Ephemeral else Persistent.

Definition keypair_config (cli : Cli) : KeypairConfig :=
  {| signing_mode := keypair_mode (signing_ephemeral cli || ephemeral_keys cli);
     kem_mode := keypair_mode (kem_ephemeral cli || ephemeral_keys cli);
     key_directory := Some (key_dir cli) |}.

(** A [OnceCell] keeps its first value. *)
Definition set_once {A} (a : A) (cell : option A) : option A :=
  match cell with Some _ => cell | None => Some a end.

Definition set_node_keypair (pair : option keys) (cell : option (option keys)) : option (option keys) :=
  set_once pair cell.

(** How the calls of this step end: [ensure_dir] on the key directory and on
    the directory under the home, reading, generating and writing. *)
Record node_key_io := {
  nk_dir : bool;
  nk_home_dir : bool;
  nk_read : bool;
  nk_fresh : option keys;
  nk_write_pub : write_outcome;
  nk_write_priv : write_outcome;
}.

(** The directory of the node's keys: the configured one, or [.beemesh] under
    the home when that one cannot be prepared. *)
Definition node_key_path (cli : Cli) (i : node_key_io) (k : KeyState) : result string string :=
  if nk_dir i then Ok (key_dir cli)
  else
    let? home := ok_or "failed to determine home dir" (home_dir k) in
    if nk_home_dir i then Ok (home +:+ "/" +:+ KEY_DIR) else Err "could not prepare key directory".

Definition load_node_keypair (cli : Cli) (i : node_key_io) (k : KeyState) :
    result string (option keys) * KeyState :=
  if ephemeral cli then
    (Ok (match ensure_keypair_ephemeral (nk_fresh i) with Ok kp => Some kp | Err _ => None end), k)
  else
    match node_key_path cli i k with
    | Err e => (Err e, k)
    | Ok key_path =>
        let pubpath := key_path +:+ "/" +:+ PUBKEY_FILE in
        let privpath := key_path +:+ "/" +:+ PRIVKEY_FILE in
        match files k !! pubpath, files k !! privpath with
        | Some pk, Some sk =>
            (if nk_read i then Ok (Some (pk, sk)) else Err "could not read key files", k)
        | _, _ =>
            match nk_fresh i with
            | None => (Err "dsa generate_keypair failed", k)
            | Some (pk_bytes, sk_bytes) =>
                let k := set_files (write_file (nk_write_pub i) pubpath pk_bytes (files k)) k in
                if negb (wrote (nk_write_pub i)) then (Err "could not write public key", k)
                else
                  let k := set_files (write_file (nk_write_priv i) privpath sk_bytes (files k)) k in
                  if negb (wrote (nk_write_priv i)) then (Err "could not write private key", k)
                  else (Ok (Some (pk_bytes, sk_bytes)), k)
            end
        end
    end.

(** ** The swarm *)

(** The path of the host API's socket: its parent directory is missing from the
    path, exists, was created, or could not be. *)
Inductive parent_dir := NoParent | ParentExists | ParentCreated | ParentFailed.

Inductive handle :=
| Libp2pTask
| RestServer (bind_addr : string)
| HostApiServer (socket : string).

Section startup.
Context `{PeerIds, !Kademlia, !Swarm, !PeerParse, Serde, JsonPrint, FlatBuffers, Crypto, Kem, KemPublic,
  Messages, Tables, Multiaddrs} {W : Type}.

(** Building the behaviours, subscribing and listening may fail. *)
Record swarm_io := {
  built : result string kad;
  subscribed : result string ();
  listening : result string ();
}.

(** The swarm, subscribed to the cluster's topic, and where it listens. The
    preference of the node is registered even when a later call fails. *)
Definition setup_libp2p_node (quic_port : Z) (host : string) (disable_scheduling : bool)
    (i : swarm_io) (m : gmap PeerId bool) : result string (kad * Multiaddr) * gmap PeerId bool :=
  match built i with
  | Err e => (Err e, m)
  | Ok swarm =>
      let m := register_scheduling_preference (local_peer_id swarm) disable_scheduling m in
      (let? _ := subscribed i in
       let swarm := add_explicit_peer (local_peer_id swarm) swarm in
       let? addr := listen_addr host quic_port in
       let? _ := listening i in
       Ok (swarm, addr), m)
  end.

(** The bootstrap peers that are dialled; text that is not an address is
    skipped, and so is a refused dial. *)
Definition dial_bootstrap_peers (peers : list string) : list Multiaddr :=
  omap (λ addr, match parse_multiaddr addr with Ok ma => Some ma | Err _ => None end) peers.

(** ** The process *)

(** The globals that the start-up uses, and the containers of the machine. *)
Record Process := {
  key_state : KeyState;
  NODE_KEYPAIR : option (option keys);
  podman_config : PodmanConfig;
  scheduling_map : gmap PeerId bool;
  CONTROL_SENDER : option nat;
  world : W;
}.

(** The statics of the modules before anything has used them. *)
Definition initial_state (w : W) (swarm : kad) : NodeState (W:=W) :=
  {| RUNTIME_REGISTRY := None; PROVIDER_MANAGER := None; RESOURCE_VERIFIER := ResourceVerifier_new;
     MANIFEST_OWNER_MAP := ∅; NONCE_STORE := ∅; engine_world := w; swarm_kad := swarm |}.

Definition initial_controls : ControlState :=
  {| ACTIVE_ANNOUNCES := ∅; ENQUEUED_CONTROLS := []; PENDING_PROVIDERS_QUERIES := ∅;
     PENDING_MANIFEST_REQUESTS := ∅ |}.

(** What the environment answers, call by call. *)
Record environment := {
  pqc_api_init : result string ();
  node_keys_io : node_key_io;
  network_io : swarm_io;
  kem_io : io;
  kem_fresh : option keys;
  signing_io : io;
  signing_fresh : option keys;
  handler_io : io;
  handler_fresh : option keys;
  start_time : Z;
  cpuinfo : option string;
  meminfo : option string;
  df_output : option (list byte);
  rest_bind : result string ();
  socket_parent : parent_dir;
}.

(** What runs after a start: the node as the libp2p task was spawned, and the
    writes the start-up makes to its state while that task already runs. *)
Record Started := {
  handles : list handle;
  node : Node (W:=W);
  initialization : list (NodeState (W:=W) → NodeState (W:=W));
  rest_server : option RestState;
  handler : EnvelopeHandler;
  listens_on : Multiaddr;
  dialled : list Multiaddr;
}.

Context (debug_assertions : bool) (podman : PodmanConfig → RuntimeEngine W) (docker mock : RuntimeEngine W).

(** The envelope handler: the KEM pair, the signing pair, and the choice of the
    key that signs. *)
Definition make_envelope_handler (e : environment) (node_keypair : option (option keys)) (k : KeyState) :
    result string EnvelopeHandler * KeyState :=
  match ensure_kem_keypair_on_disk (kem_io e) (kem_fresh e) k with
  | (Err m, k) => (Err ("Failed to get KEM keypair: " +:+ m), k)
  | (Ok (_, kem_sk_bytes), k) =>
      match ensure_keypair_on_disk (signing_io e) (signing_fresh e) k with
      | (Err m, k) => (Err ("Failed to get signing keypair: " +:+ m), k)
      | (Ok (signing_pk_bytes, _), k) =>
          let '(on_disk, k) :=
            match node_keypair with
            | Some (Some _) => (Err "not asked", k)
            | _ => ensure_keypair_on_disk (handler_io e) (handler_fresh e) k
            end in
          (Ok (EnvelopeHandler_new node_keypair on_disk kem_sk_bytes (base64_encode signing_pk_bytes)), k)
      end
  end.

(** The node the libp2p task starts with. *)
Definition initial_node (s : NodeState (W:=W)) (m : gmap PeerId bool) : Node :=
  {| task := {| task_node := s; task_control := initial_controls; task_pending := ∅ |};
     handshake_states := ∅; DISABLED_SCHEDULING := m; spawned := []; running := true |}.

(** The host API has no routes; it starts when its socket can have a directory. *)
Definition host_api (cli : Cli) (parent : parent_dir) : list handle :=
  if disable_machine_api cli then []
  else match api_socket cli with
       | None => []
       | Some socket => match parent with ParentFailed => [] | _ => [HostApiServer socket] end
       end.

Definition set_keys k (p : Process) : Process :=
  {| key_state := k; NODE_KEYPAIR := NODE_KEYPAIR p; podman_config := podman_config p;
     scheduling_map := scheduling_map p; CONTROL_SENDER := CONTROL_SENDER p; world := world p |}.
Definition set_pair c (p : Process) : Process :=
  {| key_state := key_state p; NODE_KEYPAIR := c; podman_config := podman_config p;
     scheduling_map := scheduling_map p; CONTROL_SENDER := CONTROL_SENDER p; world := world p |}.
Definition set_podman c (p : Process) : Process :=
  {| key_state := key_state p; NODE_KEYPAIR := NODE_KEYPAIR p; podman_config := c;
     scheduling_map := scheduling_map p; CONTROL_SENDER := CONTROL_SENDER p; world := world p |}.
Definition set_scheduling m (p : Process) : Process :=
  {| key_state := key_state p; NODE_KEYPAIR := NODE_KEYPAIR p; podman_config := podman_config p;
     scheduling_map := m; CONTROL_SENDER := CONTROL_SENDER p; world := world p |}.
Definition set_control_sender sender (p : Process) : Process :=
  {| key_state := key_state p; NODE_KEYPAIR := NODE_KEYPAIR p; podman_config := podman_config p;
     scheduling_map := scheduling_map p; CONTROL_SENDER := set_once sender (CONTROL_SENDER p);
     world := world p |}.
Definition get_control_sender (p : Process) : option nat := CONTROL_SENDER p.

(** The libp2p task is spawned, the workload manager is initialised beside it,
    and then the servers start. *)
Definition start_servers (cli : Cli) (e : environment) (h : EnvelopeHandler) (swarm : kad)
    (addr : Multiaddr) (dials : list Multiaddr) (p : Process) : result string Started :=
  let scheduling_enabled := negb (disable_scheduling cli) in
  let libp2p_node := initial_node (initial_state (world p) swarm) (scheduling_map p) in
  let writes := initialize_workload_manager debug_assertions (mock_only_runtime cli) (mock_only_runtime cli)
                  scheduling_enabled (podman (podman_config p)) docker mock (start_time e) (cpuinfo e)
                  (meminfo e) (df_output e) in
  let? rest :=
    if disable_rest_api cli then Ok None
    else let? _ := rest_bind e in Ok (Some (build_router [] h ∅ ∅)) in
  let rest_handle :=
    if disable_rest_api cli then []
    else [RestServer (rest_api_host cli +:+ ":" +:+ pretty (rest_api_port cli))] in
  Ok {| handles := Libp2pTask :: rest_handle ++ host_api cli (socket_parent e);
        node := libp2p_node; initialization := writes;
        rest_server := rest; handler := h; listens_on := addr; dialled := dials |}.

(** [sender] is the control channel made for the libp2p task. *)
Definition start_machine (cli : Cli) (e : environment) (sender : nat) (p : Process) :
    result string Started * Process :=
  let p := set_keys (set_keypair_config (keypair_config cli) (key_state p)) p in
  let p := if disable_scheduling cli then p
           else set_podman (configure_podman_runtime (podman_socket cli)) p in
  match (ensure_pqc_init (pqc_api_init e) None).1 with
  | Err m => (Err ("pqc initialization failed: " +:+ m), p)
  | Ok _ =>
      let '(keypair, k) := load_node_keypair cli (node_keys_io e) (key_state p) in
      let p := set_keys k p in
      match keypair with
      | Err m => (Err m, p)
      | Ok kp =>
          let p := set_pair (set_node_keypair kp (NODE_KEYPAIR p)) p in
          let '(swarm, m) := setup_libp2p_node (libp2p_quic_port cli) (libp2p_host cli)
                               (disable_scheduling cli) (network_io e) (scheduling_map p) in
          let p := set_scheduling m p in
          match swarm with
          | Err m => (Err m, p)
          | Ok (swarm, addr) =>
              let dials := dial_bootstrap_peers (bootstrap_peer cli) in
              let '(h, k) := make_envelope_handler e (NODE_KEYPAIR p) (key_state p) in
              let p := set_keys k p in
              match h with
              | Err m => (Err m, p)
              | Ok h =>
                  let p := set_control_sender sender p in
                  (start_servers cli e h swarm addr dials p, p)
              end
          end
      end
  end.

End startup.

(** ** Lemmas on keys *)

(** Obtaining a pair leaves the other files alone. *)
Lemma keypair_in_files_other i fresh f1 f2 f k r k' dir :
  f ≠ f1 → f ≠ f2 → resolve_key_dir k = Ok dir → keypair_in_files i fresh f1 f2 k = (r, k') →
  files k' !! (dir +:+ "/" +:+ f) = files k !! (dir +:+ "/" +:+ f).
Proof.
  intros H1 H2 Hd. unfold keypair_in_files. rewrite Hd.
  assert (∀ g o data m, f ≠ g → write_file o (dir +:+ "/" +:+ g) data m !! (dir +:+ "/" +:+ f) =
    m !! (dir +:+ "/" +:+ f)) as Hw.
  { intros g o data m Hg. assert (dir +:+ "/" +:+ g ≠ dir +:+ "/" +:+ f) by (intros Hp%path_inj; by subst).
    destruct o; simpl; [by rewrite lookup_insert_ne|done|by rewrite lookup_insert_ne]. }
  repeat case_match; intros [= _ <-]; simpl; by rewrite ?Hw.
Qed.

Lemma keypair_in_files_dir i fresh f1 f2 k r k' :
  keypair_in_files i fresh f1 f2 k = (r, k') → resolve_key_dir k' = resolve_key_dir k.
Proof.
  unfold keypair_in_files. repeat case_match; by intros [= _ <-].
Qed.

(** Files that are there decide the pair. *)
Lemma keypair_in_files_present i fresh f1 f2 k dir pk sk q k' :
  resolve_key_dir k = Ok dir → files k !! (dir +:+ "/" +:+ f1) = Some pk →
  files k !! (dir +:+ "/" +:+ f2) = Some sk → keypair_in_files i fresh f1 f2 k = (Ok q, k') →
  q = (pk, sk) ∧ k' = k.
Proof.
  intros Hd H1 H2. unfold keypair_in_files. rewrite Hd. destruct (io_dir i); [|done]. cbn [negb].
  rewrite H1, H2. destruct (io_read i); [|done]. by intros [= <- <-].
Qed.

(** The KEM pair has files of its own: the signing pair stays where it is. *)
Lemma kem_keeps_signing i fresh k r k' dir f :
  resolve_key_dir k = Ok dir → f = PUBKEY_FILE ∨ f = PRIVKEY_FILE →
  ensure_kem_keypair_on_disk i fresh k = (r, k') →
  resolve_key_dir k' = Ok dir ∧ signing_mode (ks_config k') = signing_mode (ks_config k) ∧
  files k' !! (dir +:+ "/" +:+ f) = files k !! (dir +:+ "/" +:+ f).
Proof.
  intros Hd Hf. unfold ensure_kem_keypair_on_disk. destruct (kem_mode _).
  - intros Hk. rewrite (keypair_in_files_dir _ _ _ _ _ _ _ Hk), (keypair_in_files_config _ _ _ _ _ _ _ Hk).
    split_and!; [done..|]. eapply keypair_in_files_other; [| |done..]; by destruct Hf as [->| ->].
  - unfold keypair_in_cell. repeat case_match; intros [= _ <-]; done.
Qed.

(** What loading the node's pair from the configured directory leaves. *)
Lemma load_node_keypair_ok cli i k kp k' :
  ephemeral cli = false → nk_dir i = true → load_node_keypair cli i k = (Ok kp, k') →
  ∃ pk sk, kp = Some (pk, sk) ∧ ks_config k' = ks_config k ∧
    files k' !! (key_dir cli +:+ "/" +:+ PUBKEY_FILE) = Some pk ∧
    files k' !! (key_dir cli +:+ "/" +:+ PRIVKEY_FILE) = Some sk.
Proof.
  intros He Hd. unfold load_node_keypair, node_key_path. rewrite He, Hd.
  set (pubpath := _ +:+ _ +:+ PUBKEY_FILE). set (privpath := _ +:+ _ +:+ PRIVKEY_FILE).
  assert (privpath ≠ pubpath) as Hne by (by intros ?%path_inj).
  destruct (files k !! pubpath) as [pk|] eqn:E1; [destruct (files k !! privpath) as [sk|] eqn:E2|].
  1: { destruct (nk_read i); [|done]. intros [= <- <-]. by exists pk, sk. }
  all: destruct (nk_fresh i) as [[a b]|]; [|done]; destruct (nk_write_pub i); try done;
    destruct (nk_write_priv i); try done; intros [= <- <-]; exists a, b; simpl; split_and!; try done;
    [rewrite lookup_insert_ne by done; by rewrite lookup_insert_eq|by rewrite lookup_insert_eq].
Qed.

Section properties.
Context `{PeerIds, !Kademlia, !Swarm, !PeerParse, Serde, JsonPrint, FlatBuffers, Crypto, Kem, KemPublic,
  Messages, Tables, Multiaddrs} {W : Type}.
Context (debug_assertions : bool) (podman : PodmanConfig → RuntimeEngine W) (docker mock : RuntimeEngine W).
Implicit Types (p : Process (W:=W)) (st : Started (W:=W)) (e : environment).

Abbreviation start_machine := (start_machine debug_assertions podman docker mock).

(** The steps of a successful start. *)
Lemma start_inv cli e sender p st p' :
  start_machine cli e sender p = (Ok st, p') →
  ∃ kp k1 swarm addr m k2,
    load_node_keypair cli (node_keys_io e) (set_keypair_config (keypair_config cli) (key_state p)) =
      (Ok kp, k1) ∧
    setup_libp2p_node (libp2p_quic_port cli) (libp2p_host cli) (disable_scheduling cli) (network_io e)
      (scheduling_map p) = (Ok (swarm, addr), m) ∧
    make_envelope_handler e (set_node_keypair kp (NODE_KEYPAIR p)) k1 = (Ok (handler st), k2) ∧
    NODE_KEYPAIR p' = set_node_keypair kp (NODE_KEYPAIR p) ∧ key_state p' = k2 ∧
    scheduling_map p' = m ∧ world p' = world p ∧
    start_servers debug_assertions podman docker mock cli e (handler st) swarm addr
      (dial_bootstrap_peers (bootstrap_peer cli)) p' = Ok st.
Proof.
  unfold Startup.start_machine. set (p0 := if disable_scheduling cli then _ else _).
  assert (key_state p0 = set_keypair_config (keypair_config cli) (key_state p) ∧
    NODE_KEYPAIR p0 = NODE_KEYPAIR p ∧ scheduling_map p0 = scheduling_map p ∧ world p0 = world p)
    as (Hk & Hn & Hs & Hw) by (unfold p0; by destruct (disable_scheduling cli)).
  destruct (ensure_pqc_init _ _).1; [|done].
  destruct (load_node_keypair _ _ _) as [[kp|] k1] eqn:E1; [|done]. simpl.
  destruct (setup_libp2p_node _ _ _ _ _) as [[[swarm addr]|] m] eqn:E2; [|done]. simpl.
  destruct (make_envelope_handler _ _ _) as [[h|] k2] eqn:E3; [|done].
  intros [= Hst <-]. rewrite Hn, Hs, Hk in *.
  assert (handler st = h) as ->.
  { revert Hst. unfold start_servers. destruct (disable_rest_api cli); simpl; [by intros [= <-]|].
    destruct (rest_bind e); simpl; [by intros [= <-]|done]. }
  by exists kp, k1, swarm, addr, m, k2.
Qed.

Lemma make_handler_inv e cell k h k' :
  make_envelope_handler e cell k = (Ok h, k') →
  ∃ kem k1 pk sk k2,
    ensure_kem_keypair_on_disk (kem_io e) (kem_fresh e) k = (Ok kem, k1) ∧
    ensure_keypair_on_disk (signing_io e) (signing_fresh e) k1 = (Ok (pk, sk), k2) ∧
    kem_private_key h = kem.2 ∧ public_key h = base64_encode pk ∧
    ∀ kp, cell = Some (Some kp) → signing_private_key h = Some kp.2 ∧ k' = k2.
Proof.
  unfold make_envelope_handler. destruct (ensure_kem_keypair_on_disk _ _ _) as [[[a b]|] k1]; [|done].
  destruct (ensure_keypair_on_disk _ _ _) as [[[pk sk]|] k2] eqn:E2; [|done].
  destruct (match cell with Some (Some _) => _ | _ => _ end) as [on_disk k3] eqn:E3.
  intros [= <- <-]. exists (a, b), k1, pk, sk, k2. split_and!; [done..|].
  intros [c d] ->. by simplify_eq.
Qed.

(** C28: a node started with its keys on disk has one signing identity: the pair in
    the key directory is the one it registers at start-up, the one that signs
    the responses of its REST server, the one whose public part the server
    attaches, and the one every later signature of the node uses. *)
Theorem start_has_one_identity cli e sender p st p' :
  ephemeral cli = false → signing_ephemeral cli || ephemeral_keys cli = false →
  nk_dir (node_keys_io e) = true → NODE_KEYPAIR p = None →
  start_machine cli e sender p = (Ok st, p') →
  ∃ pk sk, NODE_KEYPAIR p' = Some (Some (pk, sk)) ∧
    signing_private_key (handler st) = Some sk ∧ public_key (handler st) = base64_encode pk ∧
    ∀ i fresh, io_dir i = true → io_read i = true →
      ensure_keypair_on_disk i fresh (key_state p') = (Ok (pk, sk), key_state p').
Proof.
  intros He Hm Hd Hn (kp & k1 & swarm & addr & m & k2 & Hload & _ & Hh & Hpair & Hks & _)%start_inv.
  destruct (load_node_keypair_ok _ _ _ _ _ He Hd Hload) as (pk & sk & -> & Hcfg & Hpub & Hpriv).
  assert (resolve_key_dir k1 = Ok (key_dir cli)) as Hdir by (unfold resolve_key_dir; by rewrite Hcfg).
  rewrite Hn in *. destruct (make_handler_inv _ _ _ _ _ Hh) as (kem & k3 & pk' & sk' & k4 & Hkem & Hsig & _ & Hp & Hcell).
  destruct (Hcell _ eq_refl) as [Hsk ->]. clear Hcell.
  destruct (kem_keeps_signing _ _ _ _ _ _ PUBKEY_FILE Hdir (or_introl eq_refl) Hkem) as (Hd3 & Hm3 & Hf1).
  destruct (kem_keeps_signing _ _ _ _ _ _ PRIVKEY_FILE Hdir (or_intror eq_refl) Hkem) as (_ & _ & Hf2).
  assert (signing_mode (ks_config k3) = Persistent) as Hpers by (rewrite Hm3, Hcfg; simpl; by rewrite Hm).
  unfold ensure_keypair_on_disk in Hsig. rewrite Hpers in Hsig.
  destruct (keypair_in_files_present _ _ _ _ _ _ _ _ _ _ Hd3 (eq_trans Hf1 Hpub) (eq_trans Hf2 Hpriv) Hsig)
    as [[= -> ->] ->].
  exists pk, sk. rewrite Hks. split_and!; [done..|]. intros i fresh Hi Hr.
  unfold ensure_keypair_on_disk. rewrite Hpers. eapply keypair_in_files_found; [done..| |]; simpl; congruence.
Qed.

(** with [--ephemeral] the node has two signing identities: its REST server
    signs with the key made at start-up and attaches another public key, that
    of the pair every other signature of the node uses. *)
Theorem ephemeral_start_splits_identity cli e sender p st p' epk esk :
  ephemeral cli = true → nk_fresh (node_keys_io e) = Some (epk, esk) → NODE_KEYPAIR p = None →
  start_machine cli e sender p = (Ok st, p') →
  signing_private_key (handler st) = Some esk ∧
  ∃ pk sk, public_key (handler st) = base64_encode pk ∧
    ∀ i fresh, io_dir i = true → io_read i = true →
      ensure_keypair_on_disk i fresh (key_state p') = (Ok (pk, sk), key_state p').
Proof.
  intros He Hf Hn (kp & k1 & swarm & addr & m & k2 & Hload & _ & Hh & Hpair & Hks & _)%start_inv.
  unfold load_node_keypair in Hload. rewrite He, Hf in Hload. injection Hload as <- <-.
  rewrite Hn in *. destruct (make_handler_inv _ _ _ _ _ Hh) as (kem & k3 & pk & sk & k4 & _ & Hsig & _ & Hp & Hcell).
  destruct (Hcell _ eq_refl) as [Hsk ->]. split; [done|]. exists pk, sk. split; [done|].
  intros i fresh Hi Hr. rewrite Hks. by apply (node_keys_stable _ _ i fresh) in Hsig.
Qed.

(** C40: when the configured key directory cannot be prepared, a start succeeds only
    if neither kind of key is kept on disk: moving the node's own pair to the
    home directory does not help, because the other keys are still looked for
    in the configured one. *)
Theorem unusable_key_dir_fails cli e sender p st p' :
  io_dir (kem_io e) = false → io_dir (signing_io e) = false →
  start_machine cli e sender p = (Ok st, p') →
  signing_ephemeral cli || ephemeral_keys cli = true ∧ kem_ephemeral cli || ephemeral_keys cli = true.
Proof.
  intros Hk Hs (kp & k1 & swarm & addr & m & k2 & Hload & _ & Hh & _)%start_inv.
  assert (ks_config k1 = keypair_config cli) as Hcfg.
  { revert Hload. unfold load_node_keypair. repeat case_match; by intros [= _ <-]. }
  destruct (make_handler_inv _ _ _ _ _ Hh) as (kem & k3 & pk & sk & k4 & Hkem & Hsig & _).
  assert (∀ i fresh f1 f2 k r k', io_dir i = false → keypair_in_files i fresh f1 f2 k ≠ (Ok r, k')) as Hfail.
  { intros i fresh f1 f2 k r k' Hi. unfold keypair_in_files. destruct (resolve_key_dir k); [|done]. by rewrite Hi. }
  assert (ks_config k3 = keypair_config cli) as Hcfg3.
  { revert Hkem. unfold ensure_kem_keypair_on_disk. destruct (kem_mode _).
    - intros Hx. by rewrite (keypair_in_files_config _ _ _ _ _ _ _ Hx).
    - unfold keypair_in_cell. repeat case_match; intros [= _ <-]; by rewrite <- Hcfg. }
  unfold ensure_kem_keypair_on_disk in Hkem. unfold ensure_keypair_on_disk in Hsig.
  rewrite Hcfg in Hkem. rewrite Hcfg3 in Hsig. simpl in Hkem, Hsig.
  destruct (kem_ephemeral cli || ephemeral_keys cli); [|by apply Hfail in Hkem].
  destruct (signing_ephemeral cli || ephemeral_keys cli); [done|by apply Hfail in Hsig].
Qed.

(** The node a start spawns, and the writes that initialise it. *)
Lemma started_node_inv cli e sender p st p' :
  start_machine cli e sender p = (Ok st, p') →
  ∃ swarm m, node st = initial_node (initial_state (world p) swarm) m ∧
    initialization st = initialize_workload_manager debug_assertions (mock_only_runtime cli) (mock_only_runtime cli)
       (negb (disable_scheduling cli)) (podman (podman_config p')) docker mock (start_time e) (cpuinfo e)
       (meminfo e) (df_output e) ∧
    (rest_server st = None ∨ rest_server st = Some (build_router [] (handler st) ∅ ∅)).
Proof.
  intros (kp & k1 & swarm & addr & m & k2 & _ & _ & _ & _ & _ & Hm & Hw & Hst)%start_inv.
  exists swarm, m. revert Hst. unfold start_servers. rewrite Hm, Hw.
  destruct (disable_rest_api cli); simpl; [intros [= <-]; eauto|].
  destruct (rest_bind e); simpl; [intros [= <-]; eauto|done].
Qed.

Lemma initial_verifier_ok : verifier_ok ResourceVerifier_new.
Proof. by apply no_reservations_ok. Qed.

Lemma started_node_ok cli e sender p st p' :
  start_machine cli e sender p = (Ok st, p') → node_ok (node st).
Proof.
  intros (swarm & m & -> & _)%started_node_inv. split_and!; [|apply map_Forall_empty|done].
  split; [apply initial_verifier_ok|apply map_Forall_empty].
Qed.

Context (kem_keypair node_keys : result string (list byte * list byte)).
Context (downcast_mock : RuntimeEngine W → option (Z → string → list byte → DeploymentConfig → string →
                                                   W → result RuntimeError WorkloadInfo * W)).

Abbreviation node_step := (node_step kem_keypair node_keys debug_assertions downcast_mock).
Abbreviation sys_reach := (sys_reach kem_keypair node_keys debug_assertions downcast_mock).
Abbreviation state_of s := (task_node (task (sys_node s))).

(** The node while it starts: the event loop runs from the first moment, and the
    writes of the initialisation happen between any two of its steps. *)
Inductive starting st : list step_label → Node (W:=W) → list (NodeState (W:=W) → NodeState (W:=W)) → Prop :=
| starting_spawned : starting st [] (node st) (initialization st)
| starting_step tr n tr' n' writes :
    starting st tr n writes → node_step tr n tr' n' → starting st tr' n' writes
| starting_write tr n write writes :
    starting st tr n (write :: writes) → starting st tr (set_node (write (task_node (task n))) n) writes.

(** The event loop and the REST server, which is built once all writes are made. *)
Definition started_system n (r : RestState) : System (W:=W) :=
  {| sys_node := n; sys_rest := r; sys_pending := []; sys_deletes := [] |}.

(** The invariant while the node starts: until the last write the machine has
    not been measured. *)
Lemma starting_inv `{!MessagesLaws} cli e sender p st p' tr n writes :
  start_machine cli e sender p = (Ok st, p') → starting st tr n writes →
  node_ok n ∧ (∃ k, writes = drop k (initialization st)) ∧
  (writes ≠ [] → system_resources (RESOURCE_VERIFIER (task_node (task n))) = system_resources ResourceVerifier_new).
Proof.
  intros Hst. induction 1 as [|tr n tr' n' writes _ (IH & Hk & Hz) Hs|tr n write writes _ (IH & (k & Hk) & Hz)].
  - split_and!; [by eapply started_node_ok|by exists 0%nat|].
    intros _. by apply started_node_inv in Hst as (swarm & m & -> & _).
  - split_and!; [by eapply node_step_ok|done|]. intros Hw. rewrite (node_step_resources _ _ _ _ _ _ _ _ IH Hs). auto.
  - specialize (Hz ltac:(done)). pose proof IH as ((Hv & Ho) & Hh & Hq).
    apply started_node_inv in Hst as (swarm & m & _ & Hi & _).
    assert (writes = drop (S k) (initialization st)) as Hw.
    { by rewrite <- Nat.add_1_r, <- drop_drop, <- Hk. }
    unfold initialize_workload_manager in Hi.
    destruct (negb (negb (disable_scheduling cli))); rewrite Hi in Hk, Hw |- *; [by rewrite drop_nil in Hk|].
    destruct k as [|[|[|k]]]; simpl in Hk; simplify_eq/=.
    + split_and!; [by split_and!|by exists 1%nat|done].
    + split_and!; [by split_and!|by exists 2%nat|done].
    + split_and!; [|by exists 3%nat|done]. split_and!; [split; [by apply first_measure_ok|done]|done..].
    + by rewrite drop_nil in Hk.
Qed.

(** C8: whatever the machine reports at start-up and whatever arrives while it
    starts, a node that started never overcommits it, never records an empty
    owner and keeps its tasks well formed, over every run of its event loop and
    REST server. The event loop runs from the moment it is spawned, so messages
    may be handled before and between the writes that initialise the node. *)
Theorem started_node_safe `{!MessagesLaws} cli e sender p st p' r early n tr s :
  start_machine cli e sender p = (Ok st, p') → rest_server st = Some r →
  starting st early n [] → sys_reach (handler st) (started_system n r) tr s →
  no_overcommit (RESOURCE_VERIFIER (state_of s)) ∧
  (∀ id, get_manifest_owner id (state_of s) ≠ Some []) ∧
  (∀ task_id t, task_store (sys_rest s) !! task_id = Some t → task_ok (sys_rest s) task_id t).
Proof.
  intros Hst Hr Hn Hreach. destruct (starting_inv _ _ _ _ _ _ _ _ _ Hst Hn) as [Hok _].
  assert (live_ok (started_system n r)) as Hl.
  { split; [done|]. apply started_node_inv in Hst as (swarm & m & _ & _ & Hs).
    destruct Hs as [Hs|Hs]; rewrite Hr in Hs; simplify_eq. done. }
  destruct (sys_reach_live _ _ _ _ _ _ _ _ Hl Hreach) as [((Hv & Ho) & _) Htasks].
  split_and!; [by destruct Hv as (_ & _ & ?)| |done]. intros id Hid. by apply (Ho id []).
Qed.

(** ** A node without engines *)

Abbreviation machine_part s := (RUNTIME_REGISTRY s, engine_world s).

Lemma deploy_without_registry now req id c (s : NodeState (W:=W)) :
  RUNTIME_REGISTRY s = None →
  is_ok (deploy_manifest debug_assertions downcast_mock now req id c s).1 = false ∧
  (deploy_manifest debug_assertions downcast_mock now req id c s).2 = s.
Proof.
  intros Hn. unfold deploy_manifest. destruct (modify_manifest_replicas c); [|done]. simpl.
  destruct (select_runtime_engine _ s); [|done]. simpl. by rewrite Hn.
Qed.

Lemma process_without_registry now req json owner (s : NodeState (W:=W)) :
  RUNTIME_REGISTRY s = None →
  machine_part (process_manifest_deployment kem_keypair debug_assertions downcast_mock now req json owner s).2
    = machine_part s.
Proof.
  intros Hn. unfold process_manifest_deployment. destruct (decrypt_manifest_content _ _) as [[c|]|]; [|done..].
  set (s1 := match owner with [] => s | _ => _ end).
  assert (machine_part s1 = machine_part s) as Hs1 by (unfold s1; by destruct owner).
  destruct (deploy_without_registry now req (default "unknown" (ar_manifest_id req)) c s1) as [_ Hd]; [congruence|].
  destruct (deploy_manifest _ _ _ _ _ _ _) as [r s2]. simpl in *. by subst.
Qed.

Lemma apply_without_registry now peer request (s : NodeState (W:=W)) :
  RUNTIME_REGISTRY s = None →
  machine_part (handle_apply_request kem_keypair debug_assertions downcast_mock now peer request s).2 = machine_part s.
Proof.
  intros Hn. unfold handle_apply_request.
  destruct (verify_envelope_and_check_nonce_for_peer _ _ _ _) as [[parts|] nonces]; [|done].
  unfold apply_verified. destruct (root_as_apply_request _) as [req|]; [|done].
  destruct (ar_manifest_json req) as [json|]; [|done]. case_decide; [done|].
  destruct (has_active_reservation_for_manifest _ _ _) as [[] v]; [|done].
  pose proof (process_without_registry now req json (pubkey parts) (set_verifier v (set_nonces nonces s)) Hn) as Hp.
  by destruct (process_manifest_deployment _ _ _ _ _ _ _ _).
Qed.

Lemma remove_without_registry now id (s : NodeState (W:=W)) :
  RUNTIME_REGISTRY s = None → (remove_workloads_by_manifest_id now id s).2 = s.
Proof. intros Hn. unfold remove_workloads_by_manifest_id. by rewrite Hn. Qed.

Lemma delete_without_registry now tsk stage (s : NodeState (W:=W)) :
  RUNTIME_REGISTRY s = None → machine_part (delete_step now tsk stage s).2 = machine_part s.
Proof.
  intros Hn. destruct stage as [| |[|name names] removed errors|name [|i l] names removed errors
    |removed errors|removed [|]]; simpl; try done.
  - unfold held_engine. case_decide; [|done]. rewrite Hn. simpl. by rewrite Hn.
  - unfold withdraw_announcement. by destruct (PROVIDER_MANAGER s).
Qed.

Lemma control_without_registry disabled (e : surroundings) msg (t : Task (W:=W)) :
  RUNTIME_REGISTRY (task_node t) = None →
  machine_part (task_node (handle_control_message kem_keypair node_keys debug_assertions downcast_mock
    disabled e msg t).2) = machine_part (task_node t).
Proof.
  intros Hn. destruct msg; simpl; try done.
  - by destruct (handle_query_capacity_with_payload _ _ _ _ _ _ _ _ _ _ _) as [[? ?] ?].
  - unfold handle_send_apply_request. case_decide; [|done]. unfold process_enhanced_self_apply_request.
    destruct (root_as_apply_request manifest) as [req|]; [|done].
    destruct (ar_manifest_json req) as [json|]; [|done].
    pose proof (process_without_registry (now e) req json (own_pubkey e) (task_node t) Hn) as Hp.
    by destruct (process_manifest_deployment _ _ _ _ _ _ _ _).
  - unfold handle_announce_provider. by destruct (announce_attempts _ _ _ _) as [[] k].
  - unfold handle_withdraw_provider. by destruct (announce_provider_direct _ _ _).
Qed.

Lemma drain_without_registry disabled (e : surroundings) (t : Task (W:=W)) :
  RUNTIME_REGISTRY (task_node t) = None →
  machine_part (task_node (drain_enqueued_controls kem_keypair node_keys debug_assertions downcast_mock
    disabled e t).2) = machine_part (task_node t).
Proof.
  intros Hn. unfold drain_enqueued_controls.
  assert (∀ msgs (t : Task (W:=W)), RUNTIME_REGISTRY (task_node t) = None →
    machine_part (task_node (handle_controls kem_keypair node_keys debug_assertions downcast_mock
      disabled e msgs t).2) = machine_part (task_node t)) as Hl.
  { intros msgs. induction msgs as [|msg msgs IH]; intros t0 Ht0; [done|]. simpl.
    pose proof (control_without_registry disabled e msg t0 Ht0) as Hc.
    destruct (handle_control_message _ _ _ _ _ _ _ _) as [[o|] t1]; [|done]. simpl in Hc.
    specialize (IH t1 ltac:(congruence)). destruct (handle_controls _ _ _ _ _ _ _ _). simpl in *. congruence. }
  by rewrite Hl.
Qed.

Lemma tick_without_registry (e : surroundings) (n : Node (W:=W)) :
  machine_part (task_node (task (handshake_tick node_keys e n).2)) = machine_part (task_node (task n)).
Proof. unfold handshake_tick. by destruct (tick_all _ _ _ _ _). Qed.

Lemma event_without_registry (e : surroundings) ev (n : Node (W:=W)) :
  RUNTIME_REGISTRY (task_node (task n)) = None →
  machine_part (task_node (task (handle_event kem_keypair node_keys debug_assertions downcast_mock e ev n).2)) =
  machine_part (task_node (task n)).
Proof.
  intros Hn. destruct ev; simpl; try done.
  - pose proof (control_without_registry (is_scheduling_disabled_for
      (local_peer_id (swarm_kad (task_node (task n)))) (DISABLED_SCHEDULING n)) e msg (task n) Hn) as Hc.
    by destruct (handle_control_message _ _ _ _ _ _ _ _).
  - by destruct (handshake_message_event _ _ _ _ _ _ _ _ _) as [[? ?] ?].
  - destruct m; [|done]. pose proof (apply_without_registry (now e) peer data (task_node (task n)) Hn) as Ha.
    by destruct (handle_apply_request _ _ _ _ _ _ _).
  - destruct m; [|done]. unfold delete_message. destruct (verify_signed_message _ _ _ _) as [[env|] nonces]; [|done].
    by destruct (root_as_delete_request _).
  - unfold gossipsub_message. destruct (verify_signed_message _ _ _ _) as [[env|] nonces]; [|done].
    destruct (root_as_capacity_request _); [|by destruct (root_as_capacity_reply _)].
    destruct (bid _ _ _ _ _ _ _) as [[[? ?]|] v]; [|done]. by destruct (publish_gossipsub_capacity_reply _ _ _ _).
  - destruct m; [|done]. unfold scheduler_request. destruct (is_scheduling_disabled_for _ _); [done|].
    destruct (verify_signed_message _ _ _ _) as [[env|] nonces]; [|done].
    destruct (root_as_capacity_request _); [|done]. by destruct (bid _ _ _ _ _ _ _).
  - by destruct (kademlia_event e0 _).
  - by case_decide.
  - pose proof (tick_without_registry e n) as Ht. by destruct (handshake_tick _ _ _).
  - pose proof (drain_without_registry (is_scheduling_disabled_for
      (local_peer_id (swarm_kad (task_node (task n)))) (DISABLED_SCHEDULING n)) e (task n) Hn) as Hd.
    destruct (drain_enqueued_controls _ _ _ _ _ _ _) as [[o|] t]; done.
Qed.

Lemma node_step_without_registry tr n tr' n' :
  node_step tr n tr' n' → RUNTIME_REGISTRY (task_node (task n)) = None →
  machine_part (task_node (task n')) = machine_part (task_node (task n)).
Proof.
  intros Hns Hn. destruct Hns as [tr e ev n o n' _ He|tr now i tsk stage n Hi].
  - pose proof (event_without_registry e ev n Hn) as Hev. by rewrite He in Hev.
  - unfold run_spawned. rewrite Hi. pose proof (delete_without_registry now tsk stage _ Hn) as Hd.
    by destruct (delete_step _ _ _ _) as [[] ?].
Qed.

Lemma step_without_registry h tr s l s' :
  sys_step kem_keypair node_keys debug_assertions downcast_mock h tr s l s' →
  RUNTIME_REGISTRY (state_of s) = None → machine_part (state_of s') = machine_part (state_of s).
Proof.
  intros Hst Hn. destruct Hst as
    [tr n r ps ds l n' Hns| | |tr n r ps ds i p body td d resp r' s' _ _ _ Hc| |
    |tr n r ps ds i now a run provider left p' s' _ _ Hdel]; cbn [sys_node] in *; try done.
  - by eapply node_step_without_registry.
  - apply create_task_cases in Hc as [(_ & _ & _ & ->)|(id & op & _ & _ & _ & _ & ->)]; [done|].
    by destruct (signing_pubkey _).
  - apply provider_cases in Hdel as [->|[_ ->]]; [done|]. simpl. by rewrite remove_without_registry.
Qed.

(** A start with scheduling disabled initialises nothing. *)
Lemma starting_disabled cli e sender p st p' early n writes :
  disable_scheduling cli = true → start_machine cli e sender p = (Ok st, p') → starting st early n writes →
  machine_part (task_node (task n)) = (None, world p).
Proof.
  intros Hd (swarm & m & Hn & Hi & _)%started_node_inv Hs. rewrite Hd in Hi. simpl in Hi.
  cut (machine_part (task_node (task n)) = (None, world p) ∧ writes = []); [naive_solver|].
  induction Hs as [|tr n tr' n' writes _ [IH Hw] Hstep|tr n write writes _ [_ Hw]]; [by rewrite Hn, Hi| |done].
  split; [|done]. injection IH as IH1 IH2. rewrite (node_step_without_registry _ _ _ _ Hstep IH1). congruence.
Qed.

(** C29: a node started with scheduling disabled never runs or removes a container,
    over every run of its event loop and REST server, and it answers no apply
    request of a peer with success. An apply its own client addresses to the node
    itself deploys nothing either, but the reply to it is the same as for a
    deployment that worked (or the node panics): that path does not report the
    outcome. *)
Theorem disabled_node_runs_nothing cli e sender p st p' r early n tr s :
  disable_scheduling cli = true →
  start_machine cli e sender p = (Ok st, p') → rest_server st = Some r →
  starting st early n [] → sys_reach (handler st) (started_system n r) tr s →
  engine_world (state_of s) = world p ∧
  (∀ now peer request resp s',
    handle_apply_request kem_keypair debug_assertions downcast_mock now peer request (state_of s) =
      (Some resp, s') → resp_ok resp = false) ∧
  ∀ (e' : surroundings) manifest tx o s', let local := local_peer_id (swarm_kad (state_of s)) in
    handle_send_apply_request kem_keypair node_keys debug_assertions downcast_mock e' local manifest tx (state_of s) =
      (o, s') →
    engine_world s' = world p ∧
    (o = None ∨ o = Some [Reply tx (RStringResult (Ok ("Apply request handled locally for " +:+ peer_to_string local)))]).
Proof.
  intros Hd Hst _ Hstart Hreach.
  assert (machine_part (state_of s) = (None, world p)) as Hm.
  { induction Hreach as [|tr s l s' _ IH Hstep]; [by eapply starting_disabled|].
    injection IH as IH1 IH2. rewrite (step_without_registry _ _ _ _ _ Hstep IH1). congruence. }
  injection Hm as Hreg Hw. split_and!; [done| |].
  2: { intros e' manifest tx o s' local Hh.
    pose proof (control_without_registry false e' (SendApplyRequest local manifest tx)
      (task (sys_node s)) Hreg) as Hc. simpl in Hc. unfold local in *. rewrite Hh in Hc.
    split; [simpl in Hc; congruence|]. unfold handle_send_apply_request in Hh. rewrite decide_True in Hh by done.
    destruct (process_enhanced_self_apply_request _ _ _ _ _ _ _) as [[[]|] ?]; injection Hh as <- _; auto. }
  intros now peer request resp s' Ha.
  destruct (resp_ok resp) eqn:Eok; [|done].
  destruct (apply_success_inv _ _ _ _ _ _ _ _ _ Ha Eok)
    as (parts & nonces & req & json & id & v & c & s0 & _ & _ & _ & _ & _ & _ & -> & Hdep).
  assert (∀ s1, RUNTIME_REGISTRY s1 = None → deploy_manifest debug_assertions downcast_mock now req id c s1 ≠
    (Ok (resp_operation_id resp), s')) as Hfail.
  { intros s1 Hs1 Heq. destruct (deploy_without_registry now req id c s1 Hs1) as [Hf _]. by rewrite Heq in Hf. }
  exfalso. revert Hdep. apply Hfail. by destruct (pubkey parts).
Qed.

End properties.

(** ** Concrete starts *)

Section witnesses.
Import Toy ToyTables ToyKemPublic ToyRest ToyMultiaddrs.

#[local] Instance no_messages : Messages := reply_messages.
#[local] Instance no_messages_laws : MessagesLaws.
Proof. split. done. Qed.

Definition fresh_process : Process (W:=()) :=
  {| key_state := demo_keystate; NODE_KEYPAIR := None;
     podman_config := {| PODMAN_SOCKET_OVERRIDE := None; PODMAN_FORCE_REMOTE := false |};
     scheduling_map := ∅; CONTROL_SENDER := None; world := () |}.

(** A machine whose key directory can be used or not. *)
Definition demo_environment (dir : bool) : environment :=
  let i := {| io_dir := dir; io_read := true; io_write_pub := Written; io_write_priv := Written;
              io_chmod := true |} in
  {| pqc_api_init := Ok ();
     node_keys_io := {| nk_dir := dir; nk_home_dir := true; nk_read := true;
                        nk_fresh := Some ([x01], [x02]); nk_write_pub := Written; nk_write_priv := Written |};
     network_io := {| built := Ok []; subscribed := Ok (); listening := Ok () |};
     kem_io := i; kem_fresh := Some ([x03], [x04]); signing_io := i; signing_fresh := Some ([x05], [x06]);
     handler_io := i; handler_fresh := None; start_time := 1; cpuinfo := None; meminfo := None;
     df_output := None; rest_bind := Ok (); socket_parent := ParentCreated |}.

Definition demo_start (cli : Cli) (dir : bool) : result string Started * Process :=
  start_machine false (λ _, idle_engine "podman" true) (idle_engine "docker" true) (idle_engine "mock" true)
    cli (demo_environment dir) 0 fresh_process.

(** The command line with one of the key options. *)
Definition key_options (eph signing_eph all_eph disabled : bool) : Cli :=
  let c := Cli_parse_nothing in
  {| ephemeral := eph; rest_api_host := rest_api_host c; rest_api_port := rest_api_port c;
     disable_rest_api := false; disable_machine_api := false; disable_scheduling := disabled;
     node_name := None; mock_only_runtime := false; podman_socket := None; signing_ephemeral := signing_eph;
     kem_ephemeral := false; ephemeral_keys := all_eph; api_socket := api_socket c; key_dir := key_dir c;
     bootstrap_peer := ["/ip4/10.0.0.7/udp/4001/quic-v1"; "nowhere"]; libp2p_quic_port := 4001;
     libp2p_host := libp2p_host c |}.

(** What runs: the libp2p task and both servers, one peer dialled. *)
Example demo_handles :
  match demo_start (key_options false false false false) true with
  | (Ok st, _) => handles st = [Libp2pTask; RestServer "0.0.0.0:3000"; HostApiServer "/run/beemesh/host.sock"] ∧
      listens_on st = [Ip4 [0; 0; 0; 0]; Udp 4001; QuicV1] ∧
      dialled st = [[Ip4 [10; 0; 0; 7]; Udp 4001; QuicV1]]
  | _ => False
  end.
Proof. vm_compute. repeat split. Qed.

Definition served (out : result string (Started (W:=())) * Process (W:=())) : bool :=
  match out with (Ok st, _) => match rest_server st with Some _ => true | None => false end | _ => false end.

Lemma served_start eph all_eph dir :
  (eph, all_eph, dir) ∈ [(false, false, true); (true, false, true); (true, true, false)] →
  ∀ disabled, served (demo_start (key_options eph false all_eph disabled) dir) = true.
Proof. rewrite !elem_of_cons, elem_of_nil. intros [[=]|[[=]|[[=]|[]]]] []; subst; vm_compute; reflexivity. Qed.

Lemma start_has_one_identity_witness :
  match demo_start (key_options false false false false) true with
  | (Ok st, p') =>
      ∃ pk sk, NODE_KEYPAIR p' = Some (Some (pk, sk)) ∧
        signing_private_key (handler st) = Some sk ∧ public_key (handler st) = base64_encode pk ∧
        ∀ i fresh, io_dir i = true → io_read i = true →
          ensure_keypair_on_disk i fresh (key_state p') = (Ok (pk, sk), key_state p')
  | _ => False
  end.
Proof.
  destruct (demo_start (key_options false false false false) true) as [[st|m] p'] eqn:E.
  - eapply (start_has_one_identity false (λ _, idle_engine "podman" true) (idle_engine "docker" true)
      (idle_engine "mock" true) (key_options false false false false) (demo_environment true) 0 fresh_process st p'); [reflexivity..|exact E].
  - pose proof (served_start false false true ltac:(set_solver) false) as Hs. by rewrite E in Hs.
Defined.

Lemma ephemeral_start_splits_identity_witness :
  match demo_start (key_options true false false false) true with
  | (Ok st, p') =>
      signing_private_key (handler st) = Some [x02] ∧
      (∃ pk sk, public_key (handler st) = base64_encode pk ∧
        ∀ i fresh, io_dir i = true → io_read i = true →
          ensure_keypair_on_disk i fresh (key_state p') = (Ok (pk, sk), key_state p'))
  | _ => False
  end.
Proof.
  destruct (demo_start (key_options true false false false) true) as [[st|m] p'] eqn:E.
  - eapply (ephemeral_start_splits_identity false (λ _, idle_engine "podman" true) (idle_engine "docker" true)
      (idle_engine "mock" true) (key_options true false false false) (demo_environment true) 0 fresh_process st p' [x01] [x02]);
      [reflexivity..|exact E].
  - pose proof (served_start true false true ltac:(set_solver) false) as Hs. by rewrite E in Hs.
Defined.

Lemma unusable_key_dir_fails_witness :
  match demo_start (key_options true false true false) false with
  | (Ok st, p') => signing_ephemeral (key_options true false true false) || true = true ∧
                   kem_ephemeral (key_options true false true false) || true = true
  | _ => False
  end ∧ is_ok (demo_start (key_options false false false false) false).1 = false.
Proof.
  split; [|vm_compute; reflexivity].
  destruct (demo_start (key_options true false true false) false) as [[st|m] p'] eqn:E.
  - exact (unusable_key_dir_fails false (λ _, idle_engine "podman" true) (idle_engine "docker" true)
      (idle_engine "mock" true) (key_options true false true false) (demo_environment false) 0 fresh_process st p' eq_refl eq_refl E).
  - pose proof (served_start true true false ltac:(set_solver) false) as Hs. by rewrite E in Hs.
Defined.

(** The node when all writes were made and no message came in between. *)
Definition quiet_node (st : Started (W:=())) : Node (W:=()) :=
  foldl (λ n write, set_node (write (task_node (task n))) n) (node st) (initialization st).

Lemma quiet_start (st : Started (W:=())) :
  starting false demo_keys demo_keys (λ _, None) st [] (quiet_node st) [].
Proof.
  assert (∀ writes n, starting false demo_keys demo_keys (λ _, None) st [] n writes →
    starting false demo_keys demo_keys (λ _, None) st [] (foldl (λ n write, set_node (write (task_node (task n))) n)
      n writes) []) as Hw; [|apply Hw, starting_spawned].
  intros writes. induction writes as [|write writes IH]; intros n Hs; [done|]. by apply IH, starting_write.
Qed.

Lemma started_node_safe_witness :
  match demo_start (key_options false false false false) true with
  | (Ok st, _) =>
      match rest_server st with
      | Some r => no_overcommit (RESOURCE_VERIFIER (task_node (task (sys_node (started_system (quiet_node st) r)))))
      | None => False
      end
  | _ => False
  end.
Proof.
  destruct (demo_start (key_options false false false false) true) as [[st|m] p'] eqn:E;
    [|by pose proof (served_start false false true ltac:(set_solver) false) as Hs; rewrite E in Hs].
  destruct (rest_server st) as [r|] eqn:Er.
  - eapply (started_node_safe false (λ _, idle_engine "podman" true) (idle_engine "docker" true)
      (idle_engine "mock" true) demo_keys demo_keys (λ _, None) (key_options false false false false) (demo_environment true) 0 fresh_process st p' r []
      (quiet_node st) [] (started_system (quiet_node st) r) E Er (quiet_start st)). apply sys_reach_init.
  - pose proof (served_start false false true ltac:(set_solver) false) as Hs. rewrite E in Hs. simpl in Hs.
    by rewrite Er in Hs.
Defined.

Lemma disabled_node_runs_nothing_witness :
  match demo_start (key_options false false false true) true with
  | (Ok st, _) =>
      match rest_server st with
      | Some r => ∀ now peer request resp s',
          handle_apply_request demo_keys false (λ _, None) now peer request
            (task_node (task (sys_node (started_system (quiet_node st) r)))) = (Some resp, s') → resp_ok resp = false
      | None => False
      end
  | _ => False
  end.
Proof.
  destruct (demo_start (key_options false false false true) true) as [[st|m] p'] eqn:E;
    [|by pose proof (served_start false false true ltac:(set_solver) true) as Hs; rewrite E in Hs].
  destruct (rest_server st) as [r|] eqn:Er.
  - apply (disabled_node_runs_nothing false (λ _, idle_engine "podman" true) (idle_engine "docker" true)
      (idle_engine "mock" true) demo_keys demo_keys (λ _, None) (key_options false false false true) (demo_environment true) 0 fresh_process st p' r []
      (quiet_node st) [] (started_system (quiet_node st) r) eq_refl E Er (quiet_start st)).
    apply sys_reach_init.
  - pose proof (served_start false false true ltac:(set_solver) true) as Hs. rewrite E in Hs. simpl in Hs.
    by rewrite Er in Hs.
Defined.

End witnesses.
