(* ===== verification/Cli.v ===== *)
(** * The command line client ([cli/src])

    [flatbuffers.rs]: the HTTP client with its envelopes; [lib.rs]: [apply_file]
    and [delete_file]; [flatbuffer_envelope.rs]: the envelope builder. The server
    is a function [serve] on a state [S]: what it answers and what its state
    becomes. A computation stops at an error; [None] is a panic. Texts of errors
    of third-party crates are left out after their prefix. *)

From Stdlib Require Import Ascii SpecFloat.
From S2P Require Import Prelude RustStr Utf8 RustHash Serde Libp2p Concrete NonceStore Envelope RecipientBlob.
From S2P Require Import Scheduler WorkloadIntegration DeleteMessage Protocol EngineHost RestEnvelope RestApi.

Open Scope rust_scope.
Open Scope list_scope.

(** ** HTTP *)

Record HttpRequest := {
  http_method : method;
  http_url : string;
  http_headers : HeaderMap;
  http_sent : list byte;
}.

(** Reading the body can fail. *)
Record HttpResponse := { http_status : Z; http_body : result string (list byte) }.

Definition is_success (status : Z) : bool := bool_decide (200 ≤ status < 300).

(** The text of a status ([404 Not Found]), and YAML read as a JSON value. *)
Class ClientText := {
  status_text : Z → string;
  json_from_yaml : string → option json;
}.

(** ** Computations with a server *)

Section monad.
Context {S : Type}.

Definition M (A : Type) : Type := S → option (result string A) * S.

Definition ret {A} (x : A) : M A := λ s, (Some (Ok x), s).
Definition fail {A} (e : string) : M A := λ s, (Some (Err e), s).
Definition panic {A} : M A := λ s, (None, s).
Definition bind {A B} (m : M A) (k : A → M B) : M B := λ s,
  match m s with
  | (Some (Ok x), s) => k x s
  | (Some (Err e), s) => (Some (Err e), s)
  | (None, s) => (None, s)
  end.

(** Results of pure code. *)
Definition lift {A} (r : result string A) : M A := λ s, (Some r, s).
Definition lift_panic {A} (r : option (result string A)) : M A := λ s, (r, s).

End monad.
Arguments M S A : clear implicits.

Declare Scope client_scope.
Delimit Scope client_scope with client.
Notation "x <- m ;; k" := (bind m (λ x, k)) (at level 100, m at next level, right associativity) : client_scope.
Notation "m ;; k" := (bind m (λ _, k)) (at level 100, right associativity) : client_scope.
Open Scope client_scope.

(** ** The client *)

Record FlatbufferClient := {
  base_url : string;
  private_key : list byte;
  client_public_key : string;
  kem_public_key : list byte;
  client_kem_private_key : list byte;
  machine_public_key : option (list byte);
}.

(** What sending one request draws: the randomness of the encryption, two
    readings of the clock, and the sixteen bytes of the nonce of a request that
    is not encrypted. *)
Record send_draws := {
  sd_seed : list byte;
  sd_aes_nonce : list byte;
  sd_now : Z;
  sd_now' : Z;
  sd_nonce : list byte;
}.

Definition CLI_PEER : string := "cli-client".

Definition client_headers : HeaderMap :=
  {["content-type" := Some "application/octet-stream"; "x-peer-id" := Some CLI_PEER]}.

Section client.
Context `{FlatBuffers, Crypto, Kem}.
Implicit Types (c : FlatbufferClient) (sd : send_draws).

(** [pqc_init] and the two key pairs are what the crypto crate returns. *)
Definition FlatbufferClient_new (pqc_init : result string ())
    (keypair kem_keypair : result string (list byte * list byte)) (base : string) :
    result string FlatbufferClient :=
  let? _ := pqc_init in
  let? (public_key_bytes, private) := keypair in
  let? (kem_pub_bytes, kem_priv_bytes) := kem_keypair in
  Ok {| base_url := base; private_key := private; client_public_key := base64_encode public_key_bytes;
        kem_public_key := kem_pub_bytes; client_kem_private_key := kem_priv_bytes;
        machine_public_key := None |}.

(** An envelope signed by the client around a payload in the clear. *)
Definition signed_plain_envelope (nonce : string) (ts : Z) c (payload : list byte) (payload_type : string) :
    result string (list byte) :=
  let kem_pub_b64 := base64_encode (kem_public_key c) in
  let canonical := build_envelope_canonical_with_peer payload payload_type nonce ts "ml-dsa-65"
                     CLI_PEER (Some kem_pub_b64) in
  let? sender_pubkey_bytes :=
    ok_or "Failed to decode sender public key" (base64_decode (client_public_key c)) in
  let? (sig_b64, pub_b64) := sign_envelope (private_key c) sender_pubkey_bytes canonical in
  Ok (build_envelope_signed_with_peer payload payload_type nonce ts "ml-dsa-65" "ml-dsa-65"
        sig_b64 pub_b64 CLI_PEER (Some kem_pub_b64)).

(** Encrypted for the machine when its key is known. *)
Definition request_envelope sd c (payload : list byte) (payload_type : string) :
    result string (list byte) :=
  match machine_public_key c with
  | Some machine_pubkey =>
      build_encrypted_envelope_with_peer (sd_seed sd) (sd_aes_nonce sd) (sd_now sd) (sd_now' sd)
        payload payload_type machine_pubkey (private_key c) (client_public_key c) CLI_PEER
        (Some (base64_encode (kem_public_key c)))
  | None =>
      signed_plain_envelope (base64_encode (sd_nonce sd)) (sd_now sd / 1000000000) c payload payload_type
  end.

(** A payload that starts with the version byte of a blob is decrypted, any
    other is taken as it is; the signature is not looked at. *)
Definition decrypt_from_machine c (envelope_bytes : list byte) : option (result string (list byte)) :=
  match root_as_envelope envelope_bytes with
  | None => Some (Err "Failed to parse envelope")
  | Some envelope =>
      let payload_bytes := default [] (env_payload envelope) in
      match payload_bytes with
      | x02 :: _ => decrypt_payload_from_recipient_blob payload_bytes (client_kem_private_key c)
      | _ => Some (Ok payload_bytes)
      end
  end.

(** The bytes of a successful response: decrypted when they are an envelope that
    can be, else as they came. *)
Definition read_response c (response_bytes : list byte) : option (list byte) :=
  if decide (100 < length response_bytes ∧ is_Some (machine_public_key c))%nat then
    match root_as_envelope response_bytes with
    | Some _ =>
        match decrypt_from_machine c response_bytes with
        | Some (Ok decrypted) => Some decrypted
        | Some (Err _) => Some response_bytes
        | None => None
        end
    | None => Some response_bytes
    end
  else Some response_bytes.

End client.

(** ** Requests *)

Section requests.
Context `{FlatBuffers, Crypto, Kem, Tables, Serde, ClientText} {S : Type}.
Context (serve : HttpRequest → S → result string HttpResponse * S).
Implicit Types (c : FlatbufferClient) (sd : send_draws).

Definition exchange (r : HttpRequest) : M S HttpResponse := λ s,
  let '(a, s) := serve r s in (Some a, s).

(** [resp.text()] *)
Definition response_text (resp : HttpResponse) : result string string :=
  let? body := http_body resp in Ok (from_utf8_lossy body).

Definition fetch_machine_public_key c : M S FlatbufferClient :=
  let url := base_url c +:+ "/api/v1/kem_pubkey" in
  resp <- (λ s, let '(a, s) := serve {| http_method := GET; http_url := url; http_headers := ∅; http_sent := [] |} s in
                (Some (map_err (λ e, "Failed to connect to machine at " +:+ url +:+ ": " +:+ e) a), s));;
  if is_success (http_status resp) then
    pubkey_b64 <- lift (map_err (λ e, "Failed to get response text: " +:+ e) (response_text resp));;
    if starts_with "ERROR:" pubkey_b64 then fail ("Machine returned error: " +:+ pubkey_b64)
    else
      pubkey_bytes <- lift (ok_or "Failed to decode public key" (base64_decode pubkey_b64));;
      ret {| base_url := base_url c; private_key := private_key c;
             client_public_key := client_public_key c; kem_public_key := kem_public_key c;
             client_kem_private_key := client_kem_private_key c;
             machine_public_key := Some pubkey_bytes |}
  else
    fail ("Failed to fetch machine pubkey: " +:+ status_text (http_status resp) +:+ " - Response: "
          +:+ match response_text resp with Ok t => t | Err _ => "Unable to read response body" end).

(** Never called; the response is not decrypted. *)
Definition send_unencrypted_request sd c (url : string) (payload : list byte) (payload_type : string) :
    M S (list byte) :=
  envelope <- lift (signed_plain_envelope (clock_nonce (sd_now sd)) (sd_now' sd / 1000000000) c payload payload_type);;
  resp <- exchange {| http_method := POST; http_url := url; http_headers := client_headers; http_sent := envelope |};;
  if is_success (http_status resp) then lift (http_body resp)
  else fail ("HTTP error " +:+ status_text (http_status resp) +:+ ": "
             +:+ match response_text resp with Ok t => t | Err _ => "" end).

Definition decode_body c (resp : HttpResponse) : M S (list byte) :=
  response_bytes <- lift (http_body resp);;
  lift_panic (Ok <$> read_response c response_bytes).

(** A 405 is not an error: its text is the result. *)
Definition send_encrypted_request sd c (url : string) (payload : list byte) (payload_type : string) :
    M S (list byte) :=
  envelope <- lift (request_envelope sd c payload payload_type);;
  resp <- exchange {| http_method := POST; http_url := url; http_headers := client_headers; http_sent := envelope |};;
  if decide (http_status resp = 405) then
    body_text <- lift (response_text resp);; ret (as_bytes body_text)
  else if is_success (http_status resp) then decode_body c resp
  else
    body_text <- lift (response_text resp);;
    fail ("Request failed: " +:+ status_text (http_status resp) +:+ " " +:+ body_text).

Definition send_delete_request sd c (url : string) (body : list byte) : M S (list byte) :=
  envelope <- lift (request_envelope sd c body "delete_request");;
  resp <- exchange {| http_method := DELETE_METHOD; http_url := url; http_headers := client_headers; http_sent := envelope |};;
  if is_success (http_status resp) then decode_body c resp
  else
    body_text <- lift (response_text resp);;
    fail ("Delete request failed: " +:+ status_text (http_status resp) +:+ " " +:+ body_text).

(** [s.trim_end_matches('/')] *)
Fixpoint trim_slashes (s : string) : string :=
  match s with
  | EmptyString => ""
  | String a r =>
      let r := trim_slashes r in
      if decide (r = "" ∧ a = "/"%char) then "" else String a r
  end.

Definition candidate_text (n : CandidateNode) : option string :=
  peer_id ← cand_peer_id n; Some (peer_id +:+ ":" +:+ default "" (cand_public_key n)).

(** A response that is not a FlatBuffer is read as JSON. *)
Definition parse_candidates_response (response_bytes : list byte) : result string (list string) :=
  match root_as_candidates_response response_bytes with
  | Some candidates_response =>
      if candidates_ok candidates_response
      then Ok (omap candidate_text (default [] (candidates_nodes candidates_response)))
      else Ok []
  | None =>
      let? response_str := ok_or "invalid utf-8 sequence" (from_utf8 response_bytes) in
      if decide (trim response_str = "") then Ok []
      else
        let? response_json := ok_or "invalid JSON" (json_from_str response_str) in
        Ok (omap json_as_str (default [] (json_get "responders" response_json ≫= json_as_array)))
  end.

Definition cli_get_candidates sd c (task_id : string) : M S (list string) :=
  let url := trim_slashes (base_url c) +:+ "/tasks/" +:+ task_id +:+ "/candidates" in
  response_bytes <- send_encrypted_request sd c url [] "candidates_request";;
  lift (parse_candidates_response response_bytes).

End requests.

(** ** The envelope builder ([flatbuffer_envelope.rs]) *)

Record FlatbufferEnvelopeBuilder := { builder_peer_id : string; builder_public_key : string }.

Section builder.
Context `{FlatBuffers, Crypto}.
Implicit Types b : FlatbufferEnvelopeBuilder.

Definition with_keys (peer_id public_key : string) : FlatbufferEnvelopeBuilder :=
  {| builder_peer_id := peer_id; builder_public_key := public_key |}.

(** What is signed has no peer, what is sent has one. *)
Definition build_manifest_envelope (envelope_nonce : list byte) (ts_ms : Z) b
    (ciphertext sk_bytes pk_bytes : list byte) : result string (list byte) :=
  let nonce_str := base64_encode envelope_nonce in
  let canonical_bytes := build_envelope_canonical ciphertext "manifest" nonce_str ts_ms "ml-dsa-65" None in
  let? (sig_b64, _) := sign_envelope sk_bytes pk_bytes canonical_bytes in
  Ok (build_envelope_signed_with_peer ciphertext "manifest" nonce_str ts_ms "ml-dsa-65" "ml-dsa-65"
        sig_b64 (builder_public_key b) (builder_peer_id b) None).

Definition build_simple_envelope (envelope_nonce : list byte) (ts_ms : Z) b
    (payload_type payload_content : string) : list byte :=
  build_envelope_canonical_with_peer (as_bytes payload_content) payload_type
    (base64_encode envelope_nonce) ts_ms "ml-dsa-65" (builder_peer_id b) None.

(** [sign_envelope] of the builder. *)
Definition builder_sign_envelope b (envelope_bytes sk_bytes pk_bytes : list byte) :
    result string (list byte) :=
  let? envelope := ok_or "Failed to parse envelope" (root_as_envelope envelope_bytes) in
  let payload_bytes := default [] (env_payload envelope) in
  let ptype := default "" (env_payload_type envelope) in
  let nonce := default "" (env_nonce envelope) in
  let canonical_bytes := build_envelope_canonical payload_bytes ptype nonce (env_ts envelope)
                           (default "" (env_alg envelope)) None in
  let? (sig_b64, _) := sign_envelope sk_bytes pk_bytes canonical_bytes in
  Ok (build_envelope_signed_with_peer payload_bytes ptype nonce (env_ts envelope) "ml-dsa-65"
        "ml-dsa-65" sig_b64 (builder_public_key b) (builder_peer_id b) None).

End builder.

(** ** Commands ([lib.rs]) *)

(** A number of JSON that is an unsigned integer. *)
Definition json_as_u64 (v : json) : option Z :=
  match v with JNumber n => parse_uint 64 n | _ => None end.

Definition extract_manifest_name_from_json (manifest_json : json) : option string :=
  (json_get "metadata" manifest_json ≫= json_get "name") ≫= json_as_str.

Definition manifest_replicas (manifest_json : json) : Z :=
  default 1
    match (json_get "spec" manifest_json ≫= json_get "replicas") ≫= json_as_u64 with
    | Some n => Some n
    | None => json_get "replicas" manifest_json ≫= json_as_u64
    end.

Fixpoint zeros (n : nat) : string := match n with O => "" | S n => String "0"%char (zeros n) end.

(** [format!("{:016x}", h)] *)
Definition hex16 (h : Z) : string := zeros (16 - String.length (lower_hex h)) +:+ lower_hex h.

(** The slice [[..16]] of the padded hash; [None] is a panic. *)
Definition client_manifest_id (pk_bytes : list byte) (name : string) : option string :=
  slice_to 16 (hex16 (default_hash (hash_bytes pk_bytes ++ hash_str name))).

(** The manifest file: absent, unreadable or its text. *)
Inductive manifest_file := FileAbsent | FileError (e : string) | FileText (contents : string).

(** What an invocation reads: the file, its keys, the [--api-url] and the
    environment variable, whether debug messages are formatted. *)
Record invocation := {
  inv_path : string;
  inv_file : manifest_file;
  inv_pqc_init : result string ();
  inv_keypair : result string (list byte * list byte);
  inv_kem_keypair : result string (list byte * list byte);
  inv_api_base : option string;
  inv_env_api : option string;
  inv_log_debug : bool;
}.

(** The draws for one node: an operation identifier, the encryption of the
    manifest, the request. *)
Record node_draws := {
  nd_uuid : string;
  nd_seed : list byte;
  nd_aes_nonce : list byte;
  nd_send : send_draws;
}.

Definition scheduling_error_text (e : SchedulingError) : string :=
  match e with
  | NoCandidatesAvailable => "No candidates available for scheduling"
  | NoAvailableCandidates => "No candidates are currently available"
  | InsufficientCandidates available required =>
      "Insufficient candidates: have " +:+ pretty available +:+ ", need " +:+ pretty required
  | SelectionFailed => "Failed to select candidates"
  end.

Definition api_base_url (i : invocation) : string :=
  default "http://127.0.0.1:3000"
    match inv_api_base i with Some b => Some b | None => inv_env_api i end.

Definition client_candidate (peer_id : string) : NodeCandidate :=
  {| node_id := peer_id; load_factor := S754_zero false; available := true;
     capabilities := NodeCapabilities_default |}.

(** [peer_id:pubkey_b64] *)
Fixpoint parse_peers (peers : list string) : result string (list (string * string)) :=
  match peers with
  | [] => Ok []
  | peer :: peers =>
      match split_once ":" peer with
      | Some (peer_id, pubkey_b64) =>
          let? rest := parse_peers peers in Ok ((peer_id, pubkey_b64) :: rest)
      | None => Err ("Invalid candidate format: expected 'peer_id:pubkey_b64', got '" +:+ peer +:+ "'")
      end
  end.

(** The map of keys by peer: a later entry replaces an earlier one. *)
Definition peer_info_map (parsed : list (string * string)) : gmap string string :=
  foldl (λ m p, <[p.1 := p.2]> m) ∅ parsed.

Definition client_scheduler : Scheduler :=
  Scheduler_new {| strategy := RoundRobin; max_candidates := None; enable_load_balancing := false |}.

(** The selected nodes with their keys; an index out of range panics. *)
Fixpoint lookup_nodes (candidates : list NodeCandidate) (info : gmap string string) (idxs : list nat) :
    option (result string (list (string * string))) :=
  match idxs with
  | [] => Some (Ok [])
  | candidate_idx :: idxs =>
      match candidates !! candidate_idx with
      | None => None
      | Some candidate =>
          match info !! node_id candidate with
          | None => Some (Err ("Missing pubkey for node: " +:+ node_id candidate))
          | Some pubkey_b64 =>
              (λ r, let? nodes := r in Ok ((node_id candidate, pubkey_b64) :: nodes)) <$>
              lookup_nodes candidates info idxs
          end
      end
  end.

Definition select_nodes (parsed : list (string * string)) (required : nat) :
    option (result string (list (string * string))) :=
  let candidates := client_candidate ∘ fst <$> parsed in
  match (schedule_workload client_scheduler 0 candidates required).1 with
  | None => None
  | Some (Err e) => Some (Err (scheduling_error_text e))
  | Some (Ok plan) => lookup_nodes candidates (peer_info_map parsed) (selected_candidates plan)
  end.

Section commands.
Context `{FlatBuffers, Crypto, Kem, Messages, Tables, Serde, JsonPrint, ClientText} {S : Type}.
Context (serve : HttpRequest → S → result string HttpResponse * S).

(** The manifest of the file: YAML as JSON, or the raw text. *)
Definition read_manifest (i : invocation) : M S json :=
  match inv_file i with
  | FileAbsent => fail ("file not found: " +:+ inv_path i)
  | FileError e => fail e
  | FileText contents => ret (default (JObject [("raw", JString contents)]) (json_from_yaml contents))
  end.

(** The identifier under the client's key; the debug message slices the key. *)
Definition identify (i : invocation) (manifest_json : json) (missing_name : string) : M S string :=
  keys <- lift (inv_keypair i);;
  name <- lift (ok_or missing_name (extract_manifest_name_from_json manifest_json));;
  match client_manifest_id keys.1 name with
  | Some manifest_id =>
      if decide (inv_log_debug i = true ∧ length keys.1 < 8)%nat then panic else ret manifest_id
  | None => panic
  end.

Definition connect (i : invocation) : M S FlatbufferClient :=
  c <- lift (FlatbufferClient_new (inv_pqc_init i) (inv_keypair i) (inv_kem_keypair i) (api_base_url i));;
  fetch_machine_public_key serve c.

(** The request for one node: the manifest encrypted for it, in an envelope, in
    an [ApplyRequest] for one replica. *)
Definition node_apply_request (nd : node_draws) (ts : Z) (manifest_str manifest_id node_id node_pubkey : string) :
    result string (list byte) :=
  let? node_pubkey_bytes :=
    ok_or ("Failed to decode node public key for " +:+ node_id) (base64_decode node_pubkey) in
  let? encrypted_blob := encrypt_payload_for_recipient (nd_seed nd) (nd_aes_nonce nd) node_pubkey_bytes
                           (as_bytes manifest_str) in
  let encrypted_manifest_bytes :=
    build_envelope_canonical_with_peer encrypted_blob "manifest" "" ts "ml-kem-512" "" None in
  Ok (build_apply_request 1 (nd_uuid nd) (base64_encode encrypted_manifest_bytes) "" manifest_id).

Definition apply_to_node (nd : node_draws) (ts : Z) (c : FlatbufferClient)
    (manifest_str manifest_id : string) (node : string * string) : M S () :=
  request <- lift (node_apply_request nd ts manifest_str manifest_id node.1 node.2);;
  response_bytes <- send_encrypted_request serve (nd_send nd) c
    (trim_slashes (base_url c) +:+ "/apply_direct/" +:+ node.1) request "apply_request";;
  match root_as_apply_response response_bytes with
  | None => fail "Failed to parse ApplyResponse"
  | Some response =>
      if at_ok response then ret ()
      else fail ("Direct apply failed for node " +:+ node.1 +:+ ": " +:+ default "unknown error" (at_message response))
  end.

(** One node after the other; the first failure ends the command. *)
Fixpoint apply_to_nodes (draws : nat → node_draws) (ts : Z) (c : FlatbufferClient)
    (manifest_str manifest_id : string) (nodes : list (string * string)) : M S () :=
  match nodes with
  | [] => ret ()
  | node :: nodes =>
      apply_to_node (draws 0%nat) ts c manifest_str manifest_id node;;
      apply_to_nodes (λ n, draws (Datatypes.S n)) ts c manifest_str manifest_id nodes
  end.

(** What [apply_file] does with the candidates. *)
Definition apply_to_candidates (draws : nat → node_draws) (ts_ms : Z) (c : FlatbufferClient)
    (manifest_json : json) (manifest_id : string) (replicas : nat) (peers : list string) : M S string :=
  if decide (peers = []) then fail "No candidate nodes available for scheduling"
  else if decide (length peers < replicas)%nat then
    fail ("Not enough candidate nodes available: need " +:+ pretty replicas +:+ ", got " +:+ pretty (length peers))
  else
    parsed <- lift (parse_peers peers);;
    selected_nodes <- lift_panic (select_nodes parsed replicas);;
    manifest_str <- lift (ok_or "JSON serialization error" (json_to_string manifest_json));;
    apply_to_nodes draws ts_ms c manifest_str manifest_id selected_nodes;;
    ret manifest_id.

Definition apply_file (i : invocation) (sd : send_draws) (draws : nat → node_draws) (ts_ms : Z) : M S string :=
  manifest_json <- read_manifest i;;
  manifest_id <- identify i manifest_json "Manifest must have a name field in metadata for deployment";;
  c <- connect i;;
  peers <- cli_get_candidates serve sd c manifest_id;;
  apply_to_candidates draws ts_ms c manifest_json manifest_id (Z.to_nat (manifest_replicas manifest_json)) peers.

Definition delete_file (i : invocation) (force : bool) (operation_id : string) (sd : send_draws) : M S string :=
  manifest_json <- read_manifest i;;
  manifest_id <- identify i manifest_json "Manifest must have a name field in metadata for deletion";;
  c <- connect i;;
  response_bytes <- send_delete_request serve sd c
    (trim_slashes (base_url c) +:+ "/tasks/" +:+ manifest_id)
    (build_delete_request manifest_id operation_id "" force);;
  match root_as_delete_response response_bytes with
  | None => fail "Failed to parse DeleteResponse"
  | Some response =>
      if dt_ok response then ret manifest_id
      else fail ("Delete failed: " +:+ default "unknown error" (dt_message response))
  end.

(** [main]: the exit status is the result of the command. *)
Inductive Commands := Apply | Delete (force : bool).

Definition cli_main (command : Commands) (i : invocation) (operation_id : string) (sd : send_draws)
    (draws : nat → node_draws) (ts_ms : Z) : M S () :=
  match command with
  | Apply => apply_file i sd draws ts_ms;; ret ()
  | Delete force => delete_file i force operation_id sd;; ret ()
  end.

End commands.

(** ** Lemmas: numbers and identifiers *)

Lemma zeros_length n : String.length (zeros n) = n.
Proof. induction n as [|n IH]; simpl; [done|by rewrite IH]. Qed.

Lemma parse_hex_zeros n s : parse_hex 0 (zeros n +:+ s) = parse_hex 0 s.
Proof. induction n as [|n IH]; [done|]. exact IH. Qed.

Lemma lower_hex_le16 h : (String.length (lower_hex h) ≤ 16)%nat.
Proof. unfold lower_hex. exact (proj2 (hex_go_length 16 h "")). Qed.

Lemma hex16_length h : String.length (hex16 h) = 16%nat.
Proof. unfold hex16. rewrite string_app_length, zeros_length. pose proof (lower_hex_le16 h). lia. Qed.

Lemma client_manifest_id_Some pk name :
  client_manifest_id pk name = Some (hex16 (default_hash (hash_bytes pk ++ hash_str name))).
Proof.
  unfold client_manifest_id. generalize (default_hash (hash_bytes pk ++ hash_str name)). intros h.
  rewrite <- (hex16_length h) at 1. apply slice_to_all.
Qed.

(** ** Lemmas: the plan *)

Lemma filter_all {A} (P : A → Prop) `{∀ x, Decision (P x)} l : Forall P l → filter P l = l.
Proof. induction 1 as [|x l Hx _ IH]; [done|]. by rewrite filter_cons_True, IH. Qed.

Lemma client_candidates_available (parsed : list (string * string)) :
  available_candidates (client_candidate ∘ fst <$> parsed) = imap pair (client_candidate ∘ fst <$> parsed).
Proof.
  unfold available_candidates. apply filter_all, Forall_forall. intros [i c] Hin.
  apply elem_of_lookup_imap in Hin as (j & d & [= -> ->] & Hj).
  apply list_lookup_fmap_Some in Hj as (p & -> & _). done.
Qed.

Lemma peer_info_map_spec (parsed : list (string * string)) (m : gmap string string) :
  let m' := foldl (λ (m : gmap string string) p, <[p.1 := p.2]> m) m parsed in
  (∀ x, x ∈ parsed.*1 → is_Some (m' !! x)) ∧ (∀ x, is_Some (m !! x) → is_Some (m' !! x)).
Proof.
  revert m. induction parsed as [|p parsed IH]; intros m; simpl.
  { split; [by intros x ?%elem_of_nil|done]. }
  destruct (IH (<[p.1 := p.2]> m)) as [IH1 IH2]. split.
  - intros x [-> | Hx]%elem_of_cons; [|by apply IH1]. apply IH2. rewrite lookup_insert_eq. by eexists.
  - intros x Hx. apply IH2. rewrite lookup_insert. by case_decide.
Qed.

(** A key of the map comes from the list. *)
Lemma peer_info_map_elem (parsed : list (string * string)) (m : gmap string string) x k :
  foldl (λ (m : gmap string string) p, <[p.1 := p.2]> m) m parsed !! x = Some k →
  (x, k) ∈ parsed ∨ m !! x = Some k.
Proof.
  revert m. induction parsed as [|[y k'] parsed IH]; intros m; simpl; [by right|].
  intros [Hin|Hm]%IH; [left; by right|]. apply lookup_insert_Some in Hm as [[-> ->]|[_ ?]]; [left; by left|by right].
Qed.

Lemma lookup_nodes_ok candidates info idxs :
  (∀ i, i ∈ idxs → ∃ c, candidates !! i = Some c ∧ is_Some (info !! node_id c)) →
  ∃ nodes, lookup_nodes candidates info idxs = Some (Ok nodes) ∧
    Forall2 (λ i n, ∃ c, candidates !! i = Some c ∧ node_id c = n.1) idxs nodes ∧
    Forall (λ n, info !! n.1 = Some n.2) nodes.
Proof.
  induction idxs as [|i idxs IH]; intros Hi; simpl; [exists []; split_and!; [done|constructor..]|].
  destruct (Hi i) as (c & Hc & [k Hk]); [by left|]. rewrite Hc, Hk.
  destruct IH as (nodes & -> & Hn & Hf); [intros; apply Hi; by right|].
  simpl. eexists. split_and!; [done|constructor; [by exists c|done]|by constructor].
Qed.

Lemma select_nodes_ok parsed required : parsed ≠ [] →
  (required ≤ length parsed)%nat → in_u 64 (Z.of_nat required) →
  ∃ nodes, select_nodes parsed required = Some (Ok nodes) ∧ nodes.*1 = take required parsed.*1 ∧
    nodes ⊆ parsed.
Proof.
  intros Hne Hle Hu. set (cs := client_candidate ∘ fst <$> parsed).
  assert (available_candidates cs = imap pair cs) as Hav by apply client_candidates_available.
  assert (length (imap pair cs) = length parsed) as Hlen by (unfold cs; by rewrite length_imap, length_fmap).
  unfold select_nodes. fold cs.
  rewrite schedule_workload_select; rewrite ?Hav, ?Hlen; 
    [|intros Hnil%(f_equal length); rewrite Hlen in Hnil; by destruct parsed|done].
  change (actual_required_count client_scheduler required) with required.
  pose proof (select_round_robin_rotate client_scheduler (imap pair cs) required) as Hsel.
  rewrite Hlen, imap_pair_fst in Hsel. unfold select_candidates. cbn [strategy config client_scheduler Scheduler_new].
  destruct (select_round_robin _ _ _) as [r s']. cbn [fst] in *. rewrite Hsel by (simpl; u_lia). simpl.
  assert (take required (rotate (Z.to_nat 0) (seq 0 (length cs))) = seq 0 required) as ->.
  { unfold rotate. rewrite Nat.Div0.mod_0_l, drop_0, take_0, app_nil_r, take_seq. f_equal.
    unfold cs. rewrite length_fmap. lia. }
  destruct (lookup_nodes_ok cs (peer_info_map parsed) (seq 0 required)) as (nodes & Hn & Hf & Hinfo).
  { intros i [_ Hi]%elem_of_seq. destruct (lookup_lt_is_Some_2 parsed i) as [p Hp]; [lia|].
    exists (client_candidate p.1). unfold cs. rewrite list_lookup_fmap, Hp. split; [done|].
    apply (proj1 (peer_info_map_spec parsed ∅)), list_elem_of_fmap. exists p. split; [done|].
    by eapply list_elem_of_lookup_2. }
  exists nodes. split; [done|]. split.
  2: { intros [x k] Hin. rewrite Forall_forall in Hinfo. specialize (Hinfo _ Hin). simpl in Hinfo.
       by apply peer_info_map_elem in Hinfo as [|?%lookup_empty_Some]. }
  apply list_eq_same_length with required.
  - rewrite length_take, length_fmap. lia.
  - rewrite length_fmap. apply Forall2_length in Hf. by rewrite length_seq in Hf.
  - intros i x y Hi (n & -> & Hx)%list_lookup_fmap_Some Hy.
    rewrite lookup_take_lt in Hy by done. apply list_lookup_fmap_Some in Hy as (p & -> & Hp).
    destruct (Forall2_lookup_r _ _ _ _ _ Hf Hx) as (j & Hj & c & Hc & <-).
    apply lookup_seq in Hj as [-> _]. unfold cs in Hc. rewrite list_lookup_fmap in Hc. simpl in Hc.
    rewrite Hp in Hc. injection Hc as <-. done.
Qed.

(** ** Lemmas: what is sent *)

Definition succeeded {A} (o : option (result string A)) : Prop := ∃ x, o = Some (Ok x).

Lemma bind_inv {S A B} (m : M S A) (k : A → M S B) s o s' :
  bind m k s = (o, s') →
  (∃ x s1, m s = (Some (Ok x), s1) ∧ k x s1 = (o, s')) ∨
  (¬ succeeded o ∧ ∃ o1, ¬ succeeded o1 ∧ m s = (o1, s')).
Proof.
  unfold bind. destruct (m s) as [[[x|e]|] s1].
  - intros Hk. left. eauto.
  - intros [= <- <-]. right. split; [by intros [y ?]|]. exists (Some (Err e)). split; [by intros [y ?]|done].
  - intros [= <- <-]. right. split; [by intros [y ?]|]. exists None. split; [by intros [y ?]|done].
Qed.

(** A server that answers from the requests it has seen. *)
Definition logged (answers : list HttpRequest → HttpRequest → result string HttpResponse)
    (r : HttpRequest) (log : list HttpRequest) : result string HttpResponse * list HttpRequest :=
  (answers log r, log ++ [r]).

Definition get_request (url : string) : HttpRequest :=
  {| http_method := GET; http_url := url; http_headers := ∅; http_sent := [] |}.
Definition post_request (url : string) (envelope : list byte) : HttpRequest :=
  {| http_method := POST; http_url := url; http_headers := client_headers; http_sent := envelope |}.

Section answers.
Context `{FlatBuffers, Crypto, Kem, Messages, Tables, Serde, JsonPrint, ClientText}.

(** *** What the client takes from an answer *)

(** The key of the machine. *)
Definition key_answer (a : result string HttpResponse) : option (list byte) :=
  match a with
  | Ok resp =>
      match response_text resp with
      | Ok text => if is_success (http_status resp) && negb (starts_with "ERROR:" text)
                   then base64_decode text else None
      | Err _ => None
      end
  | Err _ => None
  end.

(** The bytes of an answer to an encrypted request: of a success what it holds,
    of a 405 its text, of any other status nothing. *)
Definition reply_read (c : FlatbufferClient) (a : result string HttpResponse) : option (list byte) :=
  match a with
  | Ok resp =>
      match http_body resp with
      | Ok body =>
          if decide (http_status resp = 405) then Some (as_bytes (from_utf8_lossy body))
          else if is_success (http_status resp) then read_response c body else None
      | Err _ => None
      end
  | Err _ => None
  end.

(** The candidates an answer offers. *)
Definition candidates_offered (c : FlatbufferClient) (a : result string HttpResponse) : option (list string) :=
  bytes ← reply_read c a; match parse_candidates_response bytes with Ok peers => Some peers | Err _ => None end.

(** The answer to an apply request is an [ApplyResponse] that says ok. *)
Definition accepted (c : FlatbufferClient) (a : result string HttpResponse) : Prop :=
  ∃ bytes response, reply_read c a = Some bytes ∧ root_as_apply_response bytes = Some response ∧
    at_ok response = true.

(** *** What the client sends *)

Definition keyed (c : FlatbufferClient) (key : list byte) : FlatbufferClient :=
  {| base_url := base_url c; private_key := private_key c; client_public_key := client_public_key c;
     kem_public_key := kem_public_key c; client_kem_private_key := client_kem_private_key c;
     machine_public_key := Some key |}.

(** The request to a node: the manifest, encrypted for the node and then for
    the machine; [None] when one of the two cannot be built. *)
Definition node_request (nd : node_draws) (ts : Z) (c : FlatbufferClient) (text id : string)
    (node : string * string) : option HttpRequest :=
  match node_apply_request nd ts text id node.1 node.2 with
  | Ok request =>
      match request_envelope (nd_send nd) c request "apply_request" with
      | Ok envelope => Some (post_request (trim_slashes (base_url c) +:+ "/apply_direct/" +:+ node.1) envelope)
      | Err _ => None
      end
  | Err _ => None
  end.

(** The identifier of the manifest in the file. *)
Definition names_manifest (i : invocation) (manifest : json) (id : string) : Prop :=
  ∃ text keys name, inv_file i = FileText text ∧
    manifest = default (JObject [("raw", JString text)]) (json_from_yaml text) ∧
    inv_keypair i = Ok keys ∧ extract_manifest_name_from_json manifest = Some name ∧
    client_manifest_id keys.1 name = Some id ∧ ¬ (inv_log_debug i = true ∧ length keys.1 < 8)%nat.

(** The candidates suffice for the manifest, and it can be printed. *)
Definition enough_candidates (manifest : json) (peers : list string) (parsed : list (string * string)) (text : string) : Prop :=
  peers ≠ [] ∧ (Z.to_nat (manifest_replicas manifest) ≤ length peers)%nat ∧ parse_peers peers = Ok parsed ∧
  json_to_string manifest = Some text.

End answers.

Section traces.
Context `{FlatBuffers, Crypto, Kem, Messages, Tables, Serde, JsonPrint, ClientText}.
Context (answers : list HttpRequest → HttpRequest → result string HttpResponse).
Abbreviation server := (logged answers).

Lemma succeeded_Ok {A} (x : A) : succeeded (Some (Ok x)).
Proof. by eexists. Qed.

Lemma not_succeeded_Err {A} e : ¬ succeeded (A:=A) (Some (Err e)).
Proof. by intros [? ?]. Qed.

(** An encrypted request: one exchange, and exactly what is read of its answer. *)
Lemma send_exact sd c url payload ptype log :
  match request_envelope sd c payload ptype with
  | Err e => send_encrypted_request server sd c url payload ptype log = (Some (Err e), log)
  | Ok envelope =>
      ∃ o, send_encrypted_request server sd c url payload ptype log = (o, log ++ [post_request url envelope]) ∧
        ∀ bytes, o = Some (Ok bytes) ↔ reply_read c (answers log (post_request url envelope)) = Some bytes
  end.
Proof.
  unfold send_encrypted_request, bind, lift at 1. destruct (request_envelope _ _ _ _) as [envelope|e]; [|done].
  unfold exchange, logged. fold (post_request url envelope). unfold reply_read.
  destruct (answers log (post_request url envelope)) as [resp|e]; [|eexists; split; [done|done]].
  unfold decode_body, bind, response_text, lift, lift_panic, ret, fail.
  destruct (http_body resp) as [body|e]; simpl.
  - case_decide; [eexists; split; [done|naive_solver]|].
    destruct (is_success (http_status resp)); [|eexists; split; [done|naive_solver]].
    destruct (read_response c body); eexists; (split; [done|naive_solver]).
  - case_decide; [|destruct (is_success (http_status resp))]; eexists; (split; [done|naive_solver]).
Qed.

Lemma apply_to_node_exact nd ts c text id node log o log' :
  apply_to_node server nd ts c text id node log = (o, log') →
  match node_request nd ts c text id node with
  | None => log' = log ∧ ¬ succeeded o
  | Some r => log' = log ++ [r] ∧ (succeeded o ↔ accepted c (answers log r))
  end.
Proof.
  unfold apply_to_node, node_request, bind at 1, lift.
  destruct (node_apply_request _ _ _ _ _ _) as [request|e];
    [|intros [= <- <-]; split; [done|apply not_succeeded_Err]].
  pose proof (send_exact (nd_send nd) c (trim_slashes (base_url c) +:+ "/apply_direct/" +:+ node.1) request
    "apply_request" log) as Hs.
  unfold bind. destruct (request_envelope _ _ _ _) as [envelope|e].
  2: { rewrite Hs. intros [= <- <-]. split; [done|apply not_succeeded_Err]. }
  destruct Hs as (o1 & -> & Ho). unfold accepted. destruct o1 as [[bytes|e]|].
  - pose proof (proj1 (Ho bytes) eq_refl) as ->.
    destruct (root_as_apply_response bytes) as [response|] eqn:Er.
    + destruct (at_ok response) eqn:Eo; intros [= <- <-]; (split; [done|]).
      * split; [intros _; by exists bytes, response|intros _; apply succeeded_Ok].
      * split; [by intros []%not_succeeded_Err|]. intros (? & ? & [= <-] & ? & ?). congruence.
    + intros [= <- <-]. split; [done|]. split; [by intros []%not_succeeded_Err|].
      intros (? & ? & [= <-] & ? & _). congruence.
  - intros [= <- <-]. split; [done|]. split; [by intros []%not_succeeded_Err|].
    intros (bytes & _ & Hb%Ho & _). done.
  - intros [= <- <-]. split; [done|]. split; [by intros [? ?]|]. intros (bytes & _ & Hb%Ho & _). done.
Qed.

(** The requests [reqs] follow [base]: the wanted ones in order, none after one
    that was not accepted; [ok] says that all [n] were sent and accepted. They
    end early only after a refusal, or when the next cannot be built. *)
Record sent_in_turn (base : list HttpRequest) (c : FlatbufferClient) (want : nat → option HttpRequest) (n : nat)
    (reqs : list HttpRequest) (ok : Prop) : Prop := {
  turn_wanted : ∀ j r, reqs !! j = Some r → (j < n)%nat ∧ want j = Some r;
  turn_onward : ∀ j r, (S j < length reqs)%nat → reqs !! j = Some r →
    accepted c (answers (base ++ take j reqs) r);
  turn_ok : ok ↔ length reqs = n ∧ ∀ j r, reqs !! j = Some r → accepted c (answers (base ++ take j reqs) r);
  turn_stop : (length reqs < n)%nat → want (length reqs) = None ∨
    ∃ j r, length reqs = S j ∧ reqs !! j = Some r ∧ ¬ accepted c (answers (base ++ take j reqs) r);
}.

Lemma turn_cons base c want n r reqs ok :
  want 0%nat = Some r → accepted c (answers base r) →
  sent_in_turn (base ++ [r]) c (λ j, want (S j)) n reqs ok → sent_in_turn base c want (S n) (r :: reqs) ok.
Proof.
  intros Hw Hacc [Hwant Hon Hok Hstop].
  assert (Htake : ∀ j, base ++ take (S j) (r :: reqs) = (base ++ [r]) ++ take j reqs)
    by (intros; by rewrite <- app_assoc).
  assert (Hz : accepted c (answers (base ++ take 0 (r :: reqs)) r)) by by rewrite app_nil_r.
  split.
  - intros [|j] r'; [intros [= <-]; split; [lia|done]|]. intros [? ?]%Hwant. split; [lia|done].
  - intros [|j] r' Hl; [by intros [= <-]|]. rewrite Htake. apply Hon. simpl in Hl. lia.
  - rewrite Hok. split; intros [Hl Ha].
    + split; [simpl; lia|]. intros [|j] r'; [by intros [= <-]|]. rewrite Htake. apply Ha.
    + split; [simpl in Hl; lia|]. intros j r' Hj. rewrite <- Htake. by apply Ha.
  - intros Hl. destruct Hstop as [?|(j & r' & Hlen & Hj & Hno)]; [simpl in Hl; lia|by left|right].
    exists (S j), r'. rewrite Htake. split_and!; [simpl; lia|done|done].
Qed.

Lemma apply_to_nodes_exact draws ts c text id nodes log o log' :
  apply_to_nodes server draws ts c text id nodes log = (o, log') →
  ∃ reqs, log' = log ++ reqs ∧
    sent_in_turn log c (λ j, nodes !! j ≫= node_request (draws j) ts c text id) (length nodes) reqs (succeeded o).
Proof.
  revert draws log. induction nodes as [|node nodes IH]; intros draws log; cbn [apply_to_nodes].
  { intros [= <- <-]. exists []. split; [by rewrite app_nil_r|].
    split; [done|done| |simpl; lia]. split; [done|intros _; apply succeeded_Ok]. }
  intros [(x & l1 & Hn & Hk)|(Hno & o1 & Ho1 & Hn)]%bind_inv; apply apply_to_node_exact in Hn;
    destruct (node_request (draws 0%nat) ts c text id node) as [r|] eqn:Er.
  - destruct Hn as [-> Hacc]. apply IH in Hk as (reqs & -> & Hk). exists (r :: reqs).
    split; [by rewrite <- app_assoc|]. apply turn_cons; [done|apply Hacc, succeeded_Ok|done].
  - destruct Hn as [_ []]. apply succeeded_Ok.
  - destruct Hn as [-> Hacc]. assert (¬ accepted c (answers (log ++ take 0 [r]) r)) as Hrej.
    { rewrite app_nil_r. naive_solver. }
    exists [r]. split; [done|]. split.
    + intros [|j] r'; [intros [= <-]; split; [simpl; lia|done]|done].
    + simpl. lia.
    + split; [done|]. intros [_ Ha]. destruct Hrej. by apply Ha.
    + intros _. right. by exists 0%nat, r.
  - destruct Hn as [-> _]. exists []. split; [by rewrite app_nil_r|].
    split; [done|done| |by left]. split; [done|]. by intros [? _].
Qed.

Lemma parse_peers_length peers parsed : parse_peers peers = Ok parsed → length parsed = length peers.
Proof.
  revert parsed. induction peers as [|p peers IH]; intros parsed; simpl; [by intros [= <-]|].
  destruct (split_once ":" p) as [[q k]|]; [|done].
  destruct (parse_peers peers) as [rest|]; [|done]. intros [= <-]. simpl. by rewrite (IH rest).
Qed.

Lemma manifest_replicas_u64 json : in_u 64 (manifest_replicas json).
Proof.
  unfold manifest_replicas.
  assert (∀ v n, json_as_u64 v = Some n → in_u 64 n) as Hu.
  { intros v n. unfold json_as_u64. destruct v; try done. by apply parse_uint_in_u. }
  destruct (_ ≫= json_as_u64) as [n|] eqn:E1; simpl.
  - destruct (json_get "spec" json ≫= json_get "replicas"); [|done]. by eapply Hu.
  - destruct (json_get "replicas" json) as [v|]; simpl; [|by apply (bool_decide_unpack _)].
    destruct (json_as_u64 v) as [n|] eqn:E2; simpl; [by eapply Hu|by apply (bool_decide_unpack _)].
Qed.


Lemma identify_done i manifest missing id (log log' : list HttpRequest) :
  identify i manifest missing log = (Some (Ok id), log') →
  log' = log ∧ ∃ keys name, inv_keypair i = Ok keys ∧ extract_manifest_name_from_json manifest = Some name ∧
    client_manifest_id keys.1 name = Some id ∧ ¬ (inv_log_debug i = true ∧ length keys.1 < 8)%nat.
Proof.
  unfold identify, bind, lift, ret, panic. destruct (inv_keypair i) as [keys|]; [|done].
  destruct (extract_manifest_name_from_json manifest) as [name|]; [|done]. cbn [ok_or].
  destruct (client_manifest_id keys.1 name) as [id'|] eqn:Ei; [|done]. case_decide; [done|].
  intros [= <- <-]. split; [done|]. by exists keys, name.
Qed.

Lemma identify_failed i manifest missing o (log log' : list HttpRequest) :
  identify i manifest missing log = (o, log') → ¬ succeeded o →
  log' = log ∧ ∀ keys name id, ¬ (inv_keypair i = Ok keys ∧ extract_manifest_name_from_json manifest = Some name ∧
    client_manifest_id keys.1 name = Some id ∧ ¬ (inv_log_debug i = true ∧ length keys.1 < 8)%nat).
Proof.
  unfold identify, bind, lift, ret, panic. destruct (inv_keypair i) as [keys|]; [|intros [= <- <-]; naive_solver].
  destruct (extract_manifest_name_from_json manifest) as [name|]; cbn [ok_or]; [|intros [= <- <-]; naive_solver].
  destruct (client_manifest_id keys.1 name) as [id'|] eqn:Ei; [|intros [= <- <-]; naive_solver].
  case_decide; [intros [= <- <-]; naive_solver|]. intros [= <- <-] Hno. destruct Hno. apply succeeded_Ok.
Qed.

Lemma connect_exact i log o log' :
  connect server i log = (o, log') →
  match FlatbufferClient_new (inv_pqc_init i) (inv_keypair i) (inv_kem_keypair i) (api_base_url i) with
  | Err _ => log' = log ∧ ¬ succeeded o
  | Ok c0 =>
      let r := get_request (api_base_url i +:+ "/api/v1/kem_pubkey") in
      log' = log ++ [r] ∧
      ∀ c, o = Some (Ok c) ↔ ∃ key, key_answer (answers log r) = Some key ∧ c = keyed c0 key
  end.
Proof.
  unfold connect, bind at 1, lift.
  destruct (FlatbufferClient_new _ _ _ _) as [c0|e] eqn:Ec; [|intros [= <- <-]; split; [done|apply not_succeeded_Err]].
  assert (base_url c0 = api_base_url i) as Hb.
  { revert Ec. unfold FlatbufferClient_new. destruct (inv_pqc_init i); [|done]. simpl.
    destruct (inv_keypair i) as [[? ?]|]; [|done]. simpl. destruct (inv_kem_keypair i) as [[? ?]|]; [|done].
    by intros [= <-]. }
  cbv zeta. rewrite <- Hb. clear Hb Ec. unfold fetch_machine_public_key, logged, bind, lift, ret, fail, key_answer.
  fold (get_request (base_url c0 +:+ "/api/v1/kem_pubkey")).
  destruct (answers log (get_request _)) as [resp|e]; cbn [map_err]; [|intros [= <- <-]; split; [done|naive_solver]].
  destruct (is_success (http_status resp)); cbn [andb].
  2: { intros [= <- <-]. split; [done|]. destruct (response_text resp); naive_solver. }
  destruct (response_text resp) as [t|e]; cbn [map_err]; [|intros [= <- <-]; split; [done|naive_solver]].
  destruct (starts_with "ERROR:" t); cbn [negb]; [intros [= <- <-]; split; [done|naive_solver]|].
  destruct (base64_decode t) as [key|]; cbn [ok_or]; intros [= <- <-]; (split; [done|]).
  - intros c. split; [intros [= <-]; by exists key|]. by intros (? & [= <-] & ->).
  - naive_solver.
Qed.

Lemma cli_candidates_exact sd c task log o log' :
  cli_get_candidates server sd c task log = (o, log') →
  match request_envelope sd c [] "candidates_request" with
  | Err _ => log' = log ∧ ¬ succeeded o
  | Ok envelope =>
      let r := post_request (trim_slashes (base_url c) +:+ "/tasks/" +:+ task +:+ "/candidates") envelope in
      log' = log ++ [r] ∧ ∀ peers, o = Some (Ok peers) ↔ candidates_offered c (answers log r) = Some peers
  end.
Proof.
  unfold cli_get_candidates, bind. pose proof (send_exact sd c
    (trim_slashes (base_url c) +:+ "/tasks/" +:+ task +:+ "/candidates") [] "candidates_request" log) as Hs.
  destruct (request_envelope _ _ _ _) as [envelope|e].
  2: { rewrite Hs. intros [= <- <-]. split; [done|apply not_succeeded_Err]. }
  destruct Hs as (o1 & -> & Ho). cbv zeta. unfold candidates_offered. destruct o1 as [[bytes|e]|].
  - rewrite (proj1 (Ho bytes) eq_refl). intros [= <- <-]. split; [done|]. simpl.
    destruct (parse_candidates_response bytes); naive_solver.
  - intros [= <- <-]. split; [done|]. destruct (reply_read c _) as [b|] eqn:Eb; [|done].
    by pose proof (proj2 (Ho b) eq_refl).
  - intros [= <- <-]. split; [done|]. destruct (reply_read c _) as [b|] eqn:Eb; [|done].
    by pose proof (proj2 (Ho b) eq_refl).
Qed.

(** *** The whole conversation *)

(** After the candidates [peers] were offered: one request per replica, to the
    first candidates in the order of the offer, with a key that was offered for
    each; without enough candidates, nothing. *)
Definition node_phase draws ts c manifest id peers (o : option (result string string)) base log : Prop :=
  (log = base ∧ ¬ succeeded o ∧ ∀ parsed text, ¬ enough_candidates manifest peers parsed text) ∨
  ∃ parsed text nodes reqs, enough_candidates manifest peers parsed text ∧
    nodes.*1 = take (Z.to_nat (manifest_replicas manifest)) parsed.*1 ∧ nodes ⊆ parsed ∧ log = base ++ reqs ∧
    sent_in_turn base c (λ j, nodes !! j ≫= node_request (draws j) ts c text id) (Z.to_nat (manifest_replicas manifest))
      reqs (succeeded o) ∧
    ∀ x, o = Some (Ok x) → x = id.

(** With the machine's key: the question for candidates, and its answer. *)
Definition candidate_phase sd draws ts c manifest id (o : option (result string string)) base log : Prop :=
  match request_envelope sd c [] "candidates_request" with
  | Err _ => log = base ∧ ¬ succeeded o
  | Ok envelope =>
      let r := post_request (trim_slashes (base_url c) +:+ "/tasks/" +:+ id +:+ "/candidates") envelope in
      match candidates_offered c (answers base r) with
      | None => log = base ++ [r] ∧ ¬ succeeded o
      | Some peers => node_phase draws ts c manifest id peers o (base ++ [r]) log
      end
  end.

(** The requests of [apply], from the question for the machine's key on. *)
Definition apply_plan (i : invocation) sd draws ts (o : option (result string string)) (log : list HttpRequest) : Prop :=
  (log = [] ∧ ¬ succeeded o ∧ ∀ manifest id c0, names_manifest i manifest id →
     FlatbufferClient_new (inv_pqc_init i) (inv_keypair i) (inv_kem_keypair i) (api_base_url i) ≠ Ok c0) ∨
  ∃ manifest id c0, names_manifest i manifest id ∧
    FlatbufferClient_new (inv_pqc_init i) (inv_keypair i) (inv_kem_keypair i) (api_base_url i) = Ok c0 ∧
    let r := get_request (api_base_url i +:+ "/api/v1/kem_pubkey") in
    match key_answer (answers [] r) with
    | None => log = [r] ∧ ¬ succeeded o
    | Some key => candidate_phase sd draws ts (keyed c0 key) manifest id o [r] log
    end.

Lemma apply_peers_exact draws ts c manifest id peers log o log' :
  apply_to_candidates server draws ts c manifest id (Z.to_nat (manifest_replicas manifest)) peers log = (o, log') →
  node_phase draws ts c manifest id peers o log log'.
Proof.
  unfold apply_to_candidates, node_phase, enough_candidates.
  case_decide as Hne; [intros [= <- <-]; left; split_and!; [done|apply not_succeeded_Err|naive_solver]|].
  case_decide as Hlt; [intros [= <- <-]; left; split_and!; [done|apply not_succeeded_Err|]; intros ? ? (_ & ? & _); lia|].
  unfold bind at 1, lift at 1.
  destruct (parse_peers peers) as [parsed|e] eqn:Hp;
    [|intros [= <- <-]; left; split_and!; [done|apply not_succeeded_Err|naive_solver]].
  pose proof (parse_peers_length _ _ Hp) as Hlen. pose proof (manifest_replicas_u64 manifest) as Hu.
  destruct (select_nodes_ok parsed (Z.to_nat (manifest_replicas manifest))) as (nodes & Hsel & Hnodes & Hsub);
    [intros ->; by destruct peers|lia|rewrite Z2Nat.id by (unfold in_u in *; lia); done|].
  assert (length nodes = Z.to_nat (manifest_replicas manifest)) as Hl.
  { apply (f_equal length) in Hnodes. rewrite length_take, !length_fmap in Hnodes. lia. }
  unfold bind at 1, lift_panic. rewrite Hsel. unfold bind at 1, lift.
  destruct (json_to_string manifest) as [text|] eqn:Ht; simpl;
    [|intros [= <- <-]; left; split_and!; [done|apply not_succeeded_Err|naive_solver]].
  intros Hk. right. exists parsed, text, nodes.
  apply bind_inv in Hk as [(u & l1 & Ha & Hk)|(Hno & o1 & Ho1 & Ha)];
    apply apply_to_nodes_exact in Ha as (reqs & -> & Ha); rewrite Hl in Ha; exists reqs.
  - injection Hk as <- <-. split_and!; try done; [lia| |by intros x [= <-]].
    destruct Ha as [? ? Hok ?]. split; try done. rewrite <- Hok. split; intros _; apply succeeded_Ok.
  - split_and!; try done; [lia| |intros x ->; destruct Hno; apply succeeded_Ok].
    destruct Ha as [? ? Hok ?]. split; try done. rewrite <- Hok. by split.
Qed.

(** C19: what [apply] asks of the machine, and of whom. It fetches the machine's
    key, asks for candidates under the identifier made from the client's key and
    the manifest's name, in an envelope for that key, and then sends one request
    per replica, to the first of the candidates the machine answered, in the order
    they were offered: each request is the manifest encrypted for that node under
    a key offered for it, in an envelope for the machine. The next request is sent
    only after the one before was accepted; the command succeeds exactly when
    all were sent and accepted, and otherwise it ends at the first refusal, or
    where a request cannot be built, with what was sent before left in place. *)
Theorem apply_file_requests i sd draws ts o log :
  apply_file server i sd draws ts [] = (o, log) → apply_plan i sd draws ts o log.
Proof.
  unfold apply_file, apply_plan. intros Hrun. apply bind_inv in Hrun as [(manifest & l1 & Hm & Hk)|(Hno & o1 & Ho1 & Hm)].
  2: { left. unfold read_manifest in Hm. destruct (inv_file i) eqn:Ef; injection Hm as Ho <-;
       [| |destruct Ho1; rewrite <- Ho; apply succeeded_Ok];
       (split_and!; [done|done|]); intros ? ? ? (? & ? & ? & Hf & _); congruence. }
  unfold read_manifest in Hm. destruct (inv_file i) as [| |text] eqn:Ef; try done. injection Hm as Hjson <-.
  apply bind_inv in Hk as [(id & l1 & Hid & Hk)|(Hno & o1 & Ho1 & Hid)].
  2: { left. apply identify_failed in Hid as [-> Hfail]; [|done]. split_and!; [done|done|].
       intros manifest' id c0 (text' & keys & name & Ht & -> & Hi). rewrite Ef in Ht. injection Ht as <-.
       rewrite Hjson in Hi. destruct (Hfail keys name id). naive_solver. }
  apply identify_done in Hid as (-> & keys & name & Hkeys & Hname & Hcid & Hdbg).
  assert (names_manifest i manifest id) as Hident by by exists text, keys, name.
  apply bind_inv in Hk as [(c & l2 & Hc & Hk)|(Hno & o1 & Ho1 & Hc)]; apply connect_exact in Hc;
    destruct (FlatbufferClient_new _ _ _ _) as [c0|e] eqn:Ec.
  - right. exists manifest, id, c0. split_and!; [done..|]. destruct Hc as [-> Hc].
    destruct (proj1 (Hc c) eq_refl) as (key & -> & ->). unfold candidate_phase.
    apply bind_inv in Hk as [(peers & l3 & Hp & Hk)|(Hno & o1 & Ho1 & Hp)]; apply cli_candidates_exact in Hp;
      destruct (request_envelope _ _ _ _) as [envelope|e'].
    + destruct Hp as [-> Hp]. cbv zeta in Hp |- *. rewrite app_nil_l in Hp, Hk.
      rewrite (proj1 (Hp peers) eq_refl). by apply apply_peers_exact.
    + destruct Hp as [_ []]. apply succeeded_Ok.
    + destruct Hp as [-> Hp]. cbv zeta in Hp |- *. rewrite app_nil_l in Hp |- *.
      destruct (candidates_offered _ _) as [peers|]; [|done]. destruct Ho1. exists peers. by apply Hp.
    + by destruct Hp as [-> _].
  - destruct Hc as [_ []]. apply succeeded_Ok.
  - right. exists manifest, id, c0. split_and!; [done..|]. destruct Hc as [-> Hc].
    cbv zeta. destruct (key_answer _) as [key|]; [|done]. destruct Ho1. exists (keyed c0 key). apply Hc. by exists key.
  - left. destruct Hc as [-> _]. split_and!; [done|done|]. intros. congruence.
Qed.

End traces.

(** ** Round trips *)

Lemma blob_version `{Kem} seed nonce pk plain blob :
  encrypt_payload_for_recipient seed nonce pk plain = Ok blob → ∃ rest, blob = x02 :: rest.
Proof.
  unfold encrypt_payload_for_recipient.
  destruct (encapsulate_to_pubkey seed pk) as [[w sh]|]; [|done]. simpl.
  destruct (new_cipher _ sh) as [cipher|]; [|done]. simpl.
  destruct (aes_encrypt _ _ _); [|done]. intros [= <-]. by eexists.
Qed.

Section roundtrip.
Context `{FlatBuffersLaws} {CR : Crypto} {keypair : list byte → list byte → Prop}
  {CL : CryptoLaws keypair} {KM : Kem} {kem_pair : list byte → list byte → Prop}
  {KL : KemLaws kem_pair} {KP : KemPublic}.
Implicit Types (c : FlatbufferClient) (h : EnvelopeHandler) (store : nonce_store) (d : response_draws).

(** A response the machine encrypts for the client is read back. *)
Lemma response_read d h reply rtype meta peer c npk nsk :
  kem_pair (kem_pubkey meta) (client_kem_private_key c) → kem_pubkey meta ≠ [] →
  ml_kem_public_from_bytes (kem_pubkey meta) = Ok () → meta_peer_id meta = Some peer →
  keypair npk nsk → signing_private_key h = Some nsk → public_key h = base64_encode npk →
  length (draw_aes_nonce d) = 12%nat → Z.of_nat (length reply) < 2 ^ 32 - 16 →
  draw_uuid d ≠ "" → in_u 64 (draw_now_ms d) → is_Some (machine_public_key c) →
  let response := create_response_for_envelope_metadata d h reply rtype meta in
  (100 < length (response_body response))%nat →
  read_response c (response_body response) = Some reply.
Proof.
  intros Hkem Hne Hparse Hpeer Hk Hsk Hpk Hl Hp Hn Hu Hm.
  destruct (blob_decrypts kem_pair _ (client_kem_private_key c) (draw_seed d) _ reply Hkem Hl Hp) as (blob & Henc & Hdec).
  destruct (signed_blob blob rtype (draw_uuid d) (draw_now_ms d) None None npk nsk Hk Hn Hu)
    as (s & sig & Hs & Hroot & _).
  assert (response_body (create_response_for_envelope_metadata d h reply rtype meta) = signed_bytes s) as Hresp.
  { unfold create_response_for_envelope_metadata, create_encrypted_response_with_key.
    rewrite decide_False, Hpeer by done. rewrite response_envelope_is_signed, Henc by done. simpl.
    rewrite Hsk, Hpk. simpl. rewrite base64_roundtrip. simpl. rewrite Hs. done. }
  cbv zeta. rewrite Hresp. intros Hlong. unfold read_response, decrypt_from_machine.
  rewrite decide_True, Hroot by done. simpl. destruct (blob_version _ _ _ _ _ Henc) as [rest ->].
  by rewrite Hdec.
Qed.

(** a request of the client and the machine's answer survive the two
    envelopes. What the client sends to a machine whose key it fetched reaches
    the handler as it was, with the client's keys; what the handler answers is
    what the client reads. *)
Theorem client_server_roundtrip now h sd c ckem csk pk npk payload ptype store :
  machine_public_key c = Some npk → kem_pair npk (kem_private_key h) →
  keypair pk (private_key c) → client_public_key c = base64_encode pk →
  kem_public_key c = ckem → client_kem_private_key c = csk → kem_pair ckem csk → ckem ≠ [] →
  ml_kem_public_from_bytes ckem = Ok () →
  length (sd_aes_nonce sd) = 12%nat → Z.of_nat (length payload) < 2 ^ 32 - 16 →
  in_u 64 (sd_now' sd / 1000000000) → seen_at store CLI_PEER (clock_nonce (sd_now sd)) = None →
  ∃ bytes meta store', request_envelope sd c payload ptype = Ok bytes ∧
    envelope_middleware now h {| headers := client_headers; request_body := Some bytes |} store =
      (Some (Forwarded meta (Some payload)), store') ∧
    signing_pubkey meta = pk ∧
    ∀ d reply rtype nspk nsk,
      keypair nspk nsk → signing_private_key h = Some nsk → public_key h = base64_encode nspk →
      length (draw_aes_nonce d) = 12%nat → Z.of_nat (length reply) < 2 ^ 32 - 16 →
      draw_uuid d ≠ "" → in_u 64 (draw_now_ms d) →
      let response := create_response_for_envelope_metadata d h reply rtype meta in
      (100 < length (response_body response))%nat →
      read_response c (response_body response) = Some reply.
Proof.
  intros Hm Hkem Hk Hpk Hck Hcs Hckem Hne Hparse Hl Hp Hu Hseen.
  destruct (request_roundtrip now h client_headers (sd_seed sd) (sd_aes_nonce sd) (sd_now sd) (sd_now' sd) payload
    ptype npk pk (private_key c) CLI_PEER ckem store) as (bytes & store' & Hb & Hmid); try done.
  eexists bytes, _, store'. split; [|split; [exact Hmid|split; [done|]]].
  { unfold request_envelope. rewrite Hm, Hpk, Hck. exact Hb. }
  intros d reply rtype nspk nsk Hnk Hsk Hpub Hl' Hp' Hn' Hu'.
  by eapply response_read; rewrite ?Hcs, ?Hm.
Qed.

(** the manifest the client encrypts for a node is the manifest that node
    deploys: the request it sends, for one replica and under the client's
    identifier, holds an envelope the node's own decryption turns back into the
    client's text. *)
Theorem client_manifest_reaches_node `{TablesLaws} nd ts text id node npk nsk :
  kem_pair npk nsk → length (nd_aes_nonce nd) = 12%nat →
  Z.of_nat (length (as_bytes text)) < 2 ^ 32 - 16 → in_u 64 ts → utf8_string text →
  ∃ bytes request blob, node_apply_request nd ts text id node (base64_encode npk) = Ok bytes ∧
    root_as_apply_request bytes = Some request ∧ ar_manifest_json request = Some blob ∧
    ar_manifest_id request = Some id ∧ ar_replicas request = 1 ∧
    decrypt_manifest_content (Ok (npk, nsk)) blob = Some (Ok (as_bytes text)).
Proof.
  intros Hkem Hl Hp Hu Hutf.
  destruct (blob_decrypts kem_pair npk nsk (nd_seed nd) (nd_aes_nonce nd) (as_bytes text) Hkem Hl Hp) as (blob & Henc & Hdec).
  unfold node_apply_request. rewrite base64_roundtrip. simpl. rewrite Henc. simpl.
  eexists _, _, _. split; [done|]. unfold build_apply_request.
  split; [apply root_finish_apply_request; by apply (bool_decide_unpack _)|]. split_and!; [done|done|done|].
  unfold decrypt_manifest_content, build_envelope_canonical_with_peer. rewrite base64_roundtrip. simpl.
  rewrite root_finish by done. simpl. destruct (blob_version _ _ _ _ _ Henc) as [rest ->]. simpl.
  rewrite Hdec. simpl. by rewrite from_utf8_as_bytes.
Qed.

End roundtrip.

(** ** Concrete runs *)

Section witnesses.
Import Toy ToyTables ToyKemPublic ToyRest.

#[local] Instance demo_text : ClientText :=
  {| status_text _ := "status";
     json_from_yaml _ := Some (JObject [("metadata", JObject [("name", JString "web")]); ("replicas", JNumber "2")]) |}.

#[local] Instance demo_serde : Serde :=
  {| json_from_str _ := None; yaml_from_str _ := None; yaml_to_string _ := None;
     json_map_to_string _ := ""; json_map_from_str _ := None |}.

#[local] Instance demo_print : JsonPrint := {| json_to_string _ := Some "{}" |}.

(** A machine that offers three candidates and accepts everything. *)
Definition demo_answers (log : list HttpRequest) (r : HttpRequest) : result string HttpResponse :=
  Ok {| http_status := 200;
        http_body := Ok (
          match length log with
          | O => as_bytes (base64_encode [x01])
          | 1%nat => build_candidates_response_with_keys true
                   [("peer-1", base64_encode [x02]); ("peer-2", base64_encode [x03]); ("peer-3", base64_encode [x04])]
          | _ => apply_response_bytes true "forwarded" "ok"
          end) |}.

Definition demo_invocation : invocation :=
  {| inv_path := "web.yaml"; inv_file := FileText "web"; inv_pqc_init := Ok ();
     inv_keypair := Ok ([x0a], [x0a]); inv_kem_keypair := Ok ([x0c], [x0c]);
     inv_api_base := None; inv_env_api := None; inv_log_debug := false |}.

Definition demo_send : send_draws :=
  {| sd_seed := [x05]; sd_aes_nonce := replicate 12 x07; sd_now := 9; sd_now' := 9; sd_nonce := [] |}.

Definition demo_node_draws (n : nat) : node_draws :=
  {| nd_uuid := "op"; nd_seed := [x05]; nd_aes_nonce := replicate 12 x07; nd_send := demo_send |}.

Definition demo_run : option (result string string) * list HttpRequest :=
  apply_file (logged demo_answers) demo_invocation demo_send demo_node_draws 3 [].

Lemma apply_file_requests_witness :
  apply_plan demo_answers demo_invocation demo_send demo_node_draws 3 demo_run.1 demo_run.2 ∧
  (∃ id, demo_run.1 = Some (Ok id)) ∧ length demo_run.2 = 4%nat.
Proof.
  split; [|split; [vm_compute; by eexists|vm_compute; reflexivity]].
  exact (apply_file_requests demo_answers demo_invocation demo_send demo_node_draws 3 demo_run.1 demo_run.2
    (surjective_pairing demo_run)).
Defined.

Definition demo_client : FlatbufferClient :=
  {| base_url := "http://m"; private_key := [x0a]; client_public_key := base64_encode [x0a];
     kem_public_key := [x0c]; client_kem_private_key := [x0c]; machine_public_key := Some [x01] |}.

Lemma client_server_roundtrip_witness :
  ∃ bytes meta store', request_envelope demo_send demo_client [x01; x02] "task" = Ok bytes ∧
    envelope_middleware 0 demo_handler {| headers := client_headers; request_body := Some bytes |} ∅ =
      (Some (Forwarded meta (Some [x01; x02])), store') ∧ signing_pubkey meta = [x0a].
Proof.
  destruct (client_server_roundtrip (keypair := λ pk sk, pk = sk) (kem_pair := λ pk sk, pk = sk)
    0 demo_handler demo_send demo_client [x0c] [x0c] [x0a] [x01] [x01; x02] "task" ∅)
    as (bytes & meta & store' & Hb & Hm & Hs & _);
    [done|done|done|done|done|done|done|done|reflexivity|done|simpl; lia|by apply (bool_decide_unpack _)|done|].
  exists bytes, meta, store'. split; [exact Hb|]. split; [exact Hm|exact Hs].
Defined.

Lemma client_manifest_reaches_node_witness :
  ∃ bytes request blob, node_apply_request (demo_node_draws 0) 3 "name: web" "id" "peer-1" (base64_encode [x01]) = Ok bytes ∧
    root_as_apply_request bytes = Some request ∧ ar_manifest_json request = Some blob ∧
    ar_manifest_id request = Some "id" ∧ ar_replicas request = 1 ∧
    decrypt_manifest_content (Ok ([x01], [x01])) blob = Some (Ok (as_bytes "name: web")).
Proof.
  apply (client_manifest_reaches_node (keypair := λ pk sk, pk = sk) (kem_pair := λ pk sk, pk = sk)
    (demo_node_draws 0) 3 "name: web" "id" "peer-1" [x01] [x01]);
    [done|done|simpl; lia|by apply (bool_decide_unpack _)|vm_compute; reflexivity].
Defined.

End witnesses.
