(* ===== verification/Mesh.v ===== *)
(** * The mesh: nodes and the network between them

    Several nodes, each with its REST server ([System]), the channel over which
    the REST handlers hand control messages to the libp2p task of their node,
    and the frames of the request-response protocols on their way from one node
    to another. Peers outside the mesh may send any frame under their own
    identity; frames may be lost and overtake each other. *)

From Stdlib Require Import Ascii.
From S2P Require Import Prelude RustStr Utf8 RustHash Constants Serde Libp2p Concrete Provider Runtime.
From S2P Require Import ResourceVerifier NonceStore Envelope RecipientBlob MockEngine WorkloadIntegration.
From S2P Require Import DeleteMessage Protocol RestEnvelope CapacityMessages Handshake Control RestApi Node.
From S2P Require Import Wire System Cli.

Open Scope list_scope.

Section mesh.
Context `{PeerIds, !Kademlia, !Swarm, !PeerParse, Serde, JsonPrint, FlatBuffers, Crypto, Kem, KemPublic, Messages, Tables}
  {W : Type}.

(** ** Frames *)

(** A frame of a request-response protocol under way; the transport
    authenticates the sender. *)
Record Packet := {
  pk_from : PeerId;
  pk_to : PeerId;
  pk_proto : rr_protocol;
  pk_is_request : bool;
  pk_frame : list byte;
}.

(** The response tables of [build_apply_response] and [build_delete_response]. *)
Definition apply_response_wire (r : ApplyResponse) : list byte :=
  apply_response_bytes (resp_ok r) (resp_operation_id r) (resp_message r).
Definition delete_response_wire (r : DeleteResponse) : list byte :=
  build_delete_response (del_ok r) (del_operation_id r) (del_message r) (del_manifest_id r) (del_removed r).

(** What an output of the libp2p task puts on the wire. *)
Definition packet_of (me : PeerId) (o : output) : option Packet :=
  let packet p to is_request data :=
    Some {| pk_from := me; pk_to := to; pk_proto := p; pk_is_request := is_request;
            pk_frame := codec_write data |} in
  match o with
  | SendRequest p to request => packet p to true request
  | RespondBytes p to response => packet p to false response
  | RespondApply to response => packet ApplyRr to false (apply_response_wire response)
  | RespondDelete to response => packet DeleteRr to false (delete_response_wire response)
  | Reply _ _ | Publish _ | PeerList _ => None
  end.

(** The event a frame becomes at its receiver; a frame that does not decode is
    an event of the failure handlers, which only log. *)
Definition packet_event (pkt : Packet) : option event :=
  match codec_read (pk_frame pkt) with
  | Err _ => None
  | Ok (data, _) =>
      let m := if pk_is_request pkt then RrRequest data else RrResponse data in
      Some (match pk_proto pkt with
            | ApplyRr => ApplyMessage m (pk_from pkt)
            | DeleteRr => DeleteMessageEvent m (pk_from pkt)
            | HandshakeRr => HandshakeMessage m (pk_from pkt)
            | SchedulerRr => SchedulerMessage m (pk_from pkt)
            end)
  end.

(** Events that are neither a control message nor a frame. *)
Definition local_event (ev : event) : bool :=
  match ev with
  | ControlMessage _ | HandshakeMessage _ _ | ApplyMessage _ _ | DeleteMessageEvent _ _
  | SchedulerMessage _ _ => false
  | _ => true
  end.

(** ** Control messages of the REST handlers *)

Definition served_sends (p : pending) (msg : Libp2pControl) : Prop :=
  match p_endpoint p with
  | EpApplyDirect peer => ∃ target body tx,
      peer_parse peer = Ok target ∧ p_body p = Some body ∧ msg = SendApplyRequest target body tx
  | EpCandidates _ => ∃ request_id tx payload, msg = QueryCapacityWithPayload request_id tx payload
  | EpDeleteTask id => ∃ tx, msg = FindManifestHolders id tx ∨ msg = GetLocalPeerId tx
  | EpDhtPeers => ∃ tx, msg = GetDhtPeers tx
  | EpLocalPeerId => ∃ tx, msg = GetLocalPeerId tx
  | _ => False
  end.

(** What a step of the REST server sends to the libp2p task. *)
Definition rest_sends (l : sys_label) (msg : Libp2pControl) : Prop :=
  match l with
  | LServed p => served_sends p msg
  | LDeleteStarted p id => ∃ tx, msg = FindManifestHolders id tx ∨ msg = GetLocalPeerId tx
  | LDeleteOn _ run _ => ∃ target tx, msg = SendDeleteRequest target (run_request run) tx
  | _ => False
  end.

(** ** State and steps *)

(** The settings of a node: its keys, its build, its REST handler. *)
Record NodeConfig := {
  nc_kem_keypair : result string (list byte * list byte);
  nc_node_keys : result string (list byte * list byte);
  nc_debug_assertions : bool;
  nc_downcast_mock : RuntimeEngine W → option (Z → string → list byte → DeploymentConfig → string →
                                               W → result RuntimeError WorkloadInfo * W);
  nc_handler : EnvelopeHandler;
}.

Context (config : PeerId → NodeConfig).

Definition member_event (p : PeerId) :=
  handle_event (nc_kem_keypair (config p)) (nc_node_keys (config p)) (nc_debug_assertions (config p))
    (nc_downcast_mock (config p)).

Definition member_step (p : PeerId) :=
  sys_step (nc_kem_keypair (config p)) (nc_node_keys (config p)) (nc_debug_assertions (config p))
    (nc_downcast_mock (config p)) (nc_handler (config p)).

Definition member_reach (p : PeerId) :=
  sys_reach (nc_kem_keypair (config p)) (nc_node_keys (config p)) (nc_debug_assertions (config p))
    (nc_downcast_mock (config p)) (nc_handler (config p)).

Record Member := {
  m_system : System (W:=W);
  m_channel : list Libp2pControl;
}.

Record Mesh := {
  members : gmap PeerId Member;
  wire : list Packet;
}.

(** How a step of member [p] uses its channel and the wire. *)
Inductive interacts (p : PeerId) (s : System (W:=W)) :
    sys_label → list Libp2pControl → list Packet → list Libp2pControl → list Packet → Prop :=
| via_control e msg nonces o n' q w :
    member_event p e (ControlMessage msg) (sys_node s) = (Some o, n') →
    interacts p s (LNode (Handled e (ControlMessage msg) nonces)) (msg :: q) w q (w ++ omap (packet_of p) o)
| via_packet e ev nonces o n' i pkt q w :
    w !! i = Some pkt → pk_to pkt = p → packet_event pkt = Some ev →
    member_event p e ev (sys_node s) = (Some o, n') →
    interacts p s (LNode (Handled e ev nonces)) q w q (delete i w ++ omap (packet_of p) o)
| via_local e ev nonces o n' q w :
    local_event ev = true → member_event p e ev (sys_node s) = (Some o, n') →
    interacts p s (LNode (Handled e ev nonces)) q w q (w ++ omap (packet_of p) o)
| via_task now tsk stage owner q w : interacts p s (LNode (Deleting now tsk stage owner)) q w q w
| via_rest l msgs q w : (∀ l', l ≠ LNode l') → Forall (rest_sends l) msgs →
    interacts p s l q w (q ++ msgs) w.

Abbreviation mesh_label := (option (PeerId * sys_label)).

(** The steps of one member. *)
Definition labels_of (p : PeerId) (tr : list mesh_label) : list sys_label :=
  omap (λ l, match l with
             | Some (q, l) => if decide (q = p) then Some l else None
             | None => None
             end) tr.

Inductive mesh_step : list mesh_label → Mesh → mesh_label → Mesh → Prop :=
| mesh_step_member tr ms w p s q l s' q' w' :
    ms !! p = Some {| m_system := s; m_channel := q |} →
    member_step p (labels_of p tr) s l s' → interacts p s l q w q' w' →
    mesh_step tr {| members := ms; wire := w |} (Some (p, l))
      {| members := <[p := {| m_system := s'; m_channel := q' |}]> ms; wire := w' |}
| mesh_step_outsider tr ms w pkt :
    ms !! pk_from pkt = None →
    mesh_step tr {| members := ms; wire := w |} None {| members := ms; wire := w ++ [pkt] |}
| mesh_step_loss tr ms w i :
    mesh_step tr {| members := ms; wire := w |} None {| members := ms; wire := delete i w |}.

Inductive mesh_reach (m0 : Mesh) : list mesh_label → Mesh → Prop :=
| mesh_reach_init : mesh_reach m0 [] m0
| mesh_reach_step tr m l m' : mesh_reach m0 tr m → mesh_step tr m l m' → mesh_reach m0 (l :: tr) m'.

(** Before anything happens: nodes at their start, nothing under way. *)
Definition mesh_start (m : Mesh) : Prop :=
  wire m = [] ∧ ∀ p mem, members m !! p = Some mem → start_ok (m_system mem) ∧ m_channel mem = [].

End mesh.

(** ** Lemmas *)

Section lemmas.
Context `{PeerIds, !Kademlia, !Swarm, !PeerParse, Serde, JsonPrint, FlatBuffers, Crypto, Kem, KemPublic, Messages, Tables}
  {W : Type}.
Context (config : PeerId → NodeConfig (W:=W)).
Implicit Types (m : Mesh (W:=W)) (p a b : PeerId) (n : Node (W:=W)).

Abbreviation mesh_label := (option (PeerId * sys_label)).
Abbreviation mesh_reach := (mesh_reach config).
Abbreviation mesh_step := (mesh_step config).
Abbreviation member_reach := (member_reach config).
Abbreviation member_event := (member_event config).

(** The handlers send what [served_sends] says. *)
Lemma apply_direct_sends pd peer body tx answer :
  p_endpoint pd = EpApplyDirect peer → p_body pd = Some body →
  Forall (served_sends pd) (apply_direct peer body tx answer).1.
Proof.
  intros Hep Hb. unfold apply_direct, served_sends. rewrite Hep.
  destruct (peer_parse peer) as [target|] eqn:Ep; [|constructor].
  destruct answer; simpl; [constructor|constructor; [naive_solver|constructor]..].
Qed.

Lemma candidates_sends pd id fuel log turns uuid tx d r meta :
  p_endpoint pd = EpCandidates id → served_sends pd (get_candidates fuel log turns uuid tx d id r meta).1.
Proof. intros Hep. unfold served_sends. rewrite Hep. by do 3 eexists. Qed.

Lemma delete_provider_sends now an (run : delete_run) provider (s : NodeState (W:=W)) :
  ∃ msgs, sent (delete_on_provider now an (run_local run) (run_task run) (run_force run)
            (run_request run) (run_tx run) provider (run_progress run) s).1 =
          sent (run_progress run) ++ msgs ∧
    Forall (rest_sends (LDeleteOn now run provider)) msgs.
Proof.
  unfold delete_on_provider, send_delete_request_to_peer.
  destruct (peer_parse provider) as [target|]; [|by exists []; rewrite app_nil_r]. case_decide.
  - destruct (handle_local_delete _ _ _ _) as [[]]; exists []; by rewrite app_nil_r.
  - destruct (peer_answer an provider) as [|[]| |]; simpl; eexists; (split; [reflexivity|]);
      repeat constructor; by do 2 eexists.
Qed.

(** The request that [handle_send_apply_request] sends for a manifest. *)
Definition forwarded_apply a (e : surroundings) (manifest : list byte) : list byte :=
  match sign_payload_default (nc_node_keys (config a)) (default 0 (head (draws e))) (now_ms e) manifest
          "apply_request" (Some "apply") with
  | Ok bytes => bytes
  | Err _ => manifest
  end.

(** A capacity request for manifest [mid], signed by [peer]'s messages. *)
Definition capacity_asked (now : Z) (peer : PeerId) (request : list byte) (nonces : nonce_store) (mid : string) : Prop :=
  ∃ env nonces' req, verify_signed_message now peer request nonces = (Some env, nonces') ∧
    root_as_capacity_request (payload env) = Some req ∧
    extract_manifest_id_from_request_id (default "" (cr_request_id req)) = Some mid.

(** The reservation a bid made at [now] promises. *)
Definition holds_for (now : Z) (mid : string) n : Prop :=
  ∀ now', now' < now + from_secs 3 →
    (has_active_reservation_for_manifest now' mid (RESOURCE_VERIFIER (task_node (task n)))).1 = true.

(** What a node answers to a request of the scheduler protocol. *)
Definition scheduler_answer a (e : surroundings) (peer : PeerId) (request : list byte) n : option (list byte) :=
  let s := task_node (task n) in
  (scheduler_request (nc_kem_keypair (config a)) false (now_ms e) (now e) peer (local_peer_id (swarm_kad s)) request s).1.

(** Why a node sends an apply request or an answer of the scheduler. *)
Definition output_cause a (e : surroundings) (ev : event) n n' (o : output) : Prop :=
  match o with
  | SendRequest ApplyRr to request => ∃ manifest tx,
      ev = ControlMessage (SendApplyRequest to manifest tx) ∧ request = forwarded_apply a e manifest
  | RespondBytes SchedulerRr to response => ∃ request mid,
      ev = SchedulerMessage (RrRequest request) to ∧ scheduler_answer a e to request n = Some response ∧
      capacity_asked (now e) to request (NONCE_STORE (task_node (task n))) mid ∧ holds_for (now e) mid n'
  | _ => True
  end.

Lemma Forall_fmap_true {A B} (f : A → B) (P : B → Prop) l : (∀ x, P (f x)) → Forall P (f <$> l).
Proof. intros HP. apply Forall_fmap, Forall_true. intros x. apply HP. Qed.

Ltac solve_causes := repeat first [apply Forall_app_2 | apply Forall_fmap_true; done | constructor | done].

Lemma control_outputs a disabled e msg n o t' n' :
  handle_control_message (nc_kem_keypair (config a)) (nc_node_keys (config a))
    (nc_debug_assertions (config a)) (nc_downcast_mock (config a)) disabled e msg (task n) = (Some o, t') →
  Forall (output_cause a e (ControlMessage msg) n n') o.
Proof.
  destruct msg; simpl.
  - destruct (handle_query_capacity_with_payload _ _ _ _ _ _ _ _ _ _ _) as [[? sent] notified].
    intros [= <- _]. solve_causes.
  - unfold handle_send_apply_request. case_decide.
    + destruct (process_enhanced_self_apply_request _ _ _ _ _ _ _) as [[]]; [|done].
      intros [= <- _]. solve_causes.
    + intros [= <- _]. constructor; [by eexists _, _|solve_causes].
  - intros [= <- _]. solve_causes.
  - intros [= <- _]. solve_causes.
  - intros [= <- _]. solve_causes.
  - unfold handle_announce_provider. destruct (announce_attempts _ _ _ _) as [[] ?]; intros [= <- _]; solve_causes.
  - unfold handle_withdraw_provider. destruct (announce_provider_direct _ _ _) as [? ?].
    intros [= <- _]. solve_causes.
  - intros [= <- _]. solve_causes.
  - intros [= <- _]. solve_causes.
  - intros [= <- _]. solve_causes.
Qed.

Lemma tick_outputs a e ev n o n' n'' :
  handshake_tick (nc_node_keys (config a)) e n = (o, n') → Forall (output_cause a e ev n n'') o.
Proof.
  unfold handshake_tick. destruct (tick_all _ _ _ _ _) as [o' k] eqn:E. intros [= <- _].
  apply Forall_app_2; [|solve_causes]. revert o' k E.
  generalize (local_peer_id (swarm_kad (task_node (task n)))) as me. intros me.
  generalize (swarm_kad (task_node (task n))) as k0.
  induction (map_to_list (handshake_states n)) as [|[peer st] l IH]; intros k0 o' k; simpl.
  - intros [= <- _]. constructor.
  - destruct (tick_peer _ _ _ _ _); [apply IH|apply IH|].
    destruct (tick_all _ _ _ l _) as [o'' k'] eqn:E. intros [= <- _]. constructor; [done|]. by eapply IH.
Qed.

(** A bid of the scheduler is for the request it answers, and is backed. *)
Lemma scheduler_bids kem disabled ms t (peer : PeerId) local request n s' r :
  scheduler_request kem disabled ms t peer local request (task_node (task n)) = (Some r, s') →
  ∃ mid, capacity_asked t peer request (NONCE_STORE (task_node (task n))) mid ∧ holds_for t mid (set_node s' n).
Proof.
  unfold scheduler_request. destruct disabled; [done|].
  destruct (verify_signed_message _ _ _ _) as [[env|] nonces] eqn:Ev; [|done].
  destruct (root_as_capacity_request _) as [req|] eqn:Er; [|done].
  destruct (bid _ _ _ _ _ _ _) as [[[mid reply]|] v'] eqn:Eb; [|done]. intros [= _ <-].
  destruct (bid_ok _ _ _ _ _ _ _ _ _ _ Eb) as (_ & q & _ & Hm & _).
  exists mid. split; [by exists env, nonces, req|]. intros now' Hnow. by eapply bid_reserves.
Qed.

Lemma event_outputs a e ev n o n' :
  member_event a e ev n = (Some o, n') → ENQUEUED_CONTROLS (task_control (task n)) = [] →
  Forall (output_cause a e ev n n') o.
Proof.
  unfold Mesh.member_event. destruct ev as [msg| |mm peer|mm peer|mm peer|peer data|mm peer|ke| | | | | | |]; simpl.
  - destruct (handle_control_message _ _ _ _ _ _ _ _) as [o' t'] eqn:E. intros [= -> _] _. by eapply control_outputs.
  - intros [= <- _] _. constructor.
  - destruct (handshake_message_event _ _ _ _ _ _ _ _ _) as [[[r|] ?] ?]; intros [= <- _] _; solve_causes.
  - destruct mm as [data|data]; [|intros [= <- _] _; constructor].
    destruct (handle_apply_request _ _ _ _ _ _ _) as [[r|] ?]; [|done]. intros [= <- _] _. solve_causes.
  - destruct mm as [data|data]; [|intros [= <- _] _; constructor].
    destruct (delete_message _ _ _ _) as [[? ?] ?]. intros [= <- _] _. solve_causes.
  - destruct (gossipsub_message _ _ _ _ _ _ _ _ _ _) as [eff ?]. intros [= <- _] _.
    destruct (published eff); solve_causes.
  - destruct mm as [data|data]; [|intros [= <- _] _; solve_causes].
    destruct (is_scheduling_disabled_for _ _); [intros [= <- _] _; constructor|].
    destruct (scheduler_request _ _ _ _ _ _ _ _) as [[r|] s'] eqn:E; intros [= <- <-] _; [|constructor].
    constructor; [|constructor]. exists data. destruct (scheduler_bids _ _ _ _ _ _ _ _ _ _ E) as (mid & ? & ?).
    exists mid. split_and!; try done. unfold scheduler_answer. by rewrite E.
  - destruct ke; simpl; [destruct (PENDING_PROVIDERS_QUERIES _ !! _)..|]; intros [= <- _] _; solve_causes.
  - intros [= <- _] _. destruct (PENDING_MANIFEST_REQUESTS _ !! _) as [[? ?]|]; solve_causes.
  - intros [= <- _] _. constructor.
  - intros [= <- _] _. constructor.
  - destruct (handshake_tick _ _ _) as [o' n''] eqn:E. intros [= -> _] _. by eapply tick_outputs.
  - intros Hev Hq. rewrite drain_empty in Hev by done. injection Hev as <- _. constructor.
  - intros [= <- _] _. solve_causes.
  - intros [= <- _] _. constructor.
Qed.

(** Only a control message makes a node send an apply request. *)
Lemma event_apply_request a e ev n o n' to request :
  member_event a e ev n = (Some o, n') → ENQUEUED_CONTROLS (task_control (task n)) = [] →
  SendRequest ApplyRr to request ∈ o →
  ∃ manifest tx, ev = ControlMessage (SendApplyRequest to manifest tx) ∧
    request = forwarded_apply a e manifest.
Proof. intros He Hq Hin. pose proof (event_outputs _ _ _ _ _ _ He Hq) as Ho. rewrite Forall_forall in Ho. exact (Ho _ Hin). Qed.

(** ** Where apply requests come from *)

(** A client asked member [a], over its REST interface, to apply [body] on [b]. *)
Definition posted_at (tr : list mesh_label) a b (body : list byte) : Prop :=
  ∃ pd peer, Some (a, LServed pd) ∈ tr ∧ p_endpoint pd = EpApplyDirect peer ∧ peer_parse peer = Ok b ∧
    p_body pd = Some body ∧ was_admitted (nc_handler (config a)) (labels_of a tr) pd.

(** The frame [a] sends to [b] for a request it was asked to forward. *)
Definition forwarded (tr : list mesh_label) a b (frame : list byte) : Prop :=
  ∃ e body, posted_at tr a b body ∧ frame = codec_write (forwarded_apply a e body).

Record mesh_inv (tr : list mesh_label) m : Prop := {
  inv_channel p mem to body tx : members m !! p = Some mem →
    SendApplyRequest to body tx ∈ m_channel mem → posted_at tr p to body;
  inv_wire pkt : pkt ∈ wire m → is_Some (members m !! pk_from pkt) → pk_proto pkt = ApplyRr →
    pk_is_request pkt = true → forwarded tr (pk_from pkt) (pk_to pkt) (pk_frame pkt);
}.

Lemma labels_of_elem p l tr : Some (p, l) ∈ tr → l ∈ labels_of p tr.
Proof. intros Hin. apply list_elem_of_omap. exists (Some (p, l)). split; [done|]. by rewrite decide_True. Qed.

Lemma was_admitted_sub h (tr tr' : list sys_label) pd :
  tr ⊆ tr' → was_admitted h tr pd → was_admitted h tr' pd.
Proof. intros Hs (? & ? & ? & ? & Hin & ?). do 4 eexists. split; [by apply Hs|done]. Qed.

Lemma labels_of_cons p l tr : labels_of p tr ⊆ labels_of p (l :: tr).
Proof. intros x. unfold labels_of. simpl. case_match; [by right|done]. Qed.

Lemma posted_at_cons l tr a b body : posted_at tr a b body → posted_at (l :: tr) a b body.
Proof.
  intros (pd & peer & Hin & ? & ? & ? & Ha). exists pd, peer. split; [by right|]. split_and!; try done.
  eapply was_admitted_sub, Ha. apply labels_of_cons.
Qed.

Lemma forwarded_cons l tr a b frame : forwarded tr a b frame → forwarded (l :: tr) a b frame.
Proof. intros (e & body & Ha & ->). exists e, body. split; [by apply posted_at_cons|done]. Qed.

(** Each member runs as a node of its own. *)
Lemma mesh_reach_member m0 tr m p mem :
  mesh_reach m0 tr m → members m !! p = Some mem →
  ∃ mem0, members m0 !! p = Some mem0 ∧
    member_reach p (m_system mem0) (labels_of p tr) (m_system mem).
Proof.
  intros Hr. revert p mem. induction Hr as [|tr m l m' _ IH Hst]; intros p mem Hp.
  - exists mem. split; [done|constructor].
  - destruct Hst as [tr ms w p' s q l s' q' w' Hp' Hst Hi| |]; simpl in *; [|by apply IH..].
    unfold labels_of. simpl. case_decide as Hpp; simpl.
    + subst p'. rewrite lookup_insert_eq in Hp. injection Hp as <-.
      destruct (IH _ _ Hp') as (mem0 & Hm0 & Hreach). exists mem0. split; [done|].
      by econstructor.
    + rewrite lookup_insert_ne in Hp by done. by apply IH.
Qed.

(** What a REST step sends is what the client asked for. *)
Lemma rest_sends_asked p tr s l s' to body tx :
  sys_ok (nc_handler (config p)) (labels_of p tr) s → member_step config p (labels_of p tr) s l s' →
  rest_sends l (SendApplyRequest to body tx) → posted_at (Some (p, l) :: tr) p to body.
Proof.
  intros Hok Hst Hs. destruct l as [| | |pd|pd id|now run provider]; simpl in Hs; [done..| | |].
  - unfold served_sends in Hs. destruct (p_endpoint pd) as [| | | | | | | | | | | | | | |peer|] eqn:Hep; try naive_solver.
    destruct Hs as (target & body' & tx' & Hpeer & Hbody & [= -> -> ->]).
    exists pd, peer. split_and!; [by left|done..|]. eapply was_admitted_sub; [apply labels_of_cons|].
    inversion Hst; subst. destruct Hok as [_ _ _ Hp _]. simpl in Hp. rewrite Forall_lookup in Hp. by eapply Hp.
  - naive_solver.
  - naive_solver.
Qed.

Lemma interacts_channel p tr s l s' q w q' w' to body tx :
  sys_ok (nc_handler (config p)) (labels_of p tr) s → member_step config p (labels_of p tr) s l s' →
  interacts config p s l q w q' w' → SendApplyRequest to body tx ∈ q' →
  SendApplyRequest to body tx ∈ q ∨ posted_at (Some (p, l) :: tr) p to body.
Proof.
  intros Hok Hst Hi Hin. destruct Hi as [| | | |l msgs q w Hl Hf]; try by auto.
  - left. by right.
  - apply elem_of_app in Hin as [|Hin]; [by left|right]. rewrite Forall_forall in Hf.
    by eapply rest_sends_asked; [..|apply Hf].
Qed.

Lemma packet_of_from a o pkt : packet_of a o = Some pkt → pk_from pkt = a.
Proof. by destruct o; simpl; intros [= <-]. Qed.

Lemma packet_of_apply a o pkt :
  packet_of a o = Some pkt → pk_proto pkt = ApplyRr → pk_is_request pkt = true →
  ∃ request, o = SendRequest ApplyRr (pk_to pkt) request ∧ pk_frame pkt = codec_write request.
Proof. destruct o; simpl; intros [= <-]; simpl; naive_solver. Qed.

(** A new frame is an output of the event the member handles. *)
Lemma interacts_sent p s l q w q' w' pkt :
  interacts config p s l q w q' w' → pkt ∈ w' →
  pkt ∈ w ∨ ∃ e ev nonces o n' x, l = LNode (Handled e ev nonces) ∧
    member_event p e ev (sys_node s) = (Some o, n') ∧ x ∈ o ∧ packet_of p x = Some pkt.
Proof.
  assert (Hsent : ∀ w0 o, pkt ∈ w0 ++ omap (packet_of p) o → w0 ⊆ w →
    pkt ∈ w ∨ ∃ x, x ∈ o ∧ packet_of p x = Some pkt).
  { intros w0 o [Hin|(x & ? & ?)%list_elem_of_omap]%elem_of_app Hw; [left; by apply Hw|right; eauto]. }
  intros Hi Hin. destruct Hi as [e msg nonces o n' q w He|e ev nonces o n' i pkt' q w Hi Hto Hev He
    |e ev nonces o n' q w Hl He| |]; try by left.
  - destruct (Hsent w o Hin) as [|(x & ? & ?)]; [done|by left|right]. by exists e, (ControlMessage msg), nonces, o, n', x.
  - destruct (Hsent _ o Hin) as [|(x & ? & ?)]; [|by left|right; by exists e, ev, nonces, o, n', x].
    intros y. apply list_elem_of_delete_inv.
  - destruct (Hsent w o Hin) as [|(x & ? & ?)]; [done|by left|right]. by exists e, ev, nonces, o, n', x.
Qed.

Lemma interacts_control p s e msg nonces q w q' w' :
  interacts config p s (LNode (Handled e (ControlMessage msg) nonces)) q w q' w' → msg ∈ q.
Proof.
  inversion 1 as [|? ? ? ? ? ? pkt ? ? ? ? Hev|? ? ? ? ? ? ? Hl| |? ? ? ? Hl]; subst; [by left| |done|].
  - unfold packet_event in Hev. by destruct (codec_read _) as [[]|], (pk_proto pkt).
  - by destruct (Hl (Handled e (ControlMessage msg) nonces)).
Qed.

(** A new frame comes from the member; if it is an apply request, its channel asked for it. *)
Lemma interacts_wire p s l q w q' w' pkt :
  node_ok (sys_node s) → interacts config p s l q w q' w' → pkt ∈ w' →
  pkt ∈ w ∨ (pk_from pkt = p ∧ (pk_proto pkt = ApplyRr → pk_is_request pkt = true →
    ∃ e body tx, SendApplyRequest (pk_to pkt) body tx ∈ q ∧
      pk_frame pkt = codec_write (forwarded_apply p e body))).
Proof.
  intros (_ & _ & Hq) Hi Hin.
  destruct (interacts_sent _ _ _ _ _ _ _ _ Hi Hin) as [|(e & ev & nonces & o & n' & x & -> & He & Hx & Hpk)]; [by left|right].
  split; [by eapply packet_of_from|]. intros Hpr Hr.
  destruct (packet_of_apply _ _ _ Hpk Hpr Hr) as (request & -> & Hf).
  destruct (event_apply_request _ _ _ _ _ _ _ _ He Hq Hx) as (body & tx & -> & ->).
  exists e, body, tx. split; [by eapply interacts_control|done].
Qed.

Context `{!MessagesLaws}.

Lemma mesh_member_ok m0 tr m p mem :
  mesh_start m0 → mesh_reach m0 tr m → members m !! p = Some mem →
  sys_ok (nc_handler (config p)) (labels_of p tr) (m_system mem).
Proof.
  intros [_ Hs] Hr Hp. destruct (mesh_reach_member _ _ _ _ _ Hr Hp) as (mem0 & Hm0 & Hreach).
  destruct (Hs _ _ Hm0) as [Hok _]. by eapply sys_reach_ok.
Qed.

Lemma mesh_inv_step tr m l m' :
  (∀ p mem, members m !! p = Some mem → sys_ok (nc_handler (config p)) (labels_of p tr) (m_system mem)) →
  mesh_inv tr m → mesh_step tr m l m' → mesh_inv (l :: tr) m'.
Proof.
  intros Hall [Hc Hw] Hst. destruct Hst as [tr ms w p s q l s' q' w' Hp Hst Hi|tr ms w pkt0 Hout|tr ms w i]; simpl in *.
  - pose proof (Hall _ _ Hp) as Hok. split; simpl.
    + intros p' mem to body tx Hp' Hin. destruct (decide (p' = p)) as [->|Hne].
      * rewrite lookup_insert_eq in Hp'. injection Hp' as <-.
        destruct (interacts_channel _ _ _ _ _ _ _ _ _ _ _ _ Hok Hst Hi Hin) as [Hq|]; [|done].
        by eapply posted_at_cons, Hc.
      * rewrite lookup_insert_ne in Hp' by done. by eapply posted_at_cons, Hc.
    + intros pkt Hin Hfrom Hpr Hr. destruct Hok as [Hn _ _ _ _].
      destruct (interacts_wire _ _ _ _ _ _ _ _ Hn Hi Hin) as [Hold|[Hf Hnew]].
      * apply forwarded_cons, Hw; try done. revert Hfrom. rewrite !lookup_insert_is_Some. naive_solver.
      * destruct (Hnew Hpr Hr) as (e & body & tx & Hq & Hframe). exists e, body. rewrite Hf. split; [|done].
        by eapply posted_at_cons, Hc.
  - split; simpl; [intros ?????; intros; by eapply posted_at_cons, Hc|].
    intros pkt [Hin| ->%list_elem_of_singleton]%elem_of_app Hfrom ??; [by apply forwarded_cons, Hw|].
    rewrite Hout in Hfrom. by destruct Hfrom.
  - split; simpl; [intros ?????; intros; by eapply posted_at_cons, Hc|].
    intros pkt Hin%list_elem_of_delete_inv ???. by apply forwarded_cons, Hw.
Qed.

Lemma mesh_reach_inv m0 tr m : mesh_start m0 → mesh_reach m0 tr m → mesh_inv tr m.
Proof.
  intros Hs. induction 1 as [|tr m l m' Hr IH Hst].
  - destruct Hs as [Hw Hm]. split.
    + intros p mem to body tx Hp. destruct (Hm _ _ Hp) as [_ ->]. by rewrite elem_of_nil.
    + intros pkt. by rewrite Hw, elem_of_nil.
  - eapply mesh_inv_step; [|done..]. intros p mem. by eapply mesh_member_ok.
Qed.

Abbreviation state_of mem := (task_node (task (sys_node (m_system mem)))).

(** Where an apply that member [b] carries out comes from: its own REST
    interface, the REST interface of another member, or a peer outside. *)
Definition apply_source (tr : list mesh_label) m b (s : NodeState (W:=W)) (e : surroundings) (ev : event) : Prop :=
  match ev with
  | ControlMessage (SendApplyRequest to body _) =>
      to = local_peer_id (swarm_kad s) ∧ posted_at tr b to body
  | ApplyMessage (RrRequest request) a =>
      apply_authorised (now e) a request s ∧
      (members m !! a = None ∨
       ∃ frame rest, forwarded tr a b frame ∧ codec_read frame = Ok (request, rest))
  | _ => False
  end.

Lemma event_source m0 tr m b e ev nonces m' mem mem' :
  mesh_start m0 → mesh_reach m0 tr m → mesh_step tr m (Some (b, LNode (Handled e ev nonces))) m' →
  members m !! b = Some mem → members m' !! b = Some mem' →
  holdings (state_of mem') = holdings (state_of mem) ∨ apply_source tr m b (state_of mem) e ev.
Proof.
  intros Hs Hr Hst Hb Hb'. pose proof (mesh_member_ok _ _ _ _ _ Hs Hr Hb) as [Hn Hsp _ _ _].
  destruct (mesh_reach_inv _ _ _ Hs Hr) as [Hc Hw]. inversion Hst as [? ms w p s q l s' q' w' Hp Hms Hi| |]; subst.
  simpl in *. simplify_map_eq. inversion Hms as [? n r ps ds l n' Hns| | | | | |]; subst. simpl in *.
  destruct (node_step_authorised _ _ _ _ _ _ _ _ Hn Hsp Hns) as [|Hau]; [by left|right]. simpl in Hau.
  inversion Hi as [? msg|? ? ? ? ? i pkt ? ? Hpk Hto Hev|? ? ? ? ? ? ? Hl| |? ? ? ? Hl]; subst; simpl in Hau.
  - destruct msg; try done. simpl. split; [done|]. eapply (Hc b); [done|by left].
  - unfold packet_event in Hev. destruct (codec_read (pk_frame pkt)) as [[data rest]|] eqn:Er; [|done].
    injection Hev as <-. destruct (pk_proto pkt) eqn:Epr; try done.
    destruct (pk_is_request pkt) eqn:Eq; [|done]. simpl. split; [done|].
    destruct (ms !! pk_from pkt) as [ma|] eqn:Ea; [right|by left]. exists (pk_frame pkt), rest.
    split; [|done]. apply Hw; [by eapply list_elem_of_lookup_2|by rewrite Ea|done..].
  - destruct ev; try done; by destruct msg.
  - by destruct (Hl (Handled e ev nonces)).
Qed.

(** ** Where answers to capacity requests come from *)

(** At some point of the run member [b] handled a signed capacity request of
    [a] and answered it with this frame; afterwards it held a reservation for
    the manifest of the request, for three seconds. *)
Definition backed m0 (tr : list mesh_label) b a (frame : list byte) : Prop :=
  ∃ tr1 tr2 m1 m2 mem1 mem2 e request nonces mid response,
    let l := Some (b, LNode (Handled e (SchedulerMessage (RrRequest request) a) nonces)) in
    tr = tr1 ++ l :: tr2 ∧ mesh_reach m0 tr2 m1 ∧ mesh_step tr2 m1 l m2 ∧
    members m1 !! b = Some mem1 ∧ members m2 !! b = Some mem2 ∧
    scheduler_answer b e a request (sys_node (m_system mem1)) = Some response ∧ frame = codec_write response ∧
    capacity_asked (now e) a request (NONCE_STORE (state_of mem1)) mid ∧
    holds_for (now e) mid (sys_node (m_system mem2)).

Lemma backed_cons m0 l tr b a frame : backed m0 tr b a frame → backed m0 (l :: tr) b a frame.
Proof.
  intros (tr1 & tr2 & m1 & m2 & mem1 & mem2 & e & request & nonces & mid & response & -> & Hb).
  by exists (l :: tr1), tr2, m1, m2, mem1, mem2, e, request, nonces, mid, response.
Qed.

Lemma packet_of_answer a o pkt :
  packet_of a o = Some pkt → pk_proto pkt = SchedulerRr → pk_is_request pkt = false →
  ∃ response, o = RespondBytes SchedulerRr (pk_to pkt) response ∧ pk_frame pkt = codec_write response.
Proof. destruct o; simpl; intros [= <-]; simpl; naive_solver. Qed.

Definition bids_inv m0 (tr : list mesh_label) m : Prop :=
  ∀ pkt, pkt ∈ wire m → is_Some (members m !! pk_from pkt) → pk_proto pkt = SchedulerRr →
    pk_is_request pkt = false → backed m0 tr (pk_from pkt) (pk_to pkt) (pk_frame pkt).

(** The two views of the event a member handles agree. *)
Lemma handled_after p tr s e ev nonces s' o n' :
  member_step config p tr s (LNode (Handled e ev nonces)) s' → member_event p e ev (sys_node s) = (Some o, n') →
  sys_node s' = n'.
Proof.
  intros Hst He. inversion Hst as [? n r ps ds l n2 Hns| | | | | |]; subst. simpl in *.
  inversion Hns as [? ? ? ? o2 ? _ He2|]; subst. unfold Mesh.member_event in He. simpl in He. congruence.
Qed.

Lemma bids_inv_step m0 tr m l m' :
  mesh_start m0 → mesh_reach m0 tr m → bids_inv m0 tr m → mesh_step tr m l m' → bids_inv m0 (l :: tr) m'.
Proof.
  intros Hs Hr Hinv Hst pkt. pose proof Hst as Hst'.
  destruct Hst as [tr ms w p s q l s' q' w' Hp Hms Hi|tr ms w pkt0 Hout|tr ms w i]; simpl; intros Hin Hfrom Hpr Hq.
  - destruct (interacts_sent _ _ _ _ _ _ _ _ Hi Hin) as [Hold|(e & ev & nonces & o & n' & x & -> & He & Hx & Hpk)].
    + apply backed_cons, Hinv; try done. simpl. revert Hfrom. rewrite !lookup_insert_is_Some. naive_solver.
    + destruct (mesh_member_ok _ _ _ _ _ Hs Hr Hp) as [(_ & _ & Hctl) _ _ _ _]. simpl in Hctl.
      rewrite (packet_of_from _ _ _ Hpk). destruct (packet_of_answer _ _ _ Hpk Hpr Hq) as (response & -> & ->).
      pose proof (event_outputs _ _ _ _ _ _ He Hctl) as Ho. rewrite Forall_forall in Ho.
      destruct (Ho _ Hx) as (request & mid & -> & Hans & Hask & Hhold).
      rewrite <- (handled_after _ _ _ _ _ _ _ _ _ Hms He) in Hhold.
      exists [], tr. do 9 eexists.
      split_and!; [reflexivity|exact Hr|exact Hst'|exact Hp|apply lookup_insert_eq|exact Hans|done|exact Hask|exact Hhold].
  - apply elem_of_app in Hin as [Hin| ->%list_elem_of_singleton]; [by apply backed_cons, Hinv|].
    rewrite Hout in Hfrom. by destruct Hfrom.
  - apply list_elem_of_delete_inv in Hin. by apply backed_cons, Hinv.
Qed.

Lemma bids_reach m0 tr m : mesh_start m0 → mesh_reach m0 tr m → bids_inv m0 tr m.
Proof.
  intros Hs. induction 1 as [|tr m l m' Hr IH Hst]; [|by eapply bids_inv_step].
  destruct Hs as [Hw _]. intros pkt. by rewrite Hw, elem_of_nil.
Qed.

Lemma answer_source m0 tr m a e response b nonces m' :
  mesh_start m0 → mesh_reach m0 tr m →
  mesh_step tr m (Some (a, LNode (Handled e (SchedulerMessage (RrResponse response) b) nonces))) m' →
  is_Some (members m !! b) → ∃ frame rest, backed m0 tr b a frame ∧ codec_read frame = Ok (response, rest).
Proof.
  intros Hs Hr Hst Hb. pose proof (bids_reach _ _ _ Hs Hr) as Hinv.
  inversion Hst as [? ms w p s q l s' q' w' Hp Hms Hi| |]; subst. simpl in *.
  inversion Hi as [|? ? ? ? ? i pkt ? ? Hpk Hto Hev|? ? ? ? ? ? ? Hl| |? ? ? ? Hl]; subst; [|done|].
  - unfold packet_event in Hev. destruct (codec_read (pk_frame pkt)) as [[data rest]|] eqn:Er; [|done].
    injection Hev as Hev. destruct (pk_proto pkt) eqn:Epr; try done. destruct (pk_is_request pkt) eqn:Eq; [done|].
    injection Hev as Hd Hf. subst. exists (pk_frame pkt), rest. split; [|done].
    apply Hinv; [by eapply list_elem_of_lookup_2|done..].
  - by destruct (Hl (Handled e (SchedulerMessage (RrResponse response) b) nonces)).
Qed.

(** ** Steps *)

Lemma mesh_control tr ms w p n r ps ds msg q e o n' :
  ms !! p = Some {| m_system := {| sys_node := n; sys_rest := r; sys_pending := ps; sys_deletes := ds |};
                    m_channel := msg :: q |} →
  running n = true → member_event p e (ControlMessage msg) n = (Some o, n') →
  mesh_step tr {| members := ms; wire := w |}
    (Some (p, LNode (Handled e (ControlMessage msg) (NONCE_STORE (task_node (task n))))))
    {| members := <[p := {| m_system := {| sys_node := n'; sys_rest := r; sys_pending := ps; sys_deletes := ds |};
                            m_channel := q |}]> ms; wire := w ++ omap (packet_of p) o |}.
Proof.
  intros Hp Hr He. eapply mesh_step_member; [exact Hp| |].
  - eapply sys_step_node, node_step_event; [exact Hr|exact He].
  - eapply via_control. exact He.
Qed.

Lemma mesh_packet tr ms w p n r ps ds q e ev i pkt o n' :
  ms !! p = Some {| m_system := {| sys_node := n; sys_rest := r; sys_pending := ps; sys_deletes := ds |};
                    m_channel := q |} →
  running n = true → w !! i = Some pkt → pk_to pkt = p → packet_event pkt = Some ev →
  member_event p e ev n = (Some o, n') →
  mesh_step tr {| members := ms; wire := w |}
    (Some (p, LNode (Handled e ev (NONCE_STORE (task_node (task n))))))
    {| members := <[p := {| m_system := {| sys_node := n'; sys_rest := r; sys_pending := ps; sys_deletes := ds |};
                            m_channel := q |}]> ms; wire := delete i w ++ omap (packet_of p) o |}.
Proof.
  intros Hp Hr Hi Hto Hev He. eapply mesh_step_member; [exact Hp| |].
  - eapply sys_step_node, node_step_event; [exact Hr|exact He].
  - eapply via_packet; [exact Hi|exact Hto|exact Hev|exact He].
Qed.

Lemma mesh_served tr ms w p n r ps ds q i pd msgs :
  ms !! p = Some {| m_system := {| sys_node := n; sys_rest := r; sys_pending := ps; sys_deletes := ds |};
                    m_channel := q |} →
  ps !! i = Some pd → p_endpoint pd ≠ EpCreateTask → Forall (served_sends pd) msgs →
  mesh_step tr {| members := ms; wire := w |} (Some (p, LServed pd))
    {| members := <[p := {| m_system := {| sys_node := n; sys_rest := r; sys_pending := delete i ps; sys_deletes := ds |};
                            m_channel := q ++ msgs |}]> ms; wire := w |}.
Proof.
  intros Hp Hi Hep Hm. eapply mesh_step_member; [exact Hp| |].
  - eapply sys_step_serve; [exact Hi|exact Hep].
  - apply via_rest; [done|exact Hm].
Qed.

End lemmas.

(** ** One request through the mesh *)

Section delivery.
Context `{PeerIds, !Kademlia, !Swarm, !PeerParse, !PeerParseLaws, Serde, JsonPrint, FlatBuffersLaws} {CR : Crypto}
  {keypair : list byte → list byte → Prop} {CL : CryptoLaws keypair} {KM : Kem}
  {kem_pair : list byte → list byte → Prop} {KL : KemLaws kem_pair} {KP : KemPublic} `{TablesLaws} {W : Type}.
Context (config : PeerId → NodeConfig (W:=W)).
Implicit Types (m : Mesh (W:=W)) (p a b : PeerId) (n : Node (W:=W)).

Abbreviation member_event := (member_event config).











End delivery.

(** ** Properties *)

Section properties.
Context `{PeerIds, !Kademlia, !Swarm, !PeerParse, !PeerParseLaws, Serde, JsonPrint, FlatBuffersLaws} {CR : Crypto}
  {keypair : list byte → list byte → Prop} {CL : CryptoLaws keypair} {KM : Kem}
  {kem_pair : list byte → list byte → Prop} {KL : KemLaws kem_pair} {KP : KemPublic} `{TablesLaws} {W : Type}.
Context (config : PeerId → NodeConfig (W:=W)).
Implicit Types (m : Mesh (W:=W)) (a b : PeerId) (s : System (W:=W)).

Abbreviation mesh_reach := (mesh_reach config).
Abbreviation mesh_step := (mesh_step config).

(** C11: a member whose containers or owners change on an event carries out an
    apply, and the apply has a source: a client asked this node for it over REST,
    or a client asked another member, which forwarded it signed with its own key,
    or a peer outside the mesh sent it; a request from the wire is signed and
    meets a reservation in each case. No member makes up a deployment. *)
Theorem apply_provenance `{!MessagesLaws} m0 tr m b e ev nonces m' mem mem' :
  mesh_start m0 → mesh_reach m0 tr m → mesh_step tr m (Some (b, LNode (Handled e ev nonces))) m' →
  members m !! b = Some mem → members m' !! b = Some mem' →
  let s := task_node (task (sys_node (m_system mem))) in
  holdings (task_node (task (sys_node (m_system mem')))) = holdings s ∨ apply_source config tr m b s e ev.
Proof. intros Hs Hr Hst Hb Hb'. by eapply event_source. Qed.





End properties.

(** ** Concrete runs *)

Section witnesses.
Import Toy ToyTables ToyKemPublic ToyRest.

#[local] Instance mesh_messages : Messages :=
  {| root_as_apply_request := toy_root; root_as_delete_request := toy_root;
     root_as_capacity_request _ := None; root_as_capacity_reply _ := None;
     root_as_handshake _ := None; finish_capacity_request _ := [];
     finish_capacity_reply _ := []; finish_handshake _ := [] |}.
#[local] Instance mesh_messages_laws : MessagesLaws.
Proof. split. done. Qed.
#[local] Instance mesh_tables_laws : TablesLaws.
Proof. split; intros; apply toy_root_finish. Qed.

Abbreviation A := (toy_peer x07).
Abbreviation B := (toy_peer x08).

Definition demo_config (p : @PeerId Toy.peers) : NodeConfig (W := gmap string MockWorkload) :=
  {| nc_kem_keypair := Ok ([x01], [x01]); nc_node_keys := Ok ([x0a; p], [x0a; p]);
     nc_debug_assertions := false; nc_downcast_mock := λ _, None; nc_handler := demo_handler |}.

(** A node with a reservation for manifest [id1]. *)
Definition ready : System :=
  {| sys_node := bidding_node; sys_rest := demo_rest; sys_pending := []; sys_deletes := [] |}.

Lemma ready_ok : start_ok ready.
Proof. split; [apply bidding_node_ok|]. split; [done|]. split; [apply map_Forall_empty|done]. Qed.

(** The client's request to deploy a manifest on node [p]. *)
Definition posted (p : @PeerId Toy.peers) : list byte :=
  match node_apply_request (demo_node_draws 0) 3 "name: web" "id1" (peer_to_string p) (base64_encode [x01]) with
  | Ok bytes => bytes
  | Err _ => []
  end.


Definition posted_pending (p : @PeerId Toy.peers) : pending :=
  {| p_endpoint := EpApplyDirect (peer_to_string p); p_params := ∅; p_meta := no_metadata;
     p_body := Some (posted p) |}.

Definition posting (p : @PeerId Toy.peers) : Request := {| headers := ∅; request_body := Some (posted p) |}.

Definition around (key : list byte) : surroundings :=
  {| now := 1; now_ms := 1; draws := [4]; peer_draw := λ _, 0; own_pubkey := key |}.

Definition admitted_node : Node :=
  set_node (set_nonces (NONCE_STORE (task_node (task bidding_node))) (task_node (task bidding_node))) bidding_node.

Definition admitted_at (ps : list pending) : System :=
  {| sys_node := admitted_node; sys_rest := demo_rest; sys_pending := ps; sys_deletes := [] |}.

Definition lone (s : System) (q : list Libp2pControl) : Mesh (W := gmap string MockWorkload) :=
  {| members := {[A := {| m_system := s; m_channel := q |}]}; wire := [] |}.

Definition lone_trace : list (option (PeerId * sys_label)) :=
  [Some (A, LServed (posted_pending A));
   Some (A, LAdmitted 1 (posting A) (NONCE_STORE (task_node (task bidding_node))))].

Lemma lone_start : mesh_start (lone ready []).
Proof.
  split; [done|]. intros p mem Hp. unfold lone, members in Hp.
  apply lookup_singleton_Some in Hp as [<- <-]. split; [apply ready_ok|done].
Qed.

Lemma lone_step tr s q l s' q' :
  member_step demo_config A (labels_of A tr) s l s' → interacts demo_config A s l q [] q' [] →
  mesh_step demo_config tr (lone s q) (Some (A, l)) (lone s' q').
Proof.
  intros Hst Hi. unfold lone.
  pose proof (mesh_step_member demo_config tr _ _ _ _ _ _ _ _ _
    (lookup_singleton_eq A {| m_system := s; m_channel := q |}) Hst Hi) as Hm.
  by rewrite insert_singleton_eq in Hm.
Qed.

Lemma lone_reach :
  mesh_reach demo_config (lone ready []) lone_trace (lone (admitted_at []) [SendApplyRequest A (posted A) 0]).
Proof.
  eapply mesh_reach_step; [eapply mesh_reach_step; [apply mesh_reach_init|]|].
  - apply (lone_step [] ready [] _ (admitted_at [posted_pending A]) []).
    + eapply (sys_step_admit _ _ _ _ _ _ bidding_node demo_rest [] [] 1 POST ["apply_direct"; "peer-7"] ∅
        (posting A) no_metadata (Some (posted A))); reflexivity.
    + apply (via_rest demo_config A ready (LAdmitted 1 (posting A) _) [] [] []); done.
  - apply lone_step; [by apply (sys_step_serve _ _ _ _ _ _ _ _ [posted_pending A] _ 0)|].
    apply (via_rest demo_config A _ _ [SendApplyRequest A (posted A) 0] []); [done|].
    repeat constructor. exists A, (posted A), 0%nat. split_and!; [apply peer_parse_string|done..].
Qed.

(** The node deploys on itself what its own client asked for. *)
Definition self_event : event := ControlMessage (SendApplyRequest A (posted A) 0).
Definition self_outcome := member_event demo_config A (around [x0a]) self_event admitted_node.
Definition self_after : System :=
  {| sys_node := self_outcome.2; sys_rest := demo_rest; sys_pending := []; sys_deletes := [] |}.

Definition self_output : list output :=
  [Reply 0 (RStringResult (Ok "Apply request handled locally for peer-7"))].

Lemma self_outcome_eq :
  member_event demo_config A (around [x0a]) self_event admitted_node = (Some self_output, self_outcome.2).
Proof. unfold self_outcome. apply pair_snd. vm_compute. reflexivity. Qed.

Lemma lone_control tr e msg n o n' r q :
  running n = true → member_event demo_config A e (ControlMessage msg) n = (Some o, n') →
  omap (packet_of A) o = [] →
  mesh_step demo_config tr
    (lone {| sys_node := n; sys_rest := r; sys_pending := []; sys_deletes := [] |} (msg :: q))
    (Some (A, LNode (Handled e (ControlMessage msg) (NONCE_STORE (task_node (task n))))))
    (lone {| sys_node := n'; sys_rest := r; sys_pending := []; sys_deletes := [] |} q).
Proof.
  intros Hr He Ho. unfold lone. pose proof (mesh_control demo_config tr {[A := _]} [] A n r [] [] msg q e o n'
    (lookup_singleton_eq A _) Hr He) as Hm. by rewrite insert_singleton_eq, Ho in Hm.
Qed.

Lemma self_step :
  mesh_step demo_config lone_trace (lone (admitted_at []) [SendApplyRequest A (posted A) 0])
    (Some (A, LNode (Handled (around [x0a]) self_event (NONCE_STORE (task_node (task admitted_node))))))
    (lone self_after []).
Proof.
  exact (lone_control lone_trace (around [x0a]) (SendApplyRequest A (posted A) 0) admitted_node self_output
    self_outcome.2 demo_rest [] eq_refl self_outcome_eq eq_refl).
Qed.

Lemma apply_provenance_witness :
  holdings (task_node (task (sys_node self_after))) = holdings (task_node (task (sys_node (admitted_at [])))) ∨
  apply_source demo_config lone_trace (lone (admitted_at []) [SendApplyRequest A (posted A) 0]) A
    (task_node (task (sys_node (admitted_at [])))) (around [x0a]) self_event.
Proof.
  exact (apply_provenance demo_config (lone ready []) lone_trace
    (lone (admitted_at []) [SendApplyRequest A (posted A) 0]) A (around [x0a]) self_event
    (NONCE_STORE (task_node (task admitted_node))) (lone self_after [])
    {| m_system := admitted_at []; m_channel := [SendApplyRequest A (posted A) 0] |}
    {| m_system := self_after; m_channel := [] |} lone_start lone_reach self_step
    (lookup_singleton_eq _ _) (lookup_singleton_eq _ _)).
Defined.

(** and that step does change what the node holds *)
Example self_apply_recorded :
  get_manifest_owner "id1" (task_node (task (sys_node self_after))) = Some [x0a] ∧
  get_manifest_owner "id1" (task_node (task (sys_node (admitted_at [])))) = None.
Proof. split; vm_compute; reflexivity. Qed.





End witnesses.

(** ** A capacity query between two nodes *)

Section bidding.
Import Toy ToyTables ToyKemPublic ToyRest.

Definition query_name : string := "beemesh-free-capacity:id1:u".

(** Of a reply only the identifier travels. *)
#[local] Instance bid_messages : Messages :=
  {| root_as_apply_request _ := None; root_as_delete_request _ := None;
     root_as_capacity_request _ := Some
       {| cr_request_id := Some query_name; cr_cpu_milli := 1; cr_memory_bytes := 1;
          cr_storage_bytes := 1; cr_replicas := 1 |};
     root_as_capacity_reply l := Some
       {| rp_request_id := match l with x01 :: l => Some (string_of_bytes l) | _ => None end;
          rp_ok := true; rp_node_id := None; rp_region := None;
          rp_kem_pubkey := Some "key"; rp_capabilities := Some []; rp_cpu_available_milli := 1;
          rp_memory_available_bytes := 1; rp_storage_available_bytes := 1 |};
     root_as_handshake _ := None; finish_capacity_request _ := [];
     finish_capacity_reply r := match rp_request_id r with Some id => x01 :: as_bytes id | None => [] end;
     finish_handshake _ := [] |}.
#[local] Instance bid_messages_laws : MessagesLaws.
Proof. split. intros l r [= <-]. by apply (bool_decide_unpack _). Qed.

Abbreviation A := (toy_peer x07).
Abbreviation B := (toy_peer x02).

(** The two nodes: free ones, without reservations. *)
Definition free_node : Node :=
  {| task := {| task_node := set_verifier test_verifier demo_state;
                task_control := {| ACTIVE_ANNOUNCES := ∅; ENQUEUED_CONTROLS := [];
                                   PENDING_PROVIDERS_QUERIES := ∅; PENDING_MANIFEST_REQUESTS := ∅ |};
                task_pending := ∅ |};
     handshake_states := ∅; DISABLED_SCHEDULING := ∅; spawned := []; running := true |}.

Definition free_member (n : Node (W := gmap string MockWorkload)) (ps : list pending)
    (q : list (Libp2pControl (H := Toy.peers))) : Member :=
  {| m_system := {| sys_node := n; sys_rest := demo_rest; sys_pending := ps; sys_deletes := [] |}; m_channel := q |}.

Definition two_nodes : gmap (@PeerId Toy.peers) (Member (W := gmap string MockWorkload)) :=
  <[A := free_member free_node [] []]> {[B := free_member free_node [] []]}.

Definition two_mesh : Mesh := {| members := two_nodes; wire := [] |}.

Lemma free_member_ok : start_ok (m_system (free_member free_node [] [])).
Proof.
  split; [|split; [done|split; [apply map_Forall_empty|done]]].
  split; [|split; [apply map_Forall_empty|done]]. split; [apply test_verifier_ok|apply map_Forall_empty].
Qed.

Lemma two_start : mesh_start two_mesh.
Proof.
  split; [done|]. intros p mem Hp. unfold two_mesh, members, two_nodes in Hp.
  apply lookup_insert_Some in Hp as [[<- <-]|[_ Hp]]; [split; [apply free_member_ok|done]|].
  apply lookup_singleton_Some in Hp as [<- <-]. split; [apply free_member_ok|done].
Qed.

Definition query_pending : pending :=
  {| p_endpoint := EpCandidates "t"; p_params := ∅; p_meta := no_metadata; p_body := Some [] |}.
Definition query_msg : Libp2pControl := QueryCapacityWithPayload query_name 0 [].

(** What [A] sends, and what [B] does with it. *)
Definition query_outcome := member_event demo_config A (around []) (ControlMessage query_msg) free_node.
Definition query_frame : list byte :=
  match query_outcome.1 with Some (SendRequest _ _ request :: _) => request | _ => [] end.
Definition query_output : list output :=
  [SendRequest SchedulerRr B query_frame; Reply 0 (RString ("peer-7:" +:+ base64_encode [x01]))].
Definition offer_event : event := SchedulerMessage (RrRequest query_frame) A.
Definition offer_outcome := member_event demo_config B (around []) offer_event free_node.
Definition offer_bytes : list byte := x01 :: as_bytes query_name.
Definition answer_event : event := SchedulerMessage (RrResponse offer_bytes) B.
Definition answer_outcome := member_event demo_config A (around []) answer_event query_outcome.2.

Lemma query_eq :
  member_event demo_config A (around []) (ControlMessage query_msg) free_node = (Some query_output, query_outcome.2).
Proof. unfold query_outcome. apply pair_snd. vm_compute. reflexivity. Qed.

Lemma offer_eq :
  member_event demo_config B (around []) offer_event free_node =
    (Some [RespondBytes SchedulerRr A offer_bytes], offer_outcome.2).
Proof. unfold offer_outcome. apply pair_snd. vm_compute. reflexivity. Qed.

Lemma answer_eq :
  member_event demo_config A (around []) answer_event query_outcome.2 =
    (Some [Reply 0 (RString "peer-2:key")], answer_outcome.2).
Proof. unfold answer_outcome. apply pair_snd. vm_compute. reflexivity. Qed.

Definition nonces0 : nonce_store := NONCE_STORE (task_node (task free_node)).
Definition query_request : Request := {| headers := ∅; request_body := Some [] |}.

Definition offer_label : option (@PeerId Toy.peers * sys_label) :=
  Some (B, LNode (Handled (around []) offer_event nonces0)).
Definition query_trace : list (option (@PeerId Toy.peers * sys_label)) :=
  [Some (A, LNode (Handled (around []) (ControlMessage query_msg) nonces0));
   Some (A, LServed query_pending); Some (A, LAdmitted 1 query_request nonces0)].

Definition frame_to (from to : @PeerId Toy.peers) (is_request : bool) (data : list byte) : Packet :=
  {| pk_from := from; pk_to := to; pk_proto := SchedulerRr; pk_is_request := is_request;
     pk_frame := codec_write data |}.

Lemma frame_to_event from to is_request data :
  Z.of_nat (length data) < 2 ^ 32 →
  packet_event (frame_to from to is_request data) =
    Some (SchedulerMessage (if is_request then RrRequest data else RrResponse data) from).
Proof.
  intros Hl. unfold packet_event, frame_to. cbn [pk_frame pk_proto pk_is_request pk_from].
  unfold codec_read, codec_write. by rewrite <- (app_nil_r (put_block 4 data)), read_block_put.
Qed.

(** The members after the query of [A], and after the offer of [B]. *)
Definition queried : gmap (@PeerId Toy.peers) (Member (W := gmap string MockWorkload)) :=
  <[A := free_member query_outcome.2 [] []]> (<[A := free_member free_node [] [query_msg]]>
    (<[A := free_member free_node [query_pending] []]> two_nodes)).
Definition offered : gmap (@PeerId Toy.peers) (Member (W := gmap string MockWorkload)) :=
  <[B := free_member offer_outcome.2 [] []]> queried.

Lemma query_reach :
  mesh_reach demo_config two_mesh query_trace {| members := queried; wire := [frame_to A B true query_frame] |}.
Proof.
  eapply mesh_reach_step; [eapply mesh_reach_step; [eapply mesh_reach_step; [apply mesh_reach_init|]|]|].
  - apply (mesh_step_member demo_config [] two_nodes [] A (m_system (free_member free_node [] [])) [] _
      (m_system (free_member free_node [query_pending] [])) []); [apply lookup_insert_eq| |].
    + eapply (sys_step_admit _ _ _ _ _ _ free_node demo_rest [] [] 1 POST ["tasks"; "t"; "candidates"] ∅
        query_request no_metadata (Some [])); reflexivity.
    + apply (via_rest demo_config A _ (LAdmitted 1 query_request _) [] [] []); done.
  - apply (mesh_served demo_config _ _ _ _ _ _ [query_pending] _ [] 0 query_pending [query_msg] (lookup_insert_eq _ _ _)
      eq_refl); [done|]. repeat constructor. by do 3 eexists.
  - exact (mesh_control demo_config _ _ [] A free_node demo_rest [] [] query_msg [] (around []) query_output
      query_outcome.2 (lookup_insert_eq _ _ _) eq_refl query_eq).
Qed.

Lemma offer_reach :
  mesh_reach demo_config two_mesh (offer_label :: query_trace)
    {| members := offered; wire := [frame_to B A false offer_bytes] |}.
Proof.
  eapply mesh_reach_step; [exact query_reach|].
  apply (mesh_packet demo_config _ queried [frame_to A B true query_frame] B free_node demo_rest [] [] [] (around [])
    offer_event 0 (frame_to A B true query_frame) [RespondBytes SchedulerRr A offer_bytes] offer_outcome.2).
  - unfold queried, two_nodes. rewrite !lookup_insert_ne by discriminate. apply lookup_singleton_eq.
  - reflexivity.
  - reflexivity.
  - reflexivity.
  - apply (frame_to_event A B true). vm_compute. reflexivity.
  - exact offer_eq.
Qed.

Definition answer_label : option (@PeerId Toy.peers * sys_label) :=
  Some (A, LNode (Handled (around []) answer_event (NONCE_STORE (task_node (task query_outcome.2))))).

Lemma answer_step :
  mesh_step demo_config (offer_label :: query_trace)
    {| members := offered; wire := [frame_to B A false offer_bytes] |} answer_label
    {| members := <[A := free_member answer_outcome.2 [] []]> offered; wire := [] |}.
Proof.
  apply (mesh_packet demo_config _ offered [frame_to B A false offer_bytes] A query_outcome.2 demo_rest [] [] [] (around [])
    answer_event 0 (frame_to B A false offer_bytes) [Reply 0 (RString "peer-2:key")] answer_outcome.2).
  - unfold offered. rewrite lookup_insert_ne by discriminate. apply lookup_insert_eq.
  - vm_compute. reflexivity.
  - reflexivity.
  - reflexivity.
  - apply (frame_to_event B A false). reflexivity.
  - exact answer_eq.
Qed.

End bidding.
