(* ===== verification/Candidates.v ===== *)
(** * The candidates a client is offered

    [get_candidates] of [restapi/mod.rs] hands the client what the libp2p task
    told it on the channel of its query. Here those replies are followed back
    through the mesh: to the node itself, to a GossipSub message, or to an
    answer of the scheduler protocol and the reservation behind it. *)

From Stdlib Require Import Ascii.
From S2P Require Import Prelude RustStr Utf8 Wire Constants Serde Libp2p Concrete Provider Runtime.
From S2P Require Import ResourceVerifier NonceStore Envelope RecipientBlob MockEngine WorkloadIntegration.
From S2P Require Import DeleteMessage Protocol RestEnvelope CapacityMessages Handshake Control RestApi Node.
From S2P Require Import System Mesh.

Open Scope list_scope.

(** A capacity reply is read back with the identifier it was built with. *)
Class CapacityReplyLaws `{Messages} : Prop := {
  capacity_reply_request_id r : ∃ r', root_as_capacity_reply (finish_capacity_reply r) = Some r' ∧
    rp_request_id r' = rp_request_id r;
}.

Section candidates.
Context `{PeerIds, !Kademlia, !Swarm, !PeerParse, Serde, JsonPrint, FlatBuffers, Crypto, Kem, KemPublic, Messages,
  !MessagesLaws, Tables} {W : Type}.
Context (config : PeerId → NodeConfig (W:=W)).
Implicit Types (m : Mesh (W:=W)) (a b p : PeerId) (n : Node (W:=W)) (tx : nat) (rid : string).

Abbreviation mesh_label := (option (PeerId * sys_label)).
Abbreviation mesh_reach := (mesh_reach config).
Abbreviation mesh_step := (mesh_step config).
Abbreviation member_event := (member_event config).
Abbreviation queries n := (task_pending (task n)).
Abbreviation local_peer n := (local_peer_id (swarm_kad (task_node (task n)))).

(** ** Replies *)

(** Why a node tells [tx], which waits for candidates, [text]. *)
Inductive reply_cause n tx text : event → Prop :=
| own_offer rid tx0 payload key :
    text = peer_to_string (local_peer n) +:+ ":" +:+ key →
    reply_cause n tx text (ControlMessage (QueryCapacityWithPayload rid tx0 payload))
| gossip_offer b data : text = peer_to_string b → reply_cause n tx text (GossipsubMessage b data)
| answered_offer response b reply :
    root_as_capacity_reply response = Some reply →
    tx ∈ default [] (queries n !! default "" (rp_request_id reply)) →
    text = peer_to_string b +:+ ":" +:+ default "" (rp_kem_pubkey reply) →
    reply_cause n tx text (SchedulerMessage (RrResponse response) b).

Lemma reply_elem tx text (l : list (nat * string)) :
  Reply tx (RString text) ∈ (λ x, Reply x.1 (RString x.2)) <$> l → (tx, text) ∈ l.
Proof. intros ([t s] & [= -> ->] & Hin)%list_elem_of_fmap. done. Qed.

Lemma notified_elem tx text pending rid payload :
  (tx, text) ∈ notify_capacity_observers pending rid payload →
  text = payload ∧ tx ∈ default [] (pending !! rid).
Proof. unfold notify_capacity_observers. intros (t & [= -> ->] & Hin)%list_elem_of_fmap. done. Qed.

Lemma control_reply a disabled e msg n o t' tx text :
  handle_control_message (nc_kem_keypair (config a)) (nc_node_keys (config a))
    (nc_debug_assertions (config a)) (nc_downcast_mock (config a)) disabled e msg (task n) = (Some o, t') →
  Reply tx (RString text) ∈ o → reply_cause n tx text (ControlMessage msg).
Proof.
  destruct msg; simpl.
  - destruct (handle_query_capacity_with_payload _ _ _ _ _ _ _ _ _ _ _) as [[pq sent] notified] eqn:E.
    intros [= <- _] [Hin|Hin%reply_elem]%elem_of_app; [by apply list_elem_of_fmap in Hin as (? & ? & _)|].
    unfold handle_query_capacity_with_payload in E.
    destruct (root_as_capacity_request _); [|injection E as _ _ <-; set_solver].
    destruct (broadcast_signed_request_to_peers _ _ _ _ _ _); [|injection E as _ _ <-; set_solver].
    destruct disabled; injection E as _ _ <-; [set_solver|].
    apply notified_elem in Hin as [-> _]. by eapply own_offer.
  - unfold handle_send_apply_request. case_decide.
    + destruct (process_enhanced_self_apply_request _ _ _ _ _ _ _) as [[]]; [|done]. intros [= <- _]. set_solver.
    + intros [= <- _]. set_solver.
  - intros [= <- _]. set_solver.
  - intros [= <- _]. set_solver.
  - intros [= <- _]. set_solver.
  - unfold handle_announce_provider. destruct (announce_attempts _ _ _ _) as [[] ?]; intros [= <- _]; set_solver.
  - unfold handle_withdraw_provider. destruct (announce_provider_direct _ _ _) as [? ?]. intros [= <- _]. set_solver.
  - intros [= <- _]. set_solver.
  - intros [= <- _]. set_solver.
  - intros [= <- _]. set_solver.
Qed.

Lemma tick_no_reply a e n o n' tx text :
  handshake_tick (nc_node_keys (config a)) e n = (o, n') → Reply tx (RString text) ∉ o.
Proof.
  unfold handshake_tick. destruct (tick_all _ _ _ _ _) as [o' k] eqn:E. intros [= <- _]. rewrite not_elem_of_app.
  split; [|set_solver]. revert o' k E. generalize (local_peer n) as me. intros me.
  generalize (swarm_kad (task_node (task n))) as k0.
  induction (map_to_list (handshake_states n)) as [|[peer st] l IH]; intros k0 o' k; simpl; [intros [= <- _]; set_solver|].
  destruct (tick_peer _ _ _ _ _); [apply IH|apply IH|].
  destruct (tick_all _ _ _ l _) as [o'' k'] eqn:E. intros [= <- _]. apply IH in E. set_solver.
Qed.

Lemma event_reply a e ev n o n' tx text :
  member_event a e ev n = (Some o, n') → ENQUEUED_CONTROLS (task_control (task n)) = [] →
  Reply tx (RString text) ∈ o → reply_cause n tx text ev.
Proof.
  unfold Mesh.member_event. destruct ev as [msg| |mm peer|mm peer|mm peer|peer data|mm peer|ke| | | | | | |]; simpl.
  - destruct (handle_control_message _ _ _ _ _ _ _ _) as [o' t'] eqn:E. intros [= -> _] _. by eapply control_reply.
  - intros [= <- _] _. set_solver.
  - destruct (handshake_message_event _ _ _ _ _ _ _ _ _) as [[[r|] ?] ?]; intros [= <- _] _; set_solver.
  - destruct mm as [data|data]; [|intros [= <- _] _; set_solver].
    destruct (handle_apply_request _ _ _ _ _ _ _) as [[r|] ?]; [|done]. intros [= <- _] _. set_solver.
  - destruct mm as [data|data]; [|intros [= <- _] _; set_solver].
    destruct (delete_message _ _ _ _) as [[? ?] ?]. intros [= <- _] _. set_solver.
  - unfold gossipsub_message. intros Hev _ Hin.
    destruct (verify_signed_message _ _ _ _) as [[env|] nonces]; [|injection Hev as <- _; set_solver].
    destruct (root_as_capacity_request _) as [req|].
    + destruct (bid _ _ _ _ _ _ _) as [[[mid reply]|] v]; [|injection Hev as <- _; set_solver].
      destruct (publish_gossipsub_capacity_reply _ _ _ _); injection Hev as <- _; set_solver.
    + destruct (root_as_capacity_reply _) as [reply|]; injection Hev as <- _; [|set_solver].
      apply reply_elem, notified_elem in Hin as [-> _]. by apply gossip_offer.
  - destruct mm as [data|data].
    + destruct (scheduler_request _ _ _ _ _ _ _ _) as [[r|] s']; intros [= <- _] _; set_solver.
    + intros [= <- _] _ Hin%reply_elem. unfold scheduler_response in Hin.
      destruct (root_as_capacity_reply data) as [reply|] eqn:Er; [|set_solver].
      apply notified_elem in Hin as [-> Htx]. by eapply answered_offer.
  - destruct ke; simpl; [destruct (PENDING_PROVIDERS_QUERIES _ !! _)..|]; intros [= <- _] _; set_solver.
  - intros [= <- _] _. destruct (PENDING_MANIFEST_REQUESTS _ !! _) as [[? ?]|]; set_solver.
  - intros [= <- _] _. set_solver.
  - intros [= <- _] _. set_solver.
  - destruct (handshake_tick _ _ _) as [o' n''] eqn:E. intros [= -> _] _ Hin. by destruct (tick_no_reply _ _ _ _ _ _ _ E Hin).
  - intros Hev Hq. rewrite drain_empty in Hev by done. injection Hev as <- _. set_solver.
  - intros [= <- _] _ (? & ? & _)%list_elem_of_fmap. done.
  - intros [= <- _] _. set_solver.
Qed.

(** ** Queries that wait *)

Definition asked_for rid tx (ev : event) : Prop :=
  ∃ payload, ev = ControlMessage (QueryCapacityWithPayload rid tx payload).

(** Only a query adds a waiting channel. *)
Lemma event_queries a e ev n o n' rid tx :
  member_event a e ev n = (Some o, n') → ENQUEUED_CONTROLS (task_control (task n)) = [] →
  tx ∈ default [] (queries n' !! rid) → tx ∈ default [] (queries n !! rid) ∨ asked_for rid tx ev.
Proof.
  unfold Mesh.member_event. destruct ev as [msg| |mm peer|mm peer|mm peer|peer data|mm peer|ke| | | | | | |]; simpl.
  - destruct (handle_control_message _ _ _ _ _ _ _ _) as [o' t'] eqn:E. intros [= -> <-] _. simpl.
    destruct msg as [rid' tx' payload| | | | | | | | |]; simpl in E; try (injection E as _ <-; by left).
    + assert (task_pending t' = <[rid' := default [] (queries n !! rid') ++ [tx']]> (queries n)) as ->.
      { destruct (handle_query_capacity_with_payload _ _ _ _ _ _ _ _ _ _ _) as [[pq sent] notified] eqn:Eq.
        injection E as _ <-. simpl. unfold handle_query_capacity_with_payload in Eq.
        destruct (root_as_capacity_request _); [|by injection Eq as <- _ _].
        destruct (broadcast_signed_request_to_peers _ _ _ _ _ _); [|by injection Eq as <- _ _].
        destruct (is_scheduling_disabled_for _ _); by injection Eq as <- _ _. }
      rewrite lookup_insert. case_decide as Hr; [|by left]. subst rid'. simpl.
      intros [Hin|Hin]%elem_of_app; [by left|]. apply list_elem_of_singleton in Hin as ->. right. by eexists.
    + destruct (handle_send_apply_request _ _ _ _ _ _ _ _ _) as [r s]. injection E as _ <-. by left.
    + unfold handle_announce_provider in E. destruct (announce_attempts _ _ _ _) as [[] ?]; injection E as _ <-; by left.
    + unfold handle_withdraw_provider in E. destruct (announce_provider_direct _ _ _) as [? ?]. injection E as _ <-. by left.
  - intros [= _ <-] _. by left.
  - destruct (handshake_message_event _ _ _ _ _ _ _ _ _) as [[? ?] ?]; intros [= _ <-] _. by left.
  - destruct mm; [destruct (handle_apply_request _ _ _ _ _ _ _) as [? ?]|]; intros [= _ <-] _; by left.
  - destruct mm; [destruct (delete_message _ _ _ _) as [[? ?] ?]|]; intros [= _ <-] _; by left.
  - destruct (gossipsub_message _ _ _ _ _ _ _ _ _ _). intros [= _ <-] _. by left.
  - destruct mm; [destruct (scheduler_request _ _ _ _ _ _ _ _)|]; intros [= _ <-] _; by left.
  - destruct (kademlia_event _ _). intros [= _ <-] _. by left.
  - intros [= _ <-] _. by left.
  - intros [= _ <-] _. by left.
  - intros [= _ <-] _. case_decide; by left.
  - unfold handshake_tick. destruct (tick_all _ _ _ _ _) as [o' k]. intros [= _ <-] _. by left.
  - intros Hev Hq. rewrite drain_empty in Hev by done. injection Hev as _ <-. by left.
  - intros [= _ <-] _. by left.
  - intros [= _ <-] _. by left.
Qed.

(** A step of the system other than an event keeps them. *)
Lemma step_queries p tr s l s' rid tx :
  member_step config p tr s l s' → node_ok (sys_node s) → tx ∈ default [] (queries (sys_node s') !! rid) →
  tx ∈ default [] (queries (sys_node s) !! rid) ∨
  ∃ e ev nonces, l = LNode (Handled e ev nonces) ∧ asked_for rid tx ev.
Proof.
  intros Hst (_ & _ & Hq) Hin. destruct Hst as [tr n r ps ds l n' Hns| | | | | |]; simpl in *; try by left.
  inversion Hns as [? e ev ? o ? Hrun He|? now i tsk st]; subst.
  - destruct (event_queries _ _ _ _ _ _ _ _ He Hq Hin); [by left|right]. by eexists _, _, _.
  - left. unfold run_spawned in Hin. destruct (spawned n !! i) as [[]|]; [|done].
    by destruct (delete_step _ _ _ _) as [[] ?].
Qed.

(** Before anything happens no query waits. *)
Definition idle m : Prop := ∀ p mem, members m !! p = Some mem → queries (sys_node (m_system mem)) = ∅.

Definition handled (tr : list mesh_label) a (ev : event) : Prop :=
  ∃ e nonces, Some (a, LNode (Handled e ev nonces)) ∈ tr.

Lemma waiting_asked m0 tr m a mem rid tx :
  mesh_start m0 → idle m0 → mesh_reach m0 tr m → members m !! a = Some mem →
  tx ∈ default [] (queries (sys_node (m_system mem)) !! rid) →
  ∃ ev, handled tr a ev ∧ asked_for rid tx ev.
Proof.
  intros Hs Hidle Hr. revert a mem. induction Hr as [|tr m l m' Hr IH Hst]; intros a mem Hp Hin.
  { by rewrite (Hidle _ _ Hp) in Hin; apply elem_of_nil in Hin. }
  assert (Hcons : (∃ ev, handled tr a ev ∧ asked_for rid tx ev) → ∃ ev, handled (l :: tr) a ev ∧ asked_for rid tx ev).
  { intros (ev & (e & nonces & Hev) & Ha). exists ev. split; [|done]. exists e, nonces. by right. }
  destruct Hst as [tr ms w p s q l s' q' w' Hp' Hst Hi| |]; simpl in *; [|by eapply Hcons, IH..].
  destruct (decide (p = a)) as [->|Hne]; [|rewrite lookup_insert_ne in Hp by done; by eapply Hcons, IH].
  rewrite lookup_insert_eq in Hp. injection Hp as <-.
  pose proof (mesh_member_ok _ _ _ _ _ _ Hs Hr Hp') as [Hok _ _ _ _].
  destruct (step_queries _ _ _ _ _ _ _ Hst Hok Hin) as [Hold|(e & ev & nonces & -> & Ha)].
  - by eapply Hcons, (IH _ _ Hp').
  - exists ev. split; [|done]. exists e, nonces. by left.
Qed.

Lemma members_same m0 tr m p : mesh_reach m0 tr m → is_Some (members m !! p) ↔ is_Some (members m0 !! p).
Proof.
  induction 1 as [|tr m l m' _ IH Hst]; [done|]. destruct Hst as [tr ms w q s c l s' c' w' Hq| |]; simpl in *; try done.
  rewrite <- IH. rewrite lookup_insert_is_Some'. naive_solver.
Qed.

(** ** The reservation behind an answer *)

(** At some point of the run member [b] answered a capacity request, and held
    from then on, for three seconds, a reservation for manifest [id]. *)
Definition reserved m0 (tr : list mesh_label) b (id : string) : Prop :=
  ∃ tr1 tr2 m1 m2 mem2 e request peer nonces,
    let l := Some (b, LNode (Handled e (SchedulerMessage (RrRequest request) peer) nonces)) in
    tr = tr1 ++ l :: tr2 ∧ mesh_reach m0 tr2 m1 ∧ mesh_step tr2 m1 l m2 ∧
    members m2 !! b = Some mem2 ∧ holds_for (now e) id (sys_node (m_system mem2)).

(** The identifier of an answer is that of the request. *)
Lemma answer_request_id `{!CapacityReplyLaws} b e peer request n response mid :
  scheduler_answer config b e peer request n = Some response →
  capacity_asked (now e) peer request (NONCE_STORE (task_node (task n))) mid →
  ∃ reply, root_as_capacity_reply response = Some reply ∧
    extract_manifest_id_from_request_id (default "" (rp_request_id reply)) = Some mid.
Proof.
  intros Hans (env & nonces & req & Hver & Hreq & Hmid). unfold scheduler_answer, scheduler_request in Hans.
  rewrite Hver, Hreq in Hans. destruct (bid _ _ _ _ _ _ _) as [[[mid' reply]|] v] eqn:Eb; [|done].
  simpl in Hans. injection Hans as <-. unfold bid in Eb. case_decide; [done|]. rewrite Hmid in Eb.
  destruct (verify_capacity _ _ _) as [check v1]. destruct (has_capacity check); [|done].
  destruct (reserve_capacity _ _ _ _ _ _ _) as [[]]; [|done]. injection Eb as _ <- _.
  unfold send_scheduler_capacity_reply, compose_capacity_reply, build_capacity_reply_with, build_capacity_reply, reply_payload.
  destruct (capacity_reply_request_id (reply_table (with_amounts (check_cpu_milli check) (check_memory_bytes check)
    (check_storage_bytes check) (with_ok (baseline_capacity_params (default "" (cr_request_id req))
      (peer_to_string (local_peer n))))) match nc_kem_keypair (config b) with Ok (pubb, _) => Some (base64_encode pubb) | Err _ => None end))
    as (reply & Hroot & Hid).
  exists reply. split; [exact Hroot|]. by rewrite Hid.
Qed.

(** The answers of the members fit the length field of the frames. *)
Definition short_answers (tr : list mesh_label) : Prop :=
  ∀ b e request peer nonces n response,
    Some (b, LNode (Handled e (SchedulerMessage (RrRequest request) peer) nonces)) ∈ tr →
    scheduler_answer config b e peer request n = Some response → Z.of_nat (length response) < 2 ^ 32.

Lemma answer_reserved `{!CapacityReplyLaws} m0 tr m a e response b nonces m' reply id :
  mesh_start m0 → mesh_reach m0 tr m →
  mesh_step tr m (Some (a, LNode (Handled e (SchedulerMessage (RrResponse response) b) nonces))) m' →
  is_Some (members m !! b) → short_answers tr → root_as_capacity_reply response = Some reply →
  extract_manifest_id_from_request_id (default "" (rp_request_id reply)) = Some id → reserved m0 tr b id.
Proof.
  intros Hs Hr Hst Hb Hshort Hreply Hid. destruct (answer_source _ _ _ _ _ _ _ _ _ _ Hs Hr Hst Hb)
    as (frame & rest & (tr1 & tr2 & m1 & m2 & mem1 & mem2 & e1 & request & nonces1 & mid & response1 & Htr & Hr1 & Hst1 &
      Hm1 & Hm2 & Hans & -> & Hask & Hhold) & Hread).
  assert (Hl : Z.of_nat (length response1) < 2 ^ 32).
  { eapply Hshort; [|exact Hans]. rewrite Htr. apply elem_of_app. right. by left. }
  unfold codec_read, codec_write in Hread. rewrite <- (app_nil_r (put_block 4 response1)), read_block_put in Hread by done.
  injection Hread as <- _. destruct (answer_request_id _ _ _ _ _ _ _ Hans Hask) as (reply' & Hreply' & Hmid).
  rewrite Hreply in Hreply'. injection Hreply' as <-. rewrite Hid in Hmid. injection Hmid as <-.
  by exists tr1, tr2, m1, m2, mem2, e1, request, a, nonces1.
Qed.

Lemma reserved_app m0 tr1 tr b id : reserved m0 tr b id → reserved m0 (tr1 ++ tr) b id.
Proof.
  intros (tr2 & tr3 & m1 & m2 & mem2 & e & request & peer & nonces & -> & Hrest).
  exists (tr1 ++ tr2), tr3, m1, m2, mem2, e, request, peer, nonces. split; [by rewrite <- app_assoc|done].
Qed.

(** ** What the handler is told *)

(** At some point of the run member [a] told [tx] this. *)
Definition told m0 (tr : list mesh_label) a tx text : Prop :=
  ∃ tr1 tr2 m1 m2 mem1 e ev nonces o n',
    let l := Some (a, LNode (Handled e ev nonces)) in
    tr = tr1 ++ l :: tr2 ∧ mesh_reach m0 tr2 m1 ∧ mesh_step tr2 m1 l m2 ∧ members m1 !! a = Some mem1 ∧
    member_event a e ev (sys_node (m_system mem1)) = (Some o, n') ∧ Reply tx (RString text) ∈ o.

(** The channel [tx] is that of one query. *)
Definition channel_of (tr : list mesh_label) a tx rid : Prop :=
  ∀ rid' ev, handled tr a ev → asked_for rid' tx ev → rid' = rid.

(** The identifier [get_candidates] makes for a task. *)
Definition query_id (id uuid : string) : string := FREE_CAPACITY_PREFIX +:+ ":" +:+ id +:+ ":" +:+ uuid.

Definition no_colon (s : string) : Prop := (":"%char : ascii) ∉ String.list_ascii_of_string s.

(** Whom a candidate stands for: the node that was asked, a peer outside the
    mesh, or a member that has reserved capacity for the manifest. *)
Definition accounted m0 (tr : list mesh_label) a (id : string) (name : string) : Prop :=
  (∃ tr1 tr2 m1 mem1, tr = tr1 ++ tr2 ∧ mesh_reach m0 tr2 m1 ∧ members m1 !! a = Some mem1 ∧
     name = peer_to_string (local_peer (sys_node (m_system mem1)))) ∨
  ∃ b, name = peer_to_string b ∧ (members m0 !! b = None ∨ reserved m0 tr b id).

Lemma candidate_split name key (text : string) c : no_colon name →
  text = name +:+ ":" +:+ key → parse_candidate text = Some c → c.1 = name.
Proof.
  intros Hn -> Hp. unfold parse_candidate in Hp. change (":" +:+ key) with (String ":"%char key) in Hp.
  rewrite (split_once_app ":"%char) in Hp by done. case_decide; [done|]. by injection Hp as <-.
Qed.

Lemma no_colon_unsplit name : no_colon name → parse_candidate name = None.
Proof.
  intros Hn. unfold parse_candidate. destruct (split_once ":" name) as [[l r]|] eqn:E; [|done].
  apply split_once_sound in E as ->. destruct Hn. clear.
  induction l as [|x l IH]; [by left|]. right. exact IH.
Qed.

Lemma told_accounted `{!CapacityReplyLaws} m0 tr m a id uuid tx text c :
  mesh_start m0 → idle m0 → mesh_reach m0 tr m → (∀ p, no_colon (peer_to_string p)) → no_colon id → id ≠ "" →
  channel_of tr a tx (query_id id uuid) → short_answers tr → told m0 tr a tx text →
  parse_candidate text = Some c → accounted m0 tr a id c.1.
Proof.
  intros Hs Hidle Hr Hcol Hid Hne Hch Hshort (tr1 & tr2 & m1 & m2 & mem1 & e & ev & nonces & o & n' & Htr & Hr1 & Hst &
    Hm1 & Hev & Hin) Hp.
  pose proof (mesh_member_ok _ _ _ _ _ _ Hs Hr1 Hm1) as [(_ & _ & Hq) _ _ _ _].
  destruct (event_reply _ _ _ _ _ _ _ _ Hev Hq Hin) as [rid tx0 payload key Htext|b data Htext|response b reply Hroot Htx Htext].
  - left. eexists (tr1 ++ [_]), tr2, m1, mem1. split; [by rewrite <- app_assoc|]. split_and!; [done..|].
    by eapply candidate_split.
  - rewrite Htext, no_colon_unsplit in Hp by done. done.
  - right. exists b. split; [by eapply candidate_split|]. destruct (members m1 !! b) as [memb|] eqn:Eb; [right|left].
    + destruct (waiting_asked _ _ _ _ _ _ _ Hs Hidle Hr1 Hm1 Htx) as (ev' & (e' & nonces' & Hh) & Ha).
      assert (Hrid : default "" (rp_request_id reply) = query_id id uuid).
      { eapply Hch; [|exact Ha]. exists e', nonces'. rewrite Htr. apply elem_of_app. right. by right. }
      rewrite Htr. change (tr1 ++ ?l :: tr2) with (tr1 ++ [l] ++ tr2). rewrite app_assoc. apply reserved_app.
      eapply answer_reserved; [done|exact Hr1|exact Hst|by rewrite Eb| |exact Hroot|].
      * intros b' e0 request peer nonces0 n response0 Hl. apply (Hshort b' e0 request peer nonces0).
        rewrite Htr. apply elem_of_app. right. by right.
      * rewrite Hrid. by apply (proj1 (request_id_manifest id uuid)).
    + apply eq_None_not_Some. rewrite <- (members_same _ _ _ _ Hr1), Eb. by intros [? ?].
Qed.

(** ** Theorem *)

(** C14: every candidate a client is offered is accounted for. When the query of
    [get_candidates] is answered, each candidate in the answer is the node that
    was asked, a peer outside the mesh, or a member of the mesh that answered
    with a reservation, for three seconds, for exactly the task that was asked
    for; replies that came over GossipSub are never among them. *)
Theorem candidates_accounted `{FloatDisplay, !CapacityReplyLaws} m0 tr m a id uuid tx fuel log turns d r meta resp :
  mesh_start m0 → idle m0 → mesh_reach m0 tr m → (∀ p, no_colon (peer_to_string p)) → no_colon id → id ≠ "" →
  channel_of tr a tx (query_id id uuid) → short_answers tr →
  (∀ i text, received (turns i) = Received text → told m0 tr a tx text) →
  get_candidates fuel log turns uuid tx d id r meta = (candidates_query id uuid tx, Some resp) →
  ∃ responders, resp = candidates_response d r meta responders ∧
    Forall (λ c, accounted m0 tr a id c.1) (parse_candidates responders).
Proof.
  intros Hs Hidle Hr Hcol Hid Hne Hch Hshort Htold Hget. unfold get_candidates in Hget.
  destruct (collect_responders _ _ _ _ _) as [|responders|] eqn:Ec; try done. injection Hget as <-.
  exists responders. split; [done|]. apply Forall_forall. intros c (reply & Hin & Hc)%list_elem_of_omap.
  destruct (collect_stops log turns fuel 0 [] responders (collected_nothing turns)) as (n & (_ & Hel & _) & _);
    [simpl; lia|done|]. apply Hel in Hin as (i & _ & Hi).
  by eapply told_accounted; [..|eapply Htold|].
Qed.

End candidates.

(** ** Concrete run: the two nodes of [Mesh] *)

Section witnesses.
Import Toy ToyTables ToyKemPublic ToyRest.

#[local] Existing Instance bid_messages.
#[local] Existing Instance bid_messages_laws.
#[local] Instance bid_reply_laws : CapacityReplyLaws.
Proof.
  split. intros r. eexists. split; [reflexivity|]. destruct r as [[id|] ? ? ? ? ? ? ? ?]; [|done].
  simpl. by rewrite string_of_as_bytes.
Qed.

Abbreviation A := (toy_peer x07).
Abbreviation B := (toy_peer x02).

Definition answer_trace : list (option (@PeerId Toy.peers * sys_label)) := answer_label :: offer_label :: query_trace.

Lemma toy_no_colon (p : @PeerId Toy.peers) : no_colon (peer_to_string p).
Proof. apply (bool_decide_unpack _). by destruct p; vm_compute. Qed.

Lemma two_idle : idle two_mesh.
Proof.
  intros p mem Hp. unfold two_mesh, members, two_nodes in Hp.
  apply lookup_insert_Some in Hp as [[_ <-]|[_ Hp]]; [done|]. by apply lookup_singleton_Some in Hp as [_ <-].
Qed.

Lemma demo_short : short_answers demo_config answer_trace.
Proof.
  intros b e request peer nonces n response _ Hans. assert (response = offer_bytes) as ->; [|vm_compute; reflexivity].
  unfold scheduler_answer, scheduler_request in Hans.
  destruct (verify_signed_message _ _ _ _) as [[env|] nonces']; [|done]. cbn [root_as_capacity_request bid_messages] in Hans.
  destruct (bid _ _ _ _ _ _ _) as [[[mid reply]|] v] eqn:Eb; [|done]. simpl in Hans. injection Hans as <-.
  unfold bid in Eb. case_decide; [done|]. cbn [cr_request_id default] in Eb.
  destruct (extract_manifest_id_from_request_id _); [|done]. destruct (verify_capacity _ _ _) as [check v1].
  destruct (has_capacity check); [|done]. destruct (reserve_capacity _ _ _ _ _ _ _) as [[]]; [|done].
  by injection Eb as _ <- _.
Qed.

Lemma demo_channel : channel_of answer_trace A 0 (query_id "id1" "u").
Proof.
  intros rid ev (e & nonces & Hin) [payload ->]. unfold answer_trace, answer_label, offer_label, query_trace in Hin.
  repeat (apply elem_of_cons in Hin as [Hin|Hin]; [simplify_eq; try reflexivity|]). by apply elem_of_nil in Hin.
Qed.

Lemma demo_told : told demo_config two_mesh answer_trace A 0 "peer-2:key".
Proof.
  eexists [], (offer_label :: query_trace), {| members := offered; wire := [frame_to B A false offer_bytes] |}, _,
    (free_member query_outcome.2 [] []), (around []), answer_event, _, [Reply 0 (RString "peer-2:key")], answer_outcome.2.
  split; [reflexivity|]. split; [exact offer_reach|]. split; [exact answer_step|]. split; [|split; [exact answer_eq|by left]].
  unfold offered. cbn [members]. rewrite lookup_insert_ne by discriminate. apply lookup_insert_eq.
Qed.

Definition one_reply (i : nat) : turn :=
  {| elapsed := Z.of_nat i; received := match i with O => Received "peer-2:key" | _ => TimedOut end |}.

Lemma candidates_accounted_witness :
  ∃ responders, get_candidates 5 false one_reply "u" 0 demo_draws "id1" demo_rest no_metadata =
      (candidates_query "id1" "u" 0, Some (candidates_response demo_draws demo_rest no_metadata responders)) ∧
    Forall (λ c, accounted demo_config two_mesh answer_trace A "id1" c.1) (parse_candidates responders).
Proof.
  destruct (candidates_accounted demo_config two_mesh answer_trace
    {| members := <[A := free_member answer_outcome.2 [] []]> offered; wire := [] |} A "id1" "u" 0 5 false one_reply
    demo_draws demo_rest no_metadata (candidates_response demo_draws demo_rest no_metadata ["peer-2:key"]))
    as (responders & Hresp & Hall).
  - exact two_start.
  - exact two_idle.
  - eapply mesh_reach_step; [exact offer_reach|exact answer_step].
  - exact toy_no_colon.
  - by apply (bool_decide_unpack _).
  - discriminate.
  - exact demo_channel.
  - exact demo_short.
  - intros [|i] text Hi; [|discriminate]. injection Hi as <-. exact demo_told.
  - reflexivity.
  - exists responders. rewrite <- Hresp. split; [reflexivity|exact Hall].
Defined.

End witnesses.
