(* ===== verification/Server.v ===== *)
(** * The REST server a client talks to ([restapi/mod.rs] under [cli/src])

    [Cli] runs against any server; here the server is a node. A request passes
    the middleware and the router, a handler answers it, and what it hands to
    the libp2p task is queued. Requests are served one after the other, each
    handler to its end: one of the interleavings of [System]. The HTTP library
    is a class: how a URL is taken apart, and what the body extractor refuses. *)

From Stdlib Require Import Ascii.
From S2P Require Import Prelude RustStr Utf8 RustHash Constants Serde Libp2p Concrete Provider Runtime.
From S2P Require Import ResourceVerifier NonceStore Envelope RecipientBlob MockEngine WorkloadIntegration.
From S2P Require Import DeleteMessage Protocol RestEnvelope CapacityMessages Handshake Control RestApi Node.
From S2P Require Import System Cli Mesh.

Open Scope list_scope.

(** ** The HTTP library *)

(** The decoded segments of the path of a URL with the parameters of its query;
    and the bytes a handler receives, or the status of the refusal. *)
Class HttpLibrary := {
  url_target : string → list string * gmap string string;
  extract_bytes : option (list byte) → result Z (list byte);
}.

(** A segment that needs no encoding: letters, digits, dash, underscore. *)
Definition unreserved (a : ascii) : bool :=
  let n := nat_of_ascii a in
  (48 <=? n)%nat && (n <=? 57)%nat || (65 <=? n)%nat && (n <=? 90)%nat ||
  (97 <=? n)%nat && (n <=? 122)%nat || (n =? 45)%nat || (n =? 95)%nat.

Fixpoint all_unreserved (s : string) : bool :=
  match s with
  | EmptyString => true
  | String a s' => unreserved a && all_unreserved s'
  end.

Definition plain_segment (s : string) : Prop := s ≠ "" ∧ all_unreserved s = true.

Fixpoint path_text (segments : list string) : string :=
  match segments with
  | [] => ""
  | segment :: segments => "/" +:+ segment +:+ path_text segments
  end.

(** The default limit of the body extractor is two megabytes. *)
Definition BODY_LIMIT : Z := 2 * 1024 * 1024.

Class HttpLibraryLaws `{HttpLibrary} (base : string) : Prop := {
  url_target_path segments : Forall plain_segment segments →
    url_target (base +:+ path_text segments) = (segments, ∅);
  extract_bytes_body body bytes : extract_bytes body = Ok bytes → body = Some bytes;
  extract_bytes_within body : Z.of_nat (length body) ≤ BODY_LIMIT → extract_bytes (Some body) = Ok body;
}.

(** ** Serving *)

Definition NOT_FOUND : Z := 404.
Definition METHOD_NOT_ALLOWED : Z := 405.
Definition INTERNAL_SERVER_ERROR : Z := 500.

Section server.
Context `{PeerIds, !Kademlia, !Swarm, !PeerParse, Serde, JsonPrint, FlatBuffers, Crypto, Kem, KemPublic, Messages, Tables, FloatDisplay}
  `{HttpLibrary} {W : Type}.

(** What a handler reads, draws and is answered while it serves a request.
    [query_fuel] bounds the turns of a candidate query; with too little of it
    the query counts as unanswered (one turn per nanosecond of the timeout
    is enough, see [RestApi]). *)
Record service := {
  at_time : Z;
  at_ms : Z;
  at_clock : nat → Z;
  reply_draws : response_draws;
  new_task_draws : task_draws;
  query_uuid : string;
  log_enabled : bool;
  query_fuel : nat;
  query_turns : nat → turn;
  first_tx : nat;
  apply_answer : asked (result string string);
  delete_waits : delete_answers;
  dht_answer : asked (result string json);
  local_answer : asked PeerId;
}.

Record Served := {
  srv_system : System (W:=W);
  srv_channel : list Libp2pControl;
  srv_count : nat;
}.

Context (kem_keypair node_keys : result string (list byte * list byte)) (debug_assertions : bool).
Context (downcast_mock_view : RuntimeEngine W → option (W → gmap string MockWorkload)).

Definition status_only (status : Z) : HttpResponse := {| http_status := status; http_body := Ok [] |}.
Definition success (body : list byte) : HttpResponse := {| http_status := 200; http_body := Ok body |}.
Definition respond (r : Response) : HttpResponse := success (response_body r).
Definition respond_text (t : string) : HttpResponse := success (as_bytes t).

(** [axum::Json] *)
Definition respond_json (j : json) : HttpResponse :=
  match json_to_string j with
  | Some t => respond_text t
  | None => status_only INTERNAL_SERVER_ERROR
  end.

(** What serving gives: the response ([None]: the handler panics), the messages
    for the libp2p task, the state. *)
Abbreviation outcome := (option HttpResponse * list Libp2pControl * RestState * NodeState (W:=W))%type.

(** A handler behind the body extractor. *)
Definition with_body (body : option (list byte)) (r : RestState) (s : NodeState (W:=W))
    (handler : list byte → outcome) : outcome :=
  match extract_bytes body with
  | Ok bytes => handler bytes
  | Err status => (Some (status_only status), [], r, s)
  end.

(** One handler per route. *)
Definition dispatch (e : service) (ep : endpoint) (params : gmap string string) (meta : EnvelopeMetadata)
    (body : option (list byte)) (c : ControlState) (r : RestState) (s : NodeState (W:=W)) : outcome :=
  let read h : outcome := (Some h, [], r, s) in
  match ep with
  | EpHealth => read (respond_text "ok")
  | EpKemPubkey => read (respond_text (get_kem_public_key kem_keypair))
  | EpSigningPubkey => read (respond_text (get_signing_public_key node_keys))
  | EpDecryptedManifests => read (respond_json (debug_decrypted_manifests r))
  | EpActiveAnnounces => read (respond_json (debug_active_announces c))
  | EpDhtPeers =>
      (Some (respond_json (debug_dht_peers (dht_answer e))),
       if_sent (dht_answer e) (GetDhtPeers (first_tx e)), r, s)
  | EpPeers => read (respond_json (debug_peers r))
  | EpAllTasks => read (respond_json (debug_all_tasks r))
  | EpWorkloadsByPeer peer_id =>
      read (respond_json (debug_workloads_by_peer debug_assertions downcast_mock_view peer_id s))
  | EpLocalPeerId =>
      (Some (respond_json (debug_local_peer_id (local_answer e))),
       if_sent (local_answer e) (GetLocalPeerId (first_tx e)), r, s)
  | EpTaskManifestId task_id => read (respond (get_task_manifest_id task_id r))
  | EpTaskStatus task_id => read (respond (get_task_status task_id r))
  | EpNodes => read (respond (get_nodes r))
  | EpCreateTask =>
      with_body body r s (λ bytes,
        let '(resp, r, s) := create_task (new_task_draws e) (reply_draws e) params meta bytes r s in
        (respond <$> resp, [], r, s))
  | EpDeleteTask task_id =>
      with_body body r s (λ bytes,
        let '(resp, msgs, s) := delete_task (reply_draws e) (at_ms e) (at_clock e) (delete_waits e)
                                  (first_tx e) task_id meta bytes r s in
        (Some (respond resp), msgs, r, s))
  | EpCandidates task_id =>
      with_body body r s (λ _,
        let '(msg, resp) := get_candidates (query_fuel e) (log_enabled e) (query_turns e) (query_uuid e)
                              (first_tx e) (reply_draws e) task_id r meta in
        (respond <$> resp, [msg], r, s))
  | EpApplyDirect peer_id =>
      with_body body r s (λ bytes,
        let '(msgs, resp) := apply_direct peer_id bytes (first_tx e) (apply_answer e) in
        (Some (respond resp), msgs, r, s))
  end.

(** The status when no handler is found: another method may have one. *)
Definition unrouted (path : list string) : Z :=
  if existsb (λ m, bool_decide (is_Some (route m path))) [GET; POST; DELETE_METHOD]
  then METHOD_NOT_ALLOWED else NOT_FOUND.

Abbreviation state_of s := (task_node (task (sys_node s))).

Definition set_served (r : RestState) (s' : NodeState (W:=W)) (s : System (W:=W)) : System (W:=W) :=
  {| sys_node := set_node s' (sys_node s); sys_rest := r; sys_pending := sys_pending s;
     sys_deletes := sys_deletes s |}.

(** A handler that panics closes the connection. *)
Definition http_serve (services : nat → service) (request : HttpRequest) (st : Served) :
    result string HttpResponse * Served :=
  let e := services (srv_count st) in
  let s := srv_system st in
  let '(path, params) := url_target (http_url request) in
  let '(admitted, nonces) :=
    envelope_middleware (at_time e) (envelope_handler (sys_rest s))
      {| headers := http_headers request; request_body := Some (http_sent request) |}
      (NONCE_STORE (state_of s)) in
  let node := set_nonces nonces (state_of s) in
  let '(response, msgs, r, node) :=
    match admitted with
    | None => (None, [], sys_rest s, node)
    | Some (Rejected status) => (Some (status_only status), [], sys_rest s, node)
    | Some (Forwarded meta body) =>
        match route (http_method request) path with
        | Some ep => dispatch e ep params meta body (task_control (task (sys_node s))) (sys_rest s) node
        | None => (Some (status_only (unrouted path)), [], sys_rest s, node)
        end
    end in
  (ok_or "connection closed" response,
   {| srv_system := set_served r node s; srv_channel := srv_channel st ++ msgs; srv_count := S (srv_count st) |}).

End server.

(** ** A server is a member of a mesh *)

Section simulation.
Context `{PeerIds, !Kademlia, !Swarm, !PeerParse, Serde, JsonPrint, FlatBuffers, Crypto, Kem, KemPublic, Messages, Tables, FloatDisplay}
  `{HttpLibraryLaws} {W : Type}.
Context (config : PeerId → NodeConfig (W:=W)) (p : PeerId) (m0 : Mesh (W:=W)).
Context (view : RuntimeEngine W → option (W → gmap string MockWorkload)).
Implicit Types (s : System (W:=W)) (st : Served (W:=W)) (r : RestState) (n : NodeState (W:=W)).

Abbreviation state_of s := (task_node (task (sys_node s))).
Abbreviation mesh_reach := (mesh_reach config).
Abbreviation dispatch := (dispatch (nc_kem_keypair (config p)) (nc_node_keys (config p)) (nc_debug_assertions (config p)) view).
Abbreviation http_serve := (http_serve (nc_kem_keypair (config p)) (nc_node_keys (config p)) (nc_debug_assertions (config p)) view).

(** A member that is the server, but for deletions that are over. *)
Definition serves st (mem : Member) : Prop :=
  m_channel mem = srv_channel st ∧
  ∃ over, m_system mem =
    {| sys_node := sys_node (srv_system st); sys_rest := sys_rest (srv_system st);
       sys_pending := sys_pending (srv_system st); sys_deletes := over ++ sys_deletes (srv_system st) |}.

(** The mesh can have come to a state in which member [p] is the server. *)
Definition runs_as (ms : gmap PeerId Member) (w : list Packet) st : Prop :=
  envelope_handler (sys_rest (srv_system st)) = nc_handler (config p) ∧
  ∃ tr mem, mesh_reach m0 tr {| members := <[p := mem]> ms; wire := w |} ∧ serves st mem.

(** One step of the REST server of the member. *)
Lemma rest_step tr ms w s q l s' msgs :
  mesh_reach m0 tr {| members := <[p := {| m_system := s; m_channel := q |}]> ms; wire := w |} →
  (∀ l', l ≠ LNode l') → member_step config p (labels_of p tr) s l s' → Forall (rest_sends l) msgs →
  mesh_reach m0 (Some (p, l) :: tr)
    {| members := <[p := {| m_system := s'; m_channel := q ++ msgs |}]> ms; wire := w |}.
Proof.
  intros Hr Hl Hst Hm. eapply mesh_reach_step; [exact Hr|].
  rewrite <- (insert_insert_eq ms p {| m_system := s'; m_channel := q ++ msgs |} {| m_system := s; m_channel := q |}).
  eapply mesh_step_member; [apply lookup_insert_eq|exact Hst|by apply via_rest].
Qed.

(** The member in the mesh. *)
Abbreviation at_member tr ms w nd r ps ds q :=
  (mesh_reach m0 tr
     {| members := <[p := {| m_system := {| sys_node := nd; sys_rest := r; sys_pending := ps; sys_deletes := ds |};
                             m_channel := q |}]> ms; wire := w |}).

(** The rest of a deletion: one step per provider. *)
Lemma delete_loop clock a left tr ms w nd r ps ds q run prog n' :
  at_member tr ms w nd r ps (run :: ds) q → run_left run = left →
  delete_on_providers clock a (run_local run) (run_task run) (run_force run) (run_request run) (run_tx run) left
    (run_progress run) (task_node (task nd)) = (prog, n') →
  ∃ tr' run' msgs, sent prog = sent (run_progress run) ++ msgs ∧
    at_member (tr' ++ tr) ms w (set_node n' nd) r ps (run' :: ds) (q ++ msgs).
Proof.
  revert tr nd q run. induction left as [|provider left IH]; intros tr nd q run Hr Hl; simpl.
  - intros [= <- <-]. exists [], run, []. rewrite !app_nil_r. split; [done|]. by destruct nd as [[] ? ? ? ?].
  - destruct (delete_on_provider _ _ _ _ _ _ _ _ _ _) as [prog1 n1] eqn:Ep. intros Hd.
    destruct (delete_provider_sends (clock (run_tx run)) a run provider (task_node (task nd))) as (msgs1 & Hs1 & Hf1).
    rewrite Ep in Hs1. cbn [fst] in Hs1.
    eapply (rest_step _ _ _ _ _ (LDeleteOn (clock (run_tx run)) run provider)) in Hr;
      [|done|eapply (sys_step_provider _ _ _ _ _ _ _ _ _ (run :: ds) 0); [done|exact Hl|exact Ep]|exact Hf1].
    destruct (IH _ _ _ (run_next run left prog1) Hr eq_refl Hd) as (tr' & run' & msgs & Hs & Hr').
    exists (tr' ++ [Some (p, LDeleteOn (clock (run_tx run)) run provider)]), run', (msgs1 ++ msgs).
    cbn [run_progress run_next] in Hs. split; [by rewrite Hs, Hs1, <- app_assoc|].
    rewrite <- (app_assoc tr'), (app_assoc q). exact Hr'.
Qed.

Lemma reject_step tr ms w nd r ps ds q now request o nonces :
  at_member tr ms w nd r ps ds q →
  envelope_middleware now (nc_handler (config p)) request (NONCE_STORE (task_node (task nd))) = (o, nonces) →
  ∃ l, at_member (l :: tr) ms w (set_node (set_nonces nonces (task_node (task nd))) nd) r ps ds q.
Proof.
  intros Hr Hm. eexists.
  eapply (rest_step _ _ _ _ _ (LAdmitted now request (NONCE_STORE (task_node (task nd)))) _ []) in Hr;
    [|done|by eapply sys_step_reject|constructor]. rewrite app_nil_r in Hr. exact Hr.
Qed.

Lemma admit_step tr ms w nd r ps ds q now request nonces meta body m path ep params :
  at_member tr ms w nd r ps ds q →
  envelope_middleware now (nc_handler (config p)) request (NONCE_STORE (task_node (task nd))) =
    (Some (Forwarded meta body), nonces) → route m path = Some ep →
  ∃ l, at_member (l :: tr) ms w (set_node (set_nonces nonces (task_node (task nd))) nd) r
    ({| p_endpoint := ep; p_params := params; p_meta := meta; p_body := body |} :: ps) ds q.
Proof.
  intros Hr Hm Hroute. eexists.
  eapply (rest_step _ _ _ _ _ (LAdmitted now request (NONCE_STORE (task_node (task nd)))) _ []) in Hr;
    [|done|by eapply sys_step_admit|constructor]. rewrite app_nil_r in Hr. exact Hr.
Qed.

Lemma served_step tr ms w nd r ps ds q pd msgs :
  at_member tr ms w nd r (pd :: ps) ds q → p_endpoint pd ≠ EpCreateTask → Forall (served_sends pd) msgs →
  at_member (Some (p, LServed pd) :: tr) ms w nd r ps ds (q ++ msgs).
Proof.
  intros Hr Hep Hm.
  by eapply (rest_step _ _ _ _ _ (LServed pd)) in Hr; [|done|eapply (sys_step_serve _ _ _ _ _ _ _ _ _ _ 0)|].
Qed.

Lemma Forall_if_sent {A} (P : Libp2pControl → Prop) (a : asked A) msg : P msg → Forall P (if_sent a msg).
Proof. intros HP. destruct a; simpl; repeat constructor; done. Qed.

(** A deletion, from the pending request to its end. *)
Lemma delete_simulated tr ms w nd r ps ds q pd task_id bytes now_ms clock a tx table msgs n' :
  at_member tr ms w nd r (pd :: ps) ds q → p_endpoint pd = EpDeleteTask task_id → p_body pd = Some bytes →
  delete_task_outcome now_ms clock a tx task_id (p_meta pd) bytes (task_node (task nd)) = (table, msgs, n') →
  ∃ tr' over, at_member (tr' ++ tr) ms w (set_node n' nd) r ps (over ++ ds) (q ++ msgs).
Proof.
  intros Hr Hep Hb Hd.
  assert (Hend : n' = task_node (task nd) → Forall (served_sends pd) msgs →
    ∃ tr' over, at_member (tr' ++ tr) ms w (set_node n' nd) r ps (over ++ ds) (q ++ msgs)).
  { intros -> Hs. exists [Some (p, LServed pd)], []. eapply served_step in Hr; [|by rewrite Hep|exact Hs].
    by destruct nd as [[] ? ? ? ?]. }
  assert (Hsends : ∀ t, served_sends pd (FindManifestHolders task_id t) ∧ served_sends pd (GetLocalPeerId t)).
  { intros t. unfold served_sends. rewrite Hep. naive_solver. }
  unfold delete_task_outcome in Hd.
  destruct (holders a) as [|hs| |]; simpl in Hd;
    try (injection Hd as <- <- <-; apply Hend; [done|]; repeat constructor; apply Hsends).
  destruct hs as [|h hs]; cbn [fmap list_fmap] in Hd; [injection Hd as <- <- <-; apply Hend; [done|]; repeat constructor; apply Hsends|].
  destruct (local_peer a) as [|local| |];
    try (injection Hd as <- <- <-; apply Hend; [done|]; repeat constructor; apply Hsends).
  destruct (delete_on_providers _ _ _ _ _ _ _ (_ :: _) _ _) as [prog n1] eqn:Ed.
  destruct (delete_verdict prog) as [success message]. injection Hd as <- <- <-.
  eapply (rest_step _ _ _ _ _ (LDeleteStarted pd task_id) _ [FindManifestHolders task_id tx; GetLocalPeerId (S tx)]) in Hr;
    [|done|eapply (sys_step_delete _ _ _ _ _ _ _ _ _ _ 0 pd bytes task_id now_ms (h :: hs) local (S (S tx))); done
    |repeat constructor; by eexists; eauto].
  destruct (delete_loop clock a _ _ _ _ _ _ _ _ _ _ _ _ Hr eq_refl Ed) as (tr' & run' & msgs' & Hs & Hr').
  simpl in Hs. exists (tr' ++ [Some (p, LDeleteStarted pd task_id)]), [run']. rewrite Hs, <- app_assoc.
  by rewrite <- (app_assoc q) in Hr'.
Qed.

Lemma create_task_handler td d params meta body r n resp r' n' :
  create_task td d params meta body r n = (resp, r', n') → envelope_handler r' = envelope_handler r.
Proof. unfold create_task. destruct (task_ids _ _ _) as [[mid op]|]; by intros [= _ <- _]. Qed.

Lemma set_node_same (nd : Node (W:=W)) : set_node (task_node (task nd)) nd = nd.
Proof. by destruct nd as [[] ? ? ? ?]. Qed.

(** A request that reaches a handler. *)
Lemma routed_simulated tr ms w nd r ps ds q now request nonces meta body m path ep params e c resp msgs r' n' :
  at_member tr ms w nd r ps ds q →
  envelope_middleware now (nc_handler (config p)) request (NONCE_STORE (task_node (task nd))) =
    (Some (Forwarded meta body), nonces) → route m path = Some ep →
  dispatch e ep params meta body c r (set_nonces nonces (task_node (task nd))) = (resp, msgs, r', n') →
  envelope_handler r' = envelope_handler r ∧
  ∃ tr' over, at_member (tr' ++ tr) ms w (set_node n' nd) r' ps (over ++ ds) (q ++ msgs).
Proof.
  intros Hr Hm Hroute Hd.
  set (pd := {| p_endpoint := ep; p_params := params; p_meta := meta; p_body := body |}).
  destruct (admit_step _ _ _ _ _ _ _ _ _ _ _ _ _ _ _ _ params Hr Hm Hroute) as [l Ha]. fold pd in Ha.
  assert (Hread : ep ≠ EpCreateTask → r' = r → n' = set_nonces nonces (task_node (task nd)) →
    Forall (served_sends pd) msgs → envelope_handler r' = envelope_handler r ∧
    ∃ tr' over, at_member (tr' ++ tr) ms w (set_node n' nd) r' ps (over ++ ds) (q ++ msgs)).
  { intros Hep -> -> Hs. split; [done|]. exists [Some (p, LServed pd); l], []. by apply served_step. }
  assert (Hrefused : r' = r → n' = set_nonces nonces (task_node (task nd)) → msgs = [] →
    envelope_handler r' = envelope_handler r ∧
    ∃ tr' over, at_member (tr' ++ tr) ms w (set_node n' nd) r' ps (over ++ ds) (q ++ msgs)).
  { intros -> -> ->. split; [done|]. destruct (reject_step _ _ _ _ _ _ _ _ _ _ _ _ Hr Hm) as [l' Hr'].
    exists [l'], []. by rewrite app_nil_r. }
  destruct ep; simpl in Hd; unfold with_body in Hd;
    try (injection Hd as <- <- <- <-; by apply Hread; [..|repeat constructor]);
    try (destruct (extract_bytes body) as [bytes|status] eqn:Eb; [|injection Hd as <- <- <- <-; by apply Hrefused]);
    try apply extract_bytes_body in Eb.
  - injection Hd as <- <- <- <-. apply Hread; try done. apply Forall_if_sent. by exists (first_tx e).
  - injection Hd as <- <- <- <-. apply Hread; try done. apply Forall_if_sent. by exists (first_tx e).
  - destruct (create_task _ _ _ _ _ _ _) as [[resp0 r1] n1] eqn:Ec. injection Hd as <- <- <- <-.
    split; [by eapply create_task_handler|].
    eapply (rest_step _ _ _ _ _ (LCreated pd) _ []) in Ha;
      [|done|eapply (sys_step_create _ _ _ _ _ _ _ _ _ _ 0 pd bytes); [done|done|exact Eb|exact Ec]|constructor].
    exists [Some (p, LCreated pd); l], []. exact Ha.
  - unfold delete_task in Hd. destruct (delete_task_outcome _ _ _ _ _ _ _ _) as [[table msgs0] n1] eqn:Ed.
    injection Hd as <- <- <- <-. split; [done|].
    destruct (delete_simulated _ _ _ _ _ _ _ _ _ _ _ _ _ _ _ _ _ _ Ha eq_refl Eb Ed) as (tr' & over & Hr').
    exists (tr' ++ [l]), over. by rewrite <- app_assoc.
  - injection Hd as <- <- <- <-. apply Hread; try done. constructor; [|constructor]. by do 3 eexists.
  - destruct (apply_direct _ _ _ _) as [msgs0 resp0] eqn:Ea. injection Hd as <- <- <- <-. apply Hread; try done.
    change msgs0 with (msgs0, resp0).1. rewrite <- Ea. by apply (apply_direct_sends (W:=W)).
Qed.

(** One request is served by steps of the member. *)
Lemma serve_simulated ms w services request st resp st' :
  runs_as ms w st → http_serve services request st = (resp, st') → runs_as ms w st'.
Proof.
  intros (Hh & tr & [sm q] & Hr & Hq & over & Hsm). simpl in *. subst q sm.
  unfold Server.http_serve. destruct (url_target _) as [path params].
  rewrite Hh. destruct (envelope_middleware _ _ _ _) as [admitted nonces] eqn:Em.
  assert (Hrej : ∀ resp0, (resp0, {| srv_system := set_served (sys_rest (srv_system st))
        (set_nonces nonces (state_of (srv_system st))) (srv_system st);
      srv_channel := srv_channel st ++ []; srv_count := S (srv_count st) |}) = (resp, st') → runs_as ms w st').
  { intros resp0 [= _ <-]. split; [done|]. destruct (reject_step _ _ _ _ _ _ _ _ _ _ _ _ Hr Em) as [l Hr'].
    eexists _, _. split; [exact Hr'|]. split; [simpl; by rewrite app_nil_r|by exists over]. }
  destruct admitted as [[status|meta body]|]; [apply Hrej| |apply Hrej].
  destruct (route _ path) as [ep|] eqn:Er; [|apply Hrej].
  destruct (Server.dispatch _ _ _ _ _ _ _ _ _ _ _ _) as [[[resp0 msgs] r'] n'] eqn:Ed. intros [= _ <-].
  destruct (routed_simulated _ _ _ _ _ _ _ _ _ _ _ _ _ _ _ _ _ _ _ _ _ _ _ Hr Em Er Ed) as (Hh' & tr' & over' & Hr').
  split; [simpl; by rewrite Hh'|]. eexists _, _. split; [exact Hr'|]. split; [done|].
  exists (over' ++ over). simpl. by rewrite <- app_assoc.
Qed.

End simulation.

(** ** What a client can do to a server *)

Create HintDb client.

(** A property of the server's state that no request breaks survives every
    command of the client. *)
Section commands.
Context `{FlatBuffers, Crypto, Kem, Messages, Tables, Serde, JsonPrint, ClientText} {S : Type}.
Context (serve : HttpRequest → S → result string HttpResponse * S) (P : S → Prop).
Context (Hserve : ∀ request s, P s → P (serve request s).2).

Definition keeps {A} (m : M S A) : Prop := ∀ s, P s → P (m s).2.

Lemma keeps_pure {A} (o : option (result string A)) : keeps (λ s, (o, s)).
Proof. by intros s Hs. Qed.

Lemma keeps_bind {A B} (m : M S A) (k : A → M S B) : keeps m → (∀ x, keeps (k x)) → keeps (bind m k).
Proof.
  intros Hm Hk s Hs. unfold bind. pose proof (Hm s Hs) as Hstep.
  destruct (m s) as [[[x|e]|] s1]; [by apply Hk|done..].
Qed.

Lemma keeps_exchange request : keeps (exchange serve request).
Proof.
  intros s Hs. unfold exchange. pose proof (Hserve request s Hs) as Hstep. by destruct (serve request s).
Qed.

Hint Resolve keeps_pure keeps_exchange : client.
Hint Extern 1 (keeps (bind _ _)) => apply keeps_bind; [|intros ?] : client.
Hint Extern 1 (keeps (ret _)) => apply keeps_pure : client.
Hint Extern 1 (keeps (fail _)) => apply keeps_pure : client.
Hint Extern 1 (keeps panic) => apply keeps_pure : client.
Hint Extern 1 (keeps (lift _)) => apply keeps_pure : client.
Hint Extern 1 (keeps (lift_panic _)) => apply keeps_pure : client.
Hint Extern 2 (keeps (if ?b then _ else _)) => destruct b : client.
Hint Extern 2 (keeps (match ?x with _ => _ end)) => destruct x : client.

Lemma keeps_fetch c : keeps (fetch_machine_public_key serve c).
Proof.
  unfold fetch_machine_public_key. apply keeps_bind; [|intros resp; auto 10 with client].
  intros s Hs. pose proof (Hserve {| http_method := GET; http_url := base_url c +:+ "/api/v1/kem_pubkey";
    http_headers := ∅; http_sent := [] |} s Hs) as Hstep. by destruct (serve _ s).
Qed.

Lemma keeps_send sd c url payload ptype : keeps (send_encrypted_request serve sd c url payload ptype).
Proof. unfold send_encrypted_request, decode_body. auto 10 with client. Qed.

Lemma keeps_send_delete sd c url body : keeps (send_delete_request serve sd c url body).
Proof. unfold send_delete_request, decode_body. auto 10 with client. Qed.

Hint Resolve keeps_fetch keeps_send keeps_send_delete : client.

Lemma keeps_apply_nodes draws ts c text id nodes : keeps (apply_to_nodes serve draws ts c text id nodes).
Proof.
  revert draws. induction nodes as [|node nodes IH]; intros draws; cbn [apply_to_nodes]; [auto with client|].
  apply keeps_bind; [|intros _; apply IH]. unfold apply_to_node. auto 10 with client.
Qed.

Hint Resolve keeps_apply_nodes : client.

Lemma keeps_main command i operation_id sd draws ts : keeps (cli_main serve command i operation_id sd draws ts).
Proof.
  assert (∀ e, keeps (read_manifest (S:=S) i) ∧ ∀ j, keeps (identify (S:=S) i j e)) as Hread.
  { intros e. split; [unfold read_manifest|intros j; unfold identify]; auto 10 with client. }
  destruct command; cbn [cli_main]; apply keeps_bind; try (intros _; auto with client);
    (apply keeps_bind; [by apply (Hread "")|intros j; apply keeps_bind; [apply Hread|intros id]]).
  - unfold connect, cli_get_candidates, apply_to_candidates. auto 20 with client.
  - unfold connect. auto 20 with client.
Qed.

End commands.

(** ** An apply of the client *)

Section apply.
Context `{PeerIds, !Kademlia, !Swarm, !PeerParse, !PeerParseLaws, Serde, JsonPrint, FlatBuffersLaws} {CR : Crypto}
  {keypair : list byte → list byte → Prop} {CL : CryptoLaws keypair} {KM : Kem}
  {kem_pair : list byte → list byte → Prop} {KL : KemLaws kem_pair} {KP : KemPublic} `{TablesLaws, FloatDisplay, ClientText}.
Context {base : string} `{HL : !HttpLibrary} `{HLL : !HttpLibraryLaws base} {W : Type}.
Context (kem_keypair node_keys : result string (list byte * list byte)) (debug_assertions : bool).
Context (view : RuntimeEngine W → option (W → gmap string MockWorkload)) (services : nat → service).
Implicit Types (c : FlatbufferClient) (st : Served (W:=W)).

Abbreviation state_of st := (task_node (task (sys_node (srv_system st)))).
Abbreviation server := (http_serve kem_keypair node_keys debug_assertions view services).
Abbreviation dispatch := (dispatch kem_keypair node_keys debug_assertions view).

(** The client has its keys and that of the node behind [h]. *)
Record connected c (h : EnvelopeHandler) (npk pk ckem : list byte) : Prop := {
  con_base : trim_slashes (base_url c) = base;
  con_machine : machine_public_key c = Some npk;
  con_kem : kem_pair npk (kem_private_key h);
  con_keys : keypair pk (private_key c);
  con_public : client_public_key c = base64_encode pk;
  con_kem_public : kem_public_key c = ckem;
  con_kem_pair : kem_pair ckem (client_kem_private_key c);
  con_kem_some : ckem ≠ [];
  con_kem_parses : ml_kem_public_from_bytes ckem = Ok ();
}.

(** A server with this handler that has not seen these nonces of the client. *)
Definition serves_fresh (h : EnvelopeHandler) (nonces : list string) st : Prop :=
  envelope_handler (sys_rest (srv_system st)) = h ∧ NoDup nonces ∧
  ∀ n, n ∈ nonces → seen_at (NONCE_STORE (state_of st)) CLI_PEER n = None.

(** A send whose draws are those of the code. *)
Definition sendable (sd : send_draws) : Prop :=
  length (sd_aes_nonce sd) = 12%nat ∧ in_u 64 (sd_now' sd / 1000000000).

Definition client_meta (pk ckem : list byte) : EnvelopeMetadata :=
  {| signing_pubkey := pk; kem_pubkey := ckem; meta_peer_id := Some CLI_PEER |}.

(** The server after a request of the client with this nonce. *)
Definition after (nonce : string) (msgs : list Libp2pControl) st : Served (W:=W) :=
  let nonces := (check_and_insert_nonce_for_peer (at_time (services (srv_count st))) nonce (from_secs 300)
                   CLI_PEER (NONCE_STORE (state_of st))).2 in
  {| srv_system := set_served (sys_rest (srv_system st)) (set_nonces nonces (state_of st)) (srv_system st);
     srv_channel := srv_channel st ++ msgs; srv_count := S (srv_count st) |}.

Lemma after_fresh h nonce nonces msgs st :
  nonce ≠ "" → serves_fresh h (nonce :: nonces) st → serves_fresh h nonces (after nonce msgs st).
Proof.
  intros Hn (Hh & [Hnin Hnd]%NoDup_cons & Hseen). split; [done|]. split; [done|]. intros n Hin. simpl.
  rewrite (check_seen_at _ _ _ _ _ _ (check_unseen _ _ _ _ _ Hn (Hseen nonce ltac:(by left)))).
  rewrite decide_False by naive_solver. rewrite decide_True by done. by rewrite (Hseen n) by by right.
Qed.

(** A request of the client reaches the handler of its path. *)
Lemma client_posts c h npk pk ckem sd segments ep payload ptype nonces st :
  connected c h npk pk ckem → sendable sd → serves_fresh h (clock_nonce (sd_now sd) :: nonces) st →
  Forall plain_segment segments → route POST segments = Some ep → Z.of_nat (length payload) ≤ BODY_LIMIT →
  ∃ envelope, request_envelope sd c payload ptype = Ok envelope ∧
    ∀ response msgs,
      (∀ node, dispatch (services (srv_count st)) ep ∅ (client_meta pk ckem) (Some payload)
         (task_control (task (sys_node (srv_system st)))) (sys_rest (srv_system st)) node =
         (Some response, msgs, sys_rest (srv_system st), node)) →
      server {| http_method := POST; http_url := base +:+ path_text segments; http_headers := client_headers;
                http_sent := envelope |} st =
        (Ok response, after (clock_nonce (sd_now sd)) msgs st).
Proof.
  intros [Hb Hm Hkem Hk Hpk Hck Hckem Hne Hparse] [Hl Hu] (Hh & _ & Hseen) Hseg Hroute Hlen.
  destruct (request_accepted (at_time (services (srv_count st))) h client_headers (sd_seed sd) (sd_aes_nonce sd)
    (sd_now sd) (sd_now' sd) payload ptype npk pk (private_key c) CLI_PEER ckem (NONCE_STORE (state_of st)))
    as (envelope & Henv & Hmid); try done.
  { unfold BODY_LIMIT in Hlen. lia. }
  { apply Hseen. by left. }
  exists envelope. split; [unfold request_envelope; by rewrite Hm, Hpk, Hck|].
  intros response msgs Hd. unfold http_serve. cbn [http_url http_headers http_sent http_method].
  rewrite url_target_path by done. rewrite Hh, Hmid, Hroute, Hd. done.
Qed.

(** A request that changes nothing but the count. *)
Definition after_read st : Served (W:=W) :=
  {| srv_system := set_served (sys_rest (srv_system st)) (set_nonces (NONCE_STORE (state_of st)) (state_of st)) (srv_system st);
     srv_channel := srv_channel st; srv_count := S (srv_count st) |}.

Lemma after_read_fresh h nonces st : serves_fresh h nonces st → serves_fresh h nonces (after_read st).
Proof. done. Qed.

(** The client fetches the key of the node. *)
Lemma key_served npk nsk st : kem_keypair = Ok (npk, nsk) →
  server {| http_method := GET; http_url := base +:+ "/api/v1/kem_pubkey"; http_headers := ∅; http_sent := [] |} st =
    (Ok (respond_text (base64_encode npk)), after_read st).
Proof.
  intros Hkey. unfold http_serve. cbn [http_url http_headers http_sent http_method].
  rewrite (url_target_path ["api"; "v1"; "kem_pubkey"]) by (by repeat constructor).
  unfold envelope_middleware, header_text. cbn [headers request_body]. rewrite lookup_empty.
  rewrite decide_False by done. cbn. by rewrite Hkey, app_nil_r.
Qed.

Lemma client_fetches c npk nsk st :
  base_url c = base → kem_keypair = Ok (npk, nsk) → utf8_string (base64_encode npk) →
  starts_with "ERROR:" (base64_encode npk) = false →
  fetch_machine_public_key server c st =
    (Some (Ok {| base_url := base_url c; private_key := private_key c; client_public_key := client_public_key c;
                 kem_public_key := kem_public_key c; client_kem_private_key := client_kem_private_key c;
                 machine_public_key := Some npk |}), after_read st).
Proof.
  intros Hb Hkey Hutf Hstart. unfold fetch_machine_public_key, bind at 1. rewrite Hb, (key_served _ _ _ Hkey).
  unfold response_text. cbn -[starts_with]. rewrite (from_utf8_lossy_valid _ _ (from_utf8_as_bytes _ Hutf)).
  unfold bind, lift. cbn -[starts_with]. rewrite Hstart, base64_roundtrip. done.
Qed.

(** ** Candidates *)

Lemma parse_candidate_split reply p : parse_candidate reply = Some p → split_once ":" (p.1 +:+ ":" +:+ p.2) = Some p.
Proof.
  unfold parse_candidate. destruct (split_once ":" reply) as [[q k]|] eqn:E; [|done]. case_decide; [done|].
  intros [= <-]. simpl. rewrite <- E. by apply split_once_sound in E as ->.
Qed.

(** The client reads the candidates the node has parsed. *)
Lemma candidates_read responders :
  ∃ peers, parse_candidates_response (build_candidates_response_with_keys true (parse_candidates responders)) = Ok peers ∧
    parse_peers peers = Ok (parse_candidates responders).
Proof.
  unfold parse_candidates_response, build_candidates_response_with_keys. rewrite root_finish_candidates_response.
  eexists. split; [reflexivity|]. assert (Hall : Forall (λ p, split_once ":" (p.1 +:+ ":" +:+ p.2) = Some p) (parse_candidates responders)).
  { apply Forall_forall. intros p (reply & _ & Hp)%list_elem_of_omap. by eapply parse_candidate_split. }
  induction Hall as [|[p k] l Hp _ IH]; [done|]. cbn -[split_once] in *. rewrite Hp. cbn in IH. by rewrite IH.
Qed.

(** ** Requests *)

(** A request of the client that is answered with these bytes. *)
Lemma send_answered sd c url payload ptype envelope st st' body answer :
  request_envelope sd c payload ptype = Ok envelope →
  server {| http_method := POST; http_url := url; http_headers := client_headers; http_sent := envelope |} st =
    (Ok (success body), st') →
  read_response c body = Some answer →
  send_encrypted_request server sd c url payload ptype st = (Some (Ok answer), st').
Proof.
  intros He Hs Hread. unfold send_encrypted_request, bind at 1, lift. rewrite He.
  unfold bind at 1, exchange. rewrite Hs. simpl. unfold decode_body, bind, lift, lift_panic. simpl. by rewrite Hread.
Qed.

(** The draws of an encrypted answer. *)
Definition answerable (d : response_draws) : Prop :=
  length (draw_aes_nonce d) = 12%nat ∧ draw_uuid d ≠ "" ∧ in_u 64 (draw_now_ms d).

(** The node's own keys. *)
Definition signs_as (h : EnvelopeHandler) (spk ssk : list byte) : Prop :=
  keypair spk ssk ∧ signing_private_key h = Some ssk ∧ public_key h = base64_encode spk.

(** What a service needs to answer the client's query with these responders. *)
Record collects (e : service) (h : EnvelopeHandler) (meta : EnvelopeMetadata) (responders : list string) : Prop := {
  col_stops : collect_responders (query_fuel e) (log_enabled e) (query_turns e) 0 [] = Stop responders;
  col_draws : answerable (reply_draws e);
  col_short : Z.of_nat (length (build_candidates_response_with_keys true (parse_candidates responders))) < 2 ^ 32 - 16;
  col_long : (100 < length (response_body (create_response_for_envelope_metadata (reply_draws e) h
    (build_candidates_response_with_keys true (parse_candidates responders)) "candidates_response" meta)))%nat;
}.

Lemma client_queries c h npk pk ckem spk ssk sd id responders nonces st :
  connected c h npk pk ckem → signs_as h spk ssk → sendable sd → plain_segment id →
  serves_fresh h (clock_nonce (sd_now sd) :: nonces) st →
  collects (services (srv_count st)) h (client_meta pk ckem) responders →
  ∃ peers, parse_peers peers = Ok (parse_candidates responders) ∧
    cli_get_candidates server sd c id st =
      (Some (Ok peers), after (clock_nonce (sd_now sd))
        [candidates_query id (query_uuid (services (srv_count st))) (first_tx (services (srv_count st)))] st).
Proof.
  intros Hc (Hspk & Hssk & Hpub) Hsd Hid Hf [Hstop (Hl & Hu & Hts) Hshort Hlong].
  destruct (candidates_read responders) as (peers & Hpeers & Hparse). exists peers. split; [done|].
  destruct (client_posts c h npk pk ckem sd ["tasks"; id; "candidates"] (EpCandidates id) [] "candidates_request" nonces st)
    as (envelope & Henv & Hserve); try done; [repeat (constructor; [by first [exact Hid|split]|]); constructor|].
  destruct Hc as [Hb Hm Hkem Hk Hpk Hck Hckem Hne Hpar]. destruct Hf as (Hh & _ & _).
  unfold cli_get_candidates, bind at 1. rewrite Hb.
  erewrite (send_answered _ _ _ _ _ _ _ _ _ _ Henv); [|apply Hserve|]; cycle 1.
  - intros node. simpl. unfold with_body. rewrite extract_bytes_within by done. unfold get_candidates. rewrite Hstop. done.
  - unfold candidates_response. rewrite Hh. by eapply response_read; simpl; try done; rewrite Hm.
  - unfold lift. by rewrite Hpeers.
Qed.

(** ** Deployments *)

(** A candidate the client can send to: a peer, and the text of its key. *)
Definition usable (candidate : string * string) : Prop :=
  plain_segment candidate.1 ∧
  ∃ b npk nsk, candidate = (peer_to_string b, base64_encode npk) ∧ kem_pair npk nsk.

(** What the client draws for one node, and the length of what it sends. *)
Definition drawn (nd : node_draws) (ts : Z) (text id : string) (node : string * string) : Prop :=
  length (nd_aes_nonce nd) = 12%nat ∧ sendable (nd_send nd) ∧
  ∀ bytes, node_apply_request nd ts text id node.1 node.2 = Ok bytes → Z.of_nat (length bytes) ≤ BODY_LIMIT.

(** The message that carries a manifest to the node of a candidate: the request
    the client made for it, which the node's key opens. *)
Definition carries (nd : node_draws) (ts : Z) (text id : string) (candidate : string * string) (msg : Libp2pControl) : Prop :=
  ∃ b bytes tx, msg = SendApplyRequest b bytes tx ∧ peer_to_string b = candidate.1 ∧
    node_apply_request nd ts text id candidate.1 candidate.2 = Ok bytes ∧
    ∃ npk nsk request blob, candidate.2 = base64_encode npk ∧ kem_pair npk nsk ∧
      root_as_apply_request bytes = Some request ∧ ar_manifest_id request = Some id ∧
      ar_manifest_json request = Some blob ∧
      decrypt_manifest_content (Ok (npk, nsk)) blob = Some (Ok (as_bytes text)).

(** A manifest that fits. *)
Definition deployable (ts : Z) (text : string) : Prop :=
  Z.of_nat (length (as_bytes text)) < 2 ^ 32 - 16 ∧ in_u 64 ts ∧ utf8_string text.

Definition forwarded_body : list byte := apply_response_bytes true "forwarded" "Request forwarded successfully".

(** The answer is not taken for an encrypted one. *)
Definition plain_answer : Prop := (length forwarded_body ≤ 100)%nat ∨ root_as_envelope forwarded_body = None.

Lemma client_applies c h npk pk ckem nd ts text id node nonces st s :
  connected c h npk pk ckem → deployable ts text → usable node → drawn nd ts text id node →
  serves_fresh h (clock_nonce (sd_now (nd_send nd)) :: nonces) st →
  apply_answer (services (srv_count st)) = Received (Ok s) → plain_answer →
  ∃ msg, carries nd ts text id node msg ∧
    apply_to_node server nd ts c text id node st =
      (Some (Ok ()), after (clock_nonce (sd_now (nd_send nd))) [msg] st).
Proof.
  intros Hc (Hlt & Hts & Hutf) [Hplain (b & bpk & bsk & -> & Hbkem)] (Hl & Hsd & Hlen) Hf Hans Hshort. simpl in *.
  destruct (client_manifest_reaches_node nd ts text id (peer_to_string b) bpk bsk Hbkem Hl Hlt Hts Hutf)
    as (bytes & request & blob & Hreq & Hroot & Hblob & Hid & _ & Hdec).
  exists (SendApplyRequest b bytes (first_tx (services (srv_count st)))). split.
  { exists b, bytes. eexists. split_and!; [done..|]. by exists bpk, bsk, request, blob. }
  destruct (client_posts c h npk pk ckem (nd_send nd) ["apply_direct"; peer_to_string b]
    (EpApplyDirect (peer_to_string b)) bytes "apply_request" nonces st) as (envelope & Henv & Hserve); try done;
    [repeat (constructor; [by first [exact Hplain|split]|]); constructor|by apply Hlen|].
  unfold apply_to_node, bind at 1, lift. cbn [fst snd]. rewrite Hreq. unfold bind at 1. rewrite (con_base _ _ _ _ _ Hc).
  rewrite <- (string_app_nil_r (peer_to_string b)).
  rewrite (send_answered _ _ _ _ _ _ _ (after (clock_nonce (sd_now (nd_send nd)))
    [SendApplyRequest b bytes (first_tx (services (srv_count st)))] st) forwarded_body forwarded_body Henv).
  - unfold forwarded_body, apply_response_bytes. by rewrite root_finish_apply_response.
  - apply Hserve. intros node. simpl. unfold with_body. rewrite extract_bytes_within by by apply Hlen.
    unfold apply_direct. by rewrite peer_parse_string, Hans.
  - unfold read_response. case_decide as Hlong; [|done]. destruct Hshort as [Hle| ->]; [lia|done].
Qed.

(** The nonces of the requests for the nodes. *)
Definition node_nonces (draws : nat → node_draws) (n : nat) : list string :=
  (λ k, clock_nonce (sd_now (nd_send (draws k)))) <$> seq 0 n.

Lemma node_nonces_cons draws n :
  node_nonces draws (S n) = clock_nonce (sd_now (nd_send (draws 0%nat))) :: node_nonces (λ k, draws (S k)) n.
Proof. unfold node_nonces. simpl. by rewrite <- fmap_S_seq, <- list_fmap_compose. Qed.

(** The messages are those of the nodes, in order. *)
Definition all_carried (draws : nat → node_draws) (ts : Z) (text id : string) (nodes : list (string * string))
    (msgs : list Libp2pControl) : Prop :=
  length msgs = length nodes ∧
  ∀ k node, nodes !! k = Some node → ∃ msg, msgs !! k = Some msg ∧ carries (draws k) ts text id node msg.

Lemma client_applies_all c h npk pk ckem draws ts text id nodes st :
  connected c h npk pk ckem → deployable ts text → Forall usable nodes →
  (∀ k node, nodes !! k = Some node → drawn (draws k) ts text id node) →
  serves_fresh h (node_nonces draws (length nodes)) st →
  (∀ k, (k < length nodes)%nat → ∃ s, apply_answer (services (srv_count st + k)) = Received (Ok s)) →
  plain_answer →
  ∃ msgs st', apply_to_nodes server draws ts c text id nodes st = (Some (Ok ()), st') ∧
    srv_channel st' = srv_channel st ++ msgs ∧ all_carried draws ts text id nodes msgs.
Proof.
  intros Hc Hd Hus Hdr Hf Hans Hshort. revert draws st Hdr Hf Hans.
  induction Hus as [|node nodes Hu Hus IH]; intros draws st Hdr Hf Hans; cbn [apply_to_nodes].
  { exists [], st. split_and!; [done|by rewrite app_nil_r|by split]. }
  cbn [length] in *. rewrite node_nonces_cons in Hf. destruct (Hans 0%nat) as [s Hs]; [lia|]. rewrite Nat.add_0_r in Hs.
  destruct (client_applies c h npk pk ckem (draws 0%nat) ts text id node _ st s Hc Hd Hu (Hdr 0%nat node eq_refl) Hf Hs Hshort)
    as (msg & Hmsg & Hstep).
  destruct (IH (λ k, draws (S k)) (after (clock_nonce (sd_now (nd_send (draws 0%nat)))) [msg] st))
    as (msgs & st' & Hrun & Hch & Hlen & Hcar).
  - intros k n Hn. by apply (Hdr (S k)).
  - eapply after_fresh; [apply clock_nonce_nonempty|done].
  - intros k Hk. destruct (Hans (S k)) as [s' Hs']; [lia|]. exists s'. simpl. by rewrite <- Hs', Nat.add_succ_r.
  - exists (msg :: msgs), st'. unfold bind. rewrite Hstep. split_and!.
    + exact Hrun.
    + rewrite Hch. simpl. by rewrite <- app_assoc.
    + split; [simpl; by rewrite Hlen|]. intros [|k] n Hn; [|by apply Hcar]. injection Hn as <-. by exists msg.
Qed.

(** ** The whole command *)

Lemma all_unreserved_app s t : all_unreserved (s +:+ t) = all_unreserved s && all_unreserved t.
Proof.
  induction s as [|a s IH]; [done|]. change (String a s +:+ t) with (String a (s +:+ t)). cbn [all_unreserved].
  by rewrite IH, andb_assoc.
Qed.

Lemma hex_digit_unreserved n : 0 ≤ n < 16 → unreserved (hex_digit n) = true.
Proof.
  intros Hn. destruct n as [|p|p]; [reflexivity| |lia].
  do 4 (destruct p as [p|p|]; [..|reflexivity]); lia.
Qed.

Lemma hex_go_unreserved fuel n acc : all_unreserved acc = true → all_unreserved (hex_go fuel n acc) = true.
Proof.
  revert n acc. induction fuel as [|fuel IH]; intros n acc Hacc; [done|]. cbn [hex_go].
  assert (Hs : all_unreserved (String (hex_digit (n mod 16)) acc) = true).
  { cbn [all_unreserved]. rewrite Hacc, hex_digit_unreserved; [done|]. by apply Z.mod_pos_bound. }
  case_decide; [done|by apply IH].
Qed.

(** The identifier of a manifest is a segment of a path as it is. *)
Lemma hex16_plain h : plain_segment (hex16 h).
Proof.
  split; [intros Heq; pose proof (hex16_length h) as Hl; by rewrite Heq in Hl|].
  unfold hex16. rewrite all_unreserved_app. apply andb_true_iff. split; [|by apply hex_go_unreserved].
  by induction (16 - String.length (lower_hex h))%nat.
Qed.

(** What is read by an invocation of [apply] that can go through. *)
Record invokes (i : invocation) (manifest : json) (text name : string) (pk ckem : list byte) : Prop := {
  invoke_file : ∃ contents, inv_file i = FileText contents ∧
    manifest = default (JObject [("raw", JString contents)]) (json_from_yaml contents);
  invoke_name : extract_manifest_name_from_json manifest = Some name;
  invoke_text : json_to_string manifest = Some text;
  invoke_pqc : inv_pqc_init i = Ok ();
  invoke_keys : ∃ sk, inv_keypair i = Ok (pk, sk) ∧ keypair pk sk;
  invoke_kem : ∃ sk, inv_kem_keypair i = Ok (ckem, sk) ∧ kem_pair ckem sk;
  invoke_kem_some : ckem ≠ [];
  invoke_kem_parses : ml_kem_public_from_bytes ckem = Ok ();
  invoke_base : api_base_url i = base;
  invoke_log : inv_log_debug i = false ∨ (8 ≤ length pk)%nat;
}.

(** A node whose keys the client can read and use. *)
Record reachable (h : EnvelopeHandler) (npk : list byte) : Prop := {
  reach_kem : ∃ nsk, kem_keypair = Ok (npk, nsk);
  reach_pair : kem_pair npk (kem_private_key h);
  reach_text : utf8_string (base64_encode npk);
  reach_no_error : starts_with "ERROR:" (base64_encode npk) = false;
  reach_signs : ∃ spk ssk, signs_as h spk ssk;
}.

Lemma client_connects i manifest text name pk ckem h npk st :
  invokes i manifest text name pk ckem → reachable h npk → trim_slashes base = base →
  ∃ c, connected c h npk pk ckem ∧ connect server i st = (Some (Ok c), after_read st).
Proof.
  intros [_ _ _ Hpqc (sk & Hkeys & Hk) (csk & Hckem & Hcp) Hne Hparse Hbase _] [(nsk & Hn) Hp Hutf Herr _] Htrim.
  unfold connect, bind, lift, FlatbufferClient_new. rewrite Hpqc, Hkeys, Hckem. simpl.
  erewrite client_fetches; [|exact Hbase|exact Hn|done|done]. eexists. split; [|done].
  split; simpl; try done. by rewrite Hbase.
Qed.

(** The services of the node over the run of the command: the key is read, the
    candidates are collected, each request is forwarded and answered. *)
Record cooperates (st : Served (W:=W)) (h : EnvelopeHandler) (meta : EnvelopeMetadata) (responders : list string) (replicas : nat) : Prop := {
  coop_collects : collects (services (S (srv_count st))) h meta responders;
  coop_usable : Forall usable (parse_candidates responders);
  coop_some : parse_candidates responders ≠ [];
  coop_enough : (replicas ≤ length (parse_candidates responders))%nat;
  coop_answers k : (k < replicas)%nat → ∃ s, apply_answer (services (S (S (srv_count st)) + k)) = Received (Ok s);
}.

Lemma identified i manifest text name pk ckem missing st :
  invokes i manifest text name pk ckem →
  identify (S := Served (W:=W)) i manifest missing st =
    (Some (Ok (hex16 (default_hash (hash_bytes pk ++ hash_str name)))), st).
Proof.
  intros [_ Hname _ _ (sk & Hkeys & _) _ _ _ _ Hlog]. unfold identify, bind, lift. rewrite Hkeys, Hname.
  cbn [ok_or fst]. rewrite client_manifest_id_Some. rewrite decide_False; [done|]. intros [Hd Hl].
  destruct Hlog as [Hf|Hf]; [congruence|lia].
Qed.

(** C18: [apply] against a node goes through. When the node answers, it has
    collected enough usable candidates, and the nonces are new, the whole command
    succeeds with the client's identifier of the manifest; the node has queued one
    capacity query and then, in order, one request per replica for the first
    candidates, and each request is one that the key of its candidate opens to
    the client's text. *)
Theorem client_apply_succeeds i manifest text name pk ckem h npk sd draws ts responders st :
  let id := hex16 (default_hash (hash_bytes pk ++ hash_str name)) in
  let replicas := Z.to_nat (manifest_replicas manifest) in
  let e := services (S (srv_count st)) in
  trim_slashes base = base → plain_answer →
  invokes i manifest text name pk ckem → reachable h npk → deployable ts text → sendable sd →
  serves_fresh h (clock_nonce (sd_now sd) :: node_nonces draws replicas) st →
  cooperates st h (client_meta pk ckem) responders replicas →
  (∀ k node, (k < replicas)%nat → node ∈ parse_candidates responders → drawn (draws k) ts text id node) →
  ∃ nodes msgs st', apply_file server i sd draws ts st = (Some (Ok id), st') ∧
    nodes.*1 = take replicas (parse_candidates responders).*1 ∧ nodes ⊆ parse_candidates responders ∧
    srv_channel st' = srv_channel st ++ candidates_query id (query_uuid e) (first_tx e) :: msgs ∧
    all_carried draws ts text id nodes msgs.
Proof.
  intros id replicas e Htrim Hshort Hi Hn Hd Hsd Hf [Hcol Hus Hsome Henough Hans] Hdr.
  destruct (client_connects _ _ _ _ _ _ _ _ st Hi Hn Htrim) as (c & Hc & Hconn).
  pose proof Hn as [_ _ _ _ (spk & ssk & Hs)].
  destruct (client_queries c h npk pk ckem spk ssk sd id responders _ (after_read st) Hc Hs Hsd
    (hex16_plain _) (after_read_fresh _ _ _ Hf) Hcol) as (peers & Hparse & Hquery). simpl in Hquery. fold e in Hquery.
  assert (Hlen : length peers = length (parse_candidates responders)) by (symmetry; by apply parse_peers_length).
  destruct (select_nodes_ok (parse_candidates responders) replicas Hsome Henough) as (nodes & Hsel & Hnodes & Hsub).
  { pose proof (manifest_replicas_u64 manifest) as Hu. unfold replicas. u_lia. }
  assert (Hnl : length nodes = replicas).
  { apply (f_equal length) in Hnodes. rewrite length_take, !length_fmap in Hnodes. lia. }
  destruct (client_applies_all c h npk pk ckem draws ts text id nodes (after (clock_nonce (sd_now sd))
    [candidates_query id (query_uuid e) (first_tx e)] (after_read st))) as (msgs & st' & Hrun & Hch & Hall); try done.
  - apply Forall_forall. intros node Hin. rewrite Forall_forall in Hus. by apply Hus, Hsub.
  - intros k node Hk. apply Hdr; [rewrite <- Hnl; by eapply lookup_lt_Some|]. by eapply Hsub, list_elem_of_lookup_2.
  - rewrite Hnl. eapply after_fresh; [apply clock_nonce_nonempty|by apply after_read_fresh].
  - rewrite Hnl. exact Hans.
  - exists nodes, msgs, st'. split_and!; try done; [|by rewrite Hch; simpl; rewrite <- app_assoc].
    pose proof Hi as [(contents & Hfile & Hman) _ Htext _ _ _ _ _ _ _].
    unfold apply_file, bind at 1, read_manifest. rewrite Hfile. unfold ret at 1. rewrite <- Hman.
    unfold bind at 1. rewrite (identified _ _ _ _ _ _ _ _ Hi). unfold bind at 1. rewrite Hconn.
    unfold bind at 1. fold id. rewrite Hquery. unfold apply_to_candidates. fold replicas.
    rewrite decide_False by (intros ->; by destruct (parse_candidates responders)). rewrite decide_False by lia.
    unfold bind, lift, lift_panic. rewrite Hparse, Hsel, Htext. simpl. by rewrite Hrun.
Qed.

End apply.

(** ** Theorems *)

Section properties.
Context `{PeerIds, !Kademlia, !Swarm, !PeerParse, Serde, JsonPrint, FlatBuffers, Crypto, Kem, KemPublic, Messages,
  !MessagesLaws, Tables, FloatDisplay, ClientText} `{HttpLibraryLaws} {W : Type}.
Context (config : PeerId → NodeConfig (W:=W)) (view : RuntimeEngine W → option (W → gmap string MockWorkload)).
Implicit Types (st : Served (W:=W)).

(** C10: whatever command a client runs against a node of a mesh, and whatever
    the node draws and is answered meanwhile, the node ends in a state the mesh
    can reach, with what it has put on its channel; so the invariants of the mesh
    hold of it: it has not promised more than it has, and no manifest has an
    empty owner. *)
Theorem client_runs_in_mesh p m0 ms w services command i operation_id sd draws ts st :
  mesh_start m0 → runs_as config p m0 ms w st →
  let st' := (cli_main (http_serve (nc_kem_keypair (config p)) (nc_node_keys (config p))
    (nc_debug_assertions (config p)) view services) command i operation_id sd draws ts st).2 in
  let node := task_node (task (sys_node (srv_system st'))) in
  runs_as config p m0 ms w st' ∧ no_overcommit (RESOURCE_VERIFIER node) ∧
  ∀ id, get_manifest_owner id node ≠ Some [].
Proof.
  intros Hs Hr st' node. assert (Hst : runs_as config p m0 ms w st').
  { apply keeps_main; [|done]. intros request s Hrun.
    eapply serve_simulated; [exact Hrun|apply surjective_pairing]. }
  split; [done|]. destruct Hst as (_ & tr & mem & Hreach & _ & over & Hmem).
  pose proof (mesh_member_ok _ _ _ _ _ _ Hs Hreach (lookup_insert_eq _ _ _)) as [((Hv & Ho) & _) _ _ _ _].
  rewrite Hmem in Hv, Ho. split; [by destruct Hv as (_ & _ & ?)|]. intros id Hid. by apply (Ho id []).
Qed.

End properties.

(** ** Concrete runs *)

(** A URL library that splits at slashes, with the limit of the extractor. *)
Module ToyHttp.

Definition toy_base : string := "http://127.0.0.1:3000".

Fixpoint cut_slashes (s : string) : string * list string :=
  match s with
  | EmptyString => ("", [])
  | String a s =>
      let '(first, rest) := cut_slashes s in
      if decide (a = "/"%char) then ("", first :: rest) else (String a first, rest)
  end.

#[export] Instance http : HttpLibrary := {
  url_target url := (match strip_prefix toy_base url with Some path => (cut_slashes path).2 | None => [] end, ∅);
  extract_bytes body :=
    match body with
    | Some bytes => if decide (Z.of_nat (length bytes) ≤ BODY_LIMIT) then Ok bytes else Err 413
    | None => Err 400
    end;
}.

Lemma cut_segment s rest path : all_unreserved s = true → cut_slashes path = ("", rest) →
  cut_slashes (s +:+ path) = (s, rest).
Proof.
  intros Hs Hp. induction s as [|a s IH]; [done|]. cbn [all_unreserved] in Hs. apply andb_true_iff in Hs as [Ha Hs].
  change (String a s +:+ path) with (String a (s +:+ path)). cbn [cut_slashes]. rewrite IH by done.
  rewrite decide_False; [done|]. by intros ->.
Qed.

Lemma cut_path segments : Forall plain_segment segments → cut_slashes (path_text segments) = ("", segments).
Proof.
  induction 1 as [|s segments [_ Hs] _ IH]; [done|]. cbn [path_text].
  change ("/" +:+ ?t) with (String "/"%char t). cbn [cut_slashes]. by rewrite (cut_segment s segments _ Hs IH).
Qed.

#[export] Instance http_laws : HttpLibraryLaws toy_base.
Proof.
  split.
  - intros segments Hs. unfold url_target, http. rewrite strip_prefix_app, cut_path by done. done.
  - intros [body|] bytes; simpl; [|done]. case_decide; [by intros [= ->]|done].
  - intros body Hb. simpl. by rewrite decide_True.
Qed.

End ToyHttp.

Section witnesses.
Import Toy ToyTables ToyKemPublic ToyRest ToyHttp.

#[local] Existing Instance mesh_messages.
#[local] Existing Instance mesh_messages_laws.
#[local] Existing Instance mesh_tables_laws.
#[local] Existing Instance demo_text.
#[local] Existing Instance demo_print.

Abbreviation A := (toy_peer x07).

(** Two nodes offer themselves. *)
Definition demo_offers (n : nat) : turn :=
  {| elapsed := Z.of_nat n;
     received := match n with
                 | O => Received ("peer-7:" +:+ base64_encode [x01])
                 | 1%nat => Received ("peer-8:" +:+ base64_encode [x02])
                 | _ => TimedOut
                 end |}.
Definition demo_responders : list string := ["peer-7:" +:+ base64_encode [x01]; "peer-8:" +:+ base64_encode [x02]].

Definition demo_service (n : nat) : service :=
  {| at_time := 1; at_ms := 1; at_clock := λ _, 1; reply_draws := demo_draws; new_task_draws := demo_task_draws;
     query_uuid := "u"; log_enabled := false; query_fuel := 5; query_turns := demo_offers; first_tx := n;
     apply_answer := Received (Ok "ok"); delete_waits := {| holders := TimedOut; local_peer := TimedOut; peer_answer := λ _, TimedOut |};
     dht_answer := TimedOut; local_answer := TimedOut |}.

Definition demo_served : Served (W := gmap string MockWorkload) :=
  {| srv_system := ready; srv_channel := []; srv_count := 0 |}.

Definition node_draws_at (n : nat) : node_draws :=
  {| nd_uuid := "op"; nd_seed := [x05]; nd_aes_nonce := replicate 12 x07;
     nd_send := {| sd_seed := [x05]; sd_aes_nonce := replicate 12 x07; sd_now := 10 + Z.of_nat n;
                   sd_now' := 9; sd_nonce := [] |} |}.

Abbreviation demo_server := (http_serve (nc_kem_keypair (demo_config A)) (nc_node_keys (demo_config A))
  (nc_debug_assertions (demo_config A)) (λ _, None) demo_service).

Lemma client_runs_in_mesh_witness :
  runs_as demo_config A (lone ready []) ∅ []
    (cli_main demo_server Apply demo_invocation "op" demo_send node_draws_at 3 demo_served).2.
Proof.
  refine (proj1 (client_runs_in_mesh demo_config (λ _, None) A (lone ready []) ∅ [] demo_service Apply demo_invocation "op"
    demo_send node_draws_at 3 demo_served lone_start _)).
  split; [reflexivity|]. exists [], {| m_system := ready; m_channel := [] |}.
  split; [apply mesh_reach_init|]. split; [reflexivity|]. exists []. reflexivity.
Defined.

Definition web_id : string := hex16 (default_hash (hash_bytes [x0a] ++ hash_str "web")).
Definition web_manifest : json :=
  JObject [("metadata", JObject [("name", JString "web")]); ("replicas", JNumber "2")].

(** What a node is sent fits the body extractor. *)
Lemma demo_drawn k node : node ∈ parse_candidates demo_responders → drawn (node_draws_at k) 3 "{}" web_id node.
Proof.
  intros Hin. split; [reflexivity|]. split; [split; [reflexivity|by apply (bool_decide_unpack _)]|].
  assert (Hlen : match node_apply_request (node_draws_at 0) 3 "{}" web_id node.1 node.2 with
                 | Ok bytes => Z.of_nat (length bytes) <=? BODY_LIMIT | Err _ => true end = true).
  { vm_compute in Hin. apply elem_of_cons in Hin as [->|Hin]; [vm_compute; reflexivity|].
    apply list_elem_of_singleton in Hin as ->. vm_compute. reflexivity. }
  intros bytes Hb. change (node_apply_request (node_draws_at 0) 3 "{}" web_id node.1 node.2 = Ok bytes) in Hb.
  rewrite Hb in Hlen. by apply Z.leb_le.
Qed.

Lemma client_apply_succeeds_witness :
  ∃ (nodes : list (string * string)) msgs st', apply_file demo_server demo_invocation demo_send node_draws_at 3 demo_served =
      (Some (Ok web_id), st') ∧ nodes.*1 = ["peer-7"; "peer-8"] ∧
    srv_channel st' = candidates_query web_id "u" 1 :: msgs ∧ length msgs = length nodes.
Proof.
  destruct (client_apply_succeeds (keypair := λ pk sk, pk = sk) (kem_pair := λ pk sk, pk = sk) (base := toy_base)
    (nc_kem_keypair (demo_config A)) (nc_node_keys (demo_config A)) (nc_debug_assertions (demo_config A)) (λ _, None)
    demo_service demo_invocation web_manifest "{}" "web" [x0a] [x0c] demo_handler [x01] demo_send node_draws_at 3
    demo_responders demo_served) as (nodes & msgs & st' & Hrun & Hnodes & _ & Hch & Hlen & _).
  - reflexivity.
  - right. vm_compute. reflexivity.
  - split; try reflexivity; [by exists "web"|by exists [x0a]|by exists [x0c]|discriminate|by left].
  - split; try reflexivity; [by exists [x01]|by exists [x0b], [x0b]].
  - split; [vm_compute; reflexivity|]. split; [by apply (bool_decide_unpack _)|vm_compute; reflexivity].
  - split; [reflexivity|by apply (bool_decide_unpack _)].
  - split; [reflexivity|]. split; [apply (bool_decide_unpack _); vm_compute; exact I|]. intros n _. reflexivity.
  - split.
    + split; [reflexivity|split; [reflexivity|split; [discriminate|by apply (bool_decide_unpack _)]]| |].
      * apply Z.ltb_lt. vm_compute. reflexivity.
      * apply Nat.ltb_lt. vm_compute. reflexivity.
    + repeat constructor; try discriminate; [exists A, [x01], [x01]|exists (toy_peer x08), [x02], [x02]]; by split.
    + discriminate.
    + apply Nat.leb_le. reflexivity.
    + intros k _. by exists "ok".
  - intros k node _. apply demo_drawn.
  - exists nodes, msgs, st'. split; [exact Hrun|]. split; [exact Hnodes|]. split; [exact Hch|exact Hlen].
Defined.

End witnesses.
